(* ===== verification/_CoqProject ===== *)
-Q . S2P
Prelude.v
Threads.v
Progs.v
GoStd.v
GoText.v
Lower.v
Conf.v
Panel.v
Counter.v
Traffic.v
CounterConc.v
Limiter.v
LimitConc.v
UserDiff.v
Task.v
Json5.v
Clock.v
Keys.v
Core.v
Selector.v
Host.v
XrayInbound.v
XrayCore.v
XrayNode.v
SingCore.v
SingNode.v
Sniff.v
Dispatcher.v
LinkConc.v
GeoLoader.v
Hy2Core.v
Hy2Config.v
PanelNode.v
PanelClient.v
NodeOptions.v
NodeAdd.v
Lego.v
Cert.v
Renewal.v
Controller.v
ControllerConc.v
EndToEnd.v
MonitorLinks.v
Daemon.v
Commands.v
Serve.v
