(* ===== verification/Prelude.v ===== *)
(** * V2bZ: a verified model of the node agent

    V2bZ runs the nodes of a proxy panel.  It asks the panel for each node's
    configuration and users, sets the nodes up in one of three proxy cores
    (xray-core, sing-box, hysteria2), limits speed, devices and destinations,
    and reports traffic and online devices back.  This development translates
    the agent's own Go code into Gallina, component by component, and proves
    what makes each component correct; where the code does not do what it
    means to, the theorem states what it does.

    ** Parts, files and sources (paths under src/)

    - Prelude: results of Go calls ([res]: value, error, panic), 64-bit
      integers, map iteration in an unspecified order ([RangeOrder]), sums,
      shared lemmas and tactics.
    - Threads: pools of goroutines with shared state, the rely-guarantee rule
      ([pool_invariant]), runs of one goroutine and of a schedule; tables of
      pointers ([ptr_wf]).
    - Progs: tasks as trees of atomic calls ([prog]), run alone ([prun]) or in a
      pool; a weakest precondition under interference ([safe]), which also
      knows the calls that a task has made ([makes_call]), and what a task
      promises the others ([guarantees]), joined by [pool_safe].
    - GoStd, GoText: the functions of strings, strconv, net, time and encoding
      that are used, UTF-8 and JSON string literals among them.  Lower:
      strings.ToLower by the table of Unicode, and how it agrees with TrimSpace.
    - Conf: conf/*.go, the configuration structs, their defaults and the
      UnmarshalJSON methods.
    - Panel: api/panel/node.go and user.go, the data the panel sends;
      common/format/user.go, the key of a user on a node.
    - Counter: common/counter, traffic counters as storages in a heap that the
      counter map and the connections share.  CounterConc: the same under
      concurrency, as step relations.
    - Traffic: the loop of GetUserTrafficSlice (core/*/user.go).
    - Limiter: limiter/*.go, the limiter a core asks about every connection;
      a registry maps tags to pointers, shared with the controllers.
      LimitConc: CheckLimit in many connections and GetOnlineDevice in the
      report task at once.
    - UserDiff: compareUserList of node/user.go, and its effect on the limiter.
    - Task: common/task, the periodic goroutines, as a step relation.
    - Json5: common/json5, comments and trailing commas of the configuration.
    - Core: core/interface.go, the interface of a core as a class ([CoreOps])
      with the contract a controller relies on ([NodeCore], [ReportFrame]), and
      the abstract core that only keeps the users of each node.
    - Selector: core/core.go and selector.go, several cores behind one
      interface; over cores that keep the contract it is itself an instance of
      it ([Selector_NodeCore]).
    - XrayCore, SingCore, Hy2Core: user management, traffic reports and hooks of
      core/xray, core/sing and core/hy2.
    - XrayInbound, XrayNode: core/xray/inbound.go; outbound.go, dns.go, xray.go
      and node.go: what a node becomes in xray-core, and AddNode, New, Start,
      Close.  SingNode: core/sing/node.go and sing.go, the same for sing-box.
      GeoLoader, Hy2Config: core/hy2/geoloader.go; config.go, serverConfig.go,
      node.go, hy2.go and logger.go, the same for hysteria2.  Host: the files
      and the environment they share.
    - Sniff: core/xray/app/dispatcher/sniffer.go and fakednssniffer.go, and the
      cached reader and the sniffing loop of default.go.  Dispatcher: the rest of
      default.go, getLink to routedDispatch, with common/rate.  LinkConc: getLink
      and DispatchLink in many connections at once, which open and hang up while
      DelUsers removes users, with the walk of CloseAll link by link.
    - PanelNode, PanelClient: api/panel, decoding of the node configuration and
      the client with its caches.
    - NodeOptions: node/options.go, local and panel certificate settings.
    - NodeAdd: from the panel's answer to a core; the three cores as one
      instance of [CoreOps].
    - Lego, Renewal, Cert: node/lego.go and cert.go, certificates.
    - Controller: node/controller.go, task.go, user.go and node.go, which tie all
      of this together over the interfaces [CoreOps], [PanelOps] and [Machine].
      ControllerConc: the monitor, report and renewal tasks as programs that
      connections and each other interrupt.
      EndToEnd: controller, xray core, dispatcher, limiter and panel client in
      one world.  MonitorLinks: the monitor while getLink opens connections.
    - Daemon: conf/conf.go, log.go and watch.go with cmd/server.go: loading the
      configuration, the watcher, the reload.
    - Clock, Keys, Commands: common/systime, common/crypt, common/exec and the
      other commands of cmd/.  Serve: cmd/server.go from the log to the signal,
      with the changes taken up in between, and the table of commands.

    A Go struct is a record, a method a function from its receiver to the new
    one; pointers that are shared (counter storages, limiters) live in explicit
    heaps.  Libraries that are not in src/ and the services of the operating
    system are type classes: HTTP ([HttpLib]), document decoding ([NodeDecoder],
    [ConfDecoder]), token buckets, regular expressions, X.509 and ACME
    ([CryptoLib], [AcmeLib]), files and clock ([Machine]), the handlers and
    builders of the proxy cores, sockets, databases and routing ([XrayConfLib],
    [SingBoxLib], [Hy2ConfLib], [RoutingLib], [SniffLib], ...).  Nothing is
    assumed of them except where a class states a law ([RangeOrder], [NodeCore],
    [ReportFrame], [MachineLaws], [ConfLaws], [ReaderSpec], [UDPPorts],
    [TCPPorts], [GeoFrame], [KeyLaws], [XrayUsers]: adding and removing a user
    through a user manager changes the users of that inbound and no other, and
    the [...Total] classes: a library returns) or a
    theorem a hypothesis.  A goroutine that the code starts is a value that its
    caller returns (the [Task] of [Dispatch]) or a step of a relation (Task,
    CounterConc, LimitConc, LinkConc, ControllerConc, MonitorLinks).  There a
    step is one call of a sync.Map, or one section under a mutex, with the local
    computation up to the next one, and in ControllerConc one call of the core,
    the panel's client or the limiter; [alone_refines], [opener_refines],
    [remover_refines] and [tasks_sequential] show that a goroutine that runs
    alone does what the sequential definition of the same code says.  Logging is
    left out; the texts of errors are given in English.

    ** What the theorems show

    - Limits: [CheckLimit_decision], [CheckLimit_rate], [GetOnlineDevice_report]
      say exactly who is rejected, at which rate the others run and which
      devices are reported.  [dynamic_limit_ignored],
      [dynamic_expiry_locks_out] and [device_readmission] are consequences the
      code does not intend.  Under concurrency, [bucket_agree],
      [accepted_recorded] and [reported_used] are what remains true;
      [device_limit_race] and [report_loses_device] are what does not.
    - Traffic: [traffic_accounting], [conn_counts_buffers],
      [unwrapped_copy_counts],
      [traffic_slice_exact], [traffic_slice_conserves], [GetCounter_agree],
      [race_accounting] and [ReportUserTraffic_exact] follow the bytes from a
      connection to the report, and [carried_bytes_reported] states the whole
      way at once, from the link of a connection to what is posted to the
      panel, above the node's threshold and below it; [conn_Read_overwrites], [race_loses], [first_counter_lost] and
      [removed_traffic_unreported] show where bytes are lost.
    - Users: [compareUserList_exact], [UpdateUser_refines_AddLimiter],
      [monitor_users_sync] keep core and limiter in step with the panel as long
      as the core takes the monitor's calls; a list that it refuses is not
      tried again ([refused_list_not_retried]).
      [monitor_sync_among_tasks] and, with the xray core's own connections,
      [monitor_sync_among_links] show that report tasks and connections do not
      disturb it; a second round of the monitor does ([two_rounds_out_of_step]),
      and so does the renewal of the certificate ([renewal_undoes_round]);
      [Selector_users_contract], [Xray_users_contract] (the users of a node are
      those of the inbound's user manager), [Xray_DelUsers_forgets],
      [Hy2_DelUsers_every_node] are the cores' side.
      [removed_user_locked_out] follows a user whom the panel drops through
      all of it, for a round that runs alone on an unchanged node: he loses his
      connections and can open no more.
      [named_reload_locks_out], [sing_DelUsers_other_node],
      [hy2_reload_keeps_removed_user] and [hy2_removed_connection_goes_on] are
      where the step is lost.
    - Nodes: [monitor_reload_exact], [Selector_AddNode_routes],
      [parse_routes_exact], [effective_cert_source], [node_change_lost],
      [failed_start_close_panics], [report_task_exact].
    - Setting a node up: [GetNodeInfo_typed] is what the panel client promises the
      cores, [panel_node_added] that xray and hysteria2 need no more, and on
      which answers sing panics.
      [buildInbound_exact], [buildInbound_rebuild], [getInboundOptions_exact],
      [trojan_fallbacks_exact], [getQUICConfig_exact], [masquerade_status],
      [dest_json_roundtrip], [extract_format_roundtrip],
      [reality_MaxTimeDiff_bounds], [bandwidth_bounds] say what is configured,
      [Xray_AddNode_frame], [Sing_AddNode_frame], [Hy2_AddNode_frame] what else
      changes, [cores_agree_on_security] that two cores do the same.
      [dns_errors_lost], [bad_dns_accepted_second_time],
      [v2ray_transport_panics_iff], [failed_node_keeps_port],
      [masquerade_node_cannot_return] are consequences not intended.
      [LoadGeo_fallback]: a database survives a failed download.
    - Connections: [getLink_metered], [getLink_refused], [dispatch_target],
      [routedDispatch_sound] and, across the dispatcher and the user
      management, [removed_user_is_cut], and under concurrency
      [registered_link_is_cut] and [counted_in_table]; [first_link_escapes] and
      [late_link_escapes] are the connections that get away.  [sniffer_results] and
      [cached_reader_lossless] for sniffing; [routed_connection_spec],
      [hy2_over_limit_hits_next_traffic] for the other cores.
    - Service: [Watch_exact], [reloads_spaced], [broken_file_ends_service],
      [failed_reload_fatal], [exit_closes_first_core], [windows_clock_in_zone],
      [service_commands_truthful], [uninstall_ignores_answer];
      [GenX25519Private_clamped] and [aes_roundtrip] for keys.
    - Certificates: [requestCert_truthful], [RenewCert_exact];
      [own_certificate_kept] is what escapes the test for self-signed
      certificates.
    - Tasks: [task_close_safe], [task_restart_duplicates].
    - Configuration text: [prep_terminates], [prep_strip], [ReadAll_prep],
      [block_comment_two_stars].

    ** Bounds and fuel

    Integers are 64 bits wide and wrap ([wrap64]).  The loops of Json5 take fuel,
    and [prep_terminates] shows that the length of the buffer and a constant are
    enough; trimming and replacing in strings take the length of the string,
    since every step removes a byte; the sniffing loop takes fuel, and
    [sniffer_results] shows that two turns are enough, since no sniffer asks for
    more data.  All other recursion is structural.  Ports, windows and
    durations have the widths of their Go types ([wrapu16], [wrapu32],
    [wrapu64]).

    ** Not modelled

    Blank imports (core/imports, core/xray/distro) and protobuf output
    (config.pb.go).  The libraries' own code, cobra's among it, is a parameter
    throughout.  Two reloads of the configuration are not interleaved with each
    other, nor are the unsynchronised accesses to plain Go maps (AliveList and
    UUIDtoUID of the limiter, the links of a manager in CloseAll), whose outcome
    Go leaves open. *)

From stdpp Require Import prelude gmap strings pretty list fin_maps.
From Stdlib Require Import Lia ZArith.

#[global] Set Default Proof Using "Type".

Declare Scope go_scope.
Delimit Scope go_scope with go.

(** ** Results of a Go call

    [Ok a]: the call returned [a] and a nil error; [Err e]: it returned the
    error [e]; [Panic]: it panicked (nil dereference, index out of range,
    close of a closed channel, ...), which the program does not recover. *)
Inductive res (E A : Type) : Type :=
| Ok (a : A)
| Err (e : E)
| Panic (why : string).
Arguments Ok {E A} a.
Arguments Err {E A} e.
Arguments Panic {E A} why.

#[global] Instance res_ret E : MRet (res E) := λ A a, Ok a.
#[global] Instance res_bind E : MBind (res E) := λ A B f m,
  match m with Ok a => f a | Err e => Err e | Panic w => Panic w end.

Definition is_ok {E A} (r : res E A) : bool :=
  match r with Ok _ => true | _ => false end.

Definition no_panic {E A} (r : res E A) : Prop :=
  match r with Panic _ => False | _ => True end.

#[global] Instance no_panic_dec {E A} (r : res E A) : Decision (no_panic r).
Proof. destruct r; apply _. Defined.

Lemma bind_ok {E A B} (f : A → res E B) a : (Ok a ≫= f) = f a.
Proof. done. Qed.

Lemma bind_Ok_inv {E A B} (m : res E A) (f : A → res E B) b :
  (m ≫= f) = Ok b → ∃ a, m = Ok a ∧ f a = Ok b.
Proof. destruct m; [eauto | done | done]. Qed.

Lemma bind_Err {E A B} (m : res E A) (f : A → res E B) e :
  (m ≫= f) = Err e → m = Err e ∨ ∃ a, m = Ok a ∧ f a = Err e.
Proof. destruct m; simpl; [eauto|intros [= ->]; by left|done]. Qed.

(** [fmt.Errorf] around an error. *)
Definition map_err {E F A} (f : E → F) (r : res E A) : res F A :=
  match r with Ok a => Ok a | Err e => Err (f e) | Panic w => Panic w end.

Lemma map_err_Ok {E F A} (f : E → F) (r : res E A) a : map_err f r = Ok a ↔ r = Ok a.
Proof. destruct r; naive_solver. Qed.

(** Reading through a pointer that may be nil. *)
Definition nil_pointer {E A} : res E A := Panic "nil pointer dereference".
Definition deref {E A} (o : option A) : res E A :=
  match o with Some a => Ok a | None => nil_pointer end.

Lemma deref_Ok {E A} (o : option A) a : (deref o : res E A) = Ok a ↔ o = Some a.
Proof. destruct o; naive_solver. Qed.

(** The lemmas that show that a call returns. *)
Create HintDb no_panic.

Lemma no_panic_bind {E A B} (m : res E A) (f : A → res E B) :
  no_panic m → (∀ a, m = Ok a → no_panic (f a)) → no_panic (m ≫= f).
Proof. destruct m; simpl; auto. Qed.

Lemma no_panic_map_err {E F A} (f : E → F) (r : res E A) : no_panic r → no_panic (map_err f r).
Proof. by destruct r. Qed.

Lemma no_panic_deref {E A} (o : option A) : is_Some o → no_panic (deref o : res E A).
Proof. by intros [a ->]. Qed.

#[export] Hint Resolve no_panic_map_err no_panic_deref : no_panic.

(** Walks through binds, tests and calls that are known to return. *)
Ltac solve_no_panic :=
  repeat first
    [ progress intros | done | solve [auto with no_panic]
    | apply no_panic_bind | case_decide
    | match goal with |- no_panic (if ?b then _ else _) => destruct b end
    | match goal with |- no_panic (match ?o with Some _ => _ | None => _ end) => destruct o end
    | match goal with |- no_panic (match ?o with (_, _) => _ end) => destruct o end ].

(** ** 64-bit integers

    Go's [int], [int64] and [time.Duration] are 64 bits wide on the supported
    platforms and wrap around. *)
Definition two63 : Z := 9223372036854775808.
Definition two64 : Z := 18446744073709551616.

Definition wrap64 (z : Z) : Z := (z + two63) mod two64 - two63.
Definition wrapu64 (z : Z) : Z := z mod two64.
Definition wrapu32 (z : Z) : Z := z mod 4294967296.
Definition wrapu16 (z : Z) : Z := z mod 65536.

Definition int64 (z : Z) : Prop := (- two63 ≤ z < two63)%Z.

#[global] Instance int64_dec z : Decision (int64 z).
Proof. unfold int64; apply _. Defined.

Lemma wrap64_id z : int64 z → wrap64 z = z.
Proof.
  unfold int64, wrap64, two63, two64. intros H.
  rewrite Z.mod_small by lia. lia.
Qed.

Lemma wrap64_int64 z : int64 (wrap64 z).
Proof.
  unfold int64, wrap64, two63, two64.
  pose proof (Z.mod_pos_bound (z + 9223372036854775808) 18446744073709551616).
  lia.
Qed.

Lemma wrap64_add_l a b : wrap64 (wrap64 a + b) = wrap64 (a + b).
Proof.
  unfold wrap64. f_equal.
  replace ((a + two63) `mod` two64 - two63 + b + two63)%Z
    with ((a + two63) `mod` two64 + b)%Z by lia.
  rewrite Zplus_mod_idemp_l. f_equal. lia.
Qed.

Lemma wrap64_add_r a b : wrap64 (a + wrap64 b) = wrap64 (a + b).
Proof. rewrite (Z.add_comm a), wrap64_add_l. f_equal. lia. Qed.

(** Durations are counted in nanoseconds. *)
Definition Nanosecond : Z := 1.
Definition Millisecond : Z := 1000000.
Definition Second : Z := 1000000000.
Definition Minute : Z := 60 * Second.
Definition Hour : Z := 60 * Minute.

(** ** Iteration over Go maps

    [for k, v := range m] and [sync.Map.Range] visit every entry once, in an
    order the language leaves open.  The model is proved against this
    interface: an iteration is some permutation of the entries. *)
Class RangeOrder := {
  range : ∀ {K V : Type} `{Countable K}, gmap K V → list (K * V);
  range_perm : ∀ {K V : Type} `{Countable K} (m : gmap K V), range m ≡ₚ map_to_list m;
}.

(** One order the language allows, used by the witnesses. *)
Definition canonical_order : RangeOrder :=
  {| range := λ K V _ _ m, map_to_list m; range_perm := λ K V _ _ m, reflexivity _ |}.

(** And another one: the reverse. *)
Definition reverse_order : RangeOrder :=
  {| range := λ K V _ _ m, reverse (map_to_list m);
     range_perm := λ K V _ _ m, reverse_Permutation _ |}.

Section range.
Context `{RO : RangeOrder} `{Countable K} {V : Type}.
Implicit Types m : gmap K V.

Lemma elem_of_range m k v : (k, v) ∈ range m ↔ m !! k = Some v.
Proof. by rewrite range_perm, elem_of_map_to_list. Qed.

Lemma NoDup_fst_range m : NoDup (range m).*1.
Proof. rewrite range_perm. apply NoDup_fst_map_to_list. Qed.

Lemma NoDup_range m : NoDup (range m).
Proof. eapply NoDup_fmap_1, NoDup_fst_range. Qed.

Lemma range_empty : range (∅ : gmap K V) = [].
Proof.
  apply Permutation_nil_r. by rewrite range_perm, map_to_list_empty.
Qed.

Lemma length_range m : length (range m) = size m.
Proof. rewrite range_perm. apply length_map_to_list. Qed.

Lemma list_to_map_range m : list_to_map (range m) = m.
Proof.
  rewrite (list_to_map_proper (range m) (map_to_list m)).
  - apply list_to_map_to_list.
  - apply NoDup_fst_range.
  - apply range_perm.
Qed.
End range.

Lemma lookup_foldl_delete `{Countable K} {V} (m : gmap K V) (ks : list K) k :
  foldl (λ m k, delete k m) m ks !! k = if decide (k ∈ ks) then None else m !! k.
Proof.
  revert m. induction ks as [|k' ks IH]; intros m.
  { case_decide as Hk; [by apply not_elem_of_nil in Hk | done]. }
  simpl. rewrite IH, lookup_delete, (decide_ext (k ∈ k' :: ks) (k' = k ∨ k ∈ ks)) by set_solver.
  destruct (decide (k' = k)), (decide (k ∈ ks)), (decide _); tauto.
Qed.

Lemma map_to_list_filter_perm `{Countable K} {V} (P : K * V → Prop) `{∀ x, Decision (P x)}
    (m : gmap K V) :
  map_to_list (filter P m) ≡ₚ filter P (map_to_list m).
Proof.
  rewrite map_filter_alt. apply map_to_list_to_map.
  eapply sublist_NoDup; [apply (NoDup_fst_map_to_list m)|].
  apply fmap_sublist, sublist_filter.
Qed.

(** ** Maps as Go reads them: a missing key reads as the zero value *)
Definition zlookup `{Countable K} (m : gmap K Z) (k : K) : Z := default 0%Z (m !! k).

(** [sync.Map.LoadOrStore]: the map after the call, the actual value, and
    whether it was loaded. *)
Definition LoadOrStore `{Countable K} {V} (m : gmap K V) (k : K) (v : V) : gmap K V * V * bool :=
  match m !! k with
  | Some v' => (m, v', true)
  | None => (<[k := v]> m, v, false)
  end.

(** ** Tactics *)
(** Splits every boolean test and [decide] of the goal and closes the easy cases. *)
Ltac split_tests :=
  repeat (case_match || case_decide || case_bool_decide); simplify_eq/=; try done; try lia.

(** Proves a closed decidable proposition by computation. *)
Ltac by_decide := apply (bool_decide_unpack _); vm_compute; exact I.

(** Turns boolean comparisons of the context into propositions. *)
Ltac bool_to_prop :=
  repeat match goal with
  | H : (_ && _) = true |- _ => apply andb_true_iff in H as [? ?]
  | H : (_ && _) = false |- _ => apply andb_false_iff in H as [?|?]
  | H : (_ || _) = true |- _ => apply orb_true_iff in H as [?|?]
  | H : (_ || _) = false |- _ => apply orb_false_iff in H as [? ?]
  | H : negb _ = true |- _ => apply negb_true_iff in H
  | H : negb _ = false |- _ => apply negb_false_iff in H
  | H : (_ =? _)%Z = true |- _ => apply Z.eqb_eq in H
  | H : (_ =? _)%Z = false |- _ => apply Z.eqb_neq in H
  | H : (_ <? _)%Z = true |- _ => apply Z.ltb_lt in H
  | H : (_ <? _)%Z = false |- _ => apply Z.ltb_ge in H
  | H : (_ <=? _)%Z = true |- _ => apply Z.leb_le in H
  | H : (_ <=? _)%Z = false |- _ => apply Z.leb_gt in H
  | H : (_ =? _)%string = true |- _ => apply String.eqb_eq in H
  | H : (_ =? _)%string = false |- _ => apply String.eqb_neq in H
  end.

(** ** Sums over lists of integers *)
Definition sumZ {A} (f : A → Z) (l : list A) : Z := foldr (λ a s, (f a + s)%Z) 0%Z l.

Lemma sumZ_cons {A} (f : A → Z) a l : sumZ f (a :: l) = (f a + sumZ f l)%Z.
Proof. done. Qed.

Lemma sumZ_app {A} (f : A → Z) l k : sumZ f (l ++ k) = (sumZ f l + sumZ f k)%Z.
Proof. induction l; simpl; lia. Qed.

#[global] Instance sumZ_perm {A} (f : A → Z) : Proper ((≡ₚ) ==> eq) (sumZ f).
Proof. induction 1; simpl; lia. Qed.

Lemma sumZ_ext {A} (f g : A → Z) l : (∀ a, a ∈ l → f a = g a) → sumZ f l = sumZ g l.
Proof.
  induction l as [|a l IH]; intros Hfg; simpl; [done|].
  rewrite IH by (intros; apply Hfg; by right). rewrite Hfg by left. done.
Qed.

Lemma sumZ_add {A} (f g : A → Z) l : sumZ (λ a, f a + g a)%Z l = (sumZ f l + sumZ g l)%Z.
Proof. induction l; simpl; lia. Qed.

Lemma sumZ_nonneg {A} (f : A → Z) l : (∀ a, a ∈ l → 0 ≤ f a)%Z → (0 ≤ sumZ f l)%Z.
Proof.
  induction l as [|a l IH]; intros Hf; simpl; [lia|].
  pose proof (Hf a ltac:(left)). pose proof (IH ltac:(intros; apply Hf; by right)). lia.
Qed.

Lemma foldl_cons {A B} (f : A → B → A) a x l : foldl f a (x :: l) = foldl f (f a x) l.
Proof. done. Qed.

Lemma filter_ext_elem {A} (P Q : A → Prop) `{∀ x, Decision (P x), ∀ x, Decision (Q x)} (l : list A) :
  (∀ x, x ∈ l → P x ↔ Q x) → filter P l = filter Q l.
Proof.
  induction l as [|x l IH]; intros HPQ; [done|].
  pose proof (HPQ x ltac:(left)). rewrite !filter_cons, IH by (intros; apply HPQ; by right).
  do 2 case_decide; tauto.
Qed.

Lemma filter_none {A} (P : A → Prop) `{∀ x, Decision (P x)} (l : list A) :
  (∀ x, x ∈ l → ¬ P x) → filter P l = [].
Proof.
  induction l as [|x l IH]; intros HP; [done|].
  rewrite filter_cons, decide_False by (apply HP; left). apply IH. intros; apply HP; by right.
Qed.

Lemma omap_ext_elem {A B} (f g : A → option B) (l : list A) :
  (∀ x, x ∈ l → f x = g x) → omap f l = omap g l.
Proof.
  induction l as [|x l IH]; intros Hfg; [done|]. simpl.
  rewrite Hfg by left. destruct (g x); [f_equal|]; apply IH; intros; apply Hfg; by right.
Qed.

Lemma NoDup_fmap_inj {A B} (f : A → B) (l : list A) x y :
  NoDup (f <$> l) → x ∈ l → y ∈ l → f x = f y → x = y.
Proof.
  intros Hnd Hx Hy Hf. apply list_elem_of_lookup in Hx as [i Hi], Hy as [j Hj].
  assert (i = j) as ->; [|congruence].
  apply (NoDup_lookup (f <$> l) i j (f x) Hnd); rewrite list_lookup_fmap.
  - by rewrite Hi.
  - by rewrite Hj, Hf.
Qed.

(** ** Reflexive-transitive closure of a step relation by its last step *)
Lemma rtc_invariant {A} (R : A → A → Prop) (P : A → Prop) x y :
  P x → (∀ a b, P a → R a b → P b) → rtc R x y → P y.
Proof. intros Hx Hstep Hxy. induction Hxy; eauto. Qed.

(** ** Hint databases *)
Create HintDb v2bz.
Create Rewrite HintDb v2bz.
#[export] Hint Resolve wrap64_int64 wrap64_id NoDup_range NoDup_fst_range : v2bz.
