(* ===== verification/Threads.v ===== *)
(** What the files about concurrency (CounterConc, LimitConc, LinkConc) share:
    goroutines that run at the same time over a shared state, that is a pool of
    program counters of which any one makes its next atomic step, with the
    rely-guarantee rule that proves an invariant of every interleaving; and
    maps of pointers to objects, with what publishing, changing and removing an
    object does to the map of the objects themselves. *)

From stdpp Require Import prelude gmap relations.

Lemma lookup_insert_list_cases {A} (l : list A) i j x y :
  <[i := x]> l !! j = Some y → (i = j ∧ x = y) ∨ (i ≠ j ∧ l !! j = Some y).
Proof. rewrite list_lookup_insert_Some. naive_solver. Qed.

(** * A pool of goroutines *)
Section pool.
Context {S P : Type} (step : S → P → S → P → Prop).

(** One goroutine of the pool makes one step. *)
Inductive pool_step : S * list P → S * list P → Prop :=
| pool_step_at s ts i p s' p' :
    ts !! i = Some p → step s p s' p' → pool_step (s, ts) (s', <[i := p']> ts).

Lemma pool_step_of i s ts p s' p' c :
  ts !! i = Some p → step s p s' p' → c = (s', <[i := p']> ts) → pool_step (s, ts) c.
Proof. intros ? ? ->. by econstructor. Qed.

(** What holds of the shared state ([I]) and of each goroutine ([L]) holds in
    every interleaving, when a step keeps both and disturbs no other one. *)
Lemma pool_invariant (I : S → Prop) (L : S → P → Prop) :
  (∀ s p s' p', I s → L s p → step s p s' p' → I s' ∧ L s' p' ∧ ∀ q, L s q → L s' q) →
  ∀ c c', rtc pool_step c c' → I c.1 → (∀ i p, c.2 !! i = Some p → L c.1 p) →
  I c'.1 ∧ (∀ i p, c'.2 !! i = Some p → L c'.1 p).
Proof.
  intros Hstep c c' Hr. induction Hr as [|c1 c2 c3 H _ IH]; intros HI HL; [done|].
  destruct H as [s ts i p s' p' Hi Hs]. simpl in *.
  destruct (Hstep s p s' p' HI (HL _ _ Hi) Hs) as (HI' & HL' & Hq).
  apply IH; [done|]. intros j q [[_ <-]|[_ Hj]]%lookup_insert_list_cases; eauto.
Qed.

(** The steps of one goroutine, which may run while the others wait. *)
Definition own_step (a b : S * P) : Prop := step a.1 a.2 b.1 b.2.

Lemma pool_one i s p s' p' ts :
  ts !! i = Some p → rtc own_step (s, p) (s', p') →
  rtc pool_step (s, ts) (s', <[i := p']> ts).
Proof.
  intros Hi Hr. remember (s, p) as a eqn:Ha. remember (s', p') as b eqn:Hb.
  revert s p ts Hi Ha. induction Hr as [|? [s1 p1] ? Hs _ IH]; intros s0 p0 ts Hi ->; simplify_eq/=.
  - by rewrite list_insert_id.
  - eapply rtc_l; [by apply (pool_step_of i _ _ p0 s1 p1)|].
    rewrite <- (list_insert_insert_eq ts i p' p1). apply (IH eq_refl s1 p1); [|done].
    apply list_lookup_insert_eq. by eapply lookup_lt_Some.
Qed.
End pool.

(** * Goroutines whose next step is determined *)
Section determined.
Context {S P : Type} (next : S → P → option (S * P)).

(** One goroutine that runs alone, for a number of steps or to its end. *)
Fixpoint run_alone (fuel : nat) (s : S) (p : P) : S * P :=
  match fuel with
  | O => (s, p)
  | Datatypes.S fuel =>
      match next s p with Some (s', p') => run_alone fuel s' p' | None => (s, p) end
  end.

Lemma run_alone_more n m s p :
  run_alone (n + m) s p = let '(s', p') := run_alone n s p in run_alone m s' p'.
Proof.
  revert s p. induction n as [|n IH]; intros s p; simpl; [done|].
  destruct (next s p) as [[s' p']|] eqn:Hs; [apply IH|].
  destruct m; simpl; by rewrite ?Hs.
Qed.

Lemma run_alone_stuck n s p : next s p = None → run_alone n s p = (s, p).
Proof. intros Hs. destruct n; simpl; by rewrite ?Hs. Qed.

(** A run that ended ends in as many steps or more. *)
Lemma run_alone_end n m s p s' p' :
  run_alone n s p = (s', p') → next s' p' = None → n ≤ m → run_alone m s p = (s', p').
Proof.
  intros Hr Hs Hn. replace m with (n + (m - n)) by lia.
  by rewrite run_alone_more, Hr, run_alone_stuck.
Qed.

Lemma run_alone_rtc (step : S → P → S → P → Prop) n s p :
  (∀ s p s' p', next s p = Some (s', p') → step s p s' p') → rtc (own_step step) (s, p) (run_alone n s p).
Proof.
  intros Hn. revert s p. induction n as [|n IH]; intros s p; simpl; [apply rtc_refl|].
  destruct (next s p) as [[s' p']|] eqn:Hs; [|apply rtc_refl].
  eapply (rtc_l _ _ (s', p')); [by apply Hn|apply IH].
Qed.

(** Two runs in a row, and one step in front. *)
Lemma run_alone_trans n m s p s1 p1 c :
  run_alone n s p = (s1, p1) → run_alone m s1 p1 = c → run_alone (n + m) s p = c.
Proof. intros Hn Hm. by rewrite run_alone_more, Hn. Qed.

Lemma run_alone_S n s p s1 p1 : next s p = Some (s1, p1) → run_alone (Datatypes.S n) s p = run_alone n s1 p1.
Proof. simpl. by intros ->. Qed.

(** A schedule: the numbers of the goroutines in the order of their steps. *)
Fixpoint run_schedule (order : list nat) (c : S * list P) : S * list P :=
  match order with
  | [] => c
  | i :: order =>
      match c.2 !! i ≫= next c.1 with
      | Some (s', p') => run_schedule order (s', <[i := p']> c.2)
      | None => c
      end
  end.

Lemma run_schedule_rtc (step : S → P → S → P → Prop) order c :
  (∀ s p s' p', next s p = Some (s', p') → step s p s' p') →
  rtc (pool_step step) c (run_schedule order c).
Proof.
  intros Hn. revert c. induction order as [|i order IH]; intros [s ps]; simpl; [apply rtc_refl|].
  destruct (ps !! i) as [p|] eqn:Hp; simpl; [|apply rtc_refl].
  destruct (next s p) as [[s' p']|] eqn:Hs; [|apply rtc_refl].
  eapply rtc_l; [|apply IH]. by eapply pool_step_of; [|apply Hn|].
Qed.
End determined.

(** * Maps of pointers *)
Section pointers.
Context `{Countable K} {V : Type} `{Empty V}.
Implicit Types (h : gmap nat V) (t : gmap K nat).

(** Every pointer leads to an object, and no two keys share one. *)
Record ptr_wf h t : Prop := {
  pw_alloc : ∀ k m, t !! k = Some m → is_Some (h !! m);
  pw_inj : ∀ k k' m, t !! k = Some m → t !! k' = Some m → k = k';
}.

(** The objects that the pointers lead to. *)
Definition deref h t : gmap K V := (λ m, default ∅ (h !! m)) <$> t.

Lemma deref_lookup h t k : deref h t !! k = (λ m, default ∅ (h !! m)) <$> (t !! k).
Proof. apply lookup_fmap. Qed.

Lemma ptr_fresh h t k : ptr_wf h t → t !! k ≠ Some (fresh (dom h)).
Proof. intros Hwf Hk. apply (is_fresh (dom h)), elem_of_dom. by eapply pw_alloc. Qed.

Lemma ptr_fresh_ne h t k m : ptr_wf h t → t !! k = Some m → fresh (dom h) ≠ m.
Proof. intros Hwf Hk <-. by eapply ptr_fresh. Qed.

Lemma ptr_wf_empty h : ptr_wf h ∅.
Proof. by split; intros *; rewrite lookup_empty. Qed.

Lemma ptr_wf_grow h h' t : ptr_wf h t → dom h ⊆ dom h' → ptr_wf h' t.
Proof.
  intros [Hm Hi] Hd. split; [|done]. intros k m Hk.
  apply elem_of_dom, Hd, elem_of_dom. by eapply Hm.
Qed.

Lemma ptr_wf_set h t m x : ptr_wf h t → ptr_wf (<[m := x]> h) t.
Proof. intros Hwf. eapply ptr_wf_grow; [done|apply dom_insert_subseteq]. Qed.

Lemma ptr_wf_publish h t k x :
  ptr_wf h t → ptr_wf (<[fresh (dom h) := x]> h) (<[k := fresh (dom h)]> t).
Proof.
  intros Hwf. pose proof (λ k, ptr_fresh h t k Hwf) as Hf. destruct Hwf as [Hm Hi]. split.
  - intros k' m [[_ <-]|[_ Hk]]%lookup_insert_Some; apply lookup_insert_is_Some';
      [by left|right; by eapply Hm].
  - intros k1 k2 m [[<- <-]|[_ H1]]%lookup_insert_Some [[<- H2]|[_ H2]]%lookup_insert_Some.
    + done.
    + by apply Hf in H2.
    + subst. by apply Hf in H1.
    + by eapply Hi.
Qed.

Lemma ptr_wf_delete h t k : ptr_wf h t → ptr_wf h (delete k t).
Proof.
  intros [Hm Hi]. split.
  - intros k' m [_ ?]%lookup_delete_Some. by eapply Hm.
  - intros k1 k2 m [_ ?]%lookup_delete_Some [_ ?]%lookup_delete_Some. by eapply Hi.
Qed.

Lemma deref_garbage h t x : ptr_wf h t → deref (<[fresh (dom h) := x]> h) t = deref h t.
Proof.
  intros Hwf. apply map_fmap_ext. intros k m Hk. rewrite lookup_insert_ne; [done|].
  by eapply ptr_fresh_ne.
Qed.

Lemma deref_publish h t k x :
  ptr_wf h t →
  deref (<[fresh (dom h) := x]> h) (<[k := fresh (dom h)]> t) = <[k := x]> (deref h t).
Proof.
  intros Hwf. unfold deref at 1. rewrite fmap_insert, lookup_insert_eq. simpl.
  f_equal. by apply deref_garbage.
Qed.

Lemma deref_update h t k m x :
  ptr_wf h t → t !! k = Some m → deref (<[m := x]> h) t = <[k := x]> (deref h t).
Proof.
  intros Hwf Hk. apply map_eq. intros k'. rewrite lookup_insert, !deref_lookup.
  case_decide as Hkk; [subst; rewrite Hk; simpl; by rewrite lookup_insert_eq|].
  destruct (t !! k') as [m'|] eqn:Hk'; simpl; [|done].
  rewrite lookup_insert_ne; [done|]. intros <-. apply Hkk. by eapply pw_inj.
Qed.

Lemma deref_delete h t k : deref h (delete k t) = delete k (deref h t).
Proof. apply fmap_delete. Qed.
End pointers.
