(* ===== verification/Progs.v ===== *)
(** Tasks as programs that can be interrupted: a program is a tree of atomic
    calls on a shared state, each followed by what the program does with its
    result.  One that runs alone gives a function of the state ([prun]); several
    run in any interleaving of their calls ([prog_step] over the pools of
    Threads).  [safe] is a weakest precondition that interference cannot break,
    [guarantees] what a program promises the others, [makes_call] says which
    calls a program makes in a run and in which states, and [pool_safe] is the
    rule that puts them together. *)

From S2P Require Import Prelude Threads.
From stdpp Require Import prelude relations strings.

Section progs.
Context {S : Type}.

(** A call changes the state and returns a value, or panics. *)
Definition atomic (B : Type) : Type := S → S * res Empty_set B.

Inductive prog (A : Type) : Type :=
| Return (r : res Empty_set A)
| Call {B : Type} (f : atomic B) (k : B → prog A).
Arguments Return {A}.
Arguments Call {A B}.

Definition pret {A} (a : A) : prog A := Return (Ok a).
Definition ppanic {A} (why : string) : prog A := Return (Panic why).
Definition call {B} (f : atomic B) : prog B := Call f pret.

Definition no_err {E A} (e : Empty_set) : res E A := match e with end.

Fixpoint pbind {A B} (p : prog A) (k : A → prog B) : prog B :=
  match p with
  | Return (Ok a) => k a
  | Return (Err e) => match e with end
  | Return (Panic w) => Return (Panic w)
  | Call f k' => Call f (λ b, pbind (k' b) k)
  end.

(** ** Alone *)
Fixpoint prun {A} (p : prog A) (s : S) : S * res Empty_set A :=
  match p with
  | Return r => (s, r)
  | Call f k =>
      match f s with
      | (s, Ok b) => prun (k b) s
      | (s, Err e) => match e with end
      | (s, Panic w) => (s, Panic w)
      end
  end.

Lemma prun_bind {A B} (p : prog A) (k : A → prog B) s :
  prun (pbind p k) s =
    match prun p s with
    | (s, Ok a) => prun (k a) s
    | (s, Err e) => match e with end
    | (s, Panic w) => (s, Panic w)
    end.
Proof.
  revert s. induction p as [[a|[]|w]|B' f k' IH]; intros s; simpl; [done..|].
  destruct (f s) as [s1 [b|[]|w]]; [apply IH|done].
Qed.

Lemma prun_call {B} (f : atomic B) s : prun (call f) s = f s.
Proof. simpl. by destruct (f s) as [s1 [b|[]|w]]. Qed.

(** ** In a pool *)
Definition prog_next {A} (s : S) (p : prog A) : option (S * prog A) :=
  match p with
  | Return _ => None
  | Call f k =>
      let '(s, r) := f s in
      Some (s, match r with Ok b => k b | Err e => match e with end | Panic w => Return (Panic w) end)
  end.

Definition prog_step {A} (s : S) (p : prog A) (s' : S) (p' : prog A) : Prop :=
  prog_next s p = Some (s', p').

Lemma call_step {A B} (f : atomic B) (k : B → prog A) s s' b :
  f s = (s', Ok b) → own_step prog_step (s, pbind (call f) k) (s', k b).
Proof. intros Hf. unfold own_step, prog_step. simpl. by rewrite Hf. Qed.

(** A test for a program that has returned. *)
Definition has_returned (o : option (prog unit)) : bool :=
  match o with Some (Return (Ok _)) => true | _ => false end.

Lemma has_returned_true o : has_returned o = true → o = Some (Return (Ok tt)).
Proof. by destruct o as [[[[]|[]|]|]|]. Qed.

(** A program that is left alone ends, with the result of [prun]. *)
Lemma prog_ends {A} (p : prog A) s :
  rtc (own_step prog_step) (s, p) ((prun p s).1, Return (prun p s).2).
Proof.
  revert s. induction p as [r|B f k IH]; intros s; simpl; [apply rtc_refl|].
  destruct (f s) as [s1 r] eqn:Hf. eapply (rtc_l _ _ (s1, _)).
  { unfold own_step, prog_step. simpl. rewrite Hf. reflexivity. }
  destruct r as [b|[]|w]; [apply IH|apply rtc_refl].
Qed.

(** ** Under interference

    [R] is what the others may do between two calls, [V] what is known of the
    calls that the program makes, in the state in which it makes them, and [Q]
    what holds at the end, whatever the others do. *)
Section interference.
#[local] Set Default Proof Using "Type*".
Context (R : S → S → Prop) `{!PreOrder R}.
Context {A : Type} (V : S → prog A → Prop) (Q : S → res Empty_set A → Prop).

Fixpoint safe (p : prog A) (s : S) : Prop :=
  match p with
  | Return r => ∀ s', R s s' → Q s' r
  | Call f k => ∀ s1, R s s1 → V s1 (Call f k) →
      match f s1 with
      | (s2, Ok b) => safe (k b) s2
      | (_, Err e) => match e with end
      | (s2, Panic w) => ∀ s', R s2 s' → Q s' (Panic w)
      end
  end.

Lemma safe_stable (p : prog A) s s' : R s s' → safe p s → safe p s'.
Proof. intros Hr. destruct p as [r|B f k]; simpl; intros Hs s1 Hr1; apply Hs; by etrans. Qed.

(** One call, and the rest. *)
Lemma safe_call {B} (f : atomic B) (k : B → prog A) s :
  (∀ s1, R s s1 → V s1 (pbind (call f) k) →
     match f s1 with
     | (s2, Ok b) => safe (k b) s2
     | (_, Err e) => match e with end
     | (s2, Panic w) => ∀ s', R s2 s' → Q s' (Panic w)
     end) →
  safe (pbind (call f) k) s.
Proof. done. Qed.

Lemma safe_step (p p' : prog A) s s' : safe p s → V s p → prog_step s p s' p' → safe p' s'.
Proof.
  destruct p as [r|B f k]; [done|]. unfold prog_step. simpl. intros Hs Hv.
  specialize (Hs s ltac:(done) Hv). destruct (f s) as [s1 [b|[]|w]]; by intros [= <- <-].
Qed.
End interference.

(** What every call of a program keeps to. *)
Section guarantees.
Context (R : S → S → Prop).

Fixpoint guarantees {A} (p : prog A) : Prop :=
  match p with
  | Return _ => True
  | Call f k => (∀ s, R s (f s).1) ∧ ∀ b, guarantees (k b)
  end.

Lemma guarantees_bind {A B} (p : prog A) (k : A → prog B) :
  guarantees p → (∀ a, guarantees (k a)) → guarantees (pbind p k).
Proof.
  intros Hp Hk. induction p as [[a|[]|w]|B' f k' IH]; simpl; [apply Hk|done|].
  destruct Hp as [Hf Hp]. split; [done|]. intros b. by apply IH.
Qed.

Lemma guarantees_call {B} (f : atomic B) : (∀ s, R s (f s).1) → guarantees (call f).
Proof. by split. Qed.

(** One step of a program does one call. *)
Lemma guarantees_step {A} (p p' : prog A) s s' :
  guarantees p → prog_step s p s' p' → R s s' ∧ guarantees p'.
Proof.
  destruct p as [r|B f k]; [done|]. intros [Hf Hk]. unfold prog_step. simpl. specialize (Hf s).
  destruct (f s) as [s1 r]. intros [= <- <-]. split; [done|]. by destruct r as [b|[]|w].
Qed.
End guarantees.

(** ** In a run

    In the run of a pool from [c] to [c'] the program [j] makes its next call in
    the state [s], where [p] is left of it. *)
Definition makes_call {A} (c c' : S * list (prog A)) (j : nat) (s : S) (p : prog A) : Prop :=
  ∃ ts s1 p1, rtc (pool_step prog_step) c (s, ts) ∧ ts !! j = Some p ∧ prog_next s p = Some (s1, p1) ∧
    rtc (pool_step prog_step) (s1, <[j := p1]> ts) c'.

Lemma makes_call_later {A} (c c1 c' : S * list (prog A)) j s p :
  pool_step prog_step c c1 → makes_call c1 c' j s p → makes_call c c' j s p.
Proof. intros Hs (ts & s1 & p1 & Hr & H). exists ts, s1, p1. split; [by eapply rtc_l|done]. Qed.

(** A safe program among programs that keep to [R] ends as it should. *)
Lemma pool_safe_run (R : S → S → Prop) `{!PreOrder R} {A} (V : S → prog A → Prop) Q j (p : prog A) c c' r :
  c.2 !! j = Some p → safe R V Q p c.1 →
  (∀ i q, i ≠ j → c.2 !! i = Some q → guarantees R q) →
  rtc (pool_step prog_step) c c' → (∀ s q, makes_call c c' j s q → V s q) →
  c'.2 !! j = Some (Return r) → Q c'.1 r.
Proof.
  intros Hj Hs Hg Hr. revert p Hj Hs Hg.
  induction Hr as [[s ts]|c1 c2 c3 H Hr IH]; intros p Hj Hs Hg Hv; simpl in *.
  { rewrite Hj. intros [= ->]. by apply Hs. }
  assert (∀ s q, makes_call c2 c3 j s q → V s q) as Hv2
    by (intros s q Hm; by eapply Hv, makes_call_later).
  destruct H as [s ts i q s' q' Hi Hst]. simpl in *.
  assert (Hjl : (j < length ts)%nat) by (by eapply lookup_lt_Some).
  destruct (decide (i = j)) as [->|Hne].
  - assert (q = p) as -> by congruence. apply (IH q'); [by apply list_lookup_insert_eq| | |done].
    + eapply safe_step; [apply _|exact Hs| |exact Hst]. apply Hv. exists ts, s', q'.
      split; [apply rtc_refl|done].
    + intros i q1 Hij. rewrite list_lookup_insert_ne by done. by apply Hg.
  - destruct (guarantees_step R q q' s s' (Hg _ _ Hne Hi) Hst) as [HR Hg'].
    apply (IH p); [by rewrite list_lookup_insert_ne|by eapply safe_stable| |done].
    intros i' q1 Hi' [[_ <-]|[_ Hq]]%lookup_insert_list_cases; [done|by eapply Hg].
Qed.

Lemma pool_safe (R : S → S → Prop) `{!PreOrder R} {A} Q j (p : prog A) c c' r :
  c.2 !! j = Some p → safe R (makes_call c c' j) Q p c.1 →
  (∀ i q, i ≠ j → c.2 !! i = Some q → guarantees R q) →
  rtc (pool_step prog_step) c c' → c'.2 !! j = Some (Return r) → Q c'.1 r.
Proof. intros Hj Hs Hg Hr Hret. by apply (pool_safe_run R (makes_call c c' j) Q j p c c'). Qed.
End progs.
Arguments atomic : clear implicits.
Arguments prog : clear implicits.
Arguments Return {S A}.
Arguments Call {S A B}.

Notation "'let*' x := c 'in' k" := (pbind c (λ x, k))
  (at level 200, x pattern, c at level 100, k at level 200, right associativity).
