(* ===== verification/GoStd.v ===== *)
(** The fragments of Go's standard library (strings, strconv, bytes) that the
    modelled code calls, on byte strings: a Go string is a [string], one
    [ascii] per byte.  [ToLower] is in Lower.v. *)

From S2P Require Import Prelude.
From stdpp Require Import prelude gmap strings pretty list.
From Stdlib Require Import Lia ZArith Ascii String.

Open Scope string_scope.

#[local] Arguments String.append !_ _ / : assert.

(** ** Character classes *)
Definition byte_of (a : ascii) : nat := nat_of_ascii a.
Definition NL : ascii := "010"%char.
Definition CR : ascii := "013"%char.
Definition TAB : ascii := "009"%char.
Definition DQUOTE : ascii := "034"%char.

Definition is_digit (a : ascii) : bool :=
  (48 <=? byte_of a)%nat && (byte_of a <=? 57)%nat.
Definition digit_val (a : ascii) : Z := Z.of_nat (byte_of a) - 48.

Definition lower_ascii (a : ascii) : ascii :=
  if (65 <=? byte_of a)%nat && (byte_of a <=? 90)%nat
  then ascii_of_nat (byte_of a + 32) else a.

(** ** strings.HasPrefix, TrimPrefix, TrimSuffix *)
Fixpoint strip_prefix (p s : string) : option string :=
  match p, s with
  | EmptyString, _ => Some s
  | String a p', String b s' => if Ascii.eqb a b then strip_prefix p' s' else None
  | String _ _, EmptyString => None
  end.

Fixpoint strip_suffix (p s : string) : option string :=
  if String.eqb p s then Some EmptyString else
  match s with
  | EmptyString => None
  | String a s' => String a <$> strip_suffix p s'
  end.

Definition HasPrefix (s p : string) : bool :=
  match strip_prefix p s with Some _ => true | None => false end.
Definition TrimPrefix (s p : string) : string := default s (strip_prefix p s).
Definition TrimSuffix (s p : string) : string := default s (strip_suffix p s).

(** ** strings.Contains, ContainsAny *)
Fixpoint Contains (s sub : string) : bool :=
  HasPrefix s sub ||
  match s with EmptyString => false | String _ s' => Contains s' sub end.

Fixpoint contains_char (c : ascii) (s : string) : bool :=
  match s with
  | EmptyString => false
  | String a s' => Ascii.eqb a c || contains_char c s'
  end.

Fixpoint ContainsAny (s chars : string) : bool :=
  match s with
  | EmptyString => false
  | String a s' => contains_char a chars || ContainsAny s' chars
  end.

(** ** strings.TrimSpace: the runes of unicode.IsSpace, by their UTF-8 bytes *)
Definition bytes (l : list nat) : string :=
  String.string_of_list_ascii (ascii_of_nat <$> l).

Definition space_runes : list string :=
  (bytes <$> [[9]; [10]; [11]; [12]; [13]; [32]; [194; 133]; [194; 160];
              [225; 154; 128]; [226; 128; 168]; [226; 128; 169]; [226; 128; 175];
              [226; 129; 159]; [227; 128; 128]])
  ++ ((λ i, bytes [226; 128; i]) <$> seq 128 11).

(** The string without a leading (trailing) space rune, if it has one. *)
Fixpoint first_some {A} (l : list (option A)) : option A :=
  match l with
  | [] => None
  | Some a :: _ => Some a
  | None :: l' => first_some l'
  end.

Definition strip_space_l (s : string) : option string :=
  first_some ((λ r, strip_prefix r s) <$> space_runes).
Definition strip_space_r (s : string) : option string :=
  first_some ((λ r, strip_suffix r s) <$> space_runes).

(** The fuel is the length: every step removes at least one byte. *)
Fixpoint iter_strip (f : string → option string) (fuel : nat) (s : string) : string :=
  match fuel with
  | O => s
  | S n => match f s with Some s' => iter_strip f n s' | None => s end
  end.

Definition TrimLeftSpace (s : string) : string := iter_strip strip_space_l (String.length s) s.
Definition TrimRightSpace (s : string) : string := iter_strip strip_space_r (String.length s) s.
Definition TrimSpace (s : string) : string := TrimRightSpace (TrimLeftSpace s).

(** ** strings.Split and SplitN(s, sep, 2) for a one-byte separator, FieldsFunc, Join *)
Fixpoint Split (s : string) (sep : ascii) : list string :=
  match s with
  | EmptyString => [EmptyString]
  | String a s' =>
      if Ascii.eqb a sep then EmptyString :: Split s' sep
      else match Split s' sep with
           | w :: ws => String a w :: ws
           | [] => [String a EmptyString]
           end
  end.

Fixpoint SplitN2 (s : string) (sep : ascii) : list string :=
  match s with
  | EmptyString => [EmptyString]
  | String a s' =>
      if Ascii.eqb a sep then [EmptyString; s']
      else match SplitN2 s' sep with
           | w :: ws => String a w :: ws
           | [] => [String a EmptyString]
           end
  end.

Fixpoint split_func (f : ascii → bool) (s : string) : list string :=
  match s with
  | EmptyString => [EmptyString]
  | String a s' =>
      if f a then EmptyString :: split_func f s'
      else match split_func f s' with
           | w :: ws => String a w :: ws
           | [] => [String a EmptyString]
           end
  end.

Definition FieldsFunc (s : string) (f : ascii → bool) : list string :=
  filter (λ w, w ≠ EmptyString) (split_func f s).

Definition Join (l : list string) (sep : string) : string := String.concat sep l.

(** ** strconv *)
Definition Itoa (z : Z) : string := pretty z.

Fixpoint digits (s : string) (acc : Z) : option Z :=
  match s with
  | EmptyString => Some acc
  | String a s' => if is_digit a then digits s' (acc * 10 + digit_val a) else None
  end.

Definition parse_digits (s : string) : option Z :=
  match s with EmptyString => None | _ => digits s 0 end.

Definition parse_signed (s : string) : option Z :=
  match s with
  | String "-" s' => Z.opp <$> parse_digits s'
  | String "+" s' => parse_digits s'
  | _ => parse_digits s
  end.

(** [Atoi s] returns the value and whether err is nil; on a syntax error the
    value is 0, out of range it is the nearest int. *)
Definition Atoi (s : string) : Z * bool :=
  match parse_signed s with
  | None => (0%Z, false)
  | Some z =>
      if (z <? - two63)%Z then ((- two63)%Z, false)
      else if (two63 <=? z)%Z then ((two63 - 1)%Z, false)
      else (z, true)
  end.

(** [ParseUint s 10 64]. *)
Definition ParseUint (s : string) : Z * bool :=
  match parse_digits s with
  | None => (0%Z, false)
  | Some z => if (two64 <=? z)%Z then ((two64 - 1)%Z, false) else (z, true)
  end.

(** ** Slicing a string: [s[:n]] panics beyond the end *)
Definition slice_to (s : string) (n : nat) : res string string :=
  if (n <=? String.length s)%nat then Ok (String.substring 0 n s)
  else Panic "slice bounds out of range".

(** ** base64.StdEncoding.EncodeToString *)
Definition base64_alphabet : string :=
  "ABCDEFGHIJKLMNOPQRSTUVWXYZabcdefghijklmnopqrstuvwxyz0123456789+/".
Definition base64_char (n : Z) : ascii :=
  default "="%char (String.get (Z.to_nat n) base64_alphabet).

(** Three bytes are four characters of six bits; a shorter end is padded. *)
Fixpoint base64_Encode (s : string) : string :=
  let b a := Z.of_nat (byte_of a) in
  let c x := base64_char (Z.land x 63) in
  match s with
  | EmptyString => ""
  | String a EmptyString =>
      let v := Z.shiftl (b a) 16 in
      String (c (Z.shiftr v 18)) (String (c (Z.shiftr v 12)) "==")
  | String a (String a' EmptyString) =>
      let v := Z.lor (Z.shiftl (b a) 16) (Z.shiftl (b a') 8) in
      String (c (Z.shiftr v 18)) (String (c (Z.shiftr v 12)) (String (c (Z.shiftr v 6)) "="))
  | String a (String a' (String a'' s)) =>
      let v := Z.lor (Z.lor (Z.shiftl (b a) 16) (Z.shiftl (b a') 8)) (b a'') in
      String (c (Z.shiftr v 18)) (String (c (Z.shiftr v 12))
        (String (c (Z.shiftr v 6)) (String (c v) (base64_Encode s))))
  end.

Example base64_example : base64_Encode "any carnal pleas" = "YW55IGNhcm5hbCBwbGVhcw==".
Proof. vm_compute. reflexivity. Qed.


(** ** Lemmas *)
Lemma strip_prefix_Some p s r : strip_prefix p s = Some r ↔ s = p +:+ r.
Proof.
  revert s. induction p as [|a p IH]; intros [|b s]; simpl.
  - split; [by intros [= <-] | by intros ->].
  - split; [by intros [= <-] | by intros ->].
  - split; [done | intros [=]].
  - destruct (Ascii.eqb_spec a b) as [->|Hne].
    + rewrite IH. split; [by intros -> | by intros [= ->]].
    + split; [done | intros [=]; congruence].
Qed.

Lemma HasPrefix_app p s : HasPrefix (p +:+ s) p = true.
Proof.
  unfold HasPrefix. destruct (strip_prefix p (p +:+ s)) eqn:E; [done|].
  assert (strip_prefix p (p +:+ s) = Some s) by (by apply strip_prefix_Some).
  congruence.
Qed.

Lemma HasPrefix_true s p : HasPrefix s p = true ↔ ∃ r, s = p +:+ r.
Proof.
  split.
  - unfold HasPrefix. destruct (strip_prefix p s) eqn:E; [|done].
    intros _. eexists. by apply strip_prefix_Some.
  - intros [r ->]. apply HasPrefix_app.
Qed.

Lemma TrimPrefix_app p s : TrimPrefix (p +:+ s) p = s.
Proof.
  unfold TrimPrefix.
  assert (strip_prefix p (p +:+ s) = Some s) as -> by (by apply strip_prefix_Some).
  done.
Qed.

Lemma TrimPrefix_no s p : HasPrefix s p = false → TrimPrefix s p = s.
Proof. unfold HasPrefix, TrimPrefix. by destruct (strip_prefix p s). Qed.

Lemma string_app_assoc (a b c : string) : a +:+ (b +:+ c) = (a +:+ b) +:+ c.
Proof. induction a; simpl; congruence. Qed.

Lemma string_length_app (a b : string) :
  String.length (a +:+ b) = (String.length a + String.length b)%nat.
Proof. induction a; simpl; congruence. Qed.

Lemma string_app_inj_l (p a b : string) : p +:+ a = p +:+ b → a = b.
Proof. induction p; simpl; [done|]. intros [=]. auto. Qed.

(** Splitting an append at equal lengths. *)
Lemma string_app_inj_length (a b c d : string) :
  String.length a = String.length c → a +:+ b = c +:+ d → a = c ∧ b = d.
Proof.
  revert c. induction a as [|x a IH]; intros [|y c]; simpl; try done.
  intros [= Hl] [= -> He]. destruct (IH c Hl He) as [-> ->]. done.
Qed.

Lemma Itoa_inj a b : Itoa a = Itoa b → a = b.
Proof. apply pretty_Z_inj. Qed.

Lemma iter_strip_length f n s :
  (∀ t t', f t = Some t' → String.length t' < String.length t)%nat →
  (String.length (iter_strip f n s) ≤ String.length s)%nat.
Proof.
  intros Hf. revert s. induction n as [|n IH]; intros s; simpl; [done|].
  destruct (f s) as [s'|] eqn:E; [|done].
  specialize (IH s'). apply Hf in E. lia.
Qed.

Lemma Split_nonempty s sep : Split s sep ≠ [].
Proof. destruct s as [|a s]; simpl; [done|]. repeat case_match; done. Qed.

Lemma Join_Split s sep : Join (Split s sep) (String sep EmptyString) = s.
Proof.
  unfold Join. induction s as [|a s IH]; simpl; [done|].
  destruct (Ascii.eqb_spec a sep) as [->|Hne].
  - pose proof (Split_nonempty s sep). destruct (Split s sep) eqn:E; [done|].
    simpl in *. by rewrite IH.
  - pose proof (Split_nonempty s sep). destruct (Split s sep) as [|w ws] eqn:E; [done|].
    rewrite <- IH. destruct ws; done.
Qed.

Lemma HasPrefix_trans_app a b c : HasPrefix (a +:+ b +:+ c) a = true.
Proof. by rewrite HasPrefix_app. Qed.

#[export] Hint Rewrite TrimPrefix_app HasPrefix_app string_length_app : v2bz.

(** ** TrimSpace *)
Lemma iter_strip_fix f n s :
  (∀ t t', f t = Some t' → String.length t' < String.length t)%nat →
  (String.length s ≤ n)%nat → f (iter_strip f n s) = None.
Proof.
  intros Hf. revert s. induction n as [|n IH]; intros s Hn; simpl.
  - destruct (f s) as [t|] eqn:E; [|done]. apply Hf in E. lia.
  - destruct (f s) as [t|] eqn:E; [|done]. apply IH. apply Hf in E. lia.
Qed.

Lemma iter_strip_None f n s : f s = None → iter_strip f n s = s.
Proof. destruct n; [done|]. simpl. by intros ->. Qed.

Lemma iter_strip_ind (P : string → Prop) f n s :
  (∀ t t', P t → f t = Some t' → P t') → P s → P (iter_strip f n s).
Proof.
  intros Hf. revert s. induction n as [|n IH]; intros s Hs; simpl; [done|].
  destruct (f s) eqn:E; [|done]. eauto.
Qed.

Lemma strip_suffix_Some p s r : strip_suffix p s = Some r → s = r +:+ p.
Proof.
  revert r. induction s as [|a s IH]; intros r; simpl.
  - destruct (String.eqb_spec p ""); [|done]. intros [= <-]. by subst.
  - destruct (String.eqb_spec p (String a s)) as [->|]; [by intros [= <-]|].
    destruct (strip_suffix p s) as [r'|]; [|done]. intros [= <-]. simpl. f_equal. by apply IH.
Qed.

Lemma first_some_Some {A} (l : list (option A)) a : first_some l = Some a → Some a ∈ l.
Proof. induction l as [|[b|] l IH]; simpl; [done| |]; intros H; [simplify_eq; left|right; auto]. Qed.

Lemma first_some_None {A} (l : list (option A)) : first_some l = None ↔ ∀ o, o ∈ l → o = None.
Proof.
  induction l as [|[b|] l IH]; simpl.
  - split; [|done]. intros _ o Ho. by apply not_elem_of_nil in Ho.
  - split; [done|]. intros H. by specialize (H (Some b) ltac:(left)).
  - rewrite IH. set_solver.
Qed.

Lemma space_rune_length r : r ∈ space_runes → (0 < String.length r)%nat.
Proof.
  assert (Forall (λ r, 0 < String.length r)%nat space_runes) as H by by_decide.
  rewrite Forall_forall in H. apply H.
Qed.

Lemma strip_space_l_spec s t : strip_space_l s = Some t → ∃ r, r ∈ space_runes ∧ s = r +:+ t.
Proof.
  intros (r & Hr & Hin)%first_some_Some%list_elem_of_fmap. exists r. split; [done|].
  by apply strip_prefix_Some.
Qed.

Lemma strip_space_r_spec s t : strip_space_r s = Some t → ∃ r, r ∈ space_runes ∧ s = t +:+ r.
Proof.
  intros (r & Hr & Hin)%first_some_Some%list_elem_of_fmap. exists r. split; [done|].
  by apply strip_suffix_Some.
Qed.

Lemma strip_space_l_None s : strip_space_l s = None ↔ ∀ r t, r ∈ space_runes → s ≠ r +:+ t.
Proof.
  unfold strip_space_l. rewrite first_some_None. split.
  - intros H r t Hr ->. assert (strip_prefix r (r +:+ t) = None) as Hs.
    { apply H. apply list_elem_of_fmap. by exists r. }
    by rewrite (proj2 (strip_prefix_Some r (r +:+ t) t)) in Hs.
  - intros H o (r & -> & Hr)%list_elem_of_fmap.
    destruct (strip_prefix r s) as [t|] eqn:E; [|done].
    apply strip_prefix_Some in E. by destruct (H r t Hr).
Qed.

Lemma strip_space_l_shorter t t' : strip_space_l t = Some t' → (String.length t' < String.length t)%nat.
Proof.
  intros (r & Hr%space_rune_length & ->)%strip_space_l_spec. autorewrite with v2bz. lia.
Qed.

Lemma strip_space_r_shorter t t' : strip_space_r t = Some t' → (String.length t' < String.length t)%nat.
Proof.
  intros (r & Hr%space_rune_length & ->)%strip_space_r_spec. autorewrite with v2bz. lia.
Qed.

(** A trimmed string has no space rune at either end. *)
Lemma TrimSpace_ends s : strip_space_l (TrimSpace s) = None ∧ strip_space_r (TrimSpace s) = None.
Proof.
  unfold TrimSpace. set (l := TrimLeftSpace s).
  assert (strip_space_l l = None) as Hl.
  { apply iter_strip_fix; [apply strip_space_l_shorter|done]. }
  split; [|apply iter_strip_fix; [apply strip_space_r_shorter|done]].
  unfold TrimRightSpace. apply iter_strip_ind; [|done].
  intros t t' Ht (r & _ & ->)%strip_space_r_spec. rewrite !strip_space_l_None in *.
  intros r' u Hr' ->. apply (Ht r' (u +:+ r) Hr'). by rewrite string_app_assoc.
Qed.

Lemma TrimSpace_idem s : TrimSpace (TrimSpace s) = TrimSpace s.
Proof.
  destruct (TrimSpace_ends s) as [Hl Hr]. unfold TrimSpace at 1, TrimLeftSpace.
  rewrite (iter_strip_None _ _ _ Hl). by apply iter_strip_None.
Qed.

(** A string that starts with a byte no space rune starts with keeps it. *)
Definition starts_space (a : ascii) : bool :=
  existsb (λ r, match r with String b _ => Ascii.eqb b a | "" => false end) space_runes.

Lemma TrimSpace_head a s : starts_space a = false → ∃ s', TrimSpace (String a s) = String a s'.
Proof.
  intros Ha. assert (∀ r t t', r ∈ space_runes → t +:+ r = String a t' → ∃ u, t = String a u) as Hr.
  { intros r [|b t] t' Hr H; simpl in H; [|injection H as -> _; by eexists].
    rewrite H in Hr. apply not_true_iff_false in Ha as []. apply existsb_exists.
    exists (String a t'). split; [by apply list_elem_of_In|]. apply Ascii.eqb_refl. }
  assert (strip_space_l (String a s) = None) as Hl.
  { apply strip_space_l_None. intros r t Hin H. pose proof (space_rune_length r Hin).
    destruct r as [|b r]; simpl in *; [lia|]. injection H as <- _.
    destruct (Hr (String a r) "" r Hin eq_refl) as [u Hu]. discriminate Hu. }
  unfold TrimSpace, TrimLeftSpace. rewrite (iter_strip_None _ _ _ Hl).
  apply (iter_strip_ind (λ t, ∃ u, t = String a u)); [|by eexists].
  intros t t' [u ->] (r & Hin & H)%strip_space_r_spec. by apply (Hr r t' u Hin).
Qed.
