(* ===== verification/GoText.v ===== *)
(** More of Go's standard library, as the core builders use it: UTF-8 decoding
    and the JSON string literals of encoding/json (unicode/utf8,
    encoding/json), [time.ParseDuration], [net.SplitHostPort] and
    [encoding/hex]. *)

From S2P Require Import Prelude GoStd.
From stdpp Require Import prelude strings list pretty.
From Stdlib Require Import Ascii ZArith Lia SpecFloat.

Open Scope string_scope.

#[local] Arguments String.append !_ _ / : assert.

(** * UTF-8

    [runes s] cuts a string the way [utf8.DecodeRuneInString] walks it: an
    ASCII byte, the bytes of a longer rune, or a byte that starts no valid
    encoding. *)
#[warnings="-register-all"]
Inductive rune : Type :=
| Byte (a : ascii)
| Multi (s : string)
| Bad (a : ascii).

Definition within (lo hi : nat) (a : ascii) : bool :=
  (lo <=? byte_of a)%nat && (byte_of a <=? hi)%nat.
Definition cont : ascii → bool := within 128 191.

Definition two_bytes (a b : ascii) : bool := within 194 223 a && cont b.

Definition three_bytes (a b c : ascii) : bool :=
  (within 224 224 a && within 160 191 b
   || (within 225 236 a || within 238 239 a) && cont b
   || within 237 237 a && within 128 159 b) && cont c.

Definition four_bytes (a b c d : ascii) : bool :=
  (within 240 240 a && within 144 191 b
   || within 241 243 a && cont b
   || within 244 244 a && within 128 143 b) && cont c && cont d.

Fixpoint runes (s : string) : list rune :=
  match s with
  | EmptyString => []
  | String a s1 =>
      if (byte_of a <? 128)%nat then Byte a :: runes s1
      else match s1 with
      | String b s2 =>
          if two_bytes a b then Multi (String a (String b "")) :: runes s2
          else match s2 with
          | String c s3 =>
              if three_bytes a b c then Multi (String a (String b (String c ""))) :: runes s3
              else match s3 with
              | String d s4 =>
                  if four_bytes a b c d
                  then Multi (String a (String b (String c (String d "")))) :: runes s4
                  else Bad a :: runes s1
              | EmptyString => Bad a :: runes s1
              end
          | EmptyString => Bad a :: runes s1
          end
      | EmptyString => [Bad a]
      end
  end.

Definition rune_bytes (r : rune) : string :=
  match r with Byte a | Bad a => String a "" | Multi s => s end.

Fixpoint render (l : list rune) : string :=
  match l with [] => "" | r :: l => rune_bytes r +:+ render l end.

Definition good_rune (r : rune) : bool :=
  match r with
  | Byte a => (byte_of a <? 128)%nat
  | Multi (String a (String b "")) => two_bytes a b
  | Multi (String a (String b (String c ""))) => negb (two_bytes a b) && three_bytes a b c
  | Multi (String a (String b (String c (String d "")))) =>
      negb (two_bytes a b) && negb (three_bytes a b c) && four_bytes a b c d
  | _ => false
  end.

(** [utf8.ValidString] *)
Definition valid_utf8 (s : string) : bool := forallb good_rune (runes s).

(** [utf8.AppendRune] for a code point below 2^21; surrogates are replaced. *)
Definition chr (z : Z) : ascii := ascii_of_nat (Z.to_nat z).
Definition rune_error : string := bytes [239; 191; 189].
Definition utf8_encode (r : Z) : string :=
  let low (n : Z) := chr (128 + Z.land (Z.shiftr r n) 63) in
  if (r <? 128)%Z then String (chr r) ""
  else if (r <? 2048)%Z then String (chr (192 + Z.shiftr r 6)) (String (low 0%Z) "")
  else if (55296 <=? r)%Z && (r <=? 57343)%Z then rune_error
  else if (r <? 65536)%Z then
    String (chr (224 + Z.shiftr r 12)) (String (low 6%Z) (String (low 0%Z) ""))
  else String (chr (240 + Z.shiftr r 18)) (String (low 12%Z) (String (low 6%Z) (String (low 0%Z) ""))).

(** * JSON string literals *)
Definition BACKSLASH : ascii := "092"%char.

Definition hex_char (z : Z) : ascii :=
  if (z <? 10)%Z then chr (48 + z) else chr (87 + z).

Definition hex_digit (a : ascii) : option Z :=
  if within 48 57 a then Some (Z.of_nat (byte_of a) - 48)%Z
  else if within 97 102 a then Some (Z.of_nat (byte_of a) - 87)%Z
  else if within 65 70 a then Some (Z.of_nat (byte_of a) - 55)%Z
  else None.

Definition u_escape (z : Z) : list rune :=
  Byte <$> [BACKSLASH; "u"%char; hex_char (Z.land (Z.shiftr z 12) 15); hex_char (Z.land (Z.shiftr z 8) 15);
            hex_char (Z.land (Z.shiftr z 4) 15); hex_char (Z.land z 15)].

(** [appendString] with escapeHTML, rune by rune *)
Definition escape_rune (r : rune) : list rune :=
  match r with
  | Byte a =>
      let esc (c : ascii) := [Byte BACKSLASH; Byte c] in
      let n := byte_of a in
      if (n =? 34)%nat || (n =? 92)%nat then esc a
      else if (n =? 8)%nat then esc "b"%char
      else if (n =? 12)%nat then esc "f"%char
      else if (n =? 10)%nat then esc "n"%char
      else if (n =? 13)%nat then esc "r"%char
      else if (n =? 9)%nat then esc "t"%char
      else if (n <? 32)%nat || (n =? 60)%nat || (n =? 62)%nat || (n =? 38)%nat
      then u_escape (Z.of_nat n)
      else [Byte a]
  | Multi s =>
      if String.eqb s (bytes [226; 128; 168]) then u_escape 8232
      else if String.eqb s (bytes [226; 128; 169]) then u_escape 8233
      else [Multi s]
  | Bad _ => u_escape 65533
  end.

(** [json.Marshal] of a string *)
Definition json_string (s : string) : string :=
  render (Byte DQUOTE :: (runes s ≫= escape_rune) ++ [Byte DQUOTE]).

Definition hex4 (h1 h2 h3 h4 : ascii) : option Z :=
  a ← hex_digit h1; b ← hex_digit h2; c ← hex_digit h3; d ← hex_digit h4;
  Some (a * 4096 + b * 256 + c * 16 + d)%Z.

Definition simple_escape (a : ascii) : option ascii :=
  let n := byte_of a in
  if (n =? 34)%nat || (n =? 92)%nat || (n =? 47)%nat then Some a
  else if (n =? 98)%nat then Some (chr 8)
  else if (n =? 102)%nat then Some (chr 12)
  else if (n =? 110)%nat then Some NL
  else if (n =? 114)%nat then Some CR
  else if (n =? 116)%nat then Some TAB
  else None.

Definition is_surrogate (r : Z) : bool := (55296 <=? r)%Z && (r <=? 57343)%Z.
Definition surrogate_pair (r1 r2 : Z) : option Z :=
  if (55296 <=? r1)%Z && (r1 <? 56320)%Z && (56320 <=? r2)%Z && (r2 <? 57344)%Z
  then Some ((r1 - 55296) * 1024 + (r2 - 56320) + 65536)%Z else None.

(** The inside of a literal up to its closing quote, which must be the end. *)
Fixpoint unquote_runes (l : list rune) : option string :=
  match l with
  | [] => None
  | Byte a :: l1 =>
      if Ascii.eqb a DQUOTE then match l1 with [] => Some "" | _ => None end
      else if Ascii.eqb a BACKSLASH then
        match l1 with
        | Byte e :: l2 =>
            match simple_escape e with
            | Some c => String c <$> unquote_runes l2
            | None =>
                if Ascii.eqb e "u"%char then
                  match l2 with
                  | Byte h1 :: Byte h2 :: Byte h3 :: Byte h4 :: l3 =>
                      r ← hex4 h1 h2 h3 h4;
                      if is_surrogate r then
                        match l3 with
                        | Byte b :: Byte u :: Byte g1 :: Byte g2 :: Byte g3 :: Byte g4 :: l4 =>
                            match (if Ascii.eqb b BACKSLASH && Ascii.eqb u "u"%char
                                   then hex4 g1 g2 g3 g4 ≫= surrogate_pair r else None) with
                            | Some r => String.append (utf8_encode r) <$> unquote_runes l4
                            | None => String.append rune_error <$> unquote_runes l3
                            end
                        | _ => String.append rune_error <$> unquote_runes l3
                        end
                      else String.append (utf8_encode r) <$> unquote_runes l3
                  | _ => None
                  end
                else None
            end
        | _ => None
        end
      else if (byte_of a <? 32)%nat then None
      else String a <$> unquote_runes l1
  | Multi s :: l1 => String.append s <$> unquote_runes l1
  | Bad _ :: l1 => String.append rune_error <$> unquote_runes l1
  end.

(** [json.Unmarshal] of a string literal *)
Definition json_unstring (t : string) : option string :=
  match runes t with
  | Byte q :: l => if Ascii.eqb q DQUOTE then unquote_runes l else None
  | _ => None
  end.

(** * encoding/hex, EncodeToString *)
Fixpoint hex_Encode (s : string) : string :=
  match s with
  | EmptyString => ""
  | String a s =>
      let n := Z.of_nat (byte_of a) in
      String (hex_char (Z.shiftr n 4)) (String (hex_char (Z.land n 15)) (hex_Encode s))
  end.

(** * time.ParseDuration *)

(** The leading digits, as in [leadingInt]: [None] when 1<<63 is exceeded. *)
Fixpoint leadingInt (s : string) (x : Z) : option (Z * string) :=
  match s with
  | String a s' =>
      if is_digit a then
        if (two63 / 10 <? x)%Z then None
        else let x := (x * 10 + digit_val a)%Z in
             if (two63 <? x)%Z then None else leadingInt s' x
      else Some (x, s)
  | EmptyString => Some (x, s)
  end.

(** [leadingFraction]: value, number of digits in it (scale is their power of
    ten) and the rest; digits that no longer fit are skipped. *)
Fixpoint leadingFraction (s : string) (x : Z) (scale : nat) (overflow : bool) : Z * nat * string :=
  match s with
  | String a s' =>
      if is_digit a then
        if overflow then leadingFraction s' x scale true
        else if ((two63 - 1) / 10 <? x)%Z then leadingFraction s' x scale true
        else let y := (x * 10 + digit_val a)%Z in
             if (two63 <? y)%Z then leadingFraction s' x scale true
             else leadingFraction s' y (S scale) false
      else (x, scale, s)
  | EmptyString => (x, scale, s)
  end.

(** The unit: everything up to a dot or a digit. *)
Fixpoint leading_unit (s : string) : string * string :=
  match s with
  | String a s' =>
      if Ascii.eqb a "."%char || is_digit a then ("", s)
      else let '(u, r) := leading_unit s' in (String a u, r)
  | EmptyString => ("", s)
  end.

Definition unitMap : list (string * Z) :=
  [("ns", 1%Z); ("us", 1000%Z); (bytes [194; 181; 115], 1000%Z); (bytes [206; 188; 115], 1000%Z);
   ("ms", Millisecond); ("s", Second); ("m", Minute); ("h", Hour)].

Definition find_unit (u : string) : option Z :=
  match list_find (λ e, e.1 = u) unitMap with Some (_, (_, z)) => Some z | None => None end.

(** float64 arithmetic; [to_float] rounds to nearest even. *)
Definition to_float (z : Z) : spec_float := binary_normalize 53 1024 z 0 false.
Definition float_floor (f : spec_float) : Z :=
  match f with
  | S754_finite false m e => if (0 <=? e)%Z then Z.shiftl (Zpos m) e else Z.shiftr (Zpos m) (- e)
  | _ => 0%Z
  end.

(** uint64(float64(f) * (float64(unit) / scale)) *)
Definition fraction_part (f unit : Z) (scale : nat) : Z :=
  float_floor (SFmul 53 1024 (to_float f)
    (SFdiv 53 1024 (to_float unit) (to_float (10 ^ Z.of_nat scale)))).

(** The fraction behind a dot, the rest, and whether it has digits. *)
Definition optional_fraction (s1 : string) : Z * nat * string * bool :=
  match s1 with
  | String "." s1' =>
      let '(f, scale, s2) := leadingFraction s1' 0 0 false in
      (f, scale, s2, negb (String.length s1' =? String.length s2)%nat)
  | _ => (0%Z, O, s1, false)
  end.

(** One number with its unit; [None] is a syntax error or an overflow. *)
Definition parse_component (s : string) : option (Z * string) :=
  match s with
  | String a _ =>
      if Ascii.eqb a "."%char || is_digit a then
        '(v, s1) ← leadingInt s 0;
        let pre := negb (String.length s =? String.length s1)%nat in
        let '(f, scale, s2, post) := optional_fraction s1 in
        if pre || post then
          let '(u, s3) := leading_unit s2 in
          if decide (u = "") then None
          else
            unit ← find_unit u;
            if (two63 / unit <? v)%Z then None
            else
              let v := (v * unit)%Z in
              if (0 <? f)%Z then
                let v := (v + fraction_part f unit scale)%Z in
                if (two63 <? v)%Z then None else Some (v, s3)
              else Some (v, s3)
        else None
      else None
  | EmptyString => None
  end.

(** Every component takes at least one byte: the length is fuel enough. *)
Fixpoint parse_components (fuel : nat) (s : string) (d : Z) : option Z :=
  match s with
  | EmptyString => Some d
  | _ =>
      match fuel with
      | O => None
      | S n =>
          '(v, s') ← parse_component s;
          let d := (d + v)%Z in
          if (two63 <? d)%Z then None else parse_components n s' d
      end
  end.

(** The value and whether err is nil; on an error the value is 0. *)
Definition ParseDuration (s : string) : Z * bool :=
  let '(neg, s') := match s with
                    | String "-" s' => (true, s')
                    | String "+" s' => (false, s')
                    | _ => (false, s)
                    end in
  if decide (s' = "0") then (0%Z, true)
  else if decide (s' = "") then (0%Z, false)
  else match parse_components (String.length s') s' 0 with
       | None => (0%Z, false)
       | Some d =>
           if neg then ((- d)%Z, true)
           else if (two63 - 1 <? d)%Z then (0%Z, false) else (d, true)
       end.

Example ParseDuration_examples :
  ParseDuration "1m30s" = (90 * Second, true)%Z ∧ ParseDuration "-1.5h" = (- 5400 * Second, true)%Z ∧
  ParseDuration "60000" = (0, false)%Z ∧ ParseDuration ".25us" = (250, true)%Z ∧
  ParseDuration "-9223372036854775808ns" = (- two63, true)%Z ∧
  ParseDuration "9223372036854775808ns" = (0, false)%Z.
Proof. by_decide. Qed.

(** [Duration.Microseconds] *)
Definition Microseconds (d : Z) : Z := Z.quot d 1000.

(** * net.SplitHostPort *)
Fixpoint IndexByte (s : string) (c : ascii) : option nat :=
  match s with
  | EmptyString => None
  | String a s => if Ascii.eqb a c then Some O else S <$> IndexByte s c
  end.

Fixpoint LastIndexByte (s : string) (c : ascii) : option nat :=
  match s with
  | EmptyString => None
  | String a s =>
      match LastIndexByte s c with
      | Some n => Some (S n)
      | None => if Ascii.eqb a c then Some O else None
      end
  end.

(** s[a:b] and s[a:] for bounds that hold *)
Definition slice (s : string) (a b : nat) : string := String.substring a (b - a) s.
Definition slice_from (s : string) (a : nat) : string := slice s a (String.length s).

Definition SplitHostPort (hostport : string) : res string (string * string) :=
  match LastIndexByte hostport ":" with
  | None => Err "missing port in address"
  | Some i =>
      '(host, j, k) ←
        (if decide (String.get 0 hostport = Some "["%char) then
           match IndexByte hostport "]" with
           | None => Err "missing ']' in address"
           | Some end_ =>
               if (end_ + 1 =? String.length hostport)%nat then Err "missing port in address"
               else if (end_ + 1 =? i)%nat then Ok (slice hostport 1 end_, 1%nat, (end_ + 1)%nat)
               else if decide (String.get (end_ + 1) hostport = Some ":"%char)
                    then Err "too many colons in address" else Err "missing port in address"
           end
         else
           let host := slice hostport 0 i in
           if contains_char ":" host then Err "too many colons in address"
           else Ok (host, O, O));
      if contains_char "[" (slice_from hostport j) then Err "unexpected '[' in address"
      else if contains_char "]" (slice_from hostport k) then Err "unexpected ']' in address"
      else Ok (host, slice_from hostport (i + 1))
  end.

(** * Lemmas *)

Lemma string_app_nil_r (s : string) : s +:+ "" = s.
Proof. induction s; simpl; congruence. Qed.

(** ** UTF-8 *)
Lemma render_app l k : render (l ++ k) = render l +:+ render k.
Proof. induction l as [|r l IH]; simpl; [done|]. by rewrite IH, string_app_assoc. Qed.

(** Induction over the suffixes that [runes] visits. *)
Lemma string_suffix_ind (P : string → Prop) :
  (∀ s, (∀ t, (String.length t < String.length s)%nat → P t) → P s) → ∀ s, P s.
Proof.
  intros H s. remember (String.length s) as n eqn:Hn. revert s Hn.
  induction (lt_wf n) as [n _ IH]. intros s ->. apply H. intros t Ht. by eapply IH.
Qed.

Lemma render_runes s : render (runes s) = s.
Proof.
  induction s as [s IH] using string_suffix_ind. destruct s as [|a s]; [done|]. cbn [runes].
  repeat case_match; subst; cbn [render rune_bytes String.append]; repeat f_equal; try done;
    apply IH; simpl; lia.
Qed.

(** An ASCII byte starts no longer rune, so good runes are found again. *)
(** The first byte of a longer rune is not ASCII. *)
Lemma not_ascii lo hi a : (128 ≤ lo)%nat → within lo hi a = true → (byte_of a <? 128)%nat = false.
Proof.
  intros Hlo [H%Nat.leb_le _]%andb_prop. apply Nat.ltb_ge. lia.
Qed.

#[local] Ltac first_byte H :=
  unfold two_bytes, three_bytes, four_bytes in H; bool_to_prop;
  match goal with W : within _ _ ?a = true |- (byte_of ?a <? 128)%nat = false =>
    eapply (not_ascii _ _ _ _ W) end.

Lemma runes_cons r t : good_rune r = true → runes (rune_bytes r +:+ t) = r :: runes t.
Proof.
  destruct r as [a|m|a]; [|destruct m as [|a [|b [|c [|d [|e m]]]]]|];
    cbn [good_rune rune_bytes String.append runes]; try done.
  - by intros ->.
  - intros H2. assert ((byte_of a <? 128)%nat = false) as ->; [|by rewrite H2]. first_byte H2.
  - intros [H2%negb_true_iff H3]%andb_prop.
    assert ((byte_of a <? 128)%nat = false) as ->; [|by rewrite H2, H3]. clear H2. first_byte H3.
  - intros [[H2%negb_true_iff H3%negb_true_iff]%andb_prop H4]%andb_prop.
    assert ((byte_of a <? 128)%nat = false) as ->; [|by rewrite H2, H3, H4].
    clear H2 H3. first_byte H4.
  Unshelve. all: lia.
Qed.

Lemma runes_render l : forallb good_rune l = true → runes (render l) = l.
Proof.
  induction l as [|r l IH]; [done|]. intros [Hr Hl]%andb_prop. cbn [render].
  by rewrite runes_cons, IH.
Qed.

(** ** JSON strings *)
Lemma escape_rune_good r : good_rune r = true → forallb good_rune (escape_rune r) = true.
Proof.
  destruct r as [a|m|a]; [| |done].
  - destruct a as [[] [] [] [] [] [] [] []]; (discriminate || reflexivity).
  - intros Hm. unfold escape_rune. repeat case_match; [done|done|]. cbn [forallb]. by rewrite Hm.
Qed.

Lemma unquote_escape r k :
  good_rune r = true →
  unquote_runes (escape_rune r ++ k) = String.append (rune_bytes r) <$> unquote_runes k.
Proof.
  destruct r as [a|m|a]; [| |done].
  - destruct a as [[] [] [] [] [] [] [] []]; (discriminate || reflexivity).
  - intros Hm. unfold escape_rune.
    destruct (String.eqb_spec m (bytes [226; 128; 168])) as [->|]; [reflexivity|].
    destruct (String.eqb_spec m (bytes [226; 128; 169])) as [->|]; reflexivity.
Qed.

(** A JSON literal of a valid string decodes to it again. *)
Lemma json_string_roundtrip s : valid_utf8 s = true → json_unstring (json_string s) = Some s.
Proof.
  intros Hs. unfold json_unstring, json_string.
  assert (forallb good_rune (Byte DQUOTE :: (runes s ≫= escape_rune) ++ [Byte DQUOTE]) = true) as Hg.
  { cbn [forallb app]. rewrite forallb_app. apply andb_true_intro. split; [done|].
    apply andb_true_intro. split; [|done]. revert Hs. unfold valid_utf8.
    induction (runes s) as [|r l IH]; [done|]. intros [Hr Hl]%andb_prop.
    rewrite bind_cons, forallb_app, escape_rune_good, IH by done. done. }
  rewrite runes_render by done. cbn [app Ascii.eqb Bool.eqb DQUOTE].
  rewrite <- (render_runes s) at 2. revert Hs. clear Hg. unfold valid_utf8.
  induction (runes s) as [|r l IH]; [done|]. intros [Hr Hl]%andb_prop. cbn [render].
  rewrite bind_cons, <- app_assoc, unquote_escape by done. by rewrite IH.
Qed.

(** ** Durations *)
Lemma leadingInt_length s x v r :
  leadingInt s x = Some (v, r) → (String.length r ≤ String.length s)%nat.
Proof.
  revert x. induction s as [|a s IH]; intros x; cbn [leadingInt]; [by intros [= _ <-]|].
  repeat case_match; try done; [|by intros [= _ <-]]. intros H'%IH. simpl. lia.
Qed.

Lemma leadingInt_nonneg s x v r : (0 ≤ x)%Z → leadingInt s x = Some (v, r) → (0 ≤ v)%Z.
Proof.
  revert x. induction s as [|a s IH]; intros x Hx; cbn [leadingInt]; [by intros [= <- _]|].
  destruct (is_digit a) eqn:Ha; [|by intros [= <- _]]. repeat case_match; try done.
  apply IH. unfold digit_val. unfold is_digit in Ha. bool_to_prop. apply Nat.leb_le in H1. lia.
Qed.

Lemma leadingFraction_length s x sc o f sc' r :
  leadingFraction s x sc o = (f, sc', r) → (String.length r ≤ String.length s)%nat.
Proof.
  revert x sc o. induction s as [|a s IH]; intros x sc o; cbn [leadingFraction]; [by intros [= _ _ <-]|].
  repeat case_match; try (intros H'%IH; simpl; lia). by intros [= _ _ <-].
Qed.

Lemma optional_fraction_length s f sc r post :
  optional_fraction s = (f, sc, r, post) → (String.length r ≤ String.length s)%nat.
Proof.
  unfold optional_fraction. destruct s as [|a s]; [by intros [= _ _ <- _]|].
  destruct (leadingFraction s 0 0 false) as [[f' sc'] r'] eqn:Hl. apply leadingFraction_length in Hl.
  destruct a as [[] [] [] [] [] [] [] []]; intros [= _ _ <- _]; simpl; lia.
Qed.

Lemma leading_unit_length s u r :
  leading_unit s = (u, r) → (String.length s = String.length u + String.length r)%nat.
Proof.
  revert u. induction s as [|a s IH]; intros u; cbn [leading_unit]; [by intros [= <- <-]|].
  case_match; [by intros [= <- <-]|]. destruct (leading_unit s) as [u' r'].
  intros [= <- <-]. simpl. by rewrite (IH u').
Qed.

Lemma float_floor_nonneg f : (0 ≤ float_floor f)%Z.
Proof.
  destruct f as [s|s| |[] m e]; cbn [float_floor]; try lia.
  case_match; [apply Z.shiftl_nonneg|apply Z.shiftr_nonneg]; lia.
Qed.

Lemma find_unit_pos u z : find_unit u = Some z → (0 < z)%Z.
Proof.
  unfold find_unit. destruct (list_find _ _) as [[i [w z']]|] eqn:H; [|done]. intros [= <-].
  apply list_find_Some in H as (Hi & _ & _).
  assert (Forall (λ e, 0 < e.2)%Z unitMap) as Hf by by_decide.
  rewrite Forall_forall in Hf. by apply (Hf (w, z')), list_elem_of_lookup; exists i.
Qed.

Lemma parse_component_spec s v r :
  parse_component s = Some (v, r) →
  (0 ≤ v ≤ two63)%Z ∧ (String.length r < String.length s)%nat.
Proof.
  destruct s as [|a s]; [done|]. cbn [parse_component]. case_match; [|done].
  destruct (leadingInt (String a s) 0) as [[v0 s1]|] eqn:Hl; [|done]. cbn [mbind option_bind].
  pose proof (leadingInt_length _ _ _ _ Hl) as L1.
  pose proof (leadingInt_nonneg _ 0 _ _ ltac:(lia) Hl) as N1. clear Hl.
  destruct (optional_fraction s1) as [[[f sc] s2] post] eqn:Hof.
  apply optional_fraction_length in Hof. case_match; [|done].
  destruct (leading_unit s2) as [u s3] eqn:Hu. apply leading_unit_length in Hu.
  case_decide as Hne; [done|]. destruct (find_unit u) as [unit|] eqn:Hf; [|done].
  apply find_unit_pos in Hf. cbn [mbind option_bind].
  assert (0 < String.length u)%nat by (destruct u; [done|simpl; lia]).
  destruct (two63 / unit <? v0)%Z eqn:Hov; [done|]. apply Z.ltb_ge in Hov.
  assert (v0 * unit ≤ two63)%Z.
  { transitivity (two63 / unit * unit)%Z; [nia|]. pose proof (Z.mul_div_le two63 unit Hf). lia. }
  pose proof (float_floor_nonneg (SFmul 53 1024 (to_float f)
    (SFdiv 53 1024 (to_float unit) (to_float (10 ^ Z.of_nat sc))))).
  unfold fraction_part. repeat case_match; intros [= <- <-]; bool_to_prop; split; try lia; nia.
Qed.

(** The length of the text is fuel enough: more does not change the result. *)
Lemma parse_components_fuel n s d :
  (String.length s ≤ n)%nat → parse_components n s d = parse_components (String.length s) s d.
Proof.
  enough (∀ m n s d, (String.length s ≤ m)%nat → (String.length s ≤ n)%nat →
    parse_components n s d = parse_components m s d) as H by (intros; by apply H).
  clear. induction m as [|m IH]; intros n s d Hm Hn; destruct s as [|a s]; cbn [parse_components];
    try (by destruct n); [simpl in Hm; lia|]. destruct n as [|n]; [simpl in Hn; lia|].
  cbn [parse_components]. destruct (parse_component _) as [[v r]|] eqn:Hp; [|done].
  apply parse_component_spec in Hp as [_ Hr]. cbn [mbind option_bind].
  case_match; [done|]. apply IH; simpl in *; lia.
Qed.

Lemma parse_components_bounds n s d v :
  (0 ≤ d)%Z → parse_components n s d = Some v → (d ≤ v)%Z ∧ (v ≤ two63 ∨ v = d)%Z.
Proof.
  revert s d. induction n as [|n IH]; intros s d Hd; destruct s as [|a s]; cbn [parse_components];
    try done; try (intros [= <-]; lia).
  destruct (parse_component _) as [[w r]|] eqn:Hp; [|done]. cbn [mbind option_bind].
  apply parse_component_spec in Hp as [Hw _]. case_match eqn:Ho; [done|]. bool_to_prop.
  intros H%IH; lia.
Qed.

(** A parsed duration fits in 64 bits; an error is 0. *)
Lemma ParseDuration_int64 s : int64 (ParseDuration s).1.
Proof.
  unfold ParseDuration. destruct (match s with String _ _ => _ | _ => _ end) as [neg t].
  do 2 (case_decide; [split; simpl; unfold two63; lia|]).
  destruct (parse_components _ t 0) as [d|] eqn:Hd; [|split; simpl; unfold two63; lia].
  apply parse_components_bounds in Hd; [|done]. unfold int64, two63 in *.
  repeat case_match; bool_to_prop; simpl; lia.
Qed.

(** ** Addresses *)
Lemma contains_char_app c s t : contains_char c (s +:+ t) = contains_char c s || contains_char c t.
Proof. induction s as [|a s IH]; simpl; [done|]. by rewrite IH, orb_assoc. Qed.

Lemma LastIndexByte_None s c : contains_char c s = false → LastIndexByte s c = None.
Proof.
  induction s as [|a s IH]; simpl; [done|]. intros [-> Hs]%orb_false_iff. by rewrite IH.
Qed.

Lemma LastIndexByte_app s t c :
  contains_char c t = false → LastIndexByte (s +:+ String c t) c = Some (String.length s).
Proof.
  intros Ht. induction s as [|a s IH]; simpl.
  - by rewrite LastIndexByte_None, Ascii.eqb_refl.
  - by rewrite IH.
Qed.

Lemma IndexByte_app s t c :
  contains_char c s = false → IndexByte (s +:+ String c t) c = Some (String.length s).
Proof.
  induction s as [|a s IH]; simpl; [by rewrite Ascii.eqb_refl|].
  intros [-> Hs]%orb_false_iff. by rewrite IH.
Qed.

Lemma substring_0 s t : String.substring 0 (String.length s) (s +:+ t) = s.
Proof. induction s as [|a s IH]; [by destruct t|]. simpl. by rewrite IH. Qed.

Lemma substring_skip p s n : String.substring (String.length p) n (p +:+ s) = String.substring 0 n s.
Proof. induction p as [|a p IH]; simpl; [done|]. apply IH. Qed.

Lemma slice_from_app p s : slice_from (p +:+ s) (String.length p) = s.
Proof.
  unfold slice_from, slice. rewrite substring_skip, string_length_app.
  replace (_ - _)%nat with (String.length s) by lia.
  rewrite <- (string_app_nil_r s) at 2. apply substring_0.
Qed.

(** ** Decimal numbers: [strconv.Itoa] and [Atoi] *)
Fixpoint all_digits (s : string) : bool :=
  match s with EmptyString => true | String a s => is_digit a && all_digits s end.

Lemma all_digits_no c s : is_digit c = false → all_digits s = true → contains_char c s = false.
Proof.
  intros Hc. induction s as [|a s IH]; [done|]. intros [Ha Hs]%andb_prop. simpl.
  rewrite IH by done. destruct (Ascii.eqb_spec a c) as [->|]; [congruence|done].
Qed.

Lemma pretty_char_digit x :
  (x < 10)%N → is_digit (pretty_N_char x) = true ∧ digit_val (pretty_N_char x) = Z.of_N x.
Proof.
  intros Hx. assert (x = 0 ∨ x = 1 ∨ x = 2 ∨ x = 3 ∨ x = 4 ∨ x = 5 ∨ x = 6 ∨ x = 7 ∨ x = 8 ∨ x = 9)%N
    as H by lia. naive_solver.
Qed.

Lemma pretty_N_go_digits x s :
  all_digits s = true → all_digits (pretty_N_go x s) = true ∧
  digits (pretty_N_go x s) 0 = digits s (Z.of_N x).
Proof.
  revert s. induction (N.lt_wf_0 x) as [x _ IH]; intros s Hs.
  destruct (decide (x = 0)%N) as [->|Hx]; [by rewrite pretty_N_go_0|].
  destruct (pretty_char_digit (x `mod` 10)) as [Hd Hv]; [by apply N.mod_lt|].
  rewrite pretty_N_go_step by lia.
  destruct (IH (x `div` 10)%N ltac:(apply N.div_lt; lia) (String (pretty_N_char (x `mod` 10)) s))
    as [H1 H2]; [cbn [all_digits]; by rewrite Hd|].
  split; [done|]. rewrite H2. cbn [digits]. rewrite Hd, Hv. f_equal.
  pose proof (N.div_mod x 10 ltac:(done)). lia.
Qed.

Lemma pretty_N_digits x :
  (0 < x)%N → ∃ a s, pretty x = String a s ∧ is_digit a = true ∧ all_digits s = true ∧
    digits (String a s) 0 = Some (Z.of_N x).
Proof.
  intros Hx. unfold pretty, pretty_N. rewrite decide_False by lia.
  destruct (pretty_N_go_digits x "" eq_refl) as [Ha Hd].
  destruct (pretty_N_go x "") as [|a s] eqn:E.
  - simpl in Hd. injection Hd as Hd. lia.
  - apply andb_prop in Ha as [Ha Hs]. by exists a, s.
Qed.

Lemma Atoi_Itoa z : int64 z → Atoi (Itoa z) = (z, true).
Proof.
  intros Hz. unfold Atoi. assert (parse_signed (Itoa z) = Some z) as ->.
  { unfold Itoa. destruct z as [|p|p]; [done|..]; unfold pretty, pretty_Z;
      destruct (pretty_N_digits (N.pos p) ltac:(lia)) as (a & s & E & Ha & _ & Hd).
    - change (parse_signed (pretty (N.pos p)) = Some (Z.pos p)). rewrite E.
      destruct a as [[] [] [] [] [] [] [] []]; try (vm_compute in Ha; discriminate Ha); exact Hd.
    - change (Z.opp <$> parse_digits (pretty (N.pos p)) = Some (Z.neg p)). rewrite E.
      unfold parse_digits. by rewrite Hd. }
  unfold int64 in Hz. repeat case_match; bool_to_prop; done || lia.
Qed.

Lemma Itoa_no c z : is_digit c = false → c ≠ "-"%char → contains_char c (Itoa z) = false.
Proof.
  intros Hc Hm. assert (∀ p, contains_char c (pretty (N.pos p)) = false) as Hp.
  { intros p. destruct (pretty_N_digits (N.pos p) ltac:(lia)) as (a & s & -> & Ha & Hs & _).
    apply all_digits_no; [done|]. cbn [all_digits]. by rewrite Ha. }
  unfold Itoa. destruct z as [|p|p]; unfold pretty, pretty_Z.
  - change (contains_char c "0" = false). apply all_digits_no; done.
  - apply Hp.
  - change (contains_char c ("-" +:+ pretty (N.pos p)) = false). rewrite contains_char_app, Hp.
    rewrite orb_false_r. cbn [contains_char]. rewrite orb_false_r.
    destruct (Ascii.eqb_spec "-"%char c) as [<-|]; [by destruct Hm|done].
Qed.

(** ** SplitHostPort undoes the joining of a host and a port *)
Definition join_host_port (ip port : string) : string :=
  if contains_char ":" ip then "[" +:+ ip +:+ "]:" +:+ port else ip +:+ ":" +:+ port.

Lemma contains_char_substring c s n m :
  contains_char c s = false → contains_char c (String.substring n m s) = false.
Proof.
  revert n m. induction s as [|a s IH]; intros [|n] [|m]; simpl; try done;
    intros [Ha Hs]%orb_false_iff; rewrite ?Ha; by apply IH.
Qed.

Lemma get_0_app (s t : string) c :
  String.get 0 (s +:+ String c t) = Some (match s with String a _ => a | "" => c end).
Proof. by destruct s. Qed.

Lemma slice_to_app p s : slice (p +:+ s) 0 (String.length p) = p.
Proof. unfold slice. by rewrite Nat.sub_0_r, substring_0. Qed.

Lemma contains_char_slice_from c s n :
  contains_char c s = false → contains_char c (slice_from s n) = false.
Proof. apply contains_char_substring. Qed.

Lemma contains_char_cons c a s :
  c ≠ a → contains_char c s = false → contains_char c (String a s) = false.
Proof. intros Hc Hs. simpl. rewrite Hs. by destruct (Ascii.eqb_spec a c) as [->|]. Qed.

(** The bracketed form. *)
Lemma SplitHostPort_bracket ip port :
  contains_char "[" ip = false → contains_char "]" ip = false →
  contains_char ":" port = false → contains_char "[" port = false → contains_char "]" port = false →
  SplitHostPort (String "[" (ip +:+ String "]" (String ":" port))) = Ok (ip, port).
Proof.
  intros Ho Hc P1 P2 P3. set (n := String.length ip).
  set (s := String "[" _).
  assert (s = (String "[" (ip +:+ "]")) +:+ String ":" port) as E1
    by (subst s; cbn [String.append]; by rewrite <- string_app_assoc).
  assert (s = (String "[" (ip +:+ "]:")) +:+ port) as E2
    by (subst s; cbn [String.append]; by rewrite <- string_app_assoc).
  assert (String.length (String "[" (ip +:+ "]")) = (n + 2)%nat) as L1
    by (simpl; rewrite string_length_app; simpl; lia).
  assert (String.length (String "[" (ip +:+ "]:")) = (n + 3)%nat) as L2
    by (simpl; rewrite string_length_app; simpl; lia).
  assert (LastIndexByte s ":" = Some (n + 2)%nat) as HL by (by rewrite E1, LastIndexByte_app, L1).
  assert (IndexByte s "]" = Some (S n)) as HI.
  { subst s. change (S <$> IndexByte (ip +:+ String "]" (String ":" port)) "]" = Some (S n)).
    by rewrite IndexByte_app. }
  assert (String.length s = (n + 3 + String.length port)%nat) as HS
    by (by rewrite E2, string_length_app, L2).
  unfold SplitHostPort. rewrite HL, HI, HS, decide_True by done.
  rewrite (proj2 (Nat.eqb_neq _ _)), (proj2 (Nat.eqb_eq _ _)) by lia. cbn [mbind res_bind].
  assert (slice s 1 (S n) = ip) as ->.
  { subst s. unfold slice. cbn [String.substring]. rewrite Nat.sub_succ, Nat.sub_0_r. apply substring_0. }
  assert (slice_from s (n + 2 + 1) = port) as ->.
  { replace (n + 2 + 1)%nat with (n + 3)%nat by lia. by rewrite E2, <- L2, slice_from_app. }
  assert (slice_from s (S n + 1) = String ":" port) as ->.
  { replace (S n + 1)%nat with (n + 2)%nat by lia. by rewrite E1, <- L1, slice_from_app. }
  assert (slice_from s 1 = ip +:+ String "]" (String ":" port)) as ->
    by apply (slice_from_app "[" (ip +:+ String "]" (String ":" port))).
  by rewrite contains_char_app, Ho, !contains_char_cons.
Qed.

Lemma SplitHostPort_plain ip port :
  contains_char ":" ip = false → contains_char "[" ip = false → contains_char "]" ip = false →
  contains_char ":" port = false → contains_char "[" port = false → contains_char "]" port = false →
  SplitHostPort (ip +:+ String ":" port) = Ok (ip, port).
Proof.
  intros Hcolon Ho Hc P1 P2 P3. unfold SplitHostPort.
  rewrite LastIndexByte_app, slice_to_app, Hcolon by done. rewrite decide_False.
  2:{ rewrite get_0_app. destruct ip as [|a ip]; [done|]. intros [= ->]. done. }
  cbn [mbind res_bind].
  rewrite !contains_char_slice_from by (rewrite contains_char_app, ?Ho, ?Hc; by apply contains_char_cons).
  replace (ip +:+ String ":" port) with ((ip +:+ ":") +:+ port) by (by rewrite <- string_app_assoc).
  replace (String.length ip + 1)%nat with (String.length (ip +:+ ":"))
    by (by rewrite string_length_app).
  by rewrite slice_from_app.
Qed.

Lemma SplitHostPort_join ip port :
  contains_char "[" ip = false → contains_char "]" ip = false →
  contains_char ":" port = false → contains_char "[" port = false → contains_char "]" port = false →
  SplitHostPort (join_host_port ip port) = Ok (ip, port).
Proof.
  intros. unfold join_host_port. destruct (contains_char ":" ip) eqn:Hcolon.
  - by apply SplitHostPort_bracket.
  - by apply SplitHostPort_plain.
Qed.

Lemma SplitHostPort_no_panic hostport : no_panic (SplitHostPort hostport).
Proof.
  unfold SplitHostPort. destruct (LastIndexByte hostport ":") as [i|]; [|done].
  apply no_panic_bind; [by repeat case_match|]. intros [[h j] k] _. by repeat case_match.
Qed.
#[export] Hint Resolve SplitHostPort_no_panic : no_panic.

Lemma Contains_char s c : Contains s (String c "") = contains_char c s.
Proof.
  induction s as [|a s IH]; [done|]. cbn [Contains contains_char]. rewrite IH. f_equal.
  unfold HasPrefix. cbn [GoStd.strip_prefix]. rewrite (Ascii.eqb_sym c a). by destruct (Ascii.eqb a c).
Qed.

Lemma parse_digits_Itoa z : (0 ≤ z)%Z → parse_digits (Itoa z) = Some z.
Proof.
  intros Hz. destruct z as [|p|p]; [done| |lia].
  destruct (pretty_N_digits (N.pos p) ltac:(lia)) as (a & s & E & _ & _ & Hd).
  change (parse_digits (pretty (N.pos p)) = Some (Z.pos p)). rewrite E. exact Hd.
Qed.
