(* ===== verification/Lower.v ===== *)
(** [strings.ToLower] and [strings.EqualFold] on all of UTF-8: each rune of the
    string is mapped by [unicode.ToLower], an invalid byte becomes the
    replacement character; and how lower case agrees with [strings.TrimSpace]. *)

From S2P Require Import Prelude GoStd GoText.
From stdpp Require Import prelude strings list.
From Stdlib Require Import Ascii ZArith Lia.

Open Scope string_scope.

#[local] Arguments String.append !_ _ / : assert.

(** * unicode.ToLower

    The code points from 128 on that have a lower case: those from the first to
    the second in steps of the third differ from theirs by the fourth. *)
Definition lower_ranges : list (Z * Z * Z * Z) := (
  [(192, 214, 1, 32); (216, 222, 1, 32); (256, 302, 2, 1); (304, 304, 1, -199); (306, 310, 2, 1);
  (313, 327, 2, 1); (330, 374, 2, 1); (376, 376, 1, -121); (377, 381, 2, 1); (385, 385, 1, 210);
  (386, 388, 2, 1); (390, 390, 1, 206); (391, 391, 1, 1); (393, 394, 1, 205); (395, 395, 1, 1);
  (398, 398, 1, 79); (399, 399, 1, 202); (400, 400, 1, 203); (401, 401, 1, 1); (403, 403, 1, 205);
  (404, 404, 1, 207); (406, 406, 1, 211); (407, 407, 1, 209); (408, 408, 1, 1); (412, 412, 1, 211);
  (413, 413, 1, 213); (415, 415, 1, 214); (416, 420, 2, 1); (422, 422, 1, 218); (423, 423, 1, 1);
  (425, 425, 1, 218); (428, 428, 1, 1); (430, 430, 1, 218); (431, 431, 1, 1); (433, 434, 1, 217);
  (435, 437, 2, 1); (439, 439, 1, 219); (440, 440, 1, 1); (444, 444, 1, 1); (452, 452, 1, 2);
  (453, 453, 1, 1); (455, 455, 1, 2); (456, 456, 1, 1); (458, 458, 1, 2); (459, 475, 2, 1);
  (478, 494, 2, 1); (497, 497, 1, 2); (498, 500, 2, 1); (502, 502, 1, -97); (503, 503, 1, -56);
  (504, 542, 2, 1); (544, 544, 1, -130); (546, 562, 2, 1); (570, 570, 1, 10795); (571, 571, 1, 1);
  (573, 573, 1, -163); (574, 574, 1, 10792); (577, 577, 1, 1); (579, 579, 1, -195);
  (580, 580, 1, 69); (581, 581, 1, 71); (582, 590, 2, 1); (880, 882, 2, 1); (886, 886, 1, 1);
  (895, 895, 1, 116); (902, 902, 1, 38); (904, 906, 1, 37); (908, 908, 1, 64); (910, 911, 1, 63);
  (913, 929, 1, 32); (931, 939, 1, 32); (975, 975, 1, 8); (984, 1006, 2, 1); (1012, 1012, 1, -60);
  (1015, 1015, 1, 1); (1017, 1017, 1, -7); (1018, 1018, 1, 1); (1021, 1023, 1, -130);
  (1024, 1039, 1, 80); (1040, 1071, 1, 32); (1120, 1152, 2, 1); (1162, 1214, 2, 1);
  (1216, 1216, 1, 15); (1217, 1229, 2, 1); (1232, 1326, 2, 1); (1329, 1366, 1, 48);
  (4256, 4293, 1, 7264); (4295, 4295, 1, 7264); (4301, 4301, 1, 7264); (5024, 5103, 1, 38864);
  (5104, 5109, 1, 8); (7312, 7354, 1, -3008); (7357, 7359, 1, -3008); (7680, 7828, 2, 1);
  (7838, 7838, 1, -7615); (7840, 7934, 2, 1); (7944, 7951, 1, -8); (7960, 7965, 1, -8);
  (7976, 7983, 1, -8); (7992, 7999, 1, -8); (8008, 8013, 1, -8); (8025, 8031, 2, -8);
  (8040, 8047, 1, -8); (8072, 8079, 1, -8); (8088, 8095, 1, -8); (8104, 8111, 1, -8);
  (8120, 8121, 1, -8); (8122, 8123, 1, -74); (8124, 8124, 1, -9); (8136, 8139, 1, -86);
  (8140, 8140, 1, -9); (8152, 8153, 1, -8); (8154, 8155, 1, -100); (8168, 8169, 1, -8);
  (8170, 8171, 1, -112); (8172, 8172, 1, -7); (8184, 8185, 1, -128); (8186, 8187, 1, -126);
  (8188, 8188, 1, -9); (8486, 8486, 1, -7517); (8490, 8490, 1, -8383); (8491, 8491, 1, -8262);
  (8498, 8498, 1, 28); (8544, 8559, 1, 16); (8579, 8579, 1, 1); (9398, 9423, 1, 26);
  (11264, 11311, 1, 48); (11360, 11360, 1, 1); (11362, 11362, 1, -10743); (11363, 11363, 1, -3814);
  (11364, 11364, 1, -10727); (11367, 11371, 2, 1); (11373, 11373, 1, -10780);
  (11374, 11374, 1, -10749); (11375, 11375, 1, -10783); (11376, 11376, 1, -10782);
  (11378, 11378, 1, 1); (11381, 11381, 1, 1); (11390, 11391, 1, -10815); (11392, 11490, 2, 1);
  (11499, 11501, 2, 1); (11506, 11506, 1, 1); (42560, 42604, 2, 1); (42624, 42650, 2, 1);
  (42786, 42798, 2, 1); (42802, 42862, 2, 1); (42873, 42875, 2, 1); (42877, 42877, 1, -35332);
  (42878, 42886, 2, 1); (42891, 42891, 1, 1); (42893, 42893, 1, -42280); (42896, 42898, 2, 1);
  (42902, 42920, 2, 1); (42922, 42922, 1, -42308); (42923, 42923, 1, -42319);
  (42924, 42924, 1, -42315); (42925, 42925, 1, -42305); (42926, 42926, 1, -42308);
  (42928, 42928, 1, -42258); (42929, 42929, 1, -42282); (42930, 42930, 1, -42261);
  (42931, 42931, 1, 928); (42932, 42946, 2, 1); (42948, 42948, 1, -48); (42949, 42949, 1, -42307);
  (42950, 42950, 1, -35384); (42951, 42953, 2, 1); (42960, 42960, 1, 1); (42966, 42968, 2, 1);
  (42997, 42997, 1, 1); (65313, 65338, 1, 32); (66560, 66599, 1, 40); (66736, 66771, 1, 40);
  (66928, 66938, 1, 39); (66940, 66954, 1, 39); (66956, 66962, 1, 39); (66964, 66965, 1, 39);
  (68736, 68786, 1, 64); (71840, 71871, 1, 32); (93760, 93791, 1, 32); (125184, 125217, 1, 34)])%Z.

Definition lower_range (r : Z * Z * Z * Z) : list (Z * Z) :=
  let '(first, last, step, delta) := r in
  (λ i, (first + step * i, first + step * i + delta)%Z) <$> seqZ 0 ((last - first) / step + 1)%Z.

Definition lower_table : list (Z * Z) := lower_ranges ≫= lower_range.

Fixpoint assoc (z : Z) (l : list (Z * Z)) : option Z :=
  match l with [] => None | (k, v) :: l => if (z =? k)%Z then Some v else assoc z l end.

(** [None]: the code point is its own lower case. *)
Definition to_lower (z : Z) : option Z := assoc z lower_table.

(** The code point of the bytes of a rune of more than one byte. *)
Definition low_bits (n : nat) (a : ascii) : Z := (Z.of_nat (byte_of a) mod 2 ^ Z.of_nat n)%Z.
Definition code_point (s : string) : Z :=
  match s with
  | String a (String b "") => low_bits 5 a * 64 + low_bits 6 b
  | String a (String b (String c "")) => (low_bits 4 a * 64 + low_bits 6 b) * 64 + low_bits 6 c
  | String a (String b (String c (String d ""))) =>
      ((low_bits 3 a * 64 + low_bits 6 b) * 64 + low_bits 6 c) * 64 + low_bits 6 d
  | _ => 0
  end%Z.

Definition lower_rune (r : rune) : string :=
  match r with
  | Byte a => String (lower_ascii a) ""
  | Multi s => match to_lower (code_point s) with Some z => utf8_encode z | None => s end
  | Bad _ => rune_error
  end.

(** * strings.ToLower, strings.EqualFold *)
Definition ToLower (s : string) : string := foldr (λ r t, lower_rune r +:+ t) "" (runes s).

(** Case folding where one of the strings is ASCII: beside the letters, the long
    s and the sign of the kelvin fold to ASCII. *)
Definition fold_rune (r : rune) : string :=
  match r with
  | Byte a => String (lower_ascii a) ""
  | Multi s =>
      if (code_point s =? 383)%Z then "s" else if (code_point s =? 8490)%Z then "k" else s
  | Bad _ => rune_error
  end.

(** [EqualFold s t] for a [t] of ASCII bytes, as the program has it. *)
Definition EqualFold (s t : string) : bool := bool_decide (fold_rune <$> runes s = fold_rune <$> runes t).

Example ToLower_examples :
  ToLower "VMess" = "vmess" ∧ ToLower (bytes [195; 137; 84; 196; 176]) = bytes [195; 169; 116; 105] ∧
  ToLower (bytes [226; 132; 170; 67; 80; 255]) = bytes [107; 99; 112; 239; 191; 189] ∧
  EqualFold "LOCALHOST" "localhost" = true ∧
  EqualFold (bytes [108; 111; 99; 97; 108; 104; 111; 197; 191; 116]) "localhost" = true ∧
  EqualFold "localhos" "localhost" = false.
Proof. by_decide. Qed.

(** * Lemmas *)
Lemma runes_good s : Forall (λ r, good_rune r = true ∨ ∃ a, r = Bad a) (runes s).
Proof.
  induction s as [s IH] using string_suffix_ind. destruct s as [|a s]; [constructor|]. cbn [runes].
  repeat case_match; subst; (apply List.Forall_cons; [|first [apply List.Forall_nil | apply IH; simpl; lia]]);
    try (right; by eexists);
    left; cbn [good_rune]; by repeat match goal with H : ?x = _ |- context [?x] => rewrite H end.
Qed.

(** ** Every rune has a lower case that is one rune, its own lower case, and a
    space only if it was *)
Definition settled (r : rune) : bool :=
  good_rune r && String.eqb (lower_rune r) (rune_bytes r).
Definition is_space (r : rune) : bool := existsb (String.eqb (rune_bytes r)) space_runes.

Definition lower_ok (z : Z) : bool :=
  match runes (utf8_encode z) with [r] => settled r && negb (is_space r) | _ => false end.

Lemma lower_table_ok : forallb lower_ok lower_table.*2 = true.
Proof. vm_compute. reflexivity. Qed.

Lemma assoc_elem z l v : assoc z l = Some v → v ∈ l.*2.
Proof.
  induction l as [|[k w] l IH]; simpl; [done|]. case_match; [intros [= ->]; left|right; auto].
Qed.

Lemma lower_ascii_ok a :
  (byte_of a <? 128)%nat = true →
  settled (Byte (lower_ascii a)) = true ∧ (is_space (Byte (lower_ascii a)) = true → lower_ascii a = a).
Proof. destruct a as [[] [] [] [] [] [] [] []]; vm_compute; done. Qed.

Lemma lower_rune_spec r :
  good_rune r = true ∨ (∃ a, r = Bad a) →
  ∃ y, lower_rune r = rune_bytes y ∧ settled y = true ∧ (is_space y = true → y = r).
Proof.
  intros [Hr|[a ->]].
  2:{ exists (Multi rune_error). split; [done|]. by vm_compute. }
  destruct r as [a|s|a]; [| |done].
  - destruct (lower_ascii_ok a Hr) as [H1 H2]. exists (Byte (lower_ascii a)).
    split; [done|]. split; [exact H1|]. intros Hs. by rewrite H2.
  - cbn [lower_rune]. destruct (to_lower (code_point s)) as [z|] eqn:Hz.
    + assert (lower_ok z = true) as Hok.
      { pose proof lower_table_ok as H. rewrite forallb_forall in H. apply H.
        apply list_elem_of_In. by eapply assoc_elem. }
      unfold lower_ok in Hok. destruct (runes (utf8_encode z)) as [|y [|]] eqn:Hy; try done.
      apply andb_prop in Hok as [H1 H2%negb_true_iff]. exists y. split; [|split; [done|congruence]].
      rewrite <- (render_runes (utf8_encode z)), Hy. cbn [render]. apply string_app_nil_r.
    + exists (Multi s). split; [done|]. split; [|done]. unfold settled. rewrite Hr. cbn [lower_rune rune_bytes].
      rewrite Hz. apply String.eqb_refl.
Qed.

Lemma ToLower_runes s :
  ∃ ys, ToLower s = render ys ∧ forallb good_rune ys = true ∧
    Forall2 (λ x y, lower_rune y = rune_bytes y ∧ (is_space y = true → y = x)) (runes s) ys.
Proof.
  unfold ToLower. pose proof (runes_good s) as Hg. induction Hg as [|r l Hr _ (ys & Hy & Hys & IH)].
  - by exists [].
  - destruct (lower_rune_spec r Hr) as (y & Hl & Hs & Hsp). exists (y :: ys). cbn [foldr render forallb].
    apply andb_prop in Hs as [H1 H2%String.eqb_eq]. rewrite Hy, Hl, H1. split; [done|]. split; [done|].
    by constructor.
Qed.

Lemma ToLower_idem s : ToLower (ToLower s) = ToLower s.
Proof.
  destruct (ToLower_runes s) as (ys & -> & Hg & HF). unfold ToLower. rewrite runes_render by done.
  clear Hg. revert HF. generalize (runes s). induction ys as [|y ys IH]; intros l HF; [done|].
  inversion HF as [|x ? l' ? [Hy _] HF']; subst. cbn [foldr render]. rewrite Hy. f_equal. by eapply IH.
Qed.

(** ** Spaces *)
Lemma space_rune_good r : r ∈ space_runes → ∃ y, good_rune y = true ∧ rune_bytes y = r ∧ is_space y = true.
Proof.
  assert (forallb (λ r, match runes r with
    | [y] => good_rune y && String.eqb (rune_bytes y) r && is_space y | _ => false end) space_runes = true) as H
    by (vm_compute; reflexivity).
  intros Hr%list_elem_of_In. rewrite forallb_forall in H. specialize (H r Hr). cbv beta in H.
  destruct (runes r) as [|y [|]]; try done. apply andb_prop in H as [[H1 H2%String.eqb_eq]%andb_prop H3]. by exists y.
Qed.

Lemma strip_space_l_ToLower s : strip_space_l s = None → strip_space_l (ToLower s) = None.
Proof.
  rewrite !strip_space_l_None. intros Hs r t Hr Heq. destruct (ToLower_runes s) as (ys & Hy & Hg & HF).
  destruct (space_rune_good r Hr) as (q & Hq & <- & Hsp).
  assert (ys = q :: runes t) as -> by (by rewrite <- (runes_render ys Hg), <- Hy, Heq, runes_cons).
  inversion HF as [|x ? l ? [_ Hx] _ Hl]; subst. apply (Hs (rune_bytes q) (render l) Hr).
  rewrite <- (render_runes s), <- Hl. cbn [render]. by rewrite Hx.
Qed.

(** A rune's first byte is none of those that continue one. *)
Fixpoint all_cont (s : string) : bool :=
  match s with "" => true | String a s => cont a && all_cont s end.
Definition rune_shape (s : string) : bool :=
  match s with "" => false | String a s => negb (cont a) && all_cont s end.

Lemma within_cont lo hi a : within lo hi a = true → (128 ≤ lo)%nat → (hi ≤ 191)%nat → cont a = true.
Proof.
  intros [H1%Nat.leb_le H2%Nat.leb_le]%andb_prop ? ?. apply andb_true_intro. rewrite !Nat.leb_le. lia.
Qed.

Lemma within_start lo hi a : within lo hi a = true → (191 < lo)%nat → cont a = false.
Proof.
  intros [H1%Nat.leb_le _]%andb_prop ?. apply andb_false_intro2, Nat.leb_gt. lia.
Qed.

Lemma two_bytes_shape a b : two_bytes a b = true → cont a = false ∧ cont b = true.
Proof. intros [H1 H2]%andb_prop. split; [eapply within_start; [exact H1|lia]|done]. Qed.

Lemma three_bytes_shape a b c : three_bytes a b c = true → cont a = false ∧ cont b = true ∧ cont c = true.
Proof.
  intros [[[[H1 H2]%andb_prop|[[H1|H1]%orb_prop H2]%andb_prop]%orb_prop|[H1 H2]%andb_prop]%orb_prop H3]%andb_prop;
    (split; [eapply within_start; [exact H1|lia]|]); (split; [|done]); try done; eapply within_cont; try exact H2; lia.
Qed.

Lemma four_bytes_shape a b c d :
  four_bytes a b c d = true → cont a = false ∧ cont b = true ∧ cont c = true ∧ cont d = true.
Proof.
  intros [[[[[H1 H2]%andb_prop|[H1 H2]%andb_prop]%orb_prop|[H1 H2]%andb_prop]%orb_prop H3]%andb_prop H4]%andb_prop;
    (split; [eapply within_start; [exact H1|lia]|]); (split; [|done]); try done; eapply within_cont; try exact H2; lia.
Qed.

Lemma good_rune_shape r : good_rune r = true → rune_shape (rune_bytes r) = true.
Proof.
  destruct r as [a|m|a]; [|destruct m as [|a [|b [|c [|d [|e m]]]]]|]; try done;
    cbn [good_rune rune_bytes rune_shape all_cont].
  - intros Ha%Nat.ltb_lt. assert (cont a = false) as ->; [|done].
    apply andb_false_intro1, Nat.leb_gt. done.
  - by intros [-> ->]%two_bytes_shape.
  - by intros [_ (-> & -> & ->)%three_bytes_shape]%andb_prop.
  - by intros [_ (-> & -> & -> & ->)%four_bytes_shape]%andb_prop.
Qed.

Lemma all_cont_app s t : all_cont (s +:+ t) = all_cont s && all_cont t.
Proof. induction s as [|a s IH]; simpl; [done|]. by rewrite IH, andb_assoc. Qed.

Lemma shape_not_cont s : rune_shape s = true → all_cont s = false.
Proof. destruct s as [|a s]; [done|]. simpl. by destruct (cont a). Qed.

Lemma last_rune_unique a b u v :
  rune_shape u = true → rune_shape v = true → a +:+ u = b +:+ v → a = b ∧ u = v.
Proof.
  intros Hu Hv. revert b. induction a as [|x a IH]; intros [|y b]; cbn [String.append]; [done|..].
  - intros ->. cbn in Hu. apply andb_prop in Hu as [_ Hu].
    rewrite all_cont_app, (shape_not_cont v), andb_false_r in Hu by done. done.
  - intros <-. cbn in Hv. apply andb_prop in Hv as [_ Hv].
    rewrite all_cont_app, (shape_not_cont u), andb_false_r in Hv by done. done.
  - intros [= -> H]. by destruct (IH b H) as [-> ->].
Qed.

Lemma strip_suffix_app p t : GoStd.strip_suffix p (t +:+ p) ≠ None.
Proof.
  induction t as [|a t IH]; cbn [String.append].
  - destruct p as [|a p]; [done|]. simpl. by rewrite Ascii.eqb_refl, String.eqb_refl.
  - simpl. destruct (String.eqb p (String a (t +:+ p))); [done|].
    by destruct (GoStd.strip_suffix p (t +:+ p)).
Qed.

Lemma strip_space_r_ToLower s : strip_space_r s = None → strip_space_r (ToLower s) = None.
Proof.
  unfold strip_space_r. rewrite !first_some_None. intros Hs o (r & -> & Hr)%list_elem_of_fmap.
  destruct (GoStd.strip_suffix r (ToLower s)) as [t|] eqn:E; [exfalso|done].
  apply GoStd.strip_suffix_Some in E. destruct (ToLower_runes s) as (ys & Hy & Hg & HF).
  destruct (space_rune_good r Hr) as (q & Hq & <- & Hsp). rewrite Hy in E.
  destruct ys as [|y ys _] using rev_ind.
  { apply good_rune_shape in Hq. destruct (rune_bytes q) as [|c ?]; [done|]. by destruct t. }
  apply Forall2_app_inv_r in HF as (l & l' & _ & HF & Hl).
  inversion HF as [|x ? l0 ? [_ Hx] HF0]; subst. inversion HF0; subst.
  rewrite forallb_app in Hg. apply andb_prop in Hg as [_ [Hgy _]%andb_prop].
  rewrite render_app in E. cbn [render] in E. rewrite string_app_nil_r in E.
  apply last_rune_unique in E as [_ E]; [|by apply good_rune_shape..].
  assert (is_space y = true) as Hspy by (unfold is_space; by rewrite E). rewrite <- (Hx Hspy) in Hl.
  apply (strip_suffix_app (rune_bytes q) (render l)).
  apply Hs, list_elem_of_fmap. exists (rune_bytes q). split; [|done]. f_equal.
  rewrite <- (render_runes s), Hl, render_app. cbn [render]. by rewrite string_app_nil_r, E.
Qed.

Lemma TrimSpace_id s : strip_space_l s = None → strip_space_r s = None → TrimSpace s = s.
Proof.
  intros Hl Hr. unfold TrimSpace, TrimLeftSpace. rewrite (iter_strip_None _ _ _ Hl).
  by apply iter_strip_None.
Qed.

#[global] Arguments ToLower : simpl never.
