(* ===== verification/Conf.v ===== *)
(** The configuration structs of src/conf that the modelled components read,
    with their constructors of default values, and the JSON-driven
    [UnmarshalJSON] methods that dispatch on the core type.

    A [json.RawMessage] is its bytes (a [string], empty for nil).  Pointers to
    structs that may be nil are options.  A Go map that may be nil is an
    [option] of a [gmap]. *)

From S2P Require Import Prelude GoStd.
From stdpp Require Import prelude gmap strings.
From Stdlib Require Import ZArith.

Open Scope string_scope.

(** ** src/conf/cert.go *)
Record CertConfig := mkCertConfig {
  cert_CertMode : string;
  cert_RejectUnknownSni : bool;
  cert_SelfFallback : bool;
  cert_CertDomain : string;
  cert_CertFile : string;
  cert_KeyFile : string;
  cert_Provider : string;
  cert_Email : string;
  cert_DNSEnv : option (gmap string string);
}.

Definition NewCertConfig : CertConfig :=
  mkCertConfig "none" false false "" "" "" "" "" None.

(** ** src/conf/limit.go *)
Record DynamicSpeedLimitConfig := mkDynamicSpeedLimitConfig {
  dyn_Periodic : Z;
  dyn_Traffic : Z;
  dyn_SpeedLimit : Z;
  dyn_ExpireTime : Z;
}.

Record RecorderConfig := mkRecorderConfig {
  rec_Url : string; rec_Token : string; rec_Timeout : Z;
}.

Record RedisConfig := mkRedisConfig {
  redis_Address : string; redis_Password : string; redis_Db : Z; redis_Expiry : Z;
}.

Record IpReportConfig := mkIpReportConfig {
  ipr_Periodic : Z;
  ipr_Type : string;
  ipr_RecorderConfig : option RecorderConfig;
  ipr_RedisConfig : option RedisConfig;
  ipr_EnableIpSync : bool;
}.

Record LimitConfig := mkLimitConfig {
  lim_EnableRealtime : bool;
  lim_SpeedLimit : Z;
  lim_IPLimit : Z;
  lim_ConnLimit : Z;
  lim_EnableIpRecorder : bool;
  lim_IpRecorderConfig : option IpReportConfig;
  lim_EnableDynamicSpeedLimit : bool;
  lim_DynamicSpeedLimitConfig : option DynamicSpeedLimitConfig;
}.

Definition LimitConfig_zero : LimitConfig :=
  mkLimitConfig false 0 0 0 false None false None.

(** ** src/conf/xray.go *)
Record FallBackConfigForXray := mkFallBackConfigForXray {
  fb_SNI : string;
  fb_Alpn : string;
  fb_Path : string;
  fb_Dest : string;
  fb_ProxyProtocolVer : Z;
}.

Record XrayOptions := mkXrayOptions {
  xo_EnableProxyProtocol : bool;
  xo_EnableDNS : bool;
  xo_DNSType : string;
  xo_EnableUot : bool;
  xo_EnableTFO : bool;
  xo_DisableIVCheck : bool;
  xo_DisableSniffing : bool;
  xo_EnableFallback : bool;
  xo_FallBackConfigs : option (list FallBackConfigForXray);
}.

Definition NewXrayOptions : XrayOptions :=
  mkXrayOptions false false "AsIs" false false false false false None.

Record XrayLogConfig := mkXrayLogConfig {
  xlog_Level : string; xlog_AccessPath : string; xlog_ErrorPath : string;
}.

Record XrayConnectionConfig := mkXrayConnectionConfig {
  xconn_Handshake : Z; xconn_ConnIdle : Z; xconn_UplinkOnly : Z;
  xconn_DownlinkOnly : Z; xconn_BufferSize : Z;
}.

Record XrayConfig := mkXrayConfig {
  xc_LogConfig : option XrayLogConfig;
  xc_AssetPath : string;
  xc_DnsConfigPath : string;
  xc_RouteConfigPath : string;
  xc_ConnectionConfig : option XrayConnectionConfig;
  xc_InboundConfigPath : string;
  xc_OutboundConfigPath : string;
}.

Definition NewXrayConfig : XrayConfig :=
  mkXrayConfig (Some (mkXrayLogConfig "warning" "" "")) "/etc/V2bZ/" "" ""
    (Some (mkXrayConnectionConfig 4 30 2 4 64)) "" "".

(** ** src/conf/sing.go; DomainStrategy is a type of sing-box *)
Record FallBack := mkFallBack { fall_Server : string; fall_ServerPort : string }.

Record FallBackConfigForSing := mkFallBackConfigForSing {
  fbs_FallBack : FallBack;
  fbs_FallBackForALPN : gmap string FallBack;
}.

Record BrutalOptions := mkBrutalOptions {
  brutal_Enabled : bool; brutal_UpMbps : Z; brutal_DownMbps : Z;
}.

Record MultiplexConfig := mkMultiplexConfig {
  mux_Enabled : bool; mux_Padding : bool; mux_Brutal : BrutalOptions;
}.

Record SingOptions := mkSingOptions {
  so_TCPFastOpen : bool;
  so_SniffEnabled : bool;
  so_SniffOverrideDestination : bool;
  so_EnableDNS : bool;
  so_DomainStrategy : Z;
  so_FallBackConfigs : option FallBackConfigForSing;
  so_Multiplex : option MultiplexConfig;
}.

Definition NewSingOptions : SingOptions :=
  mkSingOptions false true true false 0
    (Some (mkFallBackConfigForSing (mkFallBack "" "") ∅))
    (Some (mkMultiplexConfig false false (mkBrutalOptions false 0 0))).

Record SingLogConfig := mkSingLogConfig {
  slog_Disabled : bool; slog_Level : string; slog_Output : string; slog_Timestamp : bool;
}.

Record SingNtpConfig := mkSingNtpConfig {
  ntp_Enable : bool; ntp_Server : string; ntp_ServerPort : Z;
}.

Record SingConfig := mkSingConfig {
  sc_LogConfig : SingLogConfig; sc_NtpConfig : SingNtpConfig; sc_OriginalPath : string;
}.

Definition NewSingConfig : SingConfig :=
  mkSingConfig (mkSingLogConfig false "error" "" true)
    (mkSingNtpConfig false "time.apple.com" 0) "".

(** ** src/conf/hy.go *)
Record Hysteria2Config := mkHysteria2Config { hc_LogLevel : string }.
Definition NewHysteria2Config : Hysteria2Config := mkHysteria2Config "error".

(** ** src/conf/node.go *)
Record ApiConfig := mkApiConfig {
  api_APIHost : string;
  api_APISendIP : string;
  api_NodeID : Z;
  api_Key : string;
  api_NodeType : string;
  api_Timeout : Z;
  api_RuleListPath : string;
}.

Record Options := mkOptions {
  opt_Name : string;
  opt_Core : string;
  opt_CoreName : string;
  opt_ListenIP : string;
  opt_SendIP : string;
  opt_DeviceOnlineMinTraffic : Z;
  opt_ReportMinTraffic : Z;
  opt_LimitConfig : LimitConfig;
  opt_RawOptions : string;
  opt_XrayOptions : option XrayOptions;
  opt_SingOptions : option SingOptions;
  opt_Hysteria2ConfigPath : string;
  opt_CertConfig : option CertConfig;
}.

Record NodeConfig := mkNodeConfig { nc_ApiConfig : ApiConfig; nc_Options : Options }.

(** Zero value and field updates of [Options]. *)
Definition Options_zero : Options :=
  mkOptions "" "" "" "" "" 0 0 LimitConfig_zero "" None None "" None.

Definition opt_with_Core (c : string) (o : Options) : Options :=
  mkOptions (opt_Name o) c (opt_CoreName o) (opt_ListenIP o) (opt_SendIP o)
    (opt_DeviceOnlineMinTraffic o) (opt_ReportMinTraffic o) (opt_LimitConfig o)
    (opt_RawOptions o) (opt_XrayOptions o) (opt_SingOptions o)
    (opt_Hysteria2ConfigPath o) (opt_CertConfig o).

Definition opt_with_RawOptions (r : string) (o : Options) : Options :=
  mkOptions (opt_Name o) (opt_Core o) (opt_CoreName o) (opt_ListenIP o) (opt_SendIP o)
    (opt_DeviceOnlineMinTraffic o) (opt_ReportMinTraffic o) (opt_LimitConfig o)
    r (opt_XrayOptions o) (opt_SingOptions o)
    (opt_Hysteria2ConfigPath o) (opt_CertConfig o).

Definition opt_with_XrayOptions (x : option XrayOptions) (o : Options) : Options :=
  mkOptions (opt_Name o) (opt_Core o) (opt_CoreName o) (opt_ListenIP o) (opt_SendIP o)
    (opt_DeviceOnlineMinTraffic o) (opt_ReportMinTraffic o) (opt_LimitConfig o)
    (opt_RawOptions o) x (opt_SingOptions o)
    (opt_Hysteria2ConfigPath o) (opt_CertConfig o).

Definition opt_with_SingOptions (x : option SingOptions) (o : Options) : Options :=
  mkOptions (opt_Name o) (opt_Core o) (opt_CoreName o) (opt_ListenIP o) (opt_SendIP o)
    (opt_DeviceOnlineMinTraffic o) (opt_ReportMinTraffic o) (opt_LimitConfig o)
    (opt_RawOptions o) (opt_XrayOptions o) x
    (opt_Hysteria2ConfigPath o) (opt_CertConfig o).

Definition opt_with_CertConfig (c : option CertConfig) (o : Options) : Options :=
  mkOptions (opt_Name o) (opt_Core o) (opt_CoreName o) (opt_ListenIP o) (opt_SendIP o)
    (opt_DeviceOnlineMinTraffic o) (opt_ReportMinTraffic o) (opt_LimitConfig o)
    (opt_RawOptions o) (opt_XrayOptions o) (opt_SingOptions o)
    (opt_Hysteria2ConfigPath o) c.

(** ** json.Unmarshal into these structs

    encoding/json fills a struct by reflection over its tags.  What the methods
    below rely on is a family of decoders, one per struct: given the document
    and the value already in the struct, the new value or the error. *)
Class ConfDecoder := {
  unmarshal_Options : string → Options → res string Options;
  unmarshal_XrayOptions : string → XrayOptions → res string XrayOptions;
  unmarshal_SingOptions : string → SingOptions → res string SingOptions;
  unmarshal_ApiConfig : string → ApiConfig → res string ApiConfig;
}.

Section unmarshal.
Context `{CD : ConfDecoder}.

(** [( *Options).UnmarshalJSON]: the plain struct first, then the options of
    the core it names. *)
Definition Options_UnmarshalJSON (data : string) (o : Options) : res string Options :=
  o ← unmarshal_Options data o;
  if decide (opt_Core o = "xray") then
    x ← unmarshal_XrayOptions data NewXrayOptions;
    mret (opt_with_XrayOptions (Some x) o)
  else if decide (opt_Core o = "sing") then
    x ← unmarshal_SingOptions data NewSingOptions;
    mret (opt_with_SingOptions (Some x) o)
  else if decide (opt_Core o = "hysteria2") then
    mret (opt_with_RawOptions data o)
  else mret (opt_with_RawOptions data (opt_with_Core "" o)).

End unmarshal.

(** ** src/conf/core.go *)
Record CoreConfig := mkCoreConfig {
  cc_Type : string;
  cc_Name : string;
  cc_XrayConfig : option XrayConfig;
  cc_SingConfig : option SingConfig;
  cc_Hysteria2Config : option Hysteria2Config;
}.

Class CoreConfDecoder := {
  unmarshal_CoreConfig : string → CoreConfig → res string CoreConfig;
  unmarshal_XrayConfig : string → XrayConfig → res string XrayConfig;
  unmarshal_SingConfig : string → SingConfig → res string SingConfig;
  unmarshal_Hysteria2Config : string → Hysteria2Config → res string Hysteria2Config;
}.

Definition CoreConfig_UnmarshalJSON `{CoreConfDecoder} (b : string) (c : CoreConfig)
    : res string CoreConfig :=
  c ← unmarshal_CoreConfig b c;
  if decide (cc_Type c = "xray") then
    x ← unmarshal_XrayConfig b NewXrayConfig;
    mret (mkCoreConfig (cc_Type c) (cc_Name c) (Some x) (cc_SingConfig c) (cc_Hysteria2Config c))
  else if decide (cc_Type c = "sing") then
    x ← unmarshal_SingConfig b NewSingConfig;
    mret (mkCoreConfig (cc_Type c) (cc_Name c) (cc_XrayConfig c) (Some x) (cc_Hysteria2Config c))
  else if decide (cc_Type c = "hysteria2") then
    x ← unmarshal_Hysteria2Config b NewHysteria2Config;
    mret (mkCoreConfig (cc_Type c) (cc_Name c) (cc_XrayConfig c) (cc_SingConfig c) (Some x))
  else mret c.

(** ** The rest of src/conf/node.go: [( *NodeConfig).UnmarshalJSON] *)
Record rawNodeConfig := mkRawNodeConfig {
  rn_Include : string; rn_ApiRaw : string; rn_OptRaw : string;
}.

(** What the method does outside the process: fetching a URL, opening a file,
    reading either to its end through [json5.NewTrimNodeReader]. *)
Class IncludeReader := {
  stream : Type;
  http_Get : string → res string stream;
  os_Open : string → res string stream;
  read_all_trimmed : stream → res string string;
  unmarshal_rawNodeConfig : string → rawNodeConfig → res string rawNodeConfig;
}.

Definition include_err {A} : res string A → res string A :=
  map_err (λ e, "open include file error: " +:+ e).

Section node_config.
Context `{ConfDecoder} `{IncludeReader}.

(** The document the node is decoded from, and the raw parts found in it. *)
Definition resolve_include (data : string) : res string (string * rawNodeConfig) :=
  rn ← unmarshal_rawNodeConfig data (mkRawNodeConfig "" "" "");
  if decide (rn_Include rn = "") then mret (data, rn)
  else
    let file := TrimPrefix (rn_Include rn) ":" in
    r ← (if decide (file = "http" ∨ file = "https") then http_Get file
         else include_err (os_Open (rn_Include rn)));
    data ← include_err (read_all_trimmed r);
    rn ← map_err (λ e, "unmarshal include file error: " +:+ e) (unmarshal_rawNodeConfig data rn);
    mret (data, rn).

Definition ApiConfig_default : ApiConfig :=
  mkApiConfig "http://127.0.0.1" "" 0 "" "" 30 "".

Definition Options_default : Options :=
  mkOptions "" "" "" "0.0.0.0" "0.0.0.0" 0 0 LimitConfig_zero "" None None ""
    (Some NewCertConfig).

Definition NodeConfig_UnmarshalJSON (data : string) : res string NodeConfig :=
  '(data, rn) ← resolve_include data;
  api ← unmarshal_ApiConfig
          (if decide (rn_ApiRaw rn = "") then data else rn_ApiRaw rn) ApiConfig_default;
  opt ← Options_UnmarshalJSON
          (if decide (rn_OptRaw rn = "") then data else rn_OptRaw rn) Options_default;
  mret (mkNodeConfig api opt).

End node_config.
