(* ===== verification/Panel.v ===== *)
(** The data types of src/api/panel: what the panel sends (users, nodes, TLS
    settings) and what the node reports.

    A decoded JSON document is a [json] tree.  A JSON number is a float64,
    modelled by the exact binary floating-point values of [SpecFloat]
    (precision 53, maximal exponent 1024). *)

From S2P Require Import Prelude GoStd Conf.
From stdpp Require Import prelude gmap strings.
From Stdlib Require Import ZArith.
From Stdlib Require Import Ascii SpecFloat.

Open Scope string_scope.

(** ** interface{} as encoding/json decodes it *)
#[warnings="-register-all"]
Inductive json : Type :=
| JNull
| JBool (b : bool)
| JNum (f : spec_float)
| JStr (s : string)
| JArr (l : list json)
| JObj (m : gmap string json).

(** ** src/api/panel/user.go *)
Record OnlineUser := mkOnlineUser { online_UID : Z; online_IP : string }.

Record UserInfo := mkUserInfo {
  user_Id : Z;
  user_Uuid : string;
  user_SpeedLimit : Z;
  user_DeviceLimit : Z;
}.

Record UserTraffic := mkUserTraffic {
  traffic_UID : Z;
  traffic_Upload : Z;
  traffic_Download : Z;
}.

Record CertReport := mkCertReport {
  report_Status : string;
  report_Target : string;
  report_Mode : string;
  report_Source : string;
  report_SHA256 : string;
  report_NotAfter : Z;
  report_Error : string;
}.

#[global] Instance OnlineUser_eq_dec : EqDecision OnlineUser.
Proof. solve_decision. Defined.
#[global] Instance UserInfo_eq_dec : EqDecision UserInfo.
Proof. solve_decision. Defined.
#[global] Instance UserTraffic_eq_dec : EqDecision UserTraffic.
Proof. solve_decision. Defined.
#[global] Instance CertReport_eq_dec : EqDecision CertReport.
Proof. solve_decision. Defined.

(** ** src/api/panel/node.go *)

(** Security type *)
Definition None_ : Z := 0.
Definition Tls : Z := 1.
Definition Reality : Z := 2.

(** [Route.Match] and the intervals are interface{} values. *)
Record Route := mkRoute {
  route_Id : Z;
  route_Match : json;
  route_Action : string;
  route_ActionValue : string;
}.

Record BaseConfig := mkBaseConfig { base_PushInterval : json; base_PullInterval : json }.

Record CommonNode := mkCommonNode {
  cn_Host : string;
  cn_ServerPort : Z;
  cn_ServerName : string;
  cn_Routes : list Route;
  cn_BaseConfig : option BaseConfig;
}.

Record TlsSettings := mkTlsSettings {
  tls_ServerName : string;
  tls_ServerNames : list string;
  tls_Dest : string;
  tls_ServerPort : string;
  tls_ShortId : string;
  tls_ShortIds : list string;
  tls_PrivateKey : string;
  tls_Mldsa65Seed : string;
  tls_Xver : Z;
  tls_CertMode : string;
  tls_CertFile : string;
  tls_KeyFile : string;
  tls_Provider : string;
  tls_DNSEnv : string;
  tls_SelfFallback : bool;
  tls_RejectUnknownSni : bool;
  tls_HasSelfFallback : bool;
  tls_HasRejectUnknownSni : bool;
  tls_HasCertFields : bool;
}.

Definition TlsSettings_zero : TlsSettings :=
  mkTlsSettings "" [] "" "" "" [] "" "" 0 "" "" "" "" "" false false false false false.

Record EncSettings := mkEncSettings {
  enc_Mode : string; enc_Ticket : string; enc_ServerPadding : string; enc_PrivateKey : string;
}.

Record RealityConfig := mkRealityConfig {
  rc_Xver : Z; rc_MinClientVer : string; rc_MaxClientVer : string; rc_MaxTimeDiff : string;
}.

Record VAllssNode := mkVAllssNode {
  va_Common : CommonNode;
  va_Tls : Z;
  va_TlsSettings : TlsSettings;
  va_TlsSettingsBack : option TlsSettings;
  va_Network : string;
  va_NetworkSettings : string;
  va_NetworkSettingsBack : string;
  va_Encryption : string;
  va_EncryptionSettings : EncSettings;
  va_ServerName : string;
  va_Flow : string;
  va_RealityConfig : RealityConfig;
}.

Record ShadowsocksNode := mkShadowsocksNode {
  ss_Common : CommonNode;
  ss_Cipher : string;
  ss_ServerKey : string;
}.

Record TrojanNode := mkTrojanNode {
  tr_Common : CommonNode;
  tr_Network : string;
  tr_NetworkSettings : string;
  tr_NetworkSettingsSnake : string;
  tr_TlsSettings : TlsSettings;
  tr_TlsSettingsBack : option TlsSettings;
}.

Record TuicNode := mkTuicNode {
  tu_Common : CommonNode;
  tu_TlsSettings : TlsSettings;
  tu_TlsSettingsBack : option TlsSettings;
  tu_CongestionControl : string;
  tu_ZeroRTTHandshake : bool;
}.

Record AnyTlsNode := mkAnyTlsNode {
  at_Common : CommonNode;
  at_TlsSettings : TlsSettings;
  at_TlsSettingsBack : option TlsSettings;
  at_PaddingScheme : list string;
}.

Record HysteriaNode := mkHysteriaNode {
  hy_Common : CommonNode;
  hy_TlsSettings : TlsSettings;
  hy_TlsSettingsBack : option TlsSettings;
  hy_UpMbps : Z;
  hy_DownMbps : Z;
  hy_Obfs : string;
}.

Record Hysteria2Node := mkHysteria2Node {
  h2_Common : CommonNode;
  h2_TlsSettings : TlsSettings;
  h2_TlsSettingsBack : option TlsSettings;
  h2_Ignore_Client_Bandwidth : bool;
  h2_UpMbps : Z;
  h2_DownMbps : Z;
  h2_ObfsType : string;
  h2_ObfsPassword : string;
}.

(** The values of a DNS server entry: [address] and [port] are set by the
    program from strings and integers, [domains] is a list of strings. *)
Inductive dns_value : Type :=
| DStr (s : string)
| DStrs (l : list string)
| DUint16 (z : Z).

Record RawDNS := mkRawDNS {
  dns_Map : gmap string (gmap string dns_value);
  dns_Json : string;
}.

Record Rules := mkRules { rules_Regexp : list string; rules_Protocol : list string }.

Record NodeInfo := mkNodeInfo {
  ni_Id : Z;
  ni_Type : string;
  ni_Security : Z;
  ni_PushInterval : Z;
  ni_PullInterval : Z;
  ni_RawDNS : RawDNS;
  ni_Rules : Rules;
  ni_VAllss : option VAllssNode;
  ni_Shadowsocks : option ShadowsocksNode;
  ni_Trojan : option TrojanNode;
  ni_Tuic : option TuicNode;
  ni_AnyTls : option AnyTlsNode;
  ni_Hysteria : option HysteriaNode;
  ni_Hysteria2 : option Hysteria2Node;
  ni_Common : option CommonNode;
  ni_PanelCertConfig : option CertConfig;
  ni_PanelCertSelfFallbackSet : bool;
  ni_PanelCertRejectUnknownSniSet : bool;
}.

Definition Rules_empty : Rules := mkRules [] [].
Definition RawDNS_empty : RawDNS := mkRawDNS ∅ "".

(** ** The parts a node of each type has

    What the cores dereference: the shared part, the part of the node's type,
    and the v2ray part when the node asks for Reality. *)
Definition type_part (n : NodeInfo) : bool :=
  let has {A} (o : option A) := bool_decide (is_Some o) in
  let type := ni_Type n in
  if decide (type = "vmess" ∨ type = "vless") then has (ni_VAllss n)
  else if decide (type = "shadowsocks") then has (ni_Shadowsocks n)
  else if decide (type = "trojan") then has (ni_Trojan n)
  else if decide (type = "tuic") then has (ni_Tuic n)
  else if decide (type = "anytls") then has (ni_AnyTls n)
  else if decide (type = "hysteria") then has (ni_Hysteria n)
  else if decide (type = "hysteria2") then has (ni_Hysteria2 n)
  else true.

Record node_wf (n : NodeInfo) : Prop := {
  wf_common : is_Some (ni_Common n);
  wf_part : type_part n = true;
  wf_reality : ni_Security n = Reality → is_Some (ni_VAllss n);
}.

(** Every DNS server entry has an address that is a string. *)
Definition dns_wf (d : RawDNS) : Prop :=
  ∀ k v, dns_Map d !! k = Some v → ∃ a, v !! "address" = Some (DStr a).

(** ** src/common/format/user.go *)
Definition UserTag (tag uuid : string) : string := tag +:+ "|" +:+ uuid.

Lemma UserTag_inj_uuid tag u v : UserTag tag u = UserTag tag v → u = v.
Proof.
  unfold UserTag. intros H. apply string_app_inj_l in H.
  by apply (string_app_inj_l "|") in H.
Qed.

#[global] Instance UserTag_inj tag : Inj (=) (=) (UserTag tag).
Proof. intros u v. apply UserTag_inj_uuid. Qed.

(** Two nodes of the same tag length never share a user tag. *)
Lemma UserTag_inj_tag t1 t2 u v :
  String.length t1 = String.length t2 → UserTag t1 u = UserTag t2 v → t1 = t2 ∧ u = v.
Proof.
  unfold UserTag. intros Hl H.
  apply string_app_inj_length in H as [-> H]; [|done].
  by apply (string_app_inj_l "|") in H.
Qed.

(** Tags without a bar never share a user tag either. *)
Lemma UserTag_inj_nobar t1 t2 u v :
  contains_char "|"%char t1 = false → contains_char "|"%char t2 = false →
  UserTag t1 u = UserTag t2 v → t1 = t2 ∧ u = v.
Proof.
  unfold UserTag. revert t2. induction t1 as [|a t1 IH]; intros [|b t2] H1 H2 H;
    cbn [String.append contains_char] in *; simplify_eq; try done.
  apply orb_false_iff in H1 as [_ H1], H2 as [_ H2].
  destruct (IH t2 H1 H2) as [-> ->]; done.
Qed.

Lemma UserTag_strip tag u : GoStd.strip_prefix (tag +:+ "|") (UserTag tag u) = Some u.
Proof. apply GoStd.strip_prefix_Some. unfold UserTag. by rewrite string_app_assoc. Qed.

(** ** Users by uuid *)
Definition uuids (l : list UserInfo) : list string := user_Uuid <$> l.

Lemma NoDup_tags tag l : NoDup (uuids l) → NoDup ((λ u, UserTag tag (user_Uuid u)) <$> l).
Proof.
  intros Hnd. assert ((λ u, UserTag tag (user_Uuid u)) <$> l = UserTag tag <$> uuids l) as ->
    by (unfold uuids; by rewrite <- list_fmap_compose).
  by apply (NoDup_fmap_2 _).
Qed.

Definition users_map (l : list UserInfo) : gmap string UserInfo :=
  list_to_map ((λ u, (user_Uuid u, u)) <$> l).
