(* ===== verification/Counter.v ===== *)
(** Traffic accounting: src/common/counter (traffic.go, conn.go,
    xraytraffic.go) and the counting reader of the xray dispatcher
    (countreader.go).

    A [*TrafficStorage] is shared: the user map points to it and so does every
    open connection of the user.  The model keeps the storages in a heap; a
    [TrafficCounter] maps a user to a location. *)

From S2P Require Import Prelude GoStd Panel.
From stdpp Require Import prelude gmap strings.
From Stdlib Require Import ZArith Lia.

Open Scope Z_scope.

Record TrafficStorage := mkTrafficStorage { UpCounter : Z; DownCounter : Z }.
Definition TrafficStorage_zero : TrafficStorage := mkTrafficStorage 0 0.

Abbreviation loc := nat.
Abbreviation heap := (gmap loc TrafficStorage).
(** [TrafficCounter.Counters], a [sync.Map] from the user key to the storage. *)
Abbreviation TrafficCounter := (gmap string loc).

Definition NewTrafficCounter : TrafficCounter := ∅.

(** ** atomic.Int64 operations on the two fields of a storage *)
Definition up_Add (h : heap) (l : loc) (n : Z) : heap :=
  alter (λ s, mkTrafficStorage (wrap64 (UpCounter s + n)) (DownCounter s)) l h.
Definition down_Add (h : heap) (l : loc) (n : Z) : heap :=
  alter (λ s, mkTrafficStorage (UpCounter s) (wrap64 (DownCounter s + n))) l h.
Definition up_Store (h : heap) (l : loc) (n : Z) : heap :=
  alter (λ s, mkTrafficStorage n (DownCounter s)) l h.
Definition down_Store (h : heap) (l : loc) (n : Z) : heap :=
  alter (λ s, mkTrafficStorage (UpCounter s) n) l h.

Definition storage_at (h : heap) (l : loc) : TrafficStorage :=
  default TrafficStorage_zero (h !! l).

(** ** traffic.go *)
Definition GetCounter (h : heap) (c : TrafficCounter) (uuid : string)
    : heap * TrafficCounter * loc :=
  match c !! uuid with
  | Some l => (h, c, l)
  | None =>
      let newStorage := fresh (dom h) in
      let h := <[newStorage := TrafficStorage_zero]> h in
      let '(c, l, loaded) := LoadOrStore c uuid newStorage in
      (h, c, l)
  end.

Definition GetUpCount (h : heap) (c : TrafficCounter) (uuid : string) : Z :=
  match c !! uuid with Some l => UpCounter (storage_at h l) | None => 0 end.

Definition GetDownCount (h : heap) (c : TrafficCounter) (uuid : string) : Z :=
  match c !! uuid with Some l => DownCounter (storage_at h l) | None => 0 end.

Definition Len `{RangeOrder} (c : TrafficCounter) : Z :=
  foldl (λ length _, wrap64 (length + 1)) 0 (range c).

Definition Reset (h : heap) (c : TrafficCounter) (uuid : string) : heap :=
  match c !! uuid with
  | Some l => down_Store (up_Store h l 0) l 0
  | None => h
  end.

Definition Counter_Delete (c : TrafficCounter) (uuid : string) : TrafficCounter := delete uuid c.

Definition Rx (h : heap) (c : TrafficCounter) (uuid : string) (n : Z) : heap * TrafficCounter :=
  let '(h, c, l) := GetCounter h c uuid in (down_Add h l n, c).

Definition Tx (h : heap) (c : TrafficCounter) (uuid : string) (n : Z) : heap * TrafficCounter :=
  let '(h, c, l) := GetCounter h c uuid in (up_Add h l n, c).

(** ** conn.go: counted connections

    [n] and [err] are what the wrapped connection returned, [len] the length
    of the buffer after the call (ReadBuffer, ReadPacket) or before it
    (WriteBuffer, WritePacket). *)
Definition ConnCounter_Read (h : heap) (storage : loc) (n : Z) (err : option string) : heap :=
  up_Store h storage n.

Definition ConnCounter_Write (h : heap) (storage : loc) (n : Z) (err : option string) : heap :=
  down_Store h storage n.

Definition ConnCounter_ReadBuffer (h : heap) (storage : loc) (len : Z) (err : option string)
    : heap :=
  match err with
  | Some _ => h
  | None => if 0 <? len then up_Add h storage len else h
  end.

Definition ConnCounter_WriteBuffer (h : heap) (storage : loc) (dataLen : Z) (err : option string)
    : heap :=
  match err with
  | Some _ => h
  | None => if 0 <? dataLen then down_Add h storage dataLen else h
  end.

(** The count functions handed out by UnwrapReader / UnwrapWriter (and their
    packet versions), called with the bytes moved past the wrapper. *)
Definition readFunc (h : heap) (storage : loc) (n : Z) : heap := up_Add h storage n.
Definition writeFunc (h : heap) (storage : loc) (n : Z) : heap := down_Add h storage n.

Definition PacketConnCounter_ReadPacket (h : heap) (storage : loc) (len : Z)
    (err : option string) : heap :=
  match err with Some _ => h | None => up_Add h storage len end.

Definition PacketConnCounter_WritePacket (h : heap) (storage : loc) (n : Z)
    (err : option string) : heap :=
  match err with
  | Some _ => h
  | None => if 0 <? n then down_Add h storage n else h
  end.

(** The wrappers themselves, around a connection of any kind: sing's copy loop
    takes them off with the Unwrap methods and calls the functions it got for
    what it moves. *)
Definition CountFunc : Type := heap → Z → heap.

Record ConnCounter (C : Type) := mkConnCounter {
  ExtendedConn : C;
  cc_storage : loc;
  cc_readFunc : CountFunc;
  cc_writeFunc : CountFunc;
}.
Arguments mkConnCounter {C}.
Arguments ExtendedConn {C}.
Arguments cc_storage {C}.
Arguments cc_readFunc {C}.
Arguments cc_writeFunc {C}.

Section wrappers.
Context {C : Type}.

Definition NewConnCounter (conn : C) (s : loc) : ConnCounter C :=
  mkConnCounter conn s (λ h n, readFunc h s n) (λ h n, writeFunc h s n).

Definition UnwrapReader (c : ConnCounter C) : C * list CountFunc := (ExtendedConn c, [cc_readFunc c]).
Definition UnwrapWriter (c : ConnCounter C) : C * list CountFunc := (ExtendedConn c, [cc_writeFunc c]).
Definition Upstream (c : ConnCounter C) : C := ExtendedConn c.

(** PacketConnCounter: the same for packets. *)
Definition NewPacketConnCounter (conn : C) (s : loc) : ConnCounter C :=
  mkConnCounter conn s (λ h n, readFunc h s n) (λ h n, writeFunc h s n).
Definition UnwrapPacketReader (c : ConnCounter C) : C * list CountFunc := (ExtendedConn c, [cc_readFunc c]).
Definition UnwrapPacketWriter (c : ConnCounter C) : C * list CountFunc := (ExtendedConn c, [cc_writeFunc c]).
Definition PacketUpstream (c : ConnCounter C) : C := ExtendedConn c.
End wrappers.

(** Every function is called with every length. *)
Definition count_all (fs : list CountFunc) (lens : list Z) (h : heap) : heap :=
  foldl (λ h n, foldl (λ h (f : CountFunc), f h n) h fs) h lens.

(** ** xraytraffic.go: one of the two counters seen as a stats.Counter *)
Definition XrayTrafficCounter_Value (v : Z) : Z := v.
Definition XrayTrafficCounter_Set (v newValue : Z) : Z * Z := (newValue, v).
Definition XrayTrafficCounter_Add (v delta : Z) : Z * Z :=
  (wrap64 (v + delta), wrap64 (v + delta)).

(** ** dispatcher/countreader.go *)
Definition CounterReader_ReadMultiBuffer (h : heap) (storage : loc) (r : res string Z)
    : heap * res string Z :=
  match r with
  | Ok len => (if 0 <? len then up_Add h storage len else h, Ok len)
  | _ => (h, r)
  end.

(** ** The life of one connection, as the calls made on its counter *)
Inductive conn_event : Type :=
| EvRead (n : Z) (err : option string)
| EvWrite (n : Z) (err : option string)
| EvReadBuffer (len : Z) (err : option string)
| EvWriteBuffer (len : Z) (err : option string)
| EvReadPacket (len : Z) (err : option string)
| EvWritePacket (len : Z) (err : option string)
| EvReadFunc (n : Z)
| EvWriteFunc (n : Z).

Definition conn_step (storage : loc) (h : heap) (ev : conn_event) : heap :=
  match ev with
  | EvRead n err => ConnCounter_Read h storage n err
  | EvWrite n err => ConnCounter_Write h storage n err
  | EvReadBuffer len err => ConnCounter_ReadBuffer h storage len err
  | EvWriteBuffer len err => ConnCounter_WriteBuffer h storage len err
  | EvReadPacket len err => PacketConnCounter_ReadPacket h storage len err
  | EvWritePacket len err => PacketConnCounter_WritePacket h storage len err
  | EvReadFunc n => readFunc h storage n
  | EvWriteFunc n => writeFunc h storage n
  end.

Definition conn_run (storage : loc) (h : heap) (evs : list conn_event) : heap :=
  foldl (conn_step storage) h evs.

(** Bytes a call moved in each direction: none when it failed. *)
Definition moved (len : Z) (err : option string) : Z :=
  match err with Some _ => 0 | None => len end.

Definition up_moved (ev : conn_event) : Z :=
  match ev with
  | EvRead n _ | EvReadFunc n => n
  | EvReadBuffer len err | EvReadPacket len err => moved len err
  | _ => 0
  end.

Definition down_moved (ev : conn_event) : Z :=
  match ev with
  | EvWrite n _ | EvWriteFunc n => n
  | EvWriteBuffer len err | EvWritePacket len err => moved len err
  | _ => 0
  end.

Definition is_Read (ev : conn_event) : bool :=
  match ev with EvRead _ _ => true | _ => false end.
Definition is_Write (ev : conn_event) : bool :=
  match ev with EvWrite _ _ => true | _ => false end.

(** Lengths are never negative. *)
Definition event_ok (ev : conn_event) : Prop := 0 ≤ up_moved ev ∧ 0 ≤ down_moved ev.

#[global] Instance event_ok_dec ev : Decision (event_ok ev).
Proof. unfold event_ok. apply _. Defined.

(** * Well-formed counters: no dangling and no shared storage *)
Record counter_wf (h : heap) (c : TrafficCounter) : Prop := {
  wf_bound : ∀ uuid l, c !! uuid = Some l → is_Some (h !! l);
  wf_inj : ∀ u v l, c !! u = Some l → c !! v = Some l → u = v;
}.

Lemma counter_wf_empty h : counter_wf h NewTrafficCounter.
Proof. unfold NewTrafficCounter. split; intros *; by rewrite lookup_empty. Qed.

(** Updating fields of existing storages keeps a counter well formed. *)
Lemma counter_wf_alter h c f l : counter_wf h c → counter_wf (alter f l h) c.
Proof.
  intros [Hb Hi]; split; [|done]. intros uuid l' Hl.
  destruct (Hb uuid l' Hl) as [s Hs]. rewrite lookup_alter.
  case_decide; simplify_eq/=; rewrite Hs; simpl; eauto.
Qed.

Lemma counter_wf_Counter_Delete h c uuid : counter_wf h c → counter_wf h (Counter_Delete c uuid).
Proof.
  unfold Counter_Delete. intros [Hb Hi]; split.
  - intros u l [_ ?]%lookup_delete_Some. eauto.
  - intros u v l [_ ?]%lookup_delete_Some [_ ?]%lookup_delete_Some. eauto.
Qed.

Lemma counter_wf_Reset h c uuid : counter_wf h c → counter_wf (Reset h c uuid) c.
Proof.
  intros Hwf. unfold Reset. destruct (c !! uuid); [|done].
  by do 2 apply counter_wf_alter.
Qed.

Lemma fresh_not_bound h c uuid l :
  counter_wf h c → c !! uuid = Some l → l ≠ fresh (dom h).
Proof.
  intros [Hb _] Hl ->. apply Hb in Hl.
  apply elem_of_dom in Hl. by apply (is_fresh (dom h)).
Qed.

Lemma GetCounter_spec h c uuid h' c' l :
  counter_wf h c → GetCounter h c uuid = (h', c', l) →
  counter_wf h' c' ∧ c' !! uuid = Some l ∧
  (∀ v, v ≠ uuid → c' !! v = c !! v) ∧
  (∀ v, storage_at h' l = mkTrafficStorage (GetUpCount h c uuid) (GetDownCount h c uuid)
        ∧ (v ≠ uuid → GetUpCount h' c' v = GetUpCount h c v
                    ∧ GetDownCount h' c' v = GetDownCount h c v)).
Proof.
  intros Hwf. unfold GetCounter, LoadOrStore, GetUpCount, GetDownCount.
  destruct (c !! uuid) as [l0|] eqn:Hc; intros [= <- <- <-].
  { split_and!; try done. intros v. split; [by destruct (storage_at h l0)|done]. }
  split_and!.
  - destruct Hwf as [Hb Hi]. split.
    + intros v l [[-> <-]|[? ?]]%lookup_insert_Some.
      * rewrite lookup_insert_eq. eauto.
      * rewrite lookup_insert. case_decide; eauto.
    + intros u v l [[-> <-]|[? Hu]]%lookup_insert_Some [[-> Hf]|[? Hv]]%lookup_insert_Some;
        [done| | |by eapply Hi].
      * by apply (fresh_not_bound h c v _ (Build_counter_wf _ _ Hb Hi)) in Hv.
      * subst. by apply (fresh_not_bound h c u _ (Build_counter_wf _ _ Hb Hi)) in Hu.
  - by rewrite lookup_insert_eq.
  - intros v Hv. by rewrite lookup_insert_ne.
  - intros v. unfold storage_at. rewrite lookup_insert_eq. split; [done|].
    intros Hv. rewrite lookup_insert_ne by done. destruct (c !! v) as [l|] eqn:Hl; [|done].
    rewrite lookup_insert_ne; [done|]. intros ?; subst.
    by apply (fresh_not_bound h c v _ Hwf) in Hl.
Qed.

(** Reading a user's counters after an update of one storage. *)
Lemma counts_alter h c f u v l :
  counter_wf h c → c !! u = Some l →
  GetUpCount (alter f l h) c v =
    (if decide (v = u) then UpCounter (f (storage_at h l)) else GetUpCount h c v) ∧
  GetDownCount (alter f l h) c v =
    (if decide (v = u) then DownCounter (f (storage_at h l)) else GetDownCount h c v).
Proof.
  intros Hwf Hu. unfold GetUpCount, GetDownCount, storage_at.
  destruct (wf_bound _ _ Hwf u l Hu) as [s Hs].
  destruct (decide (v = u)) as [->|Hne].
  - rewrite Hu, lookup_alter_eq, Hs. done.
  - destruct (c !! v) as [l'|] eqn:Hv; [|done].
    rewrite lookup_alter_ne; [done|]. intros ->.
    by pose proof (wf_inj _ _ Hwf u v l' Hu Hv).
Qed.

(** The storages a counter points to are untouched by updates elsewhere. *)
Lemma counts_alter_other h c f l :
  (∀ v, c !! v ≠ Some l) →
  ∀ v, GetUpCount (alter f l h) c v = GetUpCount h c v
     ∧ GetDownCount (alter f l h) c v = GetDownCount h c v.
Proof.
  intros Hl v. unfold GetUpCount, GetDownCount, storage_at.
  destruct (c !! v) as [l'|] eqn:Hv; [|done].
  assert (l ≠ l') by (intros ->; by apply (Hl v)).
  by rewrite lookup_alter_ne.
Qed.

Lemma Rx_spec h c uuid n h' c' :
  counter_wf h c → Rx h c uuid n = (h', c') →
  counter_wf h' c' ∧
  ∀ v, GetUpCount h' c' v = GetUpCount h c v ∧
       GetDownCount h' c' v =
         if decide (v = uuid) then wrap64 (GetDownCount h c uuid + n) else GetDownCount h c v.
Proof.
  intros Hwf. unfold Rx. destruct (GetCounter h c uuid) as [[h1 c1] l] eqn:E.
  intros [= <- <-].
  destruct (GetCounter_spec _ _ _ _ _ _ Hwf E) as (Hwf1 & Hl & _ & Hcnt).
  split; [by apply counter_wf_alter|]. intros v.
  destruct (counts_alter h1 c1
    (λ s, mkTrafficStorage (UpCounter s) (wrap64 (DownCounter s + n))) uuid v l Hwf1 Hl)
    as [Hup Hdown].
  unfold down_Add. rewrite Hup, Hdown. destruct (Hcnt v) as [Hs Hv]. rewrite Hs.
  destruct (decide (v = uuid)) as [->|Hne]; [done|]. by apply Hv.
Qed.

Lemma Tx_spec h c uuid n h' c' :
  counter_wf h c → Tx h c uuid n = (h', c') →
  counter_wf h' c' ∧
  ∀ v, GetDownCount h' c' v = GetDownCount h c v ∧
       GetUpCount h' c' v =
         if decide (v = uuid) then wrap64 (GetUpCount h c uuid + n) else GetUpCount h c v.
Proof.
  intros Hwf. unfold Tx. destruct (GetCounter h c uuid) as [[h1 c1] l] eqn:E.
  intros [= <- <-].
  destruct (GetCounter_spec _ _ _ _ _ _ Hwf E) as (Hwf1 & Hl & _ & Hcnt).
  split; [by apply counter_wf_alter|]. intros v.
  destruct (counts_alter h1 c1
    (λ s, mkTrafficStorage (wrap64 (UpCounter s + n)) (DownCounter s)) uuid v l Hwf1 Hl)
    as [Hup Hdown].
  unfold up_Add. rewrite Hup, Hdown. destruct (Hcnt v) as [Hs Hv]. rewrite Hs.
  destruct (decide (v = uuid)) as [->|Hne]; [done|]. by destruct (Hv Hne).
Qed.

Lemma Len_size `{RangeOrder} c : Z.of_nat (size c) < two63 → Len c = Z.of_nat (size c).
Proof.
  intros Hs. unfold Len. rewrite <- length_range in *. revert Hs.
  generalize (range c) as l. intros l.
  assert (∀ (l : list (string * loc)) a, 0 ≤ a → a + Z.of_nat (length l) < two63 →
    foldl (λ length _, wrap64 (length + 1)) a l = a + Z.of_nat (length l)) as Hgen.
  { clear l. induction l as [|x l IH]; intros a Ha Hl; simpl in *; [lia|].
    rewrite wrap64_id by (unfold int64, two63 in *; lia).
    rewrite IH by lia. lia. }
  intros Hs. rewrite Hgen by lia. lia.
Qed.

(** ** Taken off or not, a wrapper counts the same *)
Lemma foldl_positive {A} (f : A → Z → A) lens a :
  foldl f a (filter (λ n, 0 < n) lens) = foldl (λ a n, if 0 <? n then f a n else a) a lens.
Proof.
  revert a. induction lens as [|n lens IH]; intros a; [done|]. rewrite filter_cons. simpl.
  destruct (0 <? n) eqn:Hn; bool_to_prop.
  - rewrite decide_True by done. apply IH.
  - rewrite decide_False by lia. apply IH.
Qed.

(** A copy loop that takes the counting wrapper off a connection, and calls
    the functions it was given for every transfer, leaves the counters as the
    buffers moved through the wrapper do: in both directions, whatever the
    lengths (empty transfers count nothing either way). *)
Theorem unwrapped_copy_counts {C} (conn : C) s lens h :
  let c := NewConnCounter conn s in
  count_all (UnwrapReader c).2 (filter (λ n, 0 < n) lens) h =
    foldl (λ h n, ConnCounter_ReadBuffer h s n None) h lens ∧
  count_all (UnwrapWriter c).2 (filter (λ n, 0 < n) lens) h =
    foldl (λ h n, ConnCounter_WriteBuffer h s n None) h lens ∧
  (UnwrapReader c).1 = conn ∧ (UnwrapWriter c).1 = conn ∧ Upstream c = conn.
Proof.
  split_and!; [apply (foldl_positive (λ h n, readFunc h s n))|
    apply (foldl_positive (λ h n, writeFunc h s n))|done..].
Qed.

(** * Connections *)
Lemma storage_at_alter h l f :
  is_Some (h !! l) → storage_at (alter f l h) l = f (storage_at h l).
Proof. intros [s Hs]. unfold storage_at. by rewrite lookup_alter_eq, Hs. Qed.

Lemma is_Some_alter (h : heap) (l l' : loc) f :
  is_Some (h !! l) → is_Some (alter f l' h !! l).
Proof.
  intros [s Hs]. rewrite lookup_alter. case_decide; simplify_eq/=; rewrite Hs; eauto.
Qed.

Lemma conn_step_bound h l ev : is_Some (h !! l) → is_Some (conn_step l h ev !! l).
Proof.
  intros Hl. destruct ev as [n err|n err|n err|n err|n err|n err|n|n]; simpl;
    try destruct err; simpl; unfold ConnCounter_ReadBuffer, ConnCounter_WriteBuffer,
      PacketConnCounter_WritePacket; repeat case_match; try done; by apply is_Some_alter.
Qed.

Lemma conn_run_bound h l evs : is_Some (h !! l) → is_Some (conn_run l h evs !! l).
Proof.
  revert h. induction evs as [|ev evs IH]; intros h Hl; [done|].
  simpl. by apply IH, conn_step_bound.
Qed.

(** One call other than [Read] ([Write]) adds exactly what it moved. *)
Lemma conn_step_up h l ev :
  is_Some (h !! l) → event_ok ev → is_Read ev = false → int64 (UpCounter (storage_at h l)) →
  UpCounter (storage_at (conn_step l h ev) l)
    = wrap64 (UpCounter (storage_at h l) + up_moved ev).
Proof.
  intros Hl [Hup _] HR Hi.
  destruct ev as [n err|n err|n err|n err|n err|n err|n|n]; simpl in *; try done;
    try destruct err; unfold ConnCounter_Write, ConnCounter_ReadBuffer,
      ConnCounter_WriteBuffer, PacketConnCounter_ReadPacket, PacketConnCounter_WritePacket,
      readFunc, writeFunc, up_Add, down_Add, down_Store, moved in *; simpl in *;
    try (case_match; bool_to_prop);
    rewrite ?storage_at_alter by done; simpl;
    rewrite ?(wrap64_id (_ + 0)); rewrite ?Z.add_0_r; try done.
  by replace n with 0 by lia; rewrite Z.add_0_r, wrap64_id.
Qed.

Lemma conn_step_down h l ev :
  is_Some (h !! l) → event_ok ev → is_Write ev = false →
  int64 (DownCounter (storage_at h l)) →
  DownCounter (storage_at (conn_step l h ev) l)
    = wrap64 (DownCounter (storage_at h l) + down_moved ev).
Proof.
  intros Hl [_ Hdown] HW Hi.
  destruct ev as [n err|n err|n err|n err|n err|n err|n|n]; simpl in *; try done;
    try destruct err; unfold ConnCounter_Read, ConnCounter_ReadBuffer,
      ConnCounter_WriteBuffer, PacketConnCounter_ReadPacket, PacketConnCounter_WritePacket,
      readFunc, writeFunc, up_Add, down_Add, up_Store, moved in *; simpl in *;
    try (case_match; bool_to_prop);
    rewrite ?storage_at_alter by done; simpl;
    rewrite ?(wrap64_id (_ + 0)); rewrite ?Z.add_0_r; try done;
    by replace n with 0 by lia; rewrite Z.add_0_r, wrap64_id.
Qed.

Lemma conn_run_up h l evs :
  is_Some (h !! l) → Forall event_ok evs → Forall (λ ev, is_Read ev = false) evs →
  int64 (UpCounter (storage_at h l)) →
  UpCounter (storage_at (conn_run l h evs) l)
    = wrap64 (UpCounter (storage_at h l) + sumZ up_moved evs).
Proof.
  revert h. induction evs as [|ev evs IH]; intros h Hl Hok HR Hi; simpl.
  { by rewrite Z.add_0_r, wrap64_id. }
  apply Forall_cons in Hok as [Hev Hok]. apply Forall_cons in HR as [HRev HR].
  pose proof (conn_step_up h l ev Hl Hev HRev Hi) as Hstep.
  rewrite IH; auto using conn_step_bound.
  - rewrite Hstep, wrap64_add_l. f_equal. lia.
  - rewrite Hstep. auto with v2bz.
Qed.

Lemma conn_run_down h l evs :
  is_Some (h !! l) → Forall event_ok evs → Forall (λ ev, is_Write ev = false) evs →
  int64 (DownCounter (storage_at h l)) →
  DownCounter (storage_at (conn_run l h evs) l)
    = wrap64 (DownCounter (storage_at h l) + sumZ down_moved evs).
Proof.
  revert h. induction evs as [|ev evs IH]; intros h Hl Hok HR Hi; simpl.
  { by rewrite Z.add_0_r, wrap64_id. }
  apply Forall_cons in Hok as [Hev Hok]. apply Forall_cons in HR as [HRev HR].
  pose proof (conn_step_down h l ev Hl Hev HRev Hi) as Hstep.
  rewrite IH; auto using conn_step_bound.
  - rewrite Hstep, wrap64_add_l. f_equal. lia.
  - rewrite Hstep. auto with v2bz.
Qed.

(** * Properties *)

(** The traffic calls of hysteria2's logger, in any order and for any users. *)
Inductive traffic_op : Type :=
| OpTx (uuid : string) (n : Z)
| OpRx (uuid : string) (n : Z).

Definition op_step (s : heap * TrafficCounter) (op : traffic_op) : heap * TrafficCounter :=
  match op with
  | OpTx uuid n => Tx s.1 s.2 uuid n
  | OpRx uuid n => Rx s.1 s.2 uuid n
  end.

Definition op_run (s : heap * TrafficCounter) (ops : list traffic_op) : heap * TrafficCounter :=
  foldl op_step s ops.

Definition tx_of (v : string) (op : traffic_op) : Z :=
  match op with OpTx uuid n => if decide (uuid = v) then n else 0 | _ => 0 end.
Definition rx_of (v : string) (op : traffic_op) : Z :=
  match op with OpRx uuid n => if decide (uuid = v) then n else 0 | _ => 0 end.

Lemma op_step_spec s op v :
  counter_wf s.1 s.2 → int64 (GetUpCount s.1 s.2 v) → int64 (GetDownCount s.1 s.2 v) →
  let s' := op_step s op in
  counter_wf s'.1 s'.2 ∧
  GetUpCount s'.1 s'.2 v = wrap64 (GetUpCount s.1 s.2 v + tx_of v op) ∧
  GetDownCount s'.1 s'.2 v = wrap64 (GetDownCount s.1 s.2 v + rx_of v op).
Proof.
  intros Hwf Hu Hd. destruct s as [h c]; simpl in *.
  destruct op as [uuid n|uuid n]; simpl.
  - destruct (Tx h c uuid n) as [h' c'] eqn:E. simpl.
    destruct (Tx_spec _ _ _ _ _ _ Hwf E) as [Hwf' Hcnt]. destruct (Hcnt v) as [-> ->].
    rewrite Z.add_0_r, (wrap64_id (GetDownCount _ _ _)) by done.
    case_decide; case_decide; subst; try done. by rewrite Z.add_0_r, wrap64_id.
  - destruct (Rx h c uuid n) as [h' c'] eqn:E. simpl.
    destruct (Rx_spec _ _ _ _ _ _ Hwf E) as [Hwf' Hcnt]. destruct (Hcnt v) as [-> ->].
    rewrite Z.add_0_r, (wrap64_id (GetUpCount _ _ _)) by done.
    case_decide; case_decide; subst; try done. by rewrite Z.add_0_r, wrap64_id.
Qed.

Lemma op_run_spec s ops v :
  counter_wf s.1 s.2 → int64 (GetUpCount s.1 s.2 v) → int64 (GetDownCount s.1 s.2 v) →
  let s' := op_run s ops in
  counter_wf s'.1 s'.2 ∧
  GetUpCount s'.1 s'.2 v = wrap64 (GetUpCount s.1 s.2 v + sumZ (tx_of v) ops) ∧
  GetDownCount s'.1 s'.2 v = wrap64 (GetDownCount s.1 s.2 v + sumZ (rx_of v) ops).
Proof.
  revert s. induction ops as [|op ops IH]; intros s Hwf Hu Hd; simpl.
  { by rewrite !Z.add_0_r, !wrap64_id. }
  destruct (op_step_spec s op v Hwf Hu Hd) as (Hwf' & Hu' & Hd').
  destruct (IH (op_step s op)) as (? & Hu2 & Hd2); try done.
  - rewrite Hu'. auto with v2bz.
  - rewrite Hd'. auto with v2bz.
  - unfold op_run in *. rewrite Hu2, Hd2, Hu', Hd', !wrap64_add_l, !Z.add_assoc. done.
Qed.

(** After any sequence of Tx/Rx calls each user's two counters hold, modulo
    2^64, exactly what was counted for that user: no call disturbs another
    user, and storages are created on demand. *)
Theorem traffic_accounting h c ops v :
  counter_wf h c → int64 (GetUpCount h c v) → int64 (GetDownCount h c v) →
  let s := op_run (h, c) ops in
  counter_wf s.1 s.2 ∧
  GetUpCount s.1 s.2 v = wrap64 (GetUpCount h c v + sumZ (tx_of v) ops) ∧
  GetDownCount s.1 s.2 v = wrap64 (GetDownCount h c v + sumZ (rx_of v) ops).
Proof. intros Hwf Hu Hd. by apply (op_run_spec (h, c)). Qed.

Lemma traffic_accounting_witness :
  let s := op_run (∅, NewTrafficCounter)
             [OpTx "alice" 10; OpRx "bob" 7; OpTx "alice" 5; OpRx "alice" 1]%string in
  counter_wf s.1 s.2 ∧
  GetUpCount s.1 s.2 "alice" = wrap64 (0 + 15) ∧ GetDownCount s.1 s.2 "alice" = wrap64 (0 + 1).
Proof.
  apply (traffic_accounting ∅ NewTrafficCounter
    [OpTx "alice" 10; OpRx "bob" 7; OpTx "alice" 5; OpRx "alice" 1]%string "alice").
  - apply counter_wf_empty.
  - by_decide.
  - by_decide.
Defined.

(** On the buffered and packet paths (every call except [Read] and
    [Write]) a counted connection adds exactly the bytes of its successful
    calls to the user's counters. *)
Theorem conn_counts_buffers h l evs :
  is_Some (h !! l) → Forall event_ok evs →
  Forall (λ ev, is_Read ev = false ∧ is_Write ev = false) evs →
  int64 (UpCounter (storage_at h l)) → int64 (DownCounter (storage_at h l)) →
  storage_at (conn_run l h evs) l =
    mkTrafficStorage (wrap64 (UpCounter (storage_at h l) + sumZ up_moved evs))
                     (wrap64 (DownCounter (storage_at h l) + sumZ down_moved evs)).
Proof.
  intros Hl Hok [HR HW]%Forall_and Hu Hd.
  pose proof (conn_run_up h l evs Hl Hok HR Hu) as <-.
  pose proof (conn_run_down h l evs Hl Hok HW Hd) as <-.
  destruct (storage_at (conn_run l h evs) l). done.
Qed.

Lemma conn_counts_buffers_witness :
  storage_at (conn_run 0%nat {[0%nat := mkTrafficStorage 3 4]}
    [EvReadBuffer 10 None; EvReadBuffer 5 (Some "EOF"%string); EvWritePacket 7 None]) 0
  = mkTrafficStorage 13 11.
Proof.
  etrans; [apply (conn_counts_buffers {[0%nat := mkTrafficStorage 3 4]} 0); by_decide|].
  vm_compute. reflexivity.
Defined.

(** [Read] stores the size of its own read in the counter instead of
    adding it: whatever the user had accumulated before, over this or any
    other connection, is forgotten. *)
Theorem conn_Read_overwrites h l evs1 n err evs2 :
  is_Some (h !! l) → int64 n → Forall event_ok evs2 →
  Forall (λ ev, is_Read ev = false) evs2 →
  UpCounter (storage_at (conn_run l h (evs1 ++ EvRead n err :: evs2)) l)
    = wrap64 (n + sumZ up_moved evs2).
Proof.
  intros Hl Hn Hok HR. unfold conn_run. rewrite foldl_app. simpl.
  assert (is_Some (foldl (conn_step l) h evs1 !! l)) as Hl1 by (by apply conn_run_bound).
  change (foldl (conn_step l) ?h evs2) with (conn_run l h evs2).
  rewrite conn_run_up; unfold ConnCounter_Read, up_Store;
    rewrite ?storage_at_alter by done; simpl; auto using is_Some_alter.
Qed.

Lemma conn_Read_overwrites_witness :
  UpCounter (storage_at (conn_run 0%nat {[0%nat := mkTrafficStorage 0 0]}
    ([EvReadBuffer 1000000 None] ++ EvRead 20 None :: [EvReadBuffer 1 None])) 0) = 21.
Proof.
  etrans; [apply (conn_Read_overwrites {[0%nat := mkTrafficStorage 0 0]} 0); by_decide|].
  vm_compute. reflexivity.
Defined.
