(* ===== verification/Traffic.v ===== *)
(** The report loop every core runs over its traffic counters: the body shared
    by the three [GetUserTrafficSlice] of src/core/{xray,sing,hy2}/user.go.

    The loop ranges over the users of one node, reports and resets those above
    the threshold, and drops the counters of users it no longer knows. *)

From S2P Require Import Prelude GoStd Panel Counter.
From stdpp Require Import prelude gmap strings.
From Stdlib Require Import ZArith Lia.

Open Scope Z_scope.

Section slice.
Context `{RangeOrder}.
(** The uid of a counter key (0 for an unknown one), the node's threshold, and
    whether to reset what is reported. *)
Context (uidOf : string → Z) (minTraffic : Z) (reset : bool).

Definition slice_step (st : heap * TrafficCounter * list UserTraffic) (e : string * loc)
    : heap * TrafficCounter * list UserTraffic :=
  let '(h, c, trafficSlice) := st in
  let '(uuid, traffic) := e in
  let up := UpCounter (storage_at h traffic) in
  let down := DownCounter (storage_at h traffic) in
  if minTraffic <? wrap64 (up + down) then
    let h := if reset then down_Store (up_Store h traffic 0) traffic 0 else h in
    if uidOf uuid =? 0 then (h, Counter_Delete c uuid, trafficSlice)
    else (h, c, trafficSlice ++ [mkUserTraffic (uidOf uuid) up down])
  else (h, c, trafficSlice).

Definition traffic_slice (h : heap) (c : TrafficCounter)
    : heap * TrafficCounter * list UserTraffic :=
  foldl slice_step (h, c, []) (range c).

(** ** What the loop promises *)

(** The entry is above the threshold. *)
Definition over (h : heap) (e : string * loc) : bool :=
  minTraffic <? wrap64 (UpCounter (storage_at h e.2) + DownCounter (storage_at h e.2)).

(** The entry is dropped: above the threshold, of an unknown user. *)
Definition dropped (h : heap) (e : string * loc) : bool := over h e && (uidOf e.1 =? 0).

Definition reported (h : heap) (e : string * loc) : option UserTraffic :=
  if over h e && negb (uidOf e.1 =? 0)
  then Some (mkUserTraffic (uidOf e.1) (UpCounter (storage_at h e.2))
                           (DownCounter (storage_at h e.2)))
  else None.

Definition remaining (h : heap) (e : string * loc) : TrafficStorage :=
  if over h e && reset then TrafficStorage_zero else storage_at h e.2.

Definition total (f : TrafficStorage → Z) (h : heap) (c : TrafficCounter) : Z :=
  sumZ (λ e, f (storage_at h e.2)) (map_to_list c).

(** ** The loop over any list of entries *)
Lemma slice_step_heap h c acc e :
  is_Some (h !! e.2) →
  let '(h', _, _) := slice_step (h, c, acc) e in
  storage_at h' e.2 = remaining h e ∧ (∀ l, l ≠ e.2 → h' !! l = h !! l) ∧
  (∀ l, is_Some (h !! l) → is_Some (h' !! l)).
Proof.
  destruct e as [u l0]. simpl. intros Hl. unfold remaining, over. simpl.
  destruct (minTraffic <? _); [|by rewrite ?andb_false_l].
  assert (∀ h', h' = (if reset then down_Store (up_Store h l0 0) l0 0 else h) →
    storage_at h' l0 = (if true && reset then TrafficStorage_zero else storage_at h l0) ∧
    (∀ l, l ≠ l0 → h' !! l = h !! l) ∧ (∀ l, is_Some (h !! l) → is_Some (h' !! l))) as Hgen.
  { intros h' ->. destruct reset; [|done]. simpl. unfold down_Store, up_Store. split_and!.
    - by rewrite !storage_at_alter by auto using is_Some_alter.
    - intros l Hne. by rewrite !lookup_alter_ne.
    - intros l Hs. by do 2 apply is_Some_alter. }
  destruct (uidOf u =? 0); by apply Hgen.
Qed.

Lemma slice_step_counters h c acc e :
  let '(_, c', acc') := slice_step (h, c, acc) e in
  c' = (if dropped h e then delete e.1 c else c) ∧
  acc' = acc ++ option_list (reported h e).
Proof.
  destruct e as [u l]. simpl. unfold dropped, reported, over, Counter_Delete. simpl.
  destruct (minTraffic <? _); simpl; [|by rewrite app_nil_r].
  destruct (uidOf u =? 0); simpl; by rewrite ?app_nil_r.
Qed.

Lemma over_ext h h' e : storage_at h' e.2 = storage_at h e.2 → over h' e = over h e.
Proof. unfold over. by intros ->. Qed.

Lemma storage_at_ext h h' l : h' !! l = h !! l → storage_at h' l = storage_at h l.
Proof. unfold storage_at. by intros ->. Qed.

Lemma slice_fold l h c acc :
  NoDup l.*2 → Forall (λ e : string * loc, is_Some (h !! e.2)) l →
  let '(h', c', acc') := foldl slice_step (h, c, acc) l in
  acc' = acc ++ omap (reported h) l ∧
  c' = foldl (λ c u, delete u c) c (filter (λ e, dropped h e = true) l).*1 ∧
  (∀ e, e ∈ l → storage_at h' e.2 = remaining h e) ∧
  (∀ k, k ∉ l.*2 → h' !! k = h !! k) ∧
  (∀ k, is_Some (h !! k) → is_Some (h' !! k)).
Proof.
  revert h c acc. induction l as [|e l IH]; intros h c acc Hnd Hb.
  { simpl. rewrite app_nil_r. split_and!; try done. intros e He. by apply not_elem_of_nil in He. }
  rewrite fmap_cons, NoDup_cons in Hnd. destruct Hnd as [Hni Hnd].
  apply Forall_cons in Hb as [Hbe Hb].
  pose proof (slice_step_heap h c acc e Hbe) as Hh.
  pose proof (slice_step_counters h c acc e) as Hc.
  rewrite foldl_cons. destruct (slice_step (h, c, acc) e) as [[h1 c1] acc1].
  destruct Hh as (Hhe & Hho & Hhb), Hc as [-> ->].
  assert (Hsame : ∀ e', e' ∈ l → storage_at h1 e'.2 = storage_at h e'.2).
  { intros e' He'. apply storage_at_ext, Hho. intros Heq. apply Hni.
    rewrite <- Heq. by apply list_elem_of_fmap_2. }
  assert (Hrep : omap (reported h1) l = omap (reported h) l).
  { apply omap_ext_elem. intros x Hx.
    unfold reported. by rewrite (over_ext h h1), Hsame by auto. }
  assert (Hdrop : filter (λ e, dropped h1 e = true) l = filter (λ e, dropped h e = true) l).
  { apply filter_ext_elem. intros x Hx. unfold dropped.
    by rewrite (over_ext h h1) by auto. }
  specialize (IH h1 (if dropped h e then delete e.1 c else c) (acc ++ option_list (reported h e))
    Hnd ltac:(eapply Forall_impl; [exact Hb|]; auto)).
  destruct (foldl slice_step _ l) as [[h2 c2] acc2].
  destruct IH as (-> & -> & Hrem & Hko & Hkb). split_and!.
  - rewrite Hrep, <- app_assoc. f_equal. simpl. by destruct (reported h e).
  - rewrite Hdrop. rewrite filter_cons. by destruct (dropped h e); case_decide.
  - intros e' [->|He']%elem_of_cons.
    + rewrite <- Hhe. by apply storage_at_ext, Hko.
    + rewrite (Hrem e' He'). unfold remaining. by rewrite (over_ext h h1), Hsame by auto.
  - intros k Hk. rewrite fmap_cons, not_elem_of_cons in Hk. destruct Hk as [Hk1 Hk2].
    rewrite Hko by done. by apply Hho.
  - intros k Hk. by apply Hkb, Hhb.
Qed.

(** ** The loop over a node's counters *)
Lemma NoDup_locs h (c : TrafficCounter) : counter_wf h c → NoDup (range c).*2.
Proof.
  intros Hwf. apply NoDup_fmap_2_strong; auto with v2bz.
  intros [u l] [v l'] Hu%elem_of_range Hv%elem_of_range ?; simplify_eq/=.
  by rewrite (wf_inj _ _ Hwf _ _ _ Hu Hv).
Qed.

Lemma range_bound h (c : TrafficCounter) :
  counter_wf h c → Forall (λ e : string * loc, is_Some (h !! e.2)) (range c).
Proof.
  intros Hwf. apply Forall_forall. intros [u l] Hl%elem_of_range.
  by eapply wf_bound.
Qed.

Lemma traffic_slice_spec h c :
  counter_wf h c →
  let '(h', c', s) := traffic_slice h c in
  counter_wf h' c' ∧
  s ≡ₚ omap (reported h) (map_to_list c) ∧
  c' = filter (λ e, dropped h e = false) c ∧
  (∀ u l, c !! u = Some l → storage_at h' l = remaining h (u, l)).
Proof.
  intros Hwf. unfold traffic_slice.
  pose proof (slice_fold (range c) h c [] (NoDup_locs h c Hwf) (range_bound h c Hwf)) as Hf.
  destruct (foldl slice_step (h, c, []) (range c)) as [[h' c'] s].
  destruct Hf as (-> & -> & Hrem & _ & Hb).
  assert (Hc' : foldl (λ (c : TrafficCounter) u, delete u c) c
            (filter (λ e, dropped h e = true) (range c)).*1
          = filter (λ e, dropped h e = false) c).
  { apply map_eq. intros u. rewrite lookup_foldl_delete, map_lookup_filter.
    destruct (c !! u) as [l|] eqn:Hu; simpl; [|by case_decide].
    assert ((u ∈ (filter (λ e, dropped h e = true) (range c)).*1) ↔ dropped h (u, l) = true).
    { rewrite list_elem_of_fmap. split.
      - intros ([v k] & -> & [Hd Hv%elem_of_range]%list_elem_of_filter). by simplify_eq/=.
      - intros Hd. exists (u, l). by rewrite list_elem_of_filter, elem_of_range. }
    destruct (dropped h (u, l)) eqn:Hd.
    - rewrite decide_True by tauto. by rewrite option_guard_False.
    - rewrite decide_False by (intros ?; naive_solver). by rewrite option_guard_True. }
  rewrite Hc'. split_and!; [| |done|].
  - split.
    + intros u l [Hl _]%map_lookup_filter_Some. by eapply Hb, wf_bound.
    + intros u v l [Hu _]%map_lookup_filter_Some [Hv _]%map_lookup_filter_Some.
      by eapply wf_inj.
  - simpl. by rewrite range_perm.
  - intros u l Hu. apply (Hrem (u, l)). by apply elem_of_range.
Qed.

(** The sum of a field over a filtered counter, entry by entry. *)
Lemma total_filter f h c (P : string * loc → bool) :
  total f h (filter (λ e, P e = true) c)
  = sumZ (λ e, if P e then f (storage_at h e.2) else 0) (map_to_list c).
Proof.
  unfold total. rewrite map_to_list_filter_perm.
  induction (map_to_list c) as [|e l IH]; [done|].
  rewrite filter_cons. simpl. case_decide as HP; simpl; rewrite IH.
  - by rewrite HP.
  - apply not_true_is_false in HP. by rewrite HP.
Qed.

Lemma sumZ_omap (f : UserTraffic → Z) h (l : list (string * loc)) :
  sumZ f (omap (reported h) l)
  = sumZ (λ e, match reported h e with Some t => f t | None => 0 end) l.
Proof.
  induction l as [|e l IH]; [done|]. simpl in *. rewrite <- IH.
  by destruct (reported h e).
Qed.

(** Nothing is lost or invented for a field of the storages: with resetting on,
    what was there is what is reported, what stays, and what belonged to the
    users dropped as unknown. *)
Lemma slice_conserves f g h c :
  counter_wf h c → reset = true → f TrafficStorage_zero = 0 →
  (∀ uid s, g (mkUserTraffic uid (UpCounter s) (DownCounter s)) = f s) →
  let '(h', c', s) := traffic_slice h c in
  total f h c = sumZ g s + total f h' c' + total f h (filter (λ e, dropped h e = true) c).
Proof.
  intros Hwf Hr Hz Hfg. pose proof (traffic_slice_spec h c Hwf) as Hs.
  destruct (traffic_slice h c) as [[h' c'] s]. destruct Hs as (_ & -> & -> & Hrem).
  rewrite sumZ_omap.
  assert (total f h' (filter (λ e, dropped h e = false) c)
        = sumZ (λ e, if dropped h e then 0 else f (remaining h e)) (map_to_list c)) as ->.
  { assert (filter (λ e, dropped h e = false) c = filter (λ e, negb (dropped h e) = true) c) as ->.
    { apply map_filter_ext. intros u l _. by destruct (dropped h (u, l)). }
    rewrite (total_filter f h' c (λ e, negb (dropped h e))). apply sumZ_ext.
    intros [u l] Hl%elem_of_map_to_list. rewrite <- (Hrem u l Hl). by destruct (dropped h (u, l)). }
  rewrite total_filter. unfold total. rewrite <- !sumZ_add. apply sumZ_ext.
  intros e _. unfold reported, dropped, remaining. rewrite Hr.
  destruct (over h e); simpl; [|lia]. destruct (uidOf e.1 =? 0); simpl; [lia|].
  rewrite Hfg, Hz. lia.
Qed.
End slice.

(** ** Properties of the report loop *)

(** A node with two known users and a stranger, used by the witnesses. *)
Definition wit_uid (u : string) : Z :=
  if decide (u = "alice"%string) then 7 else if decide (u = "bob"%string) then 8 else 0.
Definition wit_heap : heap :=
  {[0%nat := mkTrafficStorage 100 50; 1%nat := mkTrafficStorage 3 4;
    2%nat := mkTrafficStorage 60 60]}.
Definition wit_counter : TrafficCounter :=
  {["alice"%string := 0%nat; "bob"%string := 1%nat; "eve"%string := 2%nat]}.

Lemma wit_wf : counter_wf wit_heap wit_counter.
Proof.
  assert (∀ u l, wit_counter !! u = Some l →
    (u = "alice" ∧ l = 0%nat) ∨ (u = "bob" ∧ l = 1%nat) ∨ (u = "eve" ∧ l = 2%nat))%string as Hc.
  { unfold wit_counter. intros u l Hl.
    repeat (apply lookup_insert_Some in Hl as [[<- <-]|[_ Hl]]; [tauto|]).
    apply lookup_singleton_Some in Hl as [<- <-]. tauto. }
  split.
  - intros u l Hl. destruct (Hc _ _ Hl) as [[-> ->]|[[-> ->]|[-> ->]]]; vm_compute; eauto.
  - intros u v l Hu Hv. destruct (Hc _ _ Hu), (Hc _ _ Hv); naive_solver.
Qed.

(** C6: one pass of the report loop reports exactly the known users above the
    node's threshold, each once with its two counters as they were, resets
    them when asked to, leaves every user below the threshold untouched, drops
    the counters above the threshold of unknown users, and keeps the counter
    well formed. *)
Theorem traffic_slice_exact `{RangeOrder} uidOf minTraffic reset h c :
  counter_wf h c →
  let '(h', c', s) := traffic_slice uidOf minTraffic reset h c in
  counter_wf h' c' ∧
  s ≡ₚ omap (reported uidOf minTraffic h) (map_to_list c) ∧
  ∀ u l, c !! u = Some l →
    (c' !! u = if over minTraffic h (u, l) && (uidOf u =? 0) then None else Some l) ∧
    storage_at h' l = if over minTraffic h (u, l) && reset then TrafficStorage_zero
                      else storage_at h l.
Proof.
  intros Hwf. pose proof (traffic_slice_spec uidOf minTraffic reset h c Hwf) as Hs.
  destruct (traffic_slice _ _ _ h c) as [[h' c'] s]. destruct Hs as (Hwf' & Hs & Hc' & Hrem).
  split_and!; [done|done|]. intros u l Hu. split; [|by apply Hrem].
  rewrite Hc', map_lookup_filter, Hu. simpl.
  change (_ && (uidOf u =? 0)) with (dropped uidOf minTraffic h (u, l)).
  destruct (dropped _ _ _ _) eqn:Hd; [by rewrite option_guard_False|].
  by rewrite option_guard_True.
Qed.

Lemma traffic_slice_exact_witness :
  let '(h', c', s) := @traffic_slice canonical_order wit_uid 10 true wit_heap wit_counter in
  s ≡ₚ [mkUserTraffic 7 100 50] ∧ c' !! "eve"%string = None ∧
  storage_at h' 1 = mkTrafficStorage 3 4 ∧ storage_at h' 0 = TrafficStorage_zero.
Proof.
  pose proof (@traffic_slice_exact canonical_order wit_uid 10 true wit_heap wit_counter wit_wf) as Hs.
  destruct (traffic_slice _ _ _ _ _) as [[h' c'] s]. destruct Hs as (_ & Hs & Hu). split_and!.
  - exact Hs.
  - apply (Hu "eve"%string 2%nat eq_refl).
  - apply (Hu "bob"%string 1%nat eq_refl).
  - apply (Hu "alice"%string 0%nat eq_refl).
Defined.

(** Conservation: with resetting on, the upload bytes held by the node's
    counters before the pass are exactly those reported, plus those still held,
    plus those of the users dropped as unknown; likewise for download. *)
Theorem traffic_slice_conserves `{RangeOrder} uidOf minTraffic h c :
  counter_wf h c →
  let '(h', c', s) := traffic_slice uidOf minTraffic true h c in
  let lost := filter (λ e, dropped uidOf minTraffic h e = true) c in
  total UpCounter h c
    = sumZ traffic_Upload s + total UpCounter h' c' + total UpCounter h lost ∧
  total DownCounter h c
    = sumZ traffic_Download s + total DownCounter h' c' + total DownCounter h lost.
Proof.
  intros Hwf.
  pose proof (slice_conserves uidOf minTraffic true UpCounter traffic_Upload h c Hwf
    eq_refl eq_refl (λ _ _, eq_refl)) as Hup.
  pose proof (slice_conserves uidOf minTraffic true DownCounter traffic_Download h c Hwf
    eq_refl eq_refl (λ _ _, eq_refl)) as Hdown.
  by destruct (traffic_slice _ _ _ h c) as [[h' c'] s].
Qed.

Lemma traffic_slice_conserves_witness :
  let '(h', c', s) := @traffic_slice canonical_order wit_uid 10 true wit_heap wit_counter in
  (163 = sumZ traffic_Upload s + total UpCounter h' c' + 60)%Z.
Proof.
  pose proof (@traffic_slice_conserves canonical_order wit_uid 10 wit_heap wit_counter wit_wf) as Hs.
  destruct (traffic_slice _ _ _ _ _) as [[h' c'] s]. destruct Hs as [Hs _].
  etrans; [|etrans; [exact Hs|]]; [reflexivity|].
  f_equal.
Defined.
