(* ===== verification/CounterConc.v ===== *)
(** The counters under concurrency: [GetCounter] called by many connections at
    once (src/common/counter/traffic.go), and the report loop of the cores
    racing with connections that count (src/core/{xray,sing,hy2}/user.go).

    A step is one atomic operation of the source: a [sync.Map] call, an atomic
    load, store or add.  Calls of different goroutines interleave freely. *)

From S2P Require Import Prelude Threads GoStd Panel Counter.
From stdpp Require Import prelude gmap strings relations.
From Stdlib Require Import ZArith Lia.

Open Scope Z_scope.

(** * Concurrent GetCounter *)

(** Where a goroutine is inside [GetCounter uuid]: before the [Load], before
    the [LoadOrStore] with its freshly allocated storage, or returned. *)
Inductive get_pc : Type :=
| GLoad (uuid : string)
| GStore (uuid : string) (newStorage : loc)
| GDone (uuid : string) (l : loc).

Record conc_state := mkConc { cs_heap : heap; cs_map : TrafficCounter; cs_threads : list get_pc }.

Definition get_step (h : heap) (c : TrafficCounter) (pc : get_pc)
    : option (heap * TrafficCounter * get_pc) :=
  match pc with
  | GLoad uuid =>
      match c !! uuid with
      | Some l => Some (h, c, GDone uuid l)
      | None => let l := fresh (dom h) in
                Some (<[l := TrafficStorage_zero]> h, c, GStore uuid l)
      end
  | GStore uuid newStorage =>
      let '(c, l, _) := LoadOrStore c uuid newStorage in Some (h, c, GDone uuid l)
  | GDone _ _ => None
  end.

Inductive conc_step : conc_state → conc_state → Prop :=
| conc_step_thread h c ts i pc h' c' pc' :
    ts !! i = Some pc → get_step h c pc = Some (h', c', pc') →
    conc_step (mkConc h c ts) (mkConc h' c' (<[i := pc']> ts)).

Lemma conc_step_at i h c ts pc h' c' pc' s' :
  ts !! i = Some pc → get_step h c pc = Some (h', c', pc') →
  s' = mkConc h' c' (<[i := pc']> ts) → conc_step (mkConc h c ts) s'.
Proof. intros ? ? ->. by econstructor. Qed.

(** One goroutine running alone makes the calls of the sequential model. *)
Lemma get_step_sequential h c uuid :
  ∃ n ts, nsteps conc_step n (mkConc h c [GLoad uuid]) ts ∧
          (n ≤ 2)%nat ∧
          let '(h', c', l) := GetCounter h c uuid in ts = mkConc h' c' [GDone uuid l].
Proof.
  unfold GetCounter. destruct (c !! uuid) as [l|] eqn:Hl.
  - exists 1%nat, (mkConc h c [GDone uuid l]). split; [|eauto].
    apply nsteps_once, (conc_step_at 0 _ _ _ (GLoad uuid) h c (GDone uuid l)); simpl; by rewrite ?Hl.
  - unfold LoadOrStore. rewrite Hl. eexists 2%nat, _. split; [|split; [done|reflexivity]].
    eapply nsteps_l; [eapply (conc_step_at 0); [done|simpl; by rewrite Hl|done]|].
    apply nsteps_once. eapply (conc_step_at 0); [done| |done]. simpl.
    unfold LoadOrStore. by rewrite Hl.
Qed.

(** A goroutine that returned holds the map's storage; a storage waiting to be
    published is allocated, and by one goroutine only. *)
Record conc_inv (s : conc_state) : Prop := {
  ci_wf : counter_wf (cs_heap s) (cs_map s);
  ci_done : ∀ i uuid l, cs_threads s !! i = Some (GDone uuid l) → cs_map s !! uuid = Some l;
  ci_alloc : ∀ i uuid l, cs_threads s !! i = Some (GStore uuid l) → is_Some (cs_heap s !! l);
  ci_fresh : ∀ i uuid l v, cs_threads s !! i = Some (GStore uuid l) → cs_map s !! v ≠ Some l;
  ci_uniq : ∀ i j u v l, cs_threads s !! i = Some (GStore u l) →
            cs_threads s !! j = Some (GStore v l) → i = j;
}.

Lemma conc_inv_init h c us :
  counter_wf h c → conc_inv (mkConc h c (GLoad <$> us)).
Proof.
  intros Hwf. split; simpl; try done; intros *; rewrite list_lookup_fmap;
    destruct (us !! _); naive_solver.
Qed.

Lemma wf_alloc h c : counter_wf h c → counter_wf (<[fresh (dom h) := TrafficStorage_zero]> h) c.
Proof.
  intros [Hb Hi]. split; [|done]. intros u l Hl. rewrite lookup_insert.
  case_decide; eauto.
Qed.

Lemma fresh_unbound (h : heap) : ¬ is_Some (h !! fresh (dom h)).
Proof. rewrite <- elem_of_dom. apply is_fresh. Qed.

(** Allocation by one goroutine. *)
Lemma conc_inv_alloc h c ts i uuid :
  conc_inv (mkConc h c ts) → ts !! i = Some (GLoad uuid) →
  conc_inv (mkConc (<[fresh (dom h) := TrafficStorage_zero]> h) c
                   (<[i := GStore uuid (fresh (dom h))]> ts)).
Proof.
  intros [Hwf Hd Ha Hf Hu] Hi; simpl in *. split; simpl.
  - by apply wf_alloc.
  - intros j u l [[_ ?]|[_ ?]]%lookup_insert_list_cases; [done|eauto].
  - intros j u l [[_ [= _ <-]]|[_ Hj]]%lookup_insert_list_cases.
    + rewrite lookup_insert_eq. eauto.
    + rewrite lookup_insert. case_decide; eauto.
  - intros j u l v [[_ [= _ <-]]|[_ Hj]]%lookup_insert_list_cases; [|by eapply Hf].
    intros Hv. apply (fresh_unbound h). by eapply wf_bound.
  - intros j k u v l [[<- [= <- <-]]|[? Hj]]%lookup_insert_list_cases
      [[<- [= <-]]|[? Hk]]%lookup_insert_list_cases; try done.
    + by apply Ha, fresh_unbound in Hk.
    + subst. by apply Ha, fresh_unbound in Hj.
    + by eapply Hu.
Qed.

(** Publication by one goroutine. *)
Lemma conc_inv_publish h c ts i uuid l0 :
  conc_inv (mkConc h c ts) → ts !! i = Some (GStore uuid l0) → c !! uuid = None →
  conc_inv (mkConc h (<[uuid := l0]> c) (<[i := GDone uuid l0]> ts)).
Proof.
  intros [Hwf Hd Ha Hf Hu] Hi Hc; simpl in *. split; simpl.
  - split.
    + intros u l [[_ <-]|[_ Hl]]%lookup_insert_Some; [by eapply Ha|by eapply wf_bound].
    + intros u v l [[<- <-]|[_ Hl]]%lookup_insert_Some [[<- Hvl]|[_ Hvl]]%lookup_insert_Some;
        try done; subst; [by eapply (Hf i _ _ v) in Hi|by eapply (Hf i _ _ u) in Hi|].
      by eapply wf_inj.
  - intros j u l [[_ [= <- <-]]|[_ Hj]]%lookup_insert_list_cases; [by rewrite lookup_insert_eq|].
    rewrite lookup_insert_ne; [by eapply Hd|]. intros <-. apply Hd in Hj. congruence.
  - intros j u l [[_ ?]|[_ Hj]]%lookup_insert_list_cases; [done|by eapply Ha].
  - intros j u l v [[_ ?]|[Hne Hj]]%lookup_insert_list_cases; [done|].
    intros [[_ ->]|[_ Hv]]%lookup_insert_Some; [|by eapply Hf].
    apply Hne. by eapply Hu.
  - intros j k u v l [[_ ?]|[_ Hj]]%lookup_insert_list_cases
      [[_ ?]|[_ Hk]]%lookup_insert_list_cases; try done. by eapply Hu.
Qed.

(** A goroutine that found the storage in the map. *)
Lemma conc_inv_found h c ts i uuid l0 :
  conc_inv (mkConc h c ts) → c !! uuid = Some l0 →
  conc_inv (mkConc h c (<[i := GDone uuid l0]> ts)).
Proof.
  intros [Hwf Hd Ha Hf Hu] Hc; simpl in *. split; simpl; [done|..].
  - intros j u l [[_ [= <- <-]]|[_ Hj]]%lookup_insert_list_cases; [done|by eapply Hd].
  - intros j u l [[_ ?]|[_ Hj]]%lookup_insert_list_cases; [done|by eapply Ha].
  - intros j u l v [[_ ?]|[_ Hj]]%lookup_insert_list_cases; [done|by eapply Hf].
  - intros j k u v l [[_ ?]|[_ Hj]]%lookup_insert_list_cases
      [[_ ?]|[_ Hk]]%lookup_insert_list_cases; try done. by eapply Hu.
Qed.

Lemma conc_inv_step s s' : conc_inv s → conc_step s s' → conc_inv s'.
Proof.
  intros Hinv Hs. destruct Hs as [h c ts i pc h' c' pc' Hi Hstep].
  destruct pc as [uuid|uuid l0|]; simpl in Hstep; [| |done].
  - destruct (c !! uuid) eqn:Hc; simplify_eq; [by apply conc_inv_found|by apply conc_inv_alloc].
  - unfold LoadOrStore in Hstep. destruct (c !! uuid) eqn:Hc; simplify_eq.
    + by apply conc_inv_found.
    + by eapply conc_inv_publish.
Qed.

(** C29: Whatever the interleaving of any number of connections calling
    [GetCounter] at once, two that asked for the same user got the same
    storage, the one the map holds, and two that asked for different users got
    different ones: no connection counts into a storage the report loop does
    not see. *)
Theorem GetCounter_agree h c us s i j u v l k :
  counter_wf h c → rtc conc_step (mkConc h c (GLoad <$> us)) s →
  cs_threads s !! i = Some (GDone u l) → cs_threads s !! j = Some (GDone v k) →
  cs_map s !! u = Some l ∧ (u = v ↔ l = k).
Proof.
  intros Hwf Hs Hi Hj.
  assert (conc_inv s) as [Hwf' Hd _ _ _]
    by (eapply rtc_invariant; [by apply conc_inv_init|apply conc_inv_step|exact Hs]).
  split; [by eapply Hd|]. split.
  - intros <-. apply Hd in Hi, Hj. congruence.
  - intros <-. by eapply wf_inj; [|eapply Hd..].
Qed.

(** Two connections of one user that both miss, then both try to publish. *)
Definition race_alloc1 : conc_state :=
  mkConc {[0%nat := TrafficStorage_zero]} ∅ [GStore "alice" 0; GLoad "alice"]%string.
Definition race_alloc2 : conc_state :=
  mkConc {[0%nat := TrafficStorage_zero; 1%nat := TrafficStorage_zero]} ∅
    [GStore "alice" 0; GStore "alice" 1]%string.
Definition race_published : conc_state :=
  mkConc {[0%nat := TrafficStorage_zero; 1%nat := TrafficStorage_zero]} {["alice"%string := 1%nat]}
    [GStore "alice" 0; GDone "alice" 1]%string.
Definition race_done : conc_state :=
  mkConc {[0%nat := TrafficStorage_zero; 1%nat := TrafficStorage_zero]} {["alice"%string := 1%nat]}
    [GDone "alice" 1; GDone "alice" 1]%string.

Lemma race_run : rtc conc_step (mkConc ∅ ∅ (GLoad <$> ["alice"; "alice"]%string)) race_done.
Proof.
  apply rtc_l with race_alloc1; [by eapply (conc_step_at 0)|].
  apply rtc_l with race_alloc2; [by eapply (conc_step_at 1)|].
  apply rtc_l with race_published; [by eapply (conc_step_at 1)|].
  apply rtc_l with race_done; [by eapply (conc_step_at 0)|]. apply rtc_refl.
Qed.

Lemma GetCounter_agree_witness :
  cs_map race_done !! "alice"%string = Some 1%nat ∧
  ("alice"%string = "alice"%string ↔ 1%nat = 1%nat).
Proof.
  apply (GetCounter_agree ∅ ∅ ["alice"; "alice"]%string race_done 0 1).
  - apply counter_wf_empty.
  - exact race_run.
  - reflexivity.
  - reflexivity.
Defined.

(** * The report loop against connections that count

    One known user's storage.  The reporter is at the top of the callback
    ([RIdle]), has loaded the upload ([RUp]), has loaded both and found them
    above the threshold ([RBoth]), or has stored 0 in the upload ([RReset]).
    Connections add what they carry, except that [Read] and [Write] of sing's
    [ConnCounter] (src/common/counter/conn.go) store it in place of what the
    counter held.  The ghost fields record what the connections counted, what
    went into a report, and what a store erased: the reset all that it finds in
    the counter beyond what the reporter loaded, a connection's store all that
    it finds.  (When the reporter has already loaded what such a store erases, its
    reset finds less than it loaded, which takes the excess back.) *)
Inductive rep_pc : Type :=
| RIdle
| RUp (up : Z)
| RBoth (up down : Z)
| RReset (up down : Z).

Record race := mkRace {
  r_up : Z; r_down : Z; r_pc : rep_pc;
  sent_up : Z; sent_down : Z;
  rep_up : Z; rep_down : Z;
  erased_up : Z; erased_down : Z;
}.

Inductive race_step (minTraffic : Z) : race → race → Prop :=
| race_add_up u d pc su sd ru rd eu ed n : 0 ≤ n →
    race_step minTraffic (mkRace u d pc su sd ru rd eu ed)
      (mkRace (wrap64 (u + n)) d pc (su + n) sd ru rd eu ed)
| race_add_down u d pc su sd ru rd eu ed n : 0 ≤ n →
    race_step minTraffic (mkRace u d pc su sd ru rd eu ed)
      (mkRace u (wrap64 (d + n)) pc su (sd + n) ru rd eu ed)
(* ConnCounter.Read and Write *)
| race_put_up u d pc su sd ru rd eu ed n : 0 ≤ n →
    race_step minTraffic (mkRace u d pc su sd ru rd eu ed)
      (mkRace (wrap64 n) d pc (su + n) sd ru rd (eu + u) ed)
| race_put_down u d pc su sd ru rd eu ed n : 0 ≤ n →
    race_step minTraffic (mkRace u d pc su sd ru rd eu ed)
      (mkRace u (wrap64 n) pc su (sd + n) ru rd eu (ed + d))
(* the report *)
| race_load_up u d su sd ru rd eu ed :
    race_step minTraffic (mkRace u d RIdle su sd ru rd eu ed)
      (mkRace u d (RUp u) su sd ru rd eu ed)
| race_load_down u d up su sd ru rd eu ed :
    race_step minTraffic (mkRace u d (RUp up) su sd ru rd eu ed)
      (mkRace u d (if minTraffic <? wrap64 (up + d) then RBoth up d else RIdle)
              su sd ru rd eu ed)
| race_store_up u d up down su sd ru rd eu ed :
    race_step minTraffic (mkRace u d (RBoth up down) su sd ru rd eu ed)
      (mkRace 0 d (RReset up down) su sd ru rd (eu + (u - up)) ed)
| race_store_down u d up down su sd ru rd eu ed :
    race_step minTraffic (mkRace u d (RReset up down) su sd ru rd eu ed)
      (mkRace u 0 RIdle su sd (ru + up) (rd + down) eu (ed + (d - down))).

Definition race_init : race := mkRace 0 0 RIdle 0 0 0 0 0 0.

(** What the reporter took out of the counters and has not reported yet. *)
Definition taken_up (pc : rep_pc) : Z := match pc with RReset up _ => up | _ => 0 end.

(** What the reporter loaded is still there, or a connection erased it. *)
Definition loaded_ok (r : race) : Prop :=
  match r_pc r with
  | RIdle => True
  | RUp up => 0 ≤ up ≤ r_up r + erased_up r
  | RBoth up down => 0 ≤ up ≤ r_up r + erased_up r ∧ 0 ≤ down ≤ r_down r + erased_down r
  | RReset up down => 0 ≤ up ∧ 0 ≤ down ≤ r_down r + erased_down r
  end.

Record race_ok (r : race) : Prop := {
  ro_up : sent_up r = rep_up r + erased_up r + r_up r + taken_up (r_pc r);
  ro_down : sent_down r = rep_down r + erased_down r + r_down r;
  ro_pos : 0 ≤ rep_up r ∧ 0 ≤ rep_down r ∧ 0 ≤ erased_up r ∧ 0 ≤ erased_down r ∧
           0 ≤ r_up r ∧ 0 ≤ r_down r;
  ro_loaded : loaded_ok r;
}.

Definition race_small (r : race) : Prop := sent_up r < two63 ∧ sent_down r < two63.

Lemma wrap64_small z : 0 ≤ z < two63 → wrap64 z = z.
Proof. intros ?. apply wrap64_id. unfold int64, two63 in *. lia. Qed.

Lemma race_step_small m r r' : race_step m r r' → race_small r' → race_small r.
Proof. unfold race_small. destruct 1; simpl; lia. Qed.

Lemma race_ok_step m r r' :
  race_step m r r' → race_small r' → race_ok r → race_ok r'.
Proof.
  intros Hs [Hsu Hsd] [Hu Hd Hp Hl].
  destruct Hs; simpl in *; unfold loaded_ok in Hl; simpl in Hl.
  1-4: destruct pc; simpl in *; split; unfold loaded_ok; simpl; rewrite ?wrap64_small by lia; lia.
  - split; unfold loaded_ok; simpl in *; lia.
  - case_match; split; unfold loaded_ok; simpl in *; lia.
  - split; unfold loaded_ok; simpl in *; lia.
  - split; unfold loaded_ok; simpl in *; lia.
Qed.

Lemma race_reachable m r : rtc (race_step m) race_init r → race_small r → race_ok r.
Proof.
  intros Hr. revert r Hr. apply (rtc_ind_r (R:=race_step m) (λ r, race_small r → race_ok r)).
  - split; unfold loaded_ok; simpl; lia.
  - eauto using race_ok_step, race_step_small.
Qed.

(** C28: however connections and the one report loop interleave over a user's
    counters, sing's connections that store what they carry among them: whenever
    the loop is between two reads of the counters, and less than 2^63 bytes
    have been counted, what has been taken into a report plus what the counters
    still hold is what the connections counted, less what a store erased; so no
    byte is ever reported twice, and nothing is reported that was not
    counted. *)
Theorem race_accounting m r :
  rtc (race_step m) race_init r → r_pc r = RIdle → race_small r →
  sent_up r = rep_up r + r_up r + erased_up r ∧
  sent_down r = rep_down r + r_down r + erased_down r ∧
  0 ≤ erased_up r ∧ 0 ≤ erased_down r ∧
  rep_up r + r_up r ≤ sent_up r ∧ rep_down r + r_down r ≤ sent_down r.
Proof.
  intros Hr Hpc Hs. destruct (race_reachable m r Hr Hs) as [Hu Hd Hp _].
  rewrite Hpc in Hu. simpl in Hu. lia.
Qed.

(** A connection counts 100 bytes; the reporter loads both counters; the
    connection counts [n] more; the reporter resets. *)
Lemma race_losing_run m n :
  m < 100 → 0 ≤ n < two63 - 100 →
  rtc (race_step m) race_init (mkRace 0 0 RIdle (100 + n) 0 100 0 n 0).
Proof.
  intros Hm Hn. unfold race_init.
  eapply rtc_l; [apply (race_add_up _ _ _ _ _ _ _ _ _ _ 100); lia|].
  change (wrap64 (0 + 100)) with 100. change (0 + 100) with 100.
  eapply rtc_l; [apply race_load_up|].
  eapply rtc_l; [apply race_load_down|].
  change (wrap64 (100 + 0)) with 100.
  rewrite (proj2 (Z.ltb_lt m 100)) by lia.
  eapply rtc_l; [apply (race_add_up _ _ _ _ _ _ _ _ _ _ n); lia|].
  rewrite wrap64_small by lia.
  eapply rtc_l; [apply race_store_up|].
  eapply rtc_l; [apply race_store_down|].
  by replace (0 + (100 + n - 100)) with n by lia.
Qed.

(** The reset is not atomic with the load: for every [n] there is an
    interleaving after which the reporter is idle, the counters are empty, and
    [n] bytes that were counted are in no report and never will be. *)
Theorem race_loses m n :
  m < 100 → 0 < n < two63 - 100 →
  ∃ r, rtc (race_step m) race_init r ∧ r_pc r = RIdle ∧ r_up r = 0 ∧ r_down r = 0 ∧
       sent_up r - rep_up r = n.
Proof.
  intros Hm Hn. eexists. split; [apply (race_losing_run m n); lia|]. simpl.
  split_and!; [done..|lia].
Qed.

Lemma race_accounting_witness :
  let r := mkRace 0 0 RIdle 105 0 100 0 5 0 in
  sent_up r = rep_up r + r_up r + erased_up r ∧ rep_up r + r_up r ≤ sent_up r.
Proof.
  intros r. destruct (race_accounting 10 r) as (? & _ & _ & _ & ? & _); [| | |by split].
  - apply (race_losing_run 10 5); unfold two63; lia.
  - reflexivity.
  - by split.
Defined.

Lemma race_loses_witness :
  ∃ r, rtc (race_step 10) race_init r ∧ r_pc r = RIdle ∧ r_up r = 0 ∧ r_down r = 0 ∧
       sent_up r - rep_up r = 1500.
Proof. apply (race_loses 10 1500); unfold two63; lia. Defined.
