(* ===== verification/Limiter.v ===== *)
(** src/limiter: the per-node limiter (limiter.go, dynamic.go, rule.go) that
    the cores consult on every connection.

    The token buckets (juju/ratelimit) and the regular expressions (package
    regexp) are parameters.  [now] is the clock, in nanoseconds since the
    epoch.  A [sync.Map] is a [gmap]; the registry of limiters keeps pointers,
    shared with the controllers. *)

From S2P Require Import Prelude GoStd Conf Panel.
From stdpp Require Import prelude gmap strings.
From Stdlib Require Import ZArith Lia.

Open Scope Z_scope.

(** github.com/juju/ratelimit *)
Class RatelimitLib := {
  Bucket : Type;
  NewBucketWithQuantum : Z → Z → Z → Bucket;
}.

(** regexp: a pattern compiles or not, and matches or not. *)
Class RegexpLib := {
  Regexp : Type;
  regexp_Compile : string → option Regexp;
  MatchString : Regexp → string → bool;
}.

(** time.Time.Unix *)
Definition Unix (now : Z) : Z := now / Second.

(** * Data *)
Record UserLimitInfo := mkUserLimitInfo {
  uli_UID : Z;
  uli_SpeedLimit : Z;
  uli_DeviceLimit : Z;
  uli_DynamicSpeedLimit : Z;
  uli_ExpireTime : Z;
  uli_OverLimit : bool;
}.

#[global] Instance UserLimitInfo_eq_dec : EqDecision UserLimitInfo.
Proof. solve_decision. Defined.

Definition UserLimitInfo_zero : UserLimitInfo := mkUserLimitInfo 0 0 0 0 0 false.

Section limiter.
Context `{RL : RatelimitLib} `{RE : RegexpLib}.

Record Limiter := mkLimiter {
  DomainRules : list Regexp;
  ProtocolRules : list string;
  SpeedLimit : Z;
  UserOnlineIP : gmap string (gmap string Z);
  OldUserOnline : gmap string Z;
  UUIDtoUID : gmap string Z;
  lim_UserLimitInfo : gmap string UserLimitInfo;
  SpeedLimiter : gmap string Bucket;
  AliveList : gmap Z Z;
}.

(** Assignments to one field. *)
Definition set_rules r p (l : Limiter) := mkLimiter r p (SpeedLimit l) (UserOnlineIP l)
  (OldUserOnline l) (UUIDtoUID l) (lim_UserLimitInfo l) (SpeedLimiter l) (AliveList l).
Definition set_UserOnlineIP x (l : Limiter) := mkLimiter (DomainRules l) (ProtocolRules l)
  (SpeedLimit l) x (OldUserOnline l) (UUIDtoUID l) (lim_UserLimitInfo l) (SpeedLimiter l) (AliveList l).
Definition set_OldUserOnline x (l : Limiter) := mkLimiter (DomainRules l) (ProtocolRules l)
  (SpeedLimit l) (UserOnlineIP l) x (UUIDtoUID l) (lim_UserLimitInfo l) (SpeedLimiter l) (AliveList l).
Definition set_UUIDtoUID x (l : Limiter) := mkLimiter (DomainRules l) (ProtocolRules l)
  (SpeedLimit l) (UserOnlineIP l) (OldUserOnline l) x (lim_UserLimitInfo l) (SpeedLimiter l) (AliveList l).
Definition set_UserLimitInfo x (l : Limiter) := mkLimiter (DomainRules l) (ProtocolRules l)
  (SpeedLimit l) (UserOnlineIP l) (OldUserOnline l) (UUIDtoUID l) x (SpeedLimiter l) (AliveList l).
Definition set_SpeedLimiter x (l : Limiter) := mkLimiter (DomainRules l) (ProtocolRules l)
  (SpeedLimit l) (UserOnlineIP l) (OldUserOnline l) (UUIDtoUID l) (lim_UserLimitInfo l) x (AliveList l).
Definition set_AliveList x (l : Limiter) := mkLimiter (DomainRules l) (ProtocolRules l)
  (SpeedLimit l) (UserOnlineIP l) (OldUserOnline l) (UUIDtoUID l) (lim_UserLimitInfo l) (SpeedLimiter l) x.

(** * limiter.go *)
Definition limit_of_user (u : UserInfo) : UserLimitInfo :=
  mkUserLimitInfo (user_Id u)
    (if user_SpeedLimit u =? 0 then 0 else user_SpeedLimit u)
    (if user_DeviceLimit u =? 0 then 0 else user_DeviceLimit u) 0 0 false.

(** The body of the loop over the users. *)
Definition AddLimiter_user (tag : string) (info : Limiter) (u : UserInfo) : Limiter :=
  set_UserLimitInfo (<[UserTag tag (user_Uuid u) := limit_of_user u]> (lim_UserLimitInfo info))
    (set_UUIDtoUID (<[user_Uuid u := user_Id u]> (UUIDtoUID info)) info).

(** [AddLimiter] up to the registration: the limiter it builds. *)
Definition new_limiter (tag : string) (l : LimitConfig) (users : list UserInfo)
    (aliveList : gmap Z Z) : Limiter :=
  foldl (AddLimiter_user tag)
    (mkLimiter [] [] (lim_SpeedLimit l) ∅ ∅ ∅ ∅ ∅ aliveList) users.

Definition UpdateUser_delete (tag : string) (l : Limiter) (u : UserInfo) : Limiter :=
  let key := UserTag tag (user_Uuid u) in
  set_AliveList (delete (user_Id u) (AliveList l))
  (set_UUIDtoUID (delete (user_Uuid u) (UUIDtoUID l))
  (set_SpeedLimiter (delete key (SpeedLimiter l))
  (set_UserOnlineIP (delete key (UserOnlineIP l))
  (set_UserLimitInfo (delete key (lim_UserLimitInfo l)) l)))).

Definition UpdateUser (tag : string) (added deleted : list UserInfo) (l : Limiter) : Limiter :=
  foldl (AddLimiter_user tag) (foldl (UpdateUser_delete tag) l deleted) added.

Definition UpdateDynamicSpeedLimit (tag uuid : string) (limit expire : Z) (l : Limiter)
    : Limiter * option string :=
  let key := UserTag tag uuid in
  match lim_UserLimitInfo l !! key with
  | Some info =>
      (set_UserLimitInfo (<[key := mkUserLimitInfo (uli_UID info) (uli_SpeedLimit info)
         (uli_DeviceLimit info) limit (Unix expire) (uli_OverLimit info)]> (lim_UserLimitInfo l)) l,
       None)
  | None => (l, Some "not found"%string)
  end.

(** * dynamic.go *)
Definition AddDynamicSpeedLimit (now : Z) (tag : string) (userInfo : UserInfo)
    (limitNum expire : Z) (l : Limiter) : Limiter :=
  set_UserLimitInfo (<[UserTag tag (user_Uuid userInfo) :=
    mkUserLimitInfo 0 0 0 limitNum (Unix (now + wrap64 (expire * Second))) false]>
    (lim_UserLimitInfo l)) l.

Definition determineSpeedLimit (limit1 limit2 : Z) : Z :=
  if (limit1 =? 0) || (limit2 =? 0) then
    if limit2 <? limit1 then limit1 else if limit1 <? limit2 then limit2 else 0
  else
    if limit2 <? limit1 then limit2 else if limit1 <? limit2 then limit1 else limit1.

(** * CheckLimit *)

(** Lines 131-152: the user's own limit; an expired dynamic limit is cleared,
    or the whole entry is removed when the user has no limit of his own. *)
Definition CheckLimit_user (now : Z) (taguuid : string) (u : UserLimitInfo) (l : Limiter)
    : Limiter * Z :=
  if (uli_ExpireTime u <? Unix now) && negb (uli_ExpireTime u =? 0) then
    if negb (uli_SpeedLimit u =? 0) then
      (set_UserLimitInfo (<[taguuid := mkUserLimitInfo (uli_UID u) (uli_SpeedLimit u)
         (uli_DeviceLimit u) 0 0 (uli_OverLimit u)]> (lim_UserLimitInfo l)) l, uli_SpeedLimit u)
    else (set_UserLimitInfo (delete taguuid (lim_UserLimitInfo l)) l, 0)
  else (l, determineSpeedLimit (uli_SpeedLimit u) (uli_DynamicSpeedLimit u)).

(** Lines 153-186: the device limit; the boolean is [Reject]. *)
Definition CheckLimit_device (taguuid ip : string) (uid deviceLimit : Z) (l : Limiter)
    : Limiter * bool :=
  let aliveIp := zlookup (AliveList l) uid in
  let '(online, v, loaded) := LoadOrStore (UserOnlineIP l) taguuid {[ip := uid]} in
  let l := set_UserOnlineIP online l in
  if loaded then
    let '(oldipMap, _, loaded) := LoadOrStore v ip uid in
    let l := set_UserOnlineIP (<[taguuid := oldipMap]> (UserOnlineIP l)) l in
    if loaded then (l, false)
    else match OldUserOnline l !! ip with
    | Some v => (if v =? uid then set_OldUserOnline (delete ip (OldUserOnline l)) l else l, false)
    | None =>
        if 0 <? deviceLimit then
          if deviceLimit <=? aliveIp then
            (set_UserOnlineIP (<[taguuid := delete ip oldipMap]> (UserOnlineIP l)) l, true)
          else (l, false)
        else (l, false)
    end
  else match OldUserOnline l !! ip with
  | Some v => (if v =? uid then set_OldUserOnline (delete ip (OldUserOnline l)) l else l, false)
  | None =>
      if 0 <? deviceLimit then
        if deviceLimit <=? aliveIp then
          (set_UserOnlineIP (delete taguuid (UserOnlineIP l)) l, true)
        else (l, false)
      else (l, false)
  end.

(** Lines 188-199: the bucket. *)
Definition CheckLimit_bucket (taguuid : string) (userLimit : Z) (l : Limiter)
    : Limiter * option Bucket :=
  let limit := Z.quot (wrap64 (determineSpeedLimit (SpeedLimit l) userLimit * 1000000)) 8 in
  if 0 <? limit then
    let Bucket := NewBucketWithQuantum Second limit limit in
    let '(m, v, ok) := LoadOrStore (SpeedLimiter l) taguuid Bucket in
    if ok then (set_SpeedLimiter m l, Some v)
    else (set_SpeedLimiter (<[taguuid := Bucket]> m) l, Some Bucket)
  else (l, None).

Definition CheckLimit (now : Z) (taguuid ip : string) (isTcp noSSUDP : bool) (l : Limiter)
    : Limiter * option Bucket * bool :=
  let ip := TrimPrefix ip "::ffff:" in
  match lim_UserLimitInfo l !! taguuid with
  | None => (l, None, true)
  | Some u =>
      let '(l, userLimit) := CheckLimit_user now taguuid u l in
      let '(l, reject) :=
        if noSSUDP then CheckLimit_device taguuid ip (uli_UID u) (uli_DeviceLimit u) l
        else (l, false) in
      if reject then (l, None, true)
      else let '(l, b) := CheckLimit_bucket taguuid userLimit l in (l, b, false)
  end.

(** * GetOnlineDevice *)
Section online.
Context `{RangeOrder}.

Definition online_ip (st : gmap string Z * list OnlineUser) (e : string * Z)
    : gmap string Z * list OnlineUser :=
  (<[e.1 := e.2]> st.1, st.2 ++ [mkOnlineUser e.2 e.1]).

Definition online_user (st : Limiter * list OnlineUser) (e : string * gmap string Z)
    : Limiter * list OnlineUser :=
  let '(old, onlineUser) := foldl online_ip (OldUserOnline st.1, st.2) (range e.2) in
  (set_UserOnlineIP (delete e.1 (UserOnlineIP st.1)) (set_OldUserOnline old st.1), onlineUser).

Definition GetOnlineDevice (l : Limiter) : Limiter * list OnlineUser :=
  foldl online_user (set_OldUserOnline ∅ l, []) (range (UserOnlineIP l)).
End online.

(** * rule.go *)
Definition CheckDomainRule (l : Limiter) (destination : string) : bool :=
  existsb (λ r, MatchString r destination) (DomainRules l).

Definition CheckProtocolRule (l : Limiter) (protocol : string) : bool :=
  existsb (λ r, String.eqb r protocol) (ProtocolRules l).

(** [regexp.MustCompile] panics on a pattern that does not compile. *)
Fixpoint MustCompile_all (ps : list string) : res string (list Regexp) :=
  match ps with
  | [] => Ok []
  | p :: ps =>
      match regexp_Compile p with
      | Some r => rs ← MustCompile_all ps; Ok (r :: rs)
      | None => Panic "regexp: Compile"
      end
  end.

Definition UpdateRule (l : Limiter) (rule : Rules) : res string Limiter :=
  rs ← MustCompile_all (rules_Regexp rule); Ok (set_rules rs (rules_Protocol rule) l).

(** * The registry [limiter], a global map from the node's tag to a pointer *)
Record registry := mkRegistry { reg_heap : gmap nat Limiter; reg_map : gmap string nat }.

Definition Limiter_Init : gmap string nat := ∅.

Definition AddLimiter (r : registry) (tag : string) (l : LimitConfig) (users : list UserInfo)
    (aliveList : gmap Z Z) : registry * nat :=
  let p := fresh (dom (reg_heap r)) in
  (mkRegistry (<[p := new_limiter tag l users aliveList]> (reg_heap r)) (<[tag := p]> (reg_map r)), p).

Definition GetLimiter (r : registry) (tag : string) : res string nat :=
  match reg_map r !! tag with Some p => Ok p | None => Err "not found"%string end.

Definition DeleteLimiter (r : registry) (tag : string) : registry :=
  mkRegistry (reg_heap r) (delete tag (reg_map r)).

(** * Lemmas *)

(** ** Speed limits *)
Lemma determineSpeedLimit_min a b :
  0 ≤ a → 0 ≤ b →
  determineSpeedLimit a b = if a =? 0 then b else if b =? 0 then a else Z.min a b.
Proof.
  intros Ha Hb. unfold determineSpeedLimit.
  repeat (case_match; bool_to_prop); try lia; simplify_eq/=; lia.
Qed.

Lemma determineSpeedLimit_comm a b : determineSpeedLimit a b = determineSpeedLimit b a.
Proof. unfold determineSpeedLimit. repeat (case_match; bool_to_prop); try lia; simplify_eq/=; lia. Qed.

(** ** Online tables *)

(** The addresses recorded online for a user key. *)
Definition online (l : Limiter) (taguuid : string) : gmap string Z :=
  default ∅ (UserOnlineIP l !! taguuid).

(** The exact condition of the device limit. *)
Definition device_reject (l : Limiter) (taguuid ip : string) (uid deviceLimit : Z) : bool :=
  match online l taguuid !! ip, OldUserOnline l !! ip with
  | None, None => (0 <? deviceLimit) && (deviceLimit <=? zlookup (AliveList l) uid)
  | _, _ => false
  end.

(** What the device check leaves alone. *)
Definition same_config (l l' : Limiter) : Prop :=
  DomainRules l' = DomainRules l ∧ ProtocolRules l' = ProtocolRules l ∧
  SpeedLimit l' = SpeedLimit l ∧ UUIDtoUID l' = UUIDtoUID l ∧ AliveList l' = AliveList l.

Lemma same_config_trans l1 l2 l3 : same_config l1 l2 → same_config l2 l3 → same_config l1 l3.
Proof. unfold same_config. naive_solver congruence. Qed.

Lemma CheckLimit_user_spec now k u l :
  let '(l', _) := CheckLimit_user now k u l in
  same_config l l' ∧ UserOnlineIP l' = UserOnlineIP l ∧ OldUserOnline l' = OldUserOnline l ∧
  SpeedLimiter l' = SpeedLimiter l ∧
  (∀ k', k' ≠ k → lim_UserLimitInfo l' !! k' = lim_UserLimitInfo l !! k').
Proof.
  unfold CheckLimit_user, same_config. repeat case_match; simplify_eq/=; split_and!; try done;
    intros; by rewrite ?lookup_insert_ne, ?lookup_delete_ne.
Qed.

Lemma CheckLimit_bucket_spec k n l :
  let '(l', _) := CheckLimit_bucket k n l in
  same_config l l' ∧ UserOnlineIP l' = UserOnlineIP l ∧ OldUserOnline l' = OldUserOnline l ∧
  lim_UserLimitInfo l' = lim_UserLimitInfo l.
Proof.
  unfold CheckLimit_bucket, same_config, LoadOrStore.
  repeat case_match; simplify_eq/=; by split_and!.
Qed.

Lemma set_UserOnlineIP_id l : set_UserOnlineIP (UserOnlineIP l) l = l.
Proof. by destruct l. Qed.

(** A rejected connection leaves the limiter as it was. *)
Lemma CheckLimit_device_reject k ip uid d l :
  device_reject l k ip uid d = true → CheckLimit_device k ip uid d l = (l, true).
Proof.
  unfold device_reject, online, CheckLimit_device, LoadOrStore. intros Hr.
  destruct (UserOnlineIP l !! k) as [m|] eqn:Hk; simpl in Hr |- *; rewrite ?Hk; simpl.
  - destruct (m !! ip) eqn:Hm; [done|]. simpl.
    destruct (OldUserOnline l !! ip); [done|]. apply andb_true_iff in Hr as [-> ->].
    simpl. rewrite insert_insert_eq, delete_insert_id, insert_id by done.
    by destruct l.
  - rewrite lookup_empty in Hr. destruct (OldUserOnline l !! ip); [done|].
    apply andb_true_iff in Hr as [-> ->].
    simpl. rewrite delete_insert_id by done. by destruct l.
Qed.

(** An accepted one is recorded, and uses up its entry of the previous period. *)
Definition old_after (l : Limiter) (k ip : string) (uid : Z) : gmap string Z :=
  match online l k !! ip with
  | Some _ => OldUserOnline l
  | None => if decide (OldUserOnline l !! ip = Some uid) then delete ip (OldUserOnline l)
            else OldUserOnline l
  end.

Definition record_online (l : Limiter) (k ip : string) (uid : Z) : Limiter :=
  set_OldUserOnline (old_after l k ip uid)
    (set_UserOnlineIP (<[k := match online l k !! ip with
                              | Some _ => online l k | None => <[ip := uid]> (online l k) end]>
                        (UserOnlineIP l)) l).

Lemma CheckLimit_device_accept k ip uid d l :
  device_reject l k ip uid d = false →
  CheckLimit_device k ip uid d l = (record_online l k ip uid, false).
Proof.
  unfold device_reject, online, CheckLimit_device, LoadOrStore, record_online, old_after, online.
  intros Hr. destruct (UserOnlineIP l !! k) as [m|] eqn:Hk; simpl in Hr |- *; rewrite ?Hk; simpl.
  - destruct (m !! ip) eqn:Hm; simpl.
    { by rewrite !insert_id by done; destruct l. }
    destruct (OldUserOnline l !! ip) as [v|] eqn:Ho; simpl; rewrite ?Ho.
    + destruct (v =? uid) eqn:Hv; bool_to_prop; case_decide; simplify_eq; by destruct l.
    + destruct (0 <? d); simpl in *; rewrite ?Hr; try case_decide; try done; by destruct l.
  - rewrite lookup_empty in *. rewrite insert_empty.
    destruct (OldUserOnline l !! ip) as [v|] eqn:Ho; simpl; rewrite ?Ho.
    + destruct (v =? uid) eqn:Hv; bool_to_prop; case_decide; simplify_eq; by destruct l.
    + destruct (0 <? d); simpl in *; rewrite ?Hr; try case_decide; try done; by destruct l.
Qed.

Lemma device_reject_ext l l' k ip uid d :
  UserOnlineIP l' = UserOnlineIP l → OldUserOnline l' = OldUserOnline l →
  AliveList l' = AliveList l → device_reject l' k ip uid d = device_reject l k ip uid d.
Proof. unfold device_reject, online. by intros -> -> ->. Qed.

(** ** CheckLimit as a whole *)
Definition known_reject (l : Limiter) (k ip : string) (n : bool) (u : UserLimitInfo) : bool :=
  n && device_reject l k (TrimPrefix ip "::ffff:") (uli_UID u) (uli_DeviceLimit u).

Definition recorded (l : Limiter) (k ip : string) (n : bool) (u : UserLimitInfo) : Limiter :=
  if n then record_online l k (TrimPrefix ip "::ffff:") (uli_UID u) else l.

Lemma CheckLimit_unknown now k ip t n l :
  lim_UserLimitInfo l !! k = None → CheckLimit now k ip t n l = (l, None, true).
Proof. unfold CheckLimit. by intros ->. Qed.

Lemma CheckLimit_known now k ip t n l u :
  lim_UserLimitInfo l !! k = Some u →
  CheckLimit now k ip t n l =
    let '(l1, userLimit) := CheckLimit_user now k u l in
    if known_reject l k ip n u then (l1, None, true)
    else let '(l3, b) := CheckLimit_bucket k userLimit (recorded l1 k ip n u) in (l3, b, false).
Proof.
  intros Hu. unfold CheckLimit, known_reject, recorded. rewrite Hu.
  pose proof (CheckLimit_user_spec now k u l) as Hs.
  destruct (CheckLimit_user now k u l) as [l1 userLimit].
  destruct Hs as ((_ & _ & _ & _ & Ha) & Hon & Hold & _). destruct n; [|done].
  rewrite andb_true_l, <- (device_reject_ext l l1) by done.
  destruct (device_reject l1 _ _ _ _) eqn:Hr.
  - by rewrite CheckLimit_device_reject.
  - by rewrite CheckLimit_device_accept.
Qed.

Lemma online_record l k ip uid k' :
  online (record_online l k ip uid) k' =
    if decide (k' = k)
    then match online l k !! ip with Some _ => online l k | None => <[ip := uid]> (online l k) end
    else online l k'.
Proof.
  unfold online at 1, record_online. simpl. rewrite lookup_insert.
  destruct (decide (k = k')) as [->|]; [by rewrite decide_True|by rewrite decide_False].
Qed.

(** ** GetOnlineDevice *)
Section online_lemmas.
Context `{RangeOrder}.

Definition users_of (m : gmap string Z) : list OnlineUser :=
  (λ e : string * Z, mkOnlineUser e.2 e.1) <$> range m.

Definition insert_entry (m : gmap string Z) (e : string * Z) : gmap string Z := <[e.1 := e.2]> m.

Lemma online_ip_fold es old acc :
  foldl online_ip (old, acc) es =
    (foldl insert_entry old es,
     acc ++ ((λ e : string * Z, mkOnlineUser e.2 e.1) <$> es)).
Proof.
  revert old acc. induction es as [|e es IH]; intros; simpl; [by rewrite app_nil_r|].
  unfold online_ip at 2. simpl. rewrite IH. by rewrite <- app_assoc.
Qed.

(** Inserting the entries one after the other: a later one wins. *)
Lemma insert_fold (es : list (string * Z)) (old : gmap string Z) ip :
  foldl insert_entry old es !! ip =
    match last (filter (λ e, e.1 = ip) es) with Some e => Some e.2 | None => old !! ip end.
Proof.
  revert old. induction es as [|e es IH]; intros; simpl; [done|].
  rewrite IH, filter_cons. destruct (decide (e.1 = ip)) as [<-|Hne].
  - rewrite last_cons. destruct (last _); [done|]. unfold insert_entry.
    by rewrite lookup_insert_eq.
  - destruct (last _); [done|]. unfold insert_entry. by rewrite lookup_insert_ne.
Qed.

Definition all_entries (t : list (string * gmap string Z)) : list (string * Z) :=
  t ≫= λ e, range e.2.

Lemma online_user_fold es l acc :
  foldl online_user (l, acc) es =
    (set_UserOnlineIP (foldl (λ m k, delete k m) (UserOnlineIP l) es.*1)
      (set_OldUserOnline (foldl insert_entry (OldUserOnline l) (all_entries es)) l),
     acc ++ ((λ e : string * Z, mkOnlineUser e.2 e.1) <$> all_entries es)).
Proof.
  revert l acc. induction es as [|e es IH]; intros; simpl.
  { rewrite app_nil_r. by destruct l. }
  unfold online_user at 2. rewrite online_ip_fold, IH. unfold all_entries. simpl.
  by rewrite foldl_app, fmap_app, <- app_assoc.
Qed.

Lemma elem_of_all_entries (m : gmap string (gmap string Z)) ip uid :
  (ip, uid) ∈ all_entries (range m) ↔ ∃ k, default ∅ (m !! k) !! ip = Some uid.
Proof.
  unfold all_entries. rewrite list_elem_of_bind. split.
  - intros ([k t] & Ht & Hk%elem_of_range). apply elem_of_range in Ht.
    exists k. by rewrite Hk.
  - intros [k Hk]. destruct (m !! k) as [t|] eqn:Ht; [|simpl in Hk; by rewrite lookup_empty in Hk].
    exists (k, t). by rewrite !elem_of_range.
Qed.

Lemma last_elem {A} (l : list A) x : last l = Some x → x ∈ l.
Proof. intros Hl. apply last_Some in Hl as [l' ->]. set_solver. Qed.

Lemma GetOnlineDevice_spec l :
  let '(l', report) := GetOnlineDevice l in
  report = (λ e : string * Z, mkOnlineUser e.2 e.1) <$> all_entries (range (UserOnlineIP l)) ∧
  UserOnlineIP l' = ∅ ∧ same_config l l' ∧
  lim_UserLimitInfo l' = lim_UserLimitInfo l ∧ SpeedLimiter l' = SpeedLimiter l ∧
  (∀ ip uid, OldUserOnline l' !! ip = Some uid → ∃ k, online l k !! ip = Some uid) ∧
  (∀ k ip, is_Some (online l k !! ip) → is_Some (OldUserOnline l' !! ip)).
Proof.
  unfold GetOnlineDevice. rewrite online_user_fold. simpl. split_and!; try done.
  - apply map_eq. intros k. rewrite lookup_foldl_delete, lookup_empty.
    case_decide as Hk; [done|]. destruct (UserOnlineIP l !! k) as [m|] eqn:Hm; [|done].
    destruct Hk. apply list_elem_of_fmap. exists (k, m). by rewrite elem_of_range.
  - intros ip uid. rewrite insert_fold, lookup_empty. destruct (last _) as [[ip' uid']|] eqn:Hl; [|done].
    intros [= <-]. apply last_elem, list_elem_of_filter in Hl as [Hip He]. simpl in *. subst.
    by apply elem_of_all_entries.
  - intros k ip [uid Huid]. rewrite insert_fold.
    destruct (last _) as [e|] eqn:Hl; [eauto|]. apply last_None in Hl.
    assert ((ip, uid) ∈ filter (λ e, e.1 = ip) (all_entries (range (UserOnlineIP l)))) as He.
    { apply list_elem_of_filter. split; [done|]. apply elem_of_all_entries. by exists k. }
    rewrite Hl in He. by apply not_elem_of_nil in He.
Qed.
End online_lemmas.

(** * Properties *)

(** C1: [CheckLimit] rejects exactly the users the limiter does not know and,
    for connections that count devices, a known user's new address that was
    not online in the previous period while the panel already counts
    [DeviceLimit] addresses or more.  A rejection leaves the online tables and
    the buckets as they were; an acceptance records the address for that user
    and for no other. *)
Theorem CheckLimit_decision now k ip t n l :
  let ip' := TrimPrefix ip "::ffff:" in
  let '(l', b, reject) := CheckLimit now k ip t n l in
  reject = match lim_UserLimitInfo l !! k with
           | None => true
           | Some u =>
               n && bool_decide (online l k !! ip' = None ∧ OldUserOnline l !! ip' = None ∧
                                 0 < uli_DeviceLimit u ≤ zlookup (AliveList l) (uli_UID u))
           end ∧
  (reject = true → b = None ∧ UserOnlineIP l' = UserOnlineIP l ∧
     OldUserOnline l' = OldUserOnline l ∧ SpeedLimiter l' = SpeedLimiter l) ∧
  (reject = false → n = true → is_Some (online l' k !! ip') ∧ online l k ⊆ online l' k) ∧
  (∀ k', k' ≠ k → online l' k' = online l k') ∧ same_config l l'.
Proof.
  intros ip'. destruct (lim_UserLimitInfo l !! k) as [u|] eqn:Hu;
    [|rewrite CheckLimit_unknown by done; by split_and!].
  rewrite (CheckLimit_known _ _ _ _ _ _ u Hu).
  assert (known_reject l k ip n u = n && bool_decide (online l k !! ip' = None ∧
    OldUserOnline l !! ip' = None ∧ 0 < uli_DeviceLimit u ≤ zlookup (AliveList l) (uli_UID u))) as Hr.
  { unfold known_reject, device_reject. fold ip'. f_equal.
    destruct (online l k !! ip'), (OldUserOnline l !! ip');
      try (symmetry; apply bool_decide_eq_false; naive_solver).
    apply eq_bool_prop_intro. rewrite bool_decide_spec, andb_True, !Is_true_true, Z.ltb_lt, Z.leb_le.
    naive_solver. }
  rewrite Hr. pose proof (CheckLimit_user_spec now k u l) as Hs1.
  destruct (CheckLimit_user now k u l) as [l1 ul]. destruct Hs1 as (Hc1 & Ho1 & Hold1 & Hsl1 & _).
  destruct (n && _).
  { split_and!; try done. intros k' _. unfold online. by rewrite Ho1. }
  pose proof (CheckLimit_bucket_spec k ul (recorded l1 k ip n u)) as Hs2.
  destruct (CheckLimit_bucket _ _ _) as [l3 b]. destruct Hs2 as (Hc2 & Ho2 & _).
  assert (Hon : ∀ k', online l3 k' = online (recorded l1 k ip n u) k')
    by (intros; unfold online; by rewrite Ho2).
  assert (Hon1 : ∀ k', online l1 k' = online l k') by (intros; unfold online; by rewrite Ho1).
  assert (same_config l1 (recorded l1 k ip n u)) by (unfold recorded; by destruct n).
  split_and!; [done|done| | |by eapply same_config_trans; [|eapply same_config_trans]].
  - intros _ ->. rewrite Hon. unfold recorded. rewrite online_record, decide_True, Hon1 by done.
    fold ip'. destruct (online l k !! ip') eqn:He; [by rewrite He; eauto|].
    rewrite lookup_insert_eq. split; [eauto|]. by apply insert_subseteq.
  - intros k' Hk'. rewrite Hon, <- Hon1. unfold recorded. destruct n; [|done].
    by rewrite online_record, decide_False.
Qed.

(** The smallest limit that is set, 0 when none is. *)
Definition min_set (limits : list Z) : Z :=
  match filter (λ x, x ≠ 0) limits with
  | [] => 0
  | x :: xs => foldr Z.min x xs
  end.

Definition rate_limit (m : Z) : Z := m * 125000.

Lemma min_set_3 a b c :
  0 ≤ a → 0 ≤ b → 0 ≤ c → determineSpeedLimit a (determineSpeedLimit b c) = min_set [a; b; c].
Proof.
  intros Ha Hb Hc. rewrite (determineSpeedLimit_min b c) by done.
  rewrite determineSpeedLimit_min; [|done|repeat case_match; lia].
  unfold min_set. rewrite !filter_cons, filter_nil.
  repeat (case_decide; simpl); repeat (case_match; bool_to_prop); simplify_eq/=; lia.
Qed.

(** The first accepted connection of a user whose dynamic limit has not
    expired gets a bucket that refills at the smallest of the node's, the
    user's and the dynamic limit that is set (in Mbit/s: 125000 bytes per
    second each), and no bucket when none is set. *)
Theorem CheckLimit_rate now k ip t n l u :
  lim_UserLimitInfo l !! k = Some u → known_reject l k ip n u = false →
  SpeedLimiter l !! k = None →
  (uli_ExpireTime u = 0 ∨ Unix now ≤ uli_ExpireTime u) →
  0 ≤ SpeedLimit l < 2 ^ 43 → 0 ≤ uli_SpeedLimit u < 2 ^ 43 → 0 ≤ uli_DynamicSpeedLimit u < 2 ^ 43 →
  let '(l', b, reject) := CheckLimit now k ip t n l in
  let m := min_set [SpeedLimit l; uli_SpeedLimit u; uli_DynamicSpeedLimit u] in
  reject = false ∧
  b = (if m =? 0 then None else Some (NewBucketWithQuantum Second (rate_limit m) (rate_limit m))) ∧
  SpeedLimiter l' !! k = b.
Proof.
  intros Hu Hr Hb He Hs1 Hs2 Hs3. rewrite (CheckLimit_known _ _ _ _ _ _ u Hu), Hr.
  assert (CheckLimit_user now k u l = (l, determineSpeedLimit (uli_SpeedLimit u) (uli_DynamicSpeedLimit u)))
    as ->.
  { unfold CheckLimit_user. case_match eqn:Hc; [|done]. bool_to_prop. lia. }
  set (m := min_set _). unfold CheckLimit_bucket.
  assert (SpeedLimit (recorded l k ip n u) = SpeedLimit l) as -> by (by destruct n).
  assert (SpeedLimiter (recorded l k ip n u) = SpeedLimiter l) as -> by (by destruct n).
  rewrite min_set_3 by lia. fold m.
  assert (0 ≤ m < 2 ^ 43).
  { unfold m. rewrite <- min_set_3 by lia. rewrite (determineSpeedLimit_min (uli_SpeedLimit u)) by lia.
    rewrite determineSpeedLimit_min; repeat case_match; lia. }
  rewrite wrap64_id by (unfold int64, two63; lia).
  replace (m * 1000000) with (rate_limit m * 8) by (unfold rate_limit; lia).
  rewrite Z.quot_mul by done. unfold LoadOrStore. rewrite Hb.
  destruct (m =? 0) eqn:Hm; bool_to_prop; unfold rate_limit in *.
  - rewrite (proj2 (Z.ltb_ge 0 _)) by lia. destruct n; by split_and!.
  - rewrite (proj2 (Z.ltb_lt 0 _)) by lia. simpl. rewrite lookup_insert_eq. by split_and!.
Qed.

Lemma recorded_SpeedLimiter l k ip n u : SpeedLimiter (recorded l k ip n u) = SpeedLimiter l.
Proof. by destruct n. Qed.

Lemma recorded_UserLimitInfo l k ip n u :
  lim_UserLimitInfo (recorded l k ip n u) = lim_UserLimitInfo l.
Proof. by destruct n. Qed.

(** A user's bucket is never replaced: once it exists, changing the user's
    dynamic speed limit has no effect on the rate of any later connection. *)
Theorem dynamic_limit_ignored now tag uuid limit expire ip t n l l' u b0 l'' b :
  lim_UserLimitInfo l !! UserTag tag uuid = Some u →
  SpeedLimiter l !! UserTag tag uuid = Some b0 →
  UpdateDynamicSpeedLimit tag uuid limit expire l = (l', None) →
  CheckLimit now (UserTag tag uuid) ip t n l' = (l'', b, false) →
  (b = Some b0 ∨ b = None) ∧ SpeedLimiter l'' !! UserTag tag uuid = Some b0.
Proof.
  intros Hu Hb. unfold UpdateDynamicSpeedLimit. rewrite Hu. intros [= <-].
  erewrite CheckLimit_known by (simpl; by rewrite lookup_insert_eq).
  match goal with |- context [CheckLimit_user ?a ?b ?c ?d] =>
    pose proof (CheckLimit_user_spec a b c d) as Hs; destruct (CheckLimit_user a b c d) as [l1 ul] end.
  destruct Hs as (_ & _ & _ & Hsl & _). case_match; [done|].
  unfold CheckLimit_bucket. destruct (0 <? _); [|intros [= <- <-]; rewrite recorded_SpeedLimiter, Hsl; auto].
  unfold LoadOrStore. rewrite recorded_SpeedLimiter, Hsl. simpl. rewrite Hb.
  intros [= <- <-]. auto.
Qed.

(** When a dynamic limit expires for a user without a limit of his own,
    the next connection removes the user from the limiter, and every later
    connection is rejected, whatever the address and the time. *)
Theorem dynamic_expiry_locks_out now k ip t n l u :
  lim_UserLimitInfo l !! k = Some u →
  uli_SpeedLimit u = 0 → uli_ExpireTime u ≠ 0 → uli_ExpireTime u < Unix now →
  let l' := (CheckLimit now k ip t n l).1.1 in
  ∀ now' ip' t' n', CheckLimit now' k ip' t' n' l' = (l', None, true).
Proof.
  intros Hu Hs He Hlt l' now' ip' t' n'. apply CheckLimit_unknown. unfold l'.
  rewrite (CheckLimit_known _ _ _ _ _ _ u Hu). unfold CheckLimit_user.
  rewrite (proj2 (Z.ltb_lt _ _)) by done. rewrite (proj2 (Z.eqb_neq _ _)) by done.
  rewrite Hs. simpl. case_match; simpl; [by rewrite lookup_delete_eq|].
  match goal with |- context [CheckLimit_bucket ?a ?b ?c] =>
    pose proof (CheckLimit_bucket_spec a b c) as Hb; destruct (CheckLimit_bucket a b c) as [l3 b'] end.
  destruct Hb as (_ & _ & _ & Hb). simpl. rewrite Hb, recorded_UserLimitInfo. simpl.
  by rewrite lookup_delete_eq.
Qed.

Section online_props.
Context `{RangeOrder}.

Lemma all_entries_perm (m : gmap string (gmap string Z)) :
  all_entries (range m) ≡ₚ map_to_list m ≫= λ e, map_to_list e.2.
Proof.
  unfold all_entries. rewrite range_perm.
  induction (map_to_list m) as [|e es IH]; [done|]. simpl. by rewrite range_perm, IH.
Qed.

(** C27: [GetOnlineDevice] reports every recorded address of every user exactly
    once, with its uid, empties the online table, and remembers exactly the
    reported addresses for the next period; nothing else of the limiter
    changes. *)
Theorem GetOnlineDevice_report l :
  let '(l', report) := GetOnlineDevice l in
  report ≡ₚ (map_to_list (UserOnlineIP l) ≫= λ e, (λ e, mkOnlineUser e.2 e.1) <$> map_to_list e.2) ∧
  UserOnlineIP l' = ∅ ∧
  (∀ ip, is_Some (OldUserOnline l' !! ip) ↔ ∃ uid, mkOnlineUser uid ip ∈ report) ∧
  same_config l l' ∧ lim_UserLimitInfo l' = lim_UserLimitInfo l ∧ SpeedLimiter l' = SpeedLimiter l.
Proof.
  pose proof (GetOnlineDevice_spec l) as Hs. destruct (GetOnlineDevice l) as [l' report].
  destruct Hs as (Hrep & Hon & Hc & Hu & Hsl & Hold1 & Hold2).
  assert (Hin : ∀ uid ip, mkOnlineUser uid ip ∈ report ↔ ∃ k, online l k !! ip = Some uid).
  { intros uid ip. rewrite Hrep, list_elem_of_fmap. split.
    - intros ([ip' uid'] & [= -> ->] & He). by apply elem_of_all_entries in He.
    - intros Hk. exists (ip, uid). by rewrite elem_of_all_entries. }
  split_and!; try done.
  - rewrite Hrep, all_entries_perm. clear. induction (map_to_list _) as [|e es IH]; [done|].
    simpl. by rewrite fmap_app, IH.
  - intros ip. split.
    + intros [uid Ho]. exists uid. by apply Hin, Hold1.
    + intros [uid [k Hk]%Hin]. eauto.
Qed.

(** In the next period an address that was online is let in whatever the
    device limit, for the user it was online for and for every other known
    user of the node too. *)
Theorem device_readmission now k k' ip uid t n l u :
  online l k' !! ip = Some uid → HasPrefix ip "::ffff:" = false →
  lim_UserLimitInfo l !! k = Some u →
  (CheckLimit now k ip t n (GetOnlineDevice l).1).2 = false.
Proof.
  intros Ho Hp Hu. pose proof (GetOnlineDevice_spec l) as Hs.
  destruct (GetOnlineDevice l) as [l' report]. simpl.
  destruct Hs as (_ & Hon & _ & Hul & _ & _ & Hold).
  assert (lim_UserLimitInfo l' !! k = Some u) as Hu' by (by rewrite Hul).
  rewrite (CheckLimit_known _ _ _ _ _ _ u Hu'). destruct (CheckLimit_user _ _ _ _) as [l1 ul].
  assert (known_reject l' k ip n u = false) as ->.
  { unfold known_reject, device_reject. rewrite TrimPrefix_no by done.
    destruct (Hold k' ip) as [v ->]; [eauto|]. destruct n; [|done].
    by destruct (online l' k !! ip). }
  by destruct (CheckLimit_bucket _ _ _).
Qed.
End online_props.
End limiter.

(** * Witnesses *)

(** A bucket as its parameters, and patterns that match by inclusion. *)
Definition wit_ratelimit : RatelimitLib :=
  {| Bucket := Z * Z * Z; NewBucketWithQuantum := λ a b c, (a, b, c) |}.
Definition wit_regexp : RegexpLib :=
  {| Regexp := string; regexp_Compile := Some; MatchString := λ r s, Contains s r |}.
#[local] Existing Instance wit_ratelimit.
#[local] Existing Instance wit_regexp.

(** Node "n": a user of 100 Mbit/s and one device, and one without limits. *)
Definition wit_limiter : Limiter :=
  new_limiter "n" LimitConfig_zero
    [mkUserInfo 7 "alice" 100 1; mkUserInfo 8 "bob" 0 0]%string {[7 := 1]}.

Lemma CheckLimit_rate_witness :
  (CheckLimit 5 "n|bob" "10.0.0.1" true true wit_limiter).2 = false ∧
  (CheckLimit 5 "n|alice" "10.0.0.1" true false wit_limiter).1.2 = Some (Second, 12500000, 12500000).
Proof.
  split; [reflexivity|].
  pose proof (CheckLimit_rate 5 "n|alice" "10.0.0.1" true false wit_limiter
    (mkUserLimitInfo 7 100 1 0 0 false)) as Hw.
  destruct (CheckLimit _ _ _ _ _ wit_limiter) as [[l' b] r].
  destruct Hw as (_ & -> & _); [reflexivity|reflexivity|reflexivity|by left| | | |reflexivity];
    vm_compute; by split.
Defined.

Lemma dynamic_limit_ignored_witness :
  let l := (CheckLimit 5 "n|alice" "10.0.0.1" true false wit_limiter).1.1 in
  let l' := (UpdateDynamicSpeedLimit "n" "alice" 1 (100 * Second) l).1 in
  (CheckLimit 5 "n|alice" "10.0.0.1" true false l').1.2 = Some (Second, 12500000, 12500000).
Proof.
  intros l l'. destruct (dynamic_limit_ignored 5 "n" "alice" 1 (100 * Second) "10.0.0.1" true false
    l l' (mkUserLimitInfo 7 100 1 0 0 false) (Second, 12500000, 12500000)
    (CheckLimit 5 "n|alice" "10.0.0.1" true false l').1.1
    (CheckLimit 5 "n|alice" "10.0.0.1" true false l').1.2) as [[Hb|Hb] _];
    [reflexivity|reflexivity|reflexivity|reflexivity|exact Hb|].
  vm_compute in Hb. discriminate.
Defined.

Lemma dynamic_expiry_locks_out_witness :
  let l0 := (UpdateDynamicSpeedLimit "n" "bob" 1 (100 * Second) wit_limiter).1 in
  let '(l', _, reject) := CheckLimit (101 * Second) "n|bob" "10.0.0.1" true false l0 in
  reject = false ∧ CheckLimit (101 * Second) "n|bob" "10.0.0.1" true false l' = (l', None, true).
Proof.
  intros l0.
  pose proof (dynamic_expiry_locks_out (101 * Second) "n|bob" "10.0.0.1" true false l0
    (mkUserLimitInfo 8 0 0 1 100 false)) as Hw. simpl in Hw.
  destruct (CheckLimit (101 * Second) "n|bob" "10.0.0.1" true false l0) as [[l' b] r] eqn:E.
  split.
  - assert ((CheckLimit (101 * Second) "n|bob" "10.0.0.1" true false l0).2 = false) by reflexivity.
    by rewrite E in H.
  - apply Hw; [reflexivity|reflexivity|done|reflexivity].
Defined.

Lemma device_readmission_witness :
  let l := (CheckLimit 5 "n|bob" "10.0.0.1" true true wit_limiter).1.1 in
  (CheckLimit 6 "n|alice" "10.0.0.1" true true (@GetOnlineDevice _ _ canonical_order l).1).2 = false.
Proof.
  intros l. apply (@device_readmission _ _ canonical_order 6 "n|alice" "n|bob" "10.0.0.1" 8 true true l
    (mkUserLimitInfo 7 100 1 0 0 false)); vm_compute; reflexivity.
Defined.

(** Without the detour through bob's address alice's second device is refused. *)
Example device_limit_example :
  (CheckLimit 6 "n|alice" "10.0.0.1" true true wit_limiter).2 = true.
Proof. reflexivity. Qed.
