(* ===== verification/LimitConc.v ===== *)
(** The limiter under concurrency (src/limiter/limiter.go): many connections
    inside [CheckLimit] at once, and the report task inside [GetOnlineDevice].

    A step of a goroutine is one [sync.Map] call of the source, with the local
    computation up to the next one.  The inner maps of [UserOnlineIP] and the
    buckets are pointers, because the code publishes them and then goes on
    using them.  Reading the field [OldUserOnline] and calling the map it
    points to are one step; [GetOnlineDevice] sets the field in one step. *)

From S2P Require Import Prelude Threads GoStd Conf Panel Limiter.
From stdpp Require Import prelude gmap strings relations.
From Stdlib Require Import ZArith Lia.

Open Scope Z_scope.

Section limit_conc.
Context `{RL : RatelimitLib} `{RE : RegexpLib}.

(** * The shared tables *)
Record tables := mkTables {
  t_maps : gmap nat (gmap string Z);
  t_UserOnlineIP : gmap string nat;
  t_OldUserOnline : gmap string Z;
  t_buckets : gmap nat Bucket;
  t_SpeedLimiter : gmap string nat;
}.

Definition set_online h o (t : tables) :=
  mkTables h o (t_OldUserOnline t) (t_buckets t) (t_SpeedLimiter t).
Definition set_old x (t : tables) :=
  mkTables (t_maps t) (t_UserOnlineIP t) x (t_buckets t) (t_SpeedLimiter t).
Definition set_speed b s (t : tables) :=
  mkTables (t_maps t) (t_UserOnlineIP t) (t_OldUserOnline t) b s.

(** The locals of one call, computed before its first [sync.Map] call on the
    tables: the user's key, the trimmed address, [uid], [deviceLimit], the
    [aliveIp] it read and the rate [limit]. *)
Record call := mkCall {
  c_taguuid : string; c_ip : string; c_uid : Z;
  c_deviceLimit : Z; c_aliveIp : Z; c_limit : Z;
}.

Definition over (c : call) : bool := (0 <? c_deviceLimit c) && (c_deviceLimit c <=? c_aliveIp c).

(** Where a goroutine is.  [m] is [Some oldipMap] in the branch that found a
    map of the user and [None] in the branch that stored its own. *)
Inductive pc : Type :=
| LStart (c : call)
| LLoaded (c : call) (oldipMap : nat)
| LOld (c : call) (m : option nat)
| LDelOld (c : call)
| LUndo (c : call) (m : option nat)
| LBucket (c : call)
| LPublish (c : call) (b : nat)
| LDone (c : call) (b : option nat) (reject : bool)
| RStart
| RUsers (todo seen : gset string) (onlineUser : list OnlineUser)
| RIps (taguuid : string) (ipMap : nat) (todo seen : gset string) (ipTodo ipSeen : gset string)
       (onlineUser : list OnlineUser)
| RDelete (taguuid : string) (todo seen : gset string) (onlineUser : list OnlineUser)
| RDone (onlineUser : list OnlineUser).

(** ** CheckLimit, lines 153-199 *)
Definition call_step (t : tables) (p : pc) : option (tables * pc) :=
  match p with
  | LStart c =>
      let newipMap := fresh (dom (t_maps t)) in
      let maps := <[newipMap := {[c_ip c := c_uid c]}]> (t_maps t) in
      let '(online, v, loaded) := LoadOrStore (t_UserOnlineIP t) (c_taguuid c) newipMap in
      Some (set_online maps online t, if loaded then LLoaded c v else LOld c None)
  | LLoaded c oldipMap =>
      let '(ips, _, loaded) :=
        LoadOrStore (default ∅ (t_maps t !! oldipMap)) (c_ip c) (c_uid c) in
      Some (set_online (<[oldipMap := ips]> (t_maps t)) (t_UserOnlineIP t) t,
            if loaded then LBucket c else LOld c (Some oldipMap))
  | LOld c m =>
      Some (t, match t_OldUserOnline t !! c_ip c with
               | Some v => if v =? c_uid c then LDelOld c else LBucket c
               | None => if over c then LUndo c m else LBucket c
               end)
  | LDelOld c => Some (set_old (delete (c_ip c) (t_OldUserOnline t)) t, LBucket c)
  | LUndo c (Some oldipMap) =>
      Some (set_online (<[oldipMap := delete (c_ip c) (default ∅ (t_maps t !! oldipMap))]> (t_maps t))
              (t_UserOnlineIP t) t, LDone c None true)
  | LUndo c None =>
      Some (set_online (t_maps t) (delete (c_taguuid c) (t_UserOnlineIP t)) t, LDone c None true)
  | LBucket c =>
      if 0 <? c_limit c then
        let b := fresh (dom (t_buckets t)) in
        let buckets := <[b := NewBucketWithQuantum Second (c_limit c) (c_limit c)]> (t_buckets t) in
        let '(speed, v, ok) := LoadOrStore (t_SpeedLimiter t) (c_taguuid c) b in
        Some (set_speed buckets speed t, if ok then LDone c (Some v) false else LPublish c b)
      else Some (t, LDone c None false)
  | LPublish c b =>
      Some (set_speed (t_buckets t) (<[c_taguuid c := b]> (t_SpeedLimiter t)) t,
            LDone c (Some b) false)
  | _ => None
  end.

(** ** GetOnlineDevice

    A [Range] visits the keys in any order, each once, and may end when every
    key that was there when it began was visited or is gone. *)
Inductive limit_step : tables → pc → tables → pc → Prop :=
| step_call t p t' p' : call_step t p = Some (t', p') → limit_step t p t' p'
| step_reset t :
    limit_step t RStart (set_old ∅ t) (RUsers (dom (t_UserOnlineIP t)) ∅ [])
| step_user t todo seen rep k m :
    k ∉ seen → t_UserOnlineIP t !! k = Some m →
    limit_step t (RUsers todo seen rep) t
      (RIps k m todo seen (dom (default ∅ (t_maps t !! m))) ∅ rep)
| step_ip t k m todo seen ipTodo ipSeen rep ip uid :
    ip ∉ ipSeen → default ∅ (t_maps t !! m) !! ip = Some uid →
    limit_step t (RIps k m todo seen ipTodo ipSeen rep)
      (set_old (<[ip := uid]> (t_OldUserOnline t)) t)
      (RIps k m todo seen ipTodo ({[ip]} ∪ ipSeen) (rep ++ [mkOnlineUser uid ip]))
| step_ips_end t k m todo seen ipTodo ipSeen rep :
    ipTodo ∩ dom (default ∅ (t_maps t !! m)) ⊆ ipSeen →
    limit_step t (RIps k m todo seen ipTodo ipSeen rep) t (RDelete k todo seen rep)
| step_delete t k todo seen rep :
    limit_step t (RDelete k todo seen rep)
      (set_online (t_maps t) (delete k (t_UserOnlineIP t)) t) (RUsers todo ({[k]} ∪ seen) rep)
| step_end t todo seen rep :
    todo ∩ dom (t_UserOnlineIP t) ⊆ seen → limit_step t (RUsers todo seen rep) t (RDone rep).

Definition system := pool_step limit_step.

(** * One call that runs alone makes the calls of the sequential model *)

Definition run_call : nat → tables → pc → tables * pc := run_alone call_step.

(** The limiter's fields that the tables stand for. *)
Definition tables_of (l : Limiter) (t : tables) : Limiter :=
  set_SpeedLimiter (omap (λ b, t_buckets t !! b) (t_SpeedLimiter t))
    (set_OldUserOnline (t_OldUserOnline t)
       (set_UserOnlineIP (deref (t_maps t) (t_UserOnlineIP t)) l)).

Definition call_of (l : Limiter) (taguuid ip : string) (uid deviceLimit userLimit : Z) : call :=
  mkCall taguuid ip uid deviceLimit (zlookup (AliveList l) uid)
    (Z.quot (wrap64 (determineSpeedLimit (SpeedLimit l) userLimit * 1000000)) 8).

(** Lines 153-199 in the sequential model. *)
Definition CheckLimit_tail (taguuid ip : string) (uid deviceLimit userLimit : Z) (l : Limiter)
    : Limiter * option Bucket * bool :=
  let '(l, reject) := CheckLimit_device taguuid ip uid deviceLimit l in
  if reject then (l, None, true)
  else let '(l, b) := CheckLimit_bucket taguuid userLimit l in (l, b, false).

(** The pointers of the tables are right. *)
Record tables_wf (t : tables) : Prop := {
  tw_ptr : ptr_wf (t_maps t) (t_UserOnlineIP t);
  tw_bucket : ∀ k b, t_SpeedLimiter t !! k = Some b → is_Some (t_buckets t !! b);
}.

Lemma wf_set t m x :
  tables_wf t → tables_wf (set_online (<[m := x]> (t_maps t)) (t_UserOnlineIP t) t).
Proof. intros [Hp Hb]. split; [by apply ptr_wf_set|done]. Qed.

Lemma wf_publish t k x :
  tables_wf t →
  tables_wf (set_online (<[fresh (dom (t_maps t)) := x]> (t_maps t))
               (<[k := fresh (dom (t_maps t))]> (t_UserOnlineIP t)) t).
Proof. intros [Hp Hb]. split; [by apply ptr_wf_publish|done]. Qed.

Lemma wf_delete t k :
  tables_wf t → tables_wf (set_online (t_maps t) (delete k (t_UserOnlineIP t)) t).
Proof. intros [Hp Hb]. split; [by apply ptr_wf_delete|done]. Qed.

Lemma wf_set_old t x : tables_wf t → tables_wf (set_old x t).
Proof. by intros [Hp Hb]. Qed.

Lemma wf_buckets t b s :
  tables_wf t → (∀ k p, s !! k = Some p → is_Some (b !! p)) → tables_wf (set_speed b s t).
Proof. by intros [Hp Hb] Hs. Qed.

Lemma tables_of_online l t h o :
  tables_of l (set_online h o t) = set_UserOnlineIP (deref h o) (tables_of l t).
Proof. done. Qed.

(** What follows the store of the address: [undo] is the table that a
    rejection leaves. *)
Definition device_old (ip : string) (uid : Z) (ov : bool) (undo : gmap string (gmap string Z))
    (l : Limiter) : Limiter * bool :=
  match OldUserOnline l !! ip with
  | Some v => (if v =? uid then set_OldUserOnline (delete ip (OldUserOnline l)) l else l, false)
  | None => if ov then (set_UserOnlineIP undo l, true) else (l, false)
  end.

Lemma CheckLimit_device_cases k ip uid d l :
  CheckLimit_device k ip uid d l =
    let ov := (0 <? d) && (d <=? zlookup (AliveList l) uid) in
    match UserOnlineIP l !! k with
    | Some v =>
        match v !! ip with
        | Some _ => (l, false)
        | None => device_old ip uid ov (<[k := delete ip (<[ip := uid]> v)]> (UserOnlineIP l))
                    (set_UserOnlineIP (<[k := <[ip := uid]> v]> (UserOnlineIP l)) l)
        end
    | None => device_old ip uid ov (delete k (<[k := {[ip := uid]}]> (UserOnlineIP l)))
                (set_UserOnlineIP (<[k := {[ip := uid]}]> (UserOnlineIP l)) l)
    end.
Proof.
  unfold CheckLimit_device, device_old, LoadOrStore.
  destruct (UserOnlineIP l !! k) as [v|] eqn:Hk; simpl.
  - destruct (v !! ip) eqn:Hv; simpl.
    { rewrite insert_id by done. by destruct l. }
    rewrite insert_insert_eq. destruct (OldUserOnline l !! ip), (0 <? d); simpl; by try case_match.
  - destruct (OldUserOnline l !! ip), (0 <? d); simpl; by try case_match.
Qed.

(** The table a rejection leaves. *)
Definition undone (c : call) (m : option nat) (t : tables) : gmap string (gmap string Z) :=
  match m with
  | Some p => <[c_taguuid c := delete (c_ip c) (default ∅ (t_maps t !! p))]>
                (deref (t_maps t) (t_UserOnlineIP t))
  | None => delete (c_taguuid c) (deref (t_maps t) (t_UserOnlineIP t))
  end.

Lemma run_old l t c m :
  tables_wf t → (∀ p, m = Some p → t_UserOnlineIP t !! c_taguuid c = Some p) →
  ∃ n t' r, (n ≤ 2)%nat ∧ tables_wf t' ∧
    run_call n t (LOld c m) = (t', if r : bool then LDone c None true else LBucket c) ∧
    device_old (c_ip c) (c_uid c) (over c) (undone c m t) (tables_of l t) = (tables_of l t', r).
Proof.
  intros Hwf Hm. unfold device_old. simpl.
  destruct (t_OldUserOnline t !! c_ip c) as [v|] eqn:Ho.
  - destruct (v =? c_uid c) eqn:Hv.
    + exists 2%nat, (set_old (delete (c_ip c) (t_OldUserOnline t)) t), false. simpl.
      rewrite Ho, Hv. split; [lia|]. by split; [apply wf_set_old|].
    + exists 1%nat, t, false. simpl. rewrite Ho, Hv. by split; [lia|].
  - destruct (over c) eqn:Hv; [|exists 1%nat, t, false; simpl; rewrite Ho, Hv; by split; [lia|]].
    exists 2%nat. simpl. rewrite Ho, Hv. destruct m as [p|]; eexists _, true; (split; [lia|]).
    + split; [|split; [done|]].
      * by apply wf_set.
      * rewrite tables_of_online. simpl. do 2 f_equal. symmetry.
        by apply deref_update; [apply tw_ptr|apply Hm].
    + split; [by apply wf_delete|]. split; [done|]. rewrite tables_of_online. simpl.
      by rewrite deref_delete.
Qed.

(** From the branch that found a map of the user. *)
Lemma run_loaded l t c m :
  tables_wf t → t_UserOnlineIP t !! c_taguuid c = Some m →
  let v := default ∅ (t_maps t !! m) in
  let o := deref (t_maps t) (t_UserOnlineIP t) in
  ∃ n t' r, (n ≤ 3)%nat ∧ tables_wf t' ∧
    run_call n t (LLoaded c m) = (t', if r : bool then LDone c None true else LBucket c) ∧
    match v !! c_ip c with
    | Some _ => (tables_of l t, false)
    | None => device_old (c_ip c) (c_uid c) (over c)
                (<[c_taguuid c := delete (c_ip c) (<[c_ip c := c_uid c]> v)]> o)
                (set_UserOnlineIP (<[c_taguuid c := <[c_ip c := c_uid c]> v]> o) (tables_of l t))
    end = (tables_of l t', r).
Proof.
  intros Hwf Hk v o.
  assert (Hup : ∀ x, tables_wf (set_online (<[m := x]> (t_maps t)) (t_UserOnlineIP t) t))
    by (intros x; by apply wf_set).
  destruct (v !! c_ip c) as [u|] eqn:Hip.
  - exists 1%nat, (set_online (<[m := v]> (t_maps t)) (t_UserOnlineIP t) t), false.
    simpl. unfold LoadOrStore. fold v. rewrite Hip. split; [lia|]. split; [done|].
    split; [done|]. rewrite tables_of_online, (deref_update _ _ (c_taguuid c)) by (done || by apply tw_ptr).
    rewrite insert_id; [done|]. by rewrite deref_lookup, Hk.
  - set (t1 := set_online (<[m := <[c_ip c := c_uid c]> v]> (t_maps t)) (t_UserOnlineIP t) t).
    destruct (run_old l t1 c (Some m)) as (n & t' & r & Hn & Hwf' & Hr & Hd);
      [apply Hup|by intros ? [= <-]|].
    exists (S n), t', r. split; [lia|]. split; [done|]. simpl. unfold LoadOrStore. fold v.
    rewrite Hip. split; [exact Hr|]. rewrite <- Hd. unfold t1, undone. rewrite tables_of_online.
    cbn [t_maps t_UserOnlineIP set_online]. rewrite lookup_insert_eq. cbn [default].
    rewrite !(deref_update _ _ (c_taguuid c)) by (done || by apply tw_ptr). by rewrite insert_insert_eq.
Qed.

(** The device check of a call that runs alone. *)
Lemma run_device l t k ip uid d ul :
  tables_wf t →
  let c := call_of l k ip uid d ul in
  ∃ n t' r, (n ≤ 4)%nat ∧ tables_wf t' ∧
    run_call n t (LStart c) = (t', if r : bool then LDone c None true else LBucket c) ∧
    CheckLimit_device k ip uid d (tables_of l t) = (tables_of l t', r).
Proof.
  intros Hwf c. rewrite CheckLimit_device_cases.
  change ((0 <? d) && (d <=? zlookup (AliveList (tables_of l t)) uid)) with (over c).
  change (UserOnlineIP (tables_of l t)) with (deref (t_maps t) (t_UserOnlineIP t)).
  assert (Hok : deref (t_maps t) (t_UserOnlineIP t) !! k =
    (λ m, default ∅ (t_maps t !! m)) <$> (t_UserOnlineIP t !! k)) by apply deref_lookup.
  rewrite Hok. clear Hok. cbv zeta.
  set (f := fresh (dom (t_maps t))). set (h := <[f := {[ip := uid]}]> (t_maps t)).
  destruct (t_UserOnlineIP t !! k) as [m|] eqn:Hk; simpl fmap; cbv iota beta.
  - set (t1 := set_online h (t_UserOnlineIP t) t).
    assert (Hg : deref h (t_UserOnlineIP t) = deref (t_maps t) (t_UserOnlineIP t))
      by by apply deref_garbage, tw_ptr.
    assert (Hm : h !! m = t_maps t !! m).
    { unfold h. rewrite lookup_insert_ne; [done|]. by eapply ptr_fresh_ne; [apply tw_ptr|]. }
    destruct (run_loaded l t1 c m) as (n & t' & r & Hn & Hwf' & Hr & Hd);
      [by apply wf_set|done|].
    exists (S n), t', r. split; [lia|]. split; [done|]. simpl. unfold LoadOrStore. rewrite Hk.
    split; [exact Hr|]. rewrite <- Hd. unfold t1. rewrite tables_of_online. cbn [t_maps t_UserOnlineIP set_online]. rewrite Hg, Hm.
    reflexivity.
  - set (t1 := set_online h (<[k := f]> (t_UserOnlineIP t)) t).
    destruct (run_old l t1 c None) as (n & t' & r & Hn & Hwf' & Hr & Hd);
      [by apply wf_publish|done|].
    exists (S n), t', r. split; [lia|]. split; [done|]. simpl. unfold LoadOrStore. rewrite Hk.
    split; [exact Hr|]. rewrite <- Hd. unfold t1, undone. rewrite tables_of_online.
    cbn [t_maps t_UserOnlineIP set_online]. unfold h, f. by rewrite !deref_publish by by apply tw_ptr.
Qed.

Lemma run_bucket l t c k ul :
  tables_wf t → c_taguuid c = k →
  c_limit c = Z.quot (wrap64 (determineSpeedLimit (SpeedLimit l) ul * 1000000)) 8 →
  ∃ n t' b, (n ≤ 2)%nat ∧ tables_wf t' ∧ run_call n t (LBucket c) = (t', LDone c b false) ∧
    CheckLimit_bucket k ul (tables_of l t) = (tables_of l t', b ≫= λ p, t_buckets t' !! p).
Proof.
  intros Hwf <- Hlim. unfold CheckLimit_bucket, LoadOrStore.
  change (SpeedLimit (tables_of l t)) with (SpeedLimit l). rewrite <- Hlim.
  destruct (0 <? c_limit c) eqn:Hl; [|exists 1%nat, t, None; simpl; rewrite Hl; by split; [lia|]].
  change (SpeedLimiter (tables_of l t)) with
    (omap (λ b, t_buckets t !! b) (t_SpeedLimiter t)).
  set (f := fresh (dom (t_buckets t))). set (B := NewBucketWithQuantum _ _ _).
  assert (Hf : ∀ k p, t_SpeedLimiter t !! k = Some p → f ≠ p).
  { intros k p Hk <-. apply (is_fresh (dom (t_buckets t))), elem_of_dom. by eapply tw_bucket. }
  assert (Hg : omap (λ b, <[f := B]> (t_buckets t) !! b) (t_SpeedLimiter t) =
               omap (λ b, t_buckets t !! b) (t_SpeedLimiter t)).
  { apply map_eq. intros k. rewrite !lookup_omap. destruct (t_SpeedLimiter t !! k) eqn:Hk; [|done].
    simpl. rewrite lookup_insert_ne; [done|]. by eapply Hf. }
  rewrite lookup_omap. destruct (t_SpeedLimiter t !! c_taguuid c) as [p|] eqn:Hp.
  - pose proof Hp as [B' HB']%(tw_bucket t Hwf).
    exists 1%nat, (set_speed (<[f := B]> (t_buckets t)) (t_SpeedLimiter t) t), (Some p).
    simpl. unfold LoadOrStore. rewrite Hl, Hp. simpl. rewrite HB'. split; [lia|]. split.
    { apply wf_buckets; [done|]. intros k q Hk. apply lookup_insert_is_Some'. right.
      by eapply tw_bucket. }
    split; [done|]. rewrite lookup_insert_ne, HB' by (by eapply Hf). f_equal. f_equal.
    unfold tables_of. simpl. by rewrite Hg.
  - eexists 2%nat, _, (Some f). split; [lia|]. simpl. unfold LoadOrStore. rewrite Hl, Hp. simpl.
    split; [|split; [reflexivity|]].
    { assert (∀ k q, <[c_taguuid c := f]> (t_SpeedLimiter t) !! k = Some q →
                     is_Some (<[f := B]> (t_buckets t) !! q)).
      { intros k q [[_ <-]|[_ Hk]]%lookup_insert_Some; apply lookup_insert_is_Some';
          [by left|right; by eapply tw_bucket]. }
      apply wf_buckets; simpl; rewrite ?insert_insert_eq; [by apply wf_buckets|done]. }
    simpl. rewrite lookup_insert_eq. f_equal. f_equal.
    unfold tables_of. simpl. rewrite !insert_insert_eq.
    rewrite (omap_insert_Some _ _ _ _ B) by apply lookup_insert_eq. fold f B. by rewrite Hg.
Qed.

Lemma alone_tail l t k ip uid d ul :
  tables_wf t →
  ∃ t' b r, run_call 6 t (LStart (call_of l k ip uid d ul)) =
              (t', LDone (call_of l k ip uid d ul) b r) ∧ tables_wf t' ∧
    CheckLimit_tail k ip uid d ul (tables_of l t) =
      (tables_of l t', b ≫= λ p, t_buckets t' !! p, r).
Proof.
  intros Hwf. unfold CheckLimit_tail.
  destruct (run_device l t k ip uid d ul Hwf) as (n & t1 & r & Hn & Hwf1 & Hr & ->).
  destruct r.
  - exists t1, None, true. split; [|done]. eapply run_alone_end; [exact Hr|done|lia].
  - destruct (run_bucket l t1 (call_of l k ip uid d ul) k ul Hwf1) as (m & t2 & b & Hm & Hwf2 & Hb & ->);
      [done..|].
    exists t2, b, false. split; [|done]. eapply (run_alone_end _ (n + m)); [|done|lia].
    rewrite run_alone_more. unfold run_call in Hr. by rewrite Hr.
Qed.

Lemma CheckLimit_user_tables now k u l t :
  CheckLimit_user now k u (tables_of l t) =
    let '(l1, userLimit) := CheckLimit_user now k u l in (tables_of l1 t, userLimit).
Proof. unfold CheckLimit_user. by repeat case_match. Qed.


(** * Every interleaving *)

(** ** One bucket per user *)
Definition holds_bucket (t : tables) (p : pc) : Prop :=
  match p with
  | LPublish c b => t_SpeedLimiter t !! c_taguuid c = Some b
  | LDone c (Some b) _ => t_SpeedLimiter t !! c_taguuid c = Some b
  | LDone c None r => r = false → c_limit c ≤ 0
  | _ => True
  end.

Definition starting (p : pc) : Prop := match p with LStart _ | RStart => True | _ => False end.

(** The bucket table only gains entries. *)
Lemma limit_step_speed t p t' p' :
  limit_step t p t' p' → holds_bucket t p →
  t_SpeedLimiter t ⊆ t_SpeedLimiter t' ∧ holds_bucket t' p'.
Proof.
  intros Hs HL. destruct Hs as [t p t' p' Hs| | | | | |]; try done.
  destruct p as [c|c m|c m|c|c [m|]|c|c b| | | | | |]; simpl in *; unfold LoadOrStore in *;
    repeat case_match; simplify_eq/=; bool_to_prop; try (split; [done|]); try done; try lia.
  - split; [by apply insert_subseteq|apply lookup_insert_eq].
  - rewrite insert_id by done. done.
Qed.

Lemma holds_bucket_mono t t' p :
  t_SpeedLimiter t ⊆ t_SpeedLimiter t' → holds_bucket t p → holds_bucket t' p.
Proof. destruct p as [| | | | | | |c [b|] r| | | | |]; simpl; eauto using lookup_weaken. Qed.

Lemma holds_bucket_run t ps t' ps' i p :
  Forall starting ps → rtc system (t, ps) (t', ps') → ps' !! i = Some p → holds_bucket t' p.
Proof.
  intros Hps Hr. eapply (pool_invariant limit_step (λ _, True) holds_bucket) in Hr as [_ HL]; simpl.
  - apply HL.
  - intros s p0 s' p1 _ HL Hs. destruct (limit_step_speed _ _ _ _ Hs HL).
    split_and!; eauto using holds_bucket_mono.
  - done.
  - intros j q Hj. eapply Forall_lookup_1 in Hps; [|done]. by destruct q.
Qed.

(** C15: whatever the interleaving of connections (and of report tasks), every
    accepted connection that has a rate holds a bucket, and two of one user
    hold the same one, the one the table keeps: parallel connections cannot
    multiply a user's speed limit. *)
Theorem bucket_agree t ps t' ps' i j c c' b b' :
  Forall starting ps → rtc system (t, ps) (t', ps') →
  ps' !! i = Some (LDone c b false) → ps' !! j = Some (LDone c' b' false) →
  c_taguuid c = c_taguuid c' → 0 < c_limit c → 0 < c_limit c' →
  b = b' ∧ b = t_SpeedLimiter t' !! c_taguuid c ∧ is_Some b.
Proof.
  intros Hps Hr Hi Hj Hk Hc Hc'.
  pose proof (holds_bucket_run _ _ _ _ _ _ Hps Hr Hi) as H1.
  pose proof (holds_bucket_run _ _ _ _ _ _ Hps Hr Hj) as H2.
  destruct b as [b|], b' as [b'|]; simpl in *; try (specialize (H1 eq_refl); lia);
    try (specialize (H2 eq_refl); lia).
  rewrite Hk in *. split_and!; [congruence|done|by eexists].
Qed.

(** ** Accepted connections are recorded

    [k] is one user's key, none of whose connections is over his limit. *)
Section recorded.
Variable k : string.

Definition calm (c : call) : Prop := c_taguuid c = k → over c = false.

Definition in_table (t : tables) (c : call) : Prop :=
  c_taguuid c = k → ∃ m ips, t_UserOnlineIP t !! k = Some m ∧ t_maps t !! m = Some ips ∧
                             is_Some (ips !! c_ip c).

(** The map a call holds is allocated, and no other user's. *)
Definition own_map (t : tables) (c : call) (m : nat) : Prop :=
  is_Some (t_maps t !! m) ∧ ∀ k', t_UserOnlineIP t !! k' = Some m → k' = c_taguuid c.

Definition call_ok (t : tables) (p : pc) : Prop :=
  match p with
  | LStart c => calm c
  | LLoaded c m => calm c ∧ own_map t c m ∧ (c_taguuid c = k → t_UserOnlineIP t !! k = Some m)
  | LOld c m => calm c ∧ in_table t c ∧ ∀ m', m = Some m' → own_map t c m'
  | LDelOld c | LBucket c => in_table t c
  | LPublish c b => in_table t c ∧ is_Some (t_buckets t !! b)
  | LUndo c m => c_taguuid c ≠ k ∧ ∀ m', m = Some m' → own_map t c m'
  | LDone c _ r => c_taguuid c = k → r = false ∧ in_table t c
  | _ => False
  end.

(** How the tables may change under a goroutine that is inside a call. *)
Record grows (t t' : tables) : Prop := {
  gr_online : ∀ m, t_UserOnlineIP t !! k = Some m → t_UserOnlineIP t' !! k = Some m;
  gr_ips : ∀ m ips, t_UserOnlineIP t !! k = Some m → t_maps t !! m = Some ips →
           ∃ ips', t_maps t' !! m = Some ips' ∧ dom ips ⊆ dom ips';
  gr_dom : ∀ m, is_Some (t_maps t !! m) → is_Some (t_maps t' !! m);
  gr_owner : ∀ k' m, t_UserOnlineIP t' !! k' = Some m → is_Some (t_maps t !! m) →
             t_UserOnlineIP t !! k' = Some m;
  gr_bucket : ∀ b, is_Some (t_buckets t !! b) → is_Some (t_buckets t' !! b);
}.

Lemma grows_in_table t t' c : grows t t' → in_table t c → in_table t' c.
Proof.
  intros [Ho Hi _ _ _] Ht Hk. destruct (Ht Hk) as (m & ips & Hm & Hips & Hip).
  destruct (Hi _ _ Hm Hips) as (ips' & ? & Hd). exists m, ips'. split_and!; eauto.
  by apply elem_of_dom, Hd, elem_of_dom.
Qed.

Lemma grows_own_map t t' c m : grows t t' → own_map t c m → own_map t' c m.
Proof. intros [_ _ Hd Ho _] [Hm Hk]. split; eauto. Qed.

Lemma grows_call_ok t t' p : grows t t' → call_ok t p → call_ok t' p.
Proof.
  intros Hg. destruct p; simpl; try done; intuition eauto using grows_in_table, grows_own_map.
  - by apply Hg.
  - by apply (gr_bucket t t').
Qed.

Lemma grows_refl t : grows t t.
Proof. split; eauto. Qed.

Lemma grows_old t x : grows t (set_old x t).
Proof. split; simpl; eauto. Qed.

Lemma grows_buckets t b s : t_buckets t ⊆ b → grows t (set_speed b s t).
Proof. intros Hb. split; simpl; eauto. intros p [x Hx]. exists x. by eapply lookup_weaken. Qed.

Lemma grows_garbage t x :
  tables_wf t → grows t (set_online (<[fresh (dom (t_maps t)) := x]> (t_maps t)) (t_UserOnlineIP t) t).
Proof.
  intros Hwf. split; simpl; eauto.
  - intros m ips Hm Hips. rewrite lookup_insert_ne; [eauto|]. by eapply ptr_fresh_ne; [apply tw_ptr|].
  - intros m Hm. apply lookup_insert_is_Some'. by right.
Qed.

Lemma grows_publish t k' x :
  tables_wf t → t_UserOnlineIP t !! k' = None →
  grows t (set_online (<[fresh (dom (t_maps t)) := x]> (t_maps t))
             (<[k' := fresh (dom (t_maps t))]> (t_UserOnlineIP t)) t).
Proof.
  intros Hwf Hk'. split; simpl; [..|done].
  - intros m Hm. rewrite lookup_insert_ne; [done|]. congruence.
  - intros m ips Hm Hips. rewrite lookup_insert_ne; [eauto|]. by eapply ptr_fresh_ne; [apply tw_ptr|].
  - intros m Hm. apply lookup_insert_is_Some'. by right.
  - intros k1 m [[_ <-]|[_ H1]]%lookup_insert_Some Hm; [|done].
    by apply elem_of_dom, is_fresh in Hm.
Qed.

Lemma grows_update t m x :
  (∀ ips, t_UserOnlineIP t !! k = Some m → t_maps t !! m = Some ips → dom ips ⊆ dom x) →
  grows t (set_online (<[m := x]> (t_maps t)) (t_UserOnlineIP t) t).
Proof.
  intros Hx. split; simpl; eauto.
  - intros m' ips Hm Hips. rewrite lookup_insert. case_decide; subst; eauto.
  - intros m' Hm. apply lookup_insert_is_Some'. by right.
Qed.

Lemma grows_delete t k' :
  k' ≠ k → grows t (set_online (t_maps t) (delete k' (t_UserOnlineIP t)) t).
Proof.
  intros Hk. split; simpl; eauto.
  - intros m Hm. by rewrite lookup_delete_ne.
  - by intros k1 m [_ ?]%lookup_delete_Some.
Qed.

Lemma call_ok_start t c t' p' :
  tables_wf t → calm c → call_step t (LStart c) = Some (t', p') →
  tables_wf t' ∧ call_ok t' p' ∧ grows t t'.
Proof.
  intros Hwf Hc Hs. simpl in Hs. unfold LoadOrStore in Hs.
  destruct (t_UserOnlineIP t !! c_taguuid c) as [m|] eqn:Hm; simplify_eq/=.
  - split; [by apply wf_set|].
    pose proof (grows_garbage t {[c_ip c := c_uid c]} Hwf) as Hg. split; [|done].
    split; [done|]. split; [|by intros <-].
    apply (grows_own_map t); [done|]. split; [by eapply pw_alloc, Hm; apply tw_ptr|].
    intros k' Hk'. by eapply pw_inj; [apply tw_ptr|..].
  - split; [by apply wf_publish|]. split; [|by apply grows_publish]. split; [done|]. split; [|done].
    intros <-. exists (fresh (dom (t_maps t))), {[c_ip c := c_uid c]}. simpl.
    rewrite !lookup_insert_eq, lookup_singleton_eq. by split_and!.
Qed.

Lemma call_ok_loaded t c m t' p' :
  tables_wf t → call_ok t (LLoaded c m) → call_step t (LLoaded c m) = Some (t', p') →
  tables_wf t' ∧ call_ok t' p' ∧ grows t t'.
Proof.
  intros Hwf (Hc & Hown & Hk) Hs. simpl in Hs.
  set (ips := default ∅ (t_maps t !! m)) in Hs.
  assert (Hd : ∀ ips0, t_UserOnlineIP t !! k = Some m → t_maps t !! m = Some ips0 →
    dom ips0 ⊆ dom ips) by (intros ips0 _ H0; unfold ips; by rewrite H0).
  assert (Hup : ∀ x, dom ips ⊆ dom x → is_Some (x !! c_ip c) →
    let t1 := set_online (<[m := x]> (t_maps t)) (t_UserOnlineIP t) t in
    tables_wf t1 ∧ in_table t1 c ∧ grows t t1).
  { intros x Hx Hip t1. split_and!.
    - by apply wf_set.
    - intros Hck. exists m, x. simpl. rewrite lookup_insert_eq. auto.
    - apply grows_update. intros ips0 H1 H2. etrans; [by apply Hd|done]. }
  unfold LoadOrStore in Hs. destruct (ips !! c_ip c) as [u|] eqn:Hip; simplify_eq/=.
  - destruct (Hup ips) as (? & ? & ?); [done|by rewrite Hip|done].
  - destruct (Hup (<[c_ip c := c_uid c]> ips)) as (? & ? & Hg);
      [apply dom_insert_subseteq|rewrite lookup_insert_eq; by eexists|].
    split_and!; try done. intros m' [= <-]. by eapply grows_own_map.
Qed.

Lemma call_ok_undo t c m t' p' :
  tables_wf t → call_ok t (LUndo c m) → call_step t (LUndo c m) = Some (t', p') →
  tables_wf t' ∧ call_ok t' p' ∧ grows t t'.
Proof.
  intros Hwf [Hk Hown] Hs. destruct m as [m|]; simplify_eq/=.
  - split; [by apply wf_set|]. split; [done|].
    apply grows_update. intros ips Hm. destruct (Hown m eq_refl) as [_ Ho].
    apply Ho in Hm. by destruct Hk.
  - split; [by apply wf_delete|]. split; [done|by apply grows_delete].
Qed.

Lemma call_ok_bucket t c t' p' :
  tables_wf t → in_table t c → call_step t (LBucket c) = Some (t', p') →
  tables_wf t' ∧ call_ok t' p' ∧ grows t t'.
Proof.
  intros Hwf Hc Hs. simpl in Hs. unfold LoadOrStore in Hs.
  destruct (0 <? c_limit c); [|simplify_eq/=; by split_and!; try apply grows_refl].
  set (f := fresh (dom (t_buckets t))) in *. set (B := NewBucketWithQuantum _ _ _) in *.
  assert (Hsub : t_buckets t ⊆ <[f := B]> (t_buckets t)).
  { apply insert_subseteq, not_elem_of_dom, is_fresh. }
  assert (Hb : ∀ q, is_Some (t_buckets t !! q) → is_Some (<[f := B]> (t_buckets t) !! q)).
  { intros q Hq. apply lookup_insert_is_Some'. by right. }
  destruct (t_SpeedLimiter t !! c_taguuid c) as [b|] eqn:Hs'; simplify_eq/=.
  - split; [|split; [done|by apply grows_buckets]].
    apply wf_buckets; [done|]. intros k0 q Hq. by eapply Hb, tw_bucket.
  - split; [|split; [|by apply grows_buckets]].
    + apply wf_buckets; [done|]. intros k0 q [[_ <-]|[_ Hq]]%lookup_insert_Some;
        [rewrite lookup_insert_eq; by eexists|by eapply Hb, tw_bucket].
    + split; [done|]. simpl. rewrite lookup_insert_eq. by eexists.
Qed.

Lemma call_ok_step t p t' p' :
  tables_wf t → call_ok t p → limit_step t p t' p' →
  tables_wf t' ∧ call_ok t' p' ∧ grows t t'.
Proof.
  intros Hwf HL Hs. destruct Hs as [t p t' p' Hs| | | | | |]; try done.
  destruct p as [c|c m|c m|c|c m|c|c b| | | | | |]; try done.
  - by eapply call_ok_start.
  - by eapply call_ok_loaded.
  - destruct HL as (Hc & Ht & Hm). simpl in Hs. injection Hs as <- <-. split; [done|]. split; [|apply grows_refl].
    destruct (t_OldUserOnline t !! c_ip c); [by case_match|]. destruct (over c) eqn:Ho; [|done].
    split; [|done]. intros Hk. apply Hc in Hk. congruence.
  - simplify_eq/=. split_and!; [by apply wf_set_old|done|apply grows_old].
  - by eapply call_ok_undo.
  - by eapply call_ok_bucket.
  - destruct HL as [Ht Hb]. simplify_eq/=. split; [|split; [done|by apply grows_buckets]].
    apply wf_buckets; [done|]. intros k0 q [[_ <-]|[_ Hq]]%lookup_insert_Some; [done|].
    by eapply tw_bucket.
Qed.
End recorded.


(** ** The report names no address that no connection used *)
Section reported.
Variable used : Z → string → Prop.

Definition rep_ok (rep : list OnlineUser) : Prop :=
  Forall (λ u, used (online_UID u) (online_IP u)) rep.

Definition maps_ok (t : tables) : Prop :=
  ∀ m ips ip uid, t_maps t !! m = Some ips → ips !! ip = Some uid → used uid ip.

Definition used_ok (p : pc) : Prop :=
  match p with
  | LStart c | LLoaded c _ | LOld c _ | LDelOld c | LUndo c _ | LBucket c | LPublish c _
  | LDone c _ _ => used (c_uid c) (c_ip c)
  | RStart => True
  | RUsers _ _ rep | RIps _ _ _ _ _ _ rep | RDelete _ _ _ rep | RDone rep => rep_ok rep
  end.

Lemma maps_ok_insert t m x o :
  maps_ok t → (∀ ip uid, x !! ip = Some uid → used uid ip) →
  maps_ok (set_online (<[m := x]> (t_maps t)) o t).
Proof.
  intros Ht Hx m' ips ip uid. simpl. intros [[_ <-]|[_ Hm]]%lookup_insert_Some Hip; [by apply Hx|by eapply Ht].
Qed.

Lemma maps_ok_default t m ip uid :
  maps_ok t → default ∅ (t_maps t !! m) !! ip = Some uid → used uid ip.
Proof. intros Ht. destruct (t_maps t !! m) eqn:Hm; simpl; [by eapply Ht|done]. Qed.

Lemma used_ok_step t p t' p' :
  maps_ok t → used_ok p → limit_step t p t' p' → maps_ok t' ∧ used_ok p'.
Proof.
  intros Ht HL Hs. destruct Hs as [t p t' p' Hs| | | | | |]; try (split; done).
  - destruct p as [c|c m|c m|c|c [m|]|c|c b| | | | | |]; try done;
      simpl in Hs; unfold LoadOrStore in Hs; repeat case_match; simplify_eq/=; split;
      try done; apply maps_ok_insert; try done; intros ip uid.
    + intros [<- <-]%lookup_singleton_Some. done.
    + intros [<- <-]%lookup_singleton_Some. done.
    + by apply maps_ok_default.
    + intros [[<- <-]|[_ ?]]%lookup_insert_Some; [done|by eapply maps_ok_default].
    + intros [_ ?]%lookup_delete_Some. by eapply maps_ok_default.
  - split; [done|by constructor].
  - split; [done|]. apply Forall_app. split; [done|]. constructor; [|done].
    by eapply maps_ok_default.
Qed.
End reported.

(** However connections and report tasks interleave, every device that a
    report names is one that the online tables held before or that a
    connection came from, with that connection's user. *)
Theorem reported_used t ps t' ps' i rep u :
  Forall starting ps → rtc system (t, ps) (t', ps') →
  ps' !! i = Some (RDone rep) → u ∈ rep →
  (∃ m ips, t_maps t !! m = Some ips ∧ ips !! online_IP u = Some (online_UID u)) ∨
  (∃ c, LStart c ∈ ps ∧ c_uid c = online_UID u ∧ c_ip c = online_IP u).
Proof.
  intros Hps Hr Hi Hu.
  set (used := λ uid ip, (∃ m ips, t_maps t !! m = Some ips ∧ ips !! ip = Some uid) ∨
    (∃ c, LStart c ∈ ps ∧ c_uid c = uid ∧ c_ip c = ip)).
  eapply (pool_invariant limit_step (maps_ok used) (λ _, used_ok used)) in Hr as [_ HL]; simpl.
  - apply HL in Hi. eapply Forall_forall in Hi; [|done]. exact Hi.
  - intros s p s' p' HI HL Hs. destruct (used_ok_step used s p s' p' HI HL Hs). by split_and!.
  - intros m ips ip uid Hm Hip. left. eauto.
  - intros j p Hj. eapply Forall_lookup_1 in Hps; [|done].
    destruct p; try done. simpl. right. eexists. split_and!; [|done..].
    by eapply list_elem_of_lookup_2.
Qed.

(** ** Two connections from one new address *)
Lemma bucket_finishes t c :
  ∃ t' b, rtc (own_step limit_step) (t, LBucket c) (t', LDone c b false) ∧
          t_UserOnlineIP t' = t_UserOnlineIP t.
Proof.
  destruct (0 <? c_limit c) eqn:Hl.
  - destruct (t_SpeedLimiter t !! c_taguuid c) as [b|] eqn:Hb; eexists _, _; split.
    + apply rtc_once. simpl. apply step_call. simpl. unfold LoadOrStore. by rewrite Hl, Hb.
    + done.
    + eapply (rtc_l _ _ (_, LPublish c (fresh (dom (t_buckets t))))).
      * apply step_call. simpl. unfold LoadOrStore. by rewrite Hl, Hb.
      * apply rtc_once. by apply step_call.
    + done.
  - eexists _, _. split; [|done]. apply rtc_once. apply step_call. simpl. by rewrite Hl.
Qed.

(** A user at his device limit gets past it with two connections from the
    same new address at once.  Alone, each is rejected; together, the second
    finds the address the first one put into the table, is accepted, and the
    first one's rejection then removes the address, so that the device is used
    and neither limited nor reported. *)
Theorem device_limit_race t c :
  t_UserOnlineIP t !! c_taguuid c = None → t_OldUserOnline t !! c_ip c = None → over c = true →
  (∃ t1, run_call 3 t (LStart c) = (t1, LDone c None true)) ∧
  ∃ t' b, rtc system (t, [LStart c; LStart c]) (t', [LDone c None true; LDone c b false]) ∧
          t_UserOnlineIP t' !! c_taguuid c = None.
Proof.
  intros Hon Hold Hover. split.
  { eexists. simpl. unfold LoadOrStore. rewrite Hon. simpl. rewrite Hold, Hover. done. }
  set (f := fresh (dom (t_maps t))). set (ips := {[c_ip c := c_uid c]} : gmap string Z).
  set (t1 := set_online (<[f := ips]> (t_maps t)) (<[c_taguuid c := f]> (t_UserOnlineIP t)) t).
  set (f2 := fresh (dom (t_maps t1))).
  set (t2 := set_online (<[f2 := ips]> (t_maps t1)) (t_UserOnlineIP t1) t1).
  assert (Hf : t_maps t2 !! f = Some ips).
  { simpl. rewrite lookup_insert_ne, lookup_insert_eq; [done|]. intros Hff.
    apply (is_fresh (dom (t_maps t1))), elem_of_dom. fold f2. rewrite Hff. simpl.
    rewrite lookup_insert_eq. by eexists. }
  set (t3 := set_online (<[f := ips]> (t_maps t2)) (t_UserOnlineIP t2) t2).
  set (t4 := set_online (t_maps t3) (delete (c_taguuid c) (t_UserOnlineIP t3)) t3).
  destruct (bucket_finishes t4 c) as (t' & b & Hb & Hon').
  exists t', b. split; [|rewrite Hon'; simpl; apply lookup_delete_eq].
  eapply rtc_l; [eapply (pool_step_of _ 0 _ _ _ t1 (LOld c None)); [done| |done]|].
  { apply step_call. simpl. unfold LoadOrStore. by rewrite Hon. }
  eapply rtc_l; [eapply (pool_step_of _ 1 _ _ _ t2 (LLoaded c f)); [done| |done]|].
  { apply step_call. simpl. unfold LoadOrStore. by rewrite lookup_insert_eq. }
  eapply rtc_l; [eapply (pool_step_of _ 1 _ _ _ t3 (LBucket c)); [done| |done]|].
  { apply step_call. unfold call_step, LoadOrStore. rewrite Hf. simpl.
    by replace (ips !! c_ip c) with (Some (c_uid c)) by (symmetry; apply lookup_singleton_eq). }
  eapply rtc_l; [eapply (pool_step_of _ 0 _ _ _ t3 (LUndo c None)); [done| |done]|].
  { apply step_call. simpl. by rewrite Hold, Hover. }
  eapply rtc_l; [eapply (pool_step_of _ 0 _ _ _ t4 (LDone c None true)); [done| |done]|].
  { by apply step_call. }
  by apply (pool_one _ 1 _ (LBucket c) _ _ [LDone c None true; LBucket c]).
Qed.

(** ** A connection accepted while a report is made *)

(** The report task reads the one address of the one user online. *)
Lemma report_reads t k m ip0 uid0 :
  t_UserOnlineIP t = {[k := m]} → t_maps t !! m = Some {[ip0 := uid0]} →
  rtc (own_step limit_step) (t, RStart)
    (set_old {[ip0 := uid0]} t, RDelete k {[k]} ∅ [mkOnlineUser uid0 ip0]).
Proof.
  intros Hon Hm.
  eapply (rtc_l _ _ (set_old ∅ t, RUsers {[k]} ∅ [])).
  { pose proof (step_reset t) as Hs. rewrite Hon, dom_singleton_L in Hs. exact Hs. }
  eapply (rtc_l _ _ (set_old ∅ t, RIps k m {[k]} ∅ {[ip0]} ∅ [])).
  { pose proof (step_user (set_old ∅ t) {[k]} ∅ [] k m) as Hs. simpl in Hs.
    rewrite Hm, Hon, lookup_singleton_eq in Hs. simpl in Hs. rewrite dom_singleton_L in Hs.
    apply Hs; [set_solver|done]. }
  eapply (rtc_l _ _ (set_old {[ip0 := uid0]} t, RIps k m {[k]} ∅ {[ip0]} ({[ip0]} ∪ ∅) _)).
  { apply (step_ip (set_old ∅ t)); [set_solver|]. simpl. rewrite Hm. apply lookup_singleton_eq. }
  apply rtc_once, step_ips_end. set_solver.
Qed.

(** A new address of a user who is online and not over his limit. *)
Lemma call_accepted t c m ips :
  t_UserOnlineIP t !! c_taguuid c = Some m → t_maps t !! m = Some ips →
  t_OldUserOnline t !! c_ip c = None → over c = false →
  ∃ t' b, rtc (own_step limit_step) (t, LStart c) (t', LDone c b false) ∧
          t_UserOnlineIP t' = t_UserOnlineIP t.
Proof.
  intros Hon Hm Hold Hover.
  set (t1 := set_online (<[fresh (dom (t_maps t)) := {[c_ip c := c_uid c]}]> (t_maps t))
                        (t_UserOnlineIP t) t).
  assert (Hb : ∀ t2, t_UserOnlineIP t2 = t_UserOnlineIP t →
    ∃ t' b, rtc (own_step limit_step) (t2, LBucket c) (t', LDone c b false) ∧
            t_UserOnlineIP t' = t_UserOnlineIP t).
  { intros t2 H2. destruct (bucket_finishes t2 c) as (t' & b & ? & H3).
    exists t', b. by rewrite H3. }
  set (x := default ∅ (t_maps t1 !! m)).
  destruct (x !! c_ip c) as [u|] eqn:Hip.
  - destruct (Hb (set_online (<[m := x]> (t_maps t1)) (t_UserOnlineIP t) t1) eq_refl)
      as (t' & b & Hr & Ht').
    exists t', b. split; [|done].
    eapply (rtc_l _ _ (t1, LLoaded c m)); [|eapply rtc_l; [|exact Hr]]; apply step_call;
      cbn [fst snd]; unfold call_step, LoadOrStore; [by rewrite Hon|]. fold x. by rewrite Hip.
  - set (t2 := set_online (<[m := <[c_ip c := c_uid c]> x]> (t_maps t1)) (t_UserOnlineIP t) t1).
    destruct (Hb t2 eq_refl) as (t' & b & Hr & Ht'). exists t', b. split; [|done].
    eapply (rtc_l _ _ (t1, LLoaded c m));
      [|eapply (rtc_l _ _ (t2, LOld c (Some m))); [|eapply rtc_l; [|exact Hr]]];
      apply step_call; cbn [fst snd]; unfold call_step, LoadOrStore.
    + by rewrite Hon.
    + fold x. by rewrite Hip.
    + simpl. by rewrite Hold, Hover.
Qed.

(** A connection that [CheckLimit] accepts while the report task is between
    reading a user's addresses and deleting his entry is lost to the report:
    its address is neither in the list that is sent nor in the table that the
    next report reads. *)
Theorem report_loses_device t c m ip0 uid0 :
  t_UserOnlineIP t = {[c_taguuid c := m]} → t_maps t !! m = Some {[ip0 := uid0]} →
  ip0 ≠ c_ip c → over c = false →
  ∃ t' b, rtc system (t, [RStart; LStart c])
            (t', [RDone [mkOnlineUser uid0 ip0]; LDone c b false]) ∧
          t_UserOnlineIP t' = ∅.
Proof.
  intros Hon Hm Hne Hover. set (t2 := set_old {[ip0 := uid0]} t).
  destruct (call_accepted t2 c m {[ip0 := uid0]}) as (t5 & b & Hb & Hon');
    [simpl; by rewrite Hon, lookup_singleton_eq|done|by apply lookup_singleton_ne|done|].
  set (t6 := set_online (t_maps t5) (delete (c_taguuid c) (t_UserOnlineIP t5)) t5).
  assert (Hend : t_UserOnlineIP t6 = ∅).
  { simpl. rewrite Hon'. simpl. rewrite Hon. apply delete_singleton_eq. }
  exists t6, b. split; [|done].
  etrans; [by eapply (pool_one _ 0 _ RStart); [|eapply report_reads]|].
  etrans; [by eapply (pool_one _ 1 _ (LStart c))|].
  eapply rtc_l; [eapply (pool_step_of _ 0); [done|apply step_delete|done]|].
  apply rtc_once. eapply (pool_step_of _ 0); [done|apply step_end|done].
  fold t6. rewrite Hend. set_solver.
Qed.

End limit_conc.

(** * Witnesses *)
#[local] Existing Instance wit_ratelimit.
#[local] Existing Instance wit_regexp.

Definition wit_tables : tables := mkTables ∅ ∅ ∅ ∅ ∅.

Lemma wit_tables_wf : tables_wf wit_tables.
Proof. split; [apply ptr_wf_empty|]. intros *. simpl. by rewrite lookup_empty. Qed.

(** alice, 100 Mbit/s, from two addresses; bob is at his limit of one device. *)
Definition alice1 : call := mkCall "n|alice" "10.0.0.1" 7 2 1 12500000.
Definition alice2 : call := mkCall "n|alice" "10.0.0.2" 7 2 1 12500000.
Definition bob : call := mkCall "n|bob" "10.0.0.3" 8 1 1 0.

Definition wit_schedule : list nat := [0; 1; 2; 1; 0; 2; 1; 0; 2; 1; 0; 1; 0; 1; 0]%nat.
Definition wit_end : tables * list pc :=
  run_schedule call_step wit_schedule (wit_tables, LStart <$> [alice1; alice2; bob]).

Lemma wit_run : rtc system (wit_tables, LStart <$> [alice1; alice2; bob]) wit_end.
Proof. apply run_schedule_rtc, step_call. Qed.


Lemma bucket_agree_witness : Some 0%nat = Some 0%nat ∧
  Some 0%nat = t_SpeedLimiter wit_end.1 !! "n|alice"%string ∧ is_Some (Some 0%nat).
Proof.
  apply (bucket_agree wit_tables (LStart <$> [alice1; alice2; bob]) wit_end.1 wit_end.2
    0 1 alice1 alice2); try (vm_compute; reflexivity).
  - by repeat constructor.
  - rewrite <- surjective_pairing. exact wit_run.
Defined.


(** alice is online from one address when the report task runs. *)
Definition wit_online : tables :=
  mkTables {[0%nat := {["10.0.0.1"%string := 7]}]} {["n|alice"%string := 0%nat]} ∅ ∅ ∅.

Lemma wit_report :
  ∃ t', rtc system (wit_online, [RStart]) (t', [RDone [mkOnlineUser 7 "10.0.0.1"]]).
Proof.
  eexists. etrans; [eapply (pool_one _ 0 _ RStart); [done|by apply (report_reads wit_online "n|alice" 0 "10.0.0.1" 7)]|].
  eapply rtc_l; [eapply (pool_step_of _ 0); [done|apply step_delete|done]|].
  apply rtc_once. eapply (pool_step_of _ 0); [done|apply step_end|done]. vm_compute. set_solver.
Qed.

Lemma reported_used_witness :
  (∃ m ips, t_maps wit_online !! m = Some ips ∧ ips !! "10.0.0.1"%string = Some 7) ∨
  (∃ c, LStart c ∈ [RStart] ∧ c_uid c = 7 ∧ c_ip c = "10.0.0.1"%string).
Proof.
  destruct wit_report as [t' Hr].
  apply (reported_used wit_online [RStart] t' _ 0 [mkOnlineUser 7 "10.0.0.1"] (mkOnlineUser 7 "10.0.0.1")) in Hr;
    [exact Hr|by repeat constructor|reflexivity|by apply list_elem_of_singleton].
Defined.

Lemma device_limit_race_witness :
  (∃ t1, run_call 3 wit_tables (LStart bob) = (t1, LDone bob None true)) ∧
  ∃ t' b, rtc system (wit_tables, [LStart bob; LStart bob])
            (t', [LDone bob None true; LDone bob b false]) ∧
          t_UserOnlineIP t' !! "n|bob"%string = None.
Proof. apply (device_limit_race wit_tables bob); reflexivity. Defined.

Lemma report_loses_device_witness :
  ∃ t' b, rtc system (wit_online, [RStart; LStart alice2])
            (t', [RDone [mkOnlineUser 7 "10.0.0.1"]; LDone alice2 b false]) ∧
          t_UserOnlineIP t' = ∅.
Proof. by apply (report_loses_device wit_online alice2 0 "10.0.0.1" 7). Defined.
