(* ===== verification/UserDiff.v ===== *)
(** src/node/user.go, compareUserList: the users to delete and to add when the
    panel sends a new list, and what the limiter holds after it is told. *)

From S2P Require Import Prelude GoStd Conf Panel Limiter.
From stdpp Require Import prelude gmap strings.
From Stdlib Require Import ZArith Lia.

Open Scope Z_scope.

(** * The code *)
Definition user_key (user : UserInfo) : string :=
  (user_Uuid user +:+ Itoa (user_SpeedLimit user))%string.

(** The first loop: the index of the last user of each key. *)
Fixpoint index_users (i : nat) (old : list UserInfo) (oldMap : gmap string nat)
    : gmap string nat :=
  match old with
  | [] => oldMap
  | user :: old => index_users (S i) old (<[user_key user := i]> oldMap)
  end.

(** The body of the second loop. *)
Definition match_user (st : gmap string nat * list UserInfo) (user : UserInfo)
    : gmap string nat * list UserInfo :=
  let '(oldMap, added) := st in
  match oldMap !! user_key user with
  | None => (oldMap, added ++ [user])
  | Some _ => (delete (user_key user) oldMap, added)
  end.

Definition compareUserList `{RangeOrder} (old new : list UserInfo)
    : list UserInfo * list UserInfo :=
  let oldMap := index_users 0 old ∅ in
  let '(oldMap, added) := foldl match_user (oldMap, []) new in
  let deleted := omap (λ e : string * nat, old !! e.2) (range oldMap) in
  (deleted, added).

(** * Lemmas *)
Definition keys (l : list UserInfo) : list string := user_key <$> l.

Lemma index_users_lookup old i m k :
  NoDup (keys old) →
  index_users i old m !! k =
    match list_find (λ u, user_key u = k) old with
    | Some (j, _) => Some (i + j)%nat
    | None => m !! k
    end.
Proof.
  revert i m. induction old as [|u old IH]; intros i m Hnd; [done|].
  simpl in Hnd. apply NoDup_cons in Hnd as [Hni Hnd]. simpl. rewrite IH by done.
  destruct (decide (user_key u = k)) as [Hk|Hk].
  - assert (list_find (λ u, user_key u = k) old = None) as ->.
    { apply list_find_None, Forall_forall. intros v Hv Hkv. apply Hni.
      apply list_elem_of_fmap. exists v. by rewrite Hk, Hkv. }
    subst. rewrite lookup_insert_eq. f_equal. lia.
  - rewrite lookup_insert_ne by done.
    destruct (list_find _ old) as [[j v]|]; simpl; [f_equal; lia|done].
Qed.

Lemma match_user_fold new m added :
  NoDup (keys new) →
  foldl match_user (m, added) new =
    (foldl (λ m k, delete k m) m (keys new),
     added ++ filter (λ u, m !! user_key u = None) new).
Proof.
  revert m added. induction new as [|u new IH]; intros m added Hnd; [by rewrite app_nil_r|].
  simpl in Hnd. apply NoDup_cons in Hnd as [Hni Hnd].
  rewrite foldl_cons, filter_cons. simpl.
  assert (∀ m' : gmap string nat, (∀ k, k ≠ user_key u → m' !! k = m !! k) →
    filter (λ v, m' !! user_key v = None) new = filter (λ v, m !! user_key v = None) new) as Hext.
  { intros m' Hm'. apply filter_ext_elem. intros v Hv. rewrite Hm'; [done|].
    intros Hk. apply Hni. rewrite <- Hk. by apply list_elem_of_fmap_2. }
  destruct (m !! user_key u) as [j|] eqn:Hu.
  - rewrite decide_False by done. rewrite IH, Hext by (done || (intros; by rewrite lookup_delete_ne)).
    done.
  - rewrite decide_True by done. rewrite IH by done.
    by rewrite <- app_assoc, delete_id.
Qed.

(** The final index: the old users whose key is not in the new list. *)
Lemma final_index_lookup old new k :
  NoDup (keys old) → NoDup (keys new) →
  foldl (λ m k, delete k m) (index_users 0 old ∅) (keys new) !! k =
    if decide (k ∈ keys new) then None else fst <$> list_find (λ u, user_key u = k) old.
Proof.
  intros Ho Hn. rewrite lookup_foldl_delete. case_decide; [done|].
  rewrite index_users_lookup, lookup_empty by done.
  by destruct (list_find _ old) as [[j v]|].
Qed.

Lemma list_find_key l i u :
  NoDup (keys l) → l !! i = Some u → list_find (λ v, user_key v = user_key u) l = Some (i, u).
Proof.
  intros Hnd Hi. apply list_find_Some. split_and!; [done|done|].
  intros j v Hj Hlt Hk.
  assert (keys l !! i = Some (user_key u)) by (unfold keys; by rewrite list_lookup_fmap, Hi).
  assert (keys l !! j = Some (user_key v)) by (unfold keys; by rewrite list_lookup_fmap, Hj).
  rewrite Hk in *. pose proof (NoDup_lookup _ _ _ _ Hnd H0 H). lia.
Qed.

Lemma compareUserList_spec `{RangeOrder} old new :
  NoDup (keys old) → NoDup (keys new) →
  let '(deleted, added) := compareUserList old new in
  deleted ≡ₚ filter (λ u, user_key u ∉ keys new) old ∧
  added = filter (λ u, user_key u ∉ keys old) new.
Proof.
  intros Ho Hn. unfold compareUserList. rewrite match_user_fold by done. simpl. split.
  - apply NoDup_Permutation.
    + apply (NoDup_fmap_1 user_key).
      set (m := foldl _ _ _).
      assert (user_key <$> omap (λ e : string * nat, old !! e.2) (range m) = (range m).*1) as ->.
      { assert (∀ e, e ∈ range m → user_key <$> old !! e.2 = Some e.1) as Hm.
        { intros [k i] He%elem_of_range. unfold m in He. rewrite final_index_lookup in He by done.
          case_decide; [done|]. destruct (list_find _ old) as [[j v]|] eqn:Hf; [|done].
          simplify_eq/=. apply list_find_Some in Hf as (Hv & <- & _). by rewrite Hv. }
        revert Hm. generalize (range m). intros l. induction l as [|e l IH]; intros Hm; [done|].
        simpl. specialize (Hm e ltac:(left)) as He. destruct (old !! e.2); simplify_eq/=.
        rewrite He. f_equal. apply IH. intros; apply Hm; by right. }
      apply NoDup_fst_range.
    + apply NoDup_filter. by apply (NoDup_fmap_1 user_key).
    + intros u. rewrite list_elem_of_omap, list_elem_of_filter. split.
      * intros ([k i] & He%elem_of_range & Hi). rewrite final_index_lookup in He by done.
        case_decide as Hk; [done|]. destruct (list_find _ old) as [[j v]|] eqn:Hf; [|done].
        simplify_eq/=. apply list_find_Some in Hf as (Hv & <- & _). simplify_eq.
        split; [done|]. by eapply list_elem_of_lookup_2.
      * intros [Hk [i Hi]%list_elem_of_lookup_1]. exists (user_key u, i). split; [|done].
        apply elem_of_range. rewrite final_index_lookup, decide_False by done.
        by rewrite (list_find_key old i u).
  - apply filter_ext_elem. intros u _. rewrite index_users_lookup, lookup_empty by done.
    destruct (list_find _ old) as [[j v]|] eqn:Hf.
    + split; [done|]. intros Hk. destruct Hk. apply list_find_Some in Hf as (Hv & <- & _).
      by eapply list_elem_of_fmap_2, list_elem_of_lookup_2.
    + split; [|done]. intros _ (v & Hk & Hv)%list_elem_of_fmap.
      apply list_find_None in Hf. rewrite Forall_forall in Hf. by apply (Hf v).
Qed.

(** ** Keys identify a uuid and a speed limit when uuids have one length *)
Definition ident (u : UserInfo) : string * Z := (user_Uuid u, user_SpeedLimit u).

Definition uuid_length (n : nat) (l : list UserInfo) : Prop :=
  Forall (λ u, String.length (user_Uuid u) = n) l.

#[global] Instance uuid_length_dec n l : Decision (uuid_length n l).
Proof. unfold uuid_length. apply _. Defined.

Lemma user_key_ident u v :
  String.length (user_Uuid u) = String.length (user_Uuid v) →
  user_key u = user_key v ↔ ident u = ident v.
Proof.
  intros Hl. unfold user_key, ident. split.
  - intros H. apply string_app_inj_length in H as [-> H]; [|done].
    by apply Itoa_inj in H as ->.
  - by intros [= -> ->].
Qed.

Lemma key_elem n u l :
  String.length (user_Uuid u) = n → uuid_length n l →
  user_key u ∈ keys l ↔ ident u ∈ ident <$> l.
Proof.
  intros Hu Hl. unfold uuid_length in Hl. rewrite Forall_forall in Hl.
  unfold keys. rewrite !list_elem_of_fmap. split.
  - intros (v & Hk & Hv). exists v. split; [|done]. apply user_key_ident; [|done].
    rewrite Hu. symmetry. by apply Hl.
  - intros (v & Hk & Hv). exists v. split; [|done]. apply user_key_ident; [|done].
    rewrite Hu. symmetry. by apply Hl.
Qed.

Lemma NoDup_keys n l : uuid_length n l → NoDup (uuids l) → NoDup (keys l).
Proof.
  intros Hl Hnd. unfold uuid_length in Hl. rewrite Forall_forall in Hl.
  apply NoDup_fmap_2_strong; [|by apply (NoDup_fmap_1 user_Uuid)].
  intros u v Hu Hv Hk. apply user_key_ident in Hk; [|by rewrite !Hl].
  apply (NoDup_fmap_inj user_Uuid l); [done..|]. unfold ident in Hk. congruence.
Qed.

(** ** Tables built from a list of users *)
Section tables.
Context {K V : Type} `{Countable K} (g : UserInfo → K) (f : UserInfo → V).

Definition table (l : list UserInfo) : gmap K V := list_to_map ((λ u, (g u, f u)) <$> l).

Lemma table_lookup l k v :
  NoDup (g <$> l) → table l !! k = Some v ↔ ∃ u, u ∈ l ∧ g u = k ∧ f u = v.
Proof.
  intros Hnd. unfold table. rewrite <- elem_of_list_to_map.
  - rewrite list_elem_of_fmap. naive_solver.
  - by rewrite <- list_fmap_compose.
Qed.

Lemma insert_users_lookup l (m : gmap K V) k v :
  NoDup (g <$> l) →
  foldl (λ m u, <[g u := f u]> m) m l !! k = Some v ↔
    (∃ u, u ∈ l ∧ g u = k ∧ f u = v) ∨ (k ∉ g <$> l ∧ m !! k = Some v).
Proof.
  revert m. induction l as [|u l IH]; intros m Hnd; simpl in *; [set_solver|].
  apply NoDup_cons in Hnd as [Hni Hnd]. rewrite IH by done.
  rewrite lookup_insert, not_elem_of_cons. split.
  - intros [(w & Hw & Hk)|[Hk Hm]]; [left; set_solver|].
    case_decide; simplify_eq; [left; set_solver|]. right. naive_solver.
  - intros [(w & [->|Hw]%elem_of_cons & Hk & Hv)|[[Hne Hk] Hm]].
    + right. split; [by subst|]. rewrite decide_True by done. by f_equal.
    + left. eauto.
    + right. split; [done|]. by rewrite decide_False.
Qed.

(** Deleting what left and inserting what came turns the old table into the new. *)
Lemma table_update (D A old new : list UserInfo) :
  NoDup (g <$> old) → NoDup (g <$> new) →
  (∀ u v, u ∈ old → v ∈ new → ident u = ident v → u = v) →
  (∀ u, u ∈ D ↔ u ∈ old ∧ ident u ∉ ident <$> new) →
  A = filter (λ u, ident u ∉ ident <$> old) new →
  foldl (λ m u, <[g u := f u]> m) (foldl (λ (m : gmap K V) u, delete (g u) m) (table old) D) A = table new.
Proof.
  intros Ho Hn Hkept HD ->.
  assert (∀ m : gmap K V, foldl (λ m u, delete (g u) m) m D = foldl (λ m k, delete k m) m (g <$> D)) as ->.
  { clear. induction D as [|u D IH]; intros m; [done|]. simpl. apply IH. }
  set (A := filter _ new).
  assert (HA : ∀ u, u ∈ A ↔ ident u ∉ ident <$> old ∧ u ∈ new) by (intros; unfold A; by rewrite list_elem_of_filter).
  assert (NoDup (g <$> A)) as HndA.
  { eapply sublist_NoDup; [exact Hn|]. apply fmap_sublist, sublist_filter. }
  apply map_eq. intros k. apply option_eq. intros v.
  rewrite insert_users_lookup, table_lookup, lookup_foldl_delete by done. split.
  - intros [(u & [_ Hu]%HA & Hk)|[HkA Hm]]; [eauto|]. case_decide as HkD; [done|].
    apply table_lookup in Hm as (u & Hu & <- & <-); [|done].
    destruct (decide (ident u ∈ ident <$> new)) as [Hi|Hi].
    + apply list_elem_of_fmap in Hi as (w & Hi & Hw). rewrite (Hkept u w Hu Hw Hi). eauto.
    + destruct HkD. apply list_elem_of_fmap_2, HD. done.
  - intros (u & Hu & <- & <-). destruct (decide (ident u ∈ ident <$> old)) as [Hi|Hi].
    + apply list_elem_of_fmap in Hi as (w & Hi & Hw).
      assert (w = u) as -> by (by apply Hkept). right. split.
      * intros (x & Hx & [Hxo Hxn]%HA)%list_elem_of_fmap. apply Hxo.
        rewrite <- (NoDup_fmap_inj g new u x Hn Hu Hxn Hx). by apply list_elem_of_fmap_2.
      * rewrite decide_False; [apply table_lookup; eauto|].
        intros (x & Hx & [Hxo Hxn]%HD)%list_elem_of_fmap. apply Hxn.
        rewrite <- (NoDup_fmap_inj g old u x Ho Hw Hxo Hx). by apply list_elem_of_fmap_2.
    + left. exists u. by rewrite HA.
Qed.
End tables.

(** ** The limiter's tables after [UpdateUser] *)
Definition limits_of (tag : string) (l : list UserInfo) : gmap string UserLimitInfo :=
  table (λ u, UserTag tag (user_Uuid u)) limit_of_user l.
Definition uids_of (l : list UserInfo) : gmap string Z := table user_Uuid user_Id l.

Section update.
Context `{RL : RatelimitLib} `{RE : RegexpLib}.

Lemma AddLimiter_user_fold tag l users :
  lim_UserLimitInfo (foldl (AddLimiter_user tag) l users)
    = foldl (λ m u, <[UserTag tag (user_Uuid u) := limit_of_user u]> m) (lim_UserLimitInfo l) users ∧
  UUIDtoUID (foldl (AddLimiter_user tag) l users)
    = foldl (λ m u, <[user_Uuid u := user_Id u]> m) (UUIDtoUID l) users.
Proof. revert l. induction users as [|u us IH]; intros l; [done|]. simpl. apply IH. Qed.

Lemma UpdateUser_delete_fold tag l users :
  lim_UserLimitInfo (foldl (UpdateUser_delete tag) l users)
    = foldl (λ (m : gmap string _) u, delete (UserTag tag (user_Uuid u)) m) (lim_UserLimitInfo l) users ∧
  UUIDtoUID (foldl (UpdateUser_delete tag) l users)
    = foldl (λ (m : gmap string _) u, delete (user_Uuid u) m) (UUIDtoUID l) users.
Proof. revert l. induction users as [|u us IH]; intros l; [done|]. simpl. apply IH. Qed.

Lemma new_limiter_tables tag c users alive :
  NoDup (uuids users) →
  lim_UserLimitInfo (new_limiter tag c users alive) = limits_of tag users ∧
  UUIDtoUID (new_limiter tag c users alive) = uids_of users.
Proof.
  intros Hnd. unfold new_limiter.
  destruct (AddLimiter_user_fold tag (mkLimiter [] [] (lim_SpeedLimit c) ∅ ∅ ∅ ∅ ∅ alive) users)
    as [-> ->]. simpl.
  split; apply map_eq; intros k; apply option_eq; intros v.
  - rewrite insert_users_lookup by (by apply NoDup_tags). unfold limits_of.
    rewrite table_lookup by (by apply NoDup_tags). rewrite lookup_empty. naive_solver.
  - rewrite insert_users_lookup by done. unfold uids_of.
    rewrite table_lookup by done. rewrite lookup_empty. naive_solver.
Qed.

Context `{RangeOrder}.

(** C11: for lists without duplicate uuids, all uuids of one length (as the
    panel's are), [compareUserList] returns exactly the users of the old list
    that have no counterpart with the same uuid and speed limit in the new
    one, each once, and exactly the new users without a counterpart in the old
    list, in their order. *)
Theorem compareUserList_exact n old new :
  uuid_length n old → uuid_length n new → NoDup (uuids old) → NoDup (uuids new) →
  let '(deleted, added) := compareUserList old new in
  deleted ≡ₚ filter (λ u, ident u ∉ ident <$> new) old ∧
  added = filter (λ u, ident u ∉ ident <$> old) new.
Proof.
  intros Hlo Hln Ho Hn.
  pose proof (compareUserList_spec old new (NoDup_keys n old Hlo Ho) (NoDup_keys n new Hln Hn)) as Hs.
  destruct (compareUserList old new) as [deleted added]. destruct Hs as [-> ->].
  pose proof Hlo as Hlo'. pose proof Hln as Hln'.
  unfold uuid_length in Hlo', Hln'. rewrite Forall_forall in Hlo', Hln'. split.
  - apply reflexive_eq, filter_ext_elem. intros u Hu. rewrite key_elem; [done|by apply Hlo'|done].
  - apply filter_ext_elem. intros u Hu. rewrite key_elem; [done|by apply Hln'|done].
Qed.

(** Both results by membership. *)
Lemma compareUserList_members n old new :
  uuid_length n old → uuid_length n new → NoDup (uuids old) → NoDup (uuids new) →
  let '(deleted, added) := compareUserList old new in
  (∀ u, u ∈ deleted ↔ u ∈ old ∧ ident u ∉ ident <$> new) ∧
  added = filter (λ u, ident u ∉ ident <$> old) new.
Proof.
  intros Hlo Hln Ho Hn.
  pose proof (compareUserList_spec old new (NoDup_keys n old Hlo Ho) (NoDup_keys n new Hln Hn)) as Hs.
  destruct (compareUserList old new) as [deleted added]. destruct Hs as [Hd Ha].
  pose proof Hlo as Hlo'. pose proof Hln as Hln'.
  unfold uuid_length in Hlo', Hln'. rewrite Forall_forall in Hlo', Hln'. split.
  - intros u. rewrite Hd, list_elem_of_filter. split.
    + intros [Hk Hu]. split; [done|]. by rewrite <- (key_elem n) by auto.
    + intros [Hu Hk]. split; [|done]. by rewrite (key_elem n) by auto.
  - rewrite Ha. apply filter_ext_elem. intros u Hu. by rewrite (key_elem n) by auto.
Qed.

(** The limiter's tables follow the lists. *)
Lemma UpdateUser_tables n tag old new l :
  uuid_length n old → uuid_length n new → NoDup (uuids old) → NoDup (uuids new) →
  (∀ u v, u ∈ old → v ∈ new → ident u = ident v → u = v) →
  lim_UserLimitInfo l = limits_of tag old → UUIDtoUID l = uids_of old →
  let '(deleted, added) := compareUserList old new in
  let l' := UpdateUser tag added deleted l in
  lim_UserLimitInfo l' = limits_of tag new ∧ UUIDtoUID l' = uids_of new.
Proof.
  intros Hlo Hln Ho Hn Hkept Hul Hui.
  pose proof (compareUserList_members n old new Hlo Hln Ho Hn) as Hs.
  destruct (compareUserList old new) as [deleted added]. destruct Hs as [HD HA].
  unfold UpdateUser. simpl.
  destruct (AddLimiter_user_fold tag (foldl (UpdateUser_delete tag) l deleted) added) as [-> ->].
  destruct (UpdateUser_delete_fold tag l deleted) as [-> ->]. rewrite Hul, Hui. split.
  - by apply table_update; [apply NoDup_tags|apply NoDup_tags|..].
  - by apply table_update.
Qed.

(** C12: the incremental update agrees with a rebuild: a limiter whose tables
    are those of the old list, told about the difference of the two lists, has
    the tables a new limiter would have for the new list, provided the users
    that keep their uuid and speed limit are otherwise unchanged. *)
Theorem UpdateUser_refines_AddLimiter n tag cfg alive old new l :
  uuid_length n old → uuid_length n new → NoDup (uuids old) → NoDup (uuids new) →
  (∀ u v, u ∈ old → v ∈ new → ident u = ident v → u = v) →
  lim_UserLimitInfo l = limits_of tag old → UUIDtoUID l = uids_of old →
  let '(deleted, added) := compareUserList old new in
  let l' := UpdateUser tag added deleted l in
  lim_UserLimitInfo l' = lim_UserLimitInfo (new_limiter tag cfg new alive) ∧
  UUIDtoUID l' = UUIDtoUID (new_limiter tag cfg new alive).
Proof.
  intros Hlo Hln Ho Hn Hkept Hul Hui. destruct (new_limiter_tables tag cfg new alive Hn) as [-> ->].
  by apply (UpdateUser_tables n).
Qed.

(** Only the uuid and the speed limit are compared: a list that differs
    from the old one in device limits or ids is seen as unchanged, so the new
    device limit of a known user never reaches the limiter. *)
Lemma compareUserList_ignores_devices n old new :
  uuid_length n old → uuid_length n new → NoDup (uuids old) → NoDup (uuids new) →
  ident <$> old ≡ₚ ident <$> new → compareUserList old new = ([], []).
Proof.
  intros Hlo Hln Ho Hn Hp. pose proof (compareUserList_members n old new Hlo Hln Ho Hn) as Hs.
  destruct (compareUserList old new) as [deleted added]. destruct Hs as [HD ->]. f_equal.
  - destruct deleted as [|u deleted]; [done|].
    destruct (proj1 (HD u) ltac:(left)) as [Hu Hn']. destruct Hn'. rewrite <- Hp.
    by apply list_elem_of_fmap_2.
  - apply filter_none. intros u Hu Hni. apply Hni. rewrite Hp. by apply list_elem_of_fmap_2.
Qed.
End update.

(** * Witnesses *)
Definition wit_old : list UserInfo :=
  [mkUserInfo 1 "aaaa" 100 0; mkUserInfo 2 "bbbb" 0 3; mkUserInfo 3 "cccc" 5 0]%string.
Definition wit_new : list UserInfo :=
  [mkUserInfo 1 "aaaa" 200 0; mkUserInfo 2 "bbbb" 0 3; mkUserInfo 4 "dddd" 0 0]%string.

Lemma compareUserList_exact_witness :
  let '(deleted, added) := @compareUserList canonical_order wit_old wit_new in
  deleted ≡ₚ [mkUserInfo 1 "aaaa" 100 0; mkUserInfo 3 "cccc" 5 0]%string ∧
  added = [mkUserInfo 1 "aaaa" 200 0; mkUserInfo 4 "dddd" 0 0]%string.
Proof. apply (@compareUserList_exact canonical_order 4 wit_old wit_new); by_decide. Defined.

Lemma UpdateUser_refines_AddLimiter_witness :
  let l := @new_limiter wit_ratelimit wit_regexp "n" LimitConfig_zero wit_old ∅ in
  let '(deleted, added) := @compareUserList reverse_order wit_old wit_new in
  lim_UserLimitInfo (UpdateUser "n" added deleted l) !! "n|aaaa"%string
    = Some (mkUserLimitInfo 1 200 0 0 0 false).
Proof.
  intros l.
  pose proof (@UpdateUser_refines_AddLimiter wit_ratelimit wit_regexp reverse_order 4 "n"
    LimitConfig_zero ∅ wit_old wit_new l) as Hw.
  destruct (compareUserList wit_old wit_new) as [deleted added].
  destruct Hw as [-> _]; [by_decide|by_decide|by_decide|by_decide| | | |reflexivity].
  - intros u v Hu Hv Hi. unfold wit_old, wit_new in *. set_unfold.
    destruct Hu as [->|[->|[->|[]]]], Hv as [->|[->|[->|[]]]]; first [done|discriminate].
  - apply new_limiter_tables. by_decide.
  - apply new_limiter_tables. by_decide.
Defined.

(** The length assumption matters: the keys of "u1" at 0 Mbit/s and of "u" at
    10 Mbit/s are the same string, so the new user is not added. *)
Example compareUserList_collision :
  @compareUserList canonical_order [mkUserInfo 1 "u1" 0 0]%string [mkUserInfo 2 "u" 10 0]%string
  = ([], []).
Proof. vm_compute. reflexivity. Qed.
