(* ===== verification/Task.v ===== *)
(** src/common/task/task.go: the periodic tasks that drive a node.

    A [Task] is shared by the goroutines its [Start] calls spawn and by the
    callers of [Start] and [Close].  A step is one critical section or one
    channel operation; [task_step fails] lets [Execute] return an error only
    when [fails] holds (the tasks of src/node always return nil). *)

From S2P Require Import Prelude.
From stdpp Require Import prelude gmap relations.
From Stdlib Require Import Lia.

(** * State *)

(** Where a goroutine of [Start] is: running [Execute], about to evaluate the
    [select] (which reads [t.stop]), blocked in it on a channel, about to
    handle an error of [Execute], or returned. *)
Inductive task_pc : Type :=
| TExec
| TSelect
| TWait (ch : nat)
| TErr
| TDone.

#[global] Instance task_pc_eq_dec : EqDecision task_pc.
Proof. solve_decision. Defined.

Record Task := mkTask {
  t_running : bool;
  t_stop : option nat;     (* the current channel; nil before the first Start *)
  t_chans : nat;           (* the channels made so far are 0 .. t_chans - 1 *)
  t_closed : gset nat;
  t_loops : list task_pc;
  t_panicked : bool;
}.

Definition task_init : Task := mkTask false None 0 ∅ [] false.

(** * Operations *)
Definition Task_Start (first : bool) (t : Task) : Task :=
  if t_running t then t
  else mkTask true (Some (t_chans t)) (S (t_chans t)) (t_closed t)
         (t_loops t ++ [if first then TExec else TSelect]) (t_panicked t).

(** [close] of a nil or closed channel panics. *)
Definition close_stop (t : Task) : Task :=
  match t_stop t with
  | Some ch =>
      if decide (ch ∈ t_closed t)
      then mkTask (t_running t) (t_stop t) (t_chans t) (t_closed t) (t_loops t) true
      else mkTask (t_running t) (t_stop t) (t_chans t) ({[ch]} ∪ t_closed t) (t_loops t) (t_panicked t)
  | None => mkTask (t_running t) (t_stop t) (t_chans t) (t_closed t) (t_loops t) true
  end.

Definition set_running (b : bool) (t : Task) : Task :=
  mkTask b (t_stop t) (t_chans t) (t_closed t) (t_loops t) (t_panicked t).

Definition set_loop (i : nat) (pc : task_pc) (t : Task) : Task :=
  mkTask (t_running t) (t_stop t) (t_chans t) (t_closed t) (<[i := pc]> (t_loops t)) (t_panicked t).

Definition Task_Close (t : Task) : Task :=
  if t_running t then close_stop (set_running false t) else t.

(** The error branch of a loop. *)
Definition task_error (i : nat) (t : Task) : Task :=
  set_loop i TDone (close_stop (set_running false t)).

(** Evaluating the [select]; receiving from a nil channel blocks for ever, but
    [t_stop] is set before the goroutine starts. *)
Definition task_select (i : nat) (t : Task) : Task :=
  match t_stop t with Some ch => set_loop i (TWait ch) t | None => t end.

Inductive task_step (fails : bool) (t : Task) : Task → Prop :=
| ts_start first : task_step fails t (Task_Start first t)
| ts_close : task_step fails t (Task_Close t)
| ts_select i : t_loops t !! i = Some TSelect → task_step fails t (task_select i t)
| ts_timer i ch : t_loops t !! i = Some (TWait ch) → task_step fails t (set_loop i TExec t)
| ts_stopped i ch : t_loops t !! i = Some (TWait ch) → ch ∈ t_closed t →
    task_step fails t (set_loop i TDone t)
| ts_exec_ok i : t_loops t !! i = Some TExec → task_step fails t (set_loop i TSelect t)
| ts_exec_err i : fails = true → t_loops t !! i = Some TExec →
    task_step fails t (set_loop i TErr t)
| ts_err i : t_loops t !! i = Some TErr → task_step fails t (task_error i t).

(** * The invariant of a task whose [Execute] returns nil *)
Record task_ok (t : Task) : Prop := {
  to_panic : t_panicked t = false;
  to_run : ∀ ch, t_stop t = Some ch → ch ∈ t_closed t ↔ t_running t = false;
  to_nil : t_stop t = None → t_running t = false ∧ t_loops t = [];
  to_bound : ∀ ch, ch ∈ t_closed t → ch < t_chans t;
  to_cur : ∀ ch, t_stop t = Some ch → S ch = t_chans t;
  to_old : ∀ ch, ch < t_chans t → t_stop t ≠ Some ch → ch ∈ t_closed t;
  to_wait : ∀ i ch, t_loops t !! i = Some (TWait ch) → ch < t_chans t;
  to_err : ∀ i, t_loops t !! i ≠ Some TErr;
}.

Lemma task_ok_init : task_ok task_init.
Proof. split; simpl; try done; lia. Qed.

Lemma task_ok_Start first t : task_ok t → task_ok (Task_Start first t).
Proof.
  intros Ht. unfold Task_Start. destruct (t_running t) eqn:Hrun; [done|].
  destruct Ht as [Hp Hr Hn Hb Hc Ho Hw He].
  split; simpl; try done.
  - intros ch [= <-]. split; [intros Hin%Hb; lia|done].
  - intros ch Hin%Hb. lia.
  - intros ch [= <-]. done.
  - intros ch Hlt Hne. destruct (decide (t_stop t = Some ch)) as [Hs|Hs].
    + by apply (Hr ch Hs).
    + apply Ho; [|done]. assert (ch ≠ t_chans t) by congruence. lia.
  - intros i ch [Hl|[_ Hl]]%lookup_app_Some; [apply Hw in Hl; lia|].
    apply list_lookup_singleton_Some in Hl as [_ Hl]. by destruct first.
  - intros i [Hl|[_ Hl]]%lookup_app_Some; [by apply He in Hl|].
    apply list_lookup_singleton_Some in Hl as [_ Hl]. by destruct first.
Qed.

Lemma task_ok_Close t : task_ok t → task_ok (Task_Close t).
Proof.
  intros Ht. unfold Task_Close. destruct (t_running t) eqn:Hrun; [|done].
  destruct Ht as [Hp Hr Hn Hb Hc Ho Hw He].
  unfold close_stop. simpl. destruct (t_stop t) as [ch|] eqn:Hs; [|destruct (Hn eq_refl); congruence].
  pose proof (Hc ch eq_refl) as Hch.
  rewrite decide_False by (rewrite (Hr ch eq_refl); congruence). split; simpl; try done.
  - intros ch' [= <-]. set_solver.
  - intros ch' [->%elem_of_singleton|Hin]%elem_of_union; [lia|by apply Hb].
  - intros ch' Hlt Hne. apply elem_of_union_r. by apply Ho.
Qed.

(** Moving one loop, other than to the error branch or onto an unmade channel. *)
Lemma task_ok_set_loop i pc pc' t :
  task_ok t → t_loops t !! i = Some pc → pc' ≠ TErr →
  (∀ ch, pc' = TWait ch → ch < t_chans t) → task_ok (set_loop i pc' t).
Proof.
  intros [Hp Hr Hn Hb Hc Ho Hw He] Hi Hne Hch. split; simpl; try done.
  - intros Hs. destruct (Hn Hs) as [? Hl]. by rewrite Hl in Hi.
  - intros j ch [(_ & Heq & _)|[_ Hl]]%list_lookup_insert_Some; [by apply Hch|by eapply Hw].
  - intros j [(_ & Heq & _)|[_ Hl]]%list_lookup_insert_Some; [done|by eapply He].
Qed.

Lemma task_ok_step t t' : task_ok t → task_step false t t' → task_ok t'.
Proof.
  intros Ht Hs. destruct Hs as [first| |i Hi|i ch Hi|i ch Hi|i Hi|i ? Hi|i Hi]; try done.
  - by apply task_ok_Start.
  - by apply task_ok_Close.
  - unfold task_select. destruct (t_stop t) as [ch|] eqn:Hst; [|done].
    eapply task_ok_set_loop; [done|exact Hi|done|]. intros ch' [= <-].
    pose proof (to_cur t Ht ch Hst). lia.
  - by eapply task_ok_set_loop.
  - by eapply task_ok_set_loop.
  - by eapply task_ok_set_loop.
  - by apply (to_err t Ht) in Hi.
Qed.

Lemma task_reachable_ok t : rtc (task_step false) task_init t → task_ok t.
Proof. apply (rtc_invariant _ task_ok); [apply task_ok_init|]. intros; by eapply task_ok_step. Qed.

(** * Properties *)

(** C30: as long as [Execute] returns nil, no sequence of [Start], [Close] and
    steps of the loops, in any interleaving, closes a channel twice or a nil
    channel; a task that runs has an open stop channel; and in a task that
    does not run every loop waits on a closed channel, so that nothing keeps
    it from returning. *)
Theorem task_close_safe t :
  rtc (task_step false) task_init t →
  t_panicked t = false ∧
  (t_running t = true → ∃ ch, t_stop t = Some ch ∧ ch ∉ t_closed t) ∧
  (t_running t = false → ∀ i ch, t_loops t !! i = Some (TWait ch) → ch ∈ t_closed t).
Proof.
  intros Ht%task_reachable_ok. split_and!; [apply Ht| |].
  - intros Hr. destruct (t_stop t) as [ch|] eqn:Hs; [|by destruct (to_nil t Ht Hs); congruence].
    exists ch. split; [done|]. rewrite (to_run t Ht ch Hs). congruence.
  - intros Hr i ch Hi. destruct (decide (t_stop t = Some ch)) as [Hs|Hs].
    + by apply (to_run t Ht ch Hs).
    + apply (to_old t Ht); [|done]. by apply (to_wait t Ht i).
Qed.

Lemma task_close_safe_witness :
  t_panicked (Task_Close (Task_Start false task_init)) = false.
Proof.
  apply task_close_safe. eapply rtc_l; [apply (ts_start _ _ false)|].
  eapply rtc_l; [apply ts_close|]. apply rtc_refl.
Defined.

(** C40: closing and restarting a task from inside its own [Execute], as
    [nodeInfoMonitor] does when the panel changes the interval, leaves the
    restarting loop alive next to the new one: both end up waiting on the same
    open channel, and [Execute] runs twice per interval from then on. *)
Theorem task_restart_duplicates t i :
  task_ok t → t_running t = true → t_loops t !! i = Some TExec →
  let t1 := Task_Start false (Task_Close t) in
  ∃ t2 ch, rtc (task_step false) t1 t2 ∧ t_running t2 = true ∧ ch ∉ t_closed t2 ∧
    t_loops t2 !! i = Some (TWait ch) ∧ t_loops t2 !! length (t_loops t) = Some (TWait ch).
Proof.
  intros Ht Hr Hi t1. pose proof (task_ok_Close t Ht) as Hc.
  pose proof (task_ok_Start false _ Hc) as Hs. fold t1 in Hs.
  assert (t_running (Task_Close t) = false ∧ t_loops (Task_Close t) = t_loops t) as [Hr1 Hl1].
  { unfold Task_Close, close_stop. rewrite Hr. simpl. repeat case_match; done. }
  set (ch := t_chans (Task_Close t)).
  assert (t1 = mkTask true (Some ch) (S ch) (t_closed (Task_Close t)) (t_loops t ++ [TSelect])
                 (t_panicked (Task_Close t))) as Ht1.
  { unfold t1, Task_Start. rewrite Hr1, Hl1. done. }
  assert (i < length (t_loops t)) by (by apply lookup_lt_Some in Hi).
  exists (set_loop (length (t_loops t)) (TWait ch) (set_loop i (TWait ch) (set_loop i TSelect t1))), ch.
  rewrite Ht1. simpl. split_and!; [|done| | |].
  - eapply rtc_l; [apply (ts_exec_ok _ _ i); simpl; by rewrite lookup_app_l|].
    eapply rtc_l; [apply (ts_select _ _ i); simpl|].
    { rewrite list_lookup_insert_eq; [done|]. rewrite length_app. lia. }
    eapply rtc_l; [apply (ts_select _ _ (length (t_loops t))); simpl|done].
    rewrite !list_lookup_insert_ne by lia. by rewrite lookup_app_r, Nat.sub_diag.
  - intros Hin%(to_bound _ Hc). unfold ch in Hin. lia.
  - rewrite list_lookup_insert_ne by lia. apply list_lookup_insert_eq.
    rewrite length_insert, length_app. simpl. lia.
  - apply list_lookup_insert_eq. rewrite !length_insert, length_app. simpl. lia.
Qed.

Lemma task_restart_duplicates_witness :
  let t := set_loop 0 TExec (set_loop 0 (TWait 0) (Task_Start false task_init)) in
  ∃ t2 ch, rtc (task_step false) (Task_Start false (Task_Close t)) t2 ∧ t_running t2 = true ∧
    ch ∉ t_closed t2 ∧ t_loops t2 !! 0 = Some (TWait ch) ∧ t_loops t2 !! 1 = Some (TWait ch).
Proof.
  intros t. apply (task_restart_duplicates t 0); [|reflexivity|reflexivity].
  apply task_reachable_ok. eapply rtc_l; [apply (ts_start _ _ false)|].
  eapply rtc_l; [apply (ts_select _ _ 0); reflexivity|].
  eapply rtc_l; [apply (ts_timer _ _ 0 0); reflexivity|]. apply rtc_refl.
Defined.

(** An [Execute] that fails after the task was closed closes the channel again
    and panics. *)
Lemma task_error_after_close t i :
  task_ok t → t_running t = true → t_loops t !! i = Some TExec →
  t_panicked (task_error i (set_loop i TErr (Task_Close t))) = true.
Proof.
  intros Ht Hr Hi. unfold Task_Close. rewrite Hr. unfold task_error, close_stop. simpl.
  destruct (t_stop t) as [ch|] eqn:Hs; simpl; [|done].
  rewrite (decide_False (P:=ch ∈ t_closed t)) by (rewrite (to_run t Ht ch Hs), Hr; done). simpl.
  by rewrite decide_True by set_solver.
Qed.
