(* ===== verification/Json5.v ===== *)
(** src/common/json5/json5.go: the reader that blanks comments and trailing
    commas before the configuration is decoded.

    The buffer is a list of bytes updated by index.  Every loop takes fuel and
    returns [None] when it runs out; [prep] gives each loop the length of the
    buffer plus one, and [prep_terminates] shows that this is enough. *)

From S2P Require Import Prelude GoStd.
From stdpp Require Import prelude list strings.
From Stdlib Require Import Ascii Lia.

Open Scope nat_scope.

Abbreviation buffer := (list ascii).

Definition SPACE : ascii := " "%char.
Definition SLASH : ascii := "/"%char.
Definition STAR : ascii := "*"%char.
Definition BACKSLASH : ascii := "\"%char.

Definition isNL (c : ascii) : bool := bool_decide (c = NL) || bool_decide (c = CR).
Definition isWS (c : ascii) : bool :=
  bool_decide (c = SPACE) || bool_decide (c = TAB) || isNL c.

(** [i < len(s) && s[i] == c] *)
Definition at_is (s : buffer) (i : nat) (c : ascii) : bool := bool_decide (s !! i = Some c).

Definition blank (s : buffer) (i : nat) : buffer := <[i := SPACE]> s.

(** Fuel for one loop over the buffer. *)
Definition enough (s : buffer) : nat := S (length s).

(** ** consumeComment *)

(** [for ; i < len(s) && !isNL(s[i]); i += 1 { s[i] = ' ' }] *)
Fixpoint blank_line (fuel : nat) (s : buffer) (i : nat) : option (buffer * nat) :=
  match fuel with
  | O => None
  | S fuel =>
      match s !! i with
      | Some c => if isNL c then Some (s, i) else blank_line fuel (blank s i) (i + 1)
      | None => Some (s, i)
      end
  end.

(** The loop of a block comment. *)
Fixpoint blank_block (fuel : nat) (s : buffer) (i : nat) : option (buffer * nat) :=
  match fuel with
  | O => None
  | S fuel =>
      match s !! i with
      | None => Some (s, i)
      | Some c =>
          if decide (c = STAR) then
            let s := blank s i in
            let i := i + 1 in
            if at_is s i SLASH then Some (blank s i, i) else blank_block fuel s (i + 1)
          else blank_block fuel (blank s i) (i + 1)
      end
  end.

Definition consumeComment (fuel : nat) (s : buffer) (i : nat) : option (buffer * nat) :=
  '(s, i) ← (if at_is s i SLASH then blank_line fuel (blank s (i - 1)) i else Some (s, i));
  if at_is s i STAR then blank_block fuel (blank (blank s (i - 1)) i) i else Some (s, i).

(** ** prep *)

(** The loop over a string literal, from the byte after the opening quote. *)
Fixpoint skip_string (fuel : nat) (s : buffer) (i : nat) : option nat :=
  match fuel with
  | O => None
  | S fuel =>
      match s !! i with
      | None => Some i
      | Some c =>
          if decide (c = DQUOTE) then Some (i + 1)
          else skip_string fuel s (if decide (c = BACKSLASH) then i + 2 else i + 1)
      end
  end.

(** The loop after a comma at [j]. *)
Fixpoint comma_loop (fuel : nat) (s : buffer) (j i : nat) : option (buffer * nat) :=
  match fuel with
  | O => None
  | S fuel =>
      let i := i + 1 in
      match s !! i with
      | None => Some (s, i)
      | Some c =>
          if bool_decide (c = "}"%char) || bool_decide (c = "]"%char) then Some (blank s j, i)
          else if decide (c = SLASH) then
            '(s, i) ← consumeComment (enough s) s (i + 1); comma_loop fuel s j i
          else if negb (isWS c) then Some (s, i)
          else comma_loop fuel s j i
      end
  end.

Fixpoint prep_loop (fuel : nat) (s : buffer) (i : nat) : option buffer :=
  match fuel with
  | O => None
  | S fuel =>
      match s !! i with
      | None => Some s
      | Some c =>
          if decide (c = DQUOTE) then
            i ← skip_string (enough s) s (i + 1); prep_loop fuel s i
          else if decide (c = SLASH) then
            '(s, i) ← consumeComment (enough s) s (i + 1); prep_loop fuel s i
          else if decide (c = ","%char) then
            '(s, i) ← comma_loop (enough s) s i i; prep_loop fuel s i
          else prep_loop fuel s (i + 1)
      end
  end.

(** [prep] on what the reader delivered: all of it, or a read error. *)
Definition prep (r : res string buffer) : res string buffer :=
  s ← r;
  match prep_loop (enough s) s 0 with Some s' => Ok s' | None => Panic "out of fuel" end.

(** The reader: what is under it, and the cleaned bytes not yet read. *)
Record TrimNodeReader := mkTrimNodeReader { st_r : res string buffer; st_br : option buffer }.
Definition NewTrimNodeReader (r : res string buffer) : TrimNodeReader := mkTrimNodeReader r None.

(** Reading at most [n] bytes: the bytes, or [None] at the end (io.EOF). *)
Definition br_Read (n : nat) (st : TrimNodeReader) (b : buffer) : TrimNodeReader * res string (option buffer) :=
  match b with
  | [] => (mkTrimNodeReader (st_r st) (Some []), Ok None)
  | _ => (mkTrimNodeReader (st_r st) (Some (drop n b)), Ok (Some (take n b)))
  end.

Definition Read (n : nat) (st : TrimNodeReader) : TrimNodeReader * res string (option buffer) :=
  match st_br st with
  | Some b => br_Read n st b
  | None =>
      match prep (st_r st) with
      | Ok s => br_Read n st s
      | Err e => (st, Err e)
      | Panic w => (st, Panic w)
      end
  end.

(** [io.ReadAll] with the room its buffer has at each call; [None] when the list
    ends before the document does. *)
Fixpoint ReadAll (sizes : list nat) (st : TrimNodeReader) : option (res string buffer) :=
  match sizes with
  | [] => None
  | n :: sizes =>
      match Read n st with
      | (st, Ok None) => Some (Ok [])
      | (st, Ok (Some b)) => rest ← ReadAll sizes st; Some (rest' ← rest; Ok (b ++ rest'))
      | (_, Err e) => Some (Err e)
      | (_, Panic w) => Some (Panic w)
      end
  end.

(** * Lemmas *)

(** Every byte is as it was or blanked. *)
Definition blanked (s s' : buffer) : Prop := Forall2 (λ a b, b = a ∨ b = SPACE) s s'.

#[global] Instance blanked_refl : Reflexive blanked.
Proof. intros s. apply Forall2_same_length_lookup. split; [done|]. naive_solver. Qed.

#[global] Instance blanked_trans : Transitive blanked.
Proof.
  intros s1 s2 s3 H12. revert s3. induction H12 as [|a b s1 s2 Hab _ IH]; intros s3 H23;
    apply Forall2_cons_inv_l in H23 as (c & s3' & Hbc & H23 & ->) || apply Forall2_nil_inv_l in H23 as ->;
    constructor; [naive_solver|by apply IH].
Qed.

Lemma blanked_blank s i : blanked s (blank s i).
Proof.
  apply Forall2_same_length_lookup. unfold blank. split; [by rewrite length_insert|].
  intros j a b Ha [(-> & <- & _)|[_ Hb]]%list_lookup_insert_Some; [by right|]. left. congruence.
Qed.

Lemma blanked_length s s' : blanked s s' → length s' = length s.
Proof. intros H. symmetry. by apply Forall2_length in H. Qed.

(** A loop returns, moves forward and only blanks. *)
Definition advances (s : buffer) (i : nat) (r : option (buffer * nat)) : Prop :=
  ∃ s' i', r = Some (s', i') ∧ blanked s s' ∧ i ≤ i'.

Lemma advances_after s i s1 i1 r :
  blanked s s1 → i ≤ i1 → advances s1 i1 r → advances s i r.
Proof.
  intros Hb Hi (s' & i' & -> & Hb' & Hi'). exists s', i'.
  split_and!; [done|by transitivity s1|lia].
Qed.

Lemma advances_ret s i : advances s i (Some (s, i)).
Proof. by exists s, i. Qed.

Lemma advances_bind s i r f :
  advances s i r → (∀ s' i', blanked s s' → i ≤ i' → advances s' i' (f (s', i'))) →
  advances s i (r ≫= f).
Proof.
  intros (s' & i' & -> & Hb & Hi) Hf. simpl. by eapply advances_after; [..|apply Hf].
Qed.

#[local] Hint Resolve blanked_blank advances_ret : core.

Lemma blank_line_advances fuel s i : length s - i < fuel → advances s i (blank_line fuel s i).
Proof.
  revert s i. induction fuel as [|fuel IH]; intros s i Hf; [lia|]. simpl.
  destruct (s !! i) as [c|] eqn:Hi; [|done]. destruct (isNL c); [done|].
  apply lookup_lt_Some in Hi.
  eapply advances_after; [apply (blanked_blank s i)| |apply IH]; [lia|].
  unfold blank. rewrite length_insert. lia.
Qed.

Lemma blank_block_advances fuel s i : length s - i < fuel → advances s i (blank_block fuel s i).
Proof.
  revert s i. induction fuel as [|fuel IH]; intros s i Hf; [lia|]. simpl.
  destruct (s !! i) as [c|] eqn:Hi; [|done]. apply lookup_lt_Some in Hi.
  assert (length (blank s i) = length s) as Hlen by apply length_insert.
  case_decide; [destruct (at_is _ _ _)|].
  - exists (blank (blank s i) (i + 1)), (i + 1). split_and!; [done| |lia].
    transitivity (blank s i); done.
  - eapply advances_after; [apply (blanked_blank s i)| |apply IH]; lia.
  - eapply advances_after; [apply (blanked_blank s i)| |apply IH]; lia.
Qed.

Lemma consumeComment_advances fuel s i :
  length s < fuel → advances s i (consumeComment fuel s i).
Proof.
  intros Hf. unfold consumeComment. apply advances_bind.
  - destruct (at_is s i SLASH); [|done].
    eapply advances_after; [apply (blanked_blank s (i - 1))|done|apply blank_line_advances].
    unfold blank. rewrite length_insert. lia.
  - intros s' i' Hb Hi. apply blanked_length in Hb. destruct (at_is s' i' STAR); [|done].
    eapply advances_after; [|done|apply blank_block_advances].
    + transitivity (blank s' (i' - 1)); done.
    + unfold blank. rewrite !length_insert. lia.
Qed.

Lemma comma_loop_advances fuel s j i :
  length s - i < fuel → ∃ s' i', comma_loop fuel s j i = Some (s', i') ∧ blanked s s' ∧ i < i'.
Proof.
  revert s i. induction fuel as [|fuel IH]; intros s i Hf; [lia|]. cbn [comma_loop].
  destruct (s !! (i + 1)) as [c|] eqn:Hi; [|exists s, (i + 1); split_and!; [done..|lia]].
  apply lookup_lt_Some in Hi. destruct (_ || _).
  { exists (blank s j), (i + 1). split_and!; [done..|lia]. }
  case_decide; [|destruct (negb (isWS c))].
  - destruct (consumeComment_advances (enough s) s (i + 1 + 1)) as (s1 & i1 & -> & Hb & Hi1); [unfold enough; lia|].
    cbn [mbind option_bind]. pose proof (blanked_length _ _ Hb).
    destruct (IH s1 i1) as (s' & i' & -> & Hb' & Hi'); [lia|].
    exists s', i'. split_and!; [done|by transitivity s1|lia].
  - exists s, (i + 1). split_and!; [done..|lia].
  - destruct (IH s (i + 1)) as (s' & i' & -> & Hb' & Hi'); [lia|].
    exists s', i'. split_and!; [done..|lia].
Qed.

Lemma skip_string_advances fuel s i :
  length s - i < fuel → ∃ i', skip_string fuel s i = Some i' ∧ i ≤ i'.
Proof.
  revert i. induction fuel as [|fuel IH]; intros i Hf; [lia|]. simpl.
  destruct (s !! i) as [c|] eqn:Hi; [|eauto]. apply lookup_lt_Some in Hi.
  case_decide; [exists (i + 1); split; [done|lia]|].
  destruct (IH (if decide (c = BACKSLASH) then i + 2 else i + 1)) as (i' & -> & Hi');
    [case_decide; lia|]. exists i'. split; [done|]. case_decide; lia.
Qed.

Lemma prep_loop_blanks fuel s i :
  length s - i < fuel → ∃ s', prep_loop fuel s i = Some s' ∧ blanked s s'.
Proof.
  revert s i. induction fuel as [|fuel IH]; intros s i Hf; [lia|]. cbn [prep_loop].
  destruct (s !! i) as [c|] eqn:Hi; [|by exists s]. apply lookup_lt_Some in Hi.
  case_decide; [|case_decide; [|case_decide]].
  - destruct (skip_string_advances (enough s) s (i + 1)) as (i' & -> & Hi'); [unfold enough; lia|].
    apply IH. lia.
  - destruct (consumeComment_advances (enough s) s (i + 1)) as (s1 & i1 & -> & Hb & Hi1); [unfold enough; lia|].
    cbn [mbind option_bind]. pose proof (blanked_length _ _ Hb). destruct (IH s1 i1) as (s' & -> & Hb'); [lia|].
    exists s'. split; [done|by transitivity s1].
  - destruct (comma_loop_advances (enough s) s i i) as (s1 & i1 & -> & Hb & Hi1); [unfold enough; lia|].
    cbn [mbind option_bind]. pose proof (blanked_length _ _ Hb). destruct (IH s1 i1) as (s' & -> & Hb'); [lia|].
    exists s'. split; [done|by transitivity s1].
  - apply IH. lia.
Qed.

(** * A specification by tokens *)

(** One character of a string literal: plain, or escaped by a backslash. *)
Inductive schar : Type :=
| SPlain (c : ascii)
| SEsc (c : ascii).

(** The text of a block comment: a star is one of it together with the byte
    after it, which is not a slash. *)
Inductive bchar : Type :=
| BPlain (c : ascii)
| BStar (c : ascii).

(** A document: strings, line comments with the line end that closes them,
    block comments, commas, and any other byte; it may end in a line comment
    that the end of the file closes. *)
Inductive tok : Type :=
| TStr (cs : list schar)
| TLine (text : buffer) (nl : ascii)
| TBlock (text : list bchar)
| TComma
| TPlain (c : ascii).

#[global] Instance schar_eq_dec : EqDecision schar.
Proof. solve_decision. Defined.
#[global] Instance bchar_eq_dec : EqDecision bchar.
Proof. solve_decision. Defined.
#[global] Instance tok_eq_dec : EqDecision tok.
Proof. solve_decision. Defined.

Definition schar_ok (c : schar) : Prop :=
  match c with SPlain c => c ≠ DQUOTE ∧ c ≠ BACKSLASH | SEsc _ => True end.

Definition bchar_ok (c : bchar) : Prop :=
  match c with BPlain c => c ≠ STAR | BStar c => c ≠ SLASH end.

Definition tok_ok (t : tok) : Prop :=
  match t with
  | TStr cs => Forall schar_ok cs
  | TLine text nl => Forall (λ c, isNL c = false) text ∧ isNL nl = true
  | TBlock text => Forall bchar_ok text
  | TComma => True
  | TPlain c => c ≠ DQUOTE ∧ c ≠ SLASH ∧ c ≠ ","%char
  end.

#[global] Instance schar_ok_dec c : Decision (schar_ok c).
Proof. destruct c; apply _. Defined.
#[global] Instance bchar_ok_dec c : Decision (bchar_ok c).
Proof. destruct c; apply _. Defined.
#[global] Instance tok_ok_dec t : Decision (tok_ok t).
Proof. destruct t; apply _. Defined.

Definition schar_bytes (c : schar) : buffer :=
  match c with SPlain c => [c] | SEsc c => [BACKSLASH; c] end.

Definition bchar_bytes (c : bchar) : buffer :=
  match c with BPlain c => [c] | BStar c => [STAR; c] end.

Definition render_tok (t : tok) : buffer :=
  match t with
  | TStr cs => DQUOTE :: (cs ≫= schar_bytes) ++ [DQUOTE]
  | TLine text nl => SLASH :: SLASH :: text ++ [nl]
  | TBlock text => SLASH :: STAR :: (text ≫= bchar_bytes) ++ [STAR; SLASH]
  | TComma => [","%char]
  | TPlain c => [c]
  end.

Definition render (l : list tok) : buffer := l ≫= render_tok.

(** The comment that the end of the file closes, if there is one. *)
Definition render_end (e : option buffer) : buffer :=
  match e with Some text => SLASH :: SLASH :: text | None => [] end.

(** Blanks and comments, which the search after a comma passes over. *)
Definition insignificant (t : tok) : bool :=
  match t with TPlain c => isWS c | TLine _ _ | TBlock _ => true | _ => false end.

Definition closing (t : tok) : bool :=
  match t with TPlain c => bool_decide (c = "}"%char) || bool_decide (c = "]"%char) | _ => false end.

(** The next significant token closes an object or an array. *)
Fixpoint trailing (l : list tok) : bool :=
  match l with
  | [] => false
  | t :: l => closing t || (insignificant t && trailing l)
  end.

Abbreviation spaces n := (replicate n SPACE).

(** The byte after a star stays in the text. *)
Definition bchar_left (c : bchar) : buffer :=
  match c with BPlain _ => [SPACE] | BStar c => [SPACE; c] end.

Fixpoint strip (l : list tok) : buffer :=
  match l with
  | [] => []
  | TLine text nl :: l => spaces (2 + length text) ++ nl :: strip l
  | TBlock text :: l => spaces 2 ++ (text ≫= bchar_left) ++ spaces 2 ++ strip l
  | TComma :: l => (if trailing l then SPACE else ","%char) :: strip l
  | t :: l => render_tok t ++ strip l
  end.

Definition strip_end (e : option buffer) : buffer :=
  match e with Some text => spaces (2 + length text) | None => [] end.

(** ** One position of the buffer *)
Lemma lookup_at (p : buffer) c r i : i = length p → (p ++ c :: r) !! i = Some c.
Proof. intros ->. by apply list_lookup_middle. Qed.

Lemma blank_at p c r i : i = length p → blank (p ++ c :: r) i = p ++ SPACE :: r.
Proof. intros ->. unfold blank. rewrite insert_app_r_alt, Nat.sub_diag by lia. done. Qed.

Lemma at_is_true p c r i : i = length p → at_is (p ++ c :: r) i c = true.
Proof. intros ->. apply bool_decide_eq_true. by apply lookup_at. Qed.

Lemma at_is_false p c d r i : i = length p → c ≠ d → at_is (p ++ c :: r) i d = false.
Proof. intros -> Hne. apply bool_decide_eq_false. rewrite lookup_at by done. congruence. Qed.

Lemma cons_snoc {A} (p : list A) x r : p ++ x :: r = (p ++ [x]) ++ r.
Proof. by rewrite <- app_assoc. Qed.

Lemma isNL_cases c : isNL c = true → c = NL ∨ c = CR.
Proof. unfold isNL. rewrite orb_true_iff, !bool_decide_eq_true. done. Qed.

(** ** The comment loops *)
Lemma blank_line_spec fuel p t nl r i :
  Forall (λ c, isNL c = false) t → isNL nl = true → length t < fuel → i = length p →
  blank_line fuel (p ++ t ++ nl :: r) i
    = Some (p ++ spaces (length t) ++ nl :: r, length p + length t).
Proof.
  intros Ht Hnl. revert fuel p i. induction Ht as [|c t Hc Ht IH]; intros fuel p i Hf ->;
    (destruct fuel as [|fuel]; [simpl in Hf; lia|]); simpl.
  - rewrite lookup_at, Hnl by done. by rewrite Nat.add_0_r.
  - rewrite lookup_at, Hc, blank_at by done. rewrite cons_snoc, IH.
    + rewrite <- app_assoc, length_app. simpl. do 2 f_equal. lia.
    + simpl in Hf. lia.
    + rewrite length_app. simpl. lia.
Qed.

Lemma blank_line_end fuel p t i :
  Forall (λ c, isNL c = false) t → length t < fuel → i = length p →
  blank_line fuel (p ++ t) i = Some (p ++ spaces (length t), length p + length t).
Proof.
  intros Ht. revert fuel p i. induction Ht as [|c t Hc Ht IH]; intros fuel p i Hf ->;
    (destruct fuel as [|fuel]; [simpl in Hf; lia|]); simpl.
  - rewrite app_nil_r, lookup_ge_None_2 by done. by rewrite Nat.add_0_r.
  - rewrite lookup_at, Hc, blank_at by done. rewrite cons_snoc, IH.
    + rewrite <- app_assoc, length_app. simpl. do 2 f_equal. lia.
    + simpl in Hf. lia.
    + rewrite length_app. simpl. lia.
Qed.

#[local] Ltac fold_bytes :=
  change (list_bind schar ascii schar_bytes) with (mbind (M:=list) schar_bytes) in *;
  change (list_bind bchar ascii bchar_bytes) with (mbind (M:=list) bchar_bytes) in *;
  change (list_bind bchar ascii bchar_left) with (mbind (M:=list) bchar_left) in *.

Lemma length_left t : length (t ≫= bchar_left) = length (t ≫= bchar_bytes).
Proof. induction t as [|[c|c] t IH]; simpl; fold_bytes; lia. Qed.

Lemma length_text t : length t ≤ length (t ≫= bchar_bytes).
Proof. induction t as [|[c|c] t IH]; simpl; fold_bytes; lia. Qed.

Lemma blank_block_spec fuel p t r i :
  Forall bchar_ok t → length t < fuel → i = length p →
  blank_block fuel (p ++ (t ≫= bchar_bytes) ++ STAR :: SLASH :: r) i
    = Some (p ++ (t ≫= bchar_left) ++ SPACE :: SPACE :: r, length p + length (t ≫= bchar_left) + 1).
Proof.
  intros Ht. revert fuel p i. induction Ht as [|c t Hc Ht IH]; intros fuel p i Hf ->;
    (destruct fuel as [|fuel]; [simpl in Hf; lia|]).
  - simpl. rewrite lookup_at, decide_True, blank_at by done.
    rewrite (cons_snoc p SPACE), at_is_true by (rewrite length_app; simpl; lia).
    rewrite blank_at by (rewrite length_app; simpl; lia).
    rewrite <- app_assoc. do 2 f_equal. lia.
  - destruct c as [c|c]; simpl.
    + rewrite lookup_at, decide_False, blank_at by done.
      rewrite cons_snoc, IH; [|simpl in Hf; lia|rewrite length_app; simpl; lia].
      rewrite <- app_assoc, length_app. simpl. fold_bytes. do 2 f_equal. lia.
    + rewrite lookup_at, decide_True, blank_at by done.
      rewrite (cons_snoc p SPACE), (at_is_false _ c SLASH) by (rewrite ?length_app; simpl; (lia || done)).
      rewrite (cons_snoc _ c), IH; [|simpl in Hf; lia|rewrite !length_app; simpl; lia].
      rewrite <- !app_assoc, !length_app. simpl. fold_bytes. do 2 f_equal. lia.
Qed.

Lemma consume_line fuel p t nl r i :
  Forall (λ c, isNL c = false) t → isNL nl = true → S (length t) < fuel → i = S (length p) →
  consumeComment fuel (p ++ SLASH :: SLASH :: t ++ nl :: r) i
    = Some (p ++ spaces (2 + length t) ++ nl :: r, length p + 2 + length t).
Proof.
  intros Ht Hnl Hf ->. unfold consumeComment.
  rewrite (cons_snoc p SLASH), at_is_true by (rewrite length_app; simpl; lia).
  rewrite <- cons_snoc. rewrite blank_at by lia. rewrite (cons_snoc p SPACE).
  rewrite (blank_line_spec fuel (p ++ [SPACE]) (SLASH :: t) nl r); simpl.
  - rewrite length_app, <- app_assoc. simpl.
    assert (p ++ SPACE :: SPACE :: spaces (length t) ++ nl :: r
      = (p ++ spaces (2 + length t)) ++ nl :: r) as -> by (by rewrite <- app_assoc).
    rewrite (at_is_false (p ++ spaces (2 + length t)) nl).
    + do 2 f_equal. lia.
    + rewrite length_app, length_replicate. lia.
    + by destruct (isNL_cases nl Hnl) as [-> | ->].
  - by constructor.
  - done.
  - lia.
  - rewrite length_app. simpl. lia.
Qed.

Lemma consume_end fuel p t i :
  Forall (λ c, isNL c = false) t → S (length t) < fuel → i = S (length p) →
  consumeComment fuel (p ++ SLASH :: SLASH :: t) i = Some (p ++ spaces (2 + length t), length p + 2 + length t).
Proof.
  intros Ht Hf ->. unfold consumeComment.
  rewrite (cons_snoc p SLASH), at_is_true by (rewrite length_app; simpl; lia).
  rewrite <- cons_snoc. rewrite blank_at by lia. rewrite (cons_snoc p SPACE).
  rewrite (blank_line_end fuel (p ++ [SPACE]) (SLASH :: t)); [|by constructor|simpl; lia|rewrite length_app; simpl; lia].
  cbn [mbind option_bind]. unfold at_is. rewrite bool_decide_eq_false_2.
  - rewrite length_app, <- app_assoc. simpl. do 2 f_equal. lia.
  - rewrite lookup_ge_None_2; [done|]. rewrite !length_app, length_replicate. simpl. lia.
Qed.

Lemma consume_block fuel p t r i :
  Forall bchar_ok t → S (length t) < fuel → i = S (length p) →
  consumeComment fuel (p ++ SLASH :: STAR :: (t ≫= bchar_bytes) ++ STAR :: SLASH :: r) i
    = Some (p ++ spaces 2 ++ (t ≫= bchar_left) ++ SPACE :: SPACE :: r,
            length p + 3 + length (t ≫= bchar_left)).
Proof.
  intros Ht Hf ->. unfold consumeComment.
  rewrite (cons_snoc p SLASH), (at_is_false _ STAR SLASH) by (rewrite ?length_app; simpl; (lia || done)).
  cbn [mbind option_bind]. rewrite at_is_true by (rewrite length_app; simpl; lia).
  rewrite <- cons_snoc. rewrite blank_at by lia. rewrite (cons_snoc p SPACE).
  rewrite blank_at by (rewrite length_app; simpl; lia).
  etrans; [apply (blank_block_spec fuel (p ++ [SPACE]) (BPlain SPACE :: t) r)|].
  - by constructor.
  - done.
  - rewrite length_app. simpl. lia.
  - rewrite <- app_assoc, length_app. simpl. fold_bytes. do 2 f_equal. lia.
Qed.

Lemma skip_string_spec fuel p cs r i :
  Forall schar_ok cs → length (cs ≫= schar_bytes) < fuel → i = length p →
  skip_string fuel (p ++ (cs ≫= schar_bytes) ++ DQUOTE :: r) i
    = Some (length p + length (cs ≫= schar_bytes) + 1).
Proof.
  intros Hcs. revert fuel p i. induction Hcs as [|c cs Hc Hcs IH]; intros fuel p i Hf ->;
    (destruct fuel as [|fuel]; [simpl in Hf; lia|]).
  - simpl. rewrite lookup_at, decide_True by done. f_equal. lia.
  - destruct c as [c|c]; simpl.
    + destruct Hc as [Hq Hb]. rewrite lookup_at, decide_False, decide_False by done.
      rewrite cons_snoc, IH; rewrite ?length_app; simpl in *; fold_bytes; [f_equal; lia|lia|lia].
    + rewrite lookup_at, decide_False, decide_True by done.
      rewrite cons_snoc, (cons_snoc _ c), IH; rewrite ?length_app; simpl in *; fold_bytes; [f_equal; lia|lia|lia].
Qed.

(** ** The search after a comma *)
Fixpoint span (l : list tok) : list tok * list tok :=
  match l with
  | [] => ([], [])
  | t :: l' => if insignificant t then let '(a, b) := span l' in (t :: a, b) else ([], l)
  end.

Lemma span_app l : (span l).1 ++ (span l).2 = l.
Proof.
  induction l as [|t l IH]; [done|]. simpl. destruct (insignificant t); [|done].
  destruct (span l) as [a b]. simpl in *. by rewrite IH.
Qed.

Lemma span_insignificant l : Forall (λ t, insignificant t = true) (span l).1.
Proof.
  induction l as [|t l IH]; [constructor|]. simpl. destruct (insignificant t) eqn:Ht; [|constructor].
  destruct (span l). by constructor.
Qed.

Lemma span_head l t b : (span l).2 = t :: b → insignificant t = false.
Proof.
  induction l as [|u l IH]; [done|]. simpl. destruct (insignificant u) eqn:Hu; [|by intros [= <- _]].
  destruct (span l). done.
Qed.

Lemma strip_app a b : Forall (λ t, insignificant t = true) a → strip (a ++ b) = strip a ++ strip b.
Proof.
  induction 1 as [|t a Ht Ha IH]; [done|]. destruct t; try done; cbn [app strip]; rewrite IH;
    by rewrite <- ?app_assoc.
Qed.

Lemma isWS_closing c : isWS c = true →
  c ≠ "}"%char ∧ c ≠ "]"%char ∧ c ≠ SLASH ∧ c ≠ DQUOTE ∧ c ≠ ","%char.
Proof.
  unfold isWS, isNL. rewrite !orb_true_iff, !bool_decide_eq_true.
  intros [[->| ->]|[->| ->]]; split_and!; done.
Qed.

Lemma trailing_app a b :
  Forall (λ t, insignificant t = true) a →
  trailing (a ++ b) = trailing b.
Proof.
  induction 1 as [|t a Ht Ha IH]; [done|]. simpl. rewrite Ht, IH. simpl.
  destruct t as [| | | |c]; try done. simpl in *. apply isWS_closing in Ht as (? & ? & _).
  by rewrite !bool_decide_eq_false_2.
Qed.

Lemma render_cons t l : render (t :: l) = render_tok t ++ render l.
Proof. done. Qed.

Lemma length_render_app a b : length (render (a ++ b)) = length (render a) + length (render b).
Proof. unfold render. by rewrite bind_app, length_app. Qed.

Lemma length_strip l : Forall (λ t, insignificant t = true) l → length (strip l) = length (render l).
Proof.
  induction 1 as [|t l Ht Hl IH]; [done|]. rewrite render_cons, length_app, <- IH.
  destruct t; try done; cbn [strip render_tok length]; rewrite ?length_app, ?length_replicate;
    cbn [length]; rewrite ?length_app, ?length_left, ?length_replicate; cbn [length]; lia.
Qed.

Definition blank_if (b : bool) (s : buffer) (j : nat) : buffer := if b then blank s j else s.

(** The search stops at the first significant token, or at the end. *)
Lemma comma_stop fuel p b r j i :
  Forall tok_ok b → (∀ t b', b = t :: b' → insignificant t = false) → b ≠ [] ∨ r = [] →
  S i = length p → 0 < fuel →
  comma_loop fuel (p ++ render b ++ r) j i
    = Some (blank_if (trailing b) (p ++ render b ++ r) j, length p).
Proof.
  intros Hok Hh Hr Hi Hf. destruct fuel as [|fuel]; [lia|]. cbn [comma_loop].
  rewrite Nat.add_1_r, Hi. destruct b as [|t b].
  { destruct Hr as [?|Hr]; [done|subst r]. unfold render. simpl. rewrite app_nil_r, lookup_ge_None_2 by done. done. }
  clear Hr. apply Forall_cons in Hok as [Ht Hok]. specialize (Hh t b eq_refl).
  destruct t as [cs| | | |c]; try done; simpl.
  - rewrite lookup_at by done. by vm_compute (isWS _).
  - by rewrite lookup_at by done.
  - rewrite lookup_at by done. simpl in Ht, Hh. destruct Ht as (_ & Hs & _).
    destruct (_ || _); [done|]. rewrite decide_False, Hh by done. done.
Qed.

Lemma comma_comment fuel s j i s' i' :
  s !! S i = Some SLASH → consumeComment (enough s) s (S (S i)) = Some (s', i') →
  comma_loop (S fuel) s j i = comma_loop fuel s' j i'.
Proof.
  intros Hs Hc. cbn [comma_loop]. rewrite Nat.add_1_r, Hs. simpl. by rewrite Nat.add_1_r, Hc.
Qed.

(** The bytes before the token under the search grow by one blanked token. *)
Lemma comma_tok t fuel p r j i :
  insignificant t = true → tok_ok t → S i = length p →
  ∃ i', comma_loop (S fuel) (p ++ render_tok t ++ r) j i
          = comma_loop fuel ((p ++ strip [t]) ++ r) j i' ∧ S i' = length (p ++ strip [t]).
Proof.
  intros Hins Hok Hi. destruct t as [|text nl|text| |c]; try done.
  - destruct Hok as [Ht Hnl]. exists (length p + 2 + length text). split.
    + etrans; [apply comma_comment|].
      * rewrite Hi. cbn [render_tok app]. by apply lookup_at.
      * cbn [render_tok app]. rewrite <- app_assoc. cbn [app].
        apply consume_line; [done|done| |lia]. unfold enough. rewrite !length_app. simpl.
        rewrite !length_app. lia.
      * cbn [strip]. by rewrite <- !app_assoc.
    + cbn [strip]. rewrite !length_app, length_replicate. simpl. lia.
  - exists (length p + 3 + length (text ≫= bchar_left)). split.
    + etrans; [apply comma_comment|].
      * rewrite Hi. cbn [render_tok app]. by apply lookup_at.
      * cbn [render_tok app]. rewrite <- app_assoc. cbn [app].
        apply consume_block; [done| |lia]. unfold enough. rewrite !length_app. simpl.
        rewrite !length_app. pose proof (length_text text). lia.
      * cbn [strip]. by rewrite <- !app_assoc.
    + cbn [strip]. rewrite !length_app. simpl. lia.
  - exists (S i). cbn [render_tok strip app]. split; [|rewrite length_app; simpl; lia].
    cbn [comma_loop]. rewrite Nat.add_1_r, lookup_at by done.
    simpl in Hins. pose proof (isWS_closing c Hins) as (? & ? & ? & _).
    rewrite !bool_decide_eq_false_2, decide_False, Hins by done. simpl. by rewrite <- app_assoc.
Qed.

Lemma blank_before (p r r' : buffer) j :
  j < length p → blank (p ++ r) j = blank p j ++ r.
Proof. intros Hj. unfold blank. by rewrite insert_app_l. Qed.

Lemma comma_passes a fuel p r j i :
  Forall (λ t, insignificant t = true) a → Forall tok_ok a → S i = length p →
  ∃ i', comma_loop (length a + fuel) (p ++ render a ++ r) j i
          = comma_loop fuel ((p ++ strip a) ++ r) j i' ∧ S i' = length (p ++ strip a).
Proof.
  intros Ha. revert p i. induction Ha as [|t a Ht Ha IH]; intros p i Hok Hi.
  - exists i. cbn [strip]. by rewrite app_nil_r.
  - apply Forall_cons in Hok as [Ht' Hok]. rewrite render_cons, <- app_assoc.
    destruct (comma_tok t (length a + fuel) p (render a ++ r) j i Ht Ht' Hi) as (i1 & Hs & Hi1).
    destruct (IH (p ++ strip [t]) i1 Hok Hi1) as (i' & Hs' & Hi'). exists i'.
    change (t :: a) with ([t] ++ a). rewrite (strip_app [t] a) by (by constructor). rewrite (app_assoc p (strip [t])).
    split; [|done]. etrans; [exact Hs|exact Hs'].
Qed.

Lemma comma_loop_spec a b r fuel p j i :
  Forall (λ t, insignificant t = true) a → Forall tok_ok (a ++ b) →
  (∀ t b', b = t :: b' → insignificant t = false) → b ≠ [] ∨ r = [] →
  S i = length p → length a < fuel →
  comma_loop fuel (p ++ render (a ++ b) ++ r) j i
    = Some (blank_if (trailing b) (p ++ strip a ++ render b ++ r) j, length p + length (strip a)).
Proof.
  intros Ha [Hok Hok']%Forall_app Hh Hr Hi Hf. unfold render at 1. rewrite bind_app, <- app_assoc.
  destruct (comma_passes a (fuel - length a) p (render b ++ r) j i Ha Hok Hi) as (i' & Hs & Hi').
  replace (length a + (fuel - length a)) with fuel in Hs by lia. etrans; [exact Hs|].
  rewrite comma_stop by (done || lia). rewrite length_app, <- app_assoc. done.
Qed.

(** The search runs into the comment that the end of the file closes. *)
Lemma comma_loop_end a text fuel p j i :
  Forall (λ t, insignificant t = true) a → Forall tok_ok a → Forall (λ c, isNL c = false) text →
  S i = length p → S (length a) < fuel →
  ∃ i', comma_loop fuel (p ++ render a ++ SLASH :: SLASH :: text) j i
          = Some (p ++ strip a ++ spaces (2 + length text), i') ∧
        length (p ++ strip a ++ spaces (2 + length text)) ≤ i'.
Proof.
  intros Ha Hok Ht Hi Hf.
  destruct (comma_passes a (fuel - length a) p (SLASH :: SLASH :: text) j i Ha Hok Hi) as (i' & Hs & Hi').
  replace (length a + (fuel - length a)) with fuel in Hs by lia. rewrite Hs. clear Hs.
  set (q := p ++ strip a) in *. destruct (fuel - length a) as [|[|n]] eqn:Hn; [lia..|].
  eexists. split.
  - etrans; [apply comma_comment|].
    + rewrite Hi'. by apply lookup_at.
    + apply consume_end; [done| |lia]. unfold enough. rewrite length_app. simpl. lia.
    + cbn [comma_loop]. rewrite lookup_ge_None_2 by (rewrite length_app, length_replicate; lia).
      unfold q. by rewrite <- app_assoc.
  - rewrite app_assoc. fold q. rewrite length_app, length_replicate. lia.
Qed.

(** ** The main loop *)
Lemma prep_step_over fuel p c r i :
  i = length p → c ≠ DQUOTE → c ≠ SLASH → c ≠ ","%char →
  prep_loop (S fuel) (p ++ c :: r) i = prep_loop fuel ((p ++ [c]) ++ r) (length (p ++ [c])).
Proof.
  intros -> ? ? ?. cbn [prep_loop]. rewrite lookup_at by done.
  rewrite !decide_False by done. rewrite length_app, <- app_assoc. done.
Qed.

(** A comment takes a second step, over its last byte. *)
Definition extra_step (t : tok) : nat :=
  match t with TLine _ _ | TBlock _ => 1 | _ => 0 end.

Lemma extra_step_lt t : extra_step t < length (render_tok t).
Proof. destruct t; simpl; lia. Qed.

Lemma prep_tok t fuel p r :
  tok_ok t → t ≠ TComma →
  prep_loop (S (extra_step t + fuel)) (p ++ render_tok t ++ r) (length p)
    = prep_loop fuel ((p ++ strip [t]) ++ r) (length (p ++ strip [t])).
Proof.
  intros Hok Hne. destruct t as [cs|text nl|text| |c]; try done.
  - cbn [extra_step prep_loop render_tok app Nat.add]. rewrite lookup_at by done.
    rewrite decide_True by done. rewrite <- (app_assoc _ [DQUOTE] r), (cons_snoc p). cbn [app].
    rewrite skip_string_spec; [|done| |rewrite length_app; simpl; lia].
    + cbn [mbind option_bind strip render_tok]. rewrite app_nil_r, <- !app_assoc. cbn [app].
      rewrite <- !app_assoc. f_equal. rewrite !length_app. simpl. rewrite !length_app. simpl. lia.
    + unfold enough. rewrite !length_app. lia.
  - destruct Hok as [Ht Hnl]. cbn [extra_step prep_loop render_tok app Nat.add]. rewrite lookup_at by done.
    rewrite decide_False, decide_True by done. rewrite <- app_assoc. cbn [app].
    rewrite consume_line; [|done|done| |lia].
    + cbn [mbind option_bind]. rewrite app_assoc.
      assert (length p + 2 + length text = length (p ++ spaces (2 + length text))) as ->
        by (rewrite length_app, length_replicate; lia).
      destruct (isNL_cases nl Hnl) as [-> | ->];
        (etrans; [apply prep_step_over; first [done|by_decide]|]); cbn [strip]; by rewrite (app_assoc p).
    + unfold enough. rewrite !length_app. simpl. rewrite !length_app. lia.
  - cbn [extra_step prep_loop render_tok app Nat.add]. rewrite lookup_at by done.
    rewrite decide_False, decide_True by done. rewrite <- app_assoc. cbn [app].
    rewrite consume_block; [|done| |lia].
    + cbn [mbind option_bind].
      assert (p ++ spaces 2 ++ (text ≫= bchar_left) ++ SPACE :: SPACE :: r
        = (p ++ spaces 2 ++ (text ≫= bchar_left) ++ [SPACE]) ++ SPACE :: r) as -> by (by rewrite <- !app_assoc).
      assert (length p + 3 + length (text ≫= bchar_left)
        = length (p ++ spaces 2 ++ (text ≫= bchar_left) ++ [SPACE])) as ->
        by (rewrite !length_app; simpl; lia).
      etrans; [apply prep_step_over; first [done|by_decide]|].
      cbn [strip]. by rewrite <- !app_assoc.
    + unfold enough. rewrite !length_app. simpl. rewrite !length_app. pose proof (length_text text). lia.
  - destruct Hok as (? & ? & ?). cbn [extra_step render_tok app Nat.add].
    by rewrite prep_step_over.
Qed.

Lemma length_render l : length l ≤ length (render l).
Proof.
  induction l as [|t l IH]; [done|]. rewrite render_cons, length_app. simpl.
  assert (1 ≤ length (render_tok t)) by (destruct t; simpl; lia). lia.
Qed.

Lemma prep_at_comma fuel p s i :
  i = length p → prep_loop (S fuel) (p ++ ","%char :: s) i
    = ('(s, i) ← comma_loop (enough (p ++ ","%char :: s)) (p ++ ","%char :: s) i i; prep_loop fuel s i).
Proof.
  intros ->. cbn [prep_loop]. rewrite lookup_at by done.
  rewrite (decide_False (P:=","%char = DQUOTE)), (decide_False (P:=","%char = SLASH)), decide_True by done. done.
Qed.

Lemma prep_comma fuel p l r :
  Forall tok_ok l → (span l).2 ≠ [] ∨ r = [] →
  let x := if trailing l then SPACE else ","%char in
  let p' := p ++ x :: strip (span l).1 in
  prep_loop (S fuel) (p ++ ","%char :: render l ++ r) (length p)
    = prep_loop fuel (p' ++ render (span l).2 ++ r) (length p').
Proof.
  intros Hok Hr x p'. subst x p'. rewrite prep_at_comma by done.
  pose proof (span_app l) as Hl. pose proof (span_insignificant l) as Ha.
  pose proof (span_head l) as Hb. destruct (span l) as [a b]. cbn [fst snd] in *. subst l.
  rewrite (cons_snoc p).
  pose proof (comma_loop_spec a b r (enough ((p ++ [","%char]) ++ render (a ++ b) ++ r)) (p ++ [","%char])
    (length p) (length p) Ha Hok Hb Hr) as Hc.
  rewrite Hc; clear Hc.
  - cbn [mbind option_bind].
    rewrite trailing_app by done.
    assert (blank_if (trailing b) ((p ++ [","%char]) ++ strip a ++ render b ++ r) (length p)
      = (p ++ (if trailing b then SPACE else ","%char) :: strip a) ++ render b ++ r) as ->.
    { rewrite <- !app_assoc. cbn [app]. destruct (trailing b); [by apply blank_at|done]. }
    f_equal. rewrite !length_app. simpl. lia.
  - rewrite length_app. simpl. lia.
  - unfold enough. rewrite !length_app, length_render_app. pose proof (length_render a). lia.
Qed.

Lemma prep_comma_end fuel p l text :
  Forall tok_ok l → (span l).2 = [] → Forall (λ c, isNL c = false) text →
  prep_loop (2 + fuel) (p ++ ","%char :: render l ++ SLASH :: SLASH :: text) (length p)
    = Some (p ++ strip (TComma :: l) ++ spaces (2 + length text)).
Proof.
  intros Hok Hsp Ht. change (2 + fuel) with (S (S fuel)). rewrite prep_at_comma by done.
  pose proof (span_app l) as Hl. pose proof (span_insignificant l) as Ha.
  rewrite Hsp, app_nil_r in Hl. rewrite Hl in Ha. rewrite (cons_snoc p).
  destruct (comma_loop_end l text (enough ((p ++ [","%char]) ++ render l ++ SLASH :: SLASH :: text))
    (p ++ [","%char]) (length p) (length p) Ha Hok Ht) as (i' & -> & Hi').
  - rewrite length_app. simpl. lia.
  - unfold enough. rewrite !length_app. pose proof (length_render l). simpl. lia.
  - cbn [mbind option_bind prep_loop]. rewrite lookup_ge_None_2 by done. cbn [strip].
    rewrite <- (app_nil_r l), trailing_app, app_nil_r by done. by rewrite <- app_assoc.
Qed.

Lemma strip_comma l :
  strip (TComma :: l)
    = (if trailing l then SPACE else ","%char) :: strip (span l).1 ++ strip (span l).2.
Proof. rewrite <- strip_app by apply span_insignificant. by rewrite span_app. Qed.

Lemma strip_cons t l : t ≠ TComma → strip (t :: l) = strip [t] ++ strip l.
Proof. destruct t; try done; intros _; cbn [strip]; by rewrite <- ?app_assoc. Qed.

Lemma span_le l : length (span l).2 ≤ length l ∧ length (render (span l).2) ≤ length (render l).
Proof.
  rewrite <- (span_app l) at 2 4. rewrite length_render_app, length_app. lia.
Qed.

Lemma prep_end fuel p e :
  default True (Forall (λ c, isNL c = false) <$> e) → length (render_end e) < fuel →
  prep_loop fuel (p ++ render_end e) (length p) = Some (p ++ strip_end e).
Proof.
  intros He Hf. destruct fuel as [|fuel]; [lia|]. destruct e as [text|]; simpl in He.
  - destruct fuel as [|fuel]; [simpl in Hf; lia|]. cbn [prep_loop render_end]. rewrite lookup_at by done. rewrite decide_False, decide_True by done.
    rewrite consume_end; [|done|unfold enough; rewrite length_app; simpl; lia|lia].
    cbn [mbind option_bind]. rewrite lookup_ge_None_2; [done|]. rewrite length_app, length_replicate. lia.
  - cbn [prep_loop render_end strip_end]. by rewrite app_nil_r, lookup_ge_None_2.
Qed.

Lemma prep_loop_strip e n l fuel p :
  default True (Forall (λ c, isNL c = false) <$> e) →
  length l < n → Forall tok_ok l → length (render l ++ render_end e) < fuel →
  prep_loop fuel (p ++ render l ++ render_end e) (length p) = Some (p ++ strip l ++ strip_end e).
Proof.
  intros He. revert l fuel p. induction n as [|n IH]; intros l fuel p Hn Hok Hf; [lia|].
  destruct l as [|t l]; [by apply prep_end|].
  simpl in Hn. rewrite render_cons, !length_app in Hf. rewrite render_cons, <- app_assoc.
  apply Forall_cons in Hok as [Ht Hok]. destruct (decide (t = TComma)) as [->|Hne].
  - destruct fuel as [|fuel]; [lia|]. simpl in Hf. cbn [render_tok app].
    destruct (decide ((span l).2 = [] ∧ render_end e ≠ [])) as [[Hsp Hr]|Hr].
    { destruct e as [text|]; [|done]. destruct fuel as [|fuel]; [simpl in Hf; lia|]. by apply prep_comma_end. }
    rewrite prep_comma by (done || destruct (decide ((span l).2 = [])), (decide (render_end e = [])); tauto).
    destruct (span_le l). rewrite IH; [|lia| |rewrite length_app; lia].
    + rewrite strip_comma, <- !app_assoc. cbn [app]. by rewrite <- app_assoc.
    + rewrite <- (span_app l) in Hok. by apply Forall_app in Hok as [_ ?].
  - pose proof (extra_step_lt t).
    replace fuel with (S (extra_step t + (fuel - S (extra_step t)))) by lia.
    rewrite prep_tok by done. rewrite IH by (done || rewrite ?length_app; lia).
    by rewrite (strip_cons t l), <- !app_assoc.
Qed.

(** * Properties *)

(** [prep] always returns, never reads or writes outside the buffer, and
    changes bytes only to spaces: the document keeps its length and the offset
    of every byte. *)
Theorem prep_terminates s :
  ∃ s', prep (Ok s) = Ok s' ∧ length s' = length s ∧
        ∀ i c, s !! i = Some c → s' !! i = Some c ∨ s' !! i = Some SPACE.
Proof.
  destruct (prep_loop_blanks (enough s) s 0) as (s' & Hs & Hb); [unfold enough; lia|].
  exists s'. cbn [prep mbind res_bind]. rewrite Hs. split_and!; [done|by apply blanked_length|].
  intros i c Hi. destruct (Forall2_lookup_l _ _ _ _ _ Hb Hi) as (c' & -> & [-> | ->]); auto.
Qed.

(** C13: on a document made of strings, comments, commas and other bytes, which
    may end in a line comment that no line end closes, [prep] blanks exactly the
    comments (keeping the line ends that close them, and the byte behind every
    star inside a block comment, which is never looked at) and the commas whose
    next significant byte closes an object or an array; strings, with whatever
    slashes, commas and escaped quotes they hold, and all other bytes stay. *)
Theorem prep_strip l e :
  Forall tok_ok l → default True (Forall (λ c, isNL c = false) <$> e) →
  prep (Ok (render l ++ render_end e)) = Ok (strip l ++ strip_end e).
Proof.
  intros Hok He. cbn [prep mbind res_bind].
  pose proof (prep_loop_strip e (S (length l)) l (enough (render l ++ render_end e)) [] He) as H.
  cbn [app length] in H.
  rewrite H; [done|lia|done|unfold enough; lia].
Qed.

(** An object of two members: a string that holds slashes, a comma, a brace and an
    escaped quote; a block comment with stars; a trailing comma followed by a line
    comment; and a line comment at the end of the file. *)
Definition wit_doc : list tok :=
  [TPlain "{"%char; TStr [SPlain "a"%char]; TPlain ":"%char;
   TStr [SPlain "/"%char; SPlain "/"%char; SPlain ","%char; SPlain "}"%char; SEsc DQUOTE];
   TComma; TPlain SPACE; TBlock [BPlain SPACE; BPlain "x"%char; BStar STAR; BStar SPACE];
   TStr [SPlain "b"%char]; TPlain ":"%char;
   TPlain "1"%char; TComma; TPlain SPACE; TLine ["y"%char] NL; TPlain "}"%char].

Definition wit_end : option buffer := Some [SPACE; "z"%char; ","%char].

Lemma prep_strip_witness :
  prep (Ok (render wit_doc ++ render_end wit_end)) = Ok (strip wit_doc ++ strip_end wit_end) ∧
  strip wit_doc ≠ render wit_doc.
Proof. split; [apply (prep_strip wit_doc wit_end); by_decide|vm_compute; discriminate]. Defined.

(** Passing over comment text without stars. *)
Lemma blank_block_text fuel p t r :
  STAR ∉ t →
  blank_block (length t + fuel) (p ++ t ++ r) (length p)
    = blank_block fuel (p ++ spaces (length t) ++ r) (length p + length t).
Proof.
  revert p. induction t as [|c t IH]; intros p Ht; simpl; [by rewrite Nat.add_0_r|].
  apply not_elem_of_cons in Ht as [Hne Ht].
  rewrite lookup_at, decide_False, blank_at by done. rewrite cons_snoc.
  assert (length p + 1 = length (p ++ [SPACE])) as -> by (by rewrite length_app).
  rewrite IH by done. rewrite <- app_assoc, length_app. simpl. f_equal. lia.
Qed.

Lemma blank_block_end fuel p t :
  STAR ∉ t →
  blank_block (length t + S fuel) (p ++ t) (length p) = Some (p ++ spaces (length t), length p + length t).
Proof.
  intros Ht. pose proof (blank_block_text (S fuel) p t [] Ht) as H. rewrite !app_nil_r in H.
  rewrite H. simpl. rewrite lookup_ge_None_2; [done|]. rewrite length_app, length_replicate. lia.
Qed.

Lemma two_stars_blank fuel p t r i :
  STAR ∉ t → STAR ∉ r → i = length p → length t + length r + 4 < fuel →
  blank_block fuel (p ++ t ++ STAR :: STAR :: SLASH :: r) i
    = Some (p ++ spaces (length t) ++ SPACE :: STAR :: spaces (1 + length r),
            length p + length t + 3 + length r).
Proof.
  intros Ht Hr -> Hf.
  replace fuel with (length t + S (length (SLASH :: r) + S (fuel - length t - length r - 3)))
    by (simpl; lia).
  rewrite blank_block_text, app_assoc by done.
  assert (length p + length t = length (p ++ spaces (length t))) as ->
    by (rewrite length_app, length_replicate; done).
  set (q := p ++ spaces (length t)). cbn [blank_block].
  rewrite lookup_at, decide_True, blank_at by done.
  rewrite (cons_snoc q SPACE), (at_is_false _ STAR SLASH) by (rewrite ?length_app; simpl; (lia || by_decide)).
  rewrite (cons_snoc _ STAR).
  assert (length q + 1 + 1 = length ((q ++ [SPACE]) ++ [STAR])) as -> by (rewrite !length_app; simpl; lia).
  rewrite blank_block_end by (apply not_elem_of_cons; split; [by_decide|done]).
  rewrite <- !app_assoc. unfold q. rewrite !length_app, length_replicate. rewrite <- !app_assoc.
  simpl. do 2 f_equal. lia.
Qed.

(** A block comment that ends in two stars is not closed: the slash after
    them is taken for text, and the rest of the document is swallowed with it
    (up to the next comment end, here up to the end of the file); one star is
    left over in the output. *)
Theorem block_comment_two_stars text rest :
  STAR ∉ text → STAR ∉ rest →
  prep (Ok (SLASH :: STAR :: text ++ STAR :: STAR :: SLASH :: rest))
    = Ok (spaces (3 + length text) ++ STAR :: spaces (1 + length rest)).
Proof.
  intros Ht Hr. cbn [prep mbind res_bind].
  set (s := SLASH :: STAR :: _).
  assert (consumeComment (enough s) s 1 = Some
    (spaces (3 + length text) ++ STAR :: spaces (1 + length rest), 5 + length text + length rest)) as Hc.
  { unfold consumeComment. cbn -[blank_block enough].
    etrans; [apply (two_stars_blank (enough s) [SPACE] (SPACE :: text) rest)|].
    - by apply not_elem_of_cons.
    - done.
    - done.
    - unfold enough, s. simpl. rewrite length_app. simpl. lia.
    - cbn [length app replicate Nat.add].
      rewrite (cons_snoc (spaces (length text)) SPACE), <- (replicate_S_end (length text)). simpl.
      do 2 f_equal. lia. }
  assert (length s = 5 + length text + length rest) as Hlen
    by (unfold s; simpl; rewrite length_app; simpl; lia).
  assert (s !! 0 = Some SLASH) as Hs by done.
  unfold enough at 1. cbn [prep_loop]. rewrite Hs.
  rewrite decide_False, decide_True by by_decide. cbn [Nat.add]. rewrite Hc. cbn [mbind option_bind].
  rewrite Hlen. cbn [Nat.add prep_loop].
  rewrite lookup_ge_None_2; [done|]. rewrite length_app. simpl. rewrite !length_replicate. lia.
Qed.

Lemma block_comment_two_stars_witness :
  prep (Ok (SLASH :: STAR :: ["x"%char] ++ STAR :: STAR :: SLASH :: ["{"%char; "}"%char]))
    = Ok (spaces 4 ++ STAR :: spaces 3).
Proof. apply (block_comment_two_stars ["x"%char] ["{"%char; "}"%char]); by_decide. Defined.

(** * The reader *)
Lemma ReadAll_rest r sizes b :
  Forall (λ n, 0 < n) sizes → length b < length sizes →
  ReadAll sizes (mkTrimNodeReader r (Some b)) = Some (Ok b).
Proof.
  intros Hs. revert b. induction Hs as [|n sizes Hn _ IH]; intros b Hb; simpl in Hb; [lia|].
  destruct b as [|c b]; [done|]. cbn [ReadAll Read st_br br_Read st_r].
  rewrite IH by (rewrite length_drop; simpl in *; lia). cbn [mbind option_bind res_bind].
  by rewrite take_drop.
Qed.

(** However the caller sizes its reads, as long as each has room for a byte
    and one more read follows than the document has bytes, reading to the end
    delivers the cleaned document, or the error that cleaning it gave. *)
Theorem ReadAll_prep r n sizes :
  Forall (λ n, 0 < n) (n :: sizes) → (∀ s, r = Ok s → length s ≤ length sizes) →
  ReadAll (n :: sizes) (NewTrimNodeReader r) = Some (prep r).
Proof.
  intros Hs Hlen. destruct r as [s|e|w]; [|done..]. cbn [ReadAll Read NewTrimNodeReader st_br st_r].
  destruct (prep_loop_blanks (enough s) s 0) as (s' & Hp & Hb); [unfold enough; lia|].
  cbn [prep mbind res_bind]. rewrite Hp. specialize (Hlen s eq_refl).
  rewrite <- (ReadAll_rest (Ok s) (n :: sizes) s' Hs); [done|].
  apply blanked_length in Hb. simpl. lia.
Qed.

Lemma ReadAll_prep_witness :
  ReadAll (replicate 60 3) (NewTrimNodeReader (Ok (render wit_doc))) = Some (prep (Ok (render wit_doc))).
Proof.
  apply (ReadAll_prep (Ok (render wit_doc)) 3 (replicate 59 3)).
  - by_decide.
  - intros s [= <-]. by_decide.
Defined.
