(* ===== verification/Clock.v ===== *)
(** Go's time.Time as src/common/systime uses it: an instant with the zone it is
    shown in, its civil date and time of day, and the SYSTEMTIME of Windows that
    src/common/systime/time_windows.go fills from them. *)

From S2P Require Import Prelude.
From stdpp Require Import prelude list.
From Stdlib Require Import ZArith Lia.

Open Scope Z_scope.

(** Nanoseconds since 1970, and the seconds that the zone is ahead of UTC. *)
Record Time := mkTime { t_nanos : Z; t_zone : Z }.

Definition Unix (t : Time) : Z := t_nanos t / 1000000000.
Definition UnixMilli (t : Time) : Z := t_nanos t / 1000000.

(** ** Civil dates

    Years begin in March, so that the leap day is the last one; 400 years are an
    era of 146097 days, the first of which began on 0000-03-01. *)
Record Date := mkDate { d_Year : Z; d_Month : Z; d_Day : Z }.

Definition era_days : Z := 146097.
Definition epoch : Z := 719468.

(** The day of the era, and back. *)
Definition year_of_era (doe : Z) : Z := (doe - doe / 1460 + doe / 36524 - doe / 146096) / 365.
Definition first_day (yoe : Z) : Z := 365 * yoe + yoe / 4 - yoe / 100.
Definition march_month (doy : Z) : Z := (5 * doy + 2) / 153.
Definition month_start (mp : Z) : Z := (153 * mp + 2) / 5.

Definition date_of_days (days : Z) : Date :=
  let z := days + epoch in
  let doe := z mod era_days in
  let yoe := year_of_era doe in
  let doy := doe - first_day yoe in
  let mp := march_month doy in
  let m := if mp <? 10 then mp + 3 else mp - 9 in
  mkDate (z / era_days * 400 + yoe + (if m <=? 2 then 1 else 0)) m (doy - month_start mp + 1).

Definition days_of_date (d : Date) : Z :=
  let y := if d_Month d <=? 2 then d_Year d - 1 else d_Year d in
  let yoe := y mod 400 in
  let mp := if d_Month d <=? 2 then d_Month d + 9 else d_Month d - 3 in
  y / 400 * era_days + (first_day yoe + month_start mp + d_Day d - 1) - epoch.

Lemma month_bounds doy :
  0 <= doy <= 365 → 0 <= march_month doy < 12 ∧ 0 <= doy - month_start (march_month doy) < 31.
Proof. unfold march_month, month_start. intros. Z.to_euclidean_division_equations. lia. Qed.

Lemma year_bounds doe :
  0 <= doe < era_days →
  0 <= year_of_era doe < 400 ∧ 0 <= doe - first_day (year_of_era doe) <= 365.
Proof. unfold year_of_era, first_day, era_days. intros. Z.to_euclidean_division_equations. lia. Qed.

(** A date is a day, months and days are in their ranges. *)
Lemma days_of_date_of_days days :
  days_of_date (date_of_days days) = days ∧
  1 <= d_Month (date_of_days days) <= 12 ∧ 1 <= d_Day (date_of_days days) <= 31.
Proof.
  unfold date_of_days, days_of_date. set (z := days + epoch).
  destruct (year_bounds (z mod era_days) ltac:(apply Z.mod_pos_bound; done)) as (Hy & [Hm Hd]%month_bounds).
  pose proof (Z.div_mod z era_days ltac:(done)) as Hz.
  set (yoe := year_of_era _) in *. set (mp := march_month _) in *. cbn [d_Year d_Month d_Day].
  assert (∀ e, (e * 400 + yoe) mod 400 = yoe ∧ (e * 400 + yoe) / 400 = e) as Hera.
  { intros e. split; [rewrite Z.add_comm, Z_mod_plus_full; by apply Z.mod_small|].
    rewrite Z.div_add_l, Z.div_small by lia. lia. }
  destruct (Hera (z / era_days)) as [He1 He2]. split.
  - destruct (Z.ltb_spec mp 10).
    + rewrite !(proj2 (Z.leb_gt (mp + 3) 2)) by lia. rewrite !Z.add_0_r, He1, He2.
      replace (mp + 3 - 3) with mp by lia. unfold z in *. lia.
    + rewrite !(proj2 (Z.leb_le (mp - 9) 2)) by lia. rewrite !Z.add_simpl_r, He1, He2.
      replace (mp - 9 + 9) with mp by lia. unfold z in *. lia.
  - destruct (Z.ltb_spec mp 10); lia.
Qed.

(** ** time.Time's fields, in its zone *)
Definition local (t : Time) : Z := Unix t + t_zone t.
Definition date (t : Time) : Date := date_of_days (local t / 86400).
Definition second_of_day (t : Time) : Z := local t mod 86400.
Definition Hour (t : Time) : Z := second_of_day t / 3600.
Definition Minute (t : Time) : Z := second_of_day t mod 3600 / 60.
Definition Second (t : Time) : Z := second_of_day t mod 60.

(** ** SYSTEMTIME *)
Record Systemtime := mkSystemtime {
  st_Year : Z; st_Month : Z; st_Day : Z; st_Hour : Z; st_Minute : Z; st_Second : Z; st_Milliseconds : Z;
}.

Definition systemtime (nowTime : Time) : Systemtime := {|
  st_Year := wrapu16 (d_Year (date nowTime));
  st_Month := wrapu16 (d_Month (date nowTime));
  st_Day := wrapu16 (d_Day (date nowTime));
  st_Hour := wrapu16 (Hour nowTime);
  st_Minute := wrapu16 (Minute nowTime);
  st_Second := wrapu16 (Second nowTime);
  st_Milliseconds := wrapu16 (UnixMilli nowTime - Unix nowTime * 1000);
|}.

(** What Windows takes it for: a time in UTC, here in milliseconds since 1970. *)
Definition utc_millis (st : Systemtime) : Z :=
  (((days_of_date (mkDate (st_Year st) (st_Month st) (st_Day st)) * 24 + st_Hour st) * 60
    + st_Minute st) * 60 + st_Second st) * 1000 + st_Milliseconds st.

Lemma wrapu16_id z : 0 <= z < 65536 → wrapu16 z = z.
Proof. intros Hz. unfold wrapu16. by apply Z.mod_small. Qed.

(** The clock of Windows is set to the instant plus the zone's distance from
    UTC: the code takes the fields in the zone of the time it is given, and the
    system call takes them for UTC.  It is right exactly in the zone UTC. *)
Theorem windows_clock_in_zone t :
  0 <= d_Year (date t) < 65536 →
  utc_millis (systemtime t) = UnixMilli t + t_zone t * 1000 ∧
  (utc_millis (systemtime t) = UnixMilli t ↔ t_zone t = 0).
Proof.
  intros Hy. assert (utc_millis (systemtime t) = UnixMilli t + t_zone t * 1000) as H; [|rewrite H; lia].
  unfold utc_millis, systemtime. cbn [st_Year st_Month st_Day st_Hour st_Minute st_Second st_Milliseconds].
  destruct (days_of_date_of_days (local t / 86400)) as (Hdays & Hm & Hd). fold (date t) in *.
  pose proof (Z.mod_pos_bound (local t) 86400 ltac:(done)) as Hs. fold (second_of_day t) in Hs.
  assert (0 <= UnixMilli t - Unix t * 1000 < 1000) as Hms.
  { unfold UnixMilli, Unix. replace 1000000000 with (1000000 * 1000) by done.
    rewrite <- Z.div_div by done. pose proof (Z.mod_pos_bound (t_nanos t / 1000000) 1000 ltac:(done)).
    pose proof (Z.div_mod (t_nanos t / 1000000) 1000 ltac:(done)). lia. }
  assert (0 <= Hour t < 24 ∧ 0 <= Minute t < 60 ∧ 0 <= Second t < 60 ∧
          (Hour t * 60 + Minute t) * 60 + Second t = second_of_day t) as (H1 & H2 & H3 & H4).
  { unfold Hour, Minute, Second. generalize dependent (second_of_day t). intros s Hs.
    Z.to_euclidean_division_equations. lia. }
  rewrite !wrapu16_id by lia.
  replace (mkDate _ _ _) with (date t) by (by destruct (date t)). rewrite Hdays.
  pose proof (Z.div_mod (local t) 86400 ltac:(done)) as Hl. fold (second_of_day t) in Hl.
  unfold local in *. lia.
Qed.
