(* ===== verification/Keys.v ===== *)
(** src/common/crypt: the private key that the x25519 command derives from a
    node's data, and one AES block in base64.  SHA-256 and the AES block cipher
    of Go's library are the parameters [KeyLib]. *)

From S2P Require Import Prelude GoStd.
From stdpp Require Import prelude strings list.
From Stdlib Require Import Ascii ZArith Lia.

Open Scope string_scope.
Open Scope Z_scope.

(** ** base64.StdEncoding.DecodeString

    Line breaks are skipped; the text comes in groups of four, the last one
    padded.  The position that the error names is left out. *)
Definition base64_value (c : ascii) : option Z :=
  let n := Z.of_nat (byte_of c) in
  if (65 <=? n) && (n <=? 90) then Some (n - 65)
  else if (97 <=? n) && (n <=? 122) then Some (n - 71)
  else if (48 <=? n) && (n <=? 57) then Some (n + 4)
  else if n =? 43 then Some 62 else if n =? 47 then Some 63 else None.

Definition byte_chr (v : Z) : ascii := ascii_of_nat (Z.to_nat (v mod 256)).
Definition PAD : ascii := "=".

Fixpoint base64_quanta (s : string) : option string :=
  match s with
  | EmptyString => Some ""
  | String c1 (String c2 (String c3 (String c4 s))) =>
      n1 ← base64_value c1;
      n2 ← base64_value c2;
      let v2 := Z.lor (Z.shiftl n1 18) (Z.shiftl n2 12) in
      if decide (c3 = PAD) then
        if decide (c4 = PAD ∧ s = "") then Some (String (byte_chr (Z.shiftr v2 16)) "") else None
      else
        n3 ← base64_value c3;
        let v3 := Z.lor v2 (Z.shiftl n3 6) in
        if decide (c4 = PAD) then
          if decide (s = "")
          then Some (String (byte_chr (Z.shiftr v3 16)) (String (byte_chr (Z.shiftr v3 8)) "")) else None
        else
          n4 ← base64_value c4;
          let v := Z.lor v3 n4 in
          rest ← base64_quanta s;
          Some (String (byte_chr (Z.shiftr v 16)) (String (byte_chr (Z.shiftr v 8)) (String (byte_chr v) rest)))
  | _ => None
  end.

Fixpoint skip_breaks (s : string) : string :=
  match s with
  | EmptyString => ""
  | String a s => if decide (a = NL ∨ a = CR) then skip_breaks s else String a (skip_breaks s)
  end.

Definition base64_DecodeString (s : string) : res string string :=
  match base64_quanta (skip_breaks s) with Some d => Ok d | None => Err "illegal base64 data" end.

(** ** The parameters *)
Class KeyLib := {
  sha256_Sum256 : string → list Z;
  AesCipher : Type;
  aes_NewCipher : string → res string AesCipher;
  aes_block : AesCipher → string → string;
  aes_unblock : AesCipher → string → string;
}.

Definition BlockSize : nat := 16%nat.
Fixpoint zeros (n : nat) : string := match n with O => "" | S n => String "000" (zeros n) end.

(** A cipher handles the first block; what is behind it in [dst] stays zero. *)
Definition crypt_block (f : string → string) (dst : nat) (src : string) : res string string :=
  if (String.length src <? BlockSize)%nat then Panic "crypto/aes: input not full block"
  else if (dst <? BlockSize)%nat then Panic "crypto/aes: output not full block"
  else Ok (f (String.substring 0 BlockSize src) +:+ zeros (dst - BlockSize)).

Section crypt.
Context `{KeyLib}.

(** ** x25519.go *)
Definition GenX25519Private (data : string) : list Z :=
  let key := sha256_Sum256 data in
  let key := alter (λ b, Z.land b 248) 0%nat key in
  let key := alter (λ b, Z.land b 127) 31%nat key in
  alter (λ b, Z.lor b 64) 31%nat key.

(** ** aes.go *)
Definition AesEncrypt (data key : string) : res string string :=
  a ← aes_NewCipher key;
  en ← crypt_block (aes_block a) (String.length data) data;
  mret (base64_Encode en).

(** The result is as long as the base64 text was. *)
Definition AesDecrypt (data key : string) : res string string :=
  d ← base64_DecodeString data;
  a ← aes_NewCipher key;
  crypt_block (aes_unblock a) (String.length data) d.
End crypt.

(** * Lemmas: base64 *)

Lemma lor_shiftl_add a b k : 0 ≤ k → 0 ≤ b < 2 ^ k → Z.lor (Z.shiftl a k) b = a * 2 ^ k + b.
Proof.
  intros Hk Hb. rewrite <- Z.shiftl_mul_pow2 by done. symmetry. apply Z.add_nocarry_lor, Z.bits_inj'.
  intros n Hn. rewrite Z.land_spec, Z.bits_0, Z.shiftl_spec by done.
  destruct (decide (n < k)) as [Hlt|Hge].
  - by rewrite Z.testbit_neg_r by lia.
  - rewrite <- (Z.mod_small b (2 ^ k)) by done. by rewrite Z.mod_pow2_bits_high, andb_false_r by lia.
Qed.

Lemma base64_value_char n : 0 ≤ n < 64 → base64_value (base64_char n) = Some n ∧ base64_char n ≠ PAD ∧
  base64_char n ≠ NL ∧ base64_char n ≠ CR.
Proof.
  intros Hn.
  assert (Forall (λ n, base64_value (base64_char (Z.of_nat n)) = Some (Z.of_nat n) ∧
    base64_char (Z.of_nat n) ≠ PAD ∧ base64_char (Z.of_nat n) ≠ NL ∧ base64_char (Z.of_nat n) ≠ CR)
    (seq 0 64)) as Hall by by_decide.
  rewrite Forall_forall in Hall. specialize (Hall (Z.to_nat n)). rewrite Z2Nat.id in Hall by lia.
  apply Hall, elem_of_seq. lia.
Qed.

Lemma lor_quad n1 n2 n3 n4 : 0 ≤ n2 < 64 → 0 ≤ n3 < 64 → 0 ≤ n4 < 64 →
  Z.lor (Z.lor (Z.lor (Z.shiftl n1 18) (Z.shiftl n2 12)) (Z.shiftl n3 6)) n4 =
  ((n1 * 64 + n2) * 64 + n3) * 64 + n4.
Proof.
  intros H2 H3 H4.
  change 18 with (6 + 12) at 1. rewrite <- Z.shiftl_shiftl, <- Z.shiftl_lor, (lor_shiftl_add n1 n2 6) by lia.
  change 12 with (6 + 6). rewrite <- Z.shiftl_shiftl, <- Z.shiftl_lor, (lor_shiftl_add _ n3 6) by lia.
  by rewrite lor_shiftl_add by lia.
Qed.

Lemma lor_triple a b c : 0 ≤ b < 256 → 0 ≤ c < 256 →
  Z.lor (Z.lor (Z.shiftl a 16) (Z.shiftl b 8)) c = (a * 256 + b) * 256 + c.
Proof.
  intros Hb Hc. change 16 with (8 + 8). rewrite <- Z.shiftl_shiftl, <- Z.shiftl_lor, (lor_shiftl_add a b 8) by lia.
  by rewrite lor_shiftl_add by lia.
Qed.

Definition sextet (v k : Z) : Z := Z.land (Z.shiftr v k) 63.

Lemma sextet_div v k : 0 ≤ k → sextet v k = v / 2 ^ k mod 64.
Proof.
  intros Hk. unfold sextet. rewrite Z.shiftr_div_pow2 by done. apply (Z.land_ones _ 6). lia.
Qed.

Lemma sextet_range v k : 0 ≤ sextet v k < 64.
Proof. unfold sextet. rewrite (Z.land_ones _ 6) by lia. apply Z.mod_pos_bound. lia. Qed.

Lemma sextets v : 0 ≤ v < 2 ^ 24 →
  Z.lor (Z.lor (Z.lor (Z.shiftl (sextet v 18) 18) (Z.shiftl (sextet v 12) 12)) (Z.shiftl (sextet v 6) 6))
    (sextet v 0) = v.
Proof.
  intros Hv. rewrite lor_quad by apply sextet_range. rewrite !sextet_div by lia. cbn.
  Z.div_mod_to_equations. lia.
Qed.

(** The low sextets are zero when the low bytes are missing. *)
Lemma sextets_high v k : (k = 12 ∨ k = 6) → 0 ≤ v < 2 ^ 24 → v mod 2 ^ k = 0 →
  sextet v 0 = 0 ∧ (k = 12 → sextet v 6 = 0).
Proof.
  intros Hk Hv Hm. rewrite !sextet_div by lia. destruct Hk as [-> | ->]; cbn in *;
    Z.div_mod_to_equations; lia.
Qed.

Lemma byte_chr_of a v : v mod 256 = Z.of_nat (byte_of a) → byte_chr v = a.
Proof. intros Hv. unfold byte_chr, byte_of in *. by rewrite Hv, Nat2Z.id, ascii_nat_embedding. Qed.

Lemma byte_of_range a : 0 ≤ Z.of_nat (byte_of a) < 256.
Proof. pose proof (nat_ascii_bounded a). unfold byte_of. lia. Qed.

(** The characters of the alphabet, as the decoder meets them. *)
Lemma base64_value_sextet v k : base64_value (base64_char (sextet v k)) = Some (sextet v k).
Proof. by apply base64_value_char, sextet_range. Qed.
Lemma base64_sextet_pad v k : base64_char (sextet v k) ≠ PAD.
Proof. by apply base64_value_char, sextet_range. Qed.

Lemma bytes_of_triple a b c v : v = (a * 256 + b) * 256 + c →
  0 ≤ a < 256 → 0 ≤ b < 256 → 0 ≤ c < 256 →
  0 ≤ v < 2 ^ 24 ∧ Z.shiftr v 16 mod 256 = a ∧ Z.shiftr v 8 mod 256 = b ∧ v mod 256 = c.
Proof.
  intros -> Ha Hb Hc. rewrite !Z.shiftr_div_pow2 by done. cbn.
  split_and!; Z.div_mod_to_equations; lia.
Qed.

Ltac decode_chars := cbn [base64_quanta]; rewrite !base64_value_sextet; cbn [mbind option_bind];
  rewrite ?(decide_False (P := base64_char _ = PAD)) by apply base64_sextet_pad.

Lemma quanta_one v : 0 ≤ v < 2 ^ 24 → v mod 2 ^ 12 = 0 →
  base64_quanta (String (base64_char (sextet v 18)) (String (base64_char (sextet v 12)) "==")) =
  Some (String (byte_chr (Z.shiftr v 16)) "").
Proof.
  intros Hv Hm. destruct (sextets_high v 12) as [H0 H6]; [by left|done..|].
  pose proof (sextets v Hv) as Hs. rewrite H0, H6, Z.shiftl_0_l, !Z.lor_0_r in Hs by done.
  decode_chars. by rewrite Hs.
Qed.

Lemma quanta_two v : 0 ≤ v < 2 ^ 24 → v mod 2 ^ 6 = 0 →
  base64_quanta (String (base64_char (sextet v 18)) (String (base64_char (sextet v 12))
    (String (base64_char (sextet v 6)) "="))) =
  Some (String (byte_chr (Z.shiftr v 16)) (String (byte_chr (Z.shiftr v 8)) "")).
Proof.
  intros Hv Hm. destruct (sextets_high v 6) as [H0 _]; [by right|done..|].
  pose proof (sextets v Hv) as Hs. rewrite H0, Z.lor_0_r in Hs by done.
  decode_chars. by rewrite Hs.
Qed.

Lemma quanta_three v s : 0 ≤ v < 2 ^ 24 →
  base64_quanta (String (base64_char (sextet v 18)) (String (base64_char (sextet v 12))
    (String (base64_char (sextet v 6)) (String (base64_char (sextet v 0)) s)))) =
  rest ← base64_quanta s;
  Some (String (byte_chr (Z.shiftr v 16)) (String (byte_chr (Z.shiftr v 8)) (String (byte_chr v) rest))).
Proof.
  intros Hv. pose proof (sextets v Hv) as Hs.
  decode_chars. by rewrite Hs.
Qed.

Lemma base64_quanta_Encode : ∀ s, base64_quanta (base64_Encode s) = Some s.
Proof.
  fix IH 1. intros [|a [|b [|c s]]]; [done|..]; cbn [base64_Encode];
    pose proof (byte_of_range a) as Ha; try pose proof (byte_of_range b) as Hb;
    try pose proof (byte_of_range c) as Hc; cbv zeta;
    match goal with |- context [Z.shiftr ?v 18] => remember v as w eqn:Hw end.
  - rewrite Z.shiftl_mul_pow2 in Hw by done.
    destruct (bytes_of_triple (Z.of_nat (byte_of a)) 0 0 w) as (Hr & H1 & _); [lia..|].
    etrans; [apply (quanta_one w Hr); subst w; Z.div_mod_to_equations; lia|].
    by rewrite (byte_chr_of a).
  - rewrite <- (Z.lor_0_r (Z.lor _ _)), lor_triple in Hw by lia.
    destruct (bytes_of_triple _ _ _ w Hw) as (Hr & H1 & H2 & _); [lia..|].
    etrans; [apply (quanta_two w Hr); subst w; Z.div_mod_to_equations; lia|].
    by rewrite (byte_chr_of a), (byte_chr_of b).
  - rewrite lor_triple in Hw by lia. destruct (bytes_of_triple _ _ _ w Hw) as (Hr & H1 & H2 & H3); [lia..|].
    etrans; [apply (quanta_three w _ Hr)|].
    rewrite IH. cbn [mbind option_bind].
    by rewrite (byte_chr_of a), (byte_chr_of b), (byte_chr_of c).
Qed.

Lemma skip_breaks_Encode : ∀ s, skip_breaks (base64_Encode s) = base64_Encode s.
Proof.
  assert (∀ n s, skip_breaks (String (base64_char (Z.land n 63)) s) =
            String (base64_char (Z.land n 63)) (skip_breaks s)) as Hc.
  { intros n s. cbn [skip_breaks]. rewrite decide_False; [done|].
    destruct (base64_value_char (sextet n 0)) as (_ & _ & H1 & H2); [apply sextet_range|].
    intros [?|?]; [by apply H1|by apply H2]. }
  fix IH 1. intros [|a [|b [|c s]]]; [done|..]; cbn [base64_Encode]; cbv zeta; rewrite !Hc; [done..|].
  by rewrite IH.
Qed.

Lemma base64_roundtrip s : base64_DecodeString (base64_Encode s) = Ok s.
Proof. unfold base64_DecodeString. by rewrite skip_breaks_Encode, base64_quanta_Encode. Qed.

(** * Lemmas: blocks *)
Class KeyLaws `{KeyLib} := {
  (* a digest has 32 bytes *)
  sha256_length : ∀ data, length (sha256_Sum256 data) = 32%nat;
  sha256_bytes : ∀ data, Forall (λ b, 0 ≤ b < 256) (sha256_Sum256 data);
  (* a block cipher is a permutation of the blocks *)
  aes_block_length : ∀ c b, String.length b = BlockSize → String.length (aes_block c b) = BlockSize;
  aes_unblock_block : ∀ c b, String.length b = BlockSize → aes_unblock c (aes_block c b) = b;
}.

Lemma length_zeros n : String.length (zeros n) = n.
Proof. induction n as [|n IH]; [done|]. cbn. by rewrite IH. Qed.

Lemma length_substring n s : (n ≤ String.length s)%nat → String.length (String.substring 0 n s) = n.
Proof.
  revert n. induction s as [|a s IH]; intros [|n]; cbn; try lia. intros. by rewrite IH by lia.
Qed.

Lemma substring_app n s t : String.length s = n → String.substring 0 n (s +:+ t) = s.
Proof.
  intros <-. induction s as [|a s IH]; [by destruct t|].
  change (String a s +:+ t) with (String a (s +:+ t)). cbn [String.length String.substring]. by rewrite IH.
Qed.

Lemma length_base64 : ∀ s, (String.length s ≤ String.length (base64_Encode s))%nat.
Proof. fix IH 1. intros [|a [|b [|c s]]]; cbn; [lia..|]. specialize (IH s). lia. Qed.

Lemma crypt_block_Ok f dst src r :
  crypt_block f dst src = Ok r ↔
  (BlockSize ≤ String.length src ∧ BlockSize ≤ dst)%nat ∧
  r = f (String.substring 0 BlockSize src) +:+ zeros (dst - BlockSize).
Proof.
  unfold crypt_block. case_match eqn:H1; [apply Nat.ltb_lt in H1; naive_solver lia|].
  case_match eqn:H2; [apply Nat.ltb_lt in H2; naive_solver lia|].
  apply Nat.ltb_ge in H1, H2. naive_solver.
Qed.

(** * Lemmas: little-endian numbers *)
Fixpoint le (bs : list Z) : Z := match bs with [] => 0 | b :: bs => b + 256 * le bs end.

(** RFC 7748: the low three bits and the top bit are cleared, the next one is
    set. *)
Definition clamp (k : Z) : Z := 2 ^ 254 + 8 * (k mod 2 ^ 254 / 8).

Lemma le_app bs cs : le (bs ++ cs) = le bs + 256 ^ Z.of_nat (length bs) * le cs.
Proof.
  induction bs as [|b bs IH]; cbn [app le length]; [lia|].
  rewrite IH, Nat2Z.inj_succ, Z.pow_succ_r by lia. ring.
Qed.

Lemma le_range bs : Forall (λ b, 0 ≤ b < 256) bs → 0 ≤ le bs < 256 ^ Z.of_nat (length bs).
Proof.
  induction 1 as [|b bs Hb Hbs IH]; cbn [le length]; [by cbn|].
  rewrite Nat2Z.inj_succ, Z.pow_succ_r by lia. lia.
Qed.

Lemma clear_low b : 0 ≤ b < 256 → Z.land b 248 = 8 * (b / 8).
Proof.
  intros Hb. assert (Forall (λ n, Z.land (Z.of_nat n) 248 = 8 * (Z.of_nat n / 8)) (seq 0 256)) as Hall
    by by_decide.
  rewrite Forall_forall in Hall. specialize (Hall (Z.to_nat b)). rewrite Z2Nat.id in Hall by lia.
  apply Hall, elem_of_seq. lia.
Qed.

Lemma set_high b : 0 ≤ b < 256 → Z.lor (Z.land b 127) 64 = 64 + b mod 64.
Proof.
  intros Hb. assert (Forall (λ n, Z.lor (Z.land (Z.of_nat n) 127) 64 = 64 + Z.of_nat n mod 64) (seq 0 256))
    as Hall by by_decide.
  rewrite Forall_forall in Hall. specialize (Hall (Z.to_nat b)). rewrite Z2Nat.id in Hall by lia.
  apply Hall, elem_of_seq. lia.
Qed.

Lemma split_ends (l : list Z) : length l = 32%nat → ∃ a m z, l = a :: m ++ [z] ∧ length m = 30%nat.
Proof.
  destruct l as [|a l]; [done|]. destruct l as [|z m _] using rev_ind; [done|].
  rewrite length_cons, length_app. cbn. intros. exists a, m, z. split; [done|lia].
Qed.

Lemma alter_last f (m : list Z) z : length m = 30%nat → alter f 30%nat (m ++ [z])%list = (m ++ [f z])%list.
Proof. intros <-. rewrite alter_app_r_alt, Nat.sub_diag by done. done.
Qed.

Lemma clamp_ends a m z : length m = 30%nat → 0 ≤ a < 256 → 0 ≤ z < 256 →
  Forall (λ b, 0 ≤ b < 256) m → le (8 * (a / 8) :: m ++ [64 + z mod 64])%list = clamp (le (a :: m ++ [z])%list).
Proof.
  intros Hm Ha Hz Hbs%le_range. cbn [le]. rewrite !le_app, Hm in *. cbn [le].
  change (256 ^ Z.of_nat 30) with (2 ^ 240) in *. unfold clamp.
  set (x := le m) in *. clearbody x. clear m Hm.
  replace (a + 256 * (x + 2 ^ 240 * (z + 256 * 0))) with
    ((a + 256 * x + 2 ^ 248 * (z mod 64)) + (z / 64) * 2 ^ 254) by (Z.div_mod_to_equations; lia).
  rewrite Z_mod_plus_full, (Z.mod_small (a + _ + _)) by (Z.div_mod_to_equations; lia).
  Z.div_mod_to_equations. lia.
Qed.

(** * Properties *)
Section properties.
Context `{KL : KeyLib}.

(** A derived private key is an X25519 scalar: the number that the digest's bytes
    stand for, clamped; so a multiple of 8 of exactly 255 bits. *)
Theorem GenX25519Private_clamped `{KW : !KeyLaws} data :
  le (GenX25519Private data) = clamp (le (sha256_Sum256 data)) ∧
  2 ^ 254 ≤ le (GenX25519Private data) < 2 ^ 255 ∧ (8 | le (GenX25519Private data)) ∧
  length (GenX25519Private data) = 32%nat.
Proof.
  assert (∀ k, 2 ^ 254 ≤ clamp k < 2 ^ 255 ∧ (8 | clamp k)) as Hk.
  { intros k. unfold clamp. pose proof (Z.mod_pos_bound k (2 ^ 254) ltac:(lia)) as Hr.
    split; [generalize dependent (k mod 2 ^ 254); intros r Hr; Z.div_mod_to_equations; lia|].
    exists (2 ^ 251 + k mod 2 ^ 254 / 8). lia. }
  cut (le (GenX25519Private data) = clamp (le (sha256_Sum256 data)) ∧ length (GenX25519Private data) = 32%nat).
  { intros [-> Hl]. destruct (Hk (le (sha256_Sum256 data))). done. }
  unfold GenX25519Private. pose proof (sha256_bytes data) as Hb. pose proof (sha256_length data) as Hl.
  split; [|by rewrite !length_alter].
  destruct (split_ends _ Hl) as (a & m & z & Heq & Hm). rewrite Heq in *.
  apply Forall_cons in Hb as [Ha Hb]. apply Forall_app in Hb as [Hbs [Hz _]%Forall_cons].
  change (alter ?f 31%nat (?b :: ?l)) with (b :: alter f 30%nat l).
  cbn [alter list_alter]. rewrite !alter_last, clear_low, set_high by done. by apply clamp_ends.
Qed.

(** What comes back of an encrypted text: its first sixteen bytes, followed by
    zeros up to the length of the base64 text; a text shorter than a block
    panics instead. *)
Theorem aes_roundtrip `{KW : !KeyLaws} data key c :
  aes_NewCipher key = Ok c →
  ((BlockSize ≤ String.length data)%nat → ∃ e, AesEncrypt data key = Ok e ∧
    AesDecrypt e key = Ok (String.substring 0 BlockSize data +:+ zeros (String.length e - BlockSize)) ∧
    (String.length data ≤ String.length e)%nat) ∧
  ((String.length data < BlockSize)%nat → AesEncrypt data key = Panic "crypto/aes: input not full block").
Proof.
  intros Hc. unfold AesEncrypt, AesDecrypt. rewrite Hc. cbn [mbind res_bind]. split; intros Hl.
  - set (first := String.substring 0 BlockSize data).
    assert (String.length first = BlockSize) as Hf by by apply length_substring.
    set (en := aes_block c first +:+ zeros (String.length data - BlockSize)).
    assert (crypt_block (aes_block c) (String.length data) data = Ok en) as -> by by apply crypt_block_Ok.
    assert (String.length en = String.length data) as Hen.
    { unfold en. rewrite string_length_app, aes_block_length, length_zeros by done. lia. }
    exists (base64_Encode en). cbn [mbind res_bind mret res_ret]. split; [done|].
    pose proof (length_base64 en) as Hb. split; [|lia].
    rewrite base64_roundtrip. cbn [mbind res_bind].
    apply crypt_block_Ok. split; [lia|]. unfold en at 2.
    rewrite substring_app, aes_unblock_block by (done || by apply aes_block_length). done.
  - unfold crypt_block. by rewrite (proj2 (Nat.ltb_lt _ _)).
Qed.
End properties.

(** * Witnesses, with a cipher that turns a block around *)
#[local] Instance wit_keys : KeyLib := {|
  sha256_Sum256 := λ data, replicate 32 255;
  AesCipher := unit;
  aes_NewCipher := λ key, if decide (String.length key = 16%nat) then Ok tt else Err "invalid key size";
  aes_block := λ c b, String.rev b;
  aes_unblock := λ c b, String.rev b;
|}.

Lemma rev_app_length s t : String.length (String.rev_app s t) = (String.length s + String.length t)%nat.
Proof. revert t. induction s as [|a s IH]; intros t; cbn; [done|]. rewrite IH. cbn. lia. Qed.

Lemma rev_app_rev_app s t u : String.rev_app (String.rev_app s t) u = String.rev_app t (s +:+ u).
Proof.
  revert t u. induction s as [|a s IH]; intros t u; [done|]. cbn [String.rev_app].
  rewrite IH. done.
Qed.

#[local] Instance wit_laws : KeyLaws.
Proof.
  split; try done.
  - intros data. by_decide.
  - intros c b <-. cbn. unfold String.rev. rewrite rev_app_length. cbn. lia.
  - intros c b _. cbn. unfold String.rev. rewrite rev_app_rev_app. cbn [String.rev_app].
    induction b as [|a b IH]; [done|]. change (String a b +:+ "") with (String a (b +:+ "")). by rewrite IH.
Qed.

Lemma GenX25519Private_clamped_witness : le (GenX25519Private "7vlesstoken") = 2 ^ 255 - 8.
Proof. destruct (GenX25519Private_clamped "7vlesstoken") as [-> _]. vm_compute. reflexivity. Defined.

Lemma aes_roundtrip_witness :
  ∃ e, AesEncrypt "0123456789abcdef" "0123456789abcdef" = Ok e ∧
    AesDecrypt e "0123456789abcdef" = Ok ("0123456789abcdef" +:+ zeros 8).
Proof.
  destruct (aes_roundtrip "0123456789abcdef" "0123456789abcdef" (tt : @AesCipher wit_keys)) as [H _]; [reflexivity|].
  destruct H as (e & He & Hd & _); [by_decide|]. exists e. split; [exact He|].
  rewrite Hd. vm_compute in He. injection He as <-. reflexivity.
Defined.
