(* ===== verification/Core.v ===== *)
(** src/core/interface.go and core.go: what a proxy core offers to the node
    controllers, and the parts the three cores share.

    [CoreOps] is the Go interface [Core], as operations on the state of a core.
    [NodeCore] states what a controller relies on; the theorems about the
    controller are proved against it. *)

From S2P Require Import Prelude GoStd Conf Panel Counter Traffic.
From stdpp Require Import prelude gmap strings.
From Stdlib Require Import ZArith Lia.

Open Scope Z_scope.

Record AddUsersParams := mkAddUsersParams {
  aup_Tag : string;
  aup_Users : list UserInfo;
  aup_NodeInfo : NodeInfo;
}.

(** The methods of the Go interface.  [AddNode] gets pointers to the node and
    to the options and may update both. *)
Class CoreOps (C : Type) := {
  core_Start : C → C * res string unit;
  core_Close : C → C * res string unit;
  core_AddNode : string → NodeInfo → Options → C → C * (NodeInfo * Options) * res string unit;
  core_DelNode : string → C → C * res string unit;
  core_AddUsers : AddUsersParams → C → C * res string Z;
  core_GetUserTrafficSlice : string → bool → C → C * res string (list UserTraffic);
  core_DelUsers : list UserInfo → string → NodeInfo → C → C * res string unit;
  core_Protocols : C → list string;
  core_Type : C → string;
}.

(** The contract the controller relies on: a core serves a set of users per
    tag; a successful call changes it as its name says, and no call on one tag
    changes the users of another.  [core_tag] says which tags the core can tell
    apart. *)
Class NodeCore (C : Type) `{CoreOps C} := {
  served : C → string → gset string;
  core_tag : string → Prop;
  AddUsers_served : ∀ p c c' n,
    core_AddUsers p c = (c', Ok n) →
    served c' (aup_Tag p) = served c (aup_Tag p) ∪ list_to_set (uuids (aup_Users p)) ∧
    n = Z.of_nat (length (aup_Users p));
  DelUsers_served : ∀ us tag info c c',
    core_DelUsers us tag info c = (c', Ok tt) →
    served c' tag = served c tag ∖ list_to_set (uuids us);
  AddUsers_other : ∀ p c c' r tag,
    core_AddUsers p c = (c', r) → core_tag tag → core_tag (aup_Tag p) → tag ≠ aup_Tag p →
    served c' tag = served c tag;
  DelUsers_other : ∀ us tag info c c' r tag',
    core_DelUsers us tag info c = (c', r) → core_tag tag → core_tag tag' → tag' ≠ tag →
    served c' tag' = served c tag';
}.

(** Reading the traffic of a node leaves every node's users alone. *)
Class ReportFrame (C : Type) `{NodeCore C} : Prop :=
  GetUserTrafficSlice_served : ∀ tag reset (c : C) tag',
    served (core_GetUserTrafficSlice tag reset c).1 tag' = served c tag'.

(** ** The counters of all nodes of a core, by tag *)
Abbreviation node_counters := (gmap string TrafficCounter).

(** The body of [GetUserTrafficSlice] once the core's fields are read. *)
Definition node_slice `{RangeOrder} (uidOf : string → Z) (minTraffic : Z) (reset : bool)
    (h : heap) (counters : node_counters) (tag : string)
    : heap * node_counters * list UserTraffic :=
  match counters !! tag with
  | Some c =>
      let '(h, c, trafficSlice) := traffic_slice uidOf minTraffic reset h c in
      (h, <[tag := c]> counters, trafficSlice)
  | None => (h, counters, [])
  end.

(** The counter of a node, made on first use, and the storage of a user in it
    (the end of the hooks). *)
Definition node_GetCounter (h : heap) (counters : node_counters) (tag uuid : string)
    : heap * node_counters * loc :=
  let t := default NewTrafficCounter (counters !! tag) in
  let '(h, t, l) := GetCounter h t uuid in
  (h, <[tag := t]> counters, l).

(** Dropping users from a node's counter. *)
Definition node_Delete (counters : node_counters) (tag key : string) : node_counters :=
  match counters !! tag with
  | Some c => <[tag := Counter_Delete c key]> counters
  | None => counters
  end.

Lemma node_Delete_other counters tag key tag' :
  tag' ≠ tag → node_Delete counters tag key !! tag' = counters !! tag'.
Proof. intros Hne. unfold node_Delete. case_match; [|done]. by rewrite lookup_insert_ne. Qed.

Lemma node_Delete_same counters tag key :
  node_Delete counters tag key !! tag = delete key <$> counters !! tag.
Proof.
  unfold node_Delete. case_match eqn:E; [|by rewrite E]. by rewrite lookup_insert_eq.
Qed.

Lemma node_slice_other `{RangeOrder} uidOf m r h counters tag tag' :
  tag' ≠ tag → (node_slice uidOf m r h counters tag).1.2 !! tag' = counters !! tag'.
Proof.
  intros Hne. unfold node_slice. case_match; [|done].
  destruct (traffic_slice _ _ _ _ _) as [[h' c'] s]. simpl. by rewrite lookup_insert_ne.
Qed.

(** ** The abstract core: just the served users of every node *)
Abbreviation SpecCore := (gmap string (gset string)).

#[global] Instance SpecCore_ops : CoreOps SpecCore := {|
  core_Start := λ c, (c, Ok tt);
  core_Close := λ c, (c, Ok tt);
  core_AddNode := λ tag info opt c, (<[tag := default ∅ (c !! tag)]> c, (info, opt), Ok tt);
  core_DelNode := λ tag c, (delete tag c, Ok tt);
  core_AddUsers := λ p c,
    (<[aup_Tag p := default ∅ (c !! aup_Tag p) ∪ list_to_set (uuids (aup_Users p))]> c,
     Ok (Z.of_nat (length (aup_Users p))));
  core_GetUserTrafficSlice := λ tag reset c, (c, Ok []);
  core_DelUsers := λ us tag info c,
    (<[tag := default ∅ (c !! tag) ∖ list_to_set (uuids us)]> c, Ok tt);
  core_Protocols := λ c, ["vless"; "trojan"]%string;
  core_Type := λ c, "spec"%string;
|}.

#[global] Program Instance SpecCore_NodeCore : NodeCore SpecCore := {|
  served := λ c tag, default ∅ (c !! tag);
  core_tag := λ tag, True;
|}.
Next Obligation. intros p c c' n [= <- <-]. by rewrite lookup_insert_eq. Qed.
Next Obligation. intros us tag info c c' [= <-]. by rewrite lookup_insert_eq. Qed.
Next Obligation. intros p c c' r tag [= <- <-] _ _ Hne. by rewrite lookup_insert_ne. Qed.
Next Obligation. intros us tag info c c' r tag' [= <- <-] _ _ Hne. by rewrite lookup_insert_ne. Qed.

#[global] Instance SpecCore_ReportFrame : ReportFrame SpecCore.
Proof. done. Qed.
