(* ===== verification/Selector.v ===== *)
(** src/core/core.go and selector.go: choosing the core of a node.

    A core object lives under its name in the selector's map, for ever; the
    pointer kept for a node is that name. *)

From S2P Require Import Prelude GoStd Lower Conf Panel Counter Core.
From stdpp Require Import prelude gmap strings.
From Stdlib Require Import ZArith Lia.

Open Scope string_scope.

Section selector.
Context {C : Type} `{CO : CoreOps C} `{RO : RangeOrder} `{CD : ConfDecoder}.

Record Selector := mkSelector { sel_cores : gmap string C; sel_nodes : gmap string string }.

(** The global table of [RegisterCore]. *)
Abbreviation core_table := (gmap string (CoreConfig → res string C)).

Definition RegisterCore (t : string) (f : CoreConfig → res string C) (cores : core_table)
    : core_table := <[t := f]> cores.

Definition RegisteredCore (cores : core_table) : list string := (range cores).*1.

(** The loop of [NewSelector]. *)
Fixpoint new_cores (cores : core_table) (c : list CoreConfig) (cs : gmap string C)
    : res string (gmap string C) :=
  match c with
  | [] => Ok cs
  | t :: c =>
      match cores !! ToLower (cc_Type t) with
      | None => Err ("unknown core type: " +:+ cc_Type t)
      | Some f =>
          core1 ← f t;
          new_cores cores c (<[(if decide (cc_Name t = "") then cc_Type t else cc_Name t) := core1]> cs)
      end
  end.

Definition NewSelector (cores : core_table) (c : list CoreConfig) : res string Selector :=
  cs ← new_cores cores c ∅; mret (mkSelector cs ∅).

(** What [NewCore] returns: one core, or a selector over several. *)
Inductive AnyCore : Type :=
| OneCore (c : C)
| ManyCores (s : Selector).

Definition NewCore (cores : core_table) (c : list CoreConfig) : res string AnyCore :=
  match c with
  | [] => Err "no have vail core"
  | [c0] =>
      match cores !! cc_Type c0 with
      | Some f => c ← f c0; mret (OneCore c)
      | None => Err "unknown core type"
      end
  | _ => s ← NewSelector cores c; mret (ManyCores s)
  end.

(** Starts the cores one after the other, up to the first error. *)
Fixpoint start_cores (es : list (string * C)) (cs : gmap string C) : gmap string C * res string unit :=
  match es with
  | [] => (cs, Ok tt)
  | (name, c) :: es =>
      let '(c, r) := core_Start c in
      let cs := <[name := c]> cs in
      match r with Ok _ => start_cores es cs | _ => (cs, r) end
  end.

Definition Selector_Start (s : Selector) : Selector * res string unit :=
  let '(cs, r) := start_cores (range (sel_cores s)) (sel_cores s) in
  (mkSelector cs (sel_nodes s), r).

(** Closes all of them and joins the errors. *)
Fixpoint close_cores (es : list (string * C)) (cs : gmap string C) (errs : list string)
    : gmap string C * res string (list string) :=
  match es with
  | [] => (cs, Ok errs)
  | (name, c) :: es =>
      let '(c, r) := core_Close c in
      let cs := <[name := c]> cs in
      match r with
      | Ok _ => close_cores es cs errs
      | Err e => close_cores es cs (errs ++ [e])
      | Panic w => (cs, Panic w)
      end
  end.

Definition Selector_Close (s : Selector) : Selector * res string unit :=
  let '(cs, r) := close_cores (range (sel_cores s)) (sel_cores s) [] in
  (mkSelector cs (sel_nodes s),
   errs ← r; match errs with [] => Ok tt | _ => Err (GoStd.Join errs (String NL "")) end).

Definition isSupported (protocol : string) (protocols : list string) : bool :=
  existsb (String.eqb protocol) protocols.

(** The test of the selection loop for one core. *)
Definition core_matches (info : NodeInfo) (opt : Options) (c : C) : bool :=
  if decide (opt_Core opt = "") then isSupported (ni_Type info) (core_Protocols c)
  else bool_decide (opt_Core opt = core_Type c).

(** The core chosen: by name, or the last of the loop that matches. *)
Definition select_core (s : Selector) (info : NodeInfo) (opt : Options) : option (string * C) :=
  if decide (opt_CoreName opt ≠ "") then
    c ← sel_cores s !! opt_CoreName opt; Some (opt_CoreName opt, c)
  else last (filter (λ e : string * C, core_matches info opt e.2) (range (sel_cores s))).

Definition fill_options (opt : Options) (c : C) : res string Options :=
  if decide (opt_Core opt = "") then
    o ← map_err (λ e, "unmarshal option error: " +:+ e)
          (Options_UnmarshalJSON (opt_RawOptions opt) (opt_with_Core (core_Type c) opt));
    mret (opt_with_RawOptions "" o)
  else Ok opt.

Definition Selector_AddNode (tag : string) (info : NodeInfo) (opt : Options) (s : Selector)
    : Selector * (NodeInfo * Options) * res string unit :=
  match select_core s info opt with
  | None => (s, (info, opt), Err "the node type is not support")
  | Some (name, core) =>
      match fill_options opt core with
      | Ok opt =>
          let '(core, io, r) := core_AddNode tag info opt core in
          let cs := <[name := core]> (sel_cores s) in
          match r with
          | Ok _ => (mkSelector cs (<[tag := name]> (sel_nodes s)), io, Ok tt)
          | _ => (mkSelector cs (sel_nodes s), io, r)
          end
      | Err e => (s, (info, opt_with_Core (core_Type core) opt), Err e)
      | Panic w => (s, (info, opt_with_Core (core_Type core) opt), Panic w)
      end
  end.

(** The core that serves a tag, and a call on it. *)
Definition node_core (s : Selector) (tag : string) : option (string * C) :=
  name ← sel_nodes s !! tag; c ← sel_cores s !! name; Some (name, c).

Definition with_node {A} (s : Selector) (tag : string) (f : C → C * res string A)
    : Selector * res string A :=
  match node_core s tag with
  | Some (name, c) =>
      let '(c, r) := f c in (mkSelector (<[name := c]> (sel_cores s)) (sel_nodes s), r)
  | None => (s, Err "the node is not have")
  end.

Definition Selector_DelNode (tag : string) (s : Selector) : Selector * res string unit :=
  let '(s, r) := with_node s tag (core_DelNode tag) in
  match r with
  | Ok _ => (mkSelector (sel_cores s) (delete tag (sel_nodes s)), Ok tt)
  | _ => (s, r)
  end.

Definition Selector_AddUsers (p : AddUsersParams) (s : Selector) : Selector * res string Z :=
  with_node s (aup_Tag p) (core_AddUsers p).

Definition Selector_GetUserTrafficSlice (tag : string) (reset : bool) (s : Selector)
    : Selector * res string (list UserTraffic) :=
  with_node s tag (core_GetUserTrafficSlice tag reset).

Definition Selector_DelUsers (users : list UserInfo) (tag : string) (info : NodeInfo) (s : Selector)
    : Selector * res string unit :=
  with_node s tag (core_DelUsers users tag info).

Definition Selector_Protocols (s : Selector) : list string :=
  range (sel_cores s) ≫= λ e, core_Protocols e.2.

Definition Selector_Type (s : Selector) : string :=
  "Selector(" +:+
  GoStd.Join ((λ e : string * C, if decide (e.1 = "") then core_Type e.2 else e.1) <$> range (sel_cores s)) " "
  +:+ ")".
End selector.
Arguments Selector : clear implicits.
Arguments AnyCore : clear implicits.

#[global] Instance Selector_ops {C} `{CoreOps C, RangeOrder, ConfDecoder} : CoreOps (Selector C) := {|
  core_Start := Selector_Start;
  core_Close := Selector_Close;
  core_AddNode := Selector_AddNode;
  core_DelNode := Selector_DelNode;
  core_AddUsers := Selector_AddUsers;
  core_GetUserTrafficSlice := Selector_GetUserTrafficSlice;
  core_DelUsers := Selector_DelUsers;
  core_Protocols := Selector_Protocols;
  core_Type := Selector_Type;
|}.

(** * Lemmas *)
Section lemmas.
Context {C : Type} `{CO : CoreOps C} `{NC : !NodeCore C} `{RO : RangeOrder} `{CD : ConfDecoder}.
Implicit Types s : Selector C.

Lemma select_core_spec s info opt name c :
  select_core s info opt = Some (name, c) →
  sel_cores s !! name = Some c ∧
  (if decide (opt_CoreName opt = "") then core_matches info opt c = true
   else name = opt_CoreName opt).
Proof.
  unfold select_core. destruct (decide (opt_CoreName opt = "")) as [He|He].
  - rewrite decide_False by tauto. intros Hl. apply last_Some in Hl as [l Hl].
    assert ((name, c) ∈ filter (λ e : string * C, core_matches info opt e.2) (range (sel_cores s)))
      as [Hm Hin]%list_elem_of_filter by (rewrite Hl; set_solver).
    apply elem_of_range in Hin. split; [done|]. by apply Is_true_eq_true.
  - rewrite decide_True by done. destruct (sel_cores s !! _) eqn:Hc; intros [= <- <-]. done.
Qed.

Lemma select_core_None s info opt :
  opt_CoreName opt = "" → select_core s info opt = None →
  ∀ name c, sel_cores s !! name = Some c → core_matches info opt c = false.
Proof.
  unfold select_core. intros He. rewrite decide_False by tauto. intros Hl name c Hc.
  apply last_None in Hl. destruct (core_matches info opt c) eqn:Hm; [|done].
  assert ((name, c) ∈ filter (λ e : string * C, core_matches info opt e.2) (range (sel_cores s))) as Hin.
  { apply list_elem_of_filter. split; [by apply Is_true_eq_left|by apply elem_of_range]. }
  rewrite Hl in Hin. by apply not_elem_of_nil in Hin.
Qed.

(** The users a selector serves under a tag: those of the node's core. *)
Definition sel_served s (tag : string) : gset string :=
  match node_core s tag with Some (_, c) => served c tag | None => ∅ end.

Lemma node_core_Some s tag name c :
  node_core s tag = Some (name, c) ↔ sel_nodes s !! tag = Some name ∧ sel_cores s !! name = Some c.
Proof.
  unfold node_core. destruct (sel_nodes s !! tag) as [n|]; simpl; [|naive_solver].
  destruct (sel_cores s !! n) eqn:Hc; simpl; naive_solver.
Qed.

Lemma node_core_update s tag name c c' :
  node_core s tag = Some (name, c) →
  node_core (mkSelector (<[name := c']> (sel_cores s)) (sel_nodes s)) tag = Some (name, c').
Proof.
  rewrite !node_core_Some. simpl. rewrite lookup_insert_eq. naive_solver.
Qed.

(** A call on the core of one tag seen from another tag. *)
Lemma sel_served_other s tag tag' name c c' :
  node_core s tag = Some (name, c) → served c' tag' = served c tag' →
  sel_served (mkSelector (<[name := c']> (sel_cores s)) (sel_nodes s)) tag' = sel_served s tag'.
Proof.
  rewrite node_core_Some. intros [_ Hc] Hs. unfold sel_served, node_core. simpl.
  destruct (sel_nodes s !! tag') as [n|]; simpl; [|done].
  destruct (decide (n = name)) as [->|Hne].
  - rewrite lookup_insert_eq, Hc. done.
  - by rewrite lookup_insert_ne.
Qed.

(** A call on the core of a tag: what is served under the tag, and elsewhere. *)
Lemma with_node_served {A} s tag (f : C → C * res string A) s' r :
  with_node s tag f = (s', r) →
  match node_core s tag with
  | Some (_, c) => ∃ c', f c = (c', r) ∧ sel_served s tag = served c tag ∧ sel_served s' tag = served c' tag
  | None => s' = s ∧ r = Err "the node is not have"
  end.
Proof.
  unfold with_node. destruct (node_core s tag) as [[name c]|] eqn:Hn; [|by intros [= <- <-]].
  destruct (f c) as [c' r'] eqn:Hf. intros [= <- <-]. exists c'. split; [done|].
  unfold sel_served. by rewrite Hn, (node_core_update s _ name c c').
Qed.

Lemma with_node_other {A} s tag tag' (f : C → C * res string A) s' r :
  with_node s tag f = (s', r) → (∀ c c' r', f c = (c', r') → served c' tag' = served c tag') →
  sel_served s' tag' = sel_served s tag'.
Proof.
  unfold with_node. destruct (node_core s tag) as [[name c]|] eqn:Hn; [|by intros [= <- <-]].
  destruct (f c) as [c' r'] eqn:Hf. intros [= <- <-] Hother. eapply sel_served_other; [done|].
  by eapply Hother.
Qed.

(** A selector over cores that keep the contract keeps it too, so that the
    theorems about the controller apply to it. *)
#[global] Program Instance Selector_NodeCore : NodeCore (Selector C) := {|
  served := sel_served;
  core_tag := core_tag;
|}.
Next Obligation.
  intros p s s' n Ha%with_node_served. destruct (node_core s (aup_Tag p)) as [[name c]|];
    [|by destruct Ha]. destruct Ha as (c' & [Hs Hn]%AddUsers_served & -> & ->). done.
Qed.
Next Obligation.
  intros us tag info s s' Hd%with_node_served. destruct (node_core s tag) as [[name c]|];
    [|by destruct Hd]. destruct Hd as (c' & Hs%DelUsers_served & -> & ->). done.
Qed.
Next Obligation.
  intros p s s' r tag Ha Ht Hp Hne. eapply with_node_other; [exact Ha|].
  intros c c' r' Hc. by eapply AddUsers_other.
Qed.
Next Obligation.
  intros us tag info s s' r tag' Hd Ht Ht' Hne. eapply with_node_other; [exact Hd|].
  intros c c' r' Hc. by eapply DelUsers_other.
Qed.

#[global] Instance Selector_ReportFrame : ReportFrame C → ReportFrame (Selector C).
Proof.
  intros Hf tag reset s tag'. destruct (core_GetUserTrafficSlice tag reset s) as [s' r] eqn:Hs.
  eapply with_node_other; [exact Hs|]. intros c c' r' Hc. by rewrite <- (Hf tag reset c tag'), Hc.
Qed.

(** * Properties *)

(** A node that [AddNode] accepts is served from then on by one core of the
    selector: the named one when the options name a core, otherwise one whose
    type is the requested one, or whose protocols include the node's type when
    none is requested; the options handed to that core name its type; and the
    routing of every other tag is as before.  A node that no core fits is
    refused without any change. *)
Theorem Selector_AddNode_routes tag info opt s s' io r :
  Selector_AddNode tag info opt s = (s', io, r) →
  match r with
  | Ok _ => ∃ name c c' opt' io',
      sel_cores s !! name = Some c ∧
      (if decide (opt_CoreName opt = "") then core_matches info opt c = true
       else name = opt_CoreName opt) ∧
      fill_options opt c = Ok opt' ∧ core_AddNode tag info opt' c = (c', io', Ok tt) ∧
      node_core s' tag = Some (name, c') ∧
      (∀ tag', tag' ≠ tag → sel_nodes s' !! tag' = sel_nodes s !! tag') ∧
      (∀ n, n ≠ name → sel_cores s' !! n = sel_cores s !! n)
  | _ => sel_nodes s' = sel_nodes s ∧ (select_core s info opt = None → s' = s)
  end.
Proof.
  unfold Selector_AddNode. destruct (select_core s info opt) as [[name c]|] eqn:Hsel;
    [|by intros [= <- <- <-]].
  destruct (select_core_spec s info opt name c Hsel) as [Hc Hm].
  destruct (fill_options opt c) as [opt'|e|w] eqn:Hf; [|by intros [= <- <- <-]..].
  destruct (core_AddNode tag info opt' c) as [[c' io'] rr] eqn:Ha.
  destruct rr as [[]|e|w]; intros [= <- <- <-]; [|by split..].
  exists name, c, c', opt', io'. split_and!; try done.
  - apply node_core_Some. simpl. by rewrite !lookup_insert_eq.
  - intros tag' Hne. simpl. by rewrite lookup_insert_ne.
  - intros n Hne. simpl. by rewrite lookup_insert_ne.
Qed.

(** C9: the selector keeps the contract of its cores: a successful [AddUsers]
    or [DelUsers] on a tag adds or removes exactly these users of that node, a
    call on one tag never changes the users served under another, whether or
    not both live in the same core, and a call on an unknown tag is an error
    and changes nothing. *)
Theorem Selector_users_contract p us info tag s :
  aup_Tag p = tag → core_tag tag →
  let '(s1, r1) := Selector_AddUsers p s in
  let '(s2, r2) := Selector_DelUsers us tag info s in
  (∀ n, r1 = Ok n →
     sel_served s1 tag = sel_served s tag ∪ list_to_set (uuids (aup_Users p))) ∧
  (r2 = Ok tt → sel_served s2 tag = sel_served s tag ∖ list_to_set (uuids us)) ∧
  (∀ tag', core_tag tag' → tag' ≠ tag →
     sel_served s1 tag' = sel_served s tag' ∧ sel_served s2 tag' = sel_served s tag') ∧
  (node_core s tag = None → s1 = s ∧ s2 = s ∧ r1 = Err "the node is not have" ∧
                            r2 = Err "the node is not have").
Proof.
  intros <- Htag. destruct (Selector_AddUsers p s) as [s1 r1] eqn:H1.
  destruct (Selector_DelUsers us (aup_Tag p) info s) as [s2 r2] eqn:H2.
  pose proof (with_node_served _ _ _ _ _ H1) as E1.
  pose proof (with_node_served _ _ _ _ _ H2) as E2.
  destruct (node_core s (aup_Tag p)) as [[name c]|].
  - destruct E1 as (c1 & F1 & Es & ->), E2 as (c2 & F2 & _ & ->). rewrite Es. split_and!; [..|done].
    + intros n ->. by apply AddUsers_served in F1 as [-> _].
    + intros ->. by eapply DelUsers_served.
    + intros tag' Ht Hne. split; [eapply with_node_other; [exact H1|]|eapply with_node_other; [exact H2|]];
        intros; [by eapply AddUsers_other|by eapply DelUsers_other].
  - destruct E1 as [-> ->], E2 as [-> ->]. naive_solver.
Qed.
End lemmas.

(** * Witnesses: two abstract cores *)
#[local] Instance wit_decoder : ConfDecoder := {|
  unmarshal_Options := λ _ o, Ok o;
  unmarshal_XrayOptions := λ _ o, Ok o;
  unmarshal_SingOptions := λ _ o, Ok o;
  unmarshal_ApiConfig := λ _ o, Ok o;
|}.

Definition wit_info : NodeInfo :=
  mkNodeInfo 1 "trojan" 0 0 0 RawDNS_empty Rules_empty None None None None None None None None None
    false false.

Definition wit_selector : Selector SpecCore :=
  mkSelector {["a" := ∅; "b" := ∅]} ∅.

(** A node is added by name to core b, then one of its two users deleted. *)
Definition wit_opts : Options :=
  mkOptions "" "spec" "b" "" "" 0 0 LimitConfig_zero "" None None "" None.
Definition wit_added : Selector SpecCore :=
  (@Selector_AddNode _ _ canonical_order _ "n" wit_info wit_opts wit_selector).1.1.
Definition wit_params : AddUsersParams :=
  mkAddUsersParams "n" [mkUserInfo 1 "u" 0 0; mkUserInfo 2 "v" 0 0] wit_info.

Lemma Selector_AddNode_routes_witness :
  ∃ c', node_core wit_added "n" = Some ("b", c').
Proof.
  pose proof (@Selector_AddNode_routes SpecCore _ canonical_order _ "n" wit_info wit_opts wit_selector
    wit_added (wit_info, wit_opts) (Ok tt)) as H.
  destruct H as (name & c & c' & opt' & io' & _ & Hn & _ & _ & H & _); [vm_compute; reflexivity|].
  simpl in Hn. subst. exists c'. exact H.
Defined.

Lemma Selector_users_contract_witness :
  sel_served (Selector_AddUsers wit_params wit_added).1 "n" = {["u"; "v"]}.
Proof.
  pose proof (@Selector_users_contract SpecCore _ _ wit_params [] wit_info "n" wit_added) as H.
  destruct (Selector_AddUsers wit_params wit_added) as [s1 r1] eqn:E1.
  destruct (Selector_DelUsers [] "n" wit_info wit_added) as [s2 r2].
  destruct H as (H & _); [done|done|].
  assert (r1 = Ok 2%Z) as Hr by (assert ((Selector_AddUsers wit_params wit_added).2 = Ok 2%Z) as Hv
    by (vm_compute; reflexivity); rewrite E1 in Hv; exact Hv).
  cbn [fst]. rewrite (H 2%Z Hr). vm_compute. reflexivity.
Defined.
