(* ===== verification/Host.v ===== *)
(** What the cores use of the host: files (package os), the environment, random
    bytes (crypto/rand). *)

From S2P Require Import Prelude.
From stdpp Require Import prelude strings.

Class HostOS := {
  W : Type;
  ReadFile : string → W → res string string;
  WriteFile : string → string → W → W * option string;
  Truncate : string → W → W * option string;
  Getenv : string → W → string;
  Setenv : string → string → W → W;
  rand_Read : nat → W → W * res string string;
}.
