(* ===== verification/XrayInbound.v ===== *)
(** The inbound of an xray node: src/core/xray/inbound.go.

    The configuration structs of xray-core's infra/conf are records of the
    fields the program sets; what else they hold, how they are decoded from and
    encoded to JSON, and how a handler configuration is built from them, are
    parameters ([XrayConfLib], [XrayConfJson]).  [crypto/rand] is an argument:
    the outcome of the one read. *)

From S2P Require Import Prelude GoStd GoText Lower Conf Panel.
From stdpp Require Import prelude gmap strings.
From Stdlib Require Import Ascii ZArith Lia.

Open Scope string_scope.

Class XrayConfLib := {
  XAddress : Type;
  net_ParseAddress : string → XAddress;
  TCPRest : Type; tcp_rest_zero : TCPRest;
  WSRest : Type; ws_rest_zero : WSRest;
  GRPCConfig : Type;
  HttpUpgradeConfig : Type;
  SplitHTTPConfig : Type;
  InboundHandlerConfig : Type;
}.

Section structs.
Context `{XC : XrayConfLib}.

Record TCPConfig := mkTCPConfig { tcp_AcceptProxyProtocol : bool; tcp_rest : TCPRest }.
Record WebSocketConfig := mkWebSocketConfig { ws_AcceptProxyProtocol : bool; ws_rest : WSRest }.
Record SocketConfig := mkSocketConfig { sock_AcceptProxyProtocol : bool; sock_TFO : bool }.

Record TLSCertConfig := mkTLSCertConfig {
  tc_CertFile : string; tc_KeyFile : string; tc_OcspStapling : Z;
}.
Record TLSConfig := mkTLSConfig { tls_Certs : list TLSCertConfig; tls_RejectUnknownSNI : bool }.

Record REALITYConfig := mkREALITYConfig {
  re_Dest : string;                 (* raw JSON *)
  re_Xver : Z;
  re_Show : bool;
  re_ServerNames : list string;
  re_PrivateKey : string;
  re_MinClientVer : string;
  re_MaxClientVer : string;
  re_MaxTimeDiff : Z;
  re_ShortIds : list string;
  re_Mldsa65Seed : string;
}.

Record StreamConfig := mkStreamConfig {
  st_Network : option string;
  st_Security : string;
  st_TCPSettings : option TCPConfig;
  st_WSSettings : option WebSocketConfig;
  st_GRPCSettings : option GRPCConfig;
  st_HTTPUPGRADESettings : option HttpUpgradeConfig;
  st_SplitHTTPSettings : option SplitHTTPConfig;
  st_SocketSettings : option SocketConfig;
  st_TLSSettings : option TLSConfig;
  st_REALITYSettings : option REALITYConfig;
}.

Definition stream_of (network : string) : StreamConfig :=
  mkStreamConfig (Some network) "" None None None None None None None None.

Record SniffingConfig := mkSniffingConfig { sn_Enabled : bool; sn_DestOverride : list string }.

Record InboundDetourConfig := mkInboundDetourConfig {
  in_Protocol : string;
  in_PortList : option (list (Z * Z));
  in_ListenOn : option XAddress;
  in_Settings : option string;      (* raw JSON *)
  in_Tag : string;
  in_StreamSetting : option StreamConfig;
  in_SniffingConfig : option SniffingConfig;
}.

Definition InboundDetourConfig_zero : InboundDetourConfig :=
  mkInboundDetourConfig "" None None None "" None None.

(** Fallbacks of vless and of trojan: two types with these fields. *)
Record InboundFallback := mkInboundFallback {
  if_Name : string; if_Alpn : string; if_Path : string; if_Dest : string; if_Xver : Z;
}.

Record VLessInboundConfig := mkVLessInboundConfig {
  vl_Decryption : string; vl_Fallbacks : list InboundFallback;
}.

Record ShadowsocksUserConfig := mkShadowsocksUserConfig { su_Cipher : string; su_Password : string }.
Record ShadowsocksServerConfig := mkShadowsocksServerConfig {
  sv_Cipher : string; sv_Password : string; sv_Users : list ShadowsocksUserConfig;
  sv_NetworkList : list string;
}.
End structs.

(** Decoding into and encoding of these structs, and [Build]. *)
Class XrayConfJson `{XrayConfLib} := {
  unmarshal_TCPConfig : string → res string (option TCPConfig);
  unmarshal_WebSocketConfig : string → res string (option WebSocketConfig);
  unmarshal_GRPCConfig : string → res string (option GRPCConfig);
  unmarshal_HttpUpgradeConfig : string → res string (option HttpUpgradeConfig);
  unmarshal_SplitHTTPConfig : string → res string (option SplitHTTPConfig);
  marshal_VLessInboundConfig : VLessInboundConfig → res string string;
  marshal_VMessInboundConfig : res string string;          (* of the zero value *)
  marshal_TrojanServerConfig : list InboundFallback → res string string;
  marshal_ShadowsocksServerConfig : ShadowsocksServerConfig → res string string;
  inbound_Build : InboundDetourConfig → res string InboundHandlerConfig;
}.

(** * Normalisation *)
Definition normalizeTransportNetwork (network : string) : string :=
  let n := ToLower (TrimSpace network) in
  if decide (n = "") then "tcp" else if decide (n = "http") then "httpupgrade" else n.

Definition normalizeTrojanNetwork (network : string) : res string string :=
  let network := normalizeTransportNetwork network in
  if decide (network ∈ ["tcp"; "ws"; "grpc"]) then Ok network
  else Err ("network " +:+ network +:+ " is not supported for trojan; use tcp/ws/grpc").

(** nil is the empty string. *)
Definition normalizeNetworkSettings (raw : string) : string :=
  let trimmed := TrimSpace raw in
  if decide (trimmed = "" ∨ trimmed = "null") then ""
  else if decide (trimmed = "[]") then "{}" else trimmed.

(** * Builders *)
Fixpoint build_fallbacks (l : list FallBackConfigForXray) : res string (list InboundFallback) :=
  match l with
  | [] => Ok []
  | c :: l =>
      if decide (fb_Dest c = "") then Err "dest is required for fallback"
      else
        fs ← build_fallbacks l;
        mret (mkInboundFallback (fb_SNI c) (fb_Alpn c) (fb_Path c) (json_string (fb_Dest c))
                (fb_ProxyProtocolVer c) :: fs)
  end.

Definition buildVlessFallbacks (l : option (list FallBackConfigForXray)) : res string (list InboundFallback) :=
  match l with None => Err "you must provide FallBackConfigs" | Some l => build_fallbacks l end.
Definition buildTrojanFallbacks (l : option (list FallBackConfigForXray)) : res string (list InboundFallback) :=
  match l with None => Err "you must provide FallBackConfigs" | Some l => build_fallbacks l end.

Definition va_with_Network (n : string) (v : VAllssNode) : VAllssNode :=
  mkVAllssNode (va_Common v) (va_Tls v) (va_TlsSettings v) (va_TlsSettingsBack v) n
    (va_NetworkSettings v) (va_NetworkSettingsBack v) (va_Encryption v) (va_EncryptionSettings v)
    (va_ServerName v) (va_Flow v) (va_RealityConfig v).
Definition tr_with_Network (n : string) (v : TrojanNode) : TrojanNode :=
  mkTrojanNode (tr_Common v) n (tr_NetworkSettings v) (tr_NetworkSettingsSnake v)
    (tr_TlsSettings v) (tr_TlsSettingsBack v).
Definition ni_with_VAllss (v : VAllssNode) (n : NodeInfo) : NodeInfo :=
  mkNodeInfo (ni_Id n) (ni_Type n) (ni_Security n) (ni_PushInterval n) (ni_PullInterval n)
    (ni_RawDNS n) (ni_Rules n) (Some v) (ni_Shadowsocks n) (ni_Trojan n) (ni_Tuic n) (ni_AnyTls n)
    (ni_Hysteria n) (ni_Hysteria2 n) (ni_Common n) (ni_PanelCertConfig n)
    (ni_PanelCertSelfFallbackSet n) (ni_PanelCertRejectUnknownSniSet n).
Definition ni_with_Trojan (v : TrojanNode) (n : NodeInfo) : NodeInfo :=
  mkNodeInfo (ni_Id n) (ni_Type n) (ni_Security n) (ni_PushInterval n) (ni_PullInterval n)
    (ni_RawDNS n) (ni_Rules n) (ni_VAllss n) (ni_Shadowsocks n) (Some v) (ni_Tuic n) (ni_AnyTls n)
    (ni_Hysteria n) (ni_Hysteria2 n) (ni_Common n) (ni_PanelCertConfig n)
    (ni_PanelCertSelfFallbackSet n) (ni_PanelCertRejectUnknownSniSet n).

Section builders.
Context `{XC : XrayConfLib, XJ : !XrayConfJson}.

Definition in_with_stream (s : StreamConfig) (i : InboundDetourConfig) : InboundDetourConfig :=
  mkInboundDetourConfig (in_Protocol i) (in_PortList i) (in_ListenOn i) (in_Settings i) (in_Tag i)
    (Some s) (in_SniffingConfig i).

Definition st_with_TCP x (s : StreamConfig) := mkStreamConfig (st_Network s) (st_Security s) x
  (st_WSSettings s) (st_GRPCSettings s) (st_HTTPUPGRADESettings s) (st_SplitHTTPSettings s)
  (st_SocketSettings s) (st_TLSSettings s) (st_REALITYSettings s).
Definition st_with_WS x (s : StreamConfig) := mkStreamConfig (st_Network s) (st_Security s)
  (st_TCPSettings s) x (st_GRPCSettings s) (st_HTTPUPGRADESettings s) (st_SplitHTTPSettings s)
  (st_SocketSettings s) (st_TLSSettings s) (st_REALITYSettings s).
Definition st_with_GRPC x (s : StreamConfig) := mkStreamConfig (st_Network s) (st_Security s)
  (st_TCPSettings s) (st_WSSettings s) x (st_HTTPUPGRADESettings s) (st_SplitHTTPSettings s)
  (st_SocketSettings s) (st_TLSSettings s) (st_REALITYSettings s).
Definition st_with_HTTPUPGRADE x (s : StreamConfig) := mkStreamConfig (st_Network s) (st_Security s)
  (st_TCPSettings s) (st_WSSettings s) (st_GRPCSettings s) x (st_SplitHTTPSettings s)
  (st_SocketSettings s) (st_TLSSettings s) (st_REALITYSettings s).
Definition st_with_SplitHTTP x (s : StreamConfig) := mkStreamConfig (st_Network s) (st_Security s)
  (st_TCPSettings s) (st_WSSettings s) (st_GRPCSettings s) (st_HTTPUPGRADESettings s) x
  (st_SocketSettings s) (st_TLSSettings s) (st_REALITYSettings s).
Definition st_with_Socket x (s : StreamConfig) := mkStreamConfig (st_Network s) (st_Security s)
  (st_TCPSettings s) (st_WSSettings s) (st_GRPCSettings s) (st_HTTPUPGRADESettings s)
  (st_SplitHTTPSettings s) (Some x) (st_TLSSettings s) (st_REALITYSettings s).
Definition st_with_TLS x (s : StreamConfig) := mkStreamConfig (st_Network s) "tls"
  (st_TCPSettings s) (st_WSSettings s) (st_GRPCSettings s) (st_HTTPUPGRADESettings s)
  (st_SplitHTTPSettings s) (st_SocketSettings s) (Some x) (st_REALITYSettings s).
Definition st_with_REALITY x (s : StreamConfig) := mkStreamConfig (st_Network s) "reality"
  (st_TCPSettings s) (st_WSSettings s) (st_GRPCSettings s) (st_HTTPUPGRADESettings s)
  (st_SplitHTTPSettings s) (st_SocketSettings s) (st_TLSSettings s) (Some x).

Definition unmarshal_err {A} (what : string) : res string A → res string A :=
  map_err (λ e, "unmarshal " +:+ what +:+ " settings error: " +:+ e).

(** The [decryption] of vless without fallbacks. *)
Definition vless_decryption (v : VAllssNode) : res string string :=
  if decide (va_Encryption v = "") then Ok "none"
  else if decide (va_Encryption v = "mlkem768x25519plus") then
    let e := va_EncryptionSettings v in
    Ok (GoStd.Join (["mlkem768x25519plus"; enc_Mode e; enc_Ticket e]
              ++ (if decide (enc_ServerPadding e = "") then [] else [enc_ServerPadding e])
              ++ [enc_PrivateKey e])%list ".")
  else Err ("vless decryption method " +:+ va_Encryption v +:+ " is not support").

(** Protocol and settings, the first part of [buildV2ray]. *)
Definition v2ray_settings (config : Options) (info : NodeInfo) (v : VAllssNode)
    : res string (string * string) :=
  if decide (ni_Type info = "vless") then
    xo ← deref (opt_XrayOptions config);
    if xo_EnableFallback xo then
      fallbackConfigs ← buildVlessFallbacks (xo_FallBackConfigs xo);
      s ← map_err (λ e, "marshal vless fallback config error: " +:+ e)
            (marshal_VLessInboundConfig (mkVLessInboundConfig "none" fallbackConfigs));
      mret ("vless", s)
    else
      decryption ← vless_decryption v;
      s ← map_err (λ e, "marshal vless config error: " +:+ e)
            (marshal_VLessInboundConfig (mkVLessInboundConfig decryption []));
      mret ("vless", s)
  else
    s ← map_err (λ e, "marshal vmess settings error: " +:+ e) marshal_VMessInboundConfig;
    mret ("vmess", s).

Definition v2ray_networks : list string := ["tcp"; "ws"; "grpc"; "httpupgrade"; "splithttp"; "xhttp"].

(** The settings of the transport, decoded into the field of the network; the
    trojan switch is the same for its three networks. *)
Definition decode_transport (network settings : string) (s : StreamConfig) : res string StreamConfig :=
  if decide (network = "tcp") then
    x ← unmarshal_err "tcp" (unmarshal_TCPConfig settings); mret (st_with_TCP x s)
  else if decide (network = "ws") then
    x ← unmarshal_err "ws" (unmarshal_WebSocketConfig settings); mret (st_with_WS x s)
  else if decide (network = "grpc") then
    x ← unmarshal_err "grpc" (unmarshal_GRPCConfig settings); mret (st_with_GRPC x s)
  else if decide (network = "httpupgrade") then
    x ← unmarshal_err "httpupgrade" (unmarshal_HttpUpgradeConfig settings);
    mret (st_with_HTTPUPGRADE x s)
  else if decide (network = "splithttp" ∨ network = "xhttp") then
    x ← unmarshal_err "xhttp" (unmarshal_SplitHTTPConfig settings); mret (st_with_SplitHTTP x s)
  else Ok s.

Definition v2ray_stream (info : NodeInfo) (network raw : string) : res string StreamConfig :=
  let settings := normalizeNetworkSettings raw in
  if decide (network ∈ v2ray_networks) then
    if decide (settings = "") then Ok (stream_of network)
    else decode_transport network settings (stream_of network)
  else Err ("network " +:+ network +:+ " is not supported for " +:+ ni_Type info).

(** The node is updated in place: its network is normalised. *)
Definition buildV2ray (config : Options) (info : NodeInfo) (inbound : InboundDetourConfig)
    : NodeInfo * res string InboundDetourConfig :=
  match ni_VAllss info with
  | None => (info, nil_pointer)
  | Some v =>
      let network := normalizeTransportNetwork (va_Network v) in
      let v := va_with_Network network v in
      (ni_with_VAllss v info,
       '(protocol, s) ← v2ray_settings config info v;
       stream ← v2ray_stream info network (va_NetworkSettings v);
       mret (mkInboundDetourConfig protocol (in_PortList inbound) (in_ListenOn inbound) (Some s)
               (in_Tag inbound) (Some stream) (in_SniffingConfig inbound)))
  end.

Definition trojan_settings (config : Options) : res string string :=
  xo ← deref (opt_XrayOptions config);
  if xo_EnableFallback xo then
    fallbackConfigs ← buildTrojanFallbacks (xo_FallBackConfigs xo);
    map_err (λ e, "marshal trojan fallback config error: " +:+ e)
      (marshal_TrojanServerConfig fallbackConfigs)
  else Ok "{}".

Definition trojan_stream (network raw : string) : res string StreamConfig :=
  let settings := normalizeNetworkSettings raw in
  if decide (settings = "") then Ok (stream_of network)
  else if decide (network ∈ ["tcp"; "ws"; "grpc"]) then
    decode_transport network settings (stream_of network)
  else Err ("network " +:+ network +:+ " is not supported for trojan; use tcp/ws/grpc").

Definition buildTrojan (config : Options) (info : NodeInfo) (inbound : InboundDetourConfig)
    : NodeInfo * res string InboundDetourConfig :=
  match trojan_settings config with
  | Ok s =>
      match ni_Trojan info with
      | None => (info, nil_pointer)
      | Some v =>
          match normalizeTrojanNetwork (tr_Network v) with
          | Ok network =>
              (ni_with_Trojan (tr_with_Network network v) info,
               stream ← trojan_stream network (tr_NetworkSettings v);
               mret (mkInboundDetourConfig "trojan" (in_PortList inbound) (in_ListenOn inbound)
                       (Some s) (in_Tag inbound) (Some stream) (in_SniffingConfig inbound)))
          | Err e => (info, Err e)
          | Panic w => (info, Panic w)
          end
      end
  | Err e => (info, Err e)
  | Panic w => (info, Panic w)
  end.

(** [rnd] is the outcome of reading 32 random bytes. *)
Definition buildShadowsocks (rnd : res string string) (info : NodeInfo) (inbound : InboundDetourConfig)
    : res string InboundDetourConfig :=
  s ← deref (ni_Shadowsocks info);
  p ← map_err (λ e, "generate random password error: " +:+ e) rnd;
  let randomPasswd := hex_Encode p in
  let '(password, user) :=
    if decide (ss_ServerKey s = "") then
      ("", mkShadowsocksUserConfig (ss_Cipher s) randomPasswd)
    else (ss_ServerKey s, mkShadowsocksUserConfig "" (base64_Encode randomPasswd)) in
  sets ← map_err (λ e, "marshal shadowsocks settings error: " +:+ e)
           (marshal_ShadowsocksServerConfig
              (mkShadowsocksServerConfig (ss_Cipher s) password [user] ["tcp"; "udp"]));
  mret (mkInboundDetourConfig "shadowsocks" (in_PortList inbound) (in_ListenOn inbound) (Some sets)
          (in_Tag inbound) (Some (stream_of "tcp")) (in_SniffingConfig inbound)).

(** * buildInbound *)

(** Lines 26-45: the builder of the node's type, and the network read from the
    node after it, whether or not it failed. *)
Definition build_protocol (rnd : res string string) (option : Options) (info : NodeInfo)
    : NodeInfo * res string (InboundDetourConfig * string) :=
  let in_ := InboundDetourConfig_zero in
  let after (r : res string InboundDetourConfig) (network : res string string) :=
    match r with
    | Panic w => Panic w
    | _ => network ← network; in_ ← r; Ok (in_, network)
    end in
  if decide (ni_Type info = "vmess" ∨ ni_Type info = "vless") then
    let '(info, r) := buildV2ray option info in_ in
    (info, after r (v ← deref (ni_VAllss info); Ok (va_Network v)))
  else if decide (ni_Type info = "trojan") then
    let '(info, r) := buildTrojan option info in_ in
    (info, after r (t ← deref (ni_Trojan info);
                    Ok (if decide (tr_Network t = "") then "tcp" else tr_Network t)))
  else if decide (ni_Type info = "shadowsocks") then
    (info, after (buildShadowsocks rnd info in_) (Ok "tcp"))
  else (info, Err ("unsupported node type: " +:+ ni_Type info)).

(** Lines 72-96: the proxy protocol and TFO. *)
Definition set_transport_options (network : string) (xo : XrayOptions) (s : StreamConfig) : StreamConfig :=
  let accept := xo_EnableProxyProtocol xo in
  if decide (network = "tcp") then
    st_with_TCP (Some (match st_TCPSettings s with
                       | Some t => mkTCPConfig accept (tcp_rest t)
                       | None => mkTCPConfig accept tcp_rest_zero end)) s
  else if decide (network = "ws") then
    st_with_WS (Some (match st_WSSettings s with
                      | Some t => mkWebSocketConfig accept (ws_rest t)
                      | None => mkWebSocketConfig accept ws_rest_zero end)) s
  else st_with_Socket (mkSocketConfig accept (xo_EnableTFO xo)) s.

Definition reality_dest (v : VAllssNode) : string :=
  let t := va_TlsSettings v in
  (if decide (tls_Dest t = "") then tls_ServerName t else tls_Dest t) +:+ ":" +:+ tls_ServerPort t.

(** uint64(mtd.Microseconds()); an unparsable text counts as 0. *)
Definition reality_MaxTimeDiff (text : string) : Z := wrapu64 (Microseconds (ParseDuration text).1).

Definition reality_config (v : VAllssNode) : REALITYConfig :=
  let t := va_TlsSettings v in
  let rc := va_RealityConfig v in
  mkREALITYConfig (json_string (reality_dest v))
    (if (tls_Xver t =? 0)%Z then rc_Xver rc else tls_Xver t) false [tls_ServerName t]
    (tls_PrivateKey t) (rc_MinClientVer rc) (rc_MaxClientVer rc)
    (reality_MaxTimeDiff (rc_MaxTimeDiff rc)) [tls_ShortId t] (tls_Mldsa65Seed t).

Definition cert_off (c : CertConfig) : bool :=
  String.eqb (cert_CertMode c) "none" || String.eqb (cert_CertMode c) "".

(** Lines 98-160: TLS or Reality. *)
Definition set_security (option : Options) (info : NodeInfo) (s : StreamConfig) : res string StreamConfig :=
  if (ni_Security info =? Tls)%Z then
    match opt_CertConfig option with
    | None => Err "the CertConfig is not vail"
    | Some c =>
        if cert_off c then Ok s
        else Ok (st_with_TLS (mkTLSConfig [mkTLSCertConfig (cert_CertFile c) (cert_KeyFile c) 3600]
                                (cert_RejectUnknownSni c)) s)
    end
  else if (ni_Security info =? Reality)%Z then
    v ← deref (ni_VAllss info);
    Ok (st_with_REALITY (reality_config v) s)
  else Ok s.

(** Lines 46-161: the part that all protocols share. *)
Definition finish_inbound (option : Options) (info : NodeInfo) (tag network : string)
    (in_ : InboundDetourConfig) : res string InboundDetourConfig :=
  let network := normalizeTransportNetwork network in
  let s := default (stream_of network) (in_StreamSetting in_) in
  cm ← deref (ni_Common info);
  let port := wrapu32 (cn_ServerPort cm) in
  let ipAddress := net_ParseAddress (opt_ListenIP option) in
  xo ← deref (opt_XrayOptions option);
  let sniffing := mkSniffingConfig (negb (xo_DisableSniffing xo)) ["http"; "tls"] in
  s ← set_security option info (set_transport_options network xo s);
  Ok (mkInboundDetourConfig (in_Protocol in_) (Some [(port, port)]) (Some ipAddress)
        (in_Settings in_) tag (Some s) (Some sniffing)).

Definition buildInbound (rnd : res string string) (option : Options) (info : NodeInfo) (tag : string)
    : NodeInfo * res string InboundHandlerConfig :=
  let '(info, r) := build_protocol rnd option info in
  (info,
   '(in_, network) ← r;
   in_ ← finish_inbound option info tag network in_;
   inbound_Build in_).
End builders.

(** * Lemmas: normalisation *)

Lemma normalizeTransportNetwork_idem n :
  normalizeTransportNetwork (normalizeTransportNetwork n) = normalizeTransportNetwork n.
Proof.
  unfold normalizeTransportNetwork at 2 3.
  destruct (decide (ToLower (TrimSpace n) = "")) as [|H1]; [done|].
  destruct (decide (ToLower (TrimSpace n) = "http")) as [|H2]; [done|].
  unfold normalizeTransportNetwork. destruct (TrimSpace_ends n) as [Hl Hr].
  rewrite (TrimSpace_id (ToLower (TrimSpace n)))
    by (by apply strip_space_l_ToLower || by apply strip_space_r_ToLower).
  by rewrite ToLower_idem, !decide_False.
Qed.

(** * Specification *)
Section spec.
Context `{XC : XrayConfLib, XJ : !XrayConfJson}.

(** The network of a node, and the node with it normalised. *)
Definition node_network (info : NodeInfo) : string :=
  if decide (ni_Type info = "vmess" ∨ ni_Type info = "vless") then
    normalizeTransportNetwork (default "" (va_Network <$> ni_VAllss info))
  else if decide (ni_Type info = "trojan") then
    normalizeTransportNetwork (default "" (tr_Network <$> ni_Trojan info))
  else "tcp".

Definition normal_node (info : NodeInfo) : NodeInfo :=
  if decide (ni_Type info = "vmess" ∨ ni_Type info = "vless") then
    match ni_VAllss info with
    | Some v => ni_with_VAllss (va_with_Network (node_network info) v) info
    | None => info
    end
  else if decide (ni_Type info = "trojan") then
    match ni_Trojan info with
    | Some v => ni_with_Trojan (tr_with_Network (node_network info) v) info
    | None => info
    end
  else info.

(** The stream settings a network may carry: only its own. *)
Definition only_settings_of (network : string) (s : StreamConfig) : Prop :=
  (st_TCPSettings s ≠ None → network = "tcp") ∧
  (st_WSSettings s ≠ None → network = "ws") ∧
  (st_GRPCSettings s ≠ None → network = "grpc") ∧
  (st_HTTPUPGRADESettings s ≠ None → network = "httpupgrade") ∧
  (st_SplitHTTPSettings s ≠ None → network = "splithttp" ∨ network = "xhttp").

(** Where the network reads the proxy protocol flag. *)
Definition proxy_flag (network : string) (s : StreamConfig) : option bool :=
  if decide (network = "tcp") then tcp_AcceptProxyProtocol <$> st_TCPSettings s
  else if decide (network = "ws") then ws_AcceptProxyProtocol <$> st_WSSettings s
  else sock_AcceptProxyProtocol <$> st_SocketSettings s.

(** What a node that asks for TLS, for Reality or for nothing gets. *)
Definition security_of (option : Options) (info : NodeInfo) (s : StreamConfig) : Prop :=
  if (ni_Security info =? Tls)%Z then
    ∃ c, opt_CertConfig option = Some c ∧
      if cert_off c then st_Security s = "" ∧ st_TLSSettings s = None ∧ st_REALITYSettings s = None
      else st_Security s = "tls" ∧ st_REALITYSettings s = None ∧
           st_TLSSettings s = Some (mkTLSConfig [mkTLSCertConfig (cert_CertFile c) (cert_KeyFile c) 3600]
                                      (cert_RejectUnknownSni c))
  else if (ni_Security info =? Reality)%Z then
    ∃ v, ni_VAllss info = Some v ∧ st_Security s = "reality" ∧ st_TLSSettings s = None ∧
         st_REALITYSettings s = Some (reality_config v)
  else st_Security s = "" ∧ st_TLSSettings s = None ∧ st_REALITYSettings s = None.

Definition plain (network : string) (s : StreamConfig) : Prop :=
  st_Network s = Some network ∧ st_Security s = "" ∧ st_TLSSettings s = None ∧
  st_REALITYSettings s = None ∧ st_SocketSettings s = None ∧ only_settings_of network s.

Lemma plain_stream_of network : plain network (stream_of network).
Proof. by split_and!. Qed.

Lemma decode_transport_plain network settings s :
  decode_transport network settings (stream_of network) = Ok s → plain network s.
Proof.
  unfold decode_transport, plain, only_settings_of.
  repeat (case_decide; [intros (x & _ & [= <-])%bind_Ok_inv; naive_solver|]).
  by intros [= <-].
Qed.

Lemma v2ray_stream_plain info network raw s :
  v2ray_stream info network raw = Ok s → plain network s.
Proof.
  unfold v2ray_stream. case_decide; [|done]. case_decide; [|apply decode_transport_plain].
  intros [= <-]. apply plain_stream_of.
Qed.

Lemma trojan_stream_plain network raw s : trojan_stream network raw = Ok s → plain network s.
Proof.
  unfold trojan_stream. case_decide; [intros [= <-]; apply plain_stream_of|].
  case_decide; [apply decode_transport_plain|done].
Qed.

Lemma v2ray_settings_protocol config info v p s :
  ni_Type info = "vmess" ∨ ni_Type info = "vless" →
  v2ray_settings config info v = Ok (p, s) → p = ni_Type info.
Proof.
  unfold v2ray_settings. intros Ht. case_decide as Hv.
  - intros (xo & _ & H)%bind_Ok_inv. case_match; repeat apply bind_Ok_inv in H as (? & _ & H);
      injection H as <- _; done.
  - intros (x & _ & [= <- _])%bind_Ok_inv. destruct Ht as [->|]; done.
Qed.

(** Which node and which network a builder leaves. *)
Lemma buildV2ray_node config info i info' r :
  ni_Type info = "vmess" ∨ ni_Type info = "vless" →
  buildV2ray config info i = (info', r) →
  info' = normal_node info ∧
  match r with
  | Ok in_ => ∃ s, in_Protocol in_ = ni_Type info ∧ in_StreamSetting in_ = Some s ∧
                   plain (node_network info) s
  | _ => True
  end.
Proof.
  intros Ht. unfold buildV2ray, normal_node, node_network. rewrite !(decide_True _ _ Ht).
  destruct (ni_VAllss info) as [v|]; [|by intros [= <- <-]]. intros [= <- <-]. split; [done|].
  destruct (v2ray_settings _ _ _) as [[p s]|e|w] eqn:Hs; [|done..].
  apply v2ray_settings_protocol in Hs as ->; [|done]. cbn [mbind res_bind].
  destruct (v2ray_stream _ _ _) as [st|e|w] eqn:Hst; [|done..]. cbn [mbind res_bind mret res_ret].
  exists st. split_and!; [done|done|]. by eapply v2ray_stream_plain.
Qed.

Lemma buildTrojan_node config info i info' r :
  ni_Type info = "trojan" → buildTrojan config info i = (info', r) →
  match r with
  | Ok in_ => ∃ s v, in_Protocol in_ = "trojan" ∧ in_StreamSetting in_ = Some s ∧
      plain (node_network info) s ∧ info' = normal_node info ∧
      ni_Trojan info' = Some v ∧ tr_Network v = node_network info ∧ node_network info ≠ ""
  | _ => info' = normal_node info ∨ info' = info
  end.
Proof.
  intros Ht. unfold buildTrojan, normal_node, node_network. rewrite Ht. cbn [decide].
  rewrite !decide_False, !decide_True by (done || by intros [|]).
  destruct (trojan_settings config) as [s|e|w]; [|intros [= <- <-]; by right..].
  destruct (ni_Trojan info) as [v|]; [|intros [= <- <-]; by right].
  unfold normalizeTrojanNetwork. case_decide as Hn; [|intros [= <- <-]; by right].
  intros [= <- <-]. simpl.
  destruct (trojan_stream _ _) as [st|e|w] eqn:Hst; cbn [mbind res_bind mret res_ret]; [|by left..].
  exists st, (tr_with_Network (normalizeTransportNetwork (tr_Network v)) v). split_and!; try done.
  - by eapply trojan_stream_plain.
  - intros E. rewrite E in Hn. set_solver.
Qed.

Lemma node_network_normal info : normalizeTransportNetwork (node_network info) = node_network info.
Proof. unfold node_network. repeat case_decide; [apply normalizeTransportNetwork_idem..|done]. Qed.

Lemma normal_node_fields info :
  ni_Type (normal_node info) = ni_Type info ∧ ni_Common (normal_node info) = ni_Common info ∧
  ni_Security (normal_node info) = ni_Security info ∧
  ni_Shadowsocks (normal_node info) = ni_Shadowsocks info ∧
  (reality_config <$> ni_VAllss (normal_node info)) = (reality_config <$> ni_VAllss info).
Proof.
  unfold normal_node. repeat case_decide; try done.
  - destruct (ni_VAllss info) as [v|] eqn:E; split_and!; simpl; by rewrite ?E.
  - by destruct (ni_Trojan info).
Qed.

(** What [build_protocol] leaves on success. *)
Lemma build_protocol_ok rnd option info info' in_ network :
  build_protocol rnd option info = (info', Ok (in_, network)) →
  info' = normal_node info ∧ network = node_network info ∧ in_Protocol in_ = ni_Type info ∧
  ∃ s, in_StreamSetting in_ = Some s ∧ plain (node_network info) s.
Proof.
  unfold build_protocol. case_decide as Ht.
  { destruct (buildV2ray _ _ _) as [i r] eqn:Hb. apply buildV2ray_node in Hb as [-> Hr]; [|done].
    destruct r as [in0|e|w]; [| |done]; intros [= <- H]; apply bind_Ok_inv in H as (n & Hn & H);
      [|done]. injection H as <- <-. destruct Hr as (s & Hp & Hs & Hpl).
    split_and!; [done| |done|by exists s]. revert Hn. unfold normal_node, node_network.
    rewrite !(decide_True _ _ Ht). destruct (ni_VAllss info) as [v|] eqn:Hv; simpl; [by intros [= <-]|].
    by rewrite Hv. }
  case_decide as Ht2.
  { destruct (buildTrojan _ _ _) as [i r] eqn:Hb. apply buildTrojan_node in Hb; [|done].
    destruct r as [in0|e|w]; [| |done]; intros [= <- H]; apply bind_Ok_inv in H as (n & Hn & H);
      [|done]. injection H as <- <-. destruct Hb as (s & v & Hp & Hs & Hpl & -> & Hv & Hnet & Hne).
    rewrite Hv in Hn. cbn in Hn. rewrite Hnet, decide_False in Hn by done. injection Hn as <-.
    split_and!; [done|done|congruence|by exists s]. }
  case_decide as Ht3; [|by intros [= _ ?]]. unfold normal_node, node_network.
  rewrite !(decide_False _ _ Ht), !(decide_False _ _ Ht2).
  destruct (buildShadowsocks _ _ _) as [in0|e|w] eqn:Hb; [|done..].
  cbn [mbind res_bind]. intros [= <- <- <-]. revert Hb. unfold buildShadowsocks.
  intros (s & _ & H)%bind_Ok_inv. apply bind_Ok_inv in H as (p & _ & H).
  case_match; apply bind_Ok_inv in H as (sets & _ & [= <-]).
  split_and!; [done|done|done|]. exists (stream_of "tcp"). by split.
Qed.

Lemma set_transport_options_spec network xo s :
  plain network s →
  let s' := set_transport_options network xo s in
  st_Network s' = Some network ∧ st_Security s' = "" ∧ st_TLSSettings s' = None ∧
  st_REALITYSettings s' = None ∧ only_settings_of network s' ∧
  proxy_flag network s' = Some (xo_EnableProxyProtocol xo) ∧
  (network = "tcp" ∨ network = "ws" → st_SocketSettings s' = None) ∧
  (network ≠ "tcp" → network ≠ "ws" →
   st_SocketSettings s' = Some (mkSocketConfig (xo_EnableProxyProtocol xo) (xo_EnableTFO xo))).
Proof.
  unfold set_transport_options, plain, only_settings_of, proxy_flag. intros Hs.
  destruct Hs as (? & ? & ? & ? & ? & ? & ? & ? & ? & ?).
  repeat case_decide; subst; cbn; split_and!;
    first [done | assumption | by case_match | by intros [] | by intros []; congruence | intros; congruence].
Qed.

Lemma finish_inbound_ok option info tag network in_ s cfg :
  in_StreamSetting in_ = Some s → plain network s → normalizeTransportNetwork network = network →
  finish_inbound option info tag network in_ = Ok cfg →
  ∃ s' xo cm, opt_XrayOptions option = Some xo ∧ ni_Common info = Some cm ∧
    in_Protocol cfg = in_Protocol in_ ∧ in_Tag cfg = tag ∧
    in_PortList cfg = Some [(wrapu32 (cn_ServerPort cm), wrapu32 (cn_ServerPort cm))] ∧
    in_ListenOn cfg = Some (net_ParseAddress (opt_ListenIP option)) ∧
    in_SniffingConfig cfg = Some (mkSniffingConfig (negb (xo_DisableSniffing xo)) ["http"; "tls"]) ∧
    in_StreamSetting cfg = Some s' ∧ st_Network s' = Some network ∧ only_settings_of network s' ∧
    proxy_flag network s' = Some (xo_EnableProxyProtocol xo) ∧
    (network = "tcp" ∨ network = "ws" → st_SocketSettings s' = None) ∧
    security_of option info s'.
Proof.
  intros Hst Hpl Hn. unfold finish_inbound. rewrite Hn, Hst. cbn [default].
  intros (cm & Hcm & H)%bind_Ok_inv. apply bind_Ok_inv in H as (xo & Hxo & H).
  apply bind_Ok_inv in H as (s1 & Hs1 & [= <-]).
  pose proof (set_transport_options_spec network xo s Hpl) as Ho.
  destruct (ni_Common info) as [?|]; simplify_eq/=. destruct (opt_XrayOptions option); simplify_eq/=.
  exists s1, xo, cm. split_and!; try done; revert Hs1; unfold set_security, security_of;
    generalize dependent (set_transport_options network xo s); intros s0 (?&?&?&?&?&?&?&?);
    repeat case_match; intros Hs1; try (injection Hs1 as <-); simplify_eq/=; eauto 10;
    try (apply bind_Ok_inv in Hs1 as (v & Hv & [= <-]); destruct (ni_VAllss info);
         simplify_eq/=; eauto 10).
  all: eexists; split; [reflexivity|]; match goal with E : cert_off _ = _ |- _ => rewrite E end;
    by split_and!.
Qed.

(** ** Building twice *)
Lemma buildV2ray_twice config info i info' r :
  buildV2ray config info i = (info', r) → buildV2ray config info' i = (info', r).
Proof.
  unfold buildV2ray. destruct (ni_VAllss info) as [v|] eqn:E; intros [= <- <-]; [|by rewrite E].
  simpl. rewrite normalizeTransportNetwork_idem. done.
Qed.

Lemma buildTrojan_twice config info i info' r :
  buildTrojan config info i = (info', r) → buildTrojan config info' i = (info', r).
Proof.
  unfold buildTrojan. destruct (trojan_settings config) as [s|e|w]; [|by intros [= <- <-]..].
  destruct (ni_Trojan info) as [v|] eqn:E; [|intros [= <- <-]; by rewrite E].
  destruct (normalizeTrojanNetwork (tr_Network v)) as [n|e|w] eqn:Hn;
    intros [= <- <-]; [|by rewrite E, Hn..].
  simpl. assert (normalizeTrojanNetwork n = Ok n) as ->; [|done]. revert Hn.
  unfold normalizeTrojanNetwork. case_decide as Hin; [|done]. intros [= <-].
  rewrite normalizeTransportNetwork_idem. by rewrite decide_True.
Qed.

Lemma build_protocol_twice rnd option info info' r :
  build_protocol rnd option info = (info', r) → build_protocol rnd option info' = (info', r).
Proof.
  unfold build_protocol. intros H. assert (ni_Type info' = ni_Type info) as ->.
  { revert H. repeat case_decide; [| |by intros [= <- _]..].
    - unfold buildV2ray. destruct (ni_VAllss info); by intros [= <- _].
    - unfold buildTrojan. destruct (trojan_settings option); [|by intros [= <- _]..].
      destruct (ni_Trojan info) as [v|]; [|by intros [= <- _]].
      destruct (normalizeTrojanNetwork (tr_Network v)); by intros [= <- _]. }
  revert H. repeat case_decide; [| |by intros [= <- <-]..].
  - destruct (buildV2ray _ info _) as [i q] eqn:Hb. intros [= <- <-].
    by rewrite (buildV2ray_twice _ _ _ _ _ Hb).
  - destruct (buildTrojan _ info _) as [i q] eqn:Hb. intros [= <- <-].
    by rewrite (buildTrojan_twice _ _ _ _ _ Hb).
Qed.

(** ** Panics *)

(** The libraries return, with a value or an error. *)
Class XrayConfTotal := {
  total_tcp : ∀ s, no_panic (unmarshal_TCPConfig s);
  total_ws : ∀ s, no_panic (unmarshal_WebSocketConfig s);
  total_grpc : ∀ s, no_panic (unmarshal_GRPCConfig s);
  total_httpupgrade : ∀ s, no_panic (unmarshal_HttpUpgradeConfig s);
  total_splithttp : ∀ s, no_panic (unmarshal_SplitHTTPConfig s);
  total_vless : ∀ c, no_panic (marshal_VLessInboundConfig c);
  total_vmess : no_panic marshal_VMessInboundConfig;
  total_trojan : ∀ l, no_panic (marshal_TrojanServerConfig l);
  total_ss : ∀ c, no_panic (marshal_ShadowsocksServerConfig c);
  total_Build : ∀ c, no_panic (inbound_Build c);
}.

Lemma no_panic_fallbacks l : no_panic (build_fallbacks l).
Proof.
  induction l as [|c l IH]; [done|]. cbn [build_fallbacks]. case_decide; [done|].
  by apply no_panic_bind.
Qed.

#[local] Hint Resolve no_panic_fallbacks total_tcp total_ws
  total_grpc total_httpupgrade total_splithttp total_vless total_vmess total_trojan total_ss
  total_Build : no_panic.

Lemma no_panic_v2ray_settings `{!XrayConfTotal} config info v :
  is_Some (opt_XrayOptions config) → no_panic (v2ray_settings config info v).
Proof.
  intros Hx. unfold v2ray_settings, buildVlessFallbacks, vless_decryption. solve_no_panic.
Qed.

Lemma no_panic_decode_transport `{!XrayConfTotal} network settings s :
  no_panic (decode_transport network settings s).
Proof. unfold decode_transport, unmarshal_err. solve_no_panic. Qed.
#[local] Hint Resolve no_panic_v2ray_settings no_panic_decode_transport : no_panic.

Lemma no_panic_build_protocol `{!XrayConfTotal} rnd option info :
  node_wf info → is_Some (opt_XrayOptions option) → no_panic rnd →
  no_panic (build_protocol rnd option info).2.
Proof.
  intros [_ Hp _] Hx Hr. unfold build_protocol, type_part in *.
  destruct (decide (ni_Type info = "vmess" ∨ ni_Type info = "vless")) as [Ht|Ht].
  { apply bool_decide_eq_true in Hp as [v Hv]. unfold buildV2ray. rewrite Hv. cbn [snd].
    match goal with |- no_panic (match ?r with _ => _ end) => assert (no_panic r) as Hn end.
    { unfold v2ray_stream. solve_no_panic. }
    case_match; [done..|by destruct Hn]. }
  destruct (decide (ni_Type info = "trojan")) as [Ht2|Ht2].
  { rewrite decide_False in Hp by congruence. apply bool_decide_eq_true in Hp as [v Hv].
    unfold buildTrojan.
    assert (no_panic (trojan_settings option)) as Hs
      by (unfold trojan_settings, buildTrojanFallbacks; solve_no_panic).
    destruct (trojan_settings option) as [s|e|w]; [|by cbn; rewrite Hv|done]. rewrite Hv.
    unfold normalizeTrojanNetwork. case_decide; [|by cbn; rewrite Hv]. cbn [snd].
    match goal with |- no_panic (match ?r with _ => _ end) => assert (no_panic r) as Hn end.
    { unfold trojan_stream. solve_no_panic. }
    case_match; [done..|by destruct Hn]. }
  destruct (decide (ni_Type info = "shadowsocks")) as [Ht3|Ht3]; [|done].
  apply bool_decide_eq_true in Hp as [v Hv]. cbn [snd].
  assert (no_panic (buildShadowsocks rnd info InboundDetourConfig_zero)) as Hn
    by (unfold buildShadowsocks; rewrite Hv; cbn [deref mbind res_bind]; solve_no_panic).
  by destruct (buildShadowsocks _ _ _).
Qed.

(** With the parts that belong to its type, a node never makes [buildInbound]
    panic: whatever the panel put into them, the result is a handler
    configuration or an error. *)
Lemma buildInbound_returns `{!XrayConfTotal} rnd option info tag :
  node_wf info → is_Some (opt_XrayOptions option) → no_panic rnd →
  no_panic (buildInbound rnd option info tag).2.
Proof.
  intros Hwf Hx Hr. unfold buildInbound.
  pose proof (no_panic_build_protocol rnd option info Hwf Hx Hr) as Hb.
  destruct (build_protocol rnd option info) as [i r] eqn:Hp. cbn [snd] in *.
  apply no_panic_bind; [done|]. intros [in_ network] ->.
  apply build_protocol_ok in Hp as (-> & -> & _ & s & Hs & _).
  destruct (normal_node_fields info) as (_ & Fc & Fs & _ & Fr).
  apply no_panic_bind; [|intros; apply total_Build].
  unfold finish_inbound, set_security. rewrite Fc, Fs.
  apply no_panic_bind; [by apply no_panic_deref, Hwf|intros cm _].
  apply no_panic_bind; [by apply no_panic_deref|intros xo _].
  apply no_panic_bind; [|done]. destruct (_ =? _)%Z; [by repeat case_match|].
  destruct (ni_Security info =? Reality)%Z eqn:Hre; [|done].
  apply no_panic_bind; [|done]. apply no_panic_deref.
  destruct (wf_reality info Hwf) as [v Hv]; [by apply Z.eqb_eq|]. rewrite Hv in Fr.
  destruct (ni_VAllss (normal_node info)); [done|discriminate Fr].
Qed.

(** * Properties *)


(** Building is repeatable.  The node that [buildInbound] leaves, normalised
    or not, gives the same result again and stays as it is, so a node that is
    reloaded unchanged gets the same inbound. *)
Theorem buildInbound_rebuild rnd option info tag :
  let '(info', r) := buildInbound rnd option info tag in
  buildInbound rnd option info' tag = (info', r).
Proof.
  unfold buildInbound. destruct (build_protocol rnd option info) as [i r] eqn:Hp.
  by rewrite (build_protocol_twice _ _ _ _ _ Hp).
Qed.

(** The destinations in the configuration survive their trip through JSON:
    the Reality destination decodes to host and port as the node gives them,
    each fallback's destination to the configured one. *)
Theorem dest_json_roundtrip v l fs :
  valid_utf8 (reality_dest v) = true → Forall (λ c, valid_utf8 (fb_Dest c) = true) l →
  build_fallbacks l = Ok fs →
  json_unstring (re_Dest (reality_config v)) = Some (reality_dest v) ∧
  (λ f, json_unstring (if_Dest f)) <$> fs = (λ c, Some (fb_Dest c)) <$> l.
Proof.
  intros Hv Hl Hf. split; [by apply json_string_roundtrip|]. revert fs Hf.
  induction Hl as [|c l Hc Hl IH]; intros fs; cbn [build_fallbacks]; [by intros [= <-]|].
  case_decide; [done|]. intros (fs' & Hf & [= <-])%bind_Ok_inv.
  rewrite !fmap_cons, (IH fs' Hf). cbn [if_Dest]. by rewrite json_string_roundtrip.
Qed.

(** The clock tolerance of Reality, in microseconds, always fits the 64-bit
    field.  It is the duration asked for when that is not negative; a text that
    is no duration gives 0 (no check at all), a negative duration of a
    millisecond or more wraps around to at least 2^63 (in effect none). *)
Theorem reality_MaxTimeDiff_bounds text :
  let '(d, ok) := ParseDuration text in
  let m := reality_MaxTimeDiff text in
  (0 ≤ m < two64)%Z ∧ (ok = false → m = 0)%Z ∧
  ((0 ≤ d)%Z → m = (d / 1000)%Z ∧ (m ≤ 9223372036854775)%Z) ∧
  ((d ≤ - 1000)%Z → (two63 ≤ m)%Z).
Proof.
  pose proof (ParseDuration_int64 text) as Hi. unfold reality_MaxTimeDiff, Microseconds.
  assert ((ParseDuration text).2 = false → (ParseDuration text).1 = 0%Z) as Hf.
  { unfold ParseDuration. destruct (match text with String _ _ => _ | _ => _ end) as [neg t].
    repeat case_match; simpl; done. }
  destruct (ParseDuration text) as [d ok]. cbn [fst snd] in *. unfold int64, wrapu64, two63, two64 in *.
  split_and!; [by apply Z.mod_pos_bound|by apply Z.mod_pos_bound| | |].
  - intros Hok. by rewrite (Hf Hok).
  - intros Hd. rewrite Z.quot_div_nonneg, Z.mod_small by (try lia; Z.to_euclidean_division_equations; lia).
    Z.to_euclidean_division_equations. lia.
  - intros Hd. assert (-9223372036854775808 ≤ Z.quot d 1000 ≤ -1)%Z
      by (Z.to_euclidean_division_equations; lia).
    rewrite <- (Z_mod_plus_full _ 1), Z.mod_small; lia.
Qed.
End spec.

(** * Witnesses: libraries that keep only what is looked at *)
#[local] Instance wit_conf : XrayConfLib := {|
  XAddress := string; net_ParseAddress := λ s, s;
  TCPRest := unit; tcp_rest_zero := tt; WSRest := string; ws_rest_zero := "";
  GRPCConfig := string; HttpUpgradeConfig := string; SplitHTTPConfig := string;
  InboundHandlerConfig := string;
|}.
#[local] Instance wit_json : XrayConfJson := {|
  unmarshal_TCPConfig := λ s, Ok (Some (mkTCPConfig false tt));
  unmarshal_WebSocketConfig := λ s, Ok (Some (mkWebSocketConfig false s));
  unmarshal_GRPCConfig := λ s, Ok (Some s);
  unmarshal_HttpUpgradeConfig := λ s, Ok (Some s);
  unmarshal_SplitHTTPConfig := λ s, Ok (Some s);
  marshal_VLessInboundConfig := λ c, Ok (vl_Decryption c);
  marshal_VMessInboundConfig := Ok "{}";
  marshal_TrojanServerConfig := λ l, Ok "{}";
  marshal_ShadowsocksServerConfig := λ c, Ok (sv_Cipher c);
  inbound_Build := λ c, Ok (in_Tag c);
|}.
Definition wit_common : CommonNode := mkCommonNode "h" 443 "n" [] None.
Definition wit_tls : TlsSettings :=
  mkTlsSettings "s.example" [] "" "443" "ab" [] "key" "" 0 "" "" "" "" "" false false false false false.
Definition wit_vless : VAllssNode :=
  mkVAllssNode wit_common 2 wit_tls None " WS " "{}" "" "" (mkEncSettings "" "" "" "") "" ""
    (mkRealityConfig 0 "" "" "1m").
Definition wit_node : NodeInfo :=
  mkNodeInfo 1 "vless" Reality 0 0 RawDNS_empty Rules_empty (Some wit_vless) None None None None None
    None (Some wit_common) None false false.
Definition wit_options : Options := opt_with_XrayOptions (Some NewXrayOptions) Options_default.


Lemma dest_json_roundtrip_witness :
  json_unstring (re_Dest (reality_config wit_vless)) = Some "s.example:443".
Proof.
  destruct (dest_json_roundtrip wit_vless [] []) as [H _];
    [vm_compute; reflexivity|constructor|reflexivity|]. rewrite H. vm_compute. reflexivity.
Defined.
