(* ===== verification/XrayCore.v ===== *)
(** The xray core's users and connections: src/core/xray/user.go, vmess.go,
    trojan.go, ss.go, the removal half of node.go, and
    app/dispatcher/linkmanager.go.

    xray-core's inbound and outbound managers are parameters ([XrayLib]); what
    the user managers of the inbounds do with their users is in [XrayUsers].
    Users are keyed by [UserTag tag uuid] everywhere in this core. *)

From S2P Require Import Prelude GoStd Lower Conf Panel Counter Traffic Core.
From stdpp Require Import prelude gmap strings.
From Stdlib Require Import Ascii ZArith Lia.

Open Scope string_scope.

(** * Accounts (vmess.go, trojan.go, ss.go) *)
Inductive CipherType : Type :=
| CipherType_UNKNOWN
| CipherType_AES_128_GCM
| CipherType_AES_256_GCM
| CipherType_CHACHA20_POLY1305
| CipherType_NONE.

(** The account messages of the protocols, with the fields the code sets. *)
Inductive Account : Type :=
| VMessAccount (ID Security : string)
| VLessAccount (Id Flow : string)
| TrojanAccount (Password : string)
| SSAccount (Password : string) (Cipher : CipherType)
| SS2022Account (Key : string).

Record User := mkUser { pu_Level : Z; pu_Email : string; pu_Account : Account }.

Definition buildVmessUser (tag : string) (userInfo : UserInfo) : User :=
  mkUser 0 (UserTag tag (user_Uuid userInfo)) (VMessAccount (user_Uuid userInfo) "auto").

Definition buildVmessUsers (tag : string) (userInfo : list UserInfo) : list User :=
  buildVmessUser tag <$> userInfo.

Definition buildVlessUser (tag : string) (userInfo : UserInfo) (flow : string) : User :=
  mkUser 0 (UserTag tag (user_Uuid userInfo)) (VLessAccount (user_Uuid userInfo) flow).

Definition buildVlessUsers (tag : string) (userInfo : list UserInfo) (flow : string) : list User :=
  (λ u, buildVlessUser tag u flow) <$> userInfo.

Definition buildTrojanUser (tag : string) (userInfo : UserInfo) : User :=
  mkUser 0 (UserTag tag (user_Uuid userInfo)) (TrojanAccount (user_Uuid userInfo)).

Definition buildTrojanUsers (tag : string) (userInfo : list UserInfo) : list User :=
  buildTrojanUser tag <$> userInfo.

Definition getCipherFromString (c : string) : CipherType :=
  let c := ToLower c in
  if existsb (String.eqb c) ["aes-128-gcm"; "aead_aes_128_gcm"] then CipherType_AES_128_GCM
  else if existsb (String.eqb c) ["aes-256-gcm"; "aead_aes_256_gcm"] then CipherType_AES_256_GCM
  else if existsb (String.eqb c)
         ["chacha20-poly1305"; "aead_chacha20_poly1305"; "chacha20-ietf-poly1305"]
  then CipherType_CHACHA20_POLY1305
  else if existsb (String.eqb c) ["none"; "plain"] then CipherType_NONE
  else CipherType_UNKNOWN.

Definition ss_keyLength (cypher : string) : nat :=
  if decide (cypher = "2022-blake3-aes-128-gcm") then 16
  else if decide (cypher = "2022-blake3-aes-256-gcm") then 32
  else if decide (cypher = "2022-blake3-chacha20-poly1305") then 32
  else 0.

Definition buildSSUser (tag : string) (userInfo : UserInfo) (cypher serverKey : string)
    : res string User :=
  if decide (serverKey = "") then
    mret (mkUser 0 (UserTag tag (user_Uuid userInfo))
            (SSAccount (user_Uuid userInfo) (getCipherFromString cypher)))
  else
    key ← slice_to (user_Uuid userInfo) (ss_keyLength cypher);
    mret (mkUser 0 (UserTag tag (user_Uuid userInfo)) (SS2022Account (base64_Encode key))).

Fixpoint buildSSUsers (tag : string) (userInfo : list UserInfo) (cypher serverKey : string)
    : res string (list User) :=
  match userInfo with
  | [] => Ok []
  | u :: us =>
      u ← buildSSUser tag u cypher serverKey;
      us ← buildSSUsers tag us cypher serverKey;
      mret (u :: us)
  end.

(** * Links (linkmanager.go)

    A managed writer and the reader paired with it are numbered; closing a
    writer first takes it out of its manager. *)
Abbreviation LinkManager := (gmap nat nat).

Record pipes := mkPipes { closed_writers : gset nat; interrupted_readers : gset nat }.

Definition AddLink (writer reader : nat) (m : LinkManager) : LinkManager := <[writer := reader]> m.
Definition RemoveWriter (writer : nat) (m : LinkManager) : LinkManager := delete writer m.

Definition ManagedWriter_Close (writer : nat) (st : LinkManager * pipes) : LinkManager * pipes :=
  (RemoveWriter writer st.1,
   mkPipes ({[writer]} ∪ closed_writers st.2) (interrupted_readers st.2)).

Definition CloseAll `{RangeOrder} (st : LinkManager * pipes) : LinkManager * pipes :=
  foldl (λ st e, let st := ManagedWriter_Close e.1 st in
                 (st.1, mkPipes (closed_writers st.2) ({[e.2]} ∪ interrupted_readers st.2)))
    st (range st.1).

(** * xray-core *)
Class XrayLib := {
  XInstance : Type;
  XHandler : Type;
  XMemoryUser : Type;
  ihm_GetHandler : XInstance → string → res string XHandler;
  is_GetInbound : XHandler → bool;
  is_UserManager : XHandler → bool;
  ToMemoryUser : User → res string XMemoryUser;
  um_AddUser : XHandler → XMemoryUser → XInstance → XInstance * res string unit;
  um_RemoveUser : XHandler → string → XInstance → XInstance * res string unit;
  ihm_RemoveHandler : string → XInstance → XInstance * res string unit;
  ohm_RemoveHandler : string → XInstance → XInstance * res string unit;
}.

(** What a user manager does (proxy.UserManager): every inbound accepts a set of
    users, named by their e-mails; a call that succeeds adds or removes the one
    it is given, and no call changes the users of another inbound, or which
    inbound a tag leads to.  (xray-core files the e-mails in lower case: this is
    its behaviour on users whose uuids do not differ in the case of letters
    alone.) *)
Class XrayUsers `{XrayLib} := {
  im_users : XInstance → string → gset string;
  mu_Email : XMemoryUser → string;
  ToMemoryUser_Email : ∀ u m, ToMemoryUser u = Ok m → mu_Email m = pu_Email u;
  AddUser_handlers : ∀ h m s t, ihm_GetHandler (um_AddUser h m s).1 t = ihm_GetHandler s t;
  AddUser_users : ∀ h m s s' t,
    ihm_GetHandler s t = Ok h → um_AddUser h m s = (s', Ok tt) →
    im_users s' t = im_users s t ∪ {[mu_Email m]};
  AddUser_others : ∀ h m s t t',
    ihm_GetHandler s t = Ok h → t' ≠ t → im_users (um_AddUser h m s).1 t' = im_users s t';
  RemoveUser_handlers : ∀ h e s t, ihm_GetHandler (um_RemoveUser h e s).1 t = ihm_GetHandler s t;
  RemoveUser_users : ∀ h e s s' t,
    ihm_GetHandler s t = Ok h → um_RemoveUser h e s = (s', Ok tt) →
    im_users s' t = im_users s t ∖ {[e]};
  RemoveUser_others : ∀ h e s t t',
    ihm_GetHandler s t = Ok h → t' ≠ t → im_users (um_RemoveUser h e s).1 t' = im_users s t';
}.

Section xray.
Context `{XL : XrayLib} `{RO : RangeOrder}.

Record Xray := mkXray {
  xr_Server : XInstance;
  xr_uidMap : gmap string Z;
  xr_minTraffic : gmap string Z;
  xr_heap : heap;
  xr_Counter : node_counters;
  xr_LinkManagers : gmap string LinkManager;
  xr_pipes : pipes;
}.

Definition xr_with_Server s (x : Xray) := mkXray s (xr_uidMap x) (xr_minTraffic x) (xr_heap x)
  (xr_Counter x) (xr_LinkManagers x) (xr_pipes x).
Definition xr_with_uidMap m (x : Xray) := mkXray (xr_Server x) m (xr_minTraffic x) (xr_heap x)
  (xr_Counter x) (xr_LinkManagers x) (xr_pipes x).
Definition xr_with_counters h c (x : Xray) := mkXray (xr_Server x) (xr_uidMap x) (xr_minTraffic x) h
  c (xr_LinkManagers x) (xr_pipes x).
Definition xr_with_links l p (x : Xray) := mkXray (xr_Server x) (xr_uidMap x) (xr_minTraffic x)
  (xr_heap x) (xr_Counter x) l p.

Definition GetUserManager (x : Xray) (tag : string) : res string XHandler :=
  handler ← map_err (λ e, "no such inbound tag: " +:+ e) (ihm_GetHandler (xr_Server x) tag);
  if negb (is_GetInbound handler) then
    Err ("handler " +:+ tag +:+ " is not implement proxy.GetInbound")
  else if negb (is_UserManager handler) then
    Err ("handler " +:+ tag +:+ " is not implement proxy.UserManager")
  else Ok handler.

(** The part of the loop of [DelUsers] after the user left the inbound. *)
Definition forget_user (tag user : string) (x : Xray) : Xray :=
  let x := xr_with_uidMap (delete user (xr_uidMap x)) x in
  let x := xr_with_counters (xr_heap x) (node_Delete (xr_Counter x) tag user) x in
  match xr_LinkManagers x !! user with
  | Some lm =>
      let '(_, p) := CloseAll (lm, xr_pipes x) in
      xr_with_links (delete user (xr_LinkManagers x)) p x
  | None => x
  end.

Fixpoint DelUsers_loop (userManager : XHandler) (tag : string) (users : list UserInfo) (x : Xray)
    : Xray * res string unit :=
  match users with
  | [] => (x, Ok tt)
  | u :: users =>
      let user := UserTag tag (user_Uuid u) in
      let '(s, r) := um_RemoveUser userManager user (xr_Server x) in
      let x := xr_with_Server s x in
      match r with
      | Ok _ => DelUsers_loop userManager tag users (forget_user tag user x)
      | _ => (x, r)
      end
  end.

Definition Xray_DelUsers (users : list UserInfo) (tag : string) (info : NodeInfo) (x : Xray)
    : Xray * res string unit :=
  match map_err (λ e, "get user manager error: " +:+ e) (GetUserManager x tag) with
  | Ok userManager => DelUsers_loop userManager tag users x
  | Err e => (x, Err e)
  | Panic w => (x, Panic w)
  end.

Definition Xray_GetUserTrafficSlice (tag : string) (reset : bool) (x : Xray)
    : Xray * res string (list UserTraffic) :=
  let '(h, c, s) := node_slice (zlookup (xr_uidMap x)) (zlookup (xr_minTraffic x) tag) reset
                      (xr_heap x) (xr_Counter x) tag in
  (xr_with_counters h c x, Ok s).

Fixpoint AddUsers_loop (man : XHandler) (users : list User) (x : Xray) : Xray * res string unit :=
  match users with
  | [] => (x, Ok tt)
  | u :: users =>
      match ToMemoryUser u with
      | Ok mUser =>
          let '(s, r) := um_AddUser man mUser (xr_Server x) in
          let x := xr_with_Server s x in
          match r with Ok _ => AddUsers_loop man users x | _ => (x, r) end
      | Err e => (x, Err e)
      | Panic w => (x, Panic w)
      end
  end.

(** The accounts of the node's protocol; a nil part of the node is a panic. *)
Definition protocol_users (p : AddUsersParams) : res string (list User) :=
  let info := aup_NodeInfo p in
  if decide (ni_Type info = "vmess") then Ok (buildVmessUsers (aup_Tag p) (aup_Users p))
  else if decide (ni_Type info = "vless") then
    match ni_VAllss info with
    | Some v => Ok (buildVlessUsers (aup_Tag p) (aup_Users p) (va_Flow v))
    | None => Panic "nil pointer dereference"
    end
  else if decide (ni_Type info = "trojan") then Ok (buildTrojanUsers (aup_Tag p) (aup_Users p))
  else if decide (ni_Type info = "shadowsocks") then
    match ni_Shadowsocks info with
    | Some s => buildSSUsers (aup_Tag p) (aup_Users p) (ss_Cipher s) (ss_ServerKey s)
    | None => Panic "nil pointer dereference"
    end
  else Err ("unsupported node type: " +:+ ni_Type info).

Definition add_uids (key : UserInfo → string) (users : list UserInfo) (m : gmap string Z)
    : gmap string Z :=
  foldl (λ m u, <[key u := user_Id u]> m) m users.

Definition Xray_AddUsers (p : AddUsersParams) (x : Xray) : Xray * res string Z :=
  let x := xr_with_uidMap
             (add_uids (λ u, UserTag (aup_Tag p) (user_Uuid u)) (aup_Users p) (xr_uidMap x)) x in
  match protocol_users p with
  | Ok users =>
      match map_err (λ e, "get user manager error: " +:+ e) (GetUserManager x (aup_Tag p)) with
      | Ok man =>
          let '(x, r) := AddUsers_loop man users x in
          (x, _ ← r; mret (Z.of_nat (length users)))
      | Err e => (x, Err e)
      | Panic w => (x, Panic w)
      end
  | Err e => (x, Err e)
  | Panic w => (x, Panic w)
  end.

(** * node.go, removal *)
Definition Xray_DelNode (tag : string) (x : Xray) : Xray * res string unit :=
  let '(s, r) := ihm_RemoveHandler tag (xr_Server x) in
  let x := xr_with_Server s x in
  match map_err (λ e, "remove in error: " +:+ e) r with
  | Ok _ =>
      let '(s, r) := ohm_RemoveHandler tag (xr_Server x) in
      (xr_with_Server s x, map_err (λ e, "remove out error: " +:+ e) r)
  | r => (x, r)
  end.

(** * xray.go *)
Definition Xray_Protocols : list string := ["vmess"; "vless"; "shadowsocks"; "trojan"].
Definition Xray_Type : string := "xray".


(** * Lemmas *)

(** ** Closing the links of a user *)
Lemma CloseAll_fold (es : list (nat * nat)) (m : LinkManager) p :
  foldl (λ st e, let st := ManagedWriter_Close e.1 st in
                 (st.1, mkPipes (closed_writers st.2) ({[e.2]} ∪ interrupted_readers st.2))) (m, p) es =
  (foldl (λ m k, delete k m) m es.*1,
   mkPipes (list_to_set es.*1 ∪ closed_writers p) (list_to_set es.*2 ∪ interrupted_readers p)).
Proof.
  revert m p. induction es as [|e es IH]; intros m p; simpl.
  - f_equal. destruct p. simpl. f_equal; set_solver.
  - rewrite IH. simpl. f_equal. f_equal; set_solver.
Qed.

Lemma CloseAll_spec m p :
  let '(m', p') := CloseAll (m, p) in
  m' = ∅ ∧ closed_writers p ⊆ closed_writers p' ∧ interrupted_readers p ⊆ interrupted_readers p' ∧
  ∀ w r, m !! w = Some r → w ∈ closed_writers p' ∧ r ∈ interrupted_readers p'.
Proof.
  unfold CloseAll. rewrite CloseAll_fold. simpl. split_and!; [|set_solver..|].
  - apply map_eq. intros k. rewrite lookup_foldl_delete, lookup_empty.
    case_decide as Hk; [done|]. destruct (m !! k) as [r|] eqn:Hm; [|done].
    destruct Hk. apply list_elem_of_fmap. exists (k, r). by rewrite elem_of_range.
  - intros w r Hw%elem_of_range. split; apply elem_of_union_l, elem_of_list_to_set.
    + by apply (list_elem_of_fmap_2 fst) in Hw.
    + by apply (list_elem_of_fmap_2 snd) in Hw.
Qed.

(** ** One user forgotten *)
Record forgotten (tag : string) (ks : list string) (x x' : Xray) : Prop := {
  fg_uid : ∀ k, xr_uidMap x' !! k = if decide (k ∈ ks) then None else xr_uidMap x !! k;
  fg_links : ∀ k, xr_LinkManagers x' !! k = if decide (k ∈ ks) then None else xr_LinkManagers x !! k;
  fg_counter : ∀ k c', xr_Counter x' !! tag = Some c' →
    ∃ c, xr_Counter x !! tag = Some c ∧ c' !! k = if decide (k ∈ ks) then None else c !! k;
  fg_other : ∀ tag', tag' ≠ tag → xr_Counter x' !! tag' = xr_Counter x !! tag';
  fg_pipes : closed_writers (xr_pipes x) ⊆ closed_writers (xr_pipes x') ∧
             interrupted_readers (xr_pipes x) ⊆ interrupted_readers (xr_pipes x');
  fg_closed : ∀ k lm w r, k ∈ ks → xr_LinkManagers x !! k = Some lm → lm !! w = Some r →
    w ∈ closed_writers (xr_pipes x') ∧ r ∈ interrupted_readers (xr_pipes x');
  fg_heap : xr_heap x' = xr_heap x;
  fg_min : xr_minTraffic x' = xr_minTraffic x;
}.

Lemma forgotten_refl tag x s : forgotten tag [] x (xr_with_Server s x).
Proof.
  split; simpl; try done; [eauto|].
  intros k lm w r Hk. by apply not_elem_of_nil in Hk.
Qed.

#[local] Ltac xr_simpl := cbn [xr_Server xr_uidMap xr_minTraffic xr_heap xr_Counter xr_LinkManagers
  xr_pipes xr_with_uidMap xr_with_counters xr_with_links xr_with_Server] in *.

Lemma forget_user_spec tag user x : forgotten tag [user] x (forget_user tag user x).
Proof.
  unfold forget_user. xr_simpl. pose proof (CloseAll_spec) as HC.
  assert (∀ k, (k ∈ [user]) ↔ user = k) as Hk by set_solver.
  destruct (xr_LinkManagers x !! user) as [lm|] eqn:Hl.
  - specialize (HC lm (xr_pipes x)). destruct (CloseAll (lm, xr_pipes x)) as [m' p'].
    destruct HC as (_ & Hp1 & Hp2 & HC).
    split; xr_simpl; try done.
    + intros k. rewrite lookup_delete, (decide_ext (k ∈ [user]) (user = k)) by apply Hk. done.
    + intros k. rewrite lookup_delete, (decide_ext (k ∈ [user]) (user = k)) by apply Hk. done.
    + intros k c'. rewrite node_Delete_same. destruct (xr_Counter x !! tag) as [c|]; [|done].
      intros [= <-]. exists c. by rewrite lookup_delete, (decide_ext (k ∈ [user]) (user = k)) by apply Hk.
    + intros tag' Hne. by rewrite node_Delete_other.
    + intros k lm' w r ->%Hk. rewrite Hl. intros [= <-]. apply HC.
  - split; xr_simpl; try done.
    + intros k. rewrite lookup_delete, (decide_ext (k ∈ [user]) (user = k)) by apply Hk. done.
    + intros k. rewrite (decide_ext (k ∈ [user]) (user = k)) by apply Hk. case_decide; [by subst|done].
    + intros k c'. rewrite node_Delete_same. destruct (xr_Counter x !! tag) as [c|]; [|done].
      intros [= <-]. exists c. by rewrite lookup_delete, (decide_ext (k ∈ [user]) (user = k)) by apply Hk.
    + intros tag' Hne. by rewrite node_Delete_other.
    + intros k lm' w r ->%Hk. by rewrite Hl.
Qed.

(** Forgetting one key and then some is forgetting them all. *)
Lemma forget_cons {A} (k k0 : string) ks (a : option A) :
  (if decide (k ∈ ks) then None else if decide (k ∈ [k0]) then None else a)
    = if decide (k ∈ k0 :: ks) then None else a.
Proof.
  rewrite (decide_ext (k ∈ k0 :: ks) (k = k0 ∨ k ∈ ks)) by apply elem_of_cons.
  rewrite (decide_ext (k ∈ [k0]) (k = k0)) by apply list_elem_of_singleton.
  destruct (decide (k ∈ ks)), (decide (k = k0)), (decide _); tauto.
Qed.

Lemma forgotten_trans tag k ks x1 x2 x3 :
  forgotten tag [k] x1 x2 → forgotten tag ks x2 x3 → forgotten tag (k :: ks) x1 x3.
Proof.
  intros [U1 L1 C1 O1 P1 K1 H1 M1] [U2 L2 C2 O2 P2 K2 H2 M2].
  split; [| | |by intros; rewrite O2, O1|set_solver| |congruence|congruence].
  - intros k'. by rewrite U2, U1, forget_cons.
  - intros k'. by rewrite L2, L1, forget_cons.
  - intros k' c' Hc'. destruct (C2 k' c' Hc') as (c2 & Hc2 & ->).
    destruct (C1 k' c2 Hc2) as (c & Hc & ->). exists c. by rewrite forget_cons.
  - intros k' lm w r Hk' Hlm Hw. destruct (decide (k' = k)) as [->|Hne].
    + destruct (K1 k lm w r) as [Hc Hi]; [set_solver|done|done|]. set_solver.
    + apply (K2 k' lm w r); [set_solver| |done]. rewrite L1, decide_False by set_solver. done.
Qed.

Lemma forgotten_server_l tag ks s x x' :
  forgotten tag ks (xr_with_Server s x) x' → forgotten tag ks x x'.
Proof. intros [? ? ? ? ? ? ? ?]. by split. Qed.

Lemma DelUsers_loop_spec man tag users x x' :
  DelUsers_loop man tag users x = (x', Ok tt) →
  forgotten tag ((λ u, UserTag tag (user_Uuid u)) <$> users) x x'.
Proof.
  revert x. induction users as [|u users IH]; intros x; simpl.
  - intros [= <-]. destruct x as [s]. apply (forgotten_refl tag (mkXray s _ _ _ _ _ _) s).
  - destruct (um_RemoveUser man _ _) as [s [[]|e|w]]; [|done..]. intros H.
    apply IH in H. eapply forgotten_server_l, forgotten_trans; [apply forget_user_spec|exact H].
Qed.

Lemma add_uids_lookup key us m k :
  is_Some (add_uids key us m !! k) ↔ k ∈ key <$> us ∨ is_Some (m !! k).
Proof.
  unfold add_uids. revert m. induction us as [|u us IH]; intros m; simpl.
  - set_solver.
  - rewrite IH, lookup_insert, elem_of_cons. case_decide as Hk; [subst; naive_solver|].
    naive_solver.
Qed.

Lemma AddUsers_loop_fields man us x x' r :
  AddUsers_loop man us x = (x', r) → ∃ s, x' = xr_with_Server s x.
Proof.
  revert x. induction us as [|u us IH]; intros x; simpl.
  - intros [= <- _]. exists (xr_Server x). by destruct x.
  - destruct (ToMemoryUser u) as [m|e|w]; [|(intros [= <- _]; exists (xr_Server x); by destruct x)..].
    destruct (um_AddUser _ _ _) as [s [[]|e|w]]; [|(intros [= <- _]; by exists s)..].
    intros H. apply IH in H as [s' ->]. by exists s'.
Qed.

Lemma Xray_AddUsers_uidMap p x x' r :
  Xray_AddUsers p x = (x', r) →
  xr_uidMap x' = add_uids (λ u, UserTag (aup_Tag p) (user_Uuid u)) (aup_Users p) (xr_uidMap x).
Proof.
  unfold Xray_AddUsers. destruct (protocol_users p) as [us|e|w]; [|by intros [= <- _]..].
  destruct (map_err _ _) as [man|e|w]; [|by intros [= <- _]..].
  destruct (AddUsers_loop _ _ _) as [x1 r1] eqn:Hl. intros [= <- _].
  apply AddUsers_loop_fields in Hl as [s ->]. done.
Qed.

Lemma buildSSUsers_length tag us c k l : buildSSUsers tag us c k = Ok l → length l = length us.
Proof.
  revert l. induction us as [|u us IH]; intros l; [by intros [= <-]|]. cbn [buildSSUsers].
  intros (a & _ & H)%bind_Ok_inv. apply bind_Ok_inv in H as (b & Hb & [= <-]).
  simpl. by rewrite (IH b).
Qed.

Lemma protocol_users_length p l : protocol_users p = Ok l → length l = length (aup_Users p).
Proof.
  unfold protocol_users. repeat case_match; try done; try (intros [= <-]; apply length_fmap).
  apply buildSSUsers_length.
Qed.

Lemma uuids_tagged tag us u :
  u ∈ (list_to_set (uuids us) : gset string) ↔ UserTag tag u ∈ (λ u, UserTag tag (user_Uuid u)) <$> us.
Proof.
  rewrite elem_of_list_to_set. unfold uuids. rewrite !list_elem_of_fmap. split.
  - intros (v & -> & Hv). by exists v.
  - intros (v & Hk%UserTag_inj_uuid & Hv). by exists v.
Qed.

(** The accounts carry the e-mails of their users. *)
Lemma buildSSUsers_emails tag us c k l :
  buildSSUsers tag us c k = Ok l → pu_Email <$> l = (λ u, UserTag tag (user_Uuid u)) <$> us.
Proof.
  revert l. induction us as [|u us IH]; intros l; [by intros [= <-]|]. cbn [buildSSUsers].
  intros (a & Ha & H)%bind_Ok_inv. apply bind_Ok_inv in H as (b & Hb & [= <-]).
  rewrite !fmap_cons, (IH b Hb). f_equal. revert Ha. unfold buildSSUser. case_decide; [by intros [= <-]|].
  by intros (key & _ & [= <-])%bind_Ok_inv.
Qed.

Lemma protocol_users_emails p l :
  protocol_users p = Ok l → pu_Email <$> l = (λ u, UserTag (aup_Tag p) (user_Uuid u)) <$> aup_Users p.
Proof.
  unfold protocol_users. repeat case_match; try done; try apply buildSSUsers_emails; intros [= <-];
    unfold buildVmessUsers, buildVlessUsers, buildTrojanUsers; rewrite <- list_fmap_compose;
    by apply list_fmap_ext.
Qed.

(** A failed [DelUsers] has still forgotten the users before the failure. *)
Lemma DelUsers_loop_partial man tag users x x' r :
  DelUsers_loop man tag users x = (x', r) →
  ∃ dn x1 s, dn `prefix_of` users ∧
    forgotten tag ((λ u, UserTag tag (user_Uuid u)) <$> dn) x x1 ∧ x' = xr_with_Server s x1.
Proof.
  revert x. induction users as [|u users IH]; intros x; simpl.
  - intros [= <- _]. exists [], x, (xr_Server x). split_and!; [done| |by destruct x].
    destruct x as [s]. apply (forgotten_refl tag (mkXray s _ _ _ _ _ _) s).
  - destruct (um_RemoveUser man _ _) as [s [[]|e|w]].
    + intros H. apply IH in H as (d & x1 & s' & Hd & Hf & ->). exists (u :: d), x1, s'.
      split_and!; [by apply prefix_cons| |done]. simpl.
      eapply forgotten_server_l, forgotten_trans; [apply forget_user_spec|exact Hf].
    + intros [= <- _]. exists [], x, s. split_and!; [apply prefix_nil| |done].
      destruct x as [s0]. apply (forgotten_refl tag (mkXray s0 _ _ _ _ _ _) s0).
    + intros [= <- _]. exists [], x, s. split_and!; [apply prefix_nil| |done].
      destruct x as [s0]. apply (forgotten_refl tag (mkXray s0 _ _ _ _ _ _) s0).
Qed.

Lemma Xray_DelUsers_forgotten us tag info x x' :
  Xray_DelUsers us tag info x = (x', Ok tt) →
  forgotten tag ((λ u, UserTag tag (user_Uuid u)) <$> us) x x'.
Proof.
  unfold Xray_DelUsers. destruct (map_err _ _) as [man|e|w]; [|done..]. apply DelUsers_loop_spec.
Qed.

(** The uids of one node leave those of another alone. *)
Lemma add_uids_other tag tag' us m u :
  contains_char "|"%char tag = false → contains_char "|"%char tag' = false → tag' ≠ tag →
  is_Some (add_uids (λ u, UserTag tag (user_Uuid u)) us m !! UserTag tag' u) ↔
  is_Some (m !! UserTag tag' u).
Proof.
  intros Ht Ht' Hne. rewrite add_uids_lookup. split; [|tauto].
  intros [(w & Hk & _)%list_elem_of_fmap|?]; [|done]. by apply UserTag_inj_nobar in Hk as [? _].
Qed.

(** A call of [DelUsers], failed or not, leaves the uids of another node. *)
Lemma Xray_DelUsers_uids_other us tag info x x' r tag' u :
  Xray_DelUsers us tag info x = (x', r) → contains_char "|"%char tag = false →
  contains_char "|"%char tag' = false → tag' ≠ tag →
  xr_uidMap x' !! UserTag tag' u = xr_uidMap x !! UserTag tag' u.
Proof.
  intros H Ht Ht' Hne. revert H. unfold Xray_DelUsers.
  destruct (map_err _ _) as [man|e|w]; [|by intros [= <- _]..].
  intros (dn & x3 & s & _ & Hf & ->)%DelUsers_loop_partial. cbn [xr_uidMap xr_with_Server].
  rewrite (fg_uid _ _ _ _ Hf), decide_False; [done|].
  intros (w & Hk & _)%list_elem_of_fmap. by apply UserTag_inj_nobar in Hk as [? _].
Qed.

Lemma add_uids_In key us (m : gmap string Z) u :
  NoDup (key <$> us) → u ∈ us → add_uids key us m !! key u = Some (user_Id u).
Proof.
  unfold add_uids. revert m. induction us as [|v us IH]; intros m; [by intros _ ?%not_elem_of_nil|].
  rewrite fmap_cons, NoDup_cons, elem_of_cons. intros [Hv Hnd] [->|Hu]; [|by apply IH].
  cbn [foldl]. assert (∀ m : gmap string Z, key v ∉ key <$> us →
    foldl (λ m u, <[key u := user_Id u]> m) m us !! key v = m !! key v) as Hk.
  { clear. induction us as [|w us IH]; intros m; [done|]. rewrite fmap_cons, not_elem_of_cons.
    intros [Hne Hv]. cbn [foldl]. rewrite IH by done. by rewrite lookup_insert_ne. }
  by rewrite Hk, lookup_insert_eq.
Qed.

(** ** The users that the inbound of a tag accepts *)
Section users.
#[local] Set Default Proof Using "Type*".
Context `{XU : !XrayUsers}.

Definition xr_served (x : Xray) (tag : string) : gset string :=
  list_to_set (omap (GoStd.strip_prefix (tag +:+ "|")) (elements (im_users (xr_Server x) tag))).

Lemma elem_of_xr_served x tag u : u ∈ xr_served x tag ↔ UserTag tag u ∈ im_users (xr_Server x) tag.
Proof.
  unfold xr_served. rewrite elem_of_list_to_set, list_elem_of_omap. split.
  - intros (k & Hk%elem_of_elements & Hs). apply GoStd.strip_prefix_Some in Hs as ->.
    unfold UserTag. by rewrite string_app_assoc.
  - intros Hk. exists (UserTag tag u). by rewrite elem_of_elements, UserTag_strip.
Qed.

Lemma xr_served_server x x' tag :
  im_users (xr_Server x') tag = im_users (xr_Server x) tag → xr_served x' tag = xr_served x tag.
Proof. unfold xr_served. by intros ->. Qed.

(** The users given to the two calls, in terms of e-mails and of uuids. *)
Lemma xr_served_added x x' tag us :
  im_users (xr_Server x') tag =
    im_users (xr_Server x) tag ∪ list_to_set ((λ u, UserTag tag (user_Uuid u)) <$> us) →
  xr_served x' tag = xr_served x tag ∪ list_to_set (uuids us).
Proof.
  intros Hu. apply set_eq. intros v.
  by rewrite elem_of_union, !elem_of_xr_served, Hu, elem_of_union, (uuids_tagged tag us), elem_of_list_to_set.
Qed.

Lemma xr_served_removed x x' tag us :
  im_users (xr_Server x') tag =
    im_users (xr_Server x) tag ∖ list_to_set ((λ u, UserTag tag (user_Uuid u)) <$> us) →
  xr_served x' tag = xr_served x tag ∖ list_to_set (uuids us).
Proof.
  intros Hu. apply set_eq. intros v.
  by rewrite elem_of_difference, !elem_of_xr_served, Hu, elem_of_difference, (uuids_tagged tag us),
    elem_of_list_to_set.
Qed.

Lemma GetUserManager_handler x tag h : GetUserManager x tag = Ok h → ihm_GetHandler (xr_Server x) tag = Ok h.
Proof.
  unfold GetUserManager. destruct (ihm_GetHandler _ _) as [g|e|w]; [|done..]. simpl.
  by destruct (is_GetInbound g), (is_UserManager g).
Qed.

(** The loops of [AddUsers] and [DelUsers] on the users of the inbounds. *)
Record users_changed (ok : bool) (tag : string) (own : gset string) (x x' : Xray) : Prop := {
  uc_own : ok = true → im_users (xr_Server x') tag = own;
  uc_others : ∀ t, t ≠ tag → im_users (xr_Server x') t = im_users (xr_Server x) t;
}.

Lemma AddUsers_loop_users man tag us x x' r :
  ihm_GetHandler (xr_Server x) tag = Ok man → AddUsers_loop man us x = (x', r) →
  users_changed (is_ok r) tag (im_users (xr_Server x) tag ∪ list_to_set (pu_Email <$> us)) x x'.
Proof.
  revert x. induction us as [|u us IH]; intros x Hh; cbn [AddUsers_loop].
  { intros [= <- <-]. split; [set_solver|done]. }
  destruct (ToMemoryUser u) as [m|e|w] eqn:Hm; [|by intros [= <- <-]..].
  pose proof (AddUser_handlers man m (xr_Server x)) as Hh'.
  pose proof (AddUser_others man m (xr_Server x) tag) as Ho.
  destruct (um_AddUser man m (xr_Server x)) as [s [[]|e|w]] eqn:Ha; cbn [fst] in *;
    [|intros [= <- <-]; split; [done|by eauto]..].
  intros H. apply (IH (xr_with_Server s x)) in H as [H1 H2]; [|by rewrite Hh'].
  split; [|intros t Ht; rewrite (H2 t Ht); by apply Ho].
  intros ->%H1. cbn [xr_Server xr_with_Server].
  rewrite (AddUser_users _ _ _ _ _ Hh Ha), (ToMemoryUser_Email _ _ Hm). set_solver.
Qed.

Lemma forget_user_server tag user x : xr_Server (forget_user tag user x) = xr_Server x.
Proof using Type.
  unfold forget_user. cbn [xr_LinkManagers xr_with_counters xr_with_uidMap].
  destruct (xr_LinkManagers x !! user); [|done]. by destruct (CloseAll _).
Qed.

Lemma DelUsers_loop_users man tag us x x' r :
  ihm_GetHandler (xr_Server x) tag = Ok man → DelUsers_loop man tag us x = (x', r) →
  users_changed (is_ok r) tag
    (im_users (xr_Server x) tag ∖ list_to_set ((λ u, UserTag tag (user_Uuid u)) <$> us)) x x'.
Proof.
  revert x. induction us as [|u us IH]; intros x Hh; cbn [DelUsers_loop].
  { intros [= <- <-]. split; [set_solver|done]. }
  set (user := UserTag tag (user_Uuid u)).
  pose proof (RemoveUser_handlers man user (xr_Server x)) as Hh'.
  pose proof (RemoveUser_others man user (xr_Server x) tag) as Ho.
  destruct (um_RemoveUser man user (xr_Server x)) as [s [[]|e|w]] eqn:Ha; cbn [fst] in *;
    [|intros [= <- <-]; split; [done|by eauto]..].
  intros H. apply (IH (forget_user tag user (xr_with_Server s x))) in H as [H1 H2];
    rewrite ?forget_user_server in *; cbn [xr_Server xr_with_Server] in *; [|by rewrite Hh'].
  split; [|intros t Ht; rewrite (H2 t Ht); by apply Ho].
  intros ->%H1. rewrite (RemoveUser_users _ _ _ _ _ Hh Ha). subst user. set_solver.
Qed.

(** ** The four clauses of the contract *)
Lemma Xray_AddUsers_users p x x' r :
  Xray_AddUsers p x = (x', r) →
  users_changed (is_ok r) (aup_Tag p) (im_users (xr_Server x) (aup_Tag p) ∪
    list_to_set ((λ u, UserTag (aup_Tag p) (user_Uuid u)) <$> aup_Users p)) x x'.
Proof.
  unfold Xray_AddUsers. destruct (protocol_users p) as [us|e|w] eqn:Hp; [|by intros [= <- <-]..].
  set (x0 := xr_with_uidMap _ x). destruct (GetUserManager x0 (aup_Tag p)) as [man|e|w] eqn:Hm;
    cbn [map_err]; [|by intros [= <- <-]..].
  destruct (AddUsers_loop man us x0) as [x1 r1] eqn:Hl. intros [= <- <-].
  apply (AddUsers_loop_users man (aup_Tag p)) in Hl; [|by apply GetUserManager_handler].
  rewrite (protocol_users_emails p us Hp) in Hl. destruct Hl as [H1 H2]. split; [|exact H2].
  intros Hok. apply H1. by destruct r1.
Qed.

Lemma Xray_DelUsers_users us tag info x x' r :
  Xray_DelUsers us tag info x = (x', r) →
  users_changed (is_ok r) tag
    (im_users (xr_Server x) tag ∖ list_to_set ((λ u, UserTag tag (user_Uuid u)) <$> us)) x x'.
Proof.
  unfold Xray_DelUsers. destruct (GetUserManager x tag) as [man|e|w] eqn:Hm; cbn [map_err];
    [|by intros [= <- <-]..].
  apply DelUsers_loop_users. by apply GetUserManager_handler.
Qed.

Lemma Xray_AddUsers_served p x x' n :
  Xray_AddUsers p x = (x', Ok n) →
  xr_served x' (aup_Tag p) = xr_served x (aup_Tag p) ∪ list_to_set (uuids (aup_Users p)) ∧
  n = Z.of_nat (length (aup_Users p)).
Proof.
  intros H. split; [by apply xr_served_added, (uc_own _ _ _ _ _ (Xray_AddUsers_users _ _ _ _ H))|].
  revert H. unfold Xray_AddUsers. destruct (protocol_users p) as [l|e|w] eqn:Hp; [|done..].
  destruct (map_err _ _) as [man|e|w]; [|done..].
  destruct (AddUsers_loop _ _ _) as [x3 [?|?|?]]; intros [= _ <-].
  by rewrite (protocol_users_length p l Hp).
Qed.

Lemma Xray_DelUsers_served us tag info x x' :
  Xray_DelUsers us tag info x = (x', Ok tt) →
  xr_served x' tag = xr_served x tag ∖ list_to_set (uuids us).
Proof. intros H. by apply xr_served_removed, (uc_own _ _ _ _ _ (Xray_DelUsers_users _ _ _ _ _ _ H)). Qed.

Lemma Xray_AddUsers_other p x x' r tag' :
  Xray_AddUsers p x = (x', r) → tag' ≠ aup_Tag p → xr_served x' tag' = xr_served x tag'.
Proof. intros H Hne. by apply xr_served_server, (uc_others _ _ _ _ _ (Xray_AddUsers_users _ _ _ _ H)). Qed.

Lemma Xray_DelUsers_other us tag info x x' r tag' :
  Xray_DelUsers us tag info x = (x', r) → tag' ≠ tag → xr_served x' tag' = xr_served x tag'.
Proof.
  intros H Hne. by apply xr_served_server, (uc_others _ _ _ _ _ (Xray_DelUsers_users _ _ _ _ _ _ H)).
Qed.

(** * Properties *)

(** C10: the users of a node of the xray core are those that the user manager of
    its inbound accepts: a successful [AddUsers] adds exactly the given uuids and
    counts them, a successful [DelUsers] removes exactly the given ones, and no
    call, failed or not, touches the users of another node.  The core's own
    table of uids keeps step: [AddUsers] records the number of every given user,
    even when it then fails, and a successful [DelUsers] leaves none of those
    it was given; for tags without a bar neither touches another node's. *)
Theorem Xray_users_contract p us info tag tag' x :
  aup_Tag p = tag →
  let '(x1, r1) := Xray_AddUsers p x in
  let '(x2, r2) := Xray_DelUsers us tag info x in
  (∀ n, r1 = Ok n → xr_served x1 tag = xr_served x tag ∪ list_to_set (uuids (aup_Users p)) ∧
                    n = Z.of_nat (length (aup_Users p))) ∧
  (r2 = Ok tt → xr_served x2 tag = xr_served x tag ∖ list_to_set (uuids us)) ∧
  (tag' ≠ tag → xr_served x1 tag' = xr_served x tag' ∧ xr_served x2 tag' = xr_served x tag') ∧
  (∀ u, NoDup (uuids (aup_Users p)) → u ∈ aup_Users p →
        xr_uidMap x1 !! UserTag tag (user_Uuid u) = Some (user_Id u)) ∧
  (∀ u, r2 = Ok tt → u ∈ uuids us → xr_uidMap x2 !! UserTag tag u = None) ∧
  (contains_char "|"%char tag = false → contains_char "|"%char tag' = false → tag' ≠ tag →
   ∀ u, (is_Some (xr_uidMap x1 !! UserTag tag' u) ↔ is_Some (xr_uidMap x !! UserTag tag' u)) ∧
        xr_uidMap x2 !! UserTag tag' u = xr_uidMap x !! UserTag tag' u).
Proof.
  intros <-. destruct (Xray_AddUsers p x) as [x1 r1] eqn:H1.
  destruct (Xray_DelUsers us (aup_Tag p) info x) as [x2 r2] eqn:H2. split_and!.
  - intros n ->. by apply Xray_AddUsers_served.
  - intros ->. by eapply Xray_DelUsers_served.
  - intros Hne. split; [by eapply Xray_AddUsers_other|by eapply Xray_DelUsers_other].
  - intros u Hnd Hu. rewrite (Xray_AddUsers_uidMap p x x1 _ H1). 
    by apply (add_uids_In (λ u, UserTag (aup_Tag p) (user_Uuid u))); [apply NoDup_tags|].
  - intros u -> Hu. apply Xray_DelUsers_forgotten in H2. rewrite (fg_uid _ _ _ _ H2), decide_True; [done|].
    by apply uuids_tagged, elem_of_list_to_set.
  - intros Ht Ht' Hne u. split; [by rewrite (Xray_AddUsers_uidMap p x x1 _ H1), add_uids_other|].
    by eapply Xray_DelUsers_uids_other.
Qed.
End users.

(** A successful [DelUsers] leaves nothing of the users behind: their uid
    is gone, their counter is gone, every link they had open is closed on both
    ends and unregistered; and nothing of any other user is touched. *)
Theorem Xray_DelUsers_forgets us tag info x x' :
  Xray_DelUsers us tag info x = (x', Ok tt) →
  let ks := (λ u, UserTag tag (user_Uuid u)) <$> us in
  (∀ k, k ∈ ks → xr_uidMap x' !! k = None ∧ xr_LinkManagers x' !! k = None ∧
     (∀ c, xr_Counter x' !! tag = Some c → c !! k = None) ∧
     ∀ lm w r, xr_LinkManagers x !! k = Some lm → lm !! w = Some r →
       w ∈ closed_writers (xr_pipes x') ∧ r ∈ interrupted_readers (xr_pipes x')) ∧
  (∀ k, k ∉ ks → xr_uidMap x' !! k = xr_uidMap x !! k ∧
     xr_LinkManagers x' !! k = xr_LinkManagers x !! k ∧
     (∀ c', xr_Counter x' !! tag = Some c' →
        ∃ c, xr_Counter x !! tag = Some c ∧ c' !! k = c !! k)) ∧
  xr_heap x' = xr_heap x.
Proof.
  intros H ks. revert H. unfold Xray_DelUsers. destruct (map_err _ _) as [man|e|w]; [|done..].
  intros H%DelUsers_loop_spec. fold ks in H. destruct H as [Hu Hl Hc _ _ Hk Hh _].
  split_and!; [| |done].
  - intros k Hin. rewrite Hu, Hl, !decide_True by done. split_and!; [done|done| |intros lm w r; by apply Hk].
    intros c Hc'. destruct (Hc k c Hc') as (c0 & _ & ->). by rewrite decide_True.
  - intros k Hni. rewrite Hu, Hl, !decide_False by done. split_and!; [done|done|].
    intros c' Hc'. destruct (Hc k c' Hc') as (c & Hcc & ->). exists c. by rewrite decide_False.
Qed.
End xray.

(** * Witnesses: an instance is its handlers, by name, and the users of every
    inbound; no user can be added twice, nor removed when it is not there *)
Record wit_instance := mkInstance { wi_handlers : list string; wi_users : gmap string (gset string) }.

Definition wit_users (s : wit_instance) (tag : string) : gset string := default ∅ (wi_users s !! tag).

Definition wit_set_users (tag : string) (us : gset string) (s : wit_instance) : wit_instance :=
  mkInstance (wi_handlers s) (<[tag := us]> (wi_users s)).

#[local] Instance wit_xray : XrayLib := {|
  XInstance := wit_instance; XHandler := string; XMemoryUser := User;
  ihm_GetHandler := λ _ tag, Ok tag;
  is_GetInbound := λ _, true; is_UserManager := λ _, true;
  ToMemoryUser := Ok;
  um_AddUser := λ tag u s,
    if decide (pu_Email u ∈ wit_users s tag) then (s, Err ("User " +:+ pu_Email u +:+ " already exists."))
    else (wit_set_users tag (wit_users s tag ∪ {[pu_Email u]}) s, Ok tt);
  um_RemoveUser := λ tag e s,
    if decide (e ∈ wit_users s tag) then (wit_set_users tag (wit_users s tag ∖ {[e]}) s, Ok tt)
    else (s, Err ("User " +:+ e +:+ " not found."));
  ihm_RemoveHandler := λ _ s, (s, Ok tt); ohm_RemoveHandler := λ _ s, (s, Ok tt);
|}.

Lemma wit_users_same tag us s : wit_users (wit_set_users tag us s) tag = us.
Proof. unfold wit_users. simpl. by rewrite lookup_insert_eq. Qed.

Lemma wit_users_other tag tag' us s : tag' ≠ tag → wit_users (wit_set_users tag us s) tag' = wit_users s tag'.
Proof. intros Hne. unfold wit_users. simpl. by rewrite lookup_insert_ne. Qed.

#[local] Program Instance wit_xray_users : XrayUsers := {| im_users := wit_users; mu_Email := pu_Email |}.
Next Obligation. by intros u m [= ->]. Qed.
Next Obligation. done. Qed.
Next Obligation. intros h m s s' t [= <-]. cbn. case_decide; [done|]. intros [= <-]. apply wit_users_same. Qed.
Next Obligation. intros h m s t t' [= <-] Hne. cbn. case_decide; [done|]. by apply wit_users_other. Qed.
Next Obligation. done. Qed.
Next Obligation. intros h e s s' t [= <-]. cbn. case_decide; [|done]. intros [= <-]. apply wit_users_same. Qed.
Next Obligation. intros h e s t t' [= <-] Hne. cbn. case_decide; [|done]. by apply wit_users_other. Qed.

Definition xray_node : NodeInfo :=
  mkNodeInfo 1 "trojan" 0 0 0 RawDNS_empty Rules_empty None None None None None None None None None
    false false.
Definition xray_users : list UserInfo := [mkUserInfo 1 "u" 0 0; mkUserInfo 2 "v" 0 0].
Definition xray_state : Xray :=
  mkXray (mkInstance ["n"; "m"] {["n" := {["n|u"; "n|v"; "n|w"]}; "m" := {["m|u"]}]})
    {["n|u" := 1%Z; "m|u" := 1%Z]} ∅ ∅ ∅ {["n|u" := {[0%nat := 1%nat]}]} (mkPipes ∅ ∅).

Lemma Xray_users_contract_witness :
  let x' := (@Xray_DelUsers _ canonical_order xray_users "n" xray_node xray_state).1 in
  xr_served x' "n" = {["w"]} ∧ xr_served x' "m" = {["u"]}.
Proof.
  intros x'. assert ((@Xray_DelUsers _ canonical_order xray_users "n" xray_node xray_state).2 = Ok tt) as Hok
    by (vm_compute; reflexivity).
  pose proof (@Xray_users_contract _ canonical_order wit_xray_users (mkAddUsersParams "n" xray_users xray_node)
    xray_users xray_node "n" "m" xray_state eq_refl) as H. subst x'.
  destruct (Xray_AddUsers _ _) as [x1 r1].
  destruct (@Xray_DelUsers _ canonical_order xray_users "n" xray_node xray_state) as [x2 r2].
  destruct H as (_ & Hd & Ho & _). cbn [fst snd] in *. rewrite (Hd Hok).
  destruct Ho as [_ ->]; [done|]. split; vm_compute; reflexivity.
Defined.

Lemma Xray_DelUsers_forgets_witness :
  let x' := (@Xray_DelUsers _ canonical_order xray_users "n" xray_node xray_state).1 in
  0%nat ∈ closed_writers (xr_pipes x') ∧ xr_uidMap x' !! "m|u" = Some 1%Z.
Proof.
  intros x'.
  pose proof (@Xray_DelUsers_forgets _ canonical_order xray_users "n" xray_node xray_state x') as H.
  assert ((@Xray_DelUsers _ canonical_order xray_users "n" xray_node xray_state).2 = Ok tt) as Hok
    by (vm_compute; reflexivity).
  destruct H as (Hin & Hni & _); [subst x'; rewrite <- Hok; apply surjective_pairing|]. split.
  - apply (Hin "n|u" ltac:(by_decide)) with ({[0%nat := 1%nat]} : LinkManager) 1%nat; vm_compute; reflexivity.
  - destruct (Hni "m|u" ltac:(by_decide)) as [-> _]. reflexivity.
Defined.
