(* ===== verification/XrayNode.v ===== *)
(** The xray core as a whole: src/core/xray/node.go, outbound.go, dns.go and
    xray.go, over the inbounds of XrayInbound and the users of XrayCore.

    xray-core's own configuration types, their builders and its instance are
    the parameter [XrayCoreLib].  A core that is not started, or is closed, has nil managers:
    the field [xs_open]. *)

From S2P Require Import Prelude GoStd GoText Conf Panel Counter Traffic Core Host XrayInbound XrayCore.
From stdpp Require Import prelude gmap strings sorting.
From Stdlib Require Import Ascii ZArith Lia.

Open Scope string_scope.

(** * JSON text of the generated DNS configuration (json.MarshalIndent)

    Keys of a map are sorted; no value here is an empty map. *)
#[warnings="-register-all"]
Inductive jv : Type :=
| JvStr (s : string)
| JvNum (z : Z)
| JvArr (l : list jv)
| JvObj (l : list (string * jv)).

Definition newline : string := String NL "".
Fixpoint spaces (n : nat) : string := match n with O => "" | S n => "  " +:+ spaces n end.

Fixpoint json_indented (depth : nat) (v : jv) : string :=
  let sep := "," +:+ newline +:+ spaces (S depth) in
  let wrap o c body := o +:+ newline +:+ spaces (S depth) +:+ body +:+ newline +:+ spaces depth +:+ c in
  match v with
  | JvStr s => json_string s
  | JvNum z => Itoa z
  | JvArr [] => "[]"
  | JvObj [] => "{}"
  | JvArr l => wrap "[" "]" (GoStd.Join (map (json_indented (S depth)) l) sep)
  | JvObj l =>
      wrap "{" "}" (GoStd.Join (map (λ e, json_string e.1 +:+ ": " +:+ json_indented (S depth) e.2) l) sep)
  end.

Definition dns_jv (v : dns_value) : jv :=
  match v with DStr s => JvStr s | DStrs l => JvArr (JvStr <$> l) | DUint16 z => JvNum z end.

Definition key_le {A} (a b : string * A) : Prop := String.leb a.1 b.1 = true.
#[global] Instance key_le_dec {A} (a b : string * A) : Decision (key_le a b).
Proof. unfold key_le. apply _. Defined.

Definition map_jv (m : gmap string dns_value) : jv :=
  JvObj ((λ e, (e.1, dns_jv e.2)) <$> merge_sort key_le (map_to_list m)).

(** [DNSConfig] of node.go *)
Record DNSConfig := mkDNSConfig { dc_Servers : list jv; dc_Tag : string }.
Definition MarshalIndent_DNSConfig (c : DNSConfig) : string :=
  json_indented 0 (JvObj [("servers", JvArr (dc_Servers c)); ("tag", JvStr (dc_Tag c))]).

Example DNSConfig_example :
  MarshalIndent_DNSConfig (mkDNSConfig [JvStr "a"; map_jv {["port" := DUint16 53; "address" := DStr "b"]}] "t")
  = let q := json_string in
    GoStd.Join ["{"; "  " +:+ q "servers" +:+ ": ["; "    " +:+ q "a" +:+ ","; "    {";
      "      " +:+ q "address" +:+ ": " +:+ q "b" +:+ ","; "      " +:+ q "port" +:+ ": 53"; "    }"; "  ],";
      "  " +:+ q "tag" +:+ ": " +:+ q "t"; "}"] newline.
Proof. vm_compute. reflexivity. Qed.

(** * xray-core: configuration types, builders, instance *)
Record LogConf := mkLogConf { log_Level : string; log_Access : string; log_Error : string }.

Record Policy := mkPolicy {
  pol_StatsUserUplink : bool; pol_StatsUserDownlink : bool; pol_Handshake : Z;
  pol_ConnectionIdle : Z; pol_UplinkOnly : Z; pol_DownlinkOnly : Z; pol_BufferSize : Z;
}.

Record OutboundDetourConfig := mkOutboundDetourConfig {
  out_Protocol : string; out_Tag : string; out_SendThrough : option string;
  out_Settings : option string;
}.

Class XrayCoreLib `{XrayLib, XrayConfLib} := {
  json_Indent : string → res string string;
  DNSConf : Type; DNSConf_zero : DNSConf; DNSMsg : Type;
  unmarshal_DNSConf : string → DNSConf * option string;
  DNSConf_Build : DNSConf → res string DNSMsg;
  RouterConf : Type; RouterConf_zero : RouterConf; RouterMsg : Type;
  unmarshal_RouterConf : string → res string RouterConf;
  RouterConf_Build : RouterConf → res string RouterMsg;
  InboundConf : Type;
  unmarshal_Inbounds : string → res string (list InboundConf);
  InboundConf_Build : InboundConf → res string InboundHandlerConfig;
  OutboundConf : Type; OutboundHandlerConfig : Type;
  unmarshal_Outbounds : string → res string (list OutboundConf);
  OutboundConf_Build : OutboundConf → res string OutboundHandlerConfig;
  marshal_FreedomConfig : string → res string string;
  outbound_Build : OutboundDetourConfig → res string OutboundHandlerConfig;
  (* core.New, from the messages of the eight features and the handlers *)
  core_New : LogConf → Policy → DNSMsg → RouterMsg → list InboundHandlerConfig →
             list OutboundHandlerConfig → res string XInstance;
  Server_Start : XInstance → XInstance * res string unit;
  Server_Close : XInstance → XInstance * res string unit;
  RawHandler : Type;
  CreateInbound : XInstance → InboundHandlerConfig → res string RawHandler;
  CreateOutbound : XInstance → OutboundHandlerConfig → res string RawHandler;
  is_InboundHandler : RawHandler → bool;
  is_OutboundHandler : RawHandler → bool;
  ihm_AddHandler : RawHandler → XInstance → XInstance * res string unit;
  ohm_AddHandler : RawHandler → XInstance → XInstance * res string unit;
}.

Section node.
Context `{HO : HostOS} `{XL : XrayLib} `{XC : XrayConfLib} `{XJ : !XrayConfJson}
  `{CL : !XrayCoreLib} `{RO : RangeOrder}.

(** * dns.go *)

(** The inner [err] shadows the result: of the errors after it, only those of
    [Build] are returned; an unmarshal error is returned, but only after the
    file is written. *)
Definition saveDnsConfig (dns dnsPath : string) (w : W) : W * res string unit :=
  match ReadFile dnsPath w with
  | Ok currentData =>
      if decide (currentData = dns) then (w, Ok tt)
      else
        let '(coreDnsConfig, err) := unmarshal_DNSConf dns in
        match DNSConf_Build coreDnsConfig with
        | Ok _ =>
            let '(w, _) := Truncate dnsPath w in
            let '(w, _) := WriteFile dnsPath dns w in
            (w, match err with Some e => Err e | None => Ok tt end)
        | Err e => (w, Err e)
        | Panic p => (w, Panic p)
        end
  | Err e => (w, Err e)
  | Panic p => (w, Panic p)
  end.

(** One server entry: an address with a port is taken apart in place. *)
Definition dns_server (value : gmap string dns_value) : res string (gmap string dns_value) :=
  match value !! "address" with
  | Some (DStr address) =>
      if Contains address ":" && negb (Contains address "/") then
        '(host, port) ← SplitHostPort address;
        let '(p, ok) := ParseUint port in
        let uint16Port := if ok && (p <? 65536)%Z then p else 0%Z in
        mret (<["port" := DUint16 uint16Port]> (<["address" := DStr host]> value))
      else mret value
  | _ => Panic "interface conversion"
  end.

(** The loop over the map; the entries done before an error stay changed. *)
Fixpoint dns_loop (es : list (string * gmap string dns_value))
    (m : gmap string (gmap string dns_value)) (servers : list jv)
    : gmap string (gmap string dns_value) * res string (list jv) :=
  match es with
  | [] => (m, Ok servers)
  | (k, value) :: es =>
      match dns_server value with
      | Ok value => dns_loop es (<[k := value]> m) (servers ++ [map_jv value])%list
      | Err e => (m, Err e)
      | Panic p => (m, Panic p)
      end
  end.

Definition ni_with_RawDNS (d : RawDNS) (n : NodeInfo) : NodeInfo :=
  mkNodeInfo (ni_Id n) (ni_Type n) (ni_Security n) (ni_PushInterval n) (ni_PullInterval n)
    d (ni_Rules n) (ni_VAllss n) (ni_Shadowsocks n) (ni_Trojan n) (ni_Tuic n) (ni_AnyTls n)
    (ni_Hysteria n) (ni_Hysteria2 n) (ni_Common n) (ni_PanelCertConfig n)
    (ni_PanelCertSelfFallbackSet n) (ni_PanelCertRejectUnknownSniSet n).

(** In the branch of the map, [dnsConfigJSON, err :=] shadows the result: the
    outcome of [saveDnsConfig] is lost. *)
Definition updateDNSConfig (node : NodeInfo) (w : W) : NodeInfo * W * res string unit :=
  let dnsPath := Getenv "XRAY_DNS_PATH" w in
  let dns := ni_RawDNS node in
  if decide (dns_Json dns ≠ "") then
    match json_Indent (dns_Json dns) with
    | Ok pretty => let '(w, r) := saveDnsConfig pretty dnsPath w in (node, w, r)
    | Err e => (node, w, Err e)
    | Panic p => (node, w, Panic p)
    end
  else if decide (dns_Map dns ≠ ∅) then
    let '(m, r) := dns_loop (range (dns_Map dns)) (dns_Map dns) [JvStr "1.1.1.1"; JvStr "localhost"] in
    let node := ni_with_RawDNS (mkRawDNS m (dns_Json dns)) node in
    match r with
    | Ok servers =>
        let '(w, r) := saveDnsConfig (MarshalIndent_DNSConfig (mkDNSConfig servers "dns_inbound")) dnsPath w in
        (node, w, match r with Panic p => Panic p | _ => Ok tt end)
    | Err e => (node, w, Err e)
    | Panic p => (node, w, Panic p)
    end
  else (node, w, Ok tt).

(** * outbound.go *)
Definition domain_strategy (xo : XrayOptions) : string :=
  if xo_EnableDNS xo then if decide (xo_DNSType xo = "") then "UseIP" else xo_DNSType xo else "Asis".

Definition buildOutbound (config : Options) (tag : string) : res string OutboundHandlerConfig :=
  let sendThrough := if decide (opt_SendIP config = "") then None else Some (opt_SendIP config) in
  xo ← deref (opt_XrayOptions config);
  setting ← map_err (λ e, "marshal proxy config error: " +:+ e)
              (marshal_FreedomConfig (domain_strategy xo));
  outbound_Build (mkOutboundDetourConfig "freedom" tag sendThrough (Some setting)).

(** * xray.go: building the core *)
Definition parseConnectionConfig (c : XrayConnectionConfig) : Policy :=
  mkPolicy true true (xconn_Handshake c) (xconn_ConnIdle c) (xconn_UplinkOnly c)
    (xconn_DownlinkOnly c) (xconn_BufferSize c).

(** [log.Panic] on an error. *)
Definition must {A} (what : string) (r : res string A) : res string A :=
  match r with Err e => Panic what | r => r end.

Fixpoint build_all {A B} (build : A → res string B) (l : list A) : res string (list B) :=
  match l with
  | [] => Ok []
  | a :: l => b ← build a; bs ← build_all build l; mret (b :: bs)
  end.

(** A custom configuration file: nothing without a path. *)
Definition custom_file {A} (path : string) (what : string) (zero : A)
    (unmarshal : string → res string A) (w : W) : res string A :=
  if decide (path = "") then Ok zero
  else
    data ← must ("Failed to read " +:+ what) (ReadFile path w);
    must ("Failed to unmarshal " +:+ what) (unmarshal data).

(** The DNS file may be unreadable or malformed; then the zero value is used. *)
Definition core_dns (c : XrayConfig) (w : W) : W * DNSConf :=
  let w := Setenv "XRAY_DNS_PATH" "" w in
  if decide (xc_DnsConfigPath c = "") then (w, DNSConf_zero)
  else
    let conf := match ReadFile (xc_DnsConfigPath c) w with
                | Ok data => match unmarshal_DNSConf data with
                             | (conf, None) => conf
                             | (_, Some _) => DNSConf_zero
                             end
                | _ => DNSConf_zero
                end in
    (Setenv "XRAY_DNS_PATH" (xc_DnsConfigPath c) w, conf).

Definition getCore (c : option XrayConfig) (w : W) : W * res string XInstance :=
  match c with
  | None => (w, nil_pointer)
  | Some c =>
      let w := Setenv "XRAY_LOCATION_ASSET" (xc_AssetPath c) w in
      match xc_LogConfig c with
      | None => (w, nil_pointer)
      | Some l =>
          let '(w, coreDnsConfig) := core_dns c w in
          (w,
           dnsConfig ← must "Failed to understand DNS config" (DNSConf_Build coreDnsConfig);
           router ← custom_file (xc_RouteConfigPath c) "Routing config" RouterConf_zero
                      unmarshal_RouterConf w;
           routeConfig ← must "Failed to understand Routing config" (RouterConf_Build router);
           ins ← custom_file (xc_InboundConfigPath c) "Custom Inbound config" [] unmarshal_Inbounds w;
           inBoundConfig ← must "Failed to understand Inbound config" (build_all InboundConf_Build ins);
           outs ← custom_file (xc_OutboundConfigPath c) "Custom Outbound config" [] unmarshal_Outbounds w;
           outBoundConfig ← must "Failed to understand Outbound config" (build_all OutboundConf_Build outs);
           conn ← deref (xc_ConnectionConfig c);
           must "failed to create instance"
             (core_New (mkLogConf (xlog_Level l) (xlog_AccessPath l) (xlog_ErrorPath l))
                (parseConnectionConfig conn) dnsConfig routeConfig inBoundConfig outBoundConfig))
      end
  end.

(** * The core with its life cycle *)
Record XrayState := mkXrayState { xs_core : Xray; xs_open : bool; xs_world : W }.

Definition Xray_New (c : CoreConfig) (w : W) : W * res string XrayState :=
  let '(w, r) := getCore (cc_XrayConfig c) w in
  (w, s ← r; mret (mkXrayState (mkXray s ∅ ∅ ∅ ∅ ∅ (mkPipes ∅ ∅)) false w)).

(** The dispatcher, with its counters and links, comes out of the instance. *)
Definition Xray_Start (s : XrayState) : XrayState * res string unit :=
  let '(i, r) := Server_Start (xr_Server (xs_core s)) in
  let x := xr_with_Server i (xs_core s) in
  match r with
  | Ok _ => (mkXrayState x true (xs_world s), Ok tt)
  | _ => (mkXrayState x (xs_open s) (xs_world s), r)
  end.

Definition Xray_Close (s : XrayState) : XrayState * res string unit :=
  let '(i, r) := Server_Close (xr_Server (xs_core s)) in
  (mkXrayState (xr_with_Server i (xs_core s)) false (xs_world s), r).

(** A call on a manager that is nil panics. *)
Definition when_open {A} (s : XrayState) (f : Xray → Xray * res string A) : XrayState * res string A :=
  if xs_open s then
    let '(x, r) := f (xs_core s) in (mkXrayState x true (xs_world s), r)
  else (s, nil_pointer).

(** * node.go *)
Definition addInbound (config : InboundHandlerConfig) (s : XrayState) : XrayState * res string unit :=
  match CreateInbound (xr_Server (xs_core s)) config with
  | Ok rawHandler =>
      if is_InboundHandler rawHandler then
        when_open s (λ x, let '(i, r) := ihm_AddHandler rawHandler (xr_Server x) in (xr_with_Server i x, r))
      else (s, Err "not an InboundHandler")
  | Err e => (s, Err e)
  | Panic p => (s, Panic p)
  end.

Definition addOutbound (config : OutboundHandlerConfig) (s : XrayState) : XrayState * res string unit :=
  match CreateOutbound (xr_Server (xs_core s)) config with
  | Ok rawHandler =>
      if is_OutboundHandler rawHandler then
        when_open s (λ x, let '(i, r) := ohm_AddHandler rawHandler (xr_Server x) in (xr_with_Server i x, r))
      else (s, Err "not an InboundHandler")
  | Err e => (s, Err e)
  | Panic p => (s, Panic p)
  end.

Definition xs_with_world (w : W) (s : XrayState) : XrayState := mkXrayState (xs_core s) (xs_open s) w.

Definition set_min_traffic (tag : string) (config : Options) (s : XrayState) : XrayState :=
  let x := xs_core s in
  mkXrayState (mkXray (xr_Server x) (xr_uidMap x)
    (<[tag := wrap64 (opt_ReportMinTraffic config * 1024)]> (xr_minTraffic x))
    (xr_heap x) (xr_Counter x) (xr_LinkManagers x) (xr_pipes x)) (xs_open s) (xs_world s).

(** The inbound half of [AddNode]. *)
Definition add_inbound_of (tag : string) (info : NodeInfo) (config : Options) (s : XrayState)
    : XrayState * NodeInfo * res string unit :=
  let '(info, w, r) := updateDNSConfig info (xs_world s) in
  let s := xs_with_world w s in
  match map_err (λ e, "build dns error: " +:+ e) r with
  | Ok _ =>
      let '(w, rnd) := (if decide (ni_Type info = "shadowsocks") then rand_Read 32 w else (w, Ok "")) in
      let s := xs_with_world w s in
      let '(info, r) := buildInbound rnd config info tag in
      match map_err (λ e, "build inbound error: " +:+ e) r with
      | Ok inboundConfig =>
          let '(s, r) := addInbound inboundConfig s in
          (s, info, map_err (λ e, "add inbound error: " +:+ e) r)
      | Err e => (s, info, Err e)
      | Panic p => (s, info, Panic p)
      end
  | Err e => (s, info, Err e)
  | Panic p => (s, info, Panic p)
  end.

Definition add_outbound_of (tag : string) (config : Options) (s : XrayState) : XrayState * res string unit :=
  match map_err (λ e, "build outbound error: " +:+ e) (buildOutbound config tag) with
  | Ok outBoundConfig =>
      let '(s, r) := addOutbound outBoundConfig s in
      (s, map_err (λ e, "add outbound error: " +:+ e) r)
  | Err e => (s, Err e)
  | Panic p => (s, Panic p)
  end.

Definition Xray_AddNode (tag : string) (info : NodeInfo) (config : Options) (s : XrayState)
    : XrayState * (NodeInfo * Options) * res string unit :=
  let '(s, info, r) := add_inbound_of tag info config (set_min_traffic tag config s) in
  match r with
  | Ok _ => let '(s, r) := add_outbound_of tag config s in (s, (info, config), r)
  | r => (s, (info, config), r)
  end.

(** The user calls: [AddUsers] records the uids before it looks at the
    manager; [GetUserTrafficSlice] reads the dispatcher first. *)
Definition xs_AddUsers (p : AddUsersParams) (s : XrayState) : XrayState * res string Z :=
  if xs_open s then when_open s (Xray_AddUsers p)
  else
    let x := xr_with_uidMap (add_uids (λ u, UserTag (aup_Tag p) (user_Uuid u)) (aup_Users p)
                               (xr_uidMap (xs_core s))) (xs_core s) in
    (mkXrayState x false (xs_world s), _ ← protocol_users p; nil_pointer).

Definition xs_DelUsers us tag info (s : XrayState) := when_open s (Xray_DelUsers us tag info).
Definition xs_GetUserTrafficSlice tag reset (s : XrayState) :=
  when_open s (Xray_GetUserTrafficSlice tag reset).
Definition xs_DelNode tag (s : XrayState) := when_open s (Xray_DelNode tag).

#[global] Instance Xray_ops : CoreOps XrayState := {|
  core_Start := Xray_Start;
  core_Close := Xray_Close;
  core_AddNode := Xray_AddNode;
  core_DelNode := xs_DelNode;
  core_AddUsers := xs_AddUsers;
  core_GetUserTrafficSlice := xs_GetUserTrafficSlice;
  core_DelUsers := xs_DelUsers;
  core_Protocols := λ _, Xray_Protocols;
  core_Type := λ _, Xray_Type;
|}.
End node.

(** * Lemmas *)
Section lemmas.
Context `{HO : HostOS} `{XL : XrayLib} `{XC : XrayConfLib} `{XJ : !XrayConfJson}
  `{CL : !XrayCoreLib} `{RO : RangeOrder}.
Implicit Types s : XrayState.

(** ** The contract of a core *)
Lemma when_open_inv {A} s (f : Xray → Xray * res string A) s' r :
  when_open s f = (s', r) →
  (xs_open s = true ∧ ∃ x', f (xs_core s) = (x', r) ∧ s' = mkXrayState x' true (xs_world s)) ∨
  (xs_open s = false ∧ s' = s ∧ r = nil_pointer).
Proof.
  unfold when_open. destruct (xs_open s).
  - destruct (f (xs_core s)) as [x' r'] eqn:E. intros [= <- <-]. left. eauto.
  - intros [= <- <-]. by right.
Qed.

Lemma xs_AddUsers_open p s : xs_open s = true → xs_AddUsers p s = when_open s (Xray_AddUsers p).
Proof. unfold xs_AddUsers. by intros ->. Qed.

Lemma nil_pointer_not_ok {A B} (m : res string A) (b : B) : (m ≫= λ _, nil_pointer) ≠ Ok b.
Proof. by destruct m. Qed.

Section contract.
Context `{XU : !XrayUsers}.

#[global] Program Instance Xray_NodeCore : NodeCore XrayState := {|
  served := λ s tag, xr_served (xs_core s) tag;
  core_tag := λ tag, contains_char "|"%char tag = false;
|}.
Next Obligation.
  intros p s s' n. cbn [core_AddUsers Xray_ops]. unfold xs_AddUsers. destruct (xs_open s) eqn:Ho.
  - intros [(_ & x' & H & ->)|(? & _)]%when_open_inv; [|congruence]. by apply Xray_AddUsers_served.
  - intros [= _ H]. by apply nil_pointer_not_ok in H.
Qed.
Next Obligation.
  intros us tag info s s'. intros [(_ & x' & H & ->)|(_ & _ & [=])]%when_open_inv.
  by eapply Xray_DelUsers_served.
Qed.
Next Obligation.
  intros p s s' r tag. cbn [core_AddUsers Xray_ops]. unfold xs_AddUsers. destruct (xs_open s) eqn:Ho.
  - intros [(_ & x' & H & ->)|(? & _)]%when_open_inv; [|congruence].
    intros. by eapply Xray_AddUsers_other.
  - by intros [= <- _] _ _ _.
Qed.
Next Obligation.
  intros us tag info s s' r tag'. intros [(_ & x' & H & ->)|(_ & -> & _)]%when_open_inv; [|done].
  intros. by eapply Xray_DelUsers_other.
Qed.

#[global] Instance Xray_ReportFrame : ReportFrame XrayState.
Proof.
  intros tag reset s tag'. cbn. unfold xs_GetUserTrafficSlice, when_open. destruct (xs_open s); [|done].
  unfold Xray_GetUserTrafficSlice. by destruct (node_slice _ _ _ _ _ _) as [[h c] l].
Qed.
End contract.

(** ** Adding a node leaves the users alone *)
Definition users_of s := (xr_uidMap (xs_core s), xr_Counter (xs_core s), xr_heap (xs_core s),
                          xr_LinkManagers (xs_core s), xr_minTraffic (xs_core s), xs_open s).

Lemma when_open_server {A B} s (g : A → XInstance → XInstance * res string B) a s' r :
  when_open s (λ x, let '(i, r) := g a (xr_Server x) in (xr_with_Server i x, r)) = (s', r) →
  users_of s' = users_of s ∧ xs_world s' = xs_world s.
Proof.
  intros [(Ho & x' & H & ->)|(_ & -> & _)]%when_open_inv; [|done].
  destruct (g a _) as [i q]. injection H as <- _. unfold users_of. simpl. by rewrite Ho.
Qed.

Lemma addInbound_users c s s' r : addInbound c s = (s', r) → users_of s' = users_of s.
Proof.
  unfold addInbound. repeat case_match; try by intros [= <- _]. by intros [? _]%when_open_server.
Qed.

Lemma addOutbound_users c s s' r : addOutbound c s = (s', r) → users_of s' = users_of s.
Proof.
  unfold addOutbound. repeat case_match; try by intros [= <- _]. by intros [? _]%when_open_server.
Qed.

Lemma add_inbound_of_users tag info config s s' info' r :
  add_inbound_of tag info config s = (s', info', r) → users_of s' = users_of s.
Proof.
  unfold add_inbound_of. destruct (updateDNSConfig _ _) as [[i w] q].
  destruct (map_err _ q); [|by intros [= <- _ _]..].
  destruct (if decide _ then _ else _) as [w' rnd]. destruct (buildInbound _ _ _ _) as [i' q'].
  destruct (map_err _ q') as [c|e|p]; [|by intros [= <- _ _]..].
  destruct (addInbound c _) as [s2 q2] eqn:Ha. intros [= <- _ _]. by apply addInbound_users in Ha.
Qed.

Lemma add_outbound_of_users tag config s s' r :
  add_outbound_of tag config s = (s', r) → users_of s' = users_of s.
Proof.
  unfold add_outbound_of. destruct (map_err _ _) as [c|e|p]; [|by intros [= <- _]..].
  destruct (addOutbound c s) as [s2 q2] eqn:Ha. intros [= <- _]. by apply addOutbound_users in Ha.
Qed.

(** ** DNS *)
Lemma dns_server_panic value a : value !! "address" = Some (DStr a) → no_panic (dns_server value).
Proof.
  intros Ha. unfold dns_server. rewrite Ha. case_match; [|done].
  apply no_panic_bind; [auto with no_panic|intros [h p] _; by destruct (ParseUint p)].
Qed.

(** The entry of an address and a port. *)
Lemma dns_server_joined value host port :
  contains_char "[" host = false → contains_char "]" host = false → contains_char "/" host = false →
  (0 ≤ port < 65536)%Z → value !! "address" = Some (DStr (join_host_port host (Itoa port))) →
  dns_server value = Ok (<["port" := DUint16 port]> (<["address" := DStr host]> value)).
Proof.
  intros Ho Hc Hs Hp Ha. unfold dns_server. rewrite Ha.
  assert (∀ c, is_digit c = false → c ≠ "-"%char → contains_char c (Itoa port) = false) as Hn
    by (intros; by apply Itoa_no).
  rewrite Contains_char, Contains_char.
  assert (contains_char ":" (join_host_port host (Itoa port)) = true) as ->.
  { unfold join_host_port. case_match; rewrite !contains_char_app; simpl; by rewrite !orb_true_r. }
  assert (contains_char "/" (join_host_port host (Itoa port)) = false) as ->.
  { unfold join_host_port. case_match; rewrite !contains_char_app, Hs, Hn by done; done. }
  cbn [andb negb]. rewrite SplitHostPort_join by (done || by apply Hn). cbn [mbind res_bind].
  assert (ParseUint (Itoa port) = (port, true)) as ->.
  { unfold ParseUint. rewrite parse_digits_Itoa by lia.
    by rewrite (proj2 (Z.leb_gt _ _)) by (unfold two64; lia). }
  by rewrite (proj2 (Z.ltb_lt _ _)) by lia.
Qed.

Lemma ni_with_RawDNS_id n : ni_with_RawDNS (ni_RawDNS n) n = n.
Proof. by destruct n. Qed.

Lemma updateDNSConfig_node n w n' w' r :
  updateDNSConfig n w = (n', w', r) → n' = ni_with_RawDNS (ni_RawDNS n') n.
Proof.
  unfold updateDNSConfig. case_decide.
  { destruct (json_Indent _); [destruct (saveDnsConfig _ _ _)|..]; intros [= <- _ _];
      by rewrite ni_with_RawDNS_id. }
  case_decide; [|intros [= <- _ _]; by rewrite ni_with_RawDNS_id].
  destruct (dns_loop _ _ _) as [m q]. destruct q; [destruct (saveDnsConfig _ _ _)|..];
    by intros [= <- _ _].
Qed.

(** A second writing of the same text changes nothing, if writing works. *)
Lemma saveDnsConfig_written dns path w w' r :
  (∀ p d w w', WriteFile p d w = (w', None) → ReadFile p w' = Ok d) →
  (∀ p d w, (WriteFile p d w).2 = None) →
  saveDnsConfig dns path w = (w', r) →
  (∃ m, ReadFile path w = Ok m) → (∀ e, DNSConf_Build (unmarshal_DNSConf dns).1 ≠ Err e) →
  no_panic (DNSConf_Build (unmarshal_DNSConf dns).1) →
  ReadFile path w' = Ok dns.
Proof.
  intros Hrw Hok. unfold saveDnsConfig. intros H [m Hm] Hb Hnp. rewrite Hm in H.
  case_decide; [injection H as <- _; congruence|].
  destruct (unmarshal_DNSConf dns) as [c e]. cbn [fst] in *.
  destruct (DNSConf_Build c) as [x|e'|q]; [|by destruct (Hb e')|done].
  destruct (Truncate path w) as [w1 e1]. destruct (WriteFile path dns w1) as [w2 e2] eqn:Hw.
  injection H as <- _. apply (Hrw path dns w1). specialize (Hok path dns w1).
  rewrite Hw in Hok. cbn in Hok. by subst e2.
Qed.

Lemma add_inbound_of_ok tag info config s s' info' :
  add_inbound_of tag info config s = (s', info', Ok tt) →
  ∃ rnd h i hi, info' = normal_node (ni_with_RawDNS (ni_RawDNS info') info) ∧
    buildInbound rnd config (ni_with_RawDNS (ni_RawDNS info') info) tag = (info', Ok h) ∧
    ihm_AddHandler hi (xr_Server (xs_core s)) = (i, Ok tt) ∧
    CreateInbound (xr_Server (xs_core s)) h = Ok hi ∧ xr_Server (xs_core s') = i.
Proof.
  unfold add_inbound_of. destruct (updateDNSConfig _ _) as [[i0 w] q] eqn:Hd.
  apply updateDNSConfig_node in Hd.
  destruct (map_err _ q); [|by intros [=]..].
  destruct (if decide _ then _ else _) as [w' rnd]. destruct (buildInbound _ _ _ _) as [i' q'] eqn:Hb.
  destruct (map_err _ q') as [c|e|p] eqn:Hq; [|by intros [=]..]. apply map_err_Ok in Hq as ->.
  destruct (addInbound c _) as [s2 q2] eqn:Ha. intros [= <- <- Hq2]. apply map_err_Ok in Hq2 as ->.
  assert (i' = normal_node i0) as Hi.
  { revert Hb. unfold buildInbound. destruct (build_protocol rnd config i0) as [j rr] eqn:Hp.
    intros [= -> Hr]. apply bind_Ok_inv in Hr as ([? ?] & -> & _). by apply build_protocol_ok in Hp as [-> _]. }
  assert (ni_RawDNS i' = ni_RawDNS i0) as Hraw.
  { subst i'. unfold normal_node. by repeat case_match. }
  rewrite Hraw, <- Hd. revert Ha. unfold addInbound. cbn [xs_core xs_with_world].
  destruct (CreateInbound _ c) as [h|e|p] eqn:Hc; [|by intros [=]..]. case_match; [|by intros [=]].
  intros [(_ & x' & Hx & ->)|(_ & _ & [=])]%when_open_inv. cbn [xs_core xs_with_world] in Hx.
  destruct (ihm_AddHandler h _) as [i1 r1] eqn:Hh. injection Hx as <- ->.
  exists rnd, c, i1, h. by split_and!.
Qed.

Lemma add_outbound_of_ok tag config s s' :
  add_outbound_of tag config s = (s', Ok tt) →
  ∃ o ho, buildOutbound config tag = Ok o ∧ CreateOutbound (xr_Server (xs_core s)) o = Ok ho ∧
    ohm_AddHandler ho (xr_Server (xs_core s)) = (xr_Server (xs_core s'), Ok tt).
Proof.
  unfold add_outbound_of. destruct (map_err _ _) as [c|e|p] eqn:Hq; [|by intros [=]..].
  apply map_err_Ok in Hq. destruct (addOutbound c s) as [s2 q2] eqn:Ha.
  intros [= <- Hq2]. apply map_err_Ok in Hq2 as ->. revert Ha. unfold addOutbound.
  destruct (CreateOutbound _ c) as [h|e|p] eqn:Hc; [|by intros [=]..]. case_match; [|by intros [=]].
  intros [(_ & x' & Hx & ->)|(_ & _ & [=])]%when_open_inv.
  destruct (ohm_AddHandler h _) as [i1 r1] eqn:Hh. injection Hx as <- ->. by exists c, h.
Qed.

Lemma dns_loop_ok es m sv :
  (∀ e, e ∈ es → is_ok (dns_server e.2) = true) → ∃ sv', (dns_loop es m sv).2 = Ok sv'.
Proof.
  revert m sv. induction es as [|[k v] es IH]; intros m sv H; [by eexists|]. cbn [dns_loop].
  pose proof (H (k, v) ltac:(left)) as Hv. cbn [snd] in Hv.
  destruct (dns_server v); [|done..]. apply IH. intros; apply H; by right.
Qed.

(** ** Building a core *)
Definition never_errors {A} (r : res string A) : Prop := ∀ e, r ≠ Err e.

Lemma never_errors_bind {A B} (m : res string A) (f : A → res string B) :
  never_errors m → (∀ a, never_errors (f a)) → never_errors (m ≫= f).
Proof. destruct m as [a|e|p]; intros Hm Hf; [apply Hf|by destruct (Hm e)|done]. Qed.

Lemma never_errors_must {A} what (r : res string A) : never_errors (must what r).
Proof. by destruct r. Qed.

Lemma never_errors_custom {A} path what (z : A) u w : never_errors (custom_file path what z u w).
Proof.
  unfold custom_file. case_decide; [done|].
  apply never_errors_bind; [apply never_errors_must|intros; apply never_errors_must].
Qed.

Lemma getCore_never_errors c w w' r : getCore c w = (w', r) → never_errors r.
Proof.
  unfold getCore. destruct c as [c|]; [|by intros [= _ <-]].
  destruct (xc_LogConfig c); [|by intros [= _ <-]]. destruct (core_dns c _) as [w1 d].
  intros [= _ <-].
  repeat (apply never_errors_bind;
    [first [apply never_errors_must|apply never_errors_custom|by destruct (xc_ConnectionConfig c)]|intros ?]).
  apply never_errors_must.
Qed.

(** ** Calls that return

    The libraries return, with a value or an error. *)
Class XrayCoreTotal := {
  total_conf : XrayConfTotal;
  total_ReadFile : ∀ p w, no_panic (ReadFile p w);
  total_rand : ∀ n w, no_panic (rand_Read n w).2;
  total_Indent : ∀ t, no_panic (json_Indent t);
  total_DNS : ∀ c, no_panic (DNSConf_Build c);
  total_Freedom : ∀ t, no_panic (marshal_FreedomConfig t);
  total_Outbound : ∀ c, no_panic (outbound_Build c);
  total_CreateIn : ∀ i c, no_panic (CreateInbound i c);
  total_CreateOut : ∀ i c, no_panic (CreateOutbound i c);
  total_AddIn : ∀ h i, no_panic (ihm_AddHandler h i).2;
  total_AddOut : ∀ h i, no_panic (ohm_AddHandler h i).2;
}.
#[local] Existing Instance total_conf.

Lemma saveDnsConfig_returns `{!XrayCoreTotal} dns p w : no_panic (saveDnsConfig dns p w).2.
Proof.
  unfold saveDnsConfig. pose proof (total_ReadFile p w). destruct (ReadFile p w); [|done..].
  case_decide; [done|]. destruct (unmarshal_DNSConf dns) as [c e].
  pose proof (total_DNS c). destruct (DNSConf_Build c); [|done..].
  destruct (Truncate p w) as [w1 e1], (WriteFile p dns _) as [w2 e2]. by destruct e.
Qed.

Lemma dns_loop_returns es m sv :
  (∀ e, e ∈ es → ∃ a, e.2 !! "address" = Some (DStr a)) → no_panic (dns_loop es m sv).2.
Proof.
  revert m sv. induction es as [|[k v] es IH]; intros m sv He; [done|]. cbn [dns_loop].
  destruct (He (k, v) ltac:(left)) as [a Ha]. apply dns_server_panic in Ha. cbn [snd] in Ha.
  destruct (dns_server v); [|done..]. apply IH. intros; apply He; by right.
Qed.

Lemma updateDNSConfig_returns `{!XrayCoreTotal} node w :
  dns_wf (ni_RawDNS node) → no_panic (updateDNSConfig node w).2.
Proof.
  intros Hd. unfold updateDNSConfig. case_decide.
  { pose proof (total_Indent (dns_Json (ni_RawDNS node))). destruct (json_Indent _) as [t|e|p]; [|done..].
    pose proof (saveDnsConfig_returns t (Getenv "XRAY_DNS_PATH" w) w). by destruct (saveDnsConfig _ _ _). }
  case_decide; [|done].
  pose proof (dns_loop_returns (range (dns_Map (ni_RawDNS node))) (dns_Map (ni_RawDNS node))
    [JvStr "1.1.1.1"; JvStr "localhost"]) as Hl.
  destruct (dns_loop _ _ _) as [m [srv|e|p]]; [|done|].
  - match goal with |- context [saveDnsConfig ?t ?p w] => pose proof (saveDnsConfig_returns t p w) end.
    destruct (saveDnsConfig _ _ _) as [w' [?|?|?]]; done.
  - apply Hl. intros [k v] Hkv%elem_of_range. by eapply Hd.
Qed.

Lemma when_open_returns {A} s (f : Xray → Xray * res string A) :
  xs_open s = true → no_panic (f (xs_core s)).2 → no_panic (when_open s f).2.
Proof. unfold when_open. intros ->. by destruct (f (xs_core s)). Qed.

Lemma addInbound_returns `{!XrayCoreTotal} c s : xs_open s = true → no_panic (addInbound c s).2.
Proof.
  intros Ho. unfold addInbound. pose proof (total_CreateIn (xr_Server (xs_core s)) c).
  destruct (CreateInbound _ _) as [h|e|p]; [|done..]. case_match; [|done].
  apply when_open_returns; [done|]. pose proof (total_AddIn h (xr_Server (xs_core s))).
  by destruct (ihm_AddHandler _ _).
Qed.

Lemma addOutbound_returns `{!XrayCoreTotal} c s : xs_open s = true → no_panic (addOutbound c s).2.
Proof.
  intros Ho. unfold addOutbound. pose proof (total_CreateOut (xr_Server (xs_core s)) c).
  destruct (CreateOutbound _ _) as [h|e|p]; [|done..]. case_match; [|done].
  apply when_open_returns; [done|]. pose proof (total_AddOut h (xr_Server (xs_core s))).
  by destruct (ohm_AddHandler _ _).
Qed.

(** On a started core, [AddNode] of a node with its parts returns. *)
Lemma Xray_AddNode_returns `{!XrayCoreTotal} tag info config s :
  xs_open s = true → node_wf info → dns_wf (ni_RawDNS info) → is_Some (opt_XrayOptions config) →
  no_panic (Xray_AddNode tag info config s).2.
Proof.
  intros Ho Hwf Hd Hx. unfold Xray_AddNode. set (s0 := set_min_traffic tag config s).
  destruct (add_inbound_of tag info config s0) as [[s1 i1] r1] eqn:H1.
  pose proof (add_inbound_of_users _ _ _ _ _ _ _ H1) as [= _ _ _ _ _ Ho1].
  assert (no_panic r1) as Hr1.
  { revert H1. unfold add_inbound_of.
    pose proof (updateDNSConfig_returns info (xs_world s0) Hd) as Hu.
    destruct (updateDNSConfig _ _) as [[i0 w] q] eqn:Hdn. apply updateDNSConfig_node in Hdn.
    destruct q as [[]|e|p]; [|by intros [= _ _ <-]|done]. cbn [map_err].
    set (rw := if decide _ then _ else _). assert (no_panic rw.2) as Hrw
      by (subst rw; case_decide; [apply total_rand|done]).
    destruct rw as [w' rnd]. cbn [snd] in Hrw.
    assert (no_panic (buildInbound rnd config i0 tag).2) as Hb.
    { apply buildInbound_returns; [|done..]. rewrite Hdn. destruct Hwf. by split. }
    destruct (buildInbound _ _ _ _) as [i' [c|e|p]]; [|by intros [= _ _ <-]|done].
    cbn [map_err]. pose proof (addInbound_returns c (xs_with_world w' (xs_with_world w s0)) Ho) as Ha.
    destruct (addInbound c _) as [s2 q2]. intros [= _ _ <-]. by apply no_panic_map_err. }
  destruct r1 as [[]|e|p]; [|done..].
  assert (no_panic (add_outbound_of tag config s1).2) as H2.
  { unfold add_outbound_of.
    assert (no_panic (buildOutbound config tag)) as Hb.
    { unfold buildOutbound. apply no_panic_bind; [by apply no_panic_deref|]. intros xo _.
      apply no_panic_bind; [apply no_panic_map_err, total_Freedom|]. intros; apply total_Outbound. }
    destruct (buildOutbound config tag) as [c|e|p]; [|done..]. cbn [map_err].
    pose proof (addOutbound_returns c s1) as Ha. rewrite Ho1 in Ha. specialize (Ha Ho).
    destruct (addOutbound c s1) as [s2 q2]. by apply no_panic_map_err. }
  by destruct (add_outbound_of tag config s1).
Qed.

(** * Properties *)

(** C25: adding a node.  Whether or not it succeeds, [AddNode] keeps the
    options, the users, counters and links of every node and the life cycle
    state, and sets the report threshold of its own tag only; when it succeeds,
    the node has only had its DNS servers and its network normalised, and the
    server has first taken the inbound built for it and then the outbound. *)
Theorem Xray_AddNode_frame tag info config s s' info' config' r :
  Xray_AddNode tag info config s = (s', (info', config'), r) →
  config' = config ∧
  users_of s' = users_of (set_min_traffic tag config s) ∧
  (∀ tag', tag' ≠ tag → xr_minTraffic (xs_core s') !! tag' = xr_minTraffic (xs_core s) !! tag') ∧
  (r = Ok tt → ∃ rnd h i o, info' = normal_node (ni_with_RawDNS (ni_RawDNS info') info) ∧
     buildInbound rnd config (ni_with_RawDNS (ni_RawDNS info') info) tag = (info', Ok h) ∧
     (∃ hi, (ihm_AddHandler hi (xr_Server (xs_core s))) = (i, Ok tt) ∧
            CreateInbound (xr_Server (xs_core s)) h = Ok hi) ∧
     buildOutbound config tag = Ok o ∧
     ∃ ho, CreateOutbound i o = Ok ho ∧ ohm_AddHandler ho i = (xr_Server (xs_core s'), Ok tt)).
Proof.
  unfold Xray_AddNode. set (s0 := set_min_traffic tag config s).
  destruct (add_inbound_of tag info config s0) as [[s1 i1] r1] eqn:H1. intros H.
  pose proof (add_inbound_of_users _ _ _ _ _ _ _ H1) as U1.
  assert (config' = config ∧ users_of s' = users_of s0) as [-> U].
  { destruct r1 as [[]|e|p]; [|by injection H as <- _ <- _..].
    destruct (add_outbound_of tag config s1) as [s2 r2] eqn:H2. injection H as <- _ <- _.
    apply add_outbound_of_users in H2. by rewrite H2, U1. }
  split_and!; [done|done| |].
  { intros tag' Hne. injection U as _ _ _ _ -> _. simpl. by rewrite lookup_insert_ne. }
  intros ->. destruct r1 as [[]|e|p]; [|by injection H..].
  destruct (add_outbound_of tag config s1) as [s2 r2] eqn:H2. injection H as <- <- ->.
  eapply add_inbound_of_ok in H1 as (rnd & h & i & hi & Hn & Hb & Ha & Hc & Hs).
  apply add_outbound_of_ok in H2 as (o & ho & Ho & Hco & Hao). subst i.
  exists rnd, h, (xr_Server (xs_core s1)), o. split_and!; [done|done|by exists hi|done|by exists ho].
Qed.

(** Errors of the generated DNS configuration are lost.  With DNS routes
    but no "main" route, what goes wrong while the file is read, checked or
    written is not an error of [updateDNSConfig]; so without a configured path
    the routes are silently not applied.  With a "main" route the same failure
    is an error, and the node is not added. *)
Theorem dns_errors_lost node w e :
  ReadFile (Getenv "XRAY_DNS_PATH" w) w = Err e →
  let '(node', w', r) := updateDNSConfig node w in
  w' = w ∧
  (dns_Json (ni_RawDNS node) = "" → (∀ k v, dns_Map (ni_RawDNS node) !! k = Some v → is_ok (dns_server v) = true) →
   r = Ok tt) ∧
  (∀ t, dns_Json (ni_RawDNS node) ≠ "" → json_Indent (dns_Json (ni_RawDNS node)) = Ok t → r = Err e).
Proof.
  intros He. unfold updateDNSConfig. case_decide as Hj.
  { destruct (json_Indent _) as [t|e'|p] eqn:Hi; [|by split_and!; naive_solver..].
    unfold saveDnsConfig. rewrite He. split_and!; [done|tauto|done]. }
  case_decide as Hm; [|split_and!; [done|done|tauto]].
  destruct (dns_loop _ _ _) as [m r] eqn:Hl. destruct r as [srv|e'|p].
  - unfold saveDnsConfig. rewrite He. split_and!; [done|done|tauto].
  - split_and!; [done| |tauto]. intros _ Hok. edestruct (dns_loop_ok (range (dns_Map (ni_RawDNS node)))) as [sv Hsv];
      [|rewrite Hl in Hsv; discriminate Hsv]. intros [k v] Hkv%elem_of_range. by eapply Hok.
  - split_and!; [done| |tauto]. intros _ Hok. edestruct (dns_loop_ok (range (dns_Map (ni_RawDNS node)))) as [sv Hsv];
      [|rewrite Hl in Hsv; discriminate Hsv]. intros [k v] Hkv%elem_of_range. by eapply Hok.
Qed.

(** A DNS configuration that xray-core cannot decode is an error only the
    first time: the text is written to the file all the same, and from then on
    it is the current content, so the next [saveDnsConfig] of the same text
    accepts it. *)
Theorem bad_dns_accepted_second_time dns path w m e :
  (∀ p d w w', WriteFile p d w = (w', None) → ReadFile p w' = Ok d) →
  (∀ p d w, (WriteFile p d w).2 = None) →
  ReadFile path w = Ok m → m ≠ dns →
  (unmarshal_DNSConf dns).2 = Some e → is_ok (DNSConf_Build (unmarshal_DNSConf dns).1) = true →
  let '(w', r) := saveDnsConfig dns path w in
  r = Err e ∧ ReadFile path w' = Ok dns ∧ saveDnsConfig dns path w' = (w', Ok tt).
Proof.
  intros Hrw Hok Hm Hne He Hb. destruct (saveDnsConfig dns path w) as [w' r] eqn:Hs.
  assert (ReadFile path w' = Ok dns) as Hr.
  { eapply saveDnsConfig_written; eauto; by destruct (DNSConf_Build _). }
  split_and!; [|done|unfold saveDnsConfig; by rewrite Hr, decide_True].
  revert Hs. unfold saveDnsConfig. rewrite Hm, decide_False by done.
  destruct (unmarshal_DNSConf dns) as [c e']. cbn [fst snd] in *. subst.
  destruct (DNSConf_Build c); [|done..]. destruct (Truncate path w), (WriteFile path dns _).
  by intros [= _ <-].
Qed.

(** The servers of the generated DNS configuration.  An address of a host
    and a port (an IPv6 host in brackets) becomes these two; every other address
    is kept; an IPv6 address without a port is refused, which stops the whole
    node from being added. *)
Theorem dns_server_addresses value a :
  value !! "address" = Some (DStr a) →
  (∀ host port, a = join_host_port host (Itoa port) →
     contains_char "[" host = false → contains_char "]" host = false →
     contains_char "/" host = false → (0 ≤ port < 65536)%Z →
     dns_server value = Ok (<["port" := DUint16 port]> (<["address" := DStr host]> value))) ∧
  (contains_char ":" a = false ∨ contains_char "/" a = true → dns_server value = Ok value) ∧
  (∀ b c, a = b +:+ ":" +:+ c → contains_char ":" b = true → contains_char ":" c = false →
     contains_char "[" a = false → contains_char "/" a = false →
     dns_server value = Err "too many colons in address").
Proof.
  intros Ha. split_and!.
  - intros host port -> Ho Hc Hs Hp. by apply dns_server_joined.
  - unfold dns_server. rewrite Ha, !Contains_char. intros [-> | ->]; [done|by rewrite andb_false_r].
  - intros b c -> Hb Hc Ho Hs. change (":" +:+ c) with (String ":" c) in *. unfold dns_server. rewrite Ha, !Contains_char, Hs.
    rewrite contains_char_app, Hb. cbn [andb orb negb]. unfold SplitHostPort.
    rewrite LastIndexByte_app by done. rewrite decide_False.
    2:{ rewrite get_0_app. destruct b as [|x b]; [done|]. intros [= ->]. done. }
    rewrite slice_to_app, Hb. done.
Qed.

(** Building a core.  [New] never returns an error: it returns a core or
    ends the program, and only a DNS file that is missing or malformed is made
    up for, by the default DNS configuration. *)
Theorem Xray_New_never_errors c w :
  (∀ e, (Xray_New c w).2 ≠ Err e) ∧
  (∀ xc, (∀ e, ReadFile (xc_DnsConfigPath xc) (Setenv "XRAY_DNS_PATH" "" w) = Err e →
     (core_dns xc w).2 = DNSConf_zero) ∧
    (∀ t e, ReadFile (xc_DnsConfigPath xc) (Setenv "XRAY_DNS_PATH" "" w) = Ok t →
     (unmarshal_DNSConf t).2 = Some e → (core_dns xc w).2 = DNSConf_zero)).
Proof.
  split.
  - intros e. unfold Xray_New. destruct (getCore _ _) as [w' r] eqn:Hg. cbn [snd].
    assert (never_errors r) as Hr by (by eapply getCore_never_errors).
    destruct r as [x|e'|p]; [done|by destruct (Hr e')|done].
  - intros xc. unfold core_dns. split; intros *; case_decide; cbn [snd]; try done.
    + by intros ->.
    + intros -> He. destruct (unmarshal_DNSConf t) as [d o]. cbn in He. by subst o.
Qed.
End lemmas.

(** * Witnesses: files and environment in one table *)
#[local] Instance wit_host : HostOS := {|
  W := gmap string string;
  ReadFile := λ p w, match w !! p with Some d => Ok d | None => Err "no such file" end;
  WriteFile := λ p d w, (<[p := d]> w, None);
  Truncate := λ p w, (<[p := ""]> w, None);
  Getenv := λ k w, default "" (w !! ("$" +:+ k));
  Setenv := λ k v w, <["$" +:+ k := v]> w;
  rand_Read := λ n w, (w, Ok "");
|}.
#[local] Existing Instance wit_xray.

(** A handler of the instance, added under its name. *)
Definition wit_add_handler (h : string) (i : wit_instance) : wit_instance :=
  mkInstance (wi_handlers i ++ [h])%list (wi_users i).

#[local] Instance wit_conf : XrayConfLib := {|
  XAddress := string; net_ParseAddress := λ s, s;
  TCPRest := unit; tcp_rest_zero := tt; WSRest := string; ws_rest_zero := "";
  GRPCConfig := string; HttpUpgradeConfig := string; SplitHTTPConfig := string;
  InboundHandlerConfig := string;
|}.
#[local] Instance wit_json : XrayConfJson := {|
  unmarshal_TCPConfig := λ s, Ok None; unmarshal_WebSocketConfig := λ s, Ok None;
  unmarshal_GRPCConfig := λ s, Ok None; unmarshal_HttpUpgradeConfig := λ s, Ok None;
  unmarshal_SplitHTTPConfig := λ s, Ok None;
  marshal_VLessInboundConfig := λ c, Ok ""; marshal_VMessInboundConfig := Ok "";
  marshal_TrojanServerConfig := λ l, Ok ""; marshal_ShadowsocksServerConfig := λ c, Ok "";
  inbound_Build := λ c, Ok (in_Tag c);
|}.
(** A DNS configuration that starts with an x cannot be decoded. *)
#[local] Instance wit_core : XrayCoreLib := {|
  json_Indent := Ok;
  DNSConf := string; DNSConf_zero := ""; DNSMsg := string;
  unmarshal_DNSConf := λ t, if HasPrefix t "x" then ("", Some "bad") else (t, None);
  DNSConf_Build := Ok;
  RouterConf := unit; RouterConf_zero := tt; RouterMsg := unit;
  unmarshal_RouterConf := λ _, Ok tt; RouterConf_Build := Ok;
  InboundConf := string; unmarshal_Inbounds := λ t, Ok [t]; InboundConf_Build := Ok;
  OutboundConf := string; OutboundHandlerConfig := string;
  unmarshal_Outbounds := λ t, Ok [t]; OutboundConf_Build := Ok;
  marshal_FreedomConfig := Ok; outbound_Build := λ c, Ok (out_Tag c);
  core_New := λ _ _ _ _ ins outs, Ok (mkInstance (ins ++ outs)%list ∅);
  Server_Start := λ i, (i, Ok tt); Server_Close := λ i, (i, Ok tt);
  RawHandler := string; CreateInbound := λ _ c, Ok ("in " +:+ c); CreateOutbound := λ _ c, Ok ("out " +:+ c);
  is_InboundHandler := λ _, true; is_OutboundHandler := λ _, true;
  ihm_AddHandler := λ h i, (wit_add_handler h i, Ok tt);
  ohm_AddHandler := λ h i, (wit_add_handler h i, Ok tt);
|}.
#[local] Instance wit_order : RangeOrder := canonical_order.

Definition wit_common : CommonNode := mkCommonNode "h" 443 "n" [] None.
Definition wit_servers : gmap string (gmap string dns_value) :=
  {["0" := {["address" := DStr "[::1]:53"]}]}.
Definition wit_node : NodeInfo :=
  mkNodeInfo 1 "shadowsocks" 0 0 0 (mkRawDNS wit_servers "") Rules_empty None
    (Some (mkShadowsocksNode wit_common "aes-128-gcm" "")) None None None None None
    (Some wit_common) None false false.
Definition wit_options : Options := opt_with_XrayOptions (Some NewXrayOptions) Options_default.
Definition wit_state : XrayState :=
  mkXrayState (mkXray (mkInstance [] ∅) ∅ ∅ ∅ ∅ ∅ (mkPipes ∅ ∅)) true {["dns.json" := ""]}.

Lemma Xray_AddNode_frame_witness :
  ∃ l, wi_handlers (xr_Server (xs_core (Xray_AddNode "t" wit_node wit_options wit_state).1.1)) = l ∧
    length l = 2%nat.
Proof.
  destruct (Xray_AddNode "t" wit_node wit_options wit_state) as [[s' [i' c']] r] eqn:E.
  pose proof (Xray_AddNode_frame _ _ _ _ _ _ _ _ E) as (_ & _ & _ & H).
  assert (r = Ok tt) as Hr.
  { assert ((Xray_AddNode "t" wit_node wit_options wit_state).2 = Ok tt) as Hv
      by (vm_compute; reflexivity). by rewrite E in Hv. }
  destruct (H Hr) as (rnd & h & i & o & _ & _ & (hi & Ha & _) & _ & ho & _ & Hao).
  clear E H. cbn [fst]. injection Ha as Ha. injection Hao as Hao. rewrite <- Hao, <- Ha.
  by exists [hi; ho].
Defined.

Lemma dns_errors_lost_witness : (updateDNSConfig wit_node (∅ : W)).2 = Ok tt.
Proof.
  pose proof (dns_errors_lost wit_node (∅ : W) "no such file" eq_refl) as H.
  destruct (updateDNSConfig wit_node ∅) as [[n w] r]. destruct H as (_ & H & _).
  apply H; [reflexivity|]. intros k v Hk.
  assert (map_Forall (λ _ v, is_ok (dns_server v) = true) wit_servers) as Hf by by_decide.
  exact (Hf k v Hk).
Defined.

Lemma bad_dns_accepted_second_time_witness :
  let w : W := {["dns.json" := ""]} in
  let '(w', r) := saveDnsConfig "x" "dns.json" w in
  r = Err "bad" ∧ (saveDnsConfig "x" "dns.json" w').2 = Ok tt.
Proof.
  intros w. pose proof (bad_dns_accepted_second_time "x" "dns.json" w "" "bad") as H.
  destruct (saveDnsConfig "x" "dns.json" w) as [w' r]. destruct H as (-> & _ & ->);
    [|done|done|done|done|done|by split].
  intros p d w1 w2 [= <-]. cbn. by rewrite lookup_insert_eq.
Defined.

Lemma dns_server_addresses_witness :
  dns_server {["address" := DStr "::1"]} = Err "too many colons in address".
Proof.
  edestruct (dns_server_addresses {["address" := DStr "::1"]} "::1") as (_ & _ & H);
    [vm_compute; reflexivity|].
  by apply (H ":" "1").
Defined.
