(* ===== verification/SingCore.v ===== *)
(** The sing core's users and hooks: src/core/sing/user.go, hook.go, utils.go
    and the node-independent parts of sing.go.

    sing-box is a parameter ([SingLib]).  This core keys its uid table by the
    bare uuid, while counters are kept per node. *)

From S2P Require Import Prelude GoStd Conf Panel Counter Traffic Limiter Core.
From stdpp Require Import prelude gmap strings.
From Stdlib Require Import ZArith Lia.

Open Scope string_scope.

(** * The user options of the protocols *)
Inductive SUser : Type :=
| VLESSUser (Name Flow UUID : string)
| VMessUser (Name UUID : string)
| ShadowsocksUser (Name Password : string)
| TrojanUser (Name Password : string)
| TUICUser (Name UUID Password : string)
| HysteriaUser (Name AuthString : string)
| Hysteria2User (Name Password : string)
| AnyTLSUser (Name Password : string).

(** sing-box: an inbound has a protocol, which the code asserts, and takes and
    drops users (tuic and hysteria2 with their ids). *)
Class SingLib := {
  SBox : Type;
  inbound_Get : SBox → string → option string;
  inbound_AddUsers : string → list SUser → list Z → SBox → SBox * res string unit;
  inbound_DelUsers : string → list string → SBox → SBox * res string unit;
}.

Definition Sing_Protocols : list string :=
  ["vmess"; "vless"; "shadowsocks"; "trojan"; "tuic"; "anytls"; "hysteria"; "hysteria2"].
Definition Sing_Type : string := "sing".

Section sing.
Context `{SL : SingLib} `{RO : RangeOrder}.

Record Sing := mkSing {
  sg_box : SBox;
  sg_heap : heap;
  sg_counter : node_counters;
  sg_uidMap : gmap string Z;
  sg_minTraffic : gmap string Z;
}.

Definition sg_with_box b (s : Sing) :=
  mkSing b (sg_heap s) (sg_counter s) (sg_uidMap s) (sg_minTraffic s).
Definition sg_with_counters h c (s : Sing) :=
  mkSing (sg_box s) h c (sg_uidMap s) (sg_minTraffic s).
Definition sg_with_uidMap m (s : Sing) :=
  mkSing (sg_box s) (sg_heap s) (sg_counter s) m (sg_minTraffic s).

(** * user.go *)
Definition nil_deref {A} : res string A := Panic "nil pointer dereference".

(** One shadowsocks user: the 2022 ciphers take the first bytes of the uuid. *)
Definition ss_user (cipher : string) (u : UserInfo) : res string SUser :=
  password ← (if decide (cipher = "2022-blake3-aes-128-gcm") then
                p ← slice_to (user_Uuid u) 16; mret (base64_Encode p)
              else if decide (cipher = "2022-blake3-aes-256-gcm") then
                p ← slice_to (user_Uuid u) 32; mret (base64_Encode p)
              else Ok (user_Uuid u));
  mret (ShadowsocksUser (user_Uuid u) password).

Fixpoint map_res {A B} (f : A → res string B) (l : list A) : res string (list B) :=
  match l with
  | [] => Ok []
  | a :: l => b ← f a; bs ← map_res f l; mret (b :: bs)
  end.

(** The users as the node's protocol wants them; [None] for a type the switch
    does not know. *)
Definition sing_users (info : NodeInfo) (us : list UserInfo) : option (res string (list SUser)) :=
  let id u := user_Uuid u in
  if decide (ni_Type info = "vless") then
    Some (map_res (λ u, match ni_VAllss info with
                        | Some v => Ok (VLESSUser (id u) (va_Flow v) (id u))
                        | None => nil_deref end) us)
  else if decide (ni_Type info = "vmess") then Some (Ok ((λ u, VMessUser (id u) (id u)) <$> us))
  else if decide (ni_Type info = "shadowsocks") then
    Some (map_res (λ u, match ni_Shadowsocks info with
                        | Some s => ss_user (ss_Cipher s) u
                        | None => nil_deref end) us)
  else if decide (ni_Type info = "trojan") then Some (Ok ((λ u, TrojanUser (id u) (id u)) <$> us))
  else if decide (ni_Type info = "tuic") then Some (Ok ((λ u, TUICUser (id u) (id u) (id u)) <$> us))
  else if decide (ni_Type info = "hysteria") then Some (Ok ((λ u, HysteriaUser (id u) (id u)) <$> us))
  else if decide (ni_Type info = "hysteria2") then Some (Ok ((λ u, Hysteria2User (id u) (id u)) <$> us))
  else if decide (ni_Type info = "anytls") then Some (Ok ((λ u, AnyTLSUser (id u) (id u)) <$> us))
  else None.

(** The type assertion on the inbound. *)
Definition assert_inbound (kind type : string) : res string unit :=
  if decide (kind = type) then Ok tt else Panic "interface conversion".

Definition sing_uids (us : list UserInfo) (m : gmap string Z) : gmap string Z :=
  foldl (λ m u, <[user_Uuid u := user_Id u]> m) m us.

Definition Sing_AddUsers (p : AddUsersParams) (s : Sing) : Sing * res string Z :=
  match inbound_Get (sg_box s) (aup_Tag p) with
  | None => (s, Err "the inbound not found")
  | Some kind =>
      let s := sg_with_uidMap (sing_uids (aup_Users p) (sg_uidMap s)) s in
      let info := aup_NodeInfo p in
      match sing_users info (aup_Users p) with
      | None => (s, Ok (Z.of_nat (length (aup_Users p))))
      | Some us =>
          match (us ← us; _ ← assert_inbound kind (ni_Type info); mret us) with
          | Ok us =>
              let '(b, r) := inbound_AddUsers (aup_Tag p) us (user_Id <$> aup_Users p) (sg_box s) in
              (sg_with_box b s, _ ← r; mret (Z.of_nat (length (aup_Users p))))
          | Err e => (s, Err e)
          | Panic w => (s, Panic w)
          end
      end
  end.

Definition Sing_GetUserTraffic (tag uuid : string) (reset : bool) (s : Sing) : Sing * (Z * Z) :=
  match sg_counter s !! tag with
  | Some c =>
      let up := GetUpCount (sg_heap s) c uuid in
      let down := GetDownCount (sg_heap s) c uuid in
      let h := if reset then Reset (sg_heap s) c uuid else sg_heap s in
      (sg_with_counters h (sg_counter s) s, (up, down))
  | None => (s, (0%Z, 0%Z))
  end.

Definition Sing_GetUserTrafficSlice (tag : string) (reset : bool) (s : Sing)
    : Sing * res string (list UserTraffic) :=
  let '(h, c, l) := node_slice (zlookup (sg_uidMap s)) (zlookup (sg_minTraffic s) tag) reset
                      (sg_heap s) (sg_counter s) tag in
  (sg_with_counters h c s, Ok l).

(** The body of the loop of [DelUsers]. *)
Definition sing_forget (tag : string) (s : Sing) (u : UserInfo) : Sing :=
  sg_with_uidMap (delete (user_Uuid u) (sg_uidMap s))
    (sg_with_counters (sg_heap s) (node_Delete (sg_counter s) tag (user_Uuid u)) s).

Definition Sing_DelUsers (users : list UserInfo) (tag : string) (info : NodeInfo) (s : Sing)
    : Sing * res string unit :=
  match inbound_Get (sg_box s) tag with
  | None => (s, Err "the inbound not found")
  | Some kind =>
      if decide (ni_Type info ∈ Sing_Protocols) then
        match assert_inbound kind (ni_Type info) with
        | Ok _ =>
            let s := foldl (sing_forget tag) s users in
            let '(b, r) := inbound_DelUsers tag (user_Uuid <$> users) (sg_box s) in
            (sg_with_box b s, r)
        | r => (s, r)
        end
      else (foldl (sing_forget tag) s users, nil_deref)
  end.

(** * utils.go

    The text of the parse error is left out of the error. *)
Record ServerOptions := mkServerOptions { so_Server : string; so_ServerPort : Z }.

Fixpoint fallback_loop (es : list (string * FallBack)) (m : gmap string ServerOptions)
    : res string (gmap string ServerOptions) :=
  match es with
  | [] => Ok m
  | (k, v) :: es =>
      let '(fallbackPort, ok) := Atoi (fall_ServerPort v) in
      if ok then fallback_loop es (<[k := mkServerOptions (fall_Server v) (wrapu16 fallbackPort)]> m)
      else Err "unable to parse fallbackForALPN server port error"
  end.

Definition processFallback (c : Options) (fallbackForALPN : gmap string ServerOptions)
    : res string (gmap string ServerOptions) :=
  match opt_SingOptions c ≫= so_FallBackConfigs with
  | Some f => fallback_loop (range (fbs_FallBackForALPN f)) fallbackForALPN
  | None => nil_deref
  end.

(** * hook.go

    The hooks see the registry of limiters and the node's counters.  What they
    do to a connection: close it, wrap it in a rate limiter, wrap it in a
    counter. *)
Section hook.
Context `{RL : RatelimitLib} `{RE : RegexpLib}.

Record InboundContext := mkInboundContext {
  m_Inbound : string;
  m_User : string;
  m_SourceAddr : string;
  m_DestinationAddr : string;
  m_DestinationNetwork : string;
  m_Protocol : string;
}.

Record conn_result := mkConnResult {
  cr_closed : bool; cr_bucket : option Bucket; cr_counter : option loc;
}.

Definition untouched : conn_result := mkConnResult false None None.

Record hook_state := mkHook { hk_limiters : registry; hk_heap : heap; hk_counter : node_counters }.

(** Calls a method of the limiter behind a pointer. *)
Definition with_limiter {A} (p : nat) (f : Limiter → Limiter * A) (r : registry) : registry * option A :=
  match reg_heap r !! p with
  | Some l => let '(l, a) := f l in (mkRegistry (<[p := l]> (reg_heap r)) (reg_map r), Some a)
  | None => (r, None)
  end.

(** Lines 45-67 and 93-113: the rules, given the protocol to check. *)
Definition rule_reject (l : Limiter) (destStr protocol : string) : bool :=
  CheckDomainRule l destStr ||
  (negb (String.eqb protocol "") && CheckProtocolRule l protocol).

(** Both hooks: [tcp] wraps in the rate limiter and counts the device. *)
Definition routed_connection (tcp : bool) (now : Z) (protocol : string) (m : InboundContext)
    (h : hook_state) : hook_state * conn_result :=
  match GetLimiter (hk_limiters h) (m_Inbound m) with
  | Ok p =>
      match reg_heap (hk_limiters h) !! p with
      | Some l =>
          let '(l, b, r) := CheckLimit now (UserTag (m_Inbound m) (m_User m)) (m_SourceAddr m)
                              tcp tcp l in
          let h := mkHook (mkRegistry (<[p := l]> (reg_heap (hk_limiters h))) (reg_map (hk_limiters h)))
                     (hk_heap h) (hk_counter h) in
          if r then (h, mkConnResult true None None)
          else
            let b := if tcp then b else None in
            if rule_reject l (m_DestinationAddr m) protocol then (h, mkConnResult true b None)
            else
              let '(hp, c, lc) := node_GetCounter (hk_heap h) (hk_counter h) (m_Inbound m) (m_User m) in
              (mkHook (hk_limiters h) hp c, mkConnResult false b (Some lc))
      | None => (h, untouched)
      end
  | _ => (h, untouched)
  end.

Definition RoutedConnection (now : Z) (m : InboundContext) (h : hook_state) :=
  routed_connection true now (m_Protocol m) m h.

Definition RoutedPacketConnection (now : Z) (m : InboundContext) (h : hook_state) :=
  routed_connection false now (m_DestinationNetwork m) m h.

(** Every registered pointer is bound. *)
Definition registry_wf (r : registry) : Prop :=
  ∀ tag p, reg_map r !! tag = Some p → is_Some (reg_heap r !! p).

(** What a hook decides, in one place. *)
Definition hook_rejects (tcp : bool) (now : Z) (protocol : string) (m : InboundContext) (l : Limiter)
    : bool :=
  let '(l', _, r) := CheckLimit now (UserTag (m_Inbound m) (m_User m)) (m_SourceAddr m) tcp tcp l in
  r || rule_reject l' (m_DestinationAddr m) protocol.

Lemma rule_reject_config l l' d pr : same_config l l' → rule_reject l' d pr = rule_reject l d pr.
Proof.
  intros (Hd & Hp & _). unfold rule_reject, CheckDomainRule, CheckProtocolRule. by rewrite Hd, Hp.
Qed.

(** C36: a connection of a node with a limiter is closed exactly when the
    limiter rejects it or a rule of the node matches; a connection that is not
    closed is counted in the storage of its user on that node, a closed one in
    none; a connection of a node without a limiter is neither limited nor
    counted. *)
Theorem routed_connection_spec tcp now protocol m h :
  registry_wf (hk_limiters h) →
  let '(h', c) := routed_connection tcp now protocol m h in
  match reg_map (hk_limiters h) !! m_Inbound m with
  | None => h' = h ∧ c = untouched
  | Some p => ∃ l l', reg_heap (hk_limiters h) !! p = Some l ∧
      reg_heap (hk_limiters h') !! p = Some l' ∧
      (∀ q, q ≠ p → reg_heap (hk_limiters h') !! q = reg_heap (hk_limiters h) !! q) ∧
      cr_closed c = hook_rejects tcp now protocol m l ∧
      (cr_closed c = true → cr_counter c = None ∧ hk_counter h' = hk_counter h ∧ hk_heap h' = hk_heap h) ∧
      (cr_closed c = false → ∃ t lc, hk_counter h' !! m_Inbound m = Some t ∧
         t !! m_User m = Some lc ∧ cr_counter c = Some lc) ∧
      (tcp = false → cr_bucket c = None)
  end.
Proof.
  intros Hwf. unfold routed_connection, GetLimiter.
  destruct (reg_map (hk_limiters h) !! m_Inbound m) as [p|] eqn:Hp; [|done].
  destruct (Hwf _ _ Hp) as [l Hl]. rewrite Hl. unfold hook_rejects.
  destruct (CheckLimit _ _ _ _ _ l) as [[l' b] r] eqn:Hc. destruct r.
  { exists l, l'. rewrite Hc. simpl. rewrite lookup_insert_eq. split_and!; try done.
    intros q Hq. by rewrite lookup_insert_ne. }
  destruct (rule_reject l' _ _) eqn:Hr.
  { exists l, l'. rewrite Hc, Hr. simpl. rewrite lookup_insert_eq. split_and!; try done.
    - intros q Hq. by rewrite lookup_insert_ne.
    - by intros ->. }
  unfold node_GetCounter. simpl. set (t := default _ _).
  destruct (GetCounter (hk_heap h) t (m_User m)) as [[hp t'] lc] eqn:Hg.
  exists l, l'. rewrite Hc, Hr. simpl. rewrite !lookup_insert_eq. split_and!; try done.
  - intros q Hq. by rewrite lookup_insert_ne.
  - intros _. exists t', lc. split_and!; [done| |done].
    revert Hg. unfold GetCounter, LoadOrStore. destruct (t !! m_User m) eqn:Ht; intros [= <- <- <-].
    + done.
    + by rewrite lookup_insert_eq.
  - by intros ->.
Qed.
End hook.

(** * Lemmas *)
Lemma sing_uids_lookup us m u :
  is_Some (sing_uids us m !! u) ↔ u ∈ uuids us ∨ is_Some (m !! u).
Proof.
  unfold sing_uids, uuids. revert m. induction us as [|v us IH]; intros m; simpl; [set_solver|].
  rewrite IH, lookup_insert, elem_of_cons. case_decide; [subst; naive_solver|]. naive_solver.
Qed.

Lemma sing_forget_fold tag us s :
  let s' := foldl (sing_forget tag) s us in
  (∀ u, sg_uidMap s' !! u = if decide (u ∈ uuids us) then None else sg_uidMap s !! u) ∧
  (∀ tag', tag' ≠ tag → sg_counter s' !! tag' = sg_counter s !! tag') ∧
  sg_heap s' = sg_heap s ∧ sg_minTraffic s' = sg_minTraffic s.
Proof.
  cbv zeta. revert s. induction us as [|u us IH]; intros s.
  { by split_and!. }
  cbn [foldl]. destruct (IH (sing_forget tag s u)) as (Hu & Ho & Hh & Hm). split_and!.
  - intros v. rewrite Hu. unfold sing_forget, uuids. cbn [fmap list_fmap sg_uidMap sg_with_uidMap].
    rewrite lookup_delete, (decide_ext (v ∈ user_Uuid u :: _) (v = user_Uuid u ∨ v ∈ uuids us))
      by apply elem_of_cons. fold (uuids us).
    destruct (decide (v ∈ uuids us)), (decide (user_Uuid u = v)), (decide (_ ∨ _)); naive_solver.
  - intros tag' Hne. rewrite Ho by done. simpl. by rewrite node_Delete_other.
  - by rewrite Hh.
  - by rewrite Hm.
Qed.
(** * Properties *)

(** Deleting a user from one node also deletes the uid other nodes of the
    core report him by: the next report of another node that still serves him
    drops his counter unreported, with all the traffic above the threshold it
    holds, and reports everyone else as before. *)
Theorem sing_DelUsers_other_node us tagA tagB info u l c s s1 reset :
  Sing_DelUsers us tagA info s = (s1, Ok tt) → tagB ≠ tagA → u ∈ uuids us →
  sg_counter s !! tagB = Some c → counter_wf (sg_heap s) c → c !! u = Some l →
  over (zlookup (sg_minTraffic s) tagB) (sg_heap s) (u, l) = true →
  let '(s2, r) := Sing_GetUserTrafficSlice tagB reset s1 in
  ∃ c2 sl, r = Ok sl ∧ sg_counter s2 !! tagB = Some c2 ∧ c2 !! u = None ∧
    sl ≡ₚ omap (reported (zlookup (sg_uidMap s1)) (zlookup (sg_minTraffic s) tagB) (sg_heap s))
            (map_to_list (delete u c)).
Proof.
  intros Hd Hne Hu Hc Hwf Hl Hover.
  assert (zlookup (sg_uidMap s1) u = 0%Z ∧ sg_counter s1 !! tagB = Some c ∧
          sg_heap s1 = sg_heap s ∧ sg_minTraffic s1 = sg_minTraffic s) as (Huid & Hc1 & Hh & Hm).
  { revert Hd. unfold Sing_DelUsers. destruct (inbound_Get _ _) as [kind|]; [|done].
    pose proof (sing_forget_fold tagA us s) as Hf. cbv zeta in Hf.
    destruct (decide _); [|done]. destruct (assert_inbound _ _); [|done..].
    destruct (inbound_DelUsers _ _ _) as [b r]. intros [= <- ->].
    destruct Hf as (Hf1 & Hf2 & Hf3 & Hf4). unfold zlookup. cbn [sg_uidMap sg_counter sg_heap sg_minTraffic sg_with_box].
    rewrite Hf1, decide_True, Hf2 by done. done. }
  unfold Sing_GetUserTrafficSlice, node_slice. rewrite Hc1, Hh, Hm.
  pose proof (traffic_slice_spec (zlookup (sg_uidMap s1)) (zlookup (sg_minTraffic s) tagB) reset
    (sg_heap s) c Hwf) as Hs.
  destruct (traffic_slice _ _ _ _ c) as [[h2 c2] sl]. destruct Hs as (_ & Hsl & Hc2 & _).
  exists c2, sl. split_and!; [done|simpl; by rewrite lookup_insert_eq| |].
  - rewrite Hc2, map_lookup_filter, Hl. simpl. rewrite option_guard_False; [done|].
    unfold dropped. cbn [fst]. by rewrite Hover, Huid.
  - assert (reported (zlookup (sg_uidMap s1)) (zlookup (sg_minTraffic s) tagB) (sg_heap s) (u, l) = None)
      as Hrep by (unfold reported; cbn [fst]; by rewrite Hover, Huid).
    rewrite Hsl, <- (map_to_list_delete c u l Hl). simpl. by rewrite Hrep.
Qed.

End sing.

(** * Witnesses *)
#[local] Instance wit_sing : SingLib := {|
  SBox := unit;
  inbound_Get := λ _ _, Some "trojan";
  inbound_AddUsers := λ _ _ _ b, (b, Ok tt);
  inbound_DelUsers := λ _ _ b, (b, Ok tt);
|}.

Definition sing_info : NodeInfo :=
  mkNodeInfo 1 "trojan" 0 0 0 RawDNS_empty Rules_empty None None None None None None None None None
    false false.

(** alice is served on nodes A and B; B has counted 150 bytes for her. *)
Definition sing_state : Sing :=
  mkSing tt wit_heap {["B" := wit_counter]} {["alice" := 7%Z; "bob" := 8%Z]} {["B" := 10%Z]}.

Lemma sing_DelUsers_other_node_witness :
  let s1 := (Sing_DelUsers [mkUserInfo 7 "alice" 0 0] "A" sing_info sing_state).1 in
  let '(s2, r) := @Sing_GetUserTrafficSlice _ canonical_order "B" true s1 in
  ∃ c2 sl, r = Ok sl ∧ sg_counter s2 !! "B" = Some c2 ∧ c2 !! "alice" = None ∧ sl ≡ₚ [].
Proof.
  intros s1.
  exact (@sing_DelUsers_other_node _ canonical_order [mkUserInfo 7 "alice" 0 0] "A" "B" sing_info
    "alice" 0%nat wit_counter sing_state s1 true eq_refl ltac:(discriminate) ltac:(by_decide)
    eq_refl wit_wf eq_refl eq_refl).
Defined.

#[local] Existing Instance wit_ratelimit.
#[local] Existing Instance wit_regexp.

Definition hook_wit : hook_state :=
  mkHook (mkRegistry {[0%nat := wit_limiter]} {["n" := 0%nat]}) ∅ ∅.
Definition hook_conn : InboundContext := mkInboundContext "n" "bob" "10.0.0.1" "example.org" "tcp" "".

Lemma routed_connection_spec_witness :
  ∃ t lc, hk_counter (RoutedConnection 5 hook_conn hook_wit).1 !! "n" = Some t ∧
    t !! "bob" = Some lc ∧ cr_counter (RoutedConnection 5 hook_conn hook_wit).2 = Some lc.
Proof.
  pose proof (routed_connection_spec true 5 "" hook_conn hook_wit) as H.
  unfold RoutedConnection. change (m_Protocol hook_conn) with "".
  assert (cr_closed (routed_connection true 5 "" hook_conn hook_wit).2 = false) as Hcl
    by (vm_compute; reflexivity).
  destruct (routed_connection true 5 "" hook_conn hook_wit) as [h' c].
  destruct H as (l & l' & _ & _ & _ & _ & _ & H & _).
  - intros tag p Hp. apply (lookup_singleton_Some "n" tag 0%nat p) in Hp as [<- <-]. vm_compute. eauto.
  - exact (H Hcl).
Defined.
