(* ===== verification/SingNode.v ===== *)
(** The inbounds of the sing core and its life cycle: src/core/sing/node.go and
    sing.go, over the users of SingCore.

    sing-box's option structs are records of the fields the program sets.
    Decoding a document into the structs of node.go (encoding/json), parsing an
    IP address or a URL, and sing-box itself are parameters ([SingNodeLib]). *)

From S2P Require Import Prelude GoStd GoText Conf Panel Counter Traffic Core Host SingCore.
From stdpp Require Import prelude gmap strings.
From Stdlib Require Import Ascii ZArith Lia.

Open Scope string_scope.

(** * The documents of the panel *)
Record HttpNetworkConfig := mkHttpNetworkConfig {
  hn_Type : string;
  hn_Request : option string;      (* raw JSON *)
  hn_Response : option string;
}.

Record HttpRequest := mkHttpRequest {
  hr_Version : string; hr_Method : string; hr_Path : list string; hr_Host : list string;
}.
Definition HttpRequest_zero : HttpRequest := mkHttpRequest "" "" [] [].

Record WsNetworkConfig := mkWsNetworkConfig { wn_Path : string; wn_Headers : gmap string string }.
Record GrpcNetworkConfig := mkGrpcNetworkConfig { gn_ServiceName : string }.
Record HttpupgradeNetworkConfig := mkHttpupgradeNetworkConfig { un_Path : string; un_Host : string }.

(** * sing-box's options *)
Class SingNodeLib := {
  NetAddr : Type;
  netip_ParseAddr : string → res string NetAddr;
  (* a parsed URL: its path and the value of a query key *)
  url_Parse : string → res string (string * (string → string));
  decode_HttpNetwork : string → res string HttpNetworkConfig;
  decode_HttpRequest : string → res string HttpRequest;
  decode_WsNetwork : string → res string WsNetworkConfig;
  decode_GrpcNetwork : string → res string GrpcNetworkConfig;
  decode_Httpupgrade : string → res string HttpupgradeNetworkConfig;
}.

Section options.
Context `{NL : SingNodeLib}.

Record ListenOptions := mkListenOptions {
  lo_Listen : NetAddr; lo_ListenPort : Z; lo_TCPFastOpen : bool;
}.

Record InboundMultiplexOptions := mkInboundMultiplexOptions {
  imx_Enabled : bool; imx_Padding : bool; imx_Brutal : BrutalOptions;
}.

Record InboundRealityOptions := mkInboundRealityOptions {
  ir_Enabled : bool; ir_ShortID : list string; ir_PrivateKey : string; ir_Xver : Z;
  ir_Handshake : ServerOptions; ir_MaxTimeDifference : Z;
}.

Record InboundTLSOptions := mkInboundTLSOptions {
  it_Enabled : bool; it_ServerName : string; it_ALPN : list string;
  it_CertificatePath : string; it_KeyPath : string; it_Reality : option InboundRealityOptions;
}.
Definition InboundTLSOptions_zero : InboundTLSOptions := mkInboundTLSOptions false "" [] "" "" None.

Record V2RayHTTPOptions := mkV2RayHTTPOptions { ho_Host : list string; ho_Path : string; ho_Method : string }.
Record V2RayWebsocketOptions := mkV2RayWebsocketOptions {
  wo_Path : string; wo_EarlyDataHeaderName : string; wo_MaxEarlyData : Z;
  wo_Headers : option (gmap string (list string));
}.

Record V2RayTransportOptions := mkV2RayTransportOptions {
  vt_Type : string;
  vt_HTTPOptions : V2RayHTTPOptions;
  vt_WebsocketOptions : option V2RayWebsocketOptions;      (* None: the zero value *)
  vt_GRPCServiceName : string;
  vt_HTTPUpgrade : HttpupgradeNetworkConfig;               (* path and host *)
}.
Definition transport_of (type : string) : V2RayTransportOptions :=
  mkV2RayTransportOptions type (mkV2RayHTTPOptions [] "" "") None "" (mkHttpupgradeNetworkConfig "" "").

Record Hysteria2Obfs := mkHysteria2Obfs { ob_Type : string; ob_Password : string }.

(** The options of an inbound, by protocol. *)
Inductive InboundOptions : Type :=
| NoOptions
| VLESSInbound (l : ListenOptions) (tls : InboundTLSOptions) (t : V2RayTransportOptions)
    (mux : option InboundMultiplexOptions)
| VMessInbound (l : ListenOptions) (tls : InboundTLSOptions) (t : V2RayTransportOptions)
    (mux : option InboundMultiplexOptions)
| ShadowsocksInbound (l : ListenOptions) (method password : string) (userPassword : string)
    (mux : option InboundMultiplexOptions)
| TrojanInbound (l : ListenOptions) (tls : InboundTLSOptions) (t : V2RayTransportOptions)
    (mux : option InboundMultiplexOptions) (fallback : option ServerOptions)
    (fallbackForALPN : option (gmap string ServerOptions))
| TUICInbound (l : ListenOptions) (congestionControl : string) (zeroRTT : bool) (tls : InboundTLSOptions)
| AnyTLSInbound (l : ListenOptions) (paddingScheme : list string) (tls : InboundTLSOptions)
| HysteriaInbound (l : ListenOptions) (up down : Z) (obfs : string) (tls : InboundTLSOptions)
| Hysteria2Inbound (l : ListenOptions) (up down : Z) (ignoreClientBandwidth : bool)
    (obfs : option Hysteria2Obfs) (tls : InboundTLSOptions).

Record Inbound := mkInbound { ib_Type : string; ib_Tag : string; ib_Options : InboundOptions }.
End options.

Section node.
Context `{NL : SingNodeLib} `{RO : RangeOrder}.

(** * getInboundOptions *)

(** Lines 54-62 *)
Definition listen_options (info : NodeInfo) (c : Options) : res string ListenOptions :=
  addr ← map_err (λ _, "the listen ip not vail") (netip_ParseAddr (opt_ListenIP c));
  cm ← deref (ni_Common info);
  so ← deref (opt_SingOptions c);
  mret (mkListenOptions addr (wrapu16 (cn_ServerPort cm)) (so_TCPFastOpen so)).

Definition multiplex_options (so : SingOptions) : option InboundMultiplexOptions :=
  match so_Multiplex so with
  | Some m => Some (mkInboundMultiplexOptions (mux_Enabled m) (mux_Padding m) (mux_Brutal m))
  | None => None
  end.

Definition reality_options (v : VAllssNode) : InboundTLSOptions :=
  let t := va_TlsSettings v in
  let port := (Atoi (tls_ServerPort t)).1 in
  let dest := if decide (tls_Dest t = "") then tls_ServerName t else tls_Dest t in
  let mtd := (ParseDuration (rc_MaxTimeDiff (va_RealityConfig v))).1 in
  mkInboundTLSOptions true (tls_ServerName t) [] "" ""
    (Some (mkInboundRealityOptions true [tls_ShortId t] (tls_PrivateKey t) (tls_Xver t mod 256)%Z
             (mkServerOptions dest (wrapu16 port)) mtd)).

(** Lines 76-116 *)
Definition tls_options (info : NodeInfo) (c : Options) : res string InboundTLSOptions :=
  if (ni_Security info =? Tls)%Z then
    match opt_CertConfig c with
    | None => Err "the CertConfig is not vail"
    | Some cert =>
        if decide (cert_CertMode cert = "none" ∨ cert_CertMode cert = "") then Ok InboundTLSOptions_zero
        else Ok (mkInboundTLSOptions true "" [] (cert_CertFile cert) (cert_KeyFile cert) None)
    end
  else if (ni_Security info =? Reality)%Z then
    v ← deref (ni_VAllss info); Ok (reality_options v)
  else Ok InboundTLSOptions_zero.

Definition decoding {A} (r : res string A) : res string A :=
  map_err (λ e, "decode NetworkSettings error: " +:+ e) r.

(** Lines 127-152 *)
Definition tcp_transport (settings : string) (t : V2RayTransportOptions)
    : res string V2RayTransportOptions :=
  let plain := mkV2RayTransportOptions "" (vt_HTTPOptions t) (vt_WebsocketOptions t)
                 (vt_GRPCServiceName t) (vt_HTTPUpgrade t) in
  if decide (settings = "") then Ok plain
  else
    network ← decoding (decode_HttpNetwork settings);
    if decide (hn_Type network = "http") then
      match hn_Request network with
      | None => Ok (mkV2RayTransportOptions "http" (vt_HTTPOptions t) (vt_WebsocketOptions t)
                      (vt_GRPCServiceName t) (vt_HTTPUpgrade t))
      | Some raw =>
          request ← map_err (λ e, "decode HttpRequest error: " +:+ e) (decode_HttpRequest raw);
          match hr_Path request with
          | [] => Panic "index out of range"
          | path :: _ =>
              Ok (mkV2RayTransportOptions "http"
                    (mkV2RayHTTPOptions (hr_Host request) path (hr_Method request))
                    (vt_WebsocketOptions t) (vt_GRPCServiceName t) (vt_HTTPUpgrade t))
          end
      end
    else Ok plain.

(** Lines 153-184, and 266-297 for trojan *)
Definition ws_transport (settings : string) (t : V2RayTransportOptions)
    : res string V2RayTransportOptions :=
  '(path, ed, headers) ←
    (if decide (settings = "") then Ok ("", 0%Z, None)
     else
       network ← decoding (decode_WsNetwork settings);
       '(path, query) ← map_err (λ e, "parse path error: " +:+ e) (url_Parse (wn_Path network));
       Ok (path, (Atoi (query "ed")).1, Some ((λ v, [v]) <$> wn_Headers network)));
  Ok (mkV2RayTransportOptions (vt_Type t) (vt_HTTPOptions t)
        (Some (mkV2RayWebsocketOptions path "Sec-WebSocket-Protocol" (wrapu32 ed) headers))
        (vt_GRPCServiceName t) (vt_HTTPUpgrade t)).

Definition grpc_transport (settings : string) (t : V2RayTransportOptions)
    : res string V2RayTransportOptions :=
  network ← (if decide (settings = "") then Ok (mkGrpcNetworkConfig "")
             else decoding (decode_GrpcNetwork settings));
  Ok (mkV2RayTransportOptions (vt_Type t) (vt_HTTPOptions t) (vt_WebsocketOptions t)
        (gn_ServiceName network) (vt_HTTPUpgrade t)).

Definition httpupgrade_transport (settings : string) (t : V2RayTransportOptions)
    : res string V2RayTransportOptions :=
  network ← (if decide (settings = "") then Ok (mkHttpupgradeNetworkConfig "" "")
             else decoding (decode_Httpupgrade settings));
  Ok (mkV2RayTransportOptions (vt_Type t) (vt_HTTPOptions t) (vt_WebsocketOptions t)
        (vt_GRPCServiceName t) network).

Definition v2ray_transport (n : VAllssNode) : res string V2RayTransportOptions :=
  let t := transport_of (va_Network n) in
  let settings := va_NetworkSettings n in
  if decide (va_Network n = "tcp") then tcp_transport settings t
  else if decide (va_Network n = "ws") then ws_transport settings t
  else if decide (va_Network n = "grpc") then grpc_transport settings t
  else if decide (va_Network n = "httpupgrade") then httpupgrade_transport settings t
  else Ok t.

Definition trojan_transport (n : TrojanNode) : res string V2RayTransportOptions :=
  let t := transport_of (tr_Network n) in
  if decide (tr_Network n = "ws") then ws_transport (tr_NetworkSettings n) t
  else if decide (tr_Network n = "grpc") then grpc_transport (tr_NetworkSettings n) t
  else Ok (transport_of "").

(** Lines 321-336: a port that is no number drops the fallback. *)
Definition trojan_fallbacks (c : Options) (so : SingOptions)
    : option ServerOptions * option (gmap string ServerOptions) :=
  match so_FallBackConfigs so with
  | None => (None, None)
  | Some f =>
      let '(fallbackPort, ok) := Atoi (fall_ServerPort (fbs_FallBack f)) in
      (if ok then Some (mkServerOptions (fall_Server (fbs_FallBack f)) (wrapu16 fallbackPort)) else None,
       match processFallback c ∅ with Ok m => Some m | _ => None end)
  end.

Definition ss_random_length (cipher : string) : nat :=
  if decide (cipher = "2022-blake3-aes-128-gcm") then 16
  else if decide (cipher = "2022-blake3-aes-256-gcm" ∨ cipher = "2022-blake3-chacha20-poly1305") then 32
  else 16.

(** [rnd n] is the outcome of reading n random bytes; its error is ignored. *)
Definition ss_inbound (rnd : nat → string) (l : ListenOptions) (n : ShadowsocksNode)
    (mux : option InboundMultiplexOptions) : InboundOptions :=
  let randomPasswd := rnd (ss_random_length (ss_Cipher n)) in
  if Contains (ss_Cipher n) "2022" then
    ShadowsocksInbound l (ss_Cipher n) (ss_ServerKey n) (base64_Encode randomPasswd) mux
  else ShadowsocksInbound l (ss_Cipher n) "" randomPasswd mux.

Definition hysteria2_obfs (h : Hysteria2Node) : option Hysteria2Obfs :=
  if decide (h2_ObfsType h ≠ "" ∧ h2_ObfsPassword h ≠ "") then
    Some (mkHysteria2Obfs (h2_ObfsType h) (h2_ObfsPassword h))
  else if decide (h2_ObfsType h ≠ "") then Some (mkHysteria2Obfs "salamander" (h2_ObfsType h))
  else None.

(** The branches of the node's types. *)
Definition trojan_inbound (c : Options) (so : SingOptions) (listen : ListenOptions)
    (tls : InboundTLSOptions) (n : TrojanNode) : res string (string * InboundOptions) :=
  t ← trojan_transport n;
  let '(fallback, forALPN) := trojan_fallbacks c so in
  Ok ("trojan", TrojanInbound listen tls t (multiplex_options so) fallback forALPN).

Definition tuic_inbound (listen : ListenOptions) (tls : InboundTLSOptions) (n : TuicNode)
    : string * InboundOptions :=
  let tls := mkInboundTLSOptions (it_Enabled tls) (it_ServerName tls) (it_ALPN tls ++ ["h3"])%list
               (it_CertificatePath tls) (it_KeyPath tls) (it_Reality tls) in
  ("tuic", TUICInbound listen (tu_CongestionControl n) (tu_ZeroRTTHandshake n) tls).

Definition anytls_inbound (listen : ListenOptions) (tls : InboundTLSOptions) (n : AnyTlsNode)
    : string * InboundOptions :=
  ("anytls", AnyTLSInbound listen (at_PaddingScheme n) tls).

Definition hysteria_inbound (listen : ListenOptions) (tls : InboundTLSOptions) (n : HysteriaNode)
    : string * InboundOptions :=
  ("hysteria", HysteriaInbound listen (hy_UpMbps n) (hy_DownMbps n) (hy_Obfs n) tls).

Definition hysteria2_inbound (listen : ListenOptions) (tls : InboundTLSOptions) (n : Hysteria2Node)
    : string * InboundOptions :=
  ("hysteria2", Hysteria2Inbound listen (h2_UpMbps n) (h2_DownMbps n)
                  (h2_Ignore_Client_Bandwidth n) (hysteria2_obfs n) tls).

(** Lines 120-393: the options of the node's type. *)
Definition type_options (rnd : nat → string) (info : NodeInfo) (c : Options) (so : SingOptions)
    (listen : ListenOptions) (tls : InboundTLSOptions) : res string (string * InboundOptions) :=
  let multiplex := multiplex_options so in
  let type := ni_Type info in
  if decide (type = "vmess" ∨ type = "vless") then
    n ← deref (ni_VAllss info);
    t ← v2ray_transport n;
    if decide (type = "vless") then Ok ("vless", VLESSInbound listen tls t multiplex)
    else Ok ("vmess", VMessInbound listen tls t multiplex)
  else if decide (type = "shadowsocks") then
    n ← deref (ni_Shadowsocks info); Ok ("shadowsocks", ss_inbound rnd listen n multiplex)
  else if decide (type = "trojan") then
    n ← deref (ni_Trojan info); trojan_inbound c so listen tls n
  else if decide (type = "tuic") then n ← deref (ni_Tuic info); Ok (tuic_inbound listen tls n)
  else if decide (type = "anytls") then n ← deref (ni_AnyTls info); Ok (anytls_inbound listen tls n)
  else if decide (type = "hysteria") then n ← deref (ni_Hysteria info); Ok (hysteria_inbound listen tls n)
  else if decide (type = "hysteria2") then n ← deref (ni_Hysteria2 info); Ok (hysteria2_inbound listen tls n)
  else Ok ("", NoOptions).

Definition getInboundOptions (rnd : nat → string) (tag : string) (info : NodeInfo) (c : Options)
    : res string Inbound :=
  listen ← listen_options info c;
  so ← deref (opt_SingOptions c);
  tls ← tls_options info c;
  '(type, options) ← type_options rnd info c so listen tls;
  Ok (mkInbound type tag options).
End node.

(** * The core *)
Record SLogOptions := mkSLogOptions {
  sl_Disabled : bool; sl_Level : string; sl_Timestamp : bool; sl_Output : string;
}.
Record NTPOptions := mkNTPOptions { np_Enabled : bool; np_WriteToSystem : bool; np_Server : ServerOptions }.

Class SingBoxLib `{SingLib, SingNodeLib} := {
  SOptions : Type; SOptions_zero : SOptions;
  unmarshal_SOptions : string → res string SOptions;
  box_New : SOptions → SLogOptions → NTPOptions → res string SBox;
  box_Start : SBox → SBox * res string unit;
  box_Close : SBox → SBox * res string unit;
  inbound_Create : Inbound → SBox → SBox * res string unit;
  inbound_Remove : string → SBox → SBox * res string unit;
}.

Section core.
Context `{HO : HostOS} `{SL : SingLib} `{NL : SingNodeLib} `{BL : !SingBoxLib} `{RO : RangeOrder}.

Record SingState := mkSingState { ss_core : Sing; ss_world : W }.

Definition Sing_New (c : CoreConfig) (w : W) : W * res string SingState :=
  match cc_SingConfig c with
  | None => (w, nil_pointer)
  | Some sc =>
      let options :=
        if decide (sc_OriginalPath sc = "") then Ok SOptions_zero
        else
          data ← map_err (λ e, "read original config error: " +:+ e) (ReadFile (sc_OriginalPath sc) w);
          map_err (λ e, "unmarshal original config error: " +:+ e) (unmarshal_SOptions data) in
      match options with
      | Ok options =>
          let l := sc_LogConfig sc in
          let n := sc_NtpConfig sc in
          let w := Setenv "SING_DNS_PATH" "" w in
          (w, b ← box_New options
                    (mkSLogOptions (slog_Disabled l) (slog_Level l) (slog_Timestamp l) (slog_Output l))
                    (mkNTPOptions (ntp_Enable n) true (mkServerOptions (ntp_Server n) (ntp_ServerPort n)));
              mret (mkSingState (mkSing b ∅ ∅ ∅ ∅) w))
      | Err e => (w, Err e)
      | Panic p => (w, Panic p)
      end
  end.

Definition on_box {A} (f : SBox → SBox * res string A) (s : SingState) : SingState * res string A :=
  let '(b, r) := f (sg_box (ss_core s)) in
  (mkSingState (sg_with_box b (ss_core s)) (ss_world s), r).

Definition on_core {A} (f : Sing → Sing * res string A) (s : SingState) : SingState * res string A :=
  let '(c, r) := f (ss_core s) in (mkSingState c (ss_world s), r).

Definition Sing_Start : SingState → SingState * res string unit := on_box box_Start.
Definition Sing_Close : SingState → SingState * res string unit := on_box box_Close.

Definition sg_with_minTraffic m (s : Sing) : Sing :=
  mkSing (sg_box s) (sg_heap s) (sg_counter s) (sg_uidMap s) m.

(** The bytes read; the error of [rand.Read] is ignored and leaves zeros. *)
Fixpoint zeros (n : nat) : string := match n with O => "" | S n => String (chr 0) (zeros n) end.
Definition random_bytes (w : W) (n : nat) : string :=
  match (rand_Read n w).2 with Ok p => p | _ => zeros n end.

Definition Sing_AddNode (tag : string) (info : NodeInfo) (config : Options) (s : SingState)
    : SingState * (NodeInfo * Options) * res string unit :=
  let s := mkSingState (sg_with_minTraffic
             (<[tag := wrap64 (opt_ReportMinTraffic config * 1024)]> (sg_minTraffic (ss_core s)))
             (ss_core s)) (ss_world s) in
  match getInboundOptions (random_bytes (ss_world s)) tag info config with
  | Ok c =>
      let w := (if decide (ib_Type c = "shadowsocks") then
                  (rand_Read (ss_random_length (default "" (ss_Cipher <$> ni_Shadowsocks info)))
                     (ss_world s)).1
                else ss_world s) in
      let '(s, r) := on_box (inbound_Create c) (mkSingState (ss_core s) w) in
      (s, (info, config), map_err (λ e, "add inbound error: " +:+ e) r)
  | Err e => (s, (info, config), Err e)
  | Panic p => (s, (info, config), Panic p)
  end.

Definition Sing_DelNode (tag : string) (s : SingState) : SingState * res string unit :=
  let '(s, r) := on_box (inbound_Remove tag) s in
  (s, map_err (λ e, "delete inbound error: " +:+ e) r).

#[global] Instance Sing_ops : CoreOps SingState := {|
  core_Start := Sing_Start;
  core_Close := Sing_Close;
  core_AddNode := Sing_AddNode;
  core_DelNode := Sing_DelNode;
  core_AddUsers := λ p, on_core (Sing_AddUsers p);
  core_GetUserTrafficSlice := λ tag reset, on_core (Sing_GetUserTrafficSlice tag reset);
  core_DelUsers := λ us tag info, on_core (Sing_DelUsers us tag info);
  core_Protocols := λ _, Sing_Protocols;
  core_Type := λ _, Sing_Type;
|}.
End core.

(** * Lemmas *)
Section lemmas.
Context `{NL : SingNodeLib} `{RO : RangeOrder}.

(** ** Fallbacks *)
Definition to_server (v : FallBack) : ServerOptions :=
  mkServerOptions (fall_Server v) (wrapu16 (Atoi (fall_ServerPort v)).1).

Lemma fallback_loop_ok es m :
  Forall (λ e, (Atoi (fall_ServerPort e.2)).2 = true) es → NoDup es.*1 →
  ∃ m', fallback_loop es m = Ok m' ∧
    ∀ k, m' !! k = match (list_to_map es : gmap string FallBack) !! k with
                   | Some v => Some (to_server v) | None => m !! k end.
Proof.
  intros Hes. revert m. induction Hes as [|[k v] es Hv Hes IH]; intros m Hnd; cbn [fallback_loop].
  - exists m. split; [done|]. intros k. by cbn [list_to_map foldr]; rewrite lookup_empty.
  - apply NoDup_cons in Hnd as [Hk Hnd]. cbn [snd] in Hv.
    destruct (Atoi (fall_ServerPort v)) as [n ok] eqn:Ha. cbn in Hv. subst ok.
    destruct (IH (<[k:=mkServerOptions (fall_Server v) (wrapu16 n)]> m) Hnd) as (m' & -> & Hm').
    exists m'. split; [done|]. intros k'. rewrite Hm'. cbn [list_to_map foldr fst snd uncurry].
    destruct (decide (k = k')) as [<-|Hne].
    + rewrite lookup_insert_eq. rewrite (proj1 (not_elem_of_list_to_map _ _)) by done.
      rewrite lookup_insert_eq. unfold to_server. by rewrite Ha.
    + by rewrite !lookup_insert_ne.
Qed.

Lemma fallback_loop_err es m :
  ¬ Forall (λ e, (Atoi (fall_ServerPort e.2)).2 = true) es →
  fallback_loop es m = Err "unable to parse fallbackForALPN server port error".
Proof.
  revert m. induction es as [|[k v] es IH]; intros m Hn; [by destruct Hn|]. cbn [fallback_loop].
  destruct (Atoi (fall_ServerPort v)) as [n ok] eqn:Ha. destruct ok; [|done].
  apply IH. intros He. apply Hn. constructor; [cbn [snd]; by rewrite Ha|done].
Qed.

(** ** Listening *)
Definition listen_of (o : InboundOptions) : option ListenOptions :=
  match o with
  | NoOptions => None
  | VLESSInbound l _ _ _ | VMessInbound l _ _ _ | ShadowsocksInbound l _ _ _ _
  | TrojanInbound l _ _ _ _ _ | TUICInbound l _ _ _ | AnyTLSInbound l _ _
  | HysteriaInbound l _ _ _ _ | Hysteria2Inbound l _ _ _ _ _ => Some l
  end.

Definition tls_of (o : InboundOptions) : option InboundTLSOptions :=
  match o with
  | NoOptions | ShadowsocksInbound _ _ _ _ _ => None
  | VLESSInbound _ t _ _ | VMessInbound _ t _ _ | TrojanInbound _ t _ _ _ _
  | TUICInbound _ _ _ t | AnyTLSInbound _ _ t | HysteriaInbound _ _ _ _ t
  | Hysteria2Inbound _ _ _ _ _ t => Some t
  end.

Definition with_h3 (tls : InboundTLSOptions) : InboundTLSOptions :=
  mkInboundTLSOptions (it_Enabled tls) (it_ServerName tls) (it_ALPN tls ++ ["h3"])%list
    (it_CertificatePath tls) (it_KeyPath tls) (it_Reality tls).

Definition known_type (type : string) : bool := bool_decide (type ∈ Sing_Protocols).

Lemma type_options_ok rnd info c so listen tls type o :
  type_options rnd info c so listen tls = Ok (type, o) →
  (known_type (ni_Type info) = true → type = ni_Type info ∧ listen_of o = Some listen ∧
     (ni_Type info ≠ "shadowsocks" →
      tls_of o = Some (if decide (ni_Type info = "tuic") then with_h3 tls else tls))) ∧
  (known_type (ni_Type info) = false → type = "" ∧ o = NoOptions).
Proof.
  unfold type_options, trojan_inbound, tuic_inbound, anytls_inbound, hysteria_inbound, hysteria2_inbound. intros H.
  repeat case_decide; repeat (apply bind_Ok_inv in H as (? & ? & H));
    try (destruct (trojan_fallbacks c so)); injection H as <- <-;
    (split; intros Hk; [|try (vm_compute in Hk; congruence)]);
    repeat match goal with
    | Ht : ni_Type info = _ |- _ => rewrite Ht in *
    | Ht : _ ∨ _ |- _ => destruct Ht
    end; try done; try (split_and!; done).
  - unfold ss_inbound. by destruct (Contains _ _).
  - exfalso. apply bool_decide_eq_true in Hk. unfold Sing_Protocols in Hk. set_solver.
Qed.

Lemma processFallback_spec c so f m :
  opt_SingOptions c = Some so → so_FallBackConfigs so = Some f →
  processFallback c m =
    if decide (map_Forall (λ _ v, (Atoi (fall_ServerPort v)).2 = true) (fbs_FallBackForALPN f))
    then Ok ((to_server <$> fbs_FallBackForALPN f) ∪ m)
    else Err "unable to parse fallbackForALPN server port error".
Proof.
  intros Hso Hf. unfold processFallback. rewrite Hso. cbn [mbind option_bind]. rewrite Hf.
  set (g := fbs_FallBackForALPN f).
  assert (Hall : map_Forall (λ _ v, (Atoi (fall_ServerPort v)).2 = true) g ↔
                 Forall (λ e, (Atoi (fall_ServerPort e.2)).2 = true) (range g)).
  { rewrite map_Forall_to_list, range_perm. apply Forall_iff. by intros [k v]. }
  case_decide as Hd; [|by apply fallback_loop_err; rewrite <-Hall].
  destruct (fallback_loop_ok (range g) m) as (m' & -> & Hm'); [by apply Hall| |].
  { rewrite range_perm. apply NoDup_fst_map_to_list. }
  f_equal. apply map_eq. intros k. rewrite Hm', lookup_union, lookup_fmap.
  rewrite (list_to_map_proper (range g) (map_to_list g)), list_to_map_to_list.
  - by destruct (g !! k), (m !! k).
  - rewrite range_perm. apply NoDup_fst_map_to_list.
  - apply range_perm.
Qed.

(** ** Calls that return

    The parsers and decoders return, with a value or an error. *)
Class SingNodeTotal := {
  total_ParseAddr : ∀ s, no_panic (netip_ParseAddr s);
  total_url_Parse : ∀ s, no_panic (url_Parse s);
  total_HttpNetwork : ∀ s, no_panic (decode_HttpNetwork s);
  total_HttpRequest : ∀ s, no_panic (decode_HttpRequest s);
  total_WsNetwork : ∀ s, no_panic (decode_WsNetwork s);
  total_GrpcNetwork : ∀ s, no_panic (decode_GrpcNetwork s);
  total_Httpupgrade : ∀ s, no_panic (decode_Httpupgrade s);
}.

(** The request line of an http header names no path. *)
Definition pathless (n : VAllssNode) : bool :=
  if decide (va_Network n = "tcp" ∧ va_NetworkSettings n ≠ "") then
    match decode_HttpNetwork (va_NetworkSettings n) with
    | Ok h =>
        if decide (hn_Type h = "http") then
          match hn_Request h with
          | Some raw => match decode_HttpRequest raw with Ok r => bool_decide (hr_Path r = []) | _ => false end
          | None => false
          end
        else false
    | _ => false
    end
  else false.

#[local] Hint Resolve total_ParseAddr total_url_Parse total_HttpNetwork total_HttpRequest
  total_WsNetwork total_GrpcNetwork total_Httpupgrade : no_panic.

Lemma ws_transport_returns `{!SingNodeTotal} settings t : no_panic (ws_transport settings t).
Proof. unfold ws_transport, decoding. solve_no_panic. Qed.
Lemma grpc_transport_returns `{!SingNodeTotal} settings t : no_panic (grpc_transport settings t).
Proof. unfold grpc_transport, decoding. solve_no_panic. Qed.
Lemma httpupgrade_transport_returns `{!SingNodeTotal} settings t :
  no_panic (httpupgrade_transport settings t).
Proof. unfold httpupgrade_transport, decoding. solve_no_panic. Qed.
#[local] Hint Resolve ws_transport_returns grpc_transport_returns httpupgrade_transport_returns : no_panic.

Lemma v2ray_transport_returns `{!SingNodeTotal} n : pathless n = false → no_panic (v2ray_transport n).
Proof.
  unfold v2ray_transport, pathless. destruct (decide (va_Network n = "tcp")) as [Ht|Ht].
  - unfold tcp_transport, decoding. destruct (decide (va_NetworkSettings n = "")) as [Hs|Hs]; [done|].
    rewrite decide_True by done.
    pose proof (total_HttpNetwork (va_NetworkSettings n)) as Hn.
    destruct (decode_HttpNetwork _) as [h|e|p]; [|done..]. cbn [map_err mbind res_bind].
    case_decide; [|done]. destruct (hn_Request h) as [raw|]; [|done].
    pose proof (total_HttpRequest raw). destruct (decode_HttpRequest raw) as [r|e|p]; [|done..].
    cbn [map_err mbind res_bind]. by destruct (hr_Path r).
  - intros _. solve_no_panic.
Qed.

Lemma v2ray_transport_pathless n : pathless n = true → v2ray_transport n = Panic "index out of range".
Proof.
  unfold v2ray_transport, pathless. case_decide as Ht; [|done]. destruct Ht as [Ht Hs].
  rewrite decide_True by done. unfold tcp_transport, decoding. rewrite decide_False by done.
  destruct (decode_HttpNetwork _) as [h|e|p]; [|done..]. cbn [map_err mbind res_bind].
  case_decide; [|done]. destruct (hn_Request h) as [raw|]; [|done].
  destruct (decode_HttpRequest raw) as [r|e|p]; [|done..].
  cbn [map_err mbind res_bind]. by intros ->%bool_decide_eq_true.
Qed.

(** The node's http header is one the code can take. *)
Definition header_wf (info : NodeInfo) : Prop :=
  ni_Type info = "vmess" ∨ ni_Type info = "vless" → ∀ n, ni_VAllss info = Some n → pathless n = false.

Lemma tls_options_returns info c : node_wf info → no_panic (tls_options info c).
Proof.
  intros Hwf. unfold tls_options. destruct (_ =? Tls)%Z; [by repeat case_match|].
  destruct (ni_Security info =? Reality)%Z eqn:Hr; [|done].
  apply no_panic_bind; [|done]. by apply no_panic_deref, wf_reality, Z.eqb_eq.
Qed.

Lemma type_options_returns `{!SingNodeTotal} rnd info c so listen tls :
  node_wf info → header_wf info → no_panic (type_options rnd info c so listen tls).
Proof.
  intros Hwf Hh. pose proof (wf_part _ Hwf) as Hp. unfold type_part in Hp. unfold type_options, trojan_inbound.
  repeat case_decide; try done; try apply bool_decide_eq_true in Hp;
    (apply no_panic_bind; [by apply no_panic_deref|intros n Hn]); try done.
  1, 2: apply no_panic_bind; [|done]; apply v2ray_transport_returns, Hh; [done|by apply deref_Ok in Hn].
  - apply no_panic_bind; [|by solve_no_panic]. unfold trojan_transport. solve_no_panic.
Qed.

Lemma getInboundOptions_returns `{!SingNodeTotal} rnd tag info c :
  node_wf info → header_wf info → is_Some (opt_SingOptions c) →
  no_panic (getInboundOptions rnd tag info c).
Proof.
  intros Hwf Hh Hs. pose proof (tls_options_returns info c Hwf) as Htls.
  pose proof (λ so l t, type_options_returns rnd info c so l t Hwf Hh) as Hty.
  pose proof (wf_common _ Hwf). unfold getInboundOptions, listen_options. solve_no_panic.
Qed.

(** The other headers: a vmess or vless node whose http header lists no path. *)
Definition header_pathless (info : NodeInfo) : Prop :=
  (ni_Type info = "vmess" ∨ ni_Type info = "vless") ∧ ∃ n, ni_VAllss info = Some n ∧ pathless n = true.

Lemma header_wf_pathless info : ¬ header_pathless info ↔ header_wf info.
Proof.
  split.
  - intros Hn Ht n Hv. destruct (pathless n) eqn:Hp; [|done]. destruct Hn. split; [done|by exists n].
  - intros Hw [Ht (n & Hv & Hp)]. by rewrite (Hw Ht n Hv) in Hp.
Qed.

Lemma header_pathless_dec info : header_pathless info ∨ header_wf info.
Proof.
  destruct (decide (ni_Type info = "vmess" ∨ ni_Type info = "vless")) as [Ht|Ht]; [|by right; intros ?].
  destruct (ni_VAllss info) as [n|] eqn:Hv; [|right; intros _ n; by rewrite Hv].
  destruct (pathless n) eqn:Hp; [left; split; [done|by exists n]|].
  right. intros _ n'. rewrite Hv. by intros [= <-].
Qed.

(** Such a node panics once its address and its TLS are taken. *)
Lemma getInboundOptions_pathless rnd tag info c :
  header_pathless info → is_Some (opt_SingOptions c) →
  is_ok (listen_options info c) = true → is_ok (tls_options info c) = true →
  getInboundOptions rnd tag info c = Panic "index out of range".
Proof.
  intros [Ht (n & Hv & Hp)] [so Hso] Hl Htls. unfold getInboundOptions.
  destruct (listen_options info c) as [l| |]; [|done..]. destruct (tls_options info c) as [t| |]; [|done..].
  rewrite Hso. cbn [mbind res_bind deref]. unfold type_options. rewrite decide_True by done.
  rewrite Hv. cbn [mbind res_bind deref]. by rewrite v2ray_transport_pathless.
Qed.

Lemma getInboundOptions_refused `{!SingNodeTotal} rnd tag info c :
  node_wf info → is_Some (opt_SingOptions c) →
  is_ok (listen_options info c) && is_ok (tls_options info c) = false →
  no_panic (getInboundOptions rnd tag info c).
Proof.
  intros Hwf [so Hso] Hok. pose proof (tls_options_returns info c Hwf) as Ht. pose proof (wf_common _ Hwf).
  assert (is_Some (opt_SingOptions c)) as Hs by (by exists so).
  assert (no_panic (listen_options info c)) as Hl by (unfold listen_options; solve_no_panic).
  unfold getInboundOptions. destruct (listen_options info c) as [l|e|w]; [|done..].
  rewrite Hso. cbn [mbind res_bind deref]. by destruct (tls_options info c).
Qed.
End lemmas.

(** ** Adding a node *)
Section adding.
Context `{HO : HostOS} `{SL : SingLib} `{NL : SingNodeLib} `{BL : !SingBoxLib} `{RO : RangeOrder}.

(** Managing the inbounds returns. *)
Class SingBoxTotal := {
  total_node : SingNodeTotal;
  total_Create : ∀ i b, no_panic (inbound_Create i b).2;
}.
#[local] Existing Instance total_node.

Lemma Sing_AddNode_returns `{!SingBoxTotal} tag info config s :
  node_wf info → header_wf info → is_Some (opt_SingOptions config) →
  no_panic (Sing_AddNode tag info config s).2.
Proof.
  intros Hwf Hh Hs. unfold Sing_AddNode. cbn [ss_world ss_core].
  pose proof (getInboundOptions_returns (random_bytes (ss_world s)) tag info config Hwf Hh Hs).
  destruct (getInboundOptions _ _ _ _) as [i|e|p]; [|done..]. unfold on_box. cbn [ss_core].
  set (b := sg_box _). pose proof (total_Create i b). destruct (inbound_Create i b) as [b' r].
  by apply no_panic_map_err.
Qed.

(** Adding a node panics exactly when its address and TLS are taken and its http
    header lists no path. *)
Lemma Sing_AddNode_panics `{!SingBoxTotal} tag info config s :
  node_wf info → is_Some (opt_SingOptions config) →
  ¬ no_panic (Sing_AddNode tag info config s).2 ↔
  header_pathless info ∧ is_ok (listen_options info config) = true ∧ is_ok (tls_options info config) = true.
Proof.
  intros Hwf Hs. split.
  - intros Hp. destruct (header_pathless_dec info) as [Hh|Hh];
      [|destruct Hp; by apply Sing_AddNode_returns].
    split; [done|]. apply andb_prop. apply not_false_iff_true. intros Hf. apply Hp.
    pose proof (getInboundOptions_refused (random_bytes (ss_world s)) tag info config Hwf Hs Hf).
    unfold Sing_AddNode. cbn [ss_world ss_core].
    destruct (getInboundOptions _ _ _ _) as [i|e|p]; [|done..]. unfold on_box. cbn [ss_core].
    set (b := sg_box _). pose proof (total_Create i b). destruct (inbound_Create i b) as [b' r].
    by apply no_panic_map_err.
  - intros (Hh & Hl & Ht). unfold Sing_AddNode. rewrite getInboundOptions_pathless by done.
    intros Hn. by apply Hn.
Qed.

(** What adding a node leaves alone: the users, their ids and counters. *)
Definition sing_users_of (s : Sing) := (sg_heap s, sg_counter s, sg_uidMap s).

Lemma on_box_frame {A} (f : SBox → SBox * res string A) s s' r :
  on_box f s = (s', r) →
  sing_users_of (ss_core s') = sing_users_of (ss_core s) ∧
  sg_minTraffic (ss_core s') = sg_minTraffic (ss_core s) ∧ ss_world s' = ss_world s.
Proof. unfold on_box. destruct (f _) as [b q]. by intros [= <- <-]. Qed.
End adding.

(** * Properties *)
Section properties.
Context `{HO : HostOS} `{SL : SingLib} `{NL : SingNodeLib} `{BL : !SingBoxLib} `{RO : RangeOrder}.

(** C18: the inbound of a sing node.  When its options can be built they carry
    the node's tag, and for a protocol the core serves the node's protocol, the
    configured address and the low 16 bits of the node's port; all but
    shadowsocks carry the TLS options of the node, to which tuic adds the ALPN
    h3.  A type the switch does not know gives options without any protocol
    instead of an error. *)
Theorem getInboundOptions_exact rnd tag info c i :
  getInboundOptions rnd tag info c = Ok i →
  ib_Tag i = tag ∧
  ∃ addr cm so tls,
    netip_ParseAddr (opt_ListenIP c) = Ok addr ∧ ni_Common info = Some cm ∧
    opt_SingOptions c = Some so ∧ tls_options info c = Ok tls ∧
    (ni_Type info ∈ Sing_Protocols →
       ib_Type i = ni_Type info ∧
       listen_of (ib_Options i) = Some (mkListenOptions addr (cn_ServerPort cm mod 65536) (so_TCPFastOpen so)) ∧
       (ni_Type info ≠ "shadowsocks" →
        tls_of (ib_Options i) = Some (if decide (ni_Type info = "tuic") then with_h3 tls else tls))) ∧
    (ni_Type info ∉ Sing_Protocols → ib_Type i = "" ∧ ib_Options i = NoOptions).
Proof.
  intros (l & (addr & Ha%map_err_Ok & (cm & Hc%deref_Ok & (so' & Hs'%deref_Ok & [= <-])%bind_Ok_inv)%bind_Ok_inv)%bind_Ok_inv
    & (so & Hs%deref_Ok & (tls & Ht & ([type o] & Hto & [= <-])%bind_Ok_inv)%bind_Ok_inv)%bind_Ok_inv)%bind_Ok_inv.
  assert (so' = so) as -> by congruence. apply type_options_ok in Hto as [Hk Hu].
  split; [done|]. exists addr, cm, so, tls. do 4 (split; [done|]). cbn [ib_Type ib_Options]. split.
  - intros Hin. apply Hk. by apply bool_decide_eq_true.
  - intros Hin. apply Hu. by apply bool_decide_eq_false.
Qed.

(** The fallbacks of a trojan inbound do not depend on the order in which the
    table is walked: the plain fallback is there when its port is a number, and
    the fallbacks by ALPN are there, all of them, when every port is one; a
    port that is none silently drops them. *)
Theorem trojan_fallbacks_exact c so f :
  opt_SingOptions c = Some so → so_FallBackConfigs so = Some f →
  trojan_fallbacks c so =
    (if (Atoi (fall_ServerPort (fbs_FallBack f))).2 then Some (to_server (fbs_FallBack f)) else None,
     if decide (map_Forall (λ _ v, (Atoi (fall_ServerPort v)).2 = true) (fbs_FallBackForALPN f))
     then Some (to_server <$> fbs_FallBackForALPN f) else None).
Proof.
  intros Hso Hf. unfold trojan_fallbacks. rewrite Hf, (processFallback_spec c so f) by done.
  unfold to_server at 2. destruct (Atoi _) as [n ok]. cbn [fst snd].
  case_decide; [|done]. by rewrite map_union_empty.
Qed.

(** Over parsers and decoders that return, the transport of a vmess or vless
    node panics exactly when it is tcp with an http header whose request lists
    no path; every other document is taken or refused with an error. *)
Theorem v2ray_transport_panics_iff `{ST : !SingNodeTotal} n p :
  v2ray_transport n = Panic p ↔ pathless n = true ∧ p = "index out of range".
Proof.
  destruct (pathless n) eqn:Hp.
  - rewrite v2ray_transport_pathless by done. naive_solver.
  - split; [|by intros []]. intros Heq. pose proof (v2ray_transport_returns n Hp) as Hr. by rewrite Heq in Hr.
Qed.

(** Adding a node to the sing core, whatever comes of it, keeps the users,
    their ids and their counters, and the thresholds of the other nodes; the
    node and the options are given back as they were, and it succeeds only when
    sing-box has taken the inbound made from them under the node's tag. *)
Theorem Sing_AddNode_frame tag info config s s' info' config' r :
  Sing_AddNode tag info config s = (s', (info', config'), r) →
  info' = info ∧ config' = config ∧
  sing_users_of (ss_core s') = sing_users_of (ss_core s) ∧
  sg_minTraffic (ss_core s') =
    <[tag := wrap64 (opt_ReportMinTraffic config * 1024)]> (sg_minTraffic (ss_core s)) ∧
  (r = Ok tt → ∃ i, getInboundOptions (random_bytes (ss_world s)) tag info config = Ok i ∧
     inbound_Create i (sg_box (ss_core s)) = (sg_box (ss_core s'), Ok tt)).
Proof.
  unfold Sing_AddNode. cbn [ss_world ss_core].
  destruct (getInboundOptions _ _ _ _) as [i|e|p]; [|by intros [= <- <- <- <-]..].
  set (s0 := mkSingState _ _). destruct (on_box (inbound_Create i) s0) as [s1 q] eqn:Hb.
  intros [= -> <- <- <-]. pose proof (on_box_frame _ _ _ _ Hb) as (Hu & Hm & _).
  do 2 (split; [done|]). split; [by rewrite Hu|]. split; [by rewrite Hm|].
  intros Hq%map_err_Ok. exists i. split; [done|]. revert Hb. unfold on_box. cbn [ss_core].
  change (sg_box (ss_core s0)) with (sg_box (ss_core s)).
  destruct (inbound_Create i _) as [b q']. intros [= <- <-]. by rewrite Hq.
Qed.
End properties.

(** * Witnesses: decoders that return what they are asked for *)
#[local] Instance wit_nodelib : SingNodeLib := {|
  NetAddr := string;
  netip_ParseAddr := Ok;
  url_Parse := λ u, Ok (u, λ _, "2048");
  decode_HttpNetwork := λ s, Ok (mkHttpNetworkConfig "http" (Some s) None);
  decode_HttpRequest := λ s, Ok HttpRequest_zero;
  decode_WsNetwork := λ s, Ok (mkWsNetworkConfig s ∅);
  decode_GrpcNetwork := λ s, Ok (mkGrpcNetworkConfig s);
  decode_Httpupgrade := λ s, Ok (mkHttpupgradeNetworkConfig s "");
|}.
#[local] Instance wit_total : SingNodeTotal.
Proof. by split. Qed.

Definition wit_common : CommonNode := mkCommonNode "h" 65979 "n" [] None.
Definition wit_vless : VAllssNode :=
  mkVAllssNode wit_common 0 TlsSettings_zero None "tcp" "{request: {}}" "" ""
    (mkEncSettings "" "" "" "") "" "" (mkRealityConfig 0 "" "" "").
Definition wit_node : NodeInfo :=
  mkNodeInfo 1 "tuic" 0 0 0 RawDNS_empty Rules_empty None None None
    (Some (mkTuicNode wit_common TlsSettings_zero None "bbr" true)) None None None
    (Some wit_common) None false false.
Definition wit_sing_options : SingOptions :=
  mkSingOptions true true true false 0
    (Some (mkFallBackConfigForSing (mkFallBack "s" "80")
             {["h2" := mkFallBack "a" "81"; "h1" := mkFallBack "b" "none"]})) None.
Definition wit_options : Options := opt_with_SingOptions (Some wit_sing_options) Options_default.

(** Port 65979 is listened on as 443. *)
Lemma getInboundOptions_exact_witness :
  ∃ i, @getInboundOptions wit_nodelib canonical_order (λ _, "") "t" wit_node wit_options = Ok i ∧
    lo_ListenPort <$> listen_of (ib_Options i) = Some 443%Z.
Proof.
  eexists. split; [vm_compute; reflexivity|].
  edestruct (@getInboundOptions_exact wit_nodelib canonical_order (λ _, "") "t" wit_node wit_options)
    as (_ & addr & cm & so & tls & _ & Hc & _ & _ & H & _); [vm_compute; reflexivity|].
  destruct H as (_ & -> & _); [vm_compute; by repeat constructor|]. injection Hc as <-. reflexivity.
Defined.

Lemma trojan_fallbacks_exact_witness :
  @trojan_fallbacks reverse_order wit_options wit_sing_options = (Some (mkServerOptions "s" 80), None).
Proof.
  rewrite (@trojan_fallbacks_exact reverse_order wit_options wit_sing_options _ eq_refl eq_refl).
  vm_compute. reflexivity.
Defined.

Lemma v2ray_transport_panics_iff_witness : v2ray_transport wit_vless = Panic "index out of range".
Proof. apply v2ray_transport_panics_iff. split; vm_compute; reflexivity. Defined.

#[local] Instance wit_sing : SingLib := {|
  SBox := list string;
  inbound_Get := λ _ _, Some "tuic";
  inbound_AddUsers := λ _ _ _ b, (b, Ok tt);
  inbound_DelUsers := λ _ _ b, (b, Ok tt);
|}.
#[local] Instance wit_host : HostOS := {|
  W := unit; ReadFile := λ _ _, Err "none"; WriteFile := λ _ _ w, (w, None); Truncate := λ _ w, (w, None);
  Getenv := λ _ _, ""; Setenv := λ _ _ w, w; rand_Read := λ _ w, (w, Ok "");
|}.
#[local] Instance wit_box : SingBoxLib := {|
  SOptions := unit; SOptions_zero := tt; unmarshal_SOptions := λ _, Ok tt;
  box_New := λ _ _ _, Ok []; box_Start := λ b, (b, Ok tt); box_Close := λ b, (b, Ok tt);
  inbound_Create := λ i b, (ib_Tag i :: b, Ok tt); inbound_Remove := λ _ b, (b, Ok tt);
|}.
#[local] Instance wit_order : RangeOrder := canonical_order.

Definition wit_state : SingState := mkSingState (mkSing [] ∅ ∅ ∅ ∅) tt.

Lemma Sing_AddNode_frame_witness :
  sg_box (ss_core (Sing_AddNode "t" wit_node wit_options wit_state).1.1) = ["t"].
Proof.
  destruct (Sing_AddNode "t" wit_node wit_options wit_state) as [[s' [i' c']] r] eqn:E.
  pose proof (Sing_AddNode_frame _ _ _ _ _ _ _ _ E) as (_ & _ & _ & _ & H).
  assert (r = Ok tt) as Hr.
  { assert ((Sing_AddNode "t" wit_node wit_options wit_state).2 = Ok tt) as Hv
      by (vm_compute; reflexivity). by rewrite E in Hv. }
  destruct (H Hr) as (i & Hi & Hc). injection Hc as Hc. cbn [fst]. rewrite <- Hc. f_equal.
  revert Hi. vm_compute. by intros [= <-].
Defined.
