(* ===== verification/Sniff.v ===== *)
(** Sniffing the first bytes of a connection: src/core/xray/app/dispatcher/
    sniffer.go, fakednssniffer.go, and of default.go the cached reader,
    [sniffer] and [shouldOverride].

    The sniffers of the protocols, the addresses and the fake DNS engine are
    xray-core's ([SniffLib], [NetLib], [FakeDNSEngine]); so is the reader below
    the cached one ([ReaderLib]).  A buffer is the bytes it holds. *)

From S2P Require Import Prelude GoStd GoText Lower Conf Panel Limiter.
From stdpp Require Import prelude gmap strings.
From Stdlib Require Import Ascii ZArith Lia.

Open Scope string_scope.

(** * Networks and addresses *)
Inductive Network : Type := Network_Unknown | Network_TCP | Network_UDP | Network_UNIX.
#[global] Instance Network_eq_dec : EqDecision Network.
Proof. solve_decision. Defined.

Class NetLib := {
  Address : Type;
  ParseAddress : string → Address;
  is_IP : Address → bool;                (* Family().IsIP() *)
  is_Domain : Address → bool;            (* Family().IsDomain() *)
  address_Domain : Address → string;
  IP_String : Address → string;
}.

Record FakeDNSEngine `{NetLib} := mkFakeDNSEngine {
  GetDomainFromFakeDNS : Address → string;
  IsIPInIPPool : option (Address → bool);    (* when it is a FakeDNSEngineRev0 *)
}.

(** * Results and errors *)
Inductive sniff_error : Type :=
| ErrNoClue
| ErrProtoNeedMoreData
| OtherError (e : string).
Definition errUnknownContent : sniff_error := OtherError "unknown content".
Definition errSniffingTimeout : sniff_error := OtherError "timeout on sniffing".

(** The results of xray-core's sniffers have a protocol and a domain. *)
Inductive SniffResult : Type :=
| LibResult (protocol domain : string)
| fakeDNSSniffResult (domainName : string)
| DNSThenOthersSniffResult (domainName protocolOriginalName : string)
| compositeResult (domainResult protocolResult : SniffResult).

Fixpoint Protocol (r : SniffResult) : string :=
  match r with
  | LibResult protocol _ => protocol
  | fakeDNSSniffResult _ => "fakedns"
  | DNSThenOthersSniffResult _ _ => "fakedns+others"
  | compositeResult _ protocolResult => Protocol protocolResult
  end.

Fixpoint Domain (r : SniffResult) : string :=
  match r with
  | LibResult _ domain => domain
  | fakeDNSSniffResult domainName => domainName
  | DNSThenOthersSniffResult domainName _ => domainName
  | compositeResult domainResult _ => Domain domainResult
  end.

(** [SnifferResultComposite], where the result is one. *)
Definition ProtocolForDomainResult (r : SniffResult) : option string :=
  match r with compositeResult domainResult _ => Some (Protocol domainResult) | _ => None end.
(** [SnifferIsProtoSubsetOf], where the result is one. *)
Definition IsProtoSubsetOf (r : SniffResult) (protocolName : string) : option bool :=
  match r with
  | DNSThenOthersSniffResult _ original => Some (HasPrefix protocolName original)
  | _ => None
  end.
Definition CompositeResult (domainResult protocolResult : SniffResult) : SniffResult :=
  compositeResult domainResult protocolResult.

(** * Sniffers *)

(** A sniffer is given the bytes read, or nil; [Ok None] is a nil result
    without an error. *)
Definition protocolSniffer : Type := option string → res sniff_error (option SniffResult).

Record protocolSnifferWithMetadata := mkSniffer {
  ps_sniff : protocolSniffer;
  ps_metadata : bool;
  ps_network : Network;
}.
Definition Sniffer : Type := list protocolSnifferWithMetadata.

(** xray-core's sniffers, with the protocol and the domain they find. *)
Class SniffLib := {
  SniffHTTP : option string → res sniff_error (option (string * string));
  SniffTLS : option string → res sniff_error (option (string * string));
  SniffBittorrent : option string → res sniff_error (option (string * string));
  SniffQUIC : option string → res sniff_error (option (string * string));
  SniffUTP : option string → res sniff_error (option (string * string));
}.

Definition lib_sniffer (f : option string → res sniff_error (option (string * string))) : protocolSniffer :=
  λ b, r ← f b; Ok (match r with Some (protocol, domain) => Some (LibResult protocol domain) | None => None end).

Section sniff.
Context `{NL : NetLib} `{SL : SniffLib}.

Record Destination := mkDestination { d_Address : Address; d_Network : Network; d_Port : Z }.

(** ** fakednssniffer.go

    The boolean that a sniffer with the context value [ipAddressInRange]
    leaves there is returned. *)
Definition fakeDNS_sniff (e : FakeDNSEngine) (target : Destination) (in_ctx : bool)
    : res sniff_error (option SniffResult) * option bool :=
  let domain :=
    if decide (d_Network target = Network_TCP ∨ d_Network target = Network_UDP)
    then GetDomainFromFakeDNS e (d_Address target) else "" in
  if decide (domain = "") then
    (Err ErrNoClue,
     if in_ctx then match IsIPInIPPool e with Some f => Some (f (d_Address target)) | None => None end
     else None)
  else (Ok (Some (fakeDNSSniffResult domain)), None).

Definition newFakeDNSSniffer (fdns : option FakeDNSEngine) (target : Destination)
    : option protocolSnifferWithMetadata :=
  match fdns with
  | Some e => Some (mkSniffer (λ _, (fakeDNS_sniff e target false).1) true Network_Unknown)
  | None => None
  end.

Fixpoint others_loop (others : Sniffer) (bytes : option string) : res sniff_error (option SniffResult) :=
  match others with
  | [] => Err ErrNoClue
  | v :: others =>
      if ps_metadata v || bool_decide (is_Some bytes) then
        match ps_sniff v bytes with
        | Ok (Some result) => Ok (Some (DNSThenOthersSniffResult (Domain result) (Protocol result)))
        | Ok None => nil_pointer
        | Panic p => Panic p
        | Err _ => others_loop others bytes
        end
      else others_loop others bytes
  end.

Definition newFakeDNSThenOthers (e : FakeDNSEngine) (target : Destination) (others : Sniffer)
    : protocolSnifferWithMetadata :=
  mkSniffer (λ bytes,
    match fakeDNS_sniff e target true with
    | (Ok result, _) => Ok result
    | (Panic p, _) => Panic p
    | (Err _, Some true) => others_loop others bytes
    | (Err _, _) => Err ErrNoClue
    end) false Network_Unknown.

(** ** sniffer.go *)
Definition content_sniffers : Sniffer :=
  [mkSniffer (lib_sniffer SniffHTTP) false Network_TCP;
   mkSniffer (lib_sniffer SniffTLS) false Network_TCP;
   mkSniffer (lib_sniffer SniffBittorrent) false Network_TCP;
   mkSniffer (lib_sniffer SniffQUIC) false Network_UDP;
   mkSniffer (lib_sniffer SniffUTP) false Network_UDP].

Definition NewSniffer (fdns : option FakeDNSEngine) (target : Destination) : Sniffer :=
  match fdns, newFakeDNSSniffer fdns target with
  | Some e, Some sniffer =>
      newFakeDNSThenOthers e target content_sniffers :: (content_sniffers ++ [sniffer])%list
  | _, _ => content_sniffers
  end.

(** The loop of [Sniff] and of [SniffMetadata]: the sniffers that take part run
    in order, those without a clue stay for the next time. *)
Fixpoint sniff_loop (skip keep : protocolSnifferWithMetadata → bool) (bytes : option string)
    (l pending all : Sniffer) : Sniffer * res sniff_error SniffResult :=
  match l with
  | [] => match pending with
          | [] => (all, Err errUnknownContent)
          | _ => (pending, Err ErrNoClue)
          end
  | si :: l =>
      if skip si then
        sniff_loop skip keep bytes l (if keep si then pending ++ [si] else pending)%list all
      else
        match ps_sniff si bytes with
        | Err ErrNoClue => sniff_loop skip keep bytes l (pending ++ [si])%list all
        | Ok (Some result) => (all, Ok result)
        | Panic p => (all, Panic p)
        | _ => sniff_loop skip keep bytes l pending all
        end
  end.

Definition Sniff (s : Sniffer) (payload : string) (network : Network)
    : Sniffer * res sniff_error SniffResult :=
  sniff_loop (λ si, ps_metadata si || negb (bool_decide (ps_network si = network))) (λ _, false)
    (Some payload) s [] s.

Definition SniffMetadata (s : Sniffer) : Sniffer * res sniff_error SniffResult :=
  sniff_loop (λ si, negb (ps_metadata si)) (λ _, true) None s [] s.
End sniff.

(** * The cached reader *)
Class ReaderLib := {
  Rd : Type;
  (* an error, or the bytes read *)
  rd_ReadMultiBuffer : Rd → Rd * (string + string);
  rd_ReadMultiBufferTimeout : Z → Rd → Rd * (string + string);
  rd_Interrupt : Rd → Rd;           (* nothing, when it is no pipe *)
  payload_Cap : nat;                (* the capacity of the sniffing buffer *)
}.

Section reader.
Context `{RdL : ReaderLib}.

Record cachedReader := mkCachedReader { cr_reader : Rd; cr_cache : string }.

(** What [Cache] leaves in the sniffing buffer. *)
Definition Cache (deadline : Z) (r : cachedReader) : cachedReader * (string + string) :=
  match rd_ReadMultiBufferTimeout deadline (cr_reader r) with
  | (rd, inl e) => (mkCachedReader rd (cr_cache r), inl e)
  | (rd, inr mb) =>
      let cache := cr_cache r +:+ mb in
      (mkCachedReader rd cache, inr (String.substring 0 (Nat.min (String.length cache) payload_Cap) cache))
  end.

Definition readInternal (r : cachedReader) : cachedReader * option string :=
  if decide (cr_cache r = "") then (r, None) else (mkCachedReader (cr_reader r) "", Some (cr_cache r)).

Definition cr_ReadMultiBuffer (r : cachedReader) : cachedReader * (string + string) :=
  match readInternal r with
  | (r, Some mb) => (r, inr mb)
  | (r, None) =>
      let '(rd, x) := rd_ReadMultiBuffer (cr_reader r) in (mkCachedReader rd (cr_cache r), x)
  end.

Definition cr_ReadMultiBufferTimeout (timeout : Z) (r : cachedReader) : cachedReader * (string + string) :=
  match readInternal r with
  | (r, Some mb) => (r, inr mb)
  | (r, None) =>
      let '(rd, x) := rd_ReadMultiBufferTimeout timeout (cr_reader r) in (mkCachedReader rd (cr_cache r), x)
  end.

Definition cr_Interrupt (r : cachedReader) : cachedReader := mkCachedReader (rd_Interrupt (cr_reader r)) "".
End reader.

(** * sniffer *)
Section sniffer.
Context `{NL : NetLib} `{SL : SniffLib} `{RdL : ReaderLib}.

(** One turn of the loop: whether the context was done, and how long the read
    took. *)
Record turn := mkTurn { tu_Done : option string; tu_Elapsed : Z }.

(** Two turns are enough ([content_loop_two]). *)
Fixpoint content_loop (fuel : nat) (turns : nat → turn) (i : nat) (network : Network) (s : Sniffer)
    (r : cachedReader) (cacheDeadline : Z) (totalAttempt : nat)
    : option (cachedReader * res sniff_error SniffResult) :=
  match fuel with
  | O => None
  | S fuel =>
      match tu_Done (turns i) with
      | Some e => Some (r, Err (OtherError e))
      | None =>
          match Cache cacheDeadline r with
          | (r, inl e) => Some (r, Err (OtherError e))
          | (r, inr payload) =>
              let cacheDeadline := (cacheDeadline - tu_Elapsed (turns i))%Z in
              let next s totalAttempt :=
                if decide (2 ≤ totalAttempt ∨ (cacheDeadline <= 0)%Z)%nat
                then Some (r, Err errSniffingTimeout)
                else content_loop fuel turns (S i) network s r cacheDeadline totalAttempt in
              if decide (payload = "") then next s (S totalAttempt)
              else
                match Sniff s payload network with
                | (s, Err ErrNoClue) => next s (S totalAttempt)
                | (s, Err ErrProtoNeedMoreData) => next s totalAttempt
                | (s, result) => Some (r, result)
                end
          end
      end
  end.

Definition cacheDeadline0 : Z := 200 * 1000000.

Definition sniffer (fdns : option FakeDNSEngine) (target : Destination) (turns : nat → turn)
    (r : cachedReader) (metadataOnly : bool) (network : Network)
    : option (cachedReader * res sniff_error SniffResult) :=
  let '(s, meta) := SniffMetadata (NewSniffer fdns target) in
  match meta with
  | Panic p => Some (r, Panic p)
  | _ =>
      if metadataOnly then Some (r, meta)
      else
        '(r, content) ← content_loop 2 turns 0 network s r cacheDeadline0 0;
        mret (r,
          match content, meta with
          | Err _, Ok metaresult => Ok metaresult
          | Ok contentResult, Ok metaresult => Ok (CompositeResult metaresult contentResult)
          | content, _ => content
          end)
  end.
End sniffer.

(** * shouldOverride *)
Record SniffingRequest := mkSniffingRequest {
  sr_ExcludeForDomain : list string;
  sr_OverrideDestinationForProtocol : list string;
  sr_Enabled : bool;
  sr_MetadataOnly : bool;
  sr_RouteOnly : bool;
}.

Section override.
Context `{NL : NetLib} `{RE : RegexpLib}.

Definition excludes (domain d : string) : bool :=
  if HasPrefix d "regexp:" then
    match regexp_Compile (slice_from d 7) with
    | None => false
    | Some re => MatchString re domain
    end
  else String.eqb (ToLower domain) d.

Definition in_fake_pool (fdns : option FakeDNSEngine) (a : Address) : bool :=
  match fdns with
  | Some e => match IsIPInIPPool e with Some f => f a | None => false end
  | None => false
  end.

Definition overrides (fdns : option FakeDNSEngine) (result : SniffResult) (protocolString : string)
    (destination : Destination) (p : string) : bool :=
  HasPrefix protocolString p || HasPrefix p protocolString ||
  (negb (String.eqb protocolString "bittorrent") && String.eqb p "fakedns" &&
   is_IP (d_Address destination) && in_fake_pool fdns (d_Address destination)) ||
  default false (IsProtoSubsetOf result p).

Definition protocol_for_domain (result : SniffResult) : string :=
  default (Protocol result) (ProtocolForDomainResult result).

Definition shouldOverride (fdns : option FakeDNSEngine) (result : SniffResult) (request : SniffingRequest)
    (destination : Destination) : bool :=
  let domain := Domain result in
  if decide (domain = "") then false
  else if existsb (excludes domain) (sr_ExcludeForDomain request) then false
  else existsb (overrides fdns result (protocol_for_domain result) destination)
         (sr_OverrideDestinationForProtocol request).
End override.

(** * Lemmas *)

(** ** Sniffers *)
Section sniffers.
Context `{NL : NetLib} `{SL : SniffLib}.

Lemma sniff_loop_error skip keep bytes l pending all e :
  (sniff_loop skip keep bytes l pending all).2 = Err e → e = ErrNoClue ∨ e = errUnknownContent.
Proof.
  revert pending. induction l as [|si l IH]; intros pending; cbn [sniff_loop].
  - destruct pending; cbn; intros [= <-]; tauto.
  - destruct (skip si); [apply IH|].
    destruct (ps_sniff si bytes) as [[r|]|[]|p]; try apply IH; done.
Qed.

(** What a sniffer that takes part finds has the property [P], and so do the
    sniffers that are kept. *)
Lemma sniff_loop_inv (Q : protocolSnifferWithMetadata → Prop) (P : SniffResult → Prop)
    skip keep bytes l pending all :
  Forall Q l → Forall Q pending → Forall Q all →
  (∀ si r, Q si → skip si = false → ps_sniff si bytes = Ok (Some r) → P r) →
  Forall Q (sniff_loop skip keep bytes l pending all).1 ∧
  ∀ r, (sniff_loop skip keep bytes l pending all).2 = Ok r → P r.
Proof.
  intros Hl Hp Ha HP. revert pending Hp. induction Hl as [|si l Hsi Hl IH]; intros pending Hp; cbn [sniff_loop].
  - destruct pending; by split.
  - destruct (skip si) eqn:Hs; [apply IH; destruct (keep si); [by apply Forall_app_2; [|constructor]|done]|].
    destruct (ps_sniff si bytes) as [[r|]|[]|p] eqn:Hr; try (by apply IH); try done.
    + split; [done|]. intros r' [= <-]. by apply (HP si).
    + apply IH. by apply Forall_app_2; [|constructor].
Qed.

(** The sniffers of a connection: fake DNS finds its own results, the others
    those of xray-core, except for the one that never takes part. *)
Definition known_sniffer (si : protocolSnifferWithMetadata) : Prop :=
  if ps_metadata si then ∀ b r, ps_sniff si b = Ok (Some r) → ∃ d, r = fakeDNSSniffResult d
  else ps_network si = Network_Unknown ∨ ∀ b r, ps_sniff si b = Ok (Some r) → ∃ p d, r = LibResult p d.

Lemma lib_sniffer_known f network : known_sniffer (mkSniffer (lib_sniffer f) false network).
Proof.
  right. intros b r (x & _ & H)%bind_Ok_inv. destruct x as [[p d]|]; [injection H as <-; eauto|done].
Qed.

Lemma fakeDNS_sniff_found e target b r o :
  fakeDNS_sniff e target b = (Ok r, o) → ∃ d, r = Some (fakeDNSSniffResult d).
Proof. unfold fakeDNS_sniff. case_decide; [done|]. intros [= <- _]. eauto. Qed.

Lemma NewSniffer_known fdns target : Forall known_sniffer (NewSniffer fdns target).
Proof.
  assert (Forall known_sniffer content_sniffers) as Hc 
    by (unfold content_sniffers; repeat (apply Forall_cons; split; [apply lib_sniffer_known|]); by constructor).
  unfold NewSniffer, newFakeDNSSniffer. destruct fdns as [e|]; [|done]. constructor; [by left|].
  apply Forall_app_2; [done|]. constructor; [|constructor]. intros b r H. cbn in H.
  destruct (fakeDNS_sniff e target false) as [o x] eqn:Hf. cbn in H. subst o.
  apply fakeDNS_sniff_found in Hf as [d [= ->]]. eauto.
Qed.

Lemma Sniff_known s payload network :
  network ≠ Network_Unknown → Forall known_sniffer s →
  Forall known_sniffer (Sniff s payload network).1 ∧
  ∀ r, (Sniff s payload network).2 = Ok r → ∃ p d, r = LibResult p d.
Proof.
  intros Hn Hs. apply (sniff_loop_inv known_sniffer); try done.
  intros si r Hk [Hm Hnet]%orb_false_iff Hr. unfold known_sniffer in Hk. rewrite Hm in Hk.
  apply negb_false_iff, bool_decide_eq_true in Hnet. destruct Hk as [Hk|Hk]; [congruence|by eapply Hk].
Qed.

Lemma SniffMetadata_known s :
  Forall known_sniffer s →
  Forall known_sniffer (SniffMetadata s).1 ∧
  ∀ r, (SniffMetadata s).2 = Ok r → ∃ d, r = fakeDNSSniffResult d.
Proof.
  intros Hs. apply (sniff_loop_inv known_sniffer); try done.
  intros si r Hk Hm%negb_false_iff Hr. unfold known_sniffer in Hk. rewrite Hm in Hk. by eapply Hk.
Qed.

Context `{RdL : ReaderLib}.

#[local] Ltac answers := do 2 eexists; split; [reflexivity|split; done].

(** The loop ends within the turns that are left, with what [Sniff] finds. *)
Lemma content_loop_spec fuel turns i network s r d total :
  (2 ≤ total + fuel)%nat → (0 < fuel)%nat → network ≠ Network_Unknown → Forall known_sniffer s →
  ∃ r' x, content_loop fuel turns i network s r d total = Some (r', x) ∧
    x ≠ Err ErrProtoNeedMoreData ∧ ∀ res, x = Ok res → ∃ p dm, res = LibResult p dm.
Proof.
  revert i s r d total. induction fuel as [|fuel IH]; intros i s r d total Hf H0 Hn Hs; [lia|].
  cbn [content_loop]. destruct (tu_Done (turns i)) as [e|]; [answers|].
  destruct (Cache d r) as [r1 [e|payload]]; [answers|].
  assert (∀ s', Forall known_sniffer s' →
    ∃ r' x, (if decide (2 ≤ S total ∨ (d - tu_Elapsed (turns i) <= 0)%Z)%nat
      then Some (r1, Err errSniffingTimeout)
      else content_loop fuel turns (S i) network s' r1 (d - tu_Elapsed (turns i)) (S total)) = Some (r', x) ∧
      x ≠ Err ErrProtoNeedMoreData ∧ ∀ res, x = Ok res → ∃ p dm, res = LibResult p dm) as Hnext.
  { intros s' Hs'. case_decide as Hd; [answers|]. apply IH; [lia|lia|done|done]. }
  destruct (decide (payload = "")); [by apply Hnext|].
  destruct (Sniff_known s payload network Hn Hs) as [Hk Hr].
  pose proof (sniff_loop_error (λ si, ps_metadata si || negb (bool_decide (ps_network si = network)))
    (λ _, false) (Some payload) s [] s) as He. fold (Sniff s payload network) in He.
  destruct (Sniff s payload network) as [s' x]. cbn [fst snd] in *.
  destruct x as [res|[]|p]; try (do 2 eexists; split; [done|]; split; naive_solver).
  - by apply Hnext.
  - by destruct (He _ eq_refl).
Qed.
End sniffers.

(** ** Reading through the cache *)
Section reading.
Context `{RdL : ReaderLib}.

(** The bytes the reader below has given so far. *)
Class ReaderSpec := {
  given : Rd → string;
  given_Read : ∀ r, given (rd_ReadMultiBuffer r).1 =
    match (rd_ReadMultiBuffer r).2 with inl _ => given r | inr b => given r +:+ b end;
  given_ReadTimeout : ∀ t r, given (rd_ReadMultiBufferTimeout t r).1 =
    match (rd_ReadMultiBufferTimeout t r).2 with inl _ => given r | inr b => given r +:+ b end;
}.

Inductive read_op : Type := OpCache (deadline : Z) | OpRead | OpReadTimeout (timeout : Z).

(** The reader after a call, and the bytes the call hands on. *)
Definition read_step (r : cachedReader) (op : read_op) : cachedReader * string :=
  let out x := match x with inl _ => "" | inr b => b end in
  match op with
  | OpCache d => ((Cache d r).1, "")
  | OpRead => let '(r, x) := cr_ReadMultiBuffer r in (r, out x)
  | OpReadTimeout t => let '(r, x) := cr_ReadMultiBufferTimeout t r in (r, out x)
  end.
Fixpoint read_all (r : cachedReader) (ops : list read_op) : cachedReader * string :=
  match ops with
  | [] => (r, "")
  | op :: ops => let '(r, b) := read_step r op in let '(r, bs) := read_all r ops in (r, b +:+ bs)
  end.

Definition accounted `{RS : !ReaderSpec} (out : string) (r : cachedReader) : Prop :=
  out +:+ cr_cache r = given (cr_reader r).

Lemma read_step_accounted `{RS : !ReaderSpec} out r op :
  accounted out r → accounted (out +:+ (read_step r op).2) (read_step r op).1.
Proof.
  unfold accounted. intros H. destruct r as [rd cache]. cbn [cr_reader cr_cache] in H.
  assert (∀ (rd' : Rd) (x : string + string), given rd' = match x with inl _ => given rd | inr b => given rd +:+ b end →
    cache = "" → out +:+ (match x with inl _ => "" | inr b => b end : string) +:+ "" = given rd') as Hd.
  { intros rd' x -> ->. rewrite string_app_nil_r in H. rewrite string_app_nil_r. subst out.
    destruct x; [apply string_app_nil_r|done]. }
  destruct op as [d| |t]; cbn [read_step].
  - unfold Cache. cbn [cr_reader cr_cache]. pose proof (given_ReadTimeout d rd) as Hg.
    destruct (rd_ReadMultiBufferTimeout d rd) as [rd' [e|b]]; cbn [fst snd cr_reader cr_cache] in *;
      rewrite string_app_nil_r, Hg; [done|]. by rewrite <- H, string_app_assoc.
  - unfold cr_ReadMultiBuffer, readInternal. cbn [cr_reader cr_cache].
    case_decide; cbn [fst snd cr_reader cr_cache]; [|by rewrite string_app_nil_r].
    pose proof (given_Read rd) as Hg. subst cache.
    destruct (rd_ReadMultiBuffer rd) as [rd' x]; cbn [fst snd cr_reader cr_cache] in *.
    rewrite <- string_app_assoc. by apply Hd.
  - unfold cr_ReadMultiBufferTimeout, readInternal. cbn [cr_reader cr_cache].
    case_decide; cbn [fst snd cr_reader cr_cache]; [|by rewrite string_app_nil_r].
    pose proof (given_ReadTimeout t rd) as Hg. subst cache.
    destruct (rd_ReadMultiBufferTimeout t rd) as [rd' x]; cbn [fst snd cr_reader cr_cache] in *.
    rewrite <- string_app_assoc. by apply Hd.
Qed.
End reading.

(** * Properties *)
Section properties.
Context `{NL : NetLib} `{SL : SniffLib} `{RdL : ReaderLib}.

(** C31: sniffing a TCP or UDP connection ends after at most two reads, whatever
    arrives and however long the reads take, and what it finds is the domain of
    a fake DNS address, the result of one of xray-core's sniffers, or the first
    with the protocol of the second.  The results [fakedns+others] and the
    error "need more data", which the callers handle, do not occur. *)
Theorem sniffer_results fdns target turns r metadataOnly network :
  network ≠ Network_Unknown →
  ∃ r' x, sniffer fdns target turns r metadataOnly network = Some (r', x) ∧
    x ≠ Err ErrProtoNeedMoreData ∧
    ∀ result, x = Ok result →
      (∃ d, result = fakeDNSSniffResult d) ∨ (∃ p d, result = LibResult p d) ∨
      (∃ d p d', result = compositeResult (fakeDNSSniffResult d) (LibResult p d')).
Proof.
  intros Hn. unfold sniffer.
  destruct (SniffMetadata_known _ (NewSniffer_known fdns target)) as [Hk Hm].
  pose proof (sniff_loop_error (λ si, negb (ps_metadata si)) (λ _, true) None (NewSniffer fdns target) []
    (NewSniffer fdns target)) as He. fold (SniffMetadata (NewSniffer fdns target)) in He.
  destruct (SniffMetadata (NewSniffer fdns target)) as [s meta]. cbn [fst snd] in *.
  assert (∀ e, meta = Err e → e ≠ ErrProtoNeedMoreData) as He' by (intros e ->; by destruct (He e eq_refl) as [-> | ->]).
  destruct (content_loop_spec 2 turns 0 network s r cacheDeadline0 0) as (r' & x & Hc & Hx & Hr); [lia|lia|done|done|].
  assert (∃ r' x', (if metadataOnly then Some (r, meta) else
      '(r, content) ← content_loop 2 turns 0 network s r cacheDeadline0 0;
      mret (r, match content, meta with
               | Err _, Ok metaresult => Ok metaresult
               | Ok contentResult, Ok metaresult => Ok (CompositeResult metaresult contentResult)
               | content, _ => content
               end)) = Some (r', x') ∧
    (x' = meta ∨ x' = x ∨ ∃ a b, meta = Ok a ∧ x = Ok b ∧ x' = Ok (CompositeResult a b))) as (r2 & x' & Hs & Hx').
  { destruct metadataOnly; [eauto 6|]. rewrite Hc. cbn [mbind option_bind].
    do 2 eexists; split; [done|]. destruct x, meta; eauto 8. }
  destruct meta as [m|e|p]; [| |by exists r, (Panic p)]; exists r2, x'; (split; [done|]);
    destruct Hx' as [-> | [-> | (a & b & [= <-] & -> & ->)]].
  - split; [done|]. intros result [= <-]. left. by apply Hm.
  - split; [done|]. naive_solver.
  - split; [done|]. intros result [= <-]. right; right.
    destruct (Hm _ eq_refl) as [d ->], (Hr _ eq_refl) as (p & d' & ->). by exists d, p, d'.
  - split; [|done]. intros [= ->]. by eapply He'.
  - split; [done|]. naive_solver.
Qed.

(** C32: a reader that was sniffed loses no byte.  Whatever sniffing and reading
    calls are made, in any order, what the reads hand on followed by what is
    still cached is what the reader below gave, in order and once. *)
Theorem cached_reader_lossless `{RS : !ReaderSpec} rd ops :
  given rd = "" →
  let '(r, out) := read_all (mkCachedReader rd "") ops in out +:+ cr_cache r = given (cr_reader r).
Proof.
  intros H0. assert (∀ r out, accounted out r →
    accounted (out +:+ (read_all r ops).2) (read_all r ops).1) as Ha.
  { induction ops as [|op ops IH]; intros r out Hr; cbn [read_all].
    - by rewrite string_app_nil_r.
    - pose proof (read_step_accounted out r op Hr) as Hs. destruct (read_step r op) as [r1 b].
      specialize (IH _ _ Hs). cbn [fst snd] in IH. destruct (read_all r1 ops) as [r2 bs].
      cbn [fst snd] in *. by rewrite string_app_assoc. }
  specialize (Ha (mkCachedReader rd "") ""). unfold accounted in Ha. cbn [cr_reader cr_cache] in Ha.
  destruct (read_all _ ops) as [r out]. by apply Ha.
Qed.

(** A sniffer that asks for more data is dropped like one that failed: when the
    others fail, the connection is given up with its first bytes. *)
Lemma need_more_data_gives_up target payload e1 e2 :
  SniffHTTP (Some payload) = Err (OtherError e1) → SniffTLS (Some payload) = Err ErrProtoNeedMoreData →
  SniffBittorrent (Some payload) = Err (OtherError e2) →
  (Sniff (NewSniffer None target) payload Network_TCP).2 = Err errUnknownContent.
Proof.
  intros Hh Ht Hb. unfold NewSniffer, content_sniffers, Sniff. cbn. unfold lib_sniffer.
  by rewrite Hh, Ht, Hb.
Qed.
End properties.

(** * Witnesses *)
#[local] Instance wit_net : NetLib := {|
  Address := string; ParseAddress := λ s, s; is_IP := λ a, HasPrefix a "1"; is_Domain := λ a, negb (HasPrefix a "1");
  address_Domain := λ a, a; IP_String := λ a, a;
|}.
#[local] Instance wit_sniff : SniffLib := {|
  SniffHTTP := λ b, if decide (b = Some "GET") then Err ErrNoClue else Ok (Some ("http1", "example.org"));
  SniffTLS := λ _, Err (OtherError "not tls"); SniffBittorrent := λ _, Err (OtherError "not bittorrent");
  SniffQUIC := λ _, Err ErrNoClue; SniffUTP := λ _, Err ErrNoClue;
|}.
(** A reader is the bytes given and those still to come, four at a time. *)
#[local] Instance wit_reader : ReaderLib := {|
  Rd := string * list string;
  rd_ReadMultiBuffer := λ r, match r.2 with [] => (r, inl "EOF") | b :: l => ((r.1 +:+ b, l), inr b) end;
  rd_ReadMultiBufferTimeout := λ _ r, match r.2 with [] => (r, inl "timeout") | b :: l => ((r.1 +:+ b, l), inr b) end;
  rd_Interrupt := λ r, r; payload_Cap := 64;
|}.
#[local] Instance wit_spec : ReaderSpec.
Proof.
  refine {| given := λ r : Rd, (r : string * list string).1 |}.
  - intros [g [|b l]]; reflexivity.
  - intros t [g [|b l]]; reflexivity.
Defined.
Definition wit_fdns : FakeDNSEngine :=
  mkFakeDNSEngine _ (λ a, if decide (a = "198.18.0.1") then "fake.example" else "") (Some (λ _, true)).
Definition wit_rd : Rd := ("", ["GET"; " /"]).
Definition wit_target : Destination := mkDestination ("198.18.0.1" : Address) Network_TCP 80.

Lemma sniffer_results_witness :
  ∃ r, sniffer (Some wit_fdns) wit_target (λ _, mkTurn None 1000) (mkCachedReader wit_rd "")
         false Network_TCP =
       Some (r, Ok (compositeResult (fakeDNSSniffResult "fake.example") (LibResult "http1" "example.org"))).
Proof.
  destruct (sniffer_results (Some wit_fdns) wit_target (λ _, mkTurn None 1000)
    (mkCachedReader wit_rd "") false Network_TCP) as (r & x & H & _ & _); [discriminate|].
  exists r. rewrite H. f_equal. f_equal. revert H. vm_compute. by intros [= <- <-].
Defined.

Lemma cached_reader_lossless_witness :
  (read_all (mkCachedReader wit_rd "") [OpCache 1; OpRead; OpRead]).2 = "GET /".
Proof.
  pose proof (cached_reader_lossless wit_rd [OpCache 1; OpRead; OpRead] eq_refl) as H.
  destruct (read_all _ _) as [r out] eqn:E. revert E H. vm_compute. by intros [= <- <-].
Defined.
