(* ===== verification/Dispatcher.v ===== *)
(** Connections through the xray core: of src/core/xray/app/dispatcher,
    default.go ([getLink], [Dispatch], [DispatchLink], [routedDispatch]), over
    the sniffing of Sniff, and src/common/rate.

    The dispatcher shares its state with the core: the counters, the link
    managers and the pipes are those of XrayCore, the limiters those of Limiter.
    xray-core's router and outbound manager are parameters ([RoutingLib]).  The
    wrappers around a pipe are values; a pipe is a number, and a connection's
    two pipes are numbered by its caller. *)

From S2P Require Import Prelude GoStd GoText Conf Panel Counter Traffic Limiter Core XrayCore Sniff.
From stdpp Require Import prelude gmap strings.
From Stdlib Require Import Ascii ZArith Lia.

Open Scope string_scope.

(** * Writers and readers *)
Section link.
Context `{RL : RatelimitLib}.

(** The end of a pipe, the entry of a user's link manager, the rate limiter and
    xray-core's counting writer. *)
Inductive Writer : Type :=
| PipeWriter (p : nat)
| ManagedWriter (key : string) (w : Writer)
| RateLimitWriter (w : Writer) (limiter : Bucket)
| SizeStatWriter (up : bool) (counter : loc) (w : Writer).

(** A counting reader has an identity of its own: it cannot be interrupted. *)
Inductive Reader : Type :=
| PipeReader (p : nat)
| CachedReader (r : Reader)
| CounterReader (id : nat) (counter : loc) (r : Reader).

Record Link := mkLink { lk_Reader : Reader; lk_Writer : Writer }.

Fixpoint pipe_of (w : Writer) : nat :=
  match w with
  | PipeWriter p => p
  | ManagedWriter _ w | RateLimitWriter w _ | SizeStatWriter _ _ w => pipe_of w
  end.

(** ** Writing n bytes: what is counted, and the waits for tokens before the
    bytes reach the pipe (src/common/rate/writer.go). *)
Fixpoint WriteMultiBuffer (w : Writer) (n : Z) (h : heap) : heap * list (Bucket * Z) :=
  match w with
  | PipeWriter _ => (h, [])
  | ManagedWriter _ w => WriteMultiBuffer w n h
  | RateLimitWriter w limiter =>
      let '(h, waits) := WriteMultiBuffer w n h in (h, (limiter, n) :: waits)
  | SizeStatWriter up l w => WriteMultiBuffer w n (if up then up_Add h l n else down_Add h l n)
  end.

(** src/common/rate/conn.go: a limited connection waits after the transfer, for
    what was moved. *)
Record Conn := mkConn { cn_limiter : Bucket }.
Definition NewConnRateLimiter (l : Bucket) : Conn := mkConn l.
Definition conn_wait (c : Conn) (n : Z) : list (Bucket * Z) :=
  if decide (0 < n)%Z then [(cn_limiter c, n)] else [].
Definition Conn_Read (c : Conn) (result : Z * option string) : (Z * option string) * list (Bucket * Z) :=
  (result, conn_wait c result.1).
Definition Conn_Write (c : Conn) (result : Z * option string) : (Z * option string) * list (Bucket * Z) :=
  (result, conn_wait c result.1).

(** ** common.Close and common.Interrupt *)
Definition close_pipe (p : nat) (x : pipes) : pipes :=
  mkPipes ({[p]} ∪ closed_writers x) (interrupted_readers x).
Definition interrupt_reader (id : nat) (x : pipes) : pipes :=
  mkPipes (closed_writers x) ({[id]} ∪ interrupted_readers x).

Definition links : Type := gmap string LinkManager * pipes.

Fixpoint Close (w : Writer) (x : links) : links :=
  match w with
  | PipeWriter p => (x.1, close_pipe p x.2)
  | ManagedWriter key w => Close w (alter (RemoveWriter (pipe_of w)) key x.1, x.2)
  | RateLimitWriter w _ | SizeStatWriter _ _ w => Close w x
  end.

(** The reader that takes the interruption, if one does. *)
Definition interrupted (r : Reader) : option nat :=
  match r with
  | PipeReader p => Some p
  | CachedReader (PipeReader p) => Some p
  | CachedReader _ => None
  | CounterReader _ _ _ => None
  end.
Definition Interrupt (r : Reader) (x : links) : links :=
  match interrupted r with Some p => (x.1, interrupt_reader p x.2) | None => x end.

Definition close_link (k : Link) (x : links) : links := Interrupt (lk_Reader k) (Close (lk_Writer k) x).
End link.

(** * Sessions *)
Section session.
Context `{NL : NetLib}.

Record SessionInbound := mkSessionInbound {
  si_Tag : string;
  si_SourceIP : string;
  si_SourceNetwork : Network;
  si_User : option string;           (* the e-mail of the user *)
  si_CanSpliceCopy : Z;
}.
Record SessionOutbound := mkSessionOutbound {
  ob_OriginalTarget : option Destination;
  ob_Target : option Destination;
  ob_RouteTarget : option Destination;
  ob_Tag : string;
}.
Record Content := mkContent { ct_SniffingRequest : SniffingRequest; ct_Protocol : string }.
Record Session := mkSession {
  sn_Inbound : option SessionInbound;
  sn_Outbounds : list SessionOutbound;
  sn_Content : option Content;
  sn_ForcedOutboundTag : string;
  sn_Detour : option string;         (* of the access message, when there is one *)
}.

Definition Outbound_zero : SessionOutbound := mkSessionOutbound None None None "".
Definition Content_zero : Content := mkContent (mkSniffingRequest [] [] false false false) "".

Definition sn_with_Inbound i (s : Session) :=
  mkSession i (sn_Outbounds s) (sn_Content s) (sn_ForcedOutboundTag s) (sn_Detour s).
Definition sn_with_Outbounds o (s : Session) :=
  mkSession (sn_Inbound s) o (sn_Content s) (sn_ForcedOutboundTag s) (sn_Detour s).
Definition sn_with_Content c (s : Session) :=
  mkSession (sn_Inbound s) (sn_Outbounds s) c (sn_ForcedOutboundTag s) (sn_Detour s).
Definition sn_with_Forced f (s : Session) :=
  mkSession (sn_Inbound s) (sn_Outbounds s) (sn_Content s) f (sn_Detour s).
Definition sn_with_Detour d (s : Session) :=
  mkSession (sn_Inbound s) (sn_Outbounds s) (sn_Content s) (sn_ForcedOutboundTag s) d.
Definition si_with_CanSpliceCopy c (i : SessionInbound) :=
  mkSessionInbound (si_Tag i) (si_SourceIP i) (si_SourceNetwork i) (si_User i) c.

(** The last of the outbounds, [ob]. *)
Fixpoint update_last {A} (f : A → A) (l : list A) : list A :=
  match l with [] => [] | [a] => [f a] | a :: l => a :: update_last f l end.

Definition set_target (destination : Destination) (s : Session) : Session :=
  let outbounds := match sn_Outbounds s with [] => [Outbound_zero] | l => l end in
  let s := sn_with_Outbounds (update_last (λ ob,
    mkSessionOutbound (Some destination) (Some destination) (ob_RouteTarget ob) (ob_Tag ob)) outbounds) s in
  match sn_Content s with Some _ => s | None => sn_with_Content (Some Content_zero) s end.

(** The user whose limits apply. *)
Definition limited_user (i : option SessionInbound) : option (SessionInbound * string) :=
  match i with
  | Some si => match si_User si with
               | Some email => if decide (email = "") then None else Some (si, email)
               | None => None
               end
  | None => None
  end.
End session.

(** xray-core's router and outbound manager.  The router gives the tag of the
    outbound and of the rule, or that no rule applies. *)
Class RoutingLib `{NetLib} := {
  OutHandler : Type;
  GetHandler : string → option OutHandler;
  GetDefaultHandler : option OutHandler;
  handler_Tag : OutHandler → string;
  router : option (Session → res string (string * string));
  dest_IsValid : Destination → bool;
}.

(** * The dispatcher *)
Section dispatcher.
Context `{XL : XrayLib} `{RL : RatelimitLib} `{RE : RegexpLib}.
Context `{NL : NetLib} `{RtL : !RoutingLib} `{SL : SniffLib} `{RdL : ReaderLib}.

Record Dispatcher := mkDispatcher { ds_core : Xray; ds_limiters : registry }.

Definition ds_with_core x (d : Dispatcher) := mkDispatcher x (ds_limiters d).
Definition ds_with_limiters r (d : Dispatcher) := mkDispatcher (ds_core d) r.
Definition on_links (f : links → links) (d : Dispatcher) : Dispatcher :=
  let '(l, p) := f (xr_LinkManagers (ds_core d), xr_pipes (ds_core d)) in
  ds_with_core (xr_with_links l p (ds_core d)) d.

(** The limiter of the inbound, asked about the user. *)
Definition ask_limiter (now : Z) (si : SessionInbound) (email : string) (network : Network) (d : Dispatcher)
    : Dispatcher * res string (nat * option Bucket) :=
  match GetLimiter (ds_limiters d) (si_Tag si) with
  | Err e => (d, Err ("get limiter " +:+ si_Tag si +:+ " error: " +:+ e))
  | Panic p => (d, Panic p)
  | Ok p =>
      match reg_heap (ds_limiters d) !! p with
      | None => (d, nil_pointer)
      | Some l =>
          let '(l, w, reject) := CheckLimit now email (si_SourceIP si)
            (bool_decide (network = Network_TCP)) (bool_decide (si_SourceNetwork si = Network_TCP)) l in
          let d := ds_with_limiters (mkRegistry (<[p := l]> (reg_heap (ds_limiters d)))
                     (reg_map (ds_limiters d))) d in
          (d, if reject : bool then Err ("Limited " +:+ email +:+ " by conn or ip") else Ok (p, w))
      end
  end.

Definition add_link (key : string) (writer reader : nat) (d : Dispatcher) : Dispatcher :=
  on_links (λ x, (<[key := AddLink writer reader (default ∅ (x.1 !! key))]> x.1, x.2)) d.

Definition user_counter (tag email : string) (d : Dispatcher) : Dispatcher * loc :=
  let x := ds_core d in
  let t := default NewTrafficCounter (xr_Counter x !! tag) in
  let '(h, t, ts) := GetCounter (xr_heap x) t email in
  (ds_with_core (xr_with_counters h (<[tag := t]> (xr_Counter x)) x) d, ts).

Definition limit_writer (w : option Bucket) (x : Writer) : Writer :=
  match w with Some b => RateLimitWriter x b | None => x end.
Definition splice_off (w : option Bucket) (si : SessionInbound) : SessionInbound :=
  match w with Some _ => si_with_CanSpliceCopy 3 si | None => si end.

Definition getLink (now : Z) (up down : nat) (si : option SessionInbound) (network : Network)
    (d : Dispatcher) : Dispatcher * option SessionInbound * res string (Link * Link * option nat) :=
  let inboundLink := mkLink (PipeReader down) (PipeWriter up) in
  let outboundLink := mkLink (PipeReader up) (PipeWriter down) in
  match limited_user si with
  | None => (d, si, Ok (inboundLink, outboundLink, None))
  | Some (i, email) =>
      match ask_limiter now i email network d with
      | (d, Err e) =>
          let d := on_links (Close (lk_Writer outboundLink)) d in
          let d := on_links (Close (lk_Writer inboundLink)) d in
          let d := on_links (Interrupt (lk_Reader outboundLink)) d in
          let d := on_links (Interrupt (lk_Reader inboundLink)) d in
          (d, si, Err e)
      | (d, Panic p) => (d, si, Panic p)
      | (d, Ok (limit, w)) =>
          let managedWriter := ManagedWriter email (lk_Writer inboundLink) in
          let d := add_link email (pipe_of managedWriter) up d in
          let i := splice_off w i in
          let '(d, ts) := user_counter (si_Tag i) email d in
          (d, Some i,
           Ok (mkLink (lk_Reader inboundLink) (SizeStatWriter true ts (limit_writer w managedWriter)),
               mkLink (lk_Reader outboundLink) (SizeStatWriter false ts (limit_writer w (lk_Writer outboundLink))),
               Some limit))
      end
  end.

(** ** routedDispatch *)
Definition rules_reject (l : Limiter) (destination : Destination) (protocol : string) : bool :=
  let a := d_Address destination in
  CheckDomainRule l (if is_Domain a then address_Domain a else IP_String a) ||
  (negb (String.eqb protocol "") && CheckProtocolRule l protocol).

(** The limiter that was passed or else the one of the inbound; none after an
    error. *)
Definition dispatch_limiter (d : Dispatcher) (si : SessionInbound) (l : option nat) : option nat :=
  match l with
  | Some p => Some p
  | None => match GetLimiter (ds_limiters d) (si_Tag si) with Ok p => Some p | _ => None end
  end.

(** The handler and how it was picked, or a tag without a handler. *)
Inductive pick : Type :=
| Picked (handler : option OutHandler) (isPickRoute : Z)
| NoSuchTag.

Definition pick_handler (s : Session) : Session * res string pick :=
  if decide (sn_ForcedOutboundTag s ≠ "") then
    (sn_with_Forced "" s,
     Ok match GetHandler (sn_ForcedOutboundTag s) with
        | Some h => Picked (Some h) 1
        | None => NoSuchTag
        end)
  else
    (s,
     match router with
     | None => Ok (Picked None 0)
     | Some PickRoute =>
         match PickRoute s with
         | Ok (outTag, _) => Ok match GetHandler outTag with
                                | Some h => Picked (Some h) 2
                                | None => NoSuchTag
                                end
         | Err _ => Ok (Picked None 0)
         | Panic p => Panic p
         end
     end).

Definition detour (inTag tag : string) (isPickRoute : Z) : string :=
  if decide (inTag = "") then tag
  else if decide (isPickRoute = 1%Z) then inTag +:+ " ==> " +:+ tag
  else if decide (isPickRoute = 2%Z) then inTag +:+ " -> " +:+ tag
  else inTag +:+ " >> " +:+ tag.

Definition take_handler (handler : OutHandler) (inTag : string) (isPickRoute : Z) (s : Session) : Session :=
  let tag := handler_Tag handler in
  let s := sn_with_Outbounds (update_last (λ ob,
    mkSessionOutbound (ob_OriginalTarget ob) (ob_Target ob) (ob_RouteTarget ob) tag) (sn_Outbounds s)) s in
  match sn_Detour s with
  | Some _ => if decide (tag = "") then s else sn_with_Detour (Some (detour inTag tag isPickRoute)) s
  | None => s
  end.

(** The handler the connection is given to, or none when it is closed. *)
Definition routedDispatch (s : Session) (link : Link) (destination : Destination) (l : option nat)
    (protocol : string) (d : Dispatcher) : Dispatcher * Session * res string (option OutHandler) :=
  match sn_Outbounds s, sn_Inbound s with
  | [], _ => (d, s, Panic "index out of range")
  | _, None => (d, s, nil_pointer)
  | _, Some si =>
      let rejected :=
        match si_User si, dispatch_limiter d si l with
        | Some _, Some p => match reg_heap (ds_limiters d) !! p with
                            | Some lim => Ok (rules_reject lim destination protocol)
                            | None => nil_pointer
                            end
        | _, _ => Ok false
        end in
      match rejected with
      | Panic p => (d, s, Panic p)
      | Err e => (d, s, Err e)
      | Ok true => (on_links (close_link link) d, s, Ok None)
      | Ok false =>
          match pick_handler s with
          | (s, Ok NoSuchTag) => (on_links (close_link link) d, s, Ok None)
          | (s, Ok (Picked handler isPickRoute)) =>
              match (match handler with Some h => Some h | None => GetDefaultHandler end) with
              | None => (on_links (close_link link) d, s, Ok None)
              | Some h => (d, take_handler h (si_Tag si) isPickRoute s, Ok (Some h))
              end
          | (s, Err e) => (d, s, Err e)
          | (s, Panic p) => (d, s, Panic p)
          end
      end
  end.

(** ** Sniffing and routing

    What a result that overrides does: the destination becomes the sniffed
    domain, which the outbound takes as its target or, for routing only, as its
    route's target.  [isFakeIP] is the test of the old target. *)
Definition override_target (isFakeIP : Destination → bool) (request : SniffingRequest)
    (result : SniffResult) (destination : Destination) (s : Session) : Destination * Session :=
  let destination := mkDestination (ParseAddress (Domain result)) (d_Network destination) (d_Port destination) in
  let protocol := protocol_for_domain result in
  (destination,
   sn_with_Outbounds (update_last (λ ob,
     let fake := match ob_Target ob with Some t => isFakeIP t | None => false end in
     if sr_RouteOnly request && negb (String.eqb protocol "fakedns") &&
        negb (String.eqb protocol "fakedns+others") && negb fake
     then mkSessionOutbound (ob_OriginalTarget ob) (ob_Target ob) (Some destination) (ob_Tag ob)
     else mkSessionOutbound (ob_OriginalTarget ob) (Some destination) (ob_RouteTarget ob) (ob_Tag ob))
     (sn_Outbounds s)) s).

(** A connection to be sniffed when its inbound asks for it, and routed. *)
Record Task := mkTask {
  tk_Session : Session;
  tk_outbound : Link;
  tk_destination : Destination;
  tk_limiter : option nat;
}.

Definition ct_with_Protocol p (c : Content) := mkContent (ct_SniffingRequest c) p.

(** [turns] and [rd] are what the sniffing meets: whether the context is done
    and how long each read takes, and the reader of the connection. *)
Definition sniff_and_route (fdns : option FakeDNSEngine) (isFakeIP : Destination → bool)
    (turns : nat → turn) (rd : Rd) (t : Task) (d : Dispatcher)
    : Dispatcher * Session * res string (option OutHandler) :=
  let s := tk_Session t in
  let content := default Content_zero (sn_Content s) in
  let request := ct_SniffingRequest content in
  let destination := tk_destination t in
  if negb (sr_Enabled request) then
    routedDispatch s (tk_outbound t) destination (tk_limiter t) "" d
  else
    let outbound := mkLink (CachedReader (lk_Reader (tk_outbound t))) (lk_Writer (tk_outbound t)) in
    match sniffer fdns destination turns (mkCachedReader rd "") (sr_MetadataOnly request) (d_Network destination) with
    | None => (d, s, Panic "sniffing does not end")      (* not so: [sniffer_results] *)
    | Some (_, Panic p) => (d, s, Panic p)
    | Some (_, Err _) => routedDispatch s outbound destination (tk_limiter t) (ct_Protocol content) d
    | Some (_, Ok result) =>
        let content := ct_with_Protocol (Protocol result) content in
        let s := sn_with_Content (Some content) s in
        let '(destination, s) :=
          if shouldOverride fdns result request destination
          then override_target isFakeIP request result destination s else (destination, s) in
        routedDispatch s outbound destination (tk_limiter t) (ct_Protocol content) d
    end.

(** [Dispatch] gives the inbound its link and leaves the rest to a goroutine. *)
Definition Dispatch (now : Z) (up down : nat) (destination : Destination) (s : Session) (d : Dispatcher)
    : Dispatcher * Session * res string (Link * Task) :=
  if negb (dest_IsValid destination) then (d, s, Panic "Dispatcher: Invalid destination.")
  else
    let s := set_target destination s in
    let '(d, si, r) := getLink now up down (sn_Inbound s) (d_Network destination) d in
    let s := sn_with_Inbound si s in
    match r with
    | Ok (inbound, outbound, l) => (d, s, Ok (inbound, mkTask s outbound destination l))
    | Err e => (d, s, Err e)
    | Panic p => (d, s, Panic p)
    end.

Definition dispatch_fake_ip (fdns : option FakeDNSEngine) (t : Destination) : bool :=
  is_IP (d_Address t) && in_fake_pool fdns (d_Address t).
Definition dispatch_task (fdns : option FakeDNSEngine) := sniff_and_route fdns (dispatch_fake_ip fdns).

(** The link of a caller: [id] is the identity of the reader that is made. *)
Definition limit_link (now : Z) (id : nat) (destination : Destination) (si : option SessionInbound)
    (outbound : Link) (d : Dispatcher) : Dispatcher * option SessionInbound * res string (Link * option nat) :=
  match limited_user si with
  | None => (d, si, Ok (outbound, None))
  | Some (i, email) =>
      match ask_limiter now i email (d_Network destination) d with
      | (d, Err e) => (on_links (close_link outbound) d, si, Err e)
      | (d, Panic p) => (d, si, Panic p)
      | (d, Ok (limit, w)) =>
          let managedWriter := ManagedWriter email (lk_Writer outbound) in
          let i := splice_off w i in
          let '(d, ts) := user_counter (si_Tag i) email d in
          let d := add_link email (pipe_of managedWriter) id d in
          (d, Some i,
           Ok (mkLink (CounterReader id ts (lk_Reader outbound))
                 (SizeStatWriter false ts (limit_writer w managedWriter)), Some limit))
      end
  end.

Definition DispatchLink (fdns : option FakeDNSEngine) (now : Z) (id : nat) (turns : nat → turn) (rd : Rd)
    (destination : Destination) (outbound : Link) (s : Session) (d : Dispatcher)
    : Dispatcher * Session * res string (option OutHandler) :=
  if negb (dest_IsValid destination) then (d, s, Err "Dispatcher: Invalid destination.")
  else
    let s := set_target destination s in
    let '(d, si, r) := limit_link now id destination (sn_Inbound s) outbound d in
    let s := sn_with_Inbound si s in
    match r with
    | Ok (outbound, limit) =>
        sniff_and_route fdns (λ t, in_fake_pool fdns (d_Address t)) turns rd
          (mkTask s outbound destination limit) d
    | Err e => (d, s, Err e)
    | Panic p => (d, s, Panic p)
    end.
End dispatcher.

(** * Lemmas *)
Section lemmas.
Context `{XL : XrayLib} `{RL : RatelimitLib} `{RE : RegexpLib}.
Context `{NL : NetLib} `{RtL : !RoutingLib} `{SL : SniffLib} `{RdL : ReaderLib}.

Lemma UserTag_nonempty tag u : UserTag tag u ≠ "".
Proof. unfold UserTag. by destruct tag. Qed.

Lemma limited_user_Some si email :
  si_User si = Some email → email ≠ "" → limited_user (Some si) = Some (si, email).
Proof. unfold limited_user. intros ->. by case_decide. Qed.

Lemma limited_user_inv o si email :
  limited_user o = Some (si, email) → o = Some si ∧ si_User si = Some email ∧ email ≠ "".
Proof.
  unfold limited_user. destruct o as [i|]; [|done]. destruct (si_User i) eqn:Hu; [|done].
  case_decide; [done|]. by intros [= -> ->].
Qed.

(** The limiter is all that is asked, and changed. *)
Lemma ask_limiter_core now si email network d d' r : ask_limiter now si email network d = (d', r) → ds_core d' = ds_core d.
Proof.
  unfold ask_limiter. destruct (GetLimiter _ _) as [p|e|p]; [|by intros [= <- _]..].
  destruct (reg_heap _ !! p) as [l|]; [|by intros [= <- _]].
  destruct (CheckLimit _ _ _ _ _ l) as [[l' w] reject]. by intros [= <- _].
Qed.

Lemma update_last_last {A} (f : A → A) l a : last l = Some a → last (update_last f l) = Some (f a).
Proof.
  induction l as [|x l IH]; [done|]. destruct l as [|y l]; [by intros [= <-]|].
  intros Hl. cbn [update_last]. rewrite !last_cons_cons in *.
  specialize (IH Hl). by destruct l.
Qed.

Lemma last_nonempty {A} (l : list A) : l ≠ [] → is_Some (last l).
Proof. induction l as [|a [|b l] IH]; [done|by eexists|]. intros _. by apply IH. Qed.

Lemma set_target_last dst s :
  ∃ ob, last (sn_Outbounds (set_target dst s)) = Some ob ∧
    ob_OriginalTarget ob = Some dst ∧ ob_Target ob = Some dst.
Proof.
  assert (∀ s, sn_Outbounds (match sn_Content s with Some _ => s | None => sn_with_Content (Some Content_zero) s end)
    = sn_Outbounds s) as Hc by (intros s0; by destruct (sn_Content s0)).
  unfold set_target. rewrite Hc. cbn [sn_Outbounds sn_with_Outbounds].
  destruct (last_nonempty (match sn_Outbounds s with [] => [Outbound_zero] | l => l end)) as [ob Hob];
    [by destruct (sn_Outbounds s)|].
  eexists. split; [by apply update_last_last|done].
Qed.

Lemma pick_handler_Picked s s' h n :
  pick_handler s = (s', Ok (Picked h n)) →
  sn_Outbounds s' = sn_Outbounds s ∧
  (sn_ForcedOutboundTag s ≠ "" → ∃ x, h = Some x ∧ GetHandler (sn_ForcedOutboundTag s) = Some x) ∧
  (sn_ForcedOutboundTag s = "" → ∀ R tag rule, router = Some R → R s = Ok (tag, rule) →
     ∃ x, h = Some x ∧ GetHandler tag = Some x) ∧
  (sn_ForcedOutboundTag s = "" → (∀ R, router = Some R → is_ok (R s) = false) → h = None).
Proof.
  unfold pick_handler. case_decide.
  - destruct (GetHandler _) as [x|] eqn:Hg; [|done]. intros [= <- <- _]. split_and!; naive_solver.
  - destruct router as [R|] eqn:HR.
    + destruct (R s) as [[outTag rule]|e|p] eqn:Hr; [| |done].
      * destruct (GetHandler outTag) as [x|] eqn:Hg; [|done]. intros [= <- <- _].
        split_and!; [done|done| |]; intros _.
        -- intros R' tag rule' [= <-]. rewrite Hr. intros [= <- <-]. eauto.
        -- intros HR'. specialize (HR' R eq_refl). by rewrite Hr in HR'.
      * intros [= <- <- _]. split_and!; [done|done| |done]. intros _ R' tag rule [= <-]. by rewrite Hr.
    + intros [= <- <- _]. split_and!; done.
Qed.

(** What the routing takes from a session and leaves of it. *)
Lemma routedDispatch_Some s link dst l proto d d' s' h :
  routedDispatch s link dst l proto d = (d', s', Ok (Some h)) →
  d' = d ∧ (∃ si, sn_Inbound s = Some si ∧
    (is_Some (si_User si) → ∀ p lim, dispatch_limiter d si l = Some p →
      reg_heap (ds_limiters d) !! p = Some lim → rules_reject lim dst proto = false)) ∧
  (∃ s1 n h0, pick_handler s = (s1, Ok (Picked h0 n)) ∧
     (match h0 with Some x => Some x | None => GetDefaultHandler end) = Some h) ∧
  ∃ f, (∀ ob, ob_OriginalTarget (f ob) = ob_OriginalTarget ob ∧ ob_Target (f ob) = ob_Target ob ∧
      ob_RouteTarget (f ob) = ob_RouteTarget ob ∧ ob_Tag (f ob) = handler_Tag h) ∧
    sn_Outbounds s' = update_last f (sn_Outbounds s).
Proof.
  unfold routedDispatch. destruct (sn_Outbounds s) as [|ob0 obs] eqn:Ho; [done|].
  destruct (sn_Inbound s) as [si|]; [|done].
  set (rejected := match si_User si with Some _ => _ | None => _ end).
  assert (rejected = Ok false → is_Some (si_User si) → ∀ p lim, dispatch_limiter d si l = Some p →
      reg_heap (ds_limiters d) !! p = Some lim → rules_reject lim dst proto = false) as Hrej.
  { subst rejected. intros Hr [u Hu] p lim Hp Hlim. rewrite Hu, Hp, Hlim in Hr. congruence. }
  destruct rejected as [[]|e|p]; [done| |done..].
  destruct (pick_handler s) as [s1 [[h0 n|]|e|p]] eqn:Hp; [|done..].
  pose proof (pick_handler_Picked _ _ _ _ Hp) as (Hob & _).
  destruct (match h0 with Some _ => _ | None => _ end) as [x|] eqn:Hx; [|done].
  intros [= <- <- <-]. split; [done|]. split; [eauto|]. split; [eauto 6|].
  eexists. split; [|unfold take_handler; cbn [sn_Detour sn_Outbounds sn_with_Outbounds];
    repeat case_match; cbn [sn_Outbounds sn_with_Detour]; by rewrite Hob, Ho]. done.
Qed.

Lemma on_links_parts f d :
  xr_LinkManagers (ds_core (on_links f d)) = (f (xr_LinkManagers (ds_core d), xr_pipes (ds_core d))).1 ∧
  xr_pipes (ds_core (on_links f d)) = (f (xr_LinkManagers (ds_core d), xr_pipes (ds_core d))).2 ∧
  xr_Counter (ds_core (on_links f d)) = xr_Counter (ds_core d) ∧
  xr_heap (ds_core (on_links f d)) = xr_heap (ds_core d) ∧
  xr_uidMap (ds_core (on_links f d)) = xr_uidMap (ds_core d) ∧ ds_limiters (on_links f d) = ds_limiters d.
Proof. unfold on_links. by destruct (f _). Qed.

(** The counter of a user is there, in the node's table. *)
Lemma user_counter_spec tag email d :
  let '(d', ts) := user_counter tag email d in
  xr_LinkManagers (ds_core d') = xr_LinkManagers (ds_core d) ∧ xr_pipes (ds_core d') = xr_pipes (ds_core d) ∧
  ∃ c, xr_Counter (ds_core d') !! tag = Some c ∧ c !! email = Some ts.
Proof.
  unfold user_counter, GetCounter, LoadOrStore.
  destruct (default NewTrafficCounter (xr_Counter (ds_core d) !! tag) !! email) as [l|] eqn:Hc; cbn;
    (split; [done|]; split; [done|]; rewrite lookup_insert_eq; eexists; split; [done|]).
  - done.
  - by rewrite lookup_insert_eq.
Qed.

Lemma splice_off_Tag w si : si_Tag (splice_off w si) = si_Tag si.
Proof. by destruct w. Qed.

(** A user's link, when he is let in. *)
Lemma getLink_user now up down si email network d d' si' i o lim :
  getLink now up down (Some si) network d = (d', si', Ok (i, o, lim)) →
  si_User si = Some email → email ≠ "" →
  ∃ p w ts c, (ask_limiter now si email network d).2 = Ok (p, w) ∧ lim = Some p ∧ si' = Some (splice_off w si) ∧
    i = mkLink (PipeReader down) (SizeStatWriter true ts (limit_writer w (ManagedWriter email (PipeWriter up)))) ∧
    o = mkLink (PipeReader up) (SizeStatWriter false ts (limit_writer w (PipeWriter down))) ∧
    xr_LinkManagers (ds_core d') !! email =
      Some (<[up := up]> (default ∅ (xr_LinkManagers (ds_core d) !! email))) ∧
    xr_Counter (ds_core d') !! si_Tag si = Some c ∧ c !! email = Some ts.
Proof.
  intros H Hu Hne. revert H. unfold getLink. rewrite (limited_user_Some si email) by done.
  destruct (ask_limiter now si email network d) as [d1 [[p w]|e|q]] eqn:Ha; [|done..].
  apply ask_limiter_core in Ha. cbn [pipe_of lk_Writer lk_Reader]. rewrite splice_off_Tag.
  set (d2 := add_link email up up d1). pose proof (user_counter_spec (si_Tag si) email d2) as Hc.
  destruct (user_counter (si_Tag si) email d2) as [d3 ts]. destruct Hc as (Hl & _ & c & Hc & Hts).
  intros [= <- <- <- <- <-]. exists p, w, ts, c. split_and!; try done.
  rewrite Hl. subst d2. unfold add_link. rewrite (proj1 (on_links_parts _ _)). cbn [fst].
  rewrite lookup_insert_eq. unfold AddLink. by rewrite Ha.
Qed.
End lemmas.

(** * Properties *)
Section properties.
Context `{XL : XrayLib} `{RO : RangeOrder} `{RL : RatelimitLib} `{RE : RegexpLib}.
Context `{NL : NetLib} `{RtL : !RoutingLib} `{SL : SniffLib} `{RdL : ReaderLib}.

(** A user who is not let in leaves no trace but in his limiter: both pipes of
    the connection are closed and interrupted, and no counter, no table of
    links and no other pipe has changed. *)
Theorem getLink_refused now up down si network d d' si' e :
  getLink now up down si network d = (d', si', Err e) →
  si' = si ∧ xr_Counter (ds_core d') = xr_Counter (ds_core d) ∧
  xr_heap (ds_core d') = xr_heap (ds_core d) ∧ xr_LinkManagers (ds_core d') = xr_LinkManagers (ds_core d) ∧
  closed_writers (xr_pipes (ds_core d')) = {[up; down]} ∪ closed_writers (xr_pipes (ds_core d)) ∧
  interrupted_readers (xr_pipes (ds_core d')) = {[up; down]} ∪ interrupted_readers (xr_pipes (ds_core d)).
Proof.
  unfold getLink. destruct (limited_user si) as [[i email]|]; [|done].
  destruct (ask_limiter now i email network d) as [d1 [[p w]|e1|q]] eqn:Ha; [|intros [= <- <- <-]|done].
  { by destruct (user_counter _ _ _). }
  apply ask_limiter_core in Ha. destruct d1 as [x1 r1]. cbn [ds_core] in Ha. subst x1.
  cbn. split_and!; try done; set_solver.
Qed.


(** Removing a user cuts his connections.  Once a connection of his has a
    link, a successful removal of the user from the node closes the writer of
    the link and interrupts its reader. *)
Theorem removed_user_is_cut now up down si tag u network d d' si' i o lim us info x' :
  getLink now up down (Some si) network d = (d', si', Ok (i, o, lim)) →
  si_User si = Some (UserTag tag u) → u ∈ uuids us →
  Xray_DelUsers us tag info (ds_core d') = (x', Ok tt) →
  pipe_of (lk_Writer i) ∈ closed_writers (xr_pipes x') ∧
  interrupted (lk_Reader o) = Some up ∧ up ∈ interrupted_readers (xr_pipes x').
Proof.
  intros H Hu Hin Hd. destruct (getLink_user _ _ _ _ _ _ _ _ _ _ _ _ H Hu (UserTag_nonempty _ _))
    as (p & w & ts & c & _ & -> & -> & -> & -> & Hl & _).
  apply Xray_DelUsers_forgotten in Hd.
  assert (pipe_of (limit_writer w (ManagedWriter (UserTag tag u) (PipeWriter up))) = up) as Hp by (by destruct w).
  cbn [lk_Writer lk_Reader pipe_of interrupted]. rewrite Hp.
  assert (UserTag tag u ∈ (λ v, UserTag tag (user_Uuid v)) <$> us) as Hk.
  { unfold uuids in Hin. apply list_elem_of_fmap in Hin as (v & -> & Hv). apply list_elem_of_fmap. by exists v. }
  destruct (fg_closed _ _ _ _ Hd _ _ up up Hk Hl (lookup_insert_eq _ _ _)) as [Hc Hi]. by split_and!.
Qed.

(** C23: routing keeps to the rules.  A connection that is given to an outbound
    belongs to an inbound, breaks no rule of the limiter that applies to its
    user, and the outbound is the forced one, else the one the router names,
    else the default; a tag without an outbound never leads to the default.  A
    connection that is given to none is closed. *)
Theorem routedDispatch_sound s link dst l proto d d' s' r :
  routedDispatch s link dst l proto d = (d', s', Ok r) →
  match r with
  | Some h =>
      d' = d ∧
      (∃ si, sn_Inbound s = Some si ∧ (is_Some (si_User si) → ∀ p lim, dispatch_limiter d si l = Some p →
         reg_heap (ds_limiters d) !! p = Some lim → rules_reject lim dst proto = false)) ∧
      (sn_ForcedOutboundTag s ≠ "" → GetHandler (sn_ForcedOutboundTag s) = Some h) ∧
      (sn_ForcedOutboundTag s = "" → ∀ R tag rule, router = Some R → R s = Ok (tag, rule) →
         GetHandler tag = Some h) ∧
      (sn_ForcedOutboundTag s = "" → (∀ R, router = Some R → is_ok (R s) = false) →
         GetDefaultHandler = Some h)
  | None => d' = on_links (close_link link) d
  end.
Proof.
  destruct r as [h|].
  - intros H. apply routedDispatch_Some in H as (-> & Hsi & (s1 & n & h0 & Hp & Hh) & _).
    apply pick_handler_Picked in Hp as (_ & Hf & Hr & Hd). split_and!; [done|done|..].
    + intros Hne. destruct (Hf Hne) as (x & -> & Hx). congruence.
    + intros He R tag rule HR Hok. destruct (Hr He R tag rule HR Hok) as (x & -> & Hx). congruence.
    + intros He HR. by rewrite (Hd He HR) in Hh.
  - unfold routedDispatch. destruct (sn_Outbounds s) as [|ob obs], (sn_Inbound s) as [si|]; try done.
    destruct (match si_User _ with Some _ => _ | None => _ end) as [[]|e|p]; try done.
    + by intros [= <- _].
    + destruct (pick_handler s) as [s1 [[h0 n|]|e|p]]; try done; [|by intros [= <- _]].
      destruct (match h0 with Some _ => _ | None => _ end); [done|by intros [= <- _]].
Qed.

(** C24: what an outbound dials.  After [Dispatch], the outbound that gets the
    connection sees the destination asked for as its original target, and dials
    it unless the domain sniffed replaced it, with the same network and port.
    With sniffing for routing only that happens for fake DNS alone: for its
    results, and for the addresses of its pool. *)
Theorem dispatch_target fdns now up down dst s d d1 s1 inbound t turns rd d2 s2 h :
  Dispatch now up down dst s d = (d1, s1, Ok (inbound, t)) →
  dispatch_task fdns turns rd t d1 = (d2, s2, Ok (Some h)) →
  let request := ct_SniffingRequest (default Content_zero (sn_Content s1)) in
  ∃ ob, last (sn_Outbounds s2) = Some ob ∧ ob_OriginalTarget ob = Some dst ∧ ob_Tag ob = handler_Tag h ∧
    (ob_Target ob = Some dst ∨
     sr_Enabled request = true ∧ ∃ result, shouldOverride fdns result request dst = true ∧
       ob_Target ob = Some (mkDestination (ParseAddress (Domain result)) (d_Network dst) (d_Port dst)) ∧
       (sr_RouteOnly request = true →
        protocol_for_domain result = "fakedns" ∨ protocol_for_domain result = "fakedns+others" ∨
        dispatch_fake_ip fdns dst = true)).
Proof.
  unfold Dispatch. destruct (dest_IsValid dst); [|intros; done]. cbn [negb].
  destruct (getLink _ _ _ _ _ _) as [[d0 si] [[[i o] l]|e|p]]; [|intros; done..]. intros [= -> <- <- <-].
  set (s0 := sn_with_Inbound si (set_target dst s)). intros Ht.
  set (request := ct_SniffingRequest (default Content_zero (sn_Content s0))) in *.
  assert (∃ ob, last (sn_Outbounds s0) = Some ob ∧ ob_OriginalTarget ob = Some dst ∧ ob_Target ob = Some dst)
    as (ob & Hob & Ho & Htg) by apply set_target_last.
  assert (∀ s' link dst' proto, routedDispatch s' link dst' l proto d1 = (d2, s2, Ok (Some h)) →
    ∀ ob', last (sn_Outbounds s') = Some ob' →
    ∃ ob2, last (sn_Outbounds s2) = Some ob2 ∧ ob_OriginalTarget ob2 = ob_OriginalTarget ob' ∧
      ob_Target ob2 = ob_Target ob' ∧ ob_Tag ob2 = handler_Tag h) as Hrd.
  { intros s' link dst' proto Hr ob' Hob'. apply routedDispatch_Some in Hr as (_ & _ & _ & f & Hf & Hs2).
    exists (f ob'). rewrite Hs2, (update_last_last f _ ob' Hob'). destruct (Hf ob') as (-> & -> & _ & ->). done. }
  revert Ht. unfold dispatch_task, sniff_and_route. cbn [tk_Session tk_outbound tk_destination tk_limiter].
  fold request. destruct (sr_Enabled request) eqn:Hen; cbn [negb].
  2:{ intros Hr. destruct (Hrd _ _ _ _ Hr _ Hob) as (ob2 & H1 & H2 & H3 & H4).
      exists ob2. rewrite H2, H3. auto. }
  destruct (sniffer _ _ _ _ _ _) as [[r' [result|e|p]]|]; [| |done..].
  2:{ intros Hr. destruct (Hrd _ _ _ _ Hr _ Hob) as (ob2 & H1 & H2 & H3 & H4).
      exists ob2. rewrite H2, H3. auto. }
  destruct (shouldOverride fdns result request dst) eqn:Hov.
  2:{ intros Hr. destruct (Hrd _ _ _ _ Hr ob) as (ob2 & H1 & H2 & H3 & H4); [done|].
      exists ob2. rewrite H2, H3. auto. }
  cbn [override_target]. intros Hr. edestruct (Hrd _ _ _ _ Hr) as (ob2 & H1 & H2 & H3 & H4);
    [apply update_last_last; exact Hob|]. rewrite Htg in H2, H3.
  exists ob2. split; [done|]. revert H2 H3.
  destruct (_ && _ && _ && _) eqn:Hc; cbn [ob_OriginalTarget ob_Target]; intros -> ->;
    (split; [done|]; split; [done|]); [by left|].
  right. split; [done|]. exists result. split; [done|]. split; [done|]. intros Hro. rewrite Hro in Hc.
  destruct (String.eqb_spec (protocol_for_domain result) "fakedns"); [by left|].
  destruct (String.eqb_spec (protocol_for_domain result) "fakedns+others"); [by right; left|].
  right; right. by destruct (dispatch_fake_ip fdns dst).
Qed.

(** A connection without an inbound panics in the goroutine, after [Dispatch]
    has handed out its link. *)
Lemma dispatch_without_inbound_panics fdns now up down dst s d turns rd :
  dest_IsValid dst = true → sn_Inbound s = None →
  sr_Enabled (ct_SniffingRequest (default Content_zero (sn_Content s))) = false →
  ∃ d1 s1 k t, Dispatch now up down dst s d = (d1, s1, Ok (k, t)) ∧
    (dispatch_task fdns turns rd t d1).2 = nil_pointer.
Proof.
  intros Hv Hi Hs. unfold Dispatch. rewrite Hv. cbn [negb].
  destruct (set_target_last dst s) as (ob & Hob & _).
  assert (sn_Inbound (set_target dst s) = None ∧
    sr_Enabled (ct_SniffingRequest (default Content_zero (sn_Content (set_target dst s)))) = false) as [Hi' Hs'].
  { unfold set_target. cbn [sn_Content sn_with_Outbounds]. destruct (sn_Content s) eqn:Hcn; cbn; rewrite ?Hcn; by split. }
  rewrite Hi'. cbn [getLink limited_user]. do 4 eexists. split; [done|].
  unfold dispatch_task, sniff_and_route. cbn [tk_Session sn_Content sn_with_Inbound]. rewrite Hs'. cbn [negb].
  unfold routedDispatch. cbn [sn_Outbounds sn_Inbound sn_with_Inbound].
  by destruct (sn_Outbounds (set_target dst s)).
Qed.
End properties.

(** * Witnesses *)
#[local] Existing Instance wit_ratelimit.
#[local] Existing Instance wit_regexp.
#[local] Existing Instance wit_xray.
#[local] Existing Instance wit_net.
#[local] Existing Instance wit_sniff.
#[local] Existing Instance wit_reader.
(** The outbounds "direct" and "n"; the router sends everything to "n". *)
#[local] Instance wit_routing : RoutingLib := {|
  OutHandler := string;
  GetHandler := λ t, if decide (t ∈ ["n"; "direct"]) then Some t else None;
  GetDefaultHandler := Some "direct"; handler_Tag := λ h, h;
  router := Some (λ _, Ok ("n", "rule")); dest_IsValid := λ _, true;
|}.

Definition wit_dispatcher : Dispatcher :=
  mkDispatcher (mkXray (mkInstance ["n"] {["n" := {["n|alice"; "n|bob"]}]}) {["n|alice" := 7%Z]} ∅ ∅ ∅ ∅ (mkPipes ∅ ∅))
    (mkRegistry {[0%nat := wit_limiter]} {["n" := 0%nat]}).
Definition wit_inbound (user : string) : SessionInbound :=
  mkSessionInbound "n" "10.0.0.1" Network_TCP (Some user) 0.
Definition wit_session : Session :=
  mkSession (Some (mkSessionInbound "n" "10.0.0.9" Network_TCP (Some "n|bob") 0)) []
    (Some (mkContent (mkSniffingRequest [] ["http"] true false true) "")) "" (Some "").
Definition wit_dst : Destination := mkDestination ("1.2.3.4" : Address) Network_TCP 80.

Lemma getLink_refused_witness :
  let d' := (getLink 5 1 2 (Some (wit_inbound "n|alice")) Network_TCP wit_dispatcher).1.1 in
  closed_writers (xr_pipes (ds_core d')) = {[1%nat; 2%nat]}.
Proof.
  cbv zeta. destruct (getLink 5 1 2 (Some (wit_inbound "n|alice")) Network_TCP wit_dispatcher)
    as [[d' si'] r] eqn:E.
  assert (r = Err "Limited n|alice by conn or ip") as ->.
  { assert ((getLink 5 1 2 (Some (wit_inbound "n|alice")) Network_TCP wit_dispatcher).2
      = Err "Limited n|alice by conn or ip") as Hv by (vm_compute; reflexivity). by rewrite E in Hv. }
  destruct (getLink_refused _ _ _ _ _ _ _ _ _ E) as (_ & _ & _ & _ & Hc & _). cbn [fst].
  rewrite Hc. vm_compute. reflexivity.
Defined.

Definition wit_admitted := getLink 5 1 2 (Some (wit_inbound "n|bob")) Network_TCP wit_dispatcher.


Lemma removed_user_is_cut_witness :
  ∃ i o lim, wit_admitted.2 = Ok (i, o, lim) ∧
    let x' := (@Xray_DelUsers _ canonical_order [mkUserInfo 8 "bob" 0 0] "n" xray_node
                 (ds_core wit_admitted.1.1)).1 in
    1%nat ∈ interrupted_readers (xr_pipes x').
Proof.
  destruct wit_admitted as [[d' si'] r] eqn:E.
  assert (∃ i o lim, r = Ok (i, o, lim)) as (i & o & lim & ->).
  { assert (is_ok wit_admitted.2 = true) as Hv by (vm_compute; reflexivity). rewrite E in Hv.
    destruct r as [[[i o] lim]| |]; [by exists i, o, lim|done..]. }
  exists i, o, lim. split; [reflexivity|]. intros x'.
  destruct (removed_user_is_cut (RO:=canonical_order) 5 1 2 (wit_inbound "n|bob") "n" "bob" Network_TCP
    wit_dispatcher d' si' i o lim [mkUserInfo 8 "bob" 0 0] xray_node x' E) as (_ & _ & H);
    [reflexivity|by_decide| |exact H].
  assert ((@Xray_DelUsers _ canonical_order [mkUserInfo 8 "bob" 0 0] "n" xray_node
                 (ds_core wit_admitted.1.1)).2 = Ok tt) as Hv by (vm_compute; reflexivity).
  rewrite E in Hv. subst x'. cbn [fst ds_core] in *. by destruct (Xray_DelUsers _ _ _ _) as [x2 r2]; cbn in *; subst.
Defined.

Lemma routedDispatch_sound_witness :
  ∃ h, (routedDispatch (set_target wit_dst wit_session) (mkLink (PipeReader 1) (PipeWriter 2)) wit_dst
          (Some 0%nat) "" wit_dispatcher).2 = Ok (Some h) ∧ GetHandler "n" = Some h.
Proof.
  destruct (routedDispatch (set_target wit_dst wit_session) (mkLink (PipeReader 1) (PipeWriter 2)) wit_dst
          (Some 0%nat) "" wit_dispatcher) as [[d' s'] r] eqn:E.
  assert (r = Ok (Some "n")) as ->.
  { assert ((routedDispatch (set_target wit_dst wit_session) (mkLink (PipeReader 1) (PipeWriter 2)) wit_dst
          (Some 0%nat) "" wit_dispatcher).2 = Ok (Some "n")) as Hv by (vm_compute; reflexivity).
    by rewrite E in Hv. }
  pose proof (routedDispatch_sound _ _ _ _ _ _ _ _ _ E) as (_ & _ & _ & H & _).
  exists "n". split; [reflexivity|]. by apply (H eq_refl _ "n" "rule" eq_refl).
Defined.

Definition wit_web : Rd := ("", ["GET /"]).
Definition wit_dispatched := Dispatch 5 1 2 wit_dst wit_session wit_dispatcher.

(** A web page on a numeric address, sniffed for routing only. *)
Lemma dispatch_target_witness :
  match wit_dispatched with
  | (d1, _, Ok (_, t)) =>
      match dispatch_task None (λ _, mkTurn None 1000) wit_web t d1 with
      | (_, s2, Ok (Some h)) => ∃ ob, last (sn_Outbounds s2) = Some ob ∧ ob_OriginalTarget ob = Some wit_dst
      | _ => False
      end
  | _ => False
  end.
Proof.
  destruct wit_dispatched as [[d1 s1] r1] eqn:E1.
  assert (is_ok wit_dispatched.2 = true) as Hv1 by (vm_compute; reflexivity). rewrite E1 in Hv1.
  destruct r1 as [[k t]| |]; [|done..].
  destruct (dispatch_task None (λ _, mkTurn None 1000) wit_web t d1) as [[d2 s2] r2] eqn:E2.
  assert (match wit_dispatched with
    | (d1, _, Ok (_, t)) => (dispatch_task None (λ _, mkTurn None 1000) wit_web t d1).2
    | _ => Err "" end = Ok (Some "n")) as Hv2 by (vm_compute; reflexivity).
  rewrite E1, E2 in Hv2. cbn [snd] in Hv2. subst r2.
  destruct (dispatch_target _ _ _ _ _ _ _ _ _ _ _ _ _ _ _ _ E1 E2) as (ob & Hl & Ho & _).
  by exists ob.
Defined.
