(* ===== verification/LinkConc.v ===== *)
(** The tables of the dispatcher under concurrency: connections that open
    (src/core/xray/app/dispatcher/default.go, [getLink] and [DispatchLink]) and
    hang up, while others do and while [DelUsers] removes users
    (src/core/xray/user.go).

    A step of a goroutine is one call of a [sync.Map] or of a [LinkManager].
    [CloseAll] walks over the links without the manager's lock
    (src/core/xray/app/dispatcher/linkmanager.go): the walk fixes the keys that
    it has to reach when it starts, reaches one after the other unless it has
    been removed by then, may also reach one that was added meanwhile, and takes
    three steps on each link, so that everything else may happen in between.
    This is what Go specifies of a range over a map that changes; that the
    runtime may also notice the unlocked change and end the process is not in
    the model.  [GetCounter] is one step; its own interleavings are in
    CounterConc.  The managers and the traffic counters are pointers: a
    connection goes on using the one it found, whatever happens to the map it
    found it in. *)

From S2P Require Import Prelude Threads GoStd Conf Panel Counter Traffic Core XrayCore Dispatcher Limiter Sniff.
From stdpp Require Import prelude gmap strings relations.
From Stdlib Require Import ZArith Lia.

Open Scope Z_scope.

Section link_conc.
Context `{RO : RangeOrder}.

(** * The shared tables *)
Record dtables := mkDTables {
  d_managers : gmap nat LinkManager;
  d_LinkManagers : gmap string nat;
  d_counters : gmap nat TrafficCounter;
  d_Counter : gmap string nat;
  d_heap : heap;
  d_pipes : pipes;
}.

Definition set_links m lm (d : dtables) :=
  mkDTables m lm (d_counters d) (d_Counter d) (d_heap d) (d_pipes d).
Definition set_counters c t h (d : dtables) :=
  mkDTables (d_managers d) (d_LinkManagers d) c t h (d_pipes d).
Definition set_pipes p (d : dtables) :=
  mkDTables (d_managers d) (d_LinkManagers d) (d_counters d) (d_Counter d) (d_heap d) p.

(** A connection that was let in: the inbound's tag, the user's e-mail, the
    writer of the uplink and the reader paired with it; [k_direct] when it comes
    through [DispatchLink], which registers the link after it took the counter,
    where [getLink] does it before. *)
Record conn := mkConn {
  k_tag : string; k_email : string; k_writer : nat; k_reader : nat; k_direct : bool;
}.

Inductive link_pc : Type :=
(* getLink, lines 197-226, and DispatchLink, lines 389-421 *)
| OLoad (c : conn)
| OStore (c : conn) (lm : nat)
| OAdd (c : conn) (lm : nat) (got : option loc)
| OCounter (c : conn) (lm : nat)
| OCounterStore (c : conn) (lm t : nat)
| OGet (c : conn) (lm t : nat)
| ODone (c : conn) (lm : nat) (ts : loc)
(* ManagedWriter.Close, when the connection ends *)
| OUnlinked (c : conn)
| OClosed (c : conn)
(* the loop of DelUsers, lines 47-55, for one user *)
| DCounter (tag user : string)
| DForget (user : string) (tc : nat)
| DLoad (user : string)
| DRange (user : string) (lm : nat)
(* CloseAll: the keys to reach; then the link that was reached *)
| DWalk (user : string) (lm : nat) (todo : list nat)
| DUnlink (user : string) (lm w r : nat) (todo : list nat)
| DShut (user : string) (lm w r : nat) (todo : list nat)
| DInterrupt (user : string) (lm w r : nat) (todo : list nat)
| DDelete (user : string)
| DDone (user : string).

(** The links of a manager. *)
Definition links_of (d : dtables) (lm : nat) : LinkManager := default ∅ (d_managers d !! lm).

Definition with_links (lm : nat) (m : LinkManager) (d : dtables) : dtables :=
  set_links (<[lm := m]> (d_managers d)) (d_LinkManagers d) d.

Definition shut_writer (w : nat) (p : pipes) : pipes :=
  mkPipes ({[w]} ∪ closed_writers p) (interrupted_readers p).
Definition interrupt_reader (r : nat) (p : pipes) : pipes :=
  mkPipes (closed_writers p) ({[r]} ∪ interrupted_readers p).

(** With the manager in hand. *)
Definition managed (c : conn) (lm : nat) : link_pc :=
  if k_direct c then OCounter c lm else OAdd c lm None.

Definition open_step (d : dtables) (p : link_pc) : option (dtables * link_pc) :=
  match p with
  | OLoad c =>
      match d_LinkManagers d !! k_email c with
      | Some lm => Some (d, managed c lm)
      | None =>
          let lm := fresh (dom (d_managers d)) in
          Some (set_links (<[lm := ∅]> (d_managers d)) (d_LinkManagers d) d, OStore c lm)
      end
  | OStore c lm =>
      Some (set_links (d_managers d) (<[k_email c := lm]> (d_LinkManagers d)) d, managed c lm)
  | OAdd c lm got =>
      Some (with_links lm (AddLink (k_writer c) (k_reader c) (links_of d lm)) d,
            match got with None => OCounter c lm | Some ts => ODone c lm ts end)
  | OCounter c lm =>
      match d_Counter d !! k_tag c with
      | Some t => Some (d, OGet c lm t)
      | None =>
          let t := fresh (dom (d_counters d)) in
          Some (set_counters (<[t := NewTrafficCounter]> (d_counters d)) (d_Counter d) (d_heap d) d,
                OCounterStore c lm t)
      end
  | OCounterStore c lm t =>
      Some (set_counters (d_counters d) (<[k_tag c := t]> (d_Counter d)) (d_heap d) d, OGet c lm t)
  | OGet c lm t =>
      let '(h, tc, ts) := GetCounter (d_heap d) (default ∅ (d_counters d !! t)) (k_email c) in
      Some (set_counters (<[t := tc]> (d_counters d)) (d_Counter d) h d,
            if k_direct c then OAdd c lm (Some ts) else ODone c lm ts)
  | OUnlinked c => Some (set_pipes (shut_writer (k_writer c) (d_pipes d)) d, OClosed c)
  | _ => None
  end.

Definition remove_step (d : dtables) (p : link_pc) : option (dtables * link_pc) :=
  match p with
  | DCounter tag user =>
      Some (d, match d_Counter d !! tag with Some tc => DForget user tc | None => DLoad user end)
  | DForget user tc =>
      Some (set_counters (<[tc := Counter_Delete (default ∅ (d_counters d !! tc)) user]> (d_counters d))
              (d_Counter d) (d_heap d) d, DLoad user)
  | DLoad user =>
      Some (d, match d_LinkManagers d !! user with Some lm => DRange user lm | None => DDone user end)
  | DRange user lm => Some (d, DWalk user lm (range (links_of d lm)).*1)
  | DWalk user lm [] => Some (d, DDelete user)
  | DWalk user lm (w :: todo) =>
      Some (d, match links_of d lm !! w with Some r => DUnlink user lm w r todo | None => DWalk user lm todo end)
  | DUnlink user lm w r todo =>
      Some (with_links lm (RemoveWriter w (links_of d lm)) d, DShut user lm w r todo)
  | DShut user lm w r todo => Some (set_pipes (shut_writer w (d_pipes d)) d, DInterrupt user lm w r todo)
  | DInterrupt user lm w r todo => Some (set_pipes (interrupt_reader r (d_pipes d)) d, DWalk user lm todo)
  | DDelete user =>
      Some (set_links (d_managers d) (delete user (d_LinkManagers d)) d, DDone user)
  | _ => None
  end.

Definition link_next (d : dtables) (p : link_pc) : option (dtables * link_pc) :=
  match open_step d p with Some r => Some r | None => remove_step d p end.

(** What a goroutine does next, whether an open connection ends (its writer
    first leaves its manager), and whether the walk reaches a link that was
    added after it started, is not determined. *)
Inductive link_step (d : dtables) : link_pc → dtables → link_pc → Prop :=
| step_next p d' p' : link_next d p = Some (d', p') → link_step d p d' p'
| step_hang_up c lm ts :
    link_step d (ODone c lm ts) (with_links lm (RemoveWriter (k_writer c) (links_of d lm)) d) (OUnlinked c)
| step_also user lm w r todo :
    links_of d lm !! w = Some r → link_step d (DWalk user lm todo) d (DWalk user lm (w :: todo)).

Definition link_system := pool_step link_step.

(** One goroutine that runs alone. *)
Definition run_link : nat → dtables → link_pc → dtables * link_pc := run_alone link_next.

Record dtables_wf (d : dtables) : Prop := {
  lw_links : ptr_wf (d_managers d) (d_LinkManagers d);
  lw_counters : ptr_wf (d_counters d) (d_Counter d);
}.

(** * One goroutine alone makes the calls of the sequential model *)

Lemma run_trans n m d p d1 p1 c :
  run_link n d p = (d1, p1) → run_link m d1 p1 = c → run_link (n + m) d p = c.
Proof. apply run_alone_trans. Qed.

Lemma run_step d p c : link_next d p = Some c → run_link 1 d p = c.
Proof. unfold run_link. simpl. intros ->. by destruct c. Qed.

(** The manager of a connection that opens alone. *)
Lemma run_manager d c :
  dtables_wf d →
  ∃ n m l lm, (n ≤ 2)%nat ∧ ptr_wf m l ∧ run_link n d (OLoad c) = (set_links m l d, managed c lm) ∧
    l !! k_email c = Some lm ∧
    deref m l = <[k_email c := default ∅ (deref (d_managers d) (d_LinkManagers d) !! k_email c)]>
      (deref (d_managers d) (d_LinkManagers d)).
Proof.
  intros [Hwf _]. rewrite deref_lookup.
  destruct (d_LinkManagers d !! k_email c) as [lm|] eqn:Hlm; simpl.
  - exists 1%nat, (d_managers d), (d_LinkManagers d), lm. split_and!; [lia|done| |done|].
    + apply run_step. unfold link_next. simpl. rewrite Hlm. by destruct d.
    + symmetry. apply insert_id. by rewrite deref_lookup, Hlm.
  - set (f := fresh (dom (d_managers d))).
    exists 2%nat, (<[f := ∅]> (d_managers d)), (<[k_email c := f]> (d_LinkManagers d)), f.
    split_and!; [lia|by apply ptr_wf_publish| |apply lookup_insert_eq|by apply deref_publish].
    simpl. unfold run_link, run_alone, link_next. simpl. by rewrite Hlm.
Qed.

(** Its link. *)
Lemma run_add d c lm got :
  dtables_wf d → d_LinkManagers d !! k_email c = Some lm →
  ∃ m, ptr_wf m (d_LinkManagers d) ∧
    run_link 1 d (OAdd c lm got) =
      (set_links m (d_LinkManagers d) d, match got with None => OCounter c lm | Some ts => ODone c lm ts end) ∧
    deref m (d_LinkManagers d) = <[k_email c := AddLink (k_writer c) (k_reader c)
      (default ∅ (deref (d_managers d) (d_LinkManagers d) !! k_email c))]>
      (deref (d_managers d) (d_LinkManagers d)).
Proof.
  intros [Hwf _] Hlm. eexists. split; [|split; [by apply run_step|]].
  - by eapply ptr_wf_set.
  - rewrite deref_lookup, Hlm. simpl. by apply deref_update.
Qed.

(** Its counters. *)
Lemma run_count d c lm h tc ts :
  dtables_wf d →
  GetCounter (d_heap d) (default NewTrafficCounter (deref (d_counters d) (d_Counter d) !! k_tag c))
    (k_email c) = (h, tc, ts) →
  ∃ n cs t, (n ≤ 3)%nat ∧ ptr_wf cs t ∧
    run_link n d (OCounter c lm) =
      (set_counters cs t h d, if k_direct c then OAdd c lm (Some ts) else ODone c lm ts) ∧
    deref cs t = <[k_tag c := tc]> (deref (d_counters d) (d_Counter d)).
Proof.
  intros [_ Hwf]. rewrite deref_lookup.
  destruct (d_Counter d !! k_tag c) as [t|] eqn:Ht; simpl; intros Hg.
  - eexists 2%nat, _, _. split; [lia|]. split; [by eapply ptr_wf_set|].
    split; [simpl; unfold link_next; simpl; rewrite Ht; simpl; by rewrite Hg|]. by apply deref_update.
  - set (f := fresh (dom (d_counters d))).
    eexists 3%nat, (<[f := tc]> (d_counters d)), (<[k_tag c := f]> (d_Counter d)).
    split; [lia|]. split; [by apply ptr_wf_publish|]. split; [|by apply deref_publish].
    simpl. unfold link_next. simpl. rewrite Ht. simpl. fold f. rewrite lookup_insert_eq. simpl.
    rewrite Hg. unfold set_counters. simpl. by rewrite insert_insert_eq.
Qed.

(** The removal's work on the counters. *)
Lemma run_forget d tag user :
  dtables_wf d →
  ∃ n cs, (n ≤ 2)%nat ∧ ptr_wf cs (d_Counter d) ∧
    run_link n d (DCounter tag user) = (set_counters cs (d_Counter d) (d_heap d) d, DLoad user) ∧
    deref cs (d_Counter d) = node_Delete (deref (d_counters d) (d_Counter d)) tag user.
Proof.
  intros [_ Hwf]. unfold node_Delete. rewrite deref_lookup.
  destruct (d_Counter d !! tag) as [t|] eqn:Ht; simpl.
  - eexists 2%nat, _. split; [lia|]. split; [by eapply ptr_wf_set|].
    split; [simpl; unfold link_next; simpl; by rewrite Ht|]. by apply deref_update.
  - exists 1%nat, (d_counters d). split; [lia|]. split; [done|]. split; [|done].
    simpl. unfold link_next. simpl. rewrite Ht. by destruct d.
Qed.

(** ** The walk of CloseAll *)
Definition walked (lm : nat) (es : list (nat * nat)) (d : dtables) : dtables :=
  set_pipes (mkPipes (list_to_set es.*1 ∪ closed_writers (d_pipes d))
                     (list_to_set es.*2 ∪ interrupted_readers (d_pipes d)))
    (with_links lm (foldl (λ m k, delete k m) (links_of d lm) es.*1) d).

Lemma walked_nil lm d : is_Some (d_managers d !! lm) → walked lm [] d = d.
Proof.
  intros [m Hm]. unfold walked, with_links, links_of, set_pipes, set_links. simpl. rewrite Hm. simpl.
  rewrite insert_id by done. rewrite !(left_id_L ∅ (∪)). destruct d as [? ? ? ? ? []]. done.
Qed.

Lemma run_reached d user lm w r todo :
  links_of d lm !! w = Some r →
  run_link 4 d (DWalk user lm (w :: todo)) = (walked lm [(w, r)] d, DWalk user lm todo).
Proof.
  intros Hw. unfold run_link, run_alone, link_next. simpl. rewrite Hw. simpl.
  unfold walked, set_pipes, with_links, set_links, shut_writer, interrupt_reader, RemoveWriter. simpl.
  by rewrite !(right_id_L ∅ (∪)).
Qed.

Lemma walked_cons lm e es d : walked lm es (walked lm [e] d) = walked lm (e :: es) d.
Proof.
  unfold walked, with_links, links_of, set_pipes, set_links. simpl.
  rewrite lookup_insert_eq, insert_insert_eq. simpl. f_equal. f_equal; set_solver.
Qed.

Lemma run_walk d user lm es :
  is_Some (d_managers d !! lm) → NoDup es.*1 → (∀ w r, (w, r) ∈ es → links_of d lm !! w = Some r) →
  run_link (4 * length es) d (DWalk user lm es.*1) = (walked lm es d, DWalk user lm []).
Proof.
  revert d. induction es as [|[w r] es IH]; intros d Hm Hnd Hes; [by rewrite walked_nil|].
  rewrite fmap_cons in *. apply NoDup_cons in Hnd as [Hw Hnd].
  replace (4 * length ((w, r) :: es))%nat with (4 + 4 * length es)%nat by (simpl; lia).
  eapply run_trans; [apply run_reached, Hes; left|]. rewrite IH; [by rewrite walked_cons| |done|].
  - simpl. rewrite lookup_insert_eq. by eexists.
  - intros w' r' Hin. unfold walked, with_links, links_of. simpl. rewrite lookup_insert_eq. simpl.
    rewrite lookup_delete_ne; [apply Hes; by right|].
    intros ->. apply Hw. by apply (list_elem_of_fmap_2 fst) in Hin.
Qed.

(** The whole walk is the sequential [CloseAll]. *)
Lemma walked_CloseAll lm d :
  walked lm (range (links_of d lm)) d =
    let '(links, p) := CloseAll (links_of d lm, d_pipes d) in set_pipes p (with_links lm links d).
Proof. unfold CloseAll. by rewrite CloseAll_fold. Qed.

Definition close_fuel (d : dtables) (user : string) : nat :=
  match d_LinkManagers d !! user with Some lm => 4 + 4 * size (links_of d lm) | None => 1 end.

Lemma run_close_found d user lm :
  d_LinkManagers d !! user = Some lm → is_Some (d_managers d !! lm) →
  run_link (close_fuel d user) d (DLoad user) =
    let d' := walked lm (range (links_of d lm)) d in
    (set_links (d_managers d') (delete user (d_LinkManagers d)) d', DDone user).
Proof.
  intros Hlm Hm. unfold close_fuel. rewrite Hlm.
  replace (4 + 4 * size (links_of d lm))%nat
    with (1 + (1 + (4 * length (range (links_of d lm)) + (1 + 1))))%nat by (rewrite length_range; lia).
  eapply run_trans; [apply run_step; unfold link_next; simpl; by rewrite Hlm|].
  eapply run_trans; [by apply run_step|].
  eapply run_trans; [apply run_walk; [done|apply NoDup_fst_range|intros w r; by rewrite elem_of_range]|].
  eapply run_trans; [by apply run_step|]. by apply run_step.
Qed.

(** And on the links. *)
Lemma run_close d user :
  dtables_wf d →
  ∃ m l p, ptr_wf m l ∧
    run_link (close_fuel d user) d (DLoad user) = (set_pipes p (set_links m l d), DDone user) ∧
    (deref m l, p) =
      let links := deref (d_managers d) (d_LinkManagers d) in
      match links !! user with
      | Some lm => (delete user links, (CloseAll (lm, d_pipes d)).2)
      | None => (links, d_pipes d)
      end.
Proof.
  intros [Hwf _]. cbv zeta. rewrite deref_lookup.
  destruct (d_LinkManagers d !! user) as [lm|] eqn:Hlm; simpl.
  - pose proof (run_close_found d user lm Hlm (pw_alloc _ _ Hwf _ _ Hlm)) as Hr.
    rewrite walked_CloseAll in Hr. fold (links_of d lm).
    destruct (CloseAll (links_of d lm, d_pipes d)) as [lk p] eqn:Hc. cbv zeta in Hr.
    exists (<[lm := lk]> (d_managers d)), (delete user (d_LinkManagers d)), p.
    split; [by apply ptr_wf_delete, ptr_wf_set|]. split; [exact Hr|].
    rewrite deref_delete, (deref_update _ _ user) by done. by rewrite delete_insert_eq.
  - exists (d_managers d), (d_LinkManagers d), (d_pipes d). split; [done|].
    split; [|done]. unfold close_fuel. rewrite Hlm. apply run_step. unfold link_next. simpl. rewrite Hlm.
    by destruct d.
Qed.

Section refines.
Context `{XL : XrayLib} `{RL : RatelimitLib} `{RE : RegexpLib}.
Context `{NL : NetLib}.

(** The sequential core with these tables. *)
Definition xray_of (x : Xray) (d : dtables) : Xray :=
  xr_with_links (deref (d_managers d) (d_LinkManagers d)) (d_pipes d)
    (xr_with_counters (d_heap d) (deref (d_counters d) (d_Counter d)) x).

Definition dispatcher_of (D : Dispatcher) (d : dtables) : Dispatcher :=
  ds_with_core (xray_of (ds_core D) d) D.

(** A connection that opens while no other goroutine runs registers its link and
    takes its counter, in either order, within six steps, as the sequential
    [getLink] and [DispatchLink] do. *)
Theorem opener_refines D d c :
  dtables_wf d →
  ∃ d' lm ts, run_link 6 d (OLoad c) = (d', ODone c lm ts) ∧ dtables_wf d' ∧
    user_counter (k_tag c) (k_email c)
      (add_link (k_email c) (k_writer c) (k_reader c) (dispatcher_of D d)) = (dispatcher_of D d', ts).
Proof.
  intros Hwf. destruct (run_manager d c Hwf) as (n & m & l & lm & Hn & Hml & Hr1 & Hlm & Hd1).
  set (d1 := set_links m l d) in *. assert (Hwf1 : dtables_wf d1) by (split; [done|apply Hwf]).
  destruct (GetCounter (d_heap d) (default NewTrafficCounter
    (deref (d_counters d) (d_Counter d) !! k_tag c)) (k_email c)) as [[h tc] ts] eqn:Hg.
  assert (∃ k m' cs t, (k ≤ 4)%nat ∧ ptr_wf m' l ∧ ptr_wf cs t ∧
    run_link k d1 (managed c lm) = (set_counters cs t h (set_links m' l d1), ODone c lm ts) ∧
    deref cs t = <[k_tag c := tc]> (deref (d_counters d) (d_Counter d)) ∧
    deref m' l = <[k_email c := AddLink (k_writer c) (k_reader c) (default ∅ (deref m l !! k_email c))]>
                   (deref m l)) as (k & m' & cs & t & Hk & Hm' & Hcs & Hr2 & Hd2 & Hd3).
  { unfold managed. destruct (k_direct c) eqn:Hdir.
    - destruct (run_count d1 c lm h tc ts Hwf1 Hg) as (n' & cs & t & Hn' & Hct & Hr2 & Hd2).
      rewrite Hdir in Hr2. set (d2 := set_counters cs t h d1) in *.
      destruct (run_add d2 c lm (Some ts)) as (m' & Hm' & Hr3 & Hd3); [by split|done|].
      exists (n' + 1)%nat, m', cs, t. split_and!; [lia|done|done| |exact Hd2|exact Hd3].
      by eapply run_trans; [exact Hr2|].
    - destruct (run_add d1 c lm None Hwf1 Hlm) as (m' & Hm' & Hr3 & Hd3).
      destruct (run_count (set_links m' l d1) c lm h tc ts) as (n' & cs & t & Hn' & Hct & Hr2 & Hd2);
        [by split; [|apply Hwf]|done|].
      rewrite Hdir in Hr2.
      exists (1 + n')%nat, m', cs, t. split_and!; [lia|done|done| |exact Hd2|exact Hd3].
      by eapply run_trans; [exact Hr3|]. }
  exists (set_counters cs t h (set_links m' l d1)), lm, ts. split_and!.
  - eapply (run_alone_end _ (n + k)); [by eapply run_trans|done|lia].
  - by split.
  - unfold user_counter, add_link, on_links, dispatcher_of, xray_of, ds_with_core. simpl.
    rewrite Hg, Hd2, Hd3, Hd1, lookup_insert_eq, insert_insert_eq. done.
Qed.

(** A removal that no other goroutine interleaves with ends, within six steps
    and four for every link of the user, and forgets the user as the sequential
    [DelUsers] does. *)
Theorem remover_refines x d tag user :
  dtables_wf d →
  ∃ d', run_link (2 + close_fuel d user) d (DCounter tag user) = (d', DDone user) ∧ dtables_wf d' ∧
    forget_user tag user (xray_of x d) = xray_of (xr_with_uidMap (delete user (xr_uidMap x)) x) d'.
Proof.
  intros Hwf. destruct (run_forget d tag user Hwf) as (n & cs & Hn & Hcs & Hr1 & Hd1).
  set (d1 := set_counters cs (d_Counter d) (d_heap d) d).
  assert (Hwf1 : dtables_wf d1) by (split; [apply Hwf|done]).
  destruct (run_close d1 user Hwf1) as (m & l & p & Hml & Hr2 & Hd2).
  exists (set_pipes p (set_links m l d1)). split_and!.
  - eapply (run_alone_end _ (n + close_fuel d user)); [by eapply run_trans|done|lia].
  - by split.
  - unfold forget_user, xray_of. simpl in *. rewrite <- Hd1.
    destruct (deref (d_managers d) (d_LinkManagers d) !! user) as [lm|] eqn:Hu.
    + destruct (CloseAll (lm, d_pipes d)) as [lk q]. simpl in Hd2. by injection Hd2 as <- ->.
    + by injection Hd2 as <- ->.
Qed.
End refines.

(** * A removal cuts every link that was registered before it walks over them

    [e] is a user who already has a manager, [lm0], and who is being removed by
    the [j]-th goroutine of the pool and by no other.  A writer is paired with
    one reader. *)
Section removal.
#[local] Set Default Proof Using "All".
Variable e : string.
Variable lm0 : nat.
Variable j : nat.
Variable reader_of : nat → nat.

Record shared_ok (d : dtables) : Prop := {
  so_map : d_LinkManagers d !! e = Some lm0;
  so_alloc : is_Some (d_managers d !! lm0);
  so_own : ∀ u, d_LinkManagers d !! u = Some lm0 → u = e;
}.

Definition paired (c : conn) : Prop := k_reader c = reader_of (k_writer c).

(** Any goroutine but the [j]-th. *)
Definition other_ok (p : link_pc) : Prop :=
  match p with
  | OLoad c => paired c
  | OStore c lm => paired c ∧ k_email c ≠ e ∧ lm ≠ lm0
  | OAdd c lm _ | OCounter c lm | OCounterStore c lm _ | OGet c lm _ | ODone c lm _ =>
      paired c ∧ (k_email c = e → lm = lm0)
  | OUnlinked _ | OClosed _ => True
  | DRange u lm | DWalk u lm _ | DUnlink u lm _ _ _ | DShut u lm _ _ _ | DInterrupt u lm _ _ _ =>
      u ≠ e ∧ lm ≠ lm0
  | DCounter _ u | DForget u _ | DLoad u | DDelete u | DDone u => u ≠ e
  end.

(** The [j]-th: before it walks over the links, and while it does. *)
Definition before_walk (p : link_pc) : Prop :=
  match p with DCounter _ _ | DForget _ _ | DLoad _ | DRange _ _ => True | _ => False end.

Definition active (p : link_pc) : Prop :=
  match p with
  | DCounter _ u | DForget u _ | DLoad u => u = e
  | DRange u lm | DWalk u lm _ | DUnlink u lm _ _ _ | DShut u lm _ _ _ | DInterrupt u lm _ _ _ =>
      u = e ∧ lm = lm0
  | _ => False
  end.

Definition past (p : link_pc) : Prop :=
  match p with
  | DWalk _ _ _ | DUnlink _ _ _ _ _ | DShut _ _ _ _ _ | DInterrupt _ _ _ _ _ | DDelete _ | DDone _ => True
  | _ => False
  end.

(** A link is registered; its writer is closed and its reader interrupted; or
    its connection has taken it out of the manager itself. *)
Definition held (d : dtables) (w : nat) : Prop := links_of d lm0 !! w = Some (reader_of w).

Definition cut (d : dtables) (w : nat) : Prop :=
  w ∈ closed_writers (d_pipes d) ∧ reader_of w ∈ interrupted_readers (d_pipes d).

Definition hung_up (w : nat) (p : link_pc) : Prop :=
  match p with OUnlinked c | OClosed c => k_writer c = w | _ => False end.

(** The [j]-th goroutine has yet to cut the link of [w]. *)
Definition pending (d : dtables) (w : nat) (p : link_pc) : Prop :=
  match p with
  | DCounter _ _ | DForget _ _ | DLoad _ | DRange _ _ => held d w
  | DWalk _ _ todo => held d w ∧ w ∈ todo
  | DUnlink _ _ w' r todo | DShut _ _ w' r todo => (w ≠ w' ∧ held d w ∧ w ∈ todo) ∨ (w = w' ∧ r = reader_of w)
  | DInterrupt _ _ w' r todo =>
      (w ≠ w' ∧ held d w ∧ w ∈ todo) ∨ (w = w' ∧ r = reader_of w ∧ w ∈ closed_writers (d_pipes d))
  | _ => False
  end.

(** What a step of another goroutine, which is then at [p'], does to them. *)
Record keeps (d d' : dtables) (p' : link_pc) : Prop := {
  ke_shared : shared_ok d → shared_ok d';
  ke_links : ∀ w, held d w → held d' w ∨ hung_up w p';
}.

Lemma keeps_same d d' p' :
  d_managers d' = d_managers d → d_LinkManagers d' = d_LinkManagers d → keeps d d' p'.
Proof.
  intros Hm Hl. split; unfold held, links_of; [|rewrite Hm; auto].
  intros [H1 H2 H3]. split; rewrite ?Hm, ?Hl; done.
Qed.

(** A manager changes: another one than [lm0], or [lm0] in a way that leaves
    the link of [w]. *)
Lemma with_links_shared d lm m : shared_ok d → shared_ok (with_links lm m d).
Proof.
  intros [H1 H2 H3]. split; simpl; [done| |done]. rewrite lookup_insert. case_decide; [by eexists|done].
Qed.

Lemma with_links_lookup d lm m lm' :
  links_of (with_links lm m d) lm' = if decide (lm = lm') then m else links_of d lm'.
Proof. unfold links_of. simpl. rewrite lookup_insert. by case_decide. Qed.

Lemma keeps_manager d lm m p' : lm ≠ lm0 → keeps d (with_links lm m d) p'.
Proof.
  intros Hne. split; [apply with_links_shared|]. unfold held. intros w Hw. left.
  by rewrite with_links_lookup, decide_False.
Qed.

Lemma held_add d lm c w :
  paired c → held d w → held (with_links lm (AddLink (k_writer c) (k_reader c) (links_of d lm)) d) w.
Proof.
  unfold held. intros Hc Hw. rewrite with_links_lookup. case_decide as Hl; [subst lm|done].
  unfold AddLink. rewrite lookup_insert. case_decide as Hk; [|done]. by rewrite <- Hk, Hc.
Qed.

Lemma held_added d c :
  paired c → held (with_links lm0 (AddLink (k_writer c) (k_reader c) (links_of d lm0)) d) (k_writer c).
Proof.
  intros Hc. unfold held. rewrite with_links_lookup, decide_True by done.
  unfold AddLink. by rewrite lookup_insert_eq, Hc.
Qed.

Lemma held_removed d lm w w' :
  held d w → held (with_links lm (RemoveWriter w' (links_of d lm)) d) w ∨ w' = w.
Proof.
  unfold held. intros Hw. rewrite with_links_lookup. case_decide as Hl; [subst lm|by left].
  unfold RemoveWriter. rewrite lookup_delete. case_decide; auto.
Qed.

Lemma keeps_store d u lm p' :
  u ≠ e → lm ≠ lm0 → keeps d (set_links (d_managers d) (<[u := lm]> (d_LinkManagers d)) d) p'.
Proof.
  intros Hu Hlm. split; [|by left]. intros [H1 H2 H3]. split; simpl; [by rewrite lookup_insert_ne|done|].
  intros v [[_ ?]|[_ ?]]%lookup_insert_Some; [done|by apply H3].
Qed.

Lemma keeps_delete d u p' :
  u ≠ e → keeps d (set_links (d_managers d) (delete u (d_LinkManagers d)) d) p'.
Proof.
  intros Hu. split; [|by left]. intros [H1 H2 H3]. split; simpl; [by rewrite lookup_delete_ne|done|].
  intros v [_ ?]%lookup_delete_Some. by apply H3.
Qed.

Lemma managed_ok c lm : paired c → (k_email c = e → lm = lm0) → other_ok (managed c lm).
Proof. intros. unfold managed. by destruct (k_direct c). Qed.

Lemma other_step d p d' p' :
  shared_ok d → other_ok p → link_step d p d' p' → other_ok p' ∧ keeps d d' p'.
Proof.
  intros Hs Hp Hst. destruct Hst as [p d' p' Hst|c lm ts|u lm w r todo _]; [|simpl in Hp|].
  2:{ split; [done|]. split; [apply with_links_shared|]. intros w Hw. by apply held_removed. }
  2:{ split; [done|by apply keeps_same]. }
  unfold link_next in Hst.
  destruct p as [c|c lm|c lm got|c lm|c lm t|c lm t|c lm ts|c|c|tag u|u tc|u|u lm|u lm [|w todo]
    |u lm w r todo|u lm w r todo|u lm w r todo|u|u]; simpl in *; try done.
  - destruct (d_LinkManagers d !! k_email c) as [lm|] eqn:Hl; simplify_eq/=.
    + split; [|by apply keeps_same]. apply managed_ok; [done|].
      intros Hc. rewrite Hc, (so_map _ Hs) in Hl. by simplify_eq.
    + assert (Hne : fresh (dom (d_managers d)) ≠ lm0).
      { intros Hf. apply (is_fresh (dom (d_managers d))). rewrite Hf. apply elem_of_dom, Hs. }
      split; [|by apply keeps_manager]. split_and!; [done| |done].
      intros Hc. rewrite Hc, (so_map _ Hs) in Hl. done.
  - destruct Hp as (Hc & Hu & Hlm). simplify_eq/=. split; [by apply managed_ok|by apply keeps_store].
  - destruct Hp as (Hc & Hlm). simplify_eq/=. split; [by destruct got|].
    split; [apply with_links_shared|]. intros w Hw. left. by apply held_add.
  - destruct (d_Counter d !! k_tag c); simplify_eq/=; (split; [done|by apply keeps_same]).
  - simplify_eq/=. split; [done|by apply keeps_same].
  - destruct (GetCounter _ _ _) as [[h tc] ts]. simplify_eq/=.
    split; [by destruct (k_direct c)|by apply keeps_same].
  - simplify_eq/=. split; [done|by apply keeps_same].
  - destruct (d_Counter d !! tag); simplify_eq/=; (split; [done|by apply keeps_same]).
  - simplify_eq/=. split; [done|by apply keeps_same].
  - destruct (d_LinkManagers d !! u) as [lm|] eqn:Hl; simplify_eq/=; (split; [|by apply keeps_same]).
    + split; [done|]. intros ->. by apply Hp, Hs.
    + done.
  - simplify_eq/=. split; [done|by apply keeps_same].
  - simplify_eq/=. split; [apply Hp|by apply keeps_same].
  - destruct (links_of d lm !! w); simplify_eq/=; (split; [done|by apply keeps_same]).
  - simplify_eq/=. split; [done|]. apply keeps_manager, Hp.
  - simplify_eq/=. split; [done|by apply keeps_same].
  - simplify_eq/=. split; [done|by apply keeps_same].
  - simplify_eq/=. split; [done|by apply keeps_delete].
Qed.

(** The [j]-th goroutine itself. *)
Lemma remover_step d p d' p' :
  shared_ok d → active p → link_step d p d' p' →
  ((active p' ∧ shared_ok d') ∨ ∃ u, p' = DDelete u) ∧ (past p → past p') ∧ ∀ w, pending d w p → pending d' w p' ∨ cut d' w.
Proof.
  intros Hs Hp Hst. destruct Hst as [p d' p' Hst|c lm ts|u lm w r todo _]; [|done|].
  2:{ split; [by left|]. split; [done|]. intros w' [Hw Hin]. left. split; [done|]. by right. }
  unfold link_next in Hst.
  destruct p as [| | | | | | | | |tag u|u tc|u|u lm|u lm [|w todo]
    |u lm w r todo|u lm w r todo|u lm w r todo|u|u]; simpl in *; try done.
  - destruct (d_Counter d !! tag); simplify_eq/=; (split; [by left|]; split; [done|]; by left).
  - simplify_eq/=. split; [left; split; [done|by destruct Hs]|]. split; [done|by left].
  - subst u. rewrite (so_map _ Hs) in Hst. simplify_eq/=. split; [by left|]. split; [done|by left].
  - destruct Hp as [-> ->]. simplify_eq/=. split; [by left|]. split; [done|]. intros w Hw. left.
    split; [done|]. apply elem_of_range in Hw. by apply (list_elem_of_fmap_2 fst) in Hw.
  - simplify_eq/=. split; [right; by eexists|]. split; [done|]. by intros w [_ ?%not_elem_of_nil].
  - destruct Hp as [-> ->]. destruct (links_of d lm0 !! w) as [r|] eqn:Hr; simplify_eq/=;
      (split; [by left|]; split; [done|]); intros w' [Hw Hin]; left; unfold held in Hw.
    + destruct (decide (w' = w)) as [->|Hne]; [right; split; congruence|left].
      split; [done|]. split; [done|]. by apply elem_of_cons in Hin as [?|?].
    + apply elem_of_cons in Hin as [->|?]; [congruence|done].
  - destruct Hp as [-> ->]. simplify_eq/=. split; [left; split; [done|by apply with_links_shared]|].
    split; [done|]. intros w' [(Hne & Hw & Hin)|?]; left; [left|by right].
    split; [done|]. split; [|done]. by destruct (held_removed d lm0 w' w Hw) as [?|?].
  - destruct Hp as [-> ->]. simplify_eq/=. split; [left; split; [done|by destruct Hs]|]. split; [done|].
    intros w' [?|[-> ->]]; left; [by left|right]. split_and!; [done|done|]. set_solver.
  - destruct Hp as [-> ->]. simplify_eq/=. split; [left; split; [done|by destruct Hs]|]. split; [done|].
    intros w' [(_ & ?)|(-> & -> & Hc)]; [by left|right]. split; simpl; set_solver.
Qed.

Lemma past_step d p d' p' : past p → link_step d p d' p' → past p'.
Proof.
  intros Hp Hst. destruct Hst as [p d' p' Hst|c lm ts|u lm w r todo _]; [|done..].
  unfold link_next in Hst. destruct p as [| | | | | | | | | | | | |u lm [|w todo]| | | | |]; simpl in *;
    try done; repeat case_match; by simplify_eq/=.
Qed.

Lemma hung_up_step w d p d' p' : hung_up w p → link_step d p d' p' → hung_up w p'.
Proof.
  intros Hp Hst. destruct Hst as [p d' p' Hst|c lm ts|u lm w' r todo _]; [|done..].
  unfold link_next in Hst. destruct p; simpl in *; try done; by simplify_eq/=.
Qed.

Lemma pipes_grow d p d' p' :
  link_step d p d' p' → closed_writers (d_pipes d) ⊆ closed_writers (d_pipes d') ∧
                        interrupted_readers (d_pipes d) ⊆ interrupted_readers (d_pipes d').
Proof.
  intros Hst. destruct Hst as [p d' p' Hst|c lm ts|u lm w' r todo _]; [|done..]. unfold link_next in Hst.
  destruct p as [| | | | | | | | | | | | |u lm [|w todo]| | | | |]; simpl in *; repeat case_match;
    simplify_eq/=; set_solver.
Qed.

(** ** The pool *)
Definition good_at (s : dtables * list link_pc) (p : link_pc) : Prop :=
  s.2 !! j = Some p ∧ active p ∧ shared_ok s.1 ∧ ∀ i q, i ≠ j → s.2 !! i = Some q → other_ok q.

(** A link that was registered is gone for good, or will be cut. *)
Definition doomed (w : nat) (s : dtables * list link_pc) : Prop :=
  (∃ k p, s.2 !! k = Some p ∧ hung_up w p) ∨ cut s.1 w ∨ (∃ p, good_at s p ∧ pending s.1 w p).

Lemma good_other s d' k q q' p :
  good_at s p → k ≠ j → s.2 !! k = Some q → link_step s.1 q d' q' →
  good_at (d', <[k := q']> s.2) p ∧ keeps s.1 d' q'.
Proof.
  intros (Hj & Hp & Hs & Ho) Hne Hk Hq. destruct (other_step _ q d' q' Hs (Ho _ _ Hne Hk) Hq) as [Hq' Hke].
  split; [|done]. split_and!; [by simpl; rewrite list_lookup_insert_ne|done|by apply Hke|].
  intros i r Hi [[-> ->]|[_ Hr]]%lookup_insert_list_cases; [done|by eapply Ho].
Qed.

Lemma good_own s d' p p' :
  good_at s p → active p' → shared_ok d' → good_at (d', <[j := p']> s.2) p'.
Proof.
  intros (Hj & Hp & Hs & Ho) Hp' Hs'. split_and!; [|done|done|].
  - simpl. apply list_lookup_insert_eq. by eapply lookup_lt_Some.
  - intros i r Hi [[-> _]|[_ Hr]]%lookup_insert_list_cases; [done|by eapply Ho].
Qed.

Lemma pending_keeps d d' p p' w :
  keeps d d' p' → closed_writers (d_pipes d) ⊆ closed_writers (d_pipes d') →
  pending d w p → pending d' w p ∨ hung_up w p'.
Proof.
  intros [_ Hl] Hc. specialize (Hl w).
  destruct p as [| | | | | | | | | | | | |u lm todo|u lm w' r todo|u lm w' r todo|u lm w' r todo| |]; simpl; try done;
    auto; [intros [Hw ?]; destruct (Hl Hw); auto|..]; intros [(? & Hw & ?)|Hr]; try (destruct (Hl Hw); auto); auto.
  left. right. destruct Hr as (? & ? & ?). split_and!; [done|done|set_solver].
Qed.

Lemma doomed_step w s s' : doomed w s → link_system s s' → doomed w s'.
Proof.
  intros Hd Hst. destruct Hst as [d ts k q d' q' Hk Hq].
  assert (Hkl : (k < length ts)%nat) by (by eapply lookup_lt_Some).
  pose proof (pipes_grow _ _ _ _ Hq) as [Hg1 Hg2].
  destruct Hd as [(i & p & Hi & Hp)|[[H1 H2]|(p & Hgood & Hpend)]]; simpl in *.
  - left. destruct (decide (i = k)) as [->|Hne].
    + exists k, q'. simplify_eq. split; [by apply list_lookup_insert_eq|by eapply hung_up_step].
    + exists i, p. simpl. by rewrite list_lookup_insert_ne.
  - right. left. split; simpl; set_solver.
  - destruct (decide (k = j)) as [->|Hne].
    + pose proof Hgood as (Hj & Hp & Hs & _). simpl in *. assert (q = p) as -> by congruence.
      destruct (remover_step d p d' q' Hs Hp Hq) as (Hact & _ & Hcut).
      destruct (Hcut w Hpend) as [Hpend'|?]; [|right; by left].
      destruct Hact as [[Hp' Hs']|[u ->]]; [|done].
      right. right. exists q'. split; [by eapply (good_own (d, ts))|done].
    + destruct (good_other (d, ts) d' k q q' p Hgood Hne Hk Hq) as [Hgood' Hke].
      destruct (pending_keeps d d' p q' w Hke Hg1 Hpend) as [?|Hh].
      * right. right. by exists p.
      * left. exists k, q'. simpl. split; [by apply list_lookup_insert_eq|done].
Qed.

(** ** Which links are doomed *)

(** The link of the connection is registered. *)
Definition added (p : link_pc) : option conn :=
  match p with
  | OCounter c _ | OCounterStore c _ _ | OGet c _ _ => if k_direct c then None else Some c
  | ODone c _ _ => Some c
  | _ => None
  end.

Lemma added_managed c lm : added (managed c lm) = None.
Proof. unfold managed. destruct (k_direct c) eqn:Hd; simpl; by rewrite ?Hd. Qed.

Lemma added_step d p d' p' c :
  link_step d p d' p' → added p' = Some c → added p = Some c ∨
  ∃ lm got, p = OAdd c lm got ∧ d' = with_links lm (AddLink (k_writer c) (k_reader c) (links_of d lm)) d.
Proof.
  intros Hst. destruct Hst as [p d' p' Hst|c0 lm ts|u lm w' r todo _]; [|done..]. unfold link_next in Hst.
  destruct p as [c0|c0 lm|c0 lm got|c0 lm|c0 lm t|c0 lm t| | | | | | | |u lm [|w todo]| | | | |]; simpl in *;
    try (repeat case_match; by simplify_eq/=).
  - destruct (d_LinkManagers d !! k_email c0); simplify_eq/=; by rewrite ?added_managed.
  - simplify_eq/=. by rewrite added_managed.
  - simplify_eq/=. intros Ha. right. exists lm, got. destruct got; simpl in Ha; [by simplify_eq|].
    destruct (k_direct c0); by simplify_eq.
  - destruct (d_Counter d !! k_tag c0); simplify_eq/=; auto.
  - simplify_eq/=. auto.
  - destruct (GetCounter _ _ _) as [[h tc] ts]. simplify_eq/=. destruct (k_direct c0); simpl; auto.
Qed.

(** Until the [j]-th goroutine walks, every registered link of the user is
    doomed. *)
Definition covered (s : dtables * list link_pc) : Prop :=
  ∃ p, s.2 !! j = Some p ∧
    ((before_walk p ∧ good_at s p ∧
      ∀ k q c, s.2 !! k = Some q → added q = Some c → k_email c = e → doomed (k_writer c) s) ∨ past p).

Lemma before_step d p d' p' :
  shared_ok d → active p → before_walk p → link_step d p d' p' →
  past p' ∨ (before_walk p' ∧ active p' ∧ shared_ok d').
Proof.
  intros Hs Ha Hb Hst. destruct (remover_step d p d' p' Hs Ha Hst) as ([[Ha' Hs']|[u ->]] & _); [|by left].
  destruct Hst as [p d' p' Hst|c lm ts|u lm w r todo _]; [|done..]. unfold link_next in Hst.
  destruct p; simpl in *; try done.
  - right. split; [|done]. destruct (d_Counter d !! tag); by simplify_eq/=.
  - right. split; [|done]. by simplify_eq/=.
  - destruct (d_LinkManagers d !! user); simplify_eq/=; [by right|by left].
  - left. by simplify_eq/=.
Qed.

Lemma covered_step s s' : covered s → link_system s s' → covered s'.
Proof.
  intros (p & Hj & Hp) Hst. pose proof (λ w Hd, doomed_step w s s' Hd Hst) as Hdoom.
  destruct Hst as [d ts k q d' q' Hk Hq]. simpl in *.
  assert (Hkl : (k < length ts)%nat) by (by eapply lookup_lt_Some).
  destruct (decide (k = j)) as [->|Hne].
  - assert (q = p) as -> by congruence. exists q'. simpl. split; [by apply list_lookup_insert_eq|].
    destruct Hp as [(Hb & Hg & Hreg)|Hp]; [|right; by eapply past_step].
    pose proof Hg as (_ & Ha & Hs & _). simpl in *.
    destruct (before_step d p d' q' Hs Ha Hb Hq) as [?|(Hb' & Ha' & Hs')]; [by right|left].
    split; [done|]. split; [by eapply (good_own (d, ts))|].
    intros i r c [[-> <-]|[_ Hr]]%lookup_insert_list_cases Hadd He.
    + destruct q'; done.
    + by eapply Hdoom, Hreg.
  - exists p. simpl. rewrite list_lookup_insert_ne by done. split; [done|].
    destruct Hp as [(Hb & Hg & Hreg)|Hp]; [left|by right].
    pose proof Hg as (_ & _ & _ & Ho). pose proof (Ho _ _ Hne Hk) as Hq0.
    destruct (good_other (d, ts) d' k q q' p Hg Hne Hk Hq) as [Hg' _].
    split; [done|]. split; [exact Hg'|].
    intros i r c [[-> <-]|[_ Hr]]%lookup_insert_list_cases Hadd He; [|by eapply Hdoom, Hreg].
    destruct (added_step _ _ _ _ _ Hq Hadd) as [Hold|(lm & got & -> & ->)]; [by eapply Hdoom, Hreg|].
    destruct Hq0 as [Hc Hlm]. rewrite (Hlm He). right. right. exists p. rewrite (Hlm He) in Hg'.
    split; [exact Hg'|]. pose proof (held_added d c Hc). by destruct p.
Qed.

Lemma covered_run s s' : rtc link_system s s' → covered s → covered s'.
Proof. induction 1 as [|s1 s2 s3 H _ IH]; [done|]. intros Hc. by eapply IH, covered_step. Qed.

Lemma doomed_run w s s' : rtc link_system s s' → doomed w s → doomed w s'.
Proof. induction 1 as [|s1 s2 s3 H _ IH]; [done|]. intros Hd. by eapply IH, doomed_step. Qed.
End removal.

(** A goroutine at the start: a connection that is about to open, whose writer
    is paired with the one reader; one that is open, its link in the manager of
    its user; or the removal of a user. *)
Definition starts (reader_of : nat → nat) (d : dtables) (p : link_pc) : Prop :=
  match p with
  | OLoad c => k_reader c = reader_of (k_writer c)
  | ODone c lm _ => k_reader c = reader_of (k_writer c) ∧ d_LinkManagers d !! k_email c = Some lm ∧
                    links_of d lm !! k_writer c = Some (k_reader c)
  | DCounter _ _ => True
  | _ => False
  end.

Definition removed_user (p : link_pc) : option string :=
  match p with
  | DCounter _ u | DForget u _ | DLoad u | DRange u _ | DWalk u _ _ | DUnlink u _ _ _ _ | DShut u _ _ _ _
  | DInterrupt u _ _ _ _ | DDelete u | DDone u => Some u
  | _ => None
  end.


(** * Connections of a node that has its counter count where reports look *)
Section counted.
Variable tag : string.
Variable t0 : nat.

Definition table0 (d : dtables) : TrafficCounter := default ∅ (d_counters d !! t0).

Definition node_ok (d : dtables) : Prop := d_Counter d !! tag = Some t0 ∧ is_Some (d_counters d !! t0).

Definition count_ok (d : dtables) (p : link_pc) : Prop :=
  match p with
  | OLoad _ | OStore _ _ | OCounter _ _ | OUnlinked _ | OClosed _ => True
  | OCounterStore c _ t => k_tag c ≠ tag
  | OGet c _ t => k_tag c = tag → t = t0
  | OAdd c _ (Some ts) | ODone c _ ts => k_tag c = tag → table0 d !! k_email c = Some ts
  | OAdd _ _ None => True
  | _ => False
  end.

Lemma count_managed d c lm : count_ok d (managed c lm).
Proof. unfold managed. by destruct (k_direct c). Qed.

Lemma GetCounter_grows h (c : TrafficCounter) u h' c' ts :
  GetCounter h c u = (h', c', ts) → c ⊆ c' ∧ c' !! u = Some ts.
Proof.
  unfold GetCounter, LoadOrStore. destruct (c !! u) as [l|] eqn:Hu; intros; simplify_eq/=; [done|].
  split; [by apply insert_subseteq|apply lookup_insert_eq].
Qed.

Lemma count_step d p d' p' :
  node_ok d → count_ok d p → link_step d p d' p' →
  node_ok d' ∧ count_ok d' p' ∧ table0 d ⊆ table0 d'.
Proof.
  intros [Hn Ha] Hp Hst. destruct Hst as [p d' p' Hst|c lm ts|u lm w r todo _]; [|by split_and!|done].
  unfold link_next in Hst. unfold node_ok, table0.
  destruct p as [c|c lm|c lm got|c lm|c lm t|c lm t| | | | | | | | | | | | |]; simpl in *; try done.
  - destruct (d_LinkManagers d !! k_email c); simplify_eq/=; by split_and!; try apply count_managed.
  - simplify_eq/=. by split_and!; try apply count_managed.
  - simplify_eq/=. split_and!; [done|done| |done]. by destruct got.
  - destruct (d_Counter d !! k_tag c) as [t|] eqn:Ht; simplify_eq/=.
    + split_and!; try done. intros Hc. congruence.
    + assert (Hne : fresh (dom (d_counters d)) ≠ t0).
      { intros Hf. apply (is_fresh (dom (d_counters d))). rewrite Hf. by apply elem_of_dom. }
      rewrite lookup_insert_ne by done. split_and!; try done. intros Hc. congruence.
  - simplify_eq/=. rewrite lookup_insert_ne by done. by split_and!.
  - destruct (GetCounter _ _ _) as [[h tc] ts] eqn:Hg. apply GetCounter_grows in Hg as [Hsub Hts].
    simplify_eq/=. destruct (decide (t = t0)) as [->|Hne].
    + rewrite lookup_insert_eq. split_and!; [done|by eexists| |done].
      destruct (k_direct c); simpl; unfold table0; simpl; by rewrite lookup_insert_eq.
    + rewrite lookup_insert_ne by done. split_and!; try done.
      destruct (k_direct c); simpl; intros Hc; by destruct Hne, Hp.
  - simplify_eq/=. by split_and!.
Qed.
End counted.

(** Once a node has its traffic counter, connections may open in any
    interleaving: each that got through holds the storage that the node's
    table keeps for its user, where the report finds what it counts. *)
Theorem counted_in_table tag t0 d cs d' ps i c lm ts :
  d_Counter d !! tag = Some t0 → is_Some (d_counters d !! t0) →
  rtc link_system (d, OLoad <$> cs) (d', ps) → ps !! i = Some (ODone c lm ts) → k_tag c = tag →
  deref (d_counters d') (d_Counter d') !! tag ≫= (.!! k_email c) = Some ts.
Proof.
  intros Hn Ha Hr Hi Hc.
  eapply (pool_invariant link_step (node_ok tag t0) (count_ok tag t0)) in Hr as [[Hn' [tc Ht]] HL]; simpl.
  - simpl in *. rewrite deref_lookup, Hn'. simpl. by apply (HL _ _ Hi).
  - intros s p s' p' HI Hp Hst. destruct (count_step tag t0 s p s' p' HI Hp Hst) as (? & ? & Hg).
    split_and!; [done..|]. intros [| |? ? []| | | | | | | | | | | | | | | |] Hq; simpl in *; try done;
      intros Hk; by eapply lookup_weaken; [apply Hq|].
  - done.
  - intros k p. rewrite list_lookup_fmap. by intros (c' & _ & ->)%fmap_Some.
Qed.

(** * What escapes *)

(** A removal that runs while the others wait closes the writers that are in
    the user's manager, and no other. *)
Lemma removal_runs d tag user lm :
  d_LinkManagers d !! user = Some lm → is_Some (d_managers d !! lm) →
  ∃ d', rtc (own_step link_step) (d, DCounter tag user) (d', DDone user) ∧
    d_LinkManagers d' = delete user (d_LinkManagers d) ∧
    closed_writers (d_pipes d') = dom (links_of d lm) ∪ closed_writers (d_pipes d).
Proof.
  intros Hlm Hm.
  assert (∃ n d1, run_link n d (DCounter tag user) = (d1, DLoad user) ∧
    d_managers d1 = d_managers d ∧ d_LinkManagers d1 = d_LinkManagers d ∧ d_pipes d1 = d_pipes d)
    as (n & d1 & Hr & Hm1 & Hl1 & Hp1).
  { destruct (d_Counter d !! tag) as [tc|] eqn:Ht.
    - exists 2%nat. eexists. split; [simpl; unfold link_next; simpl; by rewrite Ht|by split_and!].
    - exists 1%nat, d. split; [|by split_and!]. apply run_step. unfold link_next. simpl. by rewrite Ht. }
  pose proof (run_close_found d1 user lm) as Hc. rewrite Hl1, Hm1 in Hc. specialize (Hc Hlm Hm).
  pose proof (run_trans n _ d _ d1 _ _ Hr Hc) as Hrun. cbv zeta in Hrun.
  match type of Hrun with _ = (?d', _) => exists d' end. split; [|split; [reflexivity|]].
  - rewrite <- Hrun. apply run_alone_rtc. intros *. apply step_next.
  - unfold walked, links_of. simpl. rewrite Hm1, Hp1. f_equal. apply set_eq. intros w.
    rewrite elem_of_list_to_set, list_elem_of_fmap, elem_of_dom. split.
    + intros ([w' r] & -> & Hin%elem_of_range). by exists r.
    + intros [r Hr']. exists (w, r). by rewrite elem_of_range.
Qed.

(** A step of the [i]-th goroutine of a pool. *)
Lemma goes i s ps p s' p' c :
  ps !! i = Some p → link_next s p = Some (s', p') → rtc link_system (s', <[i := p']> ps) c →
  rtc link_system (s, ps) c.
Proof. intros Hi Hs Hr. eapply rtc_l; [|exact Hr]. econstructor; [done|by apply step_next]. Qed.

(** Two first connections of a user, opened at once, each make a manager,
    and the table keeps the second one: a removal that runs when both are
    registered cuts the second connection only, and leaves no manager through
    which a later one could cut the first. *)
Theorem first_link_escapes d c1 c2 tag user :
  k_email c1 = user → k_email c2 = user → k_writer c1 ≠ k_writer c2 →
  k_direct c1 = false → k_direct c2 = false →
  d_LinkManagers d !! user = None → (k_writer c1 ∉ closed_writers (d_pipes d)) →
  ∃ d' lm1 lm2, rtc link_system (d, [OLoad c1; OLoad c2; DCounter tag user])
                   (d', [OCounter c1 lm1; OCounter c2 lm2; DDone user]) ∧
    k_writer c2 ∈ closed_writers (d_pipes d') ∧ (k_writer c1 ∉ closed_writers (d_pipes d')) ∧
    d_LinkManagers d' !! user = None.
Proof.
  intros <- He Hw Hd1 Hd2 Hlm Hcl.
  set (f1 := fresh (dom (d_managers d))). set (m1 := <[f1 := ∅ : LinkManager]> (d_managers d)).
  set (f2 := fresh (dom m1)). set (m2 := <[f2 := ∅ : LinkManager]> m1).
  assert (Hf : f1 ≠ f2).
  { intros Hff. apply (is_fresh (dom m1)). fold f2. rewrite <- Hff. apply elem_of_dom.
    unfold m1. rewrite lookup_insert_eq. by eexists. }
  set (l1 := <[k_email c1 := f1]> (d_LinkManagers d)). set (l2 := <[k_email c1 := f2]> l1).
  set (m3 := <[f1 := AddLink (k_writer c1) (k_reader c1) (default ∅ (m2 !! f1))]> m2).
  set (m4 := <[f2 := AddLink (k_writer c2) (k_reader c2) (default ∅ (m3 !! f2))]> m3).
  destruct (removal_runs (set_links m4 l2 d) tag (k_email c1) f2) as (d' & Hr & Hl' & Hp');
    [apply lookup_insert_eq|simpl; unfold m4; rewrite lookup_insert_eq; by eexists|].
  assert (Hm4 : links_of (set_links m4 l2 d) f2 = {[k_writer c2 := k_reader c2]}).
  { unfold links_of. simpl. unfold m4. rewrite lookup_insert_eq. simpl. unfold AddLink, m3.
    rewrite lookup_insert_ne by done. unfold m2. by rewrite lookup_insert_eq. }
  rewrite Hm4, dom_singleton_L in Hp'. simpl in Hp'.
  exists d', f1, f2. split_and!.
  - eapply (goes 0); [done|unfold link_next; simpl; by rewrite Hlm|].
    eapply (goes 1); [done|unfold link_next; simpl; by rewrite He, Hlm|].
    eapply (goes 0); [done|unfold link_next; simpl; by unfold managed; rewrite Hd1|].
    eapply (goes 1); [done|unfold link_next; simpl; by unfold managed; rewrite Hd2, He|].
    eapply (goes 0); [done..|]. eapply (goes 1); [done..|].
    by apply (pool_one _ 2 _ (DCounter tag (k_email c1)) _ _
      [OCounter c1 f1; OCounter c2 f2; DCounter tag (k_email c1)]).
  - rewrite Hp'. set_solver.
  - rewrite Hp'. set_solver.
  - rewrite Hl'. apply lookup_delete_eq.
Qed.

(** A connection that found its user's manager before a removal and
    registers its link after it escapes the removal: nothing closes its writer,
    and no manager in the table knows it. *)
Theorem late_link_escapes d c tag lm :
  d_LinkManagers d !! k_email c = Some lm → is_Some (d_managers d !! lm) → k_direct c = false →
  (k_writer c ∉ dom (links_of d lm)) → (k_writer c ∉ closed_writers (d_pipes d)) →
  ∃ d', rtc link_system (d, [OLoad c; DCounter tag (k_email c)]) (d', [OCounter c lm; DDone (k_email c)]) ∧
    (k_writer c ∉ closed_writers (d_pipes d')) ∧ d_LinkManagers d' !! k_email c = None.
Proof.
  intros Hlm Hm Hdir Hw Hcl. destruct (removal_runs d tag (k_email c) lm Hlm Hm) as (d1 & Hr & Hl & Hp).
  exists (with_links lm (AddLink (k_writer c) (k_reader c) (links_of d1 lm)) d1). split_and!.
  - eapply (goes 0); [done|unfold link_next; simpl; rewrite Hlm; unfold managed; by rewrite Hdir|].
    etrans; [by apply (pool_one _ 1 _ (DCounter tag (k_email c)) d1 (DDone (k_email c))
      [OAdd c lm None; DCounter tag (k_email c)])|].
    eapply (goes 0); [done..|]. apply rtc_refl.
  - simpl. rewrite Hp. set_solver.
  - simpl. rewrite Hl. apply lookup_delete_eq.
Qed.

(** Two first connections of a node, opened at once, each make a traffic
    counter, and the node keeps the second one: the storage that the first
    connection counts into is in no table that a report reads, so that its
    traffic is never reported. *)
Theorem first_counter_lost d c1 c2 lm1 lm2 :
  k_tag c1 = k_tag c2 → k_direct c1 = false → k_direct c2 = false → d_Counter d !! k_tag c1 = None →
  ∃ d' ts1 ts2, rtc link_system (d, [OCounter c1 lm1; OCounter c2 lm2])
                                (d', [ODone c1 lm1 ts1; ODone c2 lm2 ts2]) ∧
    ts1 ≠ ts2 ∧ deref (d_counters d') (d_Counter d') !! k_tag c1 = Some {[k_email c2 := ts2]}.
Proof.
  intros Ht Hd1 Hd2 Hc.
  set (f1 := fresh (dom (d_counters d))). set (n1 := <[f1 := NewTrafficCounter]> (d_counters d)).
  set (f2 := fresh (dom n1)). set (n2 := <[f2 := NewTrafficCounter]> n1).
  assert (Hf : f1 ≠ f2).
  { intros Hff. apply (is_fresh (dom n1)). fold f2. rewrite <- Hff. apply elem_of_dom.
    unfold n1. rewrite lookup_insert_eq. by eexists. }
  set (t2 := <[k_tag c1 := f2]> (<[k_tag c1 := f1]> (d_Counter d))).
  set (ts1 := fresh (dom (d_heap d))). set (h1 := <[ts1 := TrafficStorage_zero]> (d_heap d)).
  set (ts2 := fresh (dom h1)). set (h2 := <[ts2 := TrafficStorage_zero]> h1).
  assert (Hts : ts1 ≠ ts2).
  { intros Hff. apply (is_fresh (dom h1)). fold ts2. rewrite <- Hff. apply elem_of_dom.
    unfold h1. rewrite lookup_insert_eq. by eexists. }
  set (n3 := <[f1 := {[k_email c1 := ts1]}]> n2). set (n4 := <[f2 := {[k_email c2 := ts2]}]> n3).
  assert (H1 : n2 !! f1 = Some ∅) by (unfold n2; rewrite lookup_insert_ne by done; apply lookup_insert_eq).
  assert (H2 : n3 !! f2 = Some ∅) by (unfold n3; rewrite lookup_insert_ne by done; apply lookup_insert_eq).
  exists (set_counters n4 t2 h2 d), ts1, ts2. split_and!; [|done|].
  - eapply (goes 0 _ _ _ (set_counters n1 (d_Counter d) (d_heap d) d) (OCounterStore c1 lm1 f1));
      [done|unfold link_next; simpl; by rewrite Hc|].
    eapply (goes 1 _ _ _ (set_counters n2 (d_Counter d) (d_heap d) d) (OCounterStore c2 lm2 f2));
      [done|unfold link_next; simpl; by rewrite <- Ht, Hc|].
    eapply (goes 0); [done..|].
    eapply (goes 1 _ _ _ (set_counters n2 t2 (d_heap d) d) (OGet c2 lm2 f2));
      [done|unfold link_next; simpl; by rewrite <- Ht|].
    eapply (goes 0 _ _ _ (set_counters n3 t2 h1 d) (ODone c1 lm1 ts1));
      [done|unfold link_next, GetCounter, LoadOrStore; simpl; by rewrite H1, Hd1|].
    eapply (goes 1 _ _ _ (set_counters n4 t2 h2 d) (ODone c2 lm2 ts2));
      [done|unfold link_next, GetCounter, LoadOrStore; simpl; by rewrite H2, Hd2|]. apply rtc_refl.
  - rewrite deref_lookup. simpl. unfold t2. rewrite lookup_insert_eq. simpl.
    unfold n4. by rewrite lookup_insert_eq.
Qed.
End link_conc.

(** * Witnesses *)
#[local] Existing Instance canonical_order.
#[local] Existing Instance wit_ratelimit.
#[local] Existing Instance wit_regexp.
#[local] Existing Instance wit_xray.
#[local] Existing Instance wit_net.

(** alice is connected already, through writer 1; bob is not. *)
Definition wit_dtables : dtables :=
  mkDTables {[0%nat := {[1%nat := 1%nat]}]} {["n|alice"%string := 0%nat]} ∅ ∅ ∅ (mkPipes ∅ ∅).

Lemma wit_dtables_wf : dtables_wf wit_dtables.
Proof.
  split; [|apply ptr_wf_empty]. split; simpl.
  - intros k m [<- <-]%lookup_singleton_Some. by eexists.
  - by intros k k' m [<- _]%lookup_singleton_Some [<- _]%lookup_singleton_Some.
Qed.

Definition alice_conn : conn := mkConn "n" "n|alice" 2 2 false.
Definition alice_direct : conn := mkConn "n" "n|alice" 5 5 true.
Definition alice_old : conn := mkConn "n" "n|alice" 1 1 false.
Definition bob3 : conn := mkConn "n" "n|bob" 3 3 false.
Definition bob4 : conn := mkConn "n" "n|bob" 4 4 false.

Lemma opener_refines_witness :
  ∃ d' lm ts, run_link 6 wit_dtables (OLoad bob3) = (d', ODone bob3 lm ts) ∧ dtables_wf d' ∧
    user_counter "n" "n|bob" (add_link "n|bob" 3 3 (dispatcher_of wit_dispatcher wit_dtables)) =
      (dispatcher_of wit_dispatcher d', ts).
Proof. exact (opener_refines wit_dispatcher wit_dtables bob3 wit_dtables_wf). Defined.

Lemma remover_refines_witness :
  let x := ds_core wit_dispatcher in
  ∃ d', run_link 10 wit_dtables (DCounter "n" "n|alice") = (d', DDone "n|alice") ∧ dtables_wf d' ∧
    forget_user "n" "n|alice" (xray_of x wit_dtables) =
      xray_of (xr_with_uidMap (delete "n|alice"%string (xr_uidMap x)) x) d'.
Proof. exact (remover_refines (ds_core wit_dispatcher) wit_dtables "n" "n|alice" wit_dtables_wf). Defined.

(** alice's connections through [getLink] and [DispatchLink] open, bob's first
    one too, and alice's old one hangs up, while alice is removed. *)
Definition wit_link_pool : list link_pc :=
  [OLoad alice_conn; DCounter "n" "n|alice"; OLoad bob3; OLoad alice_direct; ODone alice_old 0 7].
Definition wit_link_mid : dtables * list link_pc :=
  run_schedule link_next [0; 2; 1; 0; 3; 2; 3; 1; 3; 3; 3]%nat (wit_dtables, wit_link_pool).
Definition wit_hung_up : dtables * list link_pc :=
  (with_links 0 (RemoveWriter 1 (links_of wit_link_mid.1 0)) wit_link_mid.1,
   <[4%nat := OUnlinked alice_old]> wit_link_mid.2).
Definition wit_link_end : dtables * list link_pc :=
  run_schedule link_next [1; 0; 1; 2; 1; 1; 4; 0; 1; 1; 1; 1; 1; 1; 1; 2; 0; 1; 1; 1; 1]%nat wit_hung_up.

Lemma wit_link_run : rtc link_system wit_link_mid wit_link_end.
Proof.
  eapply rtc_l; [|apply run_schedule_rtc; intros *; apply step_next].
  rewrite (surjective_pairing wit_link_mid) at 1. eapply (pool_step_at _ _ _ 4); [|apply (step_hang_up _ alice_old 0 7)].
  vm_compute. reflexivity.
Qed.


(** The node has its counter when alice's second connection and bob open. *)
Definition wit_counted : dtables :=
  mkDTables (d_managers wit_dtables) (d_LinkManagers wit_dtables) {[0%nat := ∅]} {["n"%string := 0%nat]}
    ∅ (mkPipes ∅ ∅).
Definition wit_counted_end : dtables * list link_pc :=
  run_schedule link_next [0; 1; 0; 1; 1; 0; 1; 1; 0]%nat (wit_counted, OLoad <$> [alice_conn; bob3]).

Lemma counted_in_table_witness :
  deref (d_counters wit_counted_end.1) (d_Counter wit_counted_end.1) !! "n"%string
    ≫= (.!! "n|alice"%string) = Some 1%nat.
Proof.
  apply (counted_in_table "n" 0 wit_counted [alice_conn; bob3] wit_counted_end.1 wit_counted_end.2 0
    alice_conn 0 1).
  - reflexivity.
  - by eexists.
  - rewrite <- surjective_pairing. apply run_schedule_rtc. intros *. apply step_next.
  - vm_compute. reflexivity.
  - reflexivity.
Defined.

Lemma first_link_escapes_witness :
  ∃ d' lm1 lm2, rtc link_system (wit_dtables, [OLoad bob3; OLoad bob4; DCounter "n" "n|bob"])
                   (d', [OCounter bob3 lm1; OCounter bob4 lm2; DDone "n|bob"]) ∧
    (4 ∈ closed_writers (d_pipes d'))%nat ∧ (3 ∉ closed_writers (d_pipes d'))%nat ∧
    d_LinkManagers d' !! "n|bob"%string = None.
Proof. apply (first_link_escapes wit_dtables bob3 bob4 "n" "n|bob"); by_decide. Defined.

Lemma late_link_escapes_witness :
  ∃ d', rtc link_system (wit_dtables, [OLoad alice_conn; DCounter "n" "n|alice"])
                   (d', [OCounter alice_conn 0; DDone "n|alice"]) ∧
    (2 ∉ closed_writers (d_pipes d'))%nat ∧ d_LinkManagers d' !! "n|alice"%string = None.
Proof. apply (late_link_escapes wit_dtables alice_conn "n" 0); by_decide. Defined.

Lemma first_counter_lost_witness :
  ∃ d' ts1 ts2, rtc link_system (wit_dtables, [OCounter bob3 0; OCounter alice_conn 0])
                           (d', [ODone bob3 0 ts1; ODone alice_conn 0 ts2]) ∧
    ts1 ≠ ts2 ∧ deref (d_counters d') (d_Counter d') !! "n"%string = Some {["n|alice"%string := ts2]}.
Proof. by apply (first_counter_lost wit_dtables bob3 alice_conn). Defined.
