(* ===== verification/GeoLoader.v ===== *)
(** The geo databases of the hysteria2 core's access lists:
    src/core/hy2/geoloader.go.

    The host (files, clock, download) and the reader of the databases
    (package v2geo) are parameters.  [LoadGeoIP] and [LoadGeoSite] are the same
    code on two databases and are instances of one definition. *)

From S2P Require Import Prelude GoStd.
From stdpp Require Import prelude strings.
From Stdlib Require Import ZArith Lia.

Open Scope string_scope.

(** What [os.Stat] says of a file. *)
Inductive stat_result : Type :=
| StatFile (size modTime : Z)
| StatNotExist
| StatError.

Class GeoHost (W : Type) := {
  Stat : string → W → stat_result;
  time_Now : W → Z;
  Body : Type;
  http_Get : string → W → W * (string + Body);
  CreateTemp : string → W → W * (string + string);     (* the new file's name *)
  io_Copy : string → Body → W → W * option string;     (* into the file of that name *)
  os_Remove : string → W → W;
  Rename : string → string → W → W * option string;
}.

Definition geoipFilename : string := "geoip.dat".
Definition geoipURL : string :=
  "https://cdn.jsdelivr.net/gh/Loyalsoldier/v2ray-rules-dat@release/geoip.dat".
Definition geositeFilename : string := "geosite.dat".
Definition geositeURL : string :=
  "https://cdn.jsdelivr.net/gh/Loyalsoldier/v2ray-rules-dat@release/geosite.dat".
Definition geoDlTmpPattern : string := ".hysteria-geoloader.dlpart.*".
Definition geoDefaultUpdateInterval : Z := 7 * 24 * 3600 * 1000000000.

(** [time.Since]: the difference, held at the ends of the duration's range. *)
Definition Since (now t : Z) : Z :=
  Z.max (-9223372036854775808) (Z.min 9223372036854775807 (now - t)).

Section loader.
Context {W : Type} `{GH : GeoHost W}.

(** [info] is nil after an error, and an error other than "does not exist"
    passes the first test. *)
Definition shouldDownload (updateInterval : Z) (filename : string) (w : W) : res string bool :=
  match Stat filename w with
  | StatNotExist => Ok true
  | StatError => nil_pointer
  | StatFile size modTime =>
      if decide (size = 0%Z) then Ok true
      else
        let dt := Since (time_Now w) modTime in
        Ok (bool_decide (dt > if decide (updateInterval = 0%Z) then geoDefaultUpdateInterval else updateInterval)%Z)
  end.

(** The error, if any; the temporary file is removed on every way out. *)
Definition downloadAndCheck (filename url : string) (checkFunc : string → W → option string) (w : W)
    : W * option string :=
  match http_Get url w with
  | (w, inr body) =>
      match CreateTemp geoDlTmpPattern w with
      | (w, inr f) =>
          let '(w, err) :=
            match io_Copy f body w with
            | (w, Some e) => (w, Some e)
            | (w, None) =>
                match checkFunc f w with
                | Some e => (w, Some e)
                | None => Rename f filename w
                end
            end in
          (os_Remove f w, err)
      | (w, inl e) => (w, Some e)
      end
  | (w, inl e) => (w, Some e)
  end.

Section database.
Context {Map : Type} (load : string → W → string + Map).

Definition check_load (filename : string) (w : W) : option string :=
  match load filename w with inr _ => None | inl e => Some e end.

(** The file, read at the end; what is read is kept in the loader. *)
Definition load_file (filename : string) (w : W) : W * option Map * res string Map :=
  match load filename w with
  | inr m => (w, Some m, Ok m)
  | inl e => (w, None, Err e)
  end.

(** Download the file; when that fails, fall back to the one that is there. *)
Definition redownload (filename url : string) (w : W) : W * option Map * res string Map :=
  match downloadAndCheck filename url check_load w with
  | (w, None) => load_file filename w
  | (w, Some e) =>
      match Stat filename w with
      | StatNotExist => (w, None, Err e)
      | _ => load_file filename w
      end
  end.

(** The world, the loader's cached map and the result. *)
Definition LoadGeo (default_name url : string) (cached : option Map) (configured : string)
    (updateInterval : Z) (w : W) : W * option Map * res string Map :=
  match cached with
  | Some m => (w, cached, Ok m)
  | None =>
      if decide (configured = "") then
        match shouldDownload updateInterval default_name w with
        | Err e => (w, None, Err e)
        | Panic p => (w, None, Panic p)
        | Ok true => redownload default_name url w
        | Ok false =>
            match load default_name w with
            | inr m => (w, Some m, Ok m)
            | inl _ => redownload default_name url w     (* the file is broken *)
            end
        end
      else load_file configured w
  end.
End database.

Context {GeoIPMap GeoSiteMap : Type}.
Context (v2geo_LoadGeoIP : string → W → string + GeoIPMap).
Context (v2geo_LoadGeoSite : string → W → string + GeoSiteMap).

Record GeoLoader := mkGeoLoader {
  gl_GeoIPFilename : string;
  gl_GeoSiteFilename : string;
  gl_UpdateInterval : Z;
  gl_geoipMap : option GeoIPMap;
  gl_geositeMap : option GeoSiteMap;
}.

Definition LoadGeoIP (l : GeoLoader) (w : W) : W * GeoLoader * res string GeoIPMap :=
  let '(w, m, r) := LoadGeo v2geo_LoadGeoIP geoipFilename geoipURL (gl_geoipMap l)
                      (gl_GeoIPFilename l) (gl_UpdateInterval l) w in
  (w, mkGeoLoader (gl_GeoIPFilename l) (gl_GeoSiteFilename l) (gl_UpdateInterval l) m (gl_geositeMap l), r).

Definition LoadGeoSite (l : GeoLoader) (w : W) : W * GeoLoader * res string GeoSiteMap :=
  let '(w, m, r) := LoadGeo v2geo_LoadGeoSite geositeFilename geositeURL (gl_geositeMap l)
                      (gl_GeoSiteFilename l) (gl_UpdateInterval l) w in
  (w, mkGeoLoader (gl_GeoIPFilename l) (gl_GeoSiteFilename l) (gl_UpdateInterval l) (gl_geoipMap l) m, r).
End loader.
Arguments GeoLoader : clear implicits.

(** * Lemmas *)
Section lemmas.
Context {W : Type} `{GH : GeoHost W} {Map : Type} (load : string → W → string + Map).

Lemma load_file_Ok f w w' c m :
  load_file load f w = (w', c, Ok m) ↔ w' = w ∧ c = Some m ∧ load f w = inr m.
Proof. unfold load_file. destruct (load f w); naive_solver. Qed.

(** ** What the loader asks of the host

    Every call but a rename leaves the other files as they are, as far as
    [Stat] and the reader can tell; a rename that fails leaves all of them. *)
Definition same_file (f : string) (w w' : W) : Prop :=
  Stat f w' = Stat f w ∧ load f w' = load f w.

#[global] Instance same_file_po f : PreOrder (same_file f).
Proof. split; [by split|]. intros x y z [] []. split; congruence. Qed.

Class GeoFrame := {
  frame_Get : ∀ f u w, same_file f w (http_Get u w).1;
  frame_Temp : ∀ f p w, Stat f w ≠ StatNotExist →
    same_file f w (CreateTemp p w).1 ∧ (CreateTemp p w).2 ≠ inr f;
  frame_Copy : ∀ f t b w, t ≠ f → same_file f w (io_Copy t b w).1;
  frame_Remove : ∀ f t w, t ≠ f → same_file f w (os_Remove t w);
  frame_Rename : ∀ f a b w e, (Rename a b w).2 = Some e → same_file f w (Rename a b w).1;
}.

Lemma downloadAndCheck_keeps `{GF : !GeoFrame} filename url check w w' e :
  Stat filename w ≠ StatNotExist →
  downloadAndCheck filename url check w = (w', Some e) → same_file filename w w'.
Proof.
  intros Hex. unfold downloadAndCheck. pose proof (frame_Get filename url w) as Hg.
  destruct (http_Get url w) as [w1 [e1|body]]; cbn [fst] in Hg; [by intros [= <- _]|].
  destruct (frame_Temp filename geoDlTmpPattern w1) as [Ht Hn]; [destruct Hg as [-> _]; done|].
  destruct (CreateTemp _ w1) as [w2 [e2|f]]; cbn [fst snd] in *;
    [intros [= <- _]; by etransitivity|].
  assert (f ≠ filename) as Hf by congruence.
  assert (Hc := frame_Copy filename f body w2 Hf).
  assert (Hr := λ w, frame_Remove filename f w Hf).
  destruct (io_Copy f body w2) as [w3 [e3|]]; cbn [fst] in *.
  - intros [= <- _]. by do 3 (etransitivity; [eassumption|]).
  - destruct (check f w3) as [e3|].
    + intros [= <- _]. by do 3 (etransitivity; [eassumption|]).
    + destruct (Rename f filename w3) as [w4 e4] eqn:Hn4. intros [= <- ->].
      pose proof (frame_Rename filename f filename w3 e) as Hk. rewrite Hn4 in Hk.
      specialize (Hk eq_refl). by do 4 (etransitivity; [eassumption|]).
Qed.

(** A download that succeeds was checked and renamed into place. *)
Lemma downloadAndCheck_ok filename url check w w' :
  downloadAndCheck filename url check w = (w', None) →
  ∃ f w1 w2, check f w1 = None ∧ Rename f filename w1 = (w2, None) ∧ w' = os_Remove f w2.
Proof.
  unfold downloadAndCheck. destruct (http_Get url w) as [w1 [e1|body]]; [done|].
  destruct (CreateTemp _ w1) as [w2 [e2|f]]; [done|].
  destruct (io_Copy f body w2) as [w3 [e3|]]; [done|]. destruct (check f w3) eqn:Hc; [done|].
  destruct (Rename f filename w3) as [w4 e4] eqn:Hn. intros [= <- ->]. eauto 6.
Qed.
End lemmas.

(** * Properties *)
Section properties.
Context {W : Type} `{GH : GeoHost W} {Map : Type} (load : string → W → string + Map).

Lemma load_file_cached f w w' c m : load_file load f w = (w', c, Ok m) → c = Some m.
Proof. rewrite load_file_Ok. naive_solver. Qed.

Lemma redownload_cached name url w w' c m : redownload load name url w = (w', c, Ok m) → c = Some m.
Proof.
  unfold redownload. destruct (downloadAndCheck _ _ _ _) as [w1 [e|]]; [|apply load_file_cached].
  destruct (Stat name w1); try apply load_file_cached. done.
Qed.

Lemma redownload_returns name url w : no_panic (redownload load name url w).2.
Proof.
  assert (∀ f w, no_panic (load_file load f w).2) by (intros; unfold load_file; by case_match).
  unfold redownload. destruct (downloadAndCheck _ _ _ _) as [w1 [e|]]; [|done]. by case_match.
Qed.

(** The only way to panic: a database that is to be found automatically, and whose
    file [os.Stat] fails on for another reason than its absence. *)
Lemma LoadGeo_panics_iff name url cached configured interval w :
  ¬ no_panic (LoadGeo load name url cached configured interval w).2 ↔
  cached = None ∧ configured = "" ∧ Stat name w = StatError.
Proof.
  unfold LoadGeo, shouldDownload. destruct cached as [m|]; [naive_solver|].
  pose proof (redownload_returns name url w) as Hr.
  case_decide; [|unfold load_file; case_match; naive_solver].
  destruct (Stat name w); [|naive_solver..].
  repeat case_decide; try naive_solver; case_bool_decide; try naive_solver;
    destruct (load name w); naive_solver.
Qed.

(** An automatic database survives a download that fails.  As long as the file
    is there and readable the loader returns it, whether it is fresh or is
    stale and cannot be updated; otherwise what it returns is read from a file
    that was downloaded, checked and moved into its place. *)
Theorem LoadGeo_fallback `{GF : !GeoFrame load} name url interval w m size t :
  Stat name w = StatFile size t → load name w = inr m →
  ∃ w' c r, LoadGeo load name url None "" interval w = (w', c, r) ∧
    (r = Ok m ∧ c = Some m ∨
     load_file load name w' = (w', c, r) ∧
     ∃ f w1 w2 m', load f w1 = inr m' ∧ Rename f name w1 = (w2, None) ∧ w' = os_Remove f w2).
Proof.
  intros Hs Hm. unfold LoadGeo. rewrite decide_True by done. unfold shouldDownload. rewrite Hs.
  assert (∃ w' c r, redownload load name url w = (w', c, r) ∧
    (r = Ok m ∧ c = Some m ∨ load_file load name w' = (w', c, r) ∧
     ∃ f w1 w2 m', load f w1 = inr m' ∧ Rename f name w1 = (w2, None) ∧ w' = os_Remove f w2)) as Hd.
  { unfold redownload. destruct (downloadAndCheck _ _ _ _) as [w1 [e|]] eqn:Hdl.
    - apply (downloadAndCheck_keeps load) in Hdl as [Hs1 Hl1]; [|by rewrite Hs].
      rewrite Hs1, Hs. unfold load_file. rewrite Hl1, Hm. eauto 10.
    - apply downloadAndCheck_ok in Hdl as (f & w2 & w3 & Hc & Hn & ->).
      unfold check_load in Hc. destruct (load f w2) as [e|m'] eqn:Hlf; [done|].
      unfold load_file. destruct (load name (os_Remove f w3)) eqn:Hl;
        (do 3 eexists; split; [done|right; split; [by rewrite Hl|eauto 10]]). }
  case_decide; [exact Hd|]. case_bool_decide; [exact Hd|]. rewrite Hm. eauto 10.
Qed.
End properties.

Section loaders.
Context {W : Type} `{GH : GeoHost W} {GeoIPMap GeoSiteMap : Type}.
Context (loadIP : string → W → string + GeoIPMap).

(** A database is read once: what a successful call returned is returned by
    every later one, whatever became of the files, and without touching them. *)
Lemma LoadGeoIP_once (l : GeoLoader GeoIPMap GeoSiteMap) w w' l' m :
  LoadGeoIP loadIP l w = (w', l', Ok m) →
  gl_geositeMap l' = gl_geositeMap l ∧ ∀ w2, LoadGeoIP loadIP l' w2 = (w2, l', Ok m).
Proof.
  unfold LoadGeoIP. destruct (LoadGeo _ _ _ _ _ _ _) as [[w1 c] r] eqn:Hl. intros [= <- <- ->].
  split; [done|]. intros w2. cbn [gl_geoipMap gl_GeoIPFilename gl_UpdateInterval].
  assert (c = Some m) as ->; [|done]. revert Hl. unfold LoadGeo.
  destruct (gl_geoipMap l) as [m0|]; [by intros [= _ <- <-]|].
  case_decide; [|apply load_file_cached].
  destruct (shouldDownload _ _ _) as [[]| |]; [apply redownload_cached| |done..].
  destruct (loadIP _ _); [apply redownload_cached|by intros [= _ <- <-]].
Qed.
End loaders.

(** * Witness: a host whose download always fails *)
#[local] Instance wit_geo : GeoHost unit := {|
  Stat := λ f _, if decide (f = "geoip.dat") then StatFile 10 0 else StatNotExist;
  time_Now := λ _, (10 ^ 18)%Z;
  Body := unit;
  http_Get := λ _ w, (w, inl "offline");
  CreateTemp := λ _ w, (w, inr "tmp");
  io_Copy := λ _ _ w, (w, None); os_Remove := λ _ w, w; Rename := λ _ _ w, (w, None);
|}.

Lemma LoadGeo_fallback_witness :
  (LoadGeo (λ _ _, inr "database") geoipFilename geoipURL None "" 0%Z tt).2 = Ok "database".
Proof.
  assert (GeoFrame (λ _ _, inr "database") (W:=unit)) as GF.
  { split; try done. intros f p w Hf. split; [done|]. intros [= <-]. by vm_compute in Hf. }
  edestruct (LoadGeo_fallback (λ _ _, inr "database") geoipFilename geoipURL 0%Z tt "database" 10%Z 0%Z)
    as (w' & c & r & E & H); [vm_compute; reflexivity|reflexivity|].
  rewrite E. destruct H as [[-> _]|[E' _]]; [reflexivity|]. unfold load_file in E'. by injection E' as _ <-.
Defined.
