(* ===== verification/Hy2Core.v ===== *)
(** The hysteria2 core's users, hooks and event logger: src/core/hy2/user.go,
    hook.go, logger.go, hy2.go and the removal half of node.go.

    The hysteria server is a parameter ([Hy2Lib]).  All nodes of the core share
    one authenticator, a table from uuid to uid. *)

From S2P Require Import Prelude GoStd Conf Panel Counter Traffic Limiter UserDiff Core.
From stdpp Require Import prelude gmap strings.
From Stdlib Require Import ZArith Lia.

Open Scope string_scope.

Class Hy2Lib := {
  HyServer : Type;
  HyWorld : Type;
  server_Close : HyServer → HyWorld → HyWorld * res string unit;
}.

(** net.Addr, by its dynamic type *)
Inductive Addr : Type :=
| TCPAddr (ip : string)
| UDPAddr (ip : string)
| IPAddr (ip : string)
| OtherAddr (network : string).

Definition Addr_Network (a : Addr) : string :=
  match a with TCPAddr _ => "tcp" | UDPAddr _ => "udp" | IPAddr _ => "ip" | OtherAddr n => n end.

Definition extractIPFromAddr (a : Addr) : string :=
  match a with TCPAddr ip | UDPAddr ip | IPAddr ip => ip | OtherAddr _ => "" end.

(** * The authenticator *)
Abbreviation usersMap := (gmap string Z).

Definition Authenticate (v : usersMap) (auth : string) : bool * string :=
  match v !! auth with Some _ => (true, auth) | None => (false, "") end.

Definition hy2_add (v : usersMap) (u : UserInfo) : usersMap := <[user_Uuid u := user_Id u]> v.
Definition hy2_del (v : usersMap) (u : UserInfo) : usersMap := delete (user_Uuid u) v.

Definition Hy2_Protocols : list string := ["hysteria2"].
Definition Hy2_Type : string := "hysteria2".

Section hy2.
Context `{HL : Hy2Lib} `{RO : RangeOrder} `{RL : RatelimitLib} `{RE : RegexpLib}.

(** A node with its [HookServer]: the counter map and the threshold. *)
Record Hysteria2node := mkHysteria2node {
  hn_server : HyServer;
  hn_Counter : node_counters;
  hn_ReportMinTrafficBytes : Z;
}.

Record Hysteria2 := mkHysteria2 {
  hy_world : HyWorld;
  hy_nodes : gmap string Hysteria2node;
  hy_Auth : usersMap;
  hy_heap : heap;
}.

Definition hy_with_Auth a (h : Hysteria2) := mkHysteria2 (hy_world h) (hy_nodes h) a (hy_heap h).
Definition hy_with_node tag n hp (h : Hysteria2) :=
  mkHysteria2 (hy_world h) (<[tag := n]> (hy_nodes h)) (hy_Auth h) hp.

(** * user.go

    One goroutine per user takes the lock and writes its entry;
    [hy2_any_order] shows that their order does not matter. *)
Definition Hy2_AddUsers (p : AddUsersParams) (h : Hysteria2) : Hysteria2 * res string Z :=
  (hy_with_Auth (foldl hy2_add (hy_Auth h) (aup_Users p)) h, Ok (Z.of_nat (length (aup_Users p)))).

(** The counters are dropped by the calling goroutine; a node that does not
    exist is a nil dereference. *)
Fixpoint hy2_drop (users : list UserInfo) (tag : string) (h : Hysteria2) : Hysteria2 * res string unit :=
  match users with
  | [] => (h, Ok tt)
  | u :: users =>
      match hy_nodes h !! tag with
      | None => (h, Panic "nil pointer dereference")
      | Some n =>
          hy2_drop users tag
            (hy_with_node tag (mkHysteria2node (hn_server n) (node_Delete (hn_Counter n) tag (user_Uuid u))
               (hn_ReportMinTrafficBytes n)) (hy_heap h) h)
      end
  end.

Definition Hy2_DelUsers (users : list UserInfo) (tag : string) (info : NodeInfo) (h : Hysteria2)
    : Hysteria2 * res string unit :=
  let '(h, r) := hy2_drop users tag h in
  match r with
  | Ok _ => (hy_with_Auth (foldl hy2_del (hy_Auth h) users) h, Ok tt)
  | _ => (h, r)
  end.

Definition Hy2_GetUserTrafficSlice (tag : string) (reset : bool) (h : Hysteria2)
    : Hysteria2 * res string (list UserTraffic) :=
  match hy_nodes h !! tag with
  | None => (h, Ok [])
  | Some n =>
      let '(hp, c, s) := node_slice (zlookup (hy_Auth h)) (hn_ReportMinTrafficBytes n) reset
                           (hy_heap h) (hn_Counter n) tag in
      (hy_with_node tag (mkHysteria2node (hn_server n) c (hn_ReportMinTrafficBytes n)) hp h, Ok s)
  end.

(** * node.go, removal; hy2.go, Close *)
Definition Hy2_DelNode (tag : string) (h : Hysteria2) : Hysteria2 * res string unit :=
  match hy_nodes h !! tag with
  | None => (h, Panic "nil pointer dereference")
  | Some n =>
      let '(w, r) := server_Close (hn_server n) (hy_world h) in
      match r with
      | Ok _ => (mkHysteria2 w (delete tag (hy_nodes h)) (hy_Auth h) (hy_heap h), Ok tt)
      | _ => (mkHysteria2 w (hy_nodes h) (hy_Auth h) (hy_heap h), r)
      end
  end.

Fixpoint close_nodes (ns : list (string * Hysteria2node)) (w : HyWorld) : HyWorld * res string unit :=
  match ns with
  | [] => (w, Ok tt)
  | (_, n) :: ns =>
      let '(w, r) := server_Close (hn_server n) w in
      match r with Ok _ => close_nodes ns w | _ => (w, r) end
  end.

Definition Hy2_Close (h : Hysteria2) : Hysteria2 * res string unit :=
  let '(w, r) := close_nodes (range (hy_nodes h)) (hy_world h) in
  (mkHysteria2 w (hy_nodes h) (hy_Auth h) (hy_heap h), r).

(** * logger.go: Connect, TCPRequest and UDPRequest

    All three check the limiter and set or clear the user's [OverLimit]; a
    missing limiter is a panic of the logger. *)
Definition set_OverLimit (b : bool) (key : string) (l : Limiter) : Limiter :=
  match lim_UserLimitInfo l !! key with
  | Some u => set_UserLimitInfo (<[key := mkUserLimitInfo (uli_UID u) (uli_SpeedLimit u)
      (uli_DeviceLimit u) (uli_DynamicSpeedLimit u) (uli_ExpireTime u) b]> (lim_UserLimitInfo l)) l
  | None => l
  end.

Definition check_event (now : Z) (tag : string) (addr : Addr) (uuid : string) (r : registry)
    : res string registry :=
  p ← map_err (λ e, "Get limiter error") (GetLimiter r tag);
  match reg_heap r !! p with
  | Some l =>
      let key := UserTag tag uuid in
      let '(l, _, reject) := CheckLimit now key (extractIPFromAddr addr)
                               (String.eqb (Addr_Network addr) "tcp") true l in
      Ok (mkRegistry (<[p := set_OverLimit reject key l]> (reg_heap r)) (reg_map r))
  | None => Panic "nil pointer dereference"
  end.

(** [logger.Panic] after a failed [GetLimiter]. *)
Definition event_result (r : res string registry) : res string registry :=
  match r with Err e => Panic e | r => r end.

Definition Connect now tag addr uuid r := event_result (check_event now tag addr uuid r).
Definition TCPRequest now tag addr uuid r := event_result (check_event now tag addr uuid r).
Definition UDPRequest now tag addr uuid r := event_result (check_event now tag addr uuid r).

(** * hook.go: LogTraffic *)
Definition LogTraffic (tag id : string) (tx rx : Z) (r : registry) (hp : heap) (c : node_counters)
    : registry * heap * node_counters * bool :=
  match GetLimiter r tag with
  | Ok p =>
      match reg_heap r !! p with
      | None => (r, hp, c, false)
      | Some l =>
          let key := UserTag tag id in
          if default false (uli_OverLimit <$> lim_UserLimitInfo l !! key) then
            (mkRegistry (<[p := set_OverLimit false key l]> (reg_heap r)) (reg_map r), hp, c, false)
          else
            let t := default NewTrafficCounter (c !! tag) in
            let '(hp, t) := Rx hp t id (wrap64 rx) in
            let '(hp, t) := Tx hp t id (wrap64 tx) in
            (r, hp, <[tag := t]> c, true)
      end
  | _ => (r, hp, c, false)
  end.

(** * Lemmas *)
Lemma hy2_add_lookup us v k :
  is_Some (foldl hy2_add v us !! k) ↔ k ∈ uuids us ∨ is_Some (v !! k).
Proof.
  unfold uuids. revert v. induction us as [|u us IH]; intros v; simpl; [set_solver|].
  rewrite IH. unfold hy2_add. rewrite lookup_insert, elem_of_cons.
  case_decide; [subst; naive_solver|]. naive_solver.
Qed.

Lemma hy2_del_lookup us v k :
  foldl hy2_del v us !! k = if decide (k ∈ uuids us) then None else v !! k.
Proof.
  unfold uuids. assert (foldl hy2_del v us = foldl (λ m k, delete k m) v (user_Uuid <$> us)) as ->.
  { revert v. induction us as [|u us IH]; intros v; [done|]. simpl. apply IH. }
  apply lookup_foldl_delete.
Qed.

(** The goroutines of [AddUsers] and [DelUsers] may run in any order. *)
Lemma hy2_any_order us1 us2 v :
  us1 ≡ₚ us2 → NoDup (uuids us1) →
  foldl hy2_add v us1 = foldl hy2_add v us2 ∧ foldl hy2_del v us1 = foldl hy2_del v us2.
Proof.
  intros Hp Hnd. assert (NoDup (uuids us2)) as Hnd2 by (unfold uuids in *; by rewrite <- Hp).
  split; apply map_eq; intros k.
  - apply option_eq. intros x. unfold hy2_add.
    rewrite !(insert_users_lookup user_Uuid user_Id) by done. by setoid_rewrite Hp.
  - rewrite !hy2_del_lookup. assert (k ∈ uuids us1 ↔ k ∈ uuids us2) as Hk
      by (unfold uuids; by rewrite Hp).
    by rewrite (decide_ext (k ∈ uuids us1) (k ∈ uuids us2)) by apply Hk.
Qed.

Lemma hy2_drop_Auth us tag h h' r : hy2_drop us tag h = (h', r) → hy_Auth h' = hy_Auth h.
Proof.
  revert h. induction us as [|u us IH]; intros h; simpl; [by intros [= <- _]|].
  destruct (hy_nodes h !! tag); [|by intros [= <- _]]. intros H. by rewrite (IH _ H).
Qed.

Lemma Hy2_DelNode_Auth tag h : hy_Auth (Hy2_DelNode tag h).1 = hy_Auth h.
Proof.
  unfold Hy2_DelNode. destruct (hy_nodes h !! tag); [|done].
  by destruct (server_Close _ _) as [w [[]|e|x]].
Qed.

Lemma AddLimiter_fold_unknown tag users l0 u :
  u ∉ uuids users → lim_UserLimitInfo l0 !! UserTag tag u = None →
  lim_UserLimitInfo (foldl (AddLimiter_user tag) l0 users) !! UserTag tag u = None.
Proof.
  unfold uuids. revert l0. induction users as [|v users IH]; intros l0 Hni Hl; [done|].
  simpl in Hni. apply not_elem_of_cons in Hni as [Hne Hni]. simpl. apply IH; [done|].
  simpl. rewrite lookup_insert_ne; [done|]. by intros ?%UserTag_inj_uuid.
Qed.

Lemma new_limiter_unknown tag cfg users alive u :
  u ∉ uuids users → lim_UserLimitInfo (new_limiter tag cfg users alive) !! UserTag tag u = None.
Proof. intros Hu. by apply AddLimiter_fold_unknown. Qed.

(** Traffic of a user whose flag is not set is counted. *)
Lemma LogTraffic_ok tag id tx rx r hp c p l :
  GetLimiter r tag = Ok p → reg_heap r !! p = Some l →
  default false (uli_OverLimit <$> lim_UserLimitInfo l !! UserTag tag id) = false →
  (LogTraffic tag id tx rx r hp c).2 = true.
Proof.
  intros Hg Hl Ho. unfold LogTraffic. rewrite Hg, Hl, Ho.
  destruct (Rx _ _ _ _) as [hp1 t1]. by destruct (Tx _ _ _ _) as [hp2 t2].
Qed.

(** * Properties *)

(** The uid table is shared by the nodes of the core: deleting a user from
    one node locks him out of every node, and nobody else out of any. *)
Theorem Hy2_DelUsers_every_node us tag info h h' v :
  Hy2_DelUsers us tag info h = (h', Ok tt) →
  Authenticate (hy_Auth h') v =
    (if decide (v ∈ uuids us) then (false, "") else Authenticate (hy_Auth h) v).
Proof.
  unfold Hy2_DelUsers. destruct (hy2_drop us tag h) as [h1 r] eqn:Hd.
  destruct r as [[]|e|w]; [|done..]. intros [= <-]. cbn [hy_Auth hy_with_Auth].
  unfold Authenticate. rewrite hy2_del_lookup, (hy2_drop_Auth us tag h h1 (Ok tt) Hd).
  by case_decide.
Qed.

(** A user whom the panel drops from the list together with a change of the
    node stays: the reload (delete the node, build a new limiter from the new
    list, add the new users) leaves him in the table, so he still
    authenticates; the new limiter does not know him, and what it does not know
    is never cut off: all his traffic is accepted. *)
Theorem hy2_reload_keeps_removed_user h p r cfg alive u :
  is_Some (hy_Auth h !! u) → u ∉ uuids (aup_Users p) →
  let tag := aup_Tag p in
  let h' := (Hy2_AddUsers p (Hy2_DelNode tag h).1).1 in
  let r' := (AddLimiter r tag cfg (aup_Users p) alive).1 in
  Authenticate (hy_Auth h') u = (true, u) ∧
  ∀ now addr tx rx hp c, ∃ r'', Connect now tag addr u r' = Ok r'' ∧
    (LogTraffic tag u tx rx r'' hp c).2 = true.
Proof.
  intros Hu Hni tag h' r'. split.
  - unfold h', Authenticate. cbn [Hy2_AddUsers fst hy_Auth hy_with_Auth].
    rewrite Hy2_DelNode_Auth.
    destruct (proj2 (hy2_add_lookup (aup_Users p) (hy_Auth h) u) (or_intror Hu)) as [x ->]. done.
  - intros now addr tx rx hp c.
    set (ptr := fresh (dom (reg_heap r))). set (l := new_limiter tag cfg (aup_Users p) alive).
    assert (lim_UserLimitInfo l !! UserTag tag u = None) as Hl by (by apply new_limiter_unknown).
    assert (GetLimiter r' tag = Ok ptr) as Hg
      by (unfold GetLimiter, r'; simpl; by rewrite lookup_insert_eq).
    assert (reg_heap r' !! ptr = Some l) as Hp by (unfold r'; simpl; by rewrite lookup_insert_eq).
    eexists. split.
    + unfold Connect, check_event. rewrite Hg. cbn [map_err mbind res_bind]. rewrite Hp.
      rewrite CheckLimit_unknown by done. unfold set_OverLimit. rewrite Hl. reflexivity.
    + eapply LogTraffic_ok; [exact Hg|simpl; by rewrite lookup_insert_eq|]. by rewrite Hl.
Qed.

(** The over-limit mark is the user's, not the connection's: when the
    limiter rejects one connection of a user it knows, the next traffic of any
    connection of that user on the node is cut off, and that clears the mark,
    so the traffic after it passes, the rejected connection's included. *)
Theorem hy2_over_limit_hits_next_traffic now tag addr u r p l l' b :
  GetLimiter r tag = Ok p → reg_heap r !! p = Some l →
  CheckLimit now (UserTag tag u) (extractIPFromAddr addr) (String.eqb (Addr_Network addr) "tcp") true l
    = (l', b, true) →
  is_Some (lim_UserLimitInfo l' !! UserTag tag u) →
  ∃ r1, Connect now tag addr u r = Ok r1 ∧
  ∀ tx rx hp c, ∃ r2, LogTraffic tag u tx rx r1 hp c = (r2, hp, c, false) ∧
    (LogTraffic tag u tx rx r2 hp c).2 = true.
Proof.
  intros Hg Hp Hc [i Hi]. eexists. split.
  - unfold Connect, check_event. rewrite Hg. cbn [map_err mbind res_bind]. rewrite Hp, Hc. reflexivity.
  - intros tx rx hp c. set (l1 := set_OverLimit true _ l').
    assert (∃ j, lim_UserLimitInfo l1 !! UserTag tag u = Some j ∧ uli_OverLimit j = true) as (j & Hj & Hjo).
    { unfold l1, set_OverLimit. rewrite Hi. simpl. rewrite lookup_insert_eq. eauto. }
    eexists. split.
    + unfold LogTraffic at 1. change (GetLimiter (mkRegistry _ (reg_map r)) tag) with (GetLimiter r tag).
      rewrite Hg. cbn [reg_heap]. rewrite lookup_insert_eq, Hj. simpl. rewrite Hjo. reflexivity.
    + eapply LogTraffic_ok; [exact Hg|simpl; by rewrite lookup_insert_eq|].
      unfold set_OverLimit. rewrite Hj. simpl. by rewrite lookup_insert_eq.
Qed.

(** A user without a number is in no report: the slice is that of the table
    without him. *)
Lemma slice_without uidOf m reset hp (t : TrafficCounter) v :
  counter_wf hp t → uidOf v = 0%Z →
  (traffic_slice uidOf m reset hp t).2 ≡ₚ (traffic_slice uidOf m reset hp (delete v t)).2.
Proof.
  intros Hwf Hv. destruct (t !! v) as [ts|] eqn:Ht; [|by rewrite delete_id].
  assert (counter_wf hp (delete v t)) as Hwf'.
  { destruct Hwf as [Hb Hi]. split.
    - intros u l [_ Hu]%lookup_delete_Some. by eapply Hb.
    - intros u w l [_ Hu]%lookup_delete_Some [_ Hw]%lookup_delete_Some. by eapply Hi. }
  pose proof (traffic_slice_spec uidOf m reset hp t Hwf) as H1.
  pose proof (traffic_slice_spec uidOf m reset hp (delete v t) Hwf') as H2.
  destruct (traffic_slice _ _ _ hp t) as [[h1 c1] s1], (traffic_slice _ _ _ hp (delete v t)) as [[h2 c2] s2].
  destruct H1 as (_ & Hs1 & _), H2 as (_ & Hs2 & _). cbn [snd].
  rewrite Hs1, Hs2, <- (map_to_list_delete t v ts Ht). simpl. unfold reported at 1. cbn [fst].
  by rewrite Hv, andb_false_r.
Qed.

(** A removal from the list does not end connections: once core and limiter
    have dropped a user he cannot authenticate, but all the traffic of a
    connection that he has open goes on being accepted, and no report of the
    core contains it, on any node. *)
Theorem hy2_removed_connection_goes_on us tag info h h' v r p l :
  Hy2_DelUsers us tag info h = (h', Ok tt) → v ∈ uuids us →
  GetLimiter r tag = Ok p → reg_heap r !! p = Some l → lim_UserLimitInfo l !! UserTag tag v = None →
  Authenticate (hy_Auth h') v = (false, "") ∧
  (∀ tx rx hp c, ∃ hp' c', LogTraffic tag v tx rx r hp c = (r, hp', c', true)) ∧
  ∀ m reset hp t, counter_wf hp t →
    (traffic_slice (zlookup (hy_Auth h')) m reset hp t).2 ≡ₚ
    (traffic_slice (zlookup (hy_Auth h')) m reset hp (delete v t)).2.
Proof.
  unfold Hy2_DelUsers. destruct (hy2_drop us tag h) as [h1 [[]|e|w]]; [|done..].
  intros [= <-] Hv Hg Hl Hnone. cbn [hy_Auth hy_with_Auth].
  assert (Hno : foldl hy2_del (hy_Auth h1) us !! v = None) by (by rewrite hy2_del_lookup, decide_True).
  split; [|split].
  - unfold Authenticate. by rewrite Hno.
  - intros tx rx hp c. unfold LogTraffic. rewrite Hg, Hl, Hnone. cbn [fmap option_fmap option_map default].
    destruct (Rx _ _ _ _) as [hp1 t1]. destruct (Tx _ _ _ _) as [hp2 t2]. by eexists _, _.
  - intros m reset hp t Hwf. apply slice_without; [done|]. unfold zlookup. by rewrite Hno.
Qed.
End hy2.

(** * Witnesses *)
#[local] Instance wit_hy2 : Hy2Lib :=
  {| HyServer := unit; HyWorld := unit; server_Close := λ _ w, (w, Ok tt) |}.
#[local] Existing Instance wit_ratelimit.
#[local] Existing Instance wit_regexp.

Definition hy2_info : NodeInfo :=
  mkNodeInfo 1 "hysteria2" 0 0 0 RawDNS_empty Rules_empty None None None None None None None None None
    false false.
Definition hy2_state : Hysteria2 :=
  mkHysteria2 tt {["A" := mkHysteria2node tt ∅ 0%Z; "B" := mkHysteria2node tt ∅ 0%Z]}
    {["alice" := 7%Z; "bob" := 8%Z]} ∅.

Lemma Hy2_DelUsers_every_node_witness :
  Authenticate (hy_Auth (Hy2_DelUsers [mkUserInfo 7 "alice" 0 0] "A" hy2_info hy2_state).1) "alice"
    = (false, "").
Proof.
  etrans; [apply (Hy2_DelUsers_every_node [mkUserInfo 7 "alice" 0 0] "A" hy2_info hy2_state); vm_compute; reflexivity|].
  vm_compute. reflexivity.
Defined.

Lemma hy2_reload_keeps_removed_user_witness :
  let p := mkAddUsersParams "A" [mkUserInfo 8 "bob" 0 0] hy2_info in
  Authenticate (hy_Auth (Hy2_AddUsers p (Hy2_DelNode "A" hy2_state).1).1) "alice" = (true, "alice").
Proof.
  intros p.
  destruct (hy2_reload_keeps_removed_user hy2_state p (mkRegistry ∅ ∅) LimitConfig_zero ∅ "alice")
    as [H _]; [vm_compute; eauto|by_decide|exact H].
Defined.

(** alice is allowed one device and the panel counts one already. *)
Definition hy2_registry : registry := mkRegistry {[0%nat := wit_limiter]} {["n" := 0%nat]}.

Lemma hy2_over_limit_hits_next_traffic_witness :
  ∃ r1, Connect 5 "n" (UDPAddr "10.0.0.9") "alice" hy2_registry = Ok r1 ∧
    (LogTraffic "n" "alice" 10 10 r1 ∅ ∅).2 = false.
Proof.
  destruct (hy2_over_limit_hits_next_traffic 5 "n" (UDPAddr "10.0.0.9") "alice" hy2_registry 0%nat
    wit_limiter (CheckLimit 5 "n|alice" "10.0.0.9" false true wit_limiter).1.1 None)
    as (r1 & Hr1 & H).
  - vm_compute. reflexivity.
  - vm_compute. reflexivity.
  - vm_compute. reflexivity.
  - vm_compute. eauto.
  - exists r1. split; [exact Hr1|]. destruct (H 10%Z 10%Z ∅ ∅) as (r2 & -> & _). reflexivity.
Defined.

#[local] Existing Instance canonical_order.

(** alice is taken off node "A", whose limiter does not know her any more. *)
Definition hy2_forgot : registry :=
  mkRegistry {[0%nat := new_limiter "A" LimitConfig_zero [mkUserInfo 8 "bob" 0 0] ∅]} {["A" := 0%nat]}.

Lemma hy2_removed_connection_goes_on_witness :
  let h' := (Hy2_DelUsers [mkUserInfo 7 "alice" 0 0] "A" hy2_info hy2_state).1 in
  Authenticate (hy_Auth h') "alice" = (false, "") ∧
  (LogTraffic "A" "alice" 10 10 hy2_forgot ∅ ∅).2 = true.
Proof.
  intros h'.
  destruct (hy2_removed_connection_goes_on [mkUserInfo 7 "alice" 0 0] "A" hy2_info hy2_state h' "alice"
    hy2_forgot 0%nat (new_limiter "A" LimitConfig_zero [mkUserInfo 8 "bob" 0 0] ∅)) as (Ha & Hl & _).
  - vm_compute. reflexivity.
  - by_decide.
  - vm_compute. reflexivity.
  - reflexivity.
  - vm_compute. reflexivity.
  - split; [exact Ha|]. by destruct (Hl 10%Z 10%Z ∅ ∅) as (hp' & c' & ->).
Defined.
