(* ===== verification/Hy2Config.v ===== *)
(** Starting a hysteria2 node: src/core/hy2/serverConfig.go, config.go, the
    addition half of node.go, and New and initLogger (hy2.go, logger.go), over
    the nodes of Hy2Core.

    The hysteria server, its outbounds and access lists, the reader of the
    configuration file (viper) and the sockets of the host are parameters
    ([Hy2ConfLib]). *)

From S2P Require Import Prelude GoStd GoText Lower Conf Panel Counter Traffic Limiter UserDiff Core GeoLoader Hy2Core.
From stdpp Require Import prelude gmap strings.
From Stdlib Require Import Ascii ZArith Lia.

Open Scope string_scope.

(** * serverConfig.go *)
Record serverConfigObfsSalamander := mkObfsSalamander { sal_Password : string }.
Record serverConfigObfs := mkObfs { obfs_Type : string; obfs_Salamander : serverConfigObfsSalamander }.
Record serverConfigTLS := mkTLS { stls_Cert : string; stls_Key : string }.
Record serverConfigACME := mkACME {
  acme_Domains : list string; acme_Email : string; acme_CA : string; acme_DisableHTTP : bool;
  acme_DisableTLSALPN : bool; acme_AltHTTPPort : Z; acme_AltTLSALPNPort : Z; acme_Dir : string;
}.
Record serverConfigQUIC := mkQUIC {
  quic_InitStreamReceiveWindow : Z;          (* uint64 *)
  quic_MaxStreamReceiveWindow : Z;
  quic_InitConnectionReceiveWindow : Z;
  quic_MaxConnectionReceiveWindow : Z;
  quic_MaxIdleTimeout : Z;                   (* time.Duration *)
  quic_MaxIncomingStreams : Z;               (* int64 *)
  quic_DisablePathMTUDiscovery : bool;
}.
Record serverConfigBandwidth := mkBandwidth { bw_Up : string; bw_Down : string }.
Record serverConfigAuthHTTP := mkAuthHTTP { ah_URL : string; ah_Insecure : bool }.
Record serverConfigAuth := mkAuth {
  auth_Type : string; auth_Password : string; auth_UserPass : gmap string string;
  auth_HTTP : serverConfigAuthHTTP; auth_Command : string;
}.
Record serverConfigResolverTCP := mkResolverTCP { rtcp_Addr : string; rtcp_Timeout : Z }.
Record serverConfigResolverUDP := mkResolverUDP { rudp_Addr : string; rudp_Timeout : Z }.
Record serverConfigResolverTLS := mkResolverTLS {
  rtls_Addr : string; rtls_Timeout : Z; rtls_SNI : string; rtls_Insecure : bool;
}.
Record serverConfigResolverHTTPS := mkResolverHTTPS {
  rhttps_Addr : string; rhttps_Timeout : Z; rhttps_SNI : string; rhttps_Insecure : bool;
}.
Record serverConfigResolver := mkResolver {
  res_Type : string; res_TCP : serverConfigResolverTCP; res_UDP : serverConfigResolverUDP;
  res_TLS : serverConfigResolverTLS; res_HTTPS : serverConfigResolverHTTPS;
}.
Record serverConfigSniff := mkSniff {
  sniff_Enable : bool; sniff_Timeout : Z; sniff_RewriteDomain : bool;
  sniff_TCPPorts : string; sniff_UDPPorts : string;
}.
Record serverConfigACL := mkACL {
  acl_File : string; acl_Inline : list string; acl_GeoIP : string; acl_GeoSite : string;
  acl_GeoUpdateInterval : Z;
}.
Record serverConfigOutboundDirect := mkOutboundDirect {
  od_Mode : string; od_BindIPv4 : string; od_BindIPv6 : string; od_BindDevice : string;
}.
Record serverConfigOutboundSOCKS5 := mkOutboundSOCKS5 {
  os_Addr : string; os_Username : string; os_Password : string;
}.
Record serverConfigOutboundHTTP := mkOutboundHTTP { oh_URL : string; oh_Insecure : bool }.
Record serverConfigOutboundEntry := mkOutboundEntry {
  oe_Name : string; oe_Type : string; oe_Direct : serverConfigOutboundDirect;
  oe_SOCKS5 : serverConfigOutboundSOCKS5; oe_HTTP : serverConfigOutboundHTTP;
}.
Record serverConfigTrafficStats := mkTrafficStats { ts_Listen : string; ts_Secret : string }.
Record serverConfigMasqueradeFile := mkMasqueradeFile { mf_Dir : string }.
Record serverConfigMasqueradeProxy := mkMasqueradeProxy { mp_URL : string; mp_RewriteHost : bool }.
Record serverConfigMasqueradeString := mkMasqueradeString {
  ms_Content : string; ms_Headers : gmap string string; ms_StatusCode : Z;
}.
Record serverConfigMasquerade := mkMasquerade {
  masq_Type : string; masq_File : serverConfigMasqueradeFile; masq_Proxy : serverConfigMasqueradeProxy;
  masq_String : serverConfigMasqueradeString; masq_ListenHTTP : string; masq_ListenHTTPS : string;
  masq_ForceHTTPS : bool;
}.
Record serverConfig := mkServerConfig {
  hc_Listen : string;
  hc_Obfs : serverConfigObfs;
  hc_TLS : option serverConfigTLS;
  hc_ACME : option serverConfigACME;
  hc_QUIC : serverConfigQUIC;
  hc_Bandwidth : serverConfigBandwidth;
  hc_IgnoreClientBandwidth : bool;
  hc_SpeedTest : bool;
  hc_DisableUDP : bool;
  hc_UDPIdleTimeout : Z;
  hc_Auth : serverConfigAuth;
  hc_Resolver : serverConfigResolver;
  hc_Sniff : serverConfigSniff;
  hc_ACL : serverConfigACL;
  hc_Outbounds : list serverConfigOutboundEntry;
  hc_TrafficStats : serverConfigTrafficStats;
  hc_Masquerade : serverConfigMasquerade;
}.

(** [var c serverConfig] *)
Definition QUIC_zero : serverConfigQUIC := mkQUIC 0 0 0 0 0 0 false.
Definition serverConfig_zero : serverConfig :=
  mkServerConfig "" (mkObfs "" (mkObfsSalamander "")) None None QUIC_zero (mkBandwidth "" "")
    false false false 0 (mkAuth "" "" ∅ (mkAuthHTTP "" false) "")
    (mkResolver "" (mkResolverTCP "" 0) (mkResolverUDP "" 0) (mkResolverTLS "" 0 "" false)
       (mkResolverHTTPS "" 0 "" false))
    (mkSniff false 0 false "" "") (mkACL "" [] "" "" 0) [] (mkTrafficStats "" "")
    (mkMasquerade "" (mkMasqueradeFile "") (mkMasqueradeProxy "" false)
       (mkMasqueradeString "" ∅ 0) "" "" false).

(** * The libraries *)
Inductive DirectOutboundMode : Type :=
| DirectOutboundModeAuto | DirectOutboundMode64 | DirectOutboundMode46
| DirectOutboundMode6 | DirectOutboundMode4.

(** What the program fills in of the server's configuration. *)
Record QUICConfig := mkQUICConfig {
  q_InitialStreamReceiveWindow : Z;
  q_MaxStreamReceiveWindow : Z;
  q_InitialConnectionReceiveWindow : Z;
  q_MaxConnectionReceiveWindow : Z;
  q_MaxIdleTimeout : Z;
  q_MaxIncomingStreams : Z;
  q_DisablePathMTUDiscovery : bool;
}.
Record BandwidthConfig := mkBandwidthConfig { b_MaxTx : Z; b_MaxRx : Z }.

(** net/http's handlers, by what the program makes them from. *)
Record URL := mkURL { u_Scheme : string; u_Host : string }.
Inductive Handler : Type :=
| NotFoundHandler
| FileServer (dir : string)
| ReverseProxy (u : URL) (rewriteHost : bool)
| StringHandler (headers : gmap string string) (status : Z) (content : string).

Record masqHandlerLogWrapper := mkLogWrapper { mh_H : Handler; mh_QUIC : bool }.

Class Hy2ConfLib `{Hy2Lib} := {
  Certificate : Type;
  LoadX509KeyPair : string → string → HyWorld → res string Certificate;
  UAddr : Type;
  ResolveUDPAddr : string → HyWorld → res string UAddr;
  PacketConn : Type;
  ListenUDP : UAddr → HyWorld → HyWorld * res string PacketConn;
  WrapPacketConnSalamander : PacketConn → string → res string PacketConn;
  LocalAddr : PacketConn → string;
  PortUnion : Type;
  ParsePortUnion : string → option PortUnion;
  IP : Type;
  ParseIP : string → option IP;
  PluggableOutbound : Type;
  NewDirectOutboundSimple : DirectOutboundMode → PluggableOutbound;
  NewDirectOutboundBindToIPs :
    DirectOutboundMode → option IP → option IP → res string PluggableOutbound;
  NewDirectOutboundBindToDevice : DirectOutboundMode → string → res string PluggableOutbound;
  NewSOCKS5Outbound : string → string → string → PluggableOutbound;
  NewHTTPOutbound : string → bool → res string PluggableOutbound;
  GeoIPMap : Type; GeoSiteMap : Type;
  NewACLEngineFromFile : string → list (string * PluggableOutbound) → GeoLoader GeoIPMap GeoSiteMap →
    HyWorld → HyWorld * res string PluggableOutbound;
  NewACLEngineFromString : string → list (string * PluggableOutbound) → GeoLoader GeoIPMap GeoSiteMap →
    HyWorld → HyWorld * res string PluggableOutbound;
  NewSystemResolver : PluggableOutbound → PluggableOutbound;
  NewStandardResolverTCP : string → Z → PluggableOutbound → PluggableOutbound;
  NewStandardResolverUDP : string → Z → PluggableOutbound → PluggableOutbound;
  NewStandardResolverTLS : string → Z → string → bool → PluggableOutbound → PluggableOutbound;
  NewDoHResolver : string → Z → string → bool → PluggableOutbound → PluggableOutbound;
  hy_url_Parse : string → res string URL;
  Viper : Type;
  ReadInConfig : string → HyWorld → res string Viper;
  viper_Unmarshal : Viper → res string serverConfig;
  (* a TCP server that listens (and serves from then on), or fails to *)
  ListenAndServe : string → HyWorld → HyWorld * option string;
}.

(** A sniffer is the server's request hook. *)
Section config.
Context `{HL : Hy2Lib} `{CL : !Hy2ConfLib}.

Record TLSConfig := mkTLSConfig { t_Certificates : list Certificate; t_CertFile : string; t_KeyFile : string }.

(** [GetCertificate] reads the files again at every handshake. *)
Definition GetCertificate (t : TLSConfig) (w : HyWorld) : res string Certificate :=
  LoadX509KeyPair (t_CertFile t) (t_KeyFile t) w.

Record Sniffer := mkSniffer {
  sn_Timeout : Z; sn_RewriteDomain : bool;
  sn_TCPPorts : option PortUnion; sn_UDPPorts : option PortUnion;
}.

Record MasqTCPServer := mkMasqTCPServer {
  mts_QUICPort : Z; mts_HTTPSPort : Z; mts_Handler : masqHandlerLogWrapper;
  mts_TLSConfig : TLSConfig; mts_ForceHTTPS : bool;
}.

Record ServerConfig := mkHyServerConfig {
  sv_TLSConfig : TLSConfig;
  sv_QUICConfig : QUICConfig;
  sv_Conn : PacketConn;
  sv_RequestHook : option Sniffer;
  sv_Outbound : PluggableOutbound;
  sv_BandwidthConfig : BandwidthConfig;
  sv_IgnoreClientBandwidth : bool;
  sv_DisableUDP : bool;
  sv_UDPIdleTimeout : Z;
  sv_MasqHandler : masqHandlerLogWrapper;
}.

(** Calls that act on the host, with a result. *)
Definition M (A : Type) : Type := HyWorld → HyWorld * res string A.
#[local] Instance M_ret : MRet M := λ A a w, (w, Ok a).
#[local] Instance M_bind : MBind M := λ A B f m w,
  match m w with
  | (w, Ok a) => f a w
  | (w, Err e) => (w, Err e)
  | (w, Panic p) => (w, Panic p)
  end.
Definition pure {A} (r : res string A) : M A := λ w, (w, r).
Definition reading {A} (f : HyWorld → res string A) : M A := λ w, (w, f w).

(** ** serverConfig.go: the outbounds *)
Definition direct_mode (mode : string) : res string DirectOutboundMode :=
  let m := ToLower mode in
  if decide (m = "" ∨ m = "auto") then Ok DirectOutboundModeAuto
  else if decide (m = "64") then Ok DirectOutboundMode64
  else if decide (m = "46") then Ok DirectOutboundMode46
  else if decide (m = "6") then Ok DirectOutboundMode6
  else if decide (m = "4") then Ok DirectOutboundMode4
  else Err "outbounds.direct.mode unsupported mode".

Definition serverConfigOutboundDirectToOutbound (c : serverConfigOutboundDirect)
    : res string PluggableOutbound :=
  mode ← direct_mode (od_Mode c);
  let bindIP := bool_decide (od_BindIPv4 c ≠ "") || bool_decide (od_BindIPv6 c ≠ "") in
  let bindDevice := bool_decide (od_BindDevice c ≠ "") in
  if bindIP && bindDevice then Err "outbounds.direct cannot bind both IP and device"
  else if bindIP then
    let ip4 := ParseIP (od_BindIPv4 c) in
    let ip6 := ParseIP (od_BindIPv6 c) in
    if bool_decide (od_BindIPv4 c ≠ "") && negb (bool_decide (is_Some ip4))
    then Err "outbounds.direct.bindIPv4 invalid IPv4 address"
    else if bool_decide (od_BindIPv6 c ≠ "") && negb (bool_decide (is_Some ip6))
    then Err "outbounds.direct.bindIPv6 invalid IPv6 address"
    else NewDirectOutboundBindToIPs mode ip4 ip6
  else if bindDevice then NewDirectOutboundBindToDevice mode (od_BindDevice c)
  else Ok (NewDirectOutboundSimple mode).

Definition serverConfigOutboundSOCKS5ToOutbound (c : serverConfigOutboundSOCKS5)
    : res string PluggableOutbound :=
  if decide (os_Addr c = "") then Err "outbounds.socks5.addr empty socks5 address"
  else Ok (NewSOCKS5Outbound (os_Addr c) (os_Username c) (os_Password c)).

Definition serverConfigOutboundHTTPToOutbound (c : serverConfigOutboundHTTP)
    : res string PluggableOutbound :=
  if decide (oh_URL c = "") then Err "outbounds.http.url empty http address"
  else NewHTTPOutbound (oh_URL c) (oh_Insecure c).

(** ** config.go *)
Definition Megabyte : Z := 1000 * 1000.
Definition Second : Z := 1000000000.
Definition defaultStreamReceiveWindow : Z := 8388608.
Definition defaultConnReceiveWindow : Z := defaultStreamReceiveWindow * 5 / 2.
Definition defaultMaxIdleTimeout : Z := 30 * Second.
Definition defaultMaxIncomingStreams : Z := 4096.

Definition getTLSConfig (config : Options) (w : HyWorld) : res string TLSConfig :=
  match opt_CertConfig config with
  | None => Err "the CertConfig is not vail"
  | Some cc =>
      if decide (cert_CertMode cc = "none" ∨ cert_CertMode cc = "")
      then Err "the CertMode cannot be none"
      else
        cert ← LoadX509KeyPair (cert_CertFile cc) (cert_KeyFile cc) w;
        Ok (mkTLSConfig [cert] (cert_CertFile cc) (cert_KeyFile cc))
  end.

(** A value that is not set takes the default, one that is too small is refused. *)
Definition at_least (lo v dflt : Z) (err : string) : res string Z :=
  if decide (v = 0%Z) then Ok dflt else if decide (v < lo)%Z then Err err else Ok v.

(** The first window, when it is set, is not what is assigned: line 89 writes
    the connection's window, which the third test writes again. *)
Definition initial_stream_window (v : Z) : res string Z :=
  if decide (v = 0%Z) then Ok defaultStreamReceiveWindow
  else if decide (v < 16384)%Z
  then Err "QUICConfig.InitialStreamReceiveWindowf must be at least 16384"
  else Ok 0%Z.

Definition idle_timeout (v : Z) : res string Z :=
  if decide (v = 0%Z) then Ok defaultMaxIdleTimeout
  else if decide (v < 4 * Second ∨ v > 120 * Second)%Z
  then Err "QUICConfig.MaxIdleTimeoutf must be between 4s and 120s"
  else Ok v.

Definition getQUICConfig (config : serverConfig) : res string QUICConfig :=
  let c := hc_QUIC config in
  initStream ← initial_stream_window (quic_InitStreamReceiveWindow c);
  maxStream ← at_least 16384 (quic_MaxStreamReceiveWindow c) defaultStreamReceiveWindow
    "QUICConfig.MaxStreamReceiveWindowf must be at least 16384";
  initConn ← at_least 16384 (quic_InitConnectionReceiveWindow c) defaultConnReceiveWindow
    "QUICConfig.InitialConnectionReceiveWindowf must be at least 16384";
  maxConn ← at_least 16384 (quic_MaxConnectionReceiveWindow c) defaultConnReceiveWindow
    "QUICConfig.MaxConnectionReceiveWindowf must be at least 16384";
  idle ← idle_timeout (quic_MaxIdleTimeout c);
  streams ← at_least 8 (quic_MaxIncomingStreams c) defaultMaxIncomingStreams
    "QUICConfig.MaxIncomingStreamsf must be at least 8";
  Ok (mkQUICConfig initStream maxStream initConn maxConn idle streams false).

Definition formatAddress (ip : string) (port : Z) : string :=
  if Contains ip ":" then "[" +:+ ip +:+ "]:" +:+ Itoa port else ip +:+ ":" +:+ Itoa port.

Definition extractPortFromAddr (addr : string) : Z :=
  match SplitHostPort addr with
  | Ok (_, portStr) => let '(port, ok) := Atoi portStr in if ok then port else 0
  | _ => 0
  end.

Definition obfuscate (h : Hysteria2Node) (conn : PacketConn) : res string PacketConn :=
  let t := ToLower (h2_ObfsType h) in
  if decide (t = "" ∨ t = "plain") then Ok conn
  else if decide (t = "salamander") then WrapPacketConnSalamander conn (h2_ObfsPassword h)
  else Err "unsupported obfuscation type".

Definition getConn (info : NodeInfo) (config : Options) : M PacketConn :=
  cm ← pure (deref (ni_Common info));
  uAddr ← reading (ResolveUDPAddr (formatAddress (opt_ListenIP config) (cn_ServerPort cm)));
  conn ← ListenUDP uAddr;
  h ← pure (deref (ni_Hysteria2 info));
  pure (obfuscate h conn).

(** Bytes per second from megabits, in the machine's integers. *)
Definition bandwidth (mbps : Z) : Z :=
  if decide (mbps = 0%Z) then 0 else wrapu64 (Z.quot (wrap64 (mbps * Megabyte)) 8).
Definition getBandwidthConfig (h : Hysteria2Node) : BandwidthConfig :=
  mkBandwidthConfig (bandwidth (h2_UpMbps h)) (bandwidth (h2_DownMbps h)).

Definition sniff_ports (ports err : string) : res string (option PortUnion) :=
  if decide (ports = "") then Ok None
  else match ParsePortUnion ports with Some p => Ok (Some p) | None => Err err end.

Definition getRequestHook (c : serverConfig) : res string (option Sniffer) :=
  let s := hc_Sniff c in
  if sniff_Enable s then
    tcp ← sniff_ports (sniff_TCPPorts s) "sniff.tcpPorts: invalid port union";
    udp ← sniff_ports (sniff_UDPPorts s) "sniff.udpPorts: invalid port union";
    Ok (Some (mkSniffer (sniff_Timeout s) (sniff_RewriteDomain s) tcp udp))
  else Ok None.

(** *** getOutboundConfig: Resolver(ACL(Outbounds...)) *)
Definition outbound_of (entry : serverConfigOutboundEntry) : res string PluggableOutbound :=
  let t := ToLower (oe_Type entry) in
  if decide (t = "direct") then serverConfigOutboundDirectToOutbound (oe_Direct entry)
  else if decide (t = "socks5") then serverConfigOutboundSOCKS5ToOutbound (oe_SOCKS5 entry)
  else if decide (t = "http") then serverConfigOutboundHTTPToOutbound (oe_HTTP entry)
  else Err "outbounds.type unsupported outbound type".

Fixpoint outbound_loop (entries : list serverConfigOutboundEntry)
    : res string (list (string * PluggableOutbound)) :=
  match entries with
  | [] => Ok []
  | entry :: entries =>
      if decide (oe_Name entry = "") then Err "empty outbound name"
      else ob ← outbound_of entry; obs ← outbound_loop entries; Ok ((oe_Name entry, ob) :: obs)
  end.

Definition outbound_entries (c : serverConfig) : res string (list (string * PluggableOutbound)) :=
  match hc_Outbounds c with
  | [] => Ok [("default", NewDirectOutboundSimple DirectOutboundModeAuto)]
  | entries => outbound_loop entries
  end.

Definition geo_loader (a : serverConfigACL) : GeoLoader GeoIPMap GeoSiteMap :=
  mkGeoLoader (acl_GeoIP a) (acl_GeoSite a) (acl_GeoUpdateInterval a) None None.

(** The unified outbound, and whether there is an access list. *)
Definition acl_outbound (a : serverConfigACL) (obs : list (string * PluggableOutbound))
    : M (bool * PluggableOutbound) :=
  if bool_decide (acl_File a ≠ "") && bool_decide (acl_Inline a ≠ [])
  then pure (Err "cannot set both acl.file and acl.inline")
  else if decide (acl_File a ≠ "") then
    acl ← NewACLEngineFromFile (acl_File a) obs (geo_loader a); mret (true, acl)
  else if decide (acl_Inline a ≠ []) then
    acl ← NewACLEngineFromString (GoStd.Join (acl_Inline a) (String NL "")) obs (geo_loader a);
    mret (true, acl)
  else
    match obs with
    | (_, ob) :: _ => mret (false, ob)
    | [] => pure (Panic "index out of range")
    end.

Definition resolver_outbound (r : serverConfigResolver) (hasACL : bool) (uOb : PluggableOutbound)
    : res string PluggableOutbound :=
  let t := ToLower (res_Type r) in
  let need_address addr ob := if decide (addr = "") then Err "empty resolver address" else Ok ob in
  if decide (t = "" ∨ t = "system") then Ok (if hasACL then NewSystemResolver uOb else uOb)
  else if decide (t = "tcp") then
    let x := res_TCP r in
    need_address (rtcp_Addr x) (NewStandardResolverTCP (rtcp_Addr x) (rtcp_Timeout x) uOb)
  else if decide (t = "udp") then
    let x := res_UDP r in
    need_address (rudp_Addr x) (NewStandardResolverUDP (rudp_Addr x) (rudp_Timeout x) uOb)
  else if decide (t = "tls" ∨ t = "tcp-tls") then
    let x := res_TLS r in
    need_address (rtls_Addr x)
      (NewStandardResolverTLS (rtls_Addr x) (rtls_Timeout x) (rtls_SNI x) (rtls_Insecure x) uOb)
  else if decide (t = "https" ∨ t = "http") then
    let x := res_HTTPS r in
    need_address (rhttps_Addr x)
      (NewDoHResolver (rhttps_Addr x) (rhttps_Timeout x) (rhttps_SNI x) (rhttps_Insecure x) uOb)
  else Err "unsupported resolver type".

Definition getOutboundConfig (c : serverConfig) : M PluggableOutbound :=
  obs ← pure (outbound_entries c);
  '(hasACL, uOb) ← acl_outbound (hc_ACL c) obs;
  pure (resolver_outbound (hc_Resolver c) hasACL uOb).

(** *** getMasqHandler *)
Definition status_ok (code : Z) : bool :=
  negb (bool_decide (code ≠ 0)%Z &&
        (bool_decide (code < 200)%Z || bool_decide (code > 599)%Z || bool_decide (code = 233)%Z)).

Definition masq_handler (m : serverConfigMasquerade) : res string Handler :=
  let t := ToLower (masq_Type m) in
  if decide (t = "" ∨ t = "404") then Ok NotFoundHandler
  else if decide (t = "file") then
    if decide (mf_Dir (masq_File m) = "") then Err "masquerade.file.dir empty file directory"
    else Ok (FileServer (mf_Dir (masq_File m)))
  else if decide (t = "proxy") then
    if decide (mp_URL (masq_Proxy m) = "") then Err "masquerade.proxy.url empty proxy url"
    else
      u ← map_err (λ e, "masquerade.proxy.url " +:+ e) (hy_url_Parse (mp_URL (masq_Proxy m)));
      Ok (ReverseProxy u (mp_RewriteHost (masq_Proxy m)))
  else if decide (t = "string") then
    let s := masq_String m in
    if decide (ms_Content s = "") then Err "masquerade.string.content empty string content"
    else if status_ok (ms_StatusCode s) then Ok (StringHandler (ms_Headers s) (ms_StatusCode s) (ms_Content s))
    else Err "masquerade.string.statusCode invalid status code (must be 200-599, except 233)"
  else Err "masquerade.type unsupported masquerade type".

(** The goroutine's first act, run where it is started: a server that cannot
    listen ends the process ([Logger.Fatal]). *)
Definition listen_masq (addr : string) : M unit :=
  if decide (addr = "") then mret tt
  else λ w, match ListenAndServe addr w with
            | (w, None) => (w, Ok tt)
            | (w, Some _) => (w, Panic "failed to serve masquerade HTTP(S)")
            end.
Definition runMasqTCPServer (s : MasqTCPServer) (httpAddr httpsAddr : string) : M unit :=
  listen_masq httpAddr;; listen_masq httpsAddr.

Definition getMasqHandler (tlsconfig : TLSConfig) (conn : PacketConn) (c : serverConfig)
    : M masqHandlerLogWrapper :=
  let m := hc_Masquerade c in
  handler ← pure (masq_handler m);
  let MasqHandler := mkLogWrapper handler true in
  if decide (masq_ListenHTTP m = "" ∧ masq_ListenHTTPS m = "") then mret MasqHandler
  else if decide (masq_ListenHTTPS m = "") then
    pure (Err "masquerade.listenHTTPS having only HTTP server without HTTPS is not supported")
  else
    let s := mkMasqTCPServer (extractPortFromAddr (LocalAddr conn)) (extractPortFromAddr (masq_ListenHTTPS m))
               (mkLogWrapper handler false) tlsconfig (masq_ForceHTTPS m) in
    runMasqTCPServer s (masq_ListenHTTP m) (masq_ListenHTTPS m);;
    mret MasqHandler.

Definition getHyConfig (info : NodeInfo) (config : Options) (c : serverConfig) : M ServerConfig :=
  tls ← reading (getTLSConfig config);
  quic ← pure (getQUICConfig c);
  conn ← getConn info config;
  sniff ← pure (getRequestHook c);
  outbound ← getOutboundConfig c;
  masq ← getMasqHandler tls conn c;
  h ← pure (deref (ni_Hysteria2 info));
  mret (mkHyServerConfig tls quic conn sniff outbound (getBandwidthConfig h)
          (h2_Ignore_Client_Bandwidth h) (hc_DisableUDP c) (hc_UDPIdleTimeout c) masq).

(** *** What the handlers do to a request *)
Record ProxyRequest := mkProxyRequest {
  pr_Scheme : string; pr_URLHost : string; pr_Host : string; pr_RemoteAddr : string;
  pr_XForwardedFor : string;     (* the empty string: no such header *)
}.

Definition Director (u : URL) (rewriteHost : bool) (r : ProxyRequest) : ProxyRequest :=
  let xff :=
    match SplitHostPort (pr_RemoteAddr r) with
    | Ok (clientIP, _) =>
        if decide (pr_XForwardedFor r = "") then clientIP else pr_XForwardedFor r +:+ ", " +:+ clientIP
    | _ => pr_XForwardedFor r
    end in
  mkProxyRequest (u_Scheme u) (u_Host u) (if rewriteHost then u_Host u else pr_Host r) (pr_RemoteAddr r) xff.

(** Headers, status and body of the fixed answer. *)
Definition string_answer (headers : gmap string string) (status : Z) (content : string)
    : gmap string string * Z * string :=
  (headers, if decide (status = 0%Z) then 200%Z else status, content).
End config.

(** * The core *)
Class Hy2ServerLib `{Hy2ConfLib} := {
  (* [Serve] runs from the end of [AddNode] on; its error is only logged. *)
  NewServer : ServerConfig → HyWorld → HyWorld * res string HyServer;
  Serve : HyServer → HyWorld → HyWorld;
  zap_Logger : Type;
  zap_Build : string → string → string → res string zap_Logger;   (* level, encoding, time encoder *)
}.

Section core.
Context `{HL : Hy2Lib} `{CL : !Hy2ConfLib} `{SL : !Hy2ServerLib}.
Context `{RO : RangeOrder} `{RL : RatelimitLib} `{RE : RegexpLib}.
#[local] Existing Instance M_bind.
#[local] Existing Instance M_ret.

(** The node's configuration file; [Logger.Fatal] ends the process. *)
Definition read_server_config (path : string) : M serverConfig :=
  if decide (path = "") then mret serverConfig_zero
  else λ w,
    match ReadInConfig path w with
    | Ok v => match viper_Unmarshal v with
              | Ok c => (w, Ok c)
              | _ => (w, Panic "failed to parse server config")
              end
    | _ => (w, Panic "failed to read server config")
    end.

(** The server reads the users of the core, [h.Auth], whenever it
    authenticates: they are not part of its configuration. *)
Definition start_server (info : NodeInfo) (config : Options) : M HyServer :=
  c ← read_server_config (opt_Hysteria2ConfigPath config);
  hyconfig ← getHyConfig info config c;
  s ← (NewServer hyconfig : M HyServer);
  (λ w, (Serve s w, Ok s)) : M HyServer.

Definition Hy2_AddNode (tag : string) (info : NodeInfo) (config : Options) (h : Hysteria2)
    : Hysteria2 * (NodeInfo * Options) * res string unit :=
  let '(w, r) := start_server info config (hy_world h) in
  match r with
  | Ok s =>
      let n := mkHysteria2node s ∅ (wrap64 (opt_ReportMinTraffic config * 1024)) in
      (mkHysteria2 w (<[tag := n]> (hy_nodes h)) (hy_Auth h) (hy_heap h), (info, config), Ok tt)
  | Err e => (mkHysteria2 w (hy_nodes h) (hy_Auth h) (hy_heap h), (info, config), Err e)
  | Panic p => (mkHysteria2 w (hy_nodes h) (hy_Auth h) (hy_heap h), (info, config), Panic p)
  end.

(** logger.go *)
Definition logLevelMap : gmap string string :=
  {["debug" := "Debug"; "info" := "Info"; "warn" := "Warn"; "error" := "Error"]}.
Definition logFormatMap : gmap string string :=
  {["console" := "RFC3339"; "json" := "EpochMillis"]}.
Definition initLogger (logLevel logFormat : string) : res string zap_Logger :=
  match logLevelMap !! ToLower logLevel with
  | None => Err ("unsupported log level: " +:+ logLevel)
  | Some level =>
      match logFormatMap !! ToLower logFormat with
      | None => Err ("unsupported log format: " +:+ logFormat)
      | Some enc =>
          map_err (λ e, "failed to initialize logger: " +:+ e) (zap_Build level (ToLower logFormat) enc)
      end
  end.

Definition Hy2_New (c : CoreConfig) (w : HyWorld) : res string Hysteria2 :=
  hc ← deref (cc_Hysteria2Config c);
  let loglever := if decide (hc_LogLevel hc = "") then "error" else hc_LogLevel hc in
  _ ← initLogger loglever "console";
  mret (mkHysteria2 w ∅ ∅ ∅).

Definition Hy2_Start (h : Hysteria2) : Hysteria2 * res string unit := (h, Ok tt).

#[global] Instance Hy2_ops : CoreOps Hysteria2 := {|
  core_Start := Hy2_Start;
  core_Close := Hy2_Close;
  core_AddNode := Hy2_AddNode;
  core_DelNode := Hy2_DelNode;
  core_AddUsers := Hy2_AddUsers;
  core_GetUserTrafficSlice := Hy2_GetUserTrafficSlice;
  core_DelUsers := Hy2_DelUsers;
  core_Protocols := λ _, Hy2_Protocols;
  core_Type := λ _, Hy2_Type;
|}.
End core.

(** * Lemmas *)

(** ** Calls that keep a property of the host *)
Section keeps.
Context `{HL : Hy2Lib}.
#[local] Existing Instance M_bind.
#[local] Existing Instance M_ret.

Definition keeps (P : HyWorld → Prop) {A} (m : M A) : Prop := ∀ w, P w → P (m w).1.

Lemma keeps_bind (P : HyWorld → Prop) {A B} (m : M A) (f : A → M B) :
  keeps P m → (∀ a, keeps P (f a)) → keeps P (m ≫= f).
Proof.
  intros Hm Hf w Hw. unfold mbind, M_bind. specialize (Hm w Hw).
  destruct (m w) as [w' [a|e|p]]; [by apply Hf|done..].
Qed.

Lemma keeps_pure P {A} (r : res string A) : keeps P (pure r).
Proof. by intros w Hw. Qed.
Lemma keeps_reading P {A} (f : HyWorld → res string A) : keeps P (reading f).
Proof. by intros w Hw. Qed.
Lemma keeps_ret P {A} (a : A) : keeps P (mret a : M A).
Proof. by intros w Hw. Qed.

Lemma M_bind_Ok {A B} (m : M A) (f : A → M B) w w' b :
  (m ≫= f) w = (w', Ok b) ↔ ∃ w1 a, m w = (w1, Ok a) ∧ f a w1 = (w', Ok b).
Proof. unfold mbind, M_bind. destruct (m w) as [w1 [a|e|p]]; naive_solver. Qed.

Lemma M_bind_Err {A B} (m : M A) (f : A → M B) w w' e :
  (m ≫= f) w = (w', Err e) ↔
  m w = (w', Err e) ∨ ∃ w1 a, m w = (w1, Ok a) ∧ f a w1 = (w', Err e).
Proof. unfold mbind, M_bind. destruct (m w) as [w1 [a|e1|p]]; naive_solver. Qed.

Lemma M_no_panic_bind {A B} (m : M A) (f : A → M B) w :
  no_panic (m w).2 → (∀ w' a, m w = (w', Ok a) → no_panic (f a w').2) → no_panic ((m ≫= f) w).2.
Proof. unfold mbind, M_bind. destruct (m w) as [w1 [a|e|p]]; naive_solver. Qed.
End keeps.

Create HintDb keeps.
#[export] Hint Resolve keeps_pure keeps_reading keeps_ret : keeps.

Ltac solve_keeps :=
  repeat first
    [ progress intros | solve [eauto with keeps] | apply keeps_bind | case_decide
    | match goal with |- keeps _ (if ?b then _ else _) => destruct b end
    | match goal with |- keeps _ (match ?o with [] => _ | _ :: _ => _ end) => destruct o end
    | match goal with |- keeps _ (match ?o with (_, _) => _ end) => destruct o end ].

(** ** The outbound *)
Section outbound.
Context `{HL : Hy2Lib} `{CL : !Hy2ConfLib} `{SL : !Hy2ServerLib}.
#[local] Existing Instance M_bind.
#[local] Existing Instance M_ret.

(** There is an outbound to fall back on. *)
Lemma outbound_entries_nonempty c obs : outbound_entries c = Ok obs → obs ≠ [].
Proof.
  unfold outbound_entries. destruct (hc_Outbounds c) as [|e es]; [by intros [= <-]|].
  cbn [outbound_loop]. case_decide; [done|]. intros (ob & _ & (obs' & _ & [= <-])%bind_Ok_inv)%bind_Ok_inv.
  done.
Qed.

(** Starting a server keeps what its parts keep. *)
Class KeepsWorld (P : HyWorld → Prop) := {
  keep_ACLFile : ∀ f obs g, keeps P (NewACLEngineFromFile f obs g);
  keep_ACLString : ∀ s obs g, keeps P (NewACLEngineFromString s obs g);
  keep_Listen : ∀ a w, P w → P (ListenAndServe a w).1;
}.
#[local] Hint Resolve keep_ACLFile keep_ACLString : keeps.

Lemma getOutboundConfig_keeps P `{KW : !KeepsWorld P} c : keeps P (getOutboundConfig c).
Proof. unfold getOutboundConfig, acl_outbound. solve_keeps. Qed.

Lemma listen_masq_keeps P `{KW : !KeepsWorld P} addr : keeps P (listen_masq addr).
Proof.
  unfold listen_masq. case_decide; [apply keeps_ret|]. intros w Hw.
  pose proof (keep_Listen addr w Hw). by destruct (ListenAndServe addr w) as [w' [e|]].
Qed.
#[local] Hint Resolve getOutboundConfig_keeps listen_masq_keeps : keeps.

Lemma getMasqHandler_keeps P `{KW : !KeepsWorld P} tls conn c : keeps P (getMasqHandler tls conn c).
Proof. unfold getMasqHandler, runMasqTCPServer. solve_keeps. Qed.

Lemma listen_masq_Ok addr w w' :
  listen_masq addr w = (w', Ok tt) → addr ≠ "" → ListenAndServe addr w = (w', None).
Proof.
  unfold listen_masq. case_decide; [done|]. destruct (ListenAndServe addr w) as [w1 [e|]]; [done|].
  by intros [= <-].
Qed.

(** ** Reading the configuration *)
Lemma read_server_config_world path w : (read_server_config path w).1 = w.
Proof. unfold read_server_config. case_decide; [done|]. by repeat case_match. Qed.

Lemma start_server_Ok info config w w' s :
  start_server info config w = (w', Ok s) →
  ∃ c cfg w1 w2, (read_server_config (opt_Hysteria2ConfigPath config) w).2 = Ok c ∧
    getHyConfig info config c w = (w1, Ok cfg) ∧ NewServer cfg w1 = (w2, Ok s) ∧ w' = Serve s w2.
Proof.
  intros (w0 & c & Hc & (w1 & cfg & Hg & (w2 & s' & Hn & [= <- <-])%M_bind_Ok)%M_bind_Ok)%M_bind_Ok.
  pose proof (read_server_config_world (opt_Hysteria2ConfigPath config) w) as Hw.
  rewrite Hc in Hw. cbn [fst] in Hw. subst w0. exists c, cfg, w1, w2. by rewrite Hc.
Qed.

Lemma getHyConfig_Ok info config c w w' cfg :
  getHyConfig info config c w = (w', Ok cfg) →
  ∃ tls quic conn w1 ob w2, getTLSConfig config w = Ok tls ∧ getQUICConfig c = Ok quic ∧
    getConn info config w = (w1, Ok conn) ∧ is_ok (getRequestHook c) = true ∧
    getOutboundConfig c w1 = (w2, Ok ob) ∧ is_ok (getMasqHandler tls conn c w2).2 = true ∧
    (getMasqHandler tls conn c w2).1 = w'.
Proof.
  intros (w1 & tls & [= <- Ht] & (w2 & quic & [= <- Hq] & (w3 & conn & Hc & H)%M_bind_Ok)%M_bind_Ok)%M_bind_Ok.
  apply M_bind_Ok in H as (w4 & sn & [= <- Hs] & (w5 & ob & Ho & (w6 & mq & Hm & H)%M_bind_Ok)%M_bind_Ok).
  apply M_bind_Ok in H as (w7 & h & [= <- _] & [= <- _]).
  exists tls, quic, conn, w3, ob, w5. by rewrite Hs, Hm.
Qed.

Lemma Hy2_AddNode_Ok tag info config h h' io :
  Hy2_AddNode tag info config h = (h', io, Ok tt) →
  ∃ s w', start_server info config (hy_world h) = (w', Ok s) ∧ hy_world h' = w' ∧
    hy_nodes h' = <[tag := mkHysteria2node s ∅ (wrap64 (opt_ReportMinTraffic config * 1024))]> (hy_nodes h).
Proof.
  unfold Hy2_AddNode. destruct (start_server _ _ _) as [w' [s|e|p]]; [|done..].
  intros [= <- _]. by exists s, w'.
Qed.
End outbound.

Lemma at_least_Ok lo v dflt err r :
  at_least lo v dflt err = Ok r ↔ (v = 0 ∨ lo ≤ v)%Z ∧ r = if decide (v = 0)%Z then dflt else v.
Proof.
  unfold at_least. repeat case_decide.
  - naive_solver.
  - split; [done|]. lia.
  - split; [intros [= <-]; split; [lia|done]|by intros [_ ->]].
Qed.

Lemma initial_stream_window_Ok v r :
  initial_stream_window v = Ok r ↔
  (v = 0 ∨ 16384 ≤ v)%Z ∧ r = if decide (v = 0)%Z then 8388608%Z else 0%Z.
Proof.
  unfold initial_stream_window. repeat case_decide.
  - naive_solver.
  - split; [done|]. lia.
  - split; [intros [= <-]; split; [lia|done]|by intros [_ ->]].
Qed.

Lemma idle_timeout_Ok v r :
  idle_timeout v = Ok r ↔
  (v = 0 ∨ 4000000000 ≤ v ≤ 120000000000)%Z ∧ r = if decide (v = 0)%Z then 30000000000%Z else v.
Proof.
  unfold idle_timeout, Second. repeat case_decide.
  - naive_solver.
  - split; [done|]. lia.
  - split; [intros [= <-]; split; [lia|done]|by intros [_ ->]].
Qed.

(** * Properties *)
Section properties.
Context `{HL : Hy2Lib} `{CL : !Hy2ConfLib} `{SL : !Hy2ServerLib}.
#[local] Existing Instance M_bind.
#[local] Existing Instance M_ret.

(** C38: the port is read back out of the address it was put in, for every host
    without brackets, IPv6 or not. *)
Theorem extract_format_roundtrip ip port :
  contains_char "[" ip = false → contains_char "]" ip = false → int64 port →
  extractPortFromAddr (formatAddress ip port) = port.
Proof.
  intros Ho Hc Hp. unfold extractPortFromAddr.
  assert (formatAddress ip port = join_host_port ip (Itoa port)) as ->
    by (unfold formatAddress, join_host_port; by rewrite Contains_char).
  rewrite SplitHostPort_join by (done || by apply Itoa_no). by rewrite Atoi_Itoa.
Qed.

(** C34: the QUIC configuration.  It is accepted when every value is unset or in
    its range, and then holds the values set and defaults for the others, with
    one exception: a stream window that is set is replaced by zero. *)
Theorem getQUICConfig_exact config q :
  let c := hc_QUIC config in
  let ok lo v := (v = 0 ∨ lo ≤ v)%Z in
  let dflt v d := if decide (v = 0)%Z then d else v in
  getQUICConfig config = Ok q ↔
  (ok 16384 (quic_InitStreamReceiveWindow c) ∧ ok 16384 (quic_MaxStreamReceiveWindow c) ∧
   ok 16384 (quic_InitConnectionReceiveWindow c) ∧ ok 16384 (quic_MaxConnectionReceiveWindow c) ∧
   (quic_MaxIdleTimeout c = 0 ∨ 4000000000 ≤ quic_MaxIdleTimeout c ≤ 120000000000) ∧
   ok 8 (quic_MaxIncomingStreams c))%Z ∧
  q = mkQUICConfig (if decide (quic_InitStreamReceiveWindow c = 0%Z) then 8388608 else 0)
        (dflt (quic_MaxStreamReceiveWindow c) 8388608%Z)
        (dflt (quic_InitConnectionReceiveWindow c) 20971520%Z)
        (dflt (quic_MaxConnectionReceiveWindow c) 20971520%Z)
        (dflt (quic_MaxIdleTimeout c) 30000000000%Z)
        (dflt (quic_MaxIncomingStreams c) 4096%Z) false.
Proof.
  cbv zeta. set (c := hc_QUIC config). unfold getQUICConfig. fold c. split.
  - intros (i & (Hi & ->)%initial_stream_window_Ok & (a & (Ha & ->)%at_least_Ok &
      (b & (Hb & ->)%at_least_Ok & (d & (Hd & ->)%at_least_Ok & (t & (Ht & ->)%idle_timeout_Ok &
      (n & (Hn & ->)%at_least_Ok & [= <-])%bind_Ok_inv)%bind_Ok_inv
      )%bind_Ok_inv)%bind_Ok_inv)%bind_Ok_inv)%bind_Ok_inv. done.
  - intros ((Hi & Ha & Hb & Hd & Ht & Hn) & ->).
    erewrite (proj2 (initial_stream_window_Ok _ _)) by done.
    erewrite !(λ lo v dflt err H, proj2 (at_least_Ok lo v dflt err _) (conj H eq_refl)) by done.
    by erewrite (proj2 (idle_timeout_Ok _ _)) by done.
Qed.

(** The bandwidth in bytes per second is exact up to nine trillion megabits
    and always fits its 64 bits; a negative bandwidth becomes a limit above
    2^63 bytes, which is none. *)
Theorem bandwidth_bounds mbps :
  (0 ≤ bandwidth mbps < two64)%Z ∧
  ((0 ≤ mbps ≤ 9223372036854)%Z → bandwidth mbps = 125000 * mbps)%Z ∧
  ((-9223372036854 ≤ mbps < 0)%Z → bandwidth mbps = two64 + 125000 * mbps ∧ two63 < bandwidth mbps)%Z.
Proof.
  unfold bandwidth. assert (∀ z, int64 z → wrap64 z = z) as Hw by (intros; by apply wrap64_id).
  unfold int64, two63 in Hw. unfold wrapu64, Megabyte, two64, two63. split_and!.
  - case_decide; [lia|]. by apply Z.mod_pos_bound.
  - case_decide; [by subst|]. apply Z.mod_pos_bound. lia.
  - intros Hm. case_decide; [by subst|]. rewrite Hw by lia.
    rewrite Z.mod_small by (Z.to_euclidean_division_equations; lia).
    Z.to_euclidean_division_equations; lia.
  - intros Hm. rewrite decide_False, Hw by lia.
    rewrite <- (Z_mod_plus_full _ 1), Z.mod_small by (Z.to_euclidean_division_equations; lia).
    Z.to_euclidean_division_equations; lia.
Qed.

(** A masquerade that answers with a fixed text never uses the status code
    233, which tells a hysteria client that it is authenticated: the code is
    one of 200 to 599 but not 233, and 200 when none is set. *)
Theorem masquerade_status m headers status content :
  masq_handler m = Ok (StringHandler headers status content) →
  let '(_, code, body) := string_answer headers status content in
  (200 ≤ code ≤ 599 ∧ code ≠ 233)%Z ∧ body = ms_Content (masq_String m) ∧ body ≠ "".
Proof.
  unfold masq_handler. repeat case_decide; try done.
  - destruct (hy_url_Parse _); intros Hp; done.
  - destruct (status_ok _) eqn:Hs; [|done]. intros [= <- <- <-]. unfold string_answer.
    split; [|done]. revert Hs. unfold status_ok.
    case_decide; [lia|]. rewrite bool_decide_eq_true_2 by done. cbn [andb].
    rewrite negb_true_iff, !orb_false_iff, !bool_decide_eq_false. lia.
Qed.

(** Adding a node to the hysteria2 core.  Whatever comes of it, the users,
    the counters and every other node stay as they are; a node that is added
    starts with no counter, even when it replaces another under its tag, and
    with the threshold of its options. *)
Theorem Hy2_AddNode_frame tag info config h h' info' config' r :
  Hy2_AddNode tag info config h = (h', (info', config'), r) →
  info' = info ∧ config' = config ∧ hy_Auth h' = hy_Auth h ∧ hy_heap h' = hy_heap h ∧
  (∀ tag', tag' ≠ tag → hy_nodes h' !! tag' = hy_nodes h !! tag') ∧
  (r ≠ Ok tt → hy_nodes h' = hy_nodes h) ∧
  (r = Ok tt → ∃ n, hy_nodes h' !! tag = Some n ∧ hn_Counter n = ∅ ∧
     hn_ReportMinTrafficBytes n = wrap64 (opt_ReportMinTraffic config * 1024)).
Proof.
  unfold Hy2_AddNode. destruct (start_server _ _ _) as [w [s|e|p]];
    intros [= <- <- <- <-]; (split_and!; try done).
  - intros tag' Hne. by apply lookup_insert_ne.
  - intros _. eexists. split; [apply lookup_insert_eq|done].
Qed.
End properties.

(** ** Calls that return

    Without a configuration file there is no masquerade, and nothing that ends
    the process. *)
Section total.
Context `{HL : Hy2Lib} `{CL : !Hy2ConfLib} `{SL : !Hy2ServerLib}.
#[local] Existing Instance M_bind.
#[local] Existing Instance M_ret.

Class Hy2Total := {
  total_KeyPair : ∀ c k w, no_panic (LoadX509KeyPair c k w);
  total_Resolve : ∀ a w, no_panic (ResolveUDPAddr a w);
  total_ListenUDP : ∀ a w, no_panic (ListenUDP a w).2;
  total_Salamander : ∀ c p, no_panic (WrapPacketConnSalamander c p);
  total_NewServer : ∀ cfg w, no_panic (NewServer cfg w).2;
}.

Lemma getConn_returns `{HT : !Hy2Total} info config w :
  is_Some (ni_Common info) → is_Some (ni_Hysteria2 info) → no_panic (getConn info config w).2.
Proof.
  intros [cm Hc] [h Hh]. unfold getConn. apply M_no_panic_bind; [by rewrite Hc|intros w1 cm' _].
  apply M_no_panic_bind; [apply total_Resolve|intros w2 a _].
  apply M_no_panic_bind; [apply total_ListenUDP|intros w3 conn _].
  apply M_no_panic_bind; [by rewrite Hh|intros w4 h' _]. unfold pure, obfuscate.
  case_decide; [done|]. case_decide; [apply total_Salamander|done].
Qed.

Lemma Hy2_AddNode_returns `{HT : !Hy2Total} tag info config h :
  node_wf info → ni_Type info = "hysteria2" → opt_Hysteria2ConfigPath config = "" →
  no_panic (Hy2_AddNode tag info config h).2.
Proof.
  intros Hwf Hty Hp. pose proof (wf_part _ Hwf) as Hpart. unfold type_part in Hpart. rewrite Hty in Hpart.
  apply bool_decide_eq_true in Hpart.
  assert (no_panic (start_server info config (hy_world h)).2) as Hs;
    [|unfold Hy2_AddNode; by destruct (start_server _ _ _) as [w [s|e|p]]].
  unfold start_server, read_server_config. rewrite decide_True by done.
  apply M_no_panic_bind; [done|]. intros w c [= _ <-].
  apply M_no_panic_bind; [|intros w1 cfg _; apply M_no_panic_bind; [apply total_NewServer|done]].
  unfold getHyConfig. apply M_no_panic_bind.
  { unfold reading, getTLSConfig. destruct (opt_CertConfig config); [|done]. cbn [snd]. case_decide; [done|].
    apply no_panic_bind; [apply total_KeyPair|done]. }
  intros w1 tls _. apply M_no_panic_bind; [done|intros w2 quic _].
  apply M_no_panic_bind; [apply getConn_returns; [apply Hwf|done]|intros w3 conn _].
  do 3 (apply M_no_panic_bind; [done|intros ?? _]).
  apply M_no_panic_bind; [by apply no_panic_deref|done].
Qed.
End total.

(** ** Ports that stay taken *)
Section ports.
Context `{HL : Hy2Lib} `{CL : !Hy2ConfLib} `{SL : !Hy2ServerLib}.
#[local] Existing Instance M_bind.
#[local] Existing Instance M_ret.

(** A UDP address on which a socket is open is refused; access lists and TCP
    servers do not close the socket. *)
Class UDPPorts := {
  udp_bound : UAddr → HyWorld → Prop;
  udp_bind : ∀ a w w' conn, ListenUDP a w = (w', Ok conn) → udp_bound a w';
  udp_refused : ∀ a w, udp_bound a w → is_ok (ListenUDP a w).2 = false;
  udp_kept : ∀ a, KeepsWorld (udp_bound a);
}.

Definition listen_address (info : NodeInfo) (config : Options) (w : HyWorld) : res string UAddr :=
  cm ← deref (ni_Common info);
  ResolveUDPAddr (formatAddress (opt_ListenIP config) (cn_ServerPort cm)) w.

Lemma getConn_bound `{UP : !UDPPorts} info config a w w1 conn :
  listen_address info config w = Ok a → ListenUDP a w = (w1, Ok conn) →
  udp_bound a (getConn info config w).1.
Proof.
  intros (cm & Hc & Ha)%bind_Ok_inv Hl. unfold getConn.
  unfold mbind, M_bind, pure, reading. rewrite Hc, Ha, Hl.
  apply udp_bind in Hl. by destruct (deref (ni_Hysteria2 info)).
Qed.

Lemma getConn_refused `{UP : !UDPPorts} info config a w :
  listen_address info config w = Ok a → udp_bound a w → is_ok (getConn info config w).2 = false.
Proof.
  intros (cm & Hc & Ha)%bind_Ok_inv Hb%udp_refused. unfold getConn.
  unfold mbind, M_bind, pure, reading. rewrite Hc, Ha. by destruct (ListenUDP a w) as [w1 [c|e|p]].
Qed.

Lemma getHyConfig_bound `{UP : !UDPPorts} info config c a w w1 conn :
  is_ok (getTLSConfig config w) = true → is_ok (getQUICConfig c) = true →
  listen_address info config w = Ok a → ListenUDP a w = (w1, Ok conn) →
  udp_bound a (getHyConfig info config c w).1.
Proof.
  intros Ht Hq Ha Hl. pose proof (getConn_bound info config a w w1 conn Ha Hl) as Hb.
  unfold getHyConfig. unfold mbind at 1, M_bind at 1, reading at 1.
  destruct (getTLSConfig config w) as [tls| |]; [|done..].
  unfold mbind at 1, M_bind at 1, pure at 1. destruct (getQUICConfig c) as [quic| |]; [|done..].
  unfold mbind at 1, M_bind at 1. destruct (getConn info config w) as [w2 [cn| |]]; [|done..].
  pose proof (udp_kept a) as Hk. revert w2 Hb.
  match goal with |- ∀ w2, _ → udp_bound a (?m w2).1 => change (keeps (udp_bound a) m) end.
  pose proof (getOutboundConfig_keeps (udp_bound a) c).
  pose proof (λ tls conn, getMasqHandler_keeps (udp_bound a) tls conn c). solve_keeps.
Qed.

(** A node whose configuration is refused keeps its port.  When the socket
    was opened and a later part of the configuration (sniffing, outbounds,
    access list, masquerade) is in error, the socket is not closed, and no
    later attempt to add a node on that address succeeds, however the
    configuration was corrected. *)
Theorem failed_node_keeps_port `{UP : !UDPPorts} tag info config c a w1 conn h e
    tag' info' config' :
  read_server_config (opt_Hysteria2ConfigPath config) (hy_world h) = (hy_world h, Ok c) →
  is_ok (getTLSConfig config (hy_world h)) = true → is_ok (getQUICConfig c) = true →
  listen_address info config (hy_world h) = Ok a → ListenUDP a (hy_world h) = (w1, Ok conn) →
  (getHyConfig info config c (hy_world h)).2 = Err e →
  let '(h', _, r) := Hy2_AddNode tag info config h in
  r = Err e ∧
  (listen_address info' config' (hy_world h') = Ok a →
   is_ok (Hy2_AddNode tag' info' config' h').2 = false).
Proof.
  intros Hc Ht Hq Ha Hl He.
  pose proof (getHyConfig_bound info config c a _ w1 conn Ht Hq Ha Hl) as Hb.
  destruct (getHyConfig info config c (hy_world h)) as [w' r] eqn:Hg. cbn [fst snd] in *. subst r.
  assert (start_server info config (hy_world h) = (w', Err e)) as Hs.
  { unfold start_server. rewrite M_bind_Err. right. exists (hy_world h), c. split; [done|].
    rewrite M_bind_Err. by left. }
  unfold Hy2_AddNode at 1. rewrite Hs. split; [done|]. cbn [hy_world]. intros Ha'.
  pose proof (getConn_refused info' config' a w' Ha' Hb) as Hr.
  unfold Hy2_AddNode. cbn [hy_world].
  destruct (start_server info' config' w') as [w2 [s|e2|p]] eqn:Hs'; [|done..]. exfalso.
  apply start_server_Ok in Hs' as (c' & cfg & w3 & w4 & _ & Hg' & _).
  apply getHyConfig_Ok in Hg' as (tls & quic & cn & w5 & ob & w6 & _ & _ & Hcn & _).
  by rewrite Hcn in Hr.
Qed.

(** A TCP address that is served stays so: nothing the core does to a node stops
    a masquerade server. *)
Class TCPPorts := {
  tcp_served : string → HyWorld → Prop;
  tcp_serve : ∀ a w w', ListenAndServe a w = (w', None) → tcp_served a w';
  tcp_refused : ∀ a w, tcp_served a w → is_Some (ListenAndServe a w).2;
  tcp_kept : ∀ a, KeepsWorld (tcp_served a);
  tcp_kept_udp : ∀ a u, keeps (tcp_served a) (ListenUDP u : M PacketConn);
  tcp_kept_server : ∀ a cfg, keeps (tcp_served a) (NewServer cfg : M HyServer);
  tcp_kept_Serve : ∀ a s w, tcp_served a w → tcp_served a (Serve s w);
  tcp_kept_Close : ∀ a s w, tcp_served a w → tcp_served a (server_Close s w).1;
}.

Lemma getMasqHandler_serves `{TP : !TCPPorts} tls conn c w w' m :
  getMasqHandler tls conn c w = (w', Ok m) → masq_ListenHTTPS (hc_Masquerade c) ≠ "" →
  tcp_served (masq_ListenHTTPS (hc_Masquerade c)) w'.
Proof.
  intros (w1 & hd & [= <- Hh] & H)%M_bind_Ok Hne. rewrite decide_False in H by naive_solver.
  rewrite decide_False in H by done. apply M_bind_Ok in H as (w2 & [] & Hr & [= <- _]).
  apply M_bind_Ok in Hr as (w3 & [] & _ & Hs). apply listen_masq_Ok in Hs; [|done].
  by apply tcp_serve in Hs.
Qed.

Lemma getMasqHandler_refused `{TP : !TCPPorts} tls conn c w :
  tcp_served (masq_ListenHTTPS (hc_Masquerade c)) w → masq_ListenHTTPS (hc_Masquerade c) ≠ "" →
  is_ok (masq_handler (hc_Masquerade c)) = true →
  (getMasqHandler tls conn c w).2 = Panic "failed to serve masquerade HTTP(S)".
Proof.
  intros Hs Hne Hh. unfold getMasqHandler. unfold mbind at 1, M_bind at 1, pure at 1.
  destruct (masq_handler _) as [hd| |]; [|done..].
  rewrite decide_False by naive_solver. rewrite decide_False by done.
  unfold runMasqTCPServer, mbind, M_bind.
  pose proof (tcp_kept (masq_ListenHTTPS (hc_Masquerade c))).
  pose proof (listen_masq_keeps (tcp_served (masq_ListenHTTPS (hc_Masquerade c)))
    (masq_ListenHTTP (hc_Masquerade c)) w Hs) as Hk.
  assert ((∃ w1, listen_masq (masq_ListenHTTP (hc_Masquerade c)) w = (w1, Ok tt)) ∨
    (listen_masq (masq_ListenHTTP (hc_Masquerade c)) w).2 = Panic "failed to serve masquerade HTTP(S)")
    as [[w1 Hl]|Hl].
  { unfold listen_masq. case_decide; [by left; exists w|].
    destruct (ListenAndServe _ w) as [w1 [e|]]; [by right|left; by exists w1]. }
  - rewrite Hl in *. cbn [fst] in Hk. unfold listen_masq. rewrite decide_False by done.
    apply tcp_refused in Hk as [e He]. destruct (ListenAndServe _ w1) as [w2 r]. cbn [snd] in He.
    by subst r.
  - destruct (listen_masq _ w) as [w1 r]. cbn [snd] in Hl. by subst r.
Qed.

Lemma start_server_serves `{TP : !TCPPorts} info config c w w' s :
  (read_server_config (opt_Hysteria2ConfigPath config) w).2 = Ok c →
  masq_ListenHTTPS (hc_Masquerade c) ≠ "" → start_server info config w = (w', Ok s) →
  tcp_served (masq_ListenHTTPS (hc_Masquerade c)) w'.
Proof.
  intros Hc Hne (c' & cfg & w1 & w2 & Hc' & Hg & Hn & ->)%start_server_Ok.
  assert (c' = c) as -> by congruence.
  apply getHyConfig_Ok in Hg as (tls & quic & conn & w3 & ob & w4 & _ & _ & _ & _ & _ & Hm & Hm').
  destruct (getMasqHandler tls conn c w4) as [w5 [m| |]] eqn:Hms; [|done..]. cbn [fst] in Hm'. subst w5.
  apply getMasqHandler_serves in Hms; [|done]. apply tcp_kept_Serve.
  pose proof (tcp_kept_server (masq_ListenHTTPS (hc_Masquerade c)) cfg w1 Hms) as Hk. by rewrite Hn in Hk.
Qed.

Lemma getConn_keeps_tcp `{TP : !TCPPorts} a info config : keeps (tcp_served a) (getConn info config).
Proof. unfold getConn. pose proof (tcp_kept_udp a). solve_keeps. Qed.

(** A hysteria2 node with a masquerade over TCP cannot be added again.  Once
    it was added and deleted, as a change of the node on the panel makes the
    controller do, adding it anew fails; and when everything before the
    masquerade succeeds, it ends the process, since the first masquerade server
    still holds its address and the second one fails to listen. *)
Theorem masquerade_node_cannot_return `{TP : !TCPPorts} tag info config c h h1 h2 io info' config' :
  (read_server_config (opt_Hysteria2ConfigPath config) (hy_world h)).2 = Ok c →
  masq_ListenHTTPS (hc_Masquerade c) ≠ "" →
  Hy2_AddNode tag info config h = (h1, io, Ok tt) →
  Hy2_DelNode tag h1 = (h2, Ok tt) →
  (read_server_config (opt_Hysteria2ConfigPath config') (hy_world h2)).2 = Ok c →
  let w2 := hy_world h2 in
  let r := (Hy2_AddNode tag info' config' h2).2 in
  r ≠ Ok tt ∧
  (∀ w3 w4 conn ob, is_ok (getTLSConfig config' w2) = true → is_ok (getQUICConfig c) = true →
     getConn info' config' w2 = (w3, Ok conn) → is_ok (getRequestHook c) = true →
     getOutboundConfig c w3 = (w4, Ok ob) →
     r = Panic "failed to serve masquerade HTTP(S)").
Proof.
  intros Hc Hne (s & w' & Hs & Hw & Hn)%Hy2_AddNode_Ok Hd Hc2 w2 r.
  assert (is_ok (masq_handler (hc_Masquerade c)) = true) as Hh.
  { apply start_server_Ok in Hs as (c' & cfg & v1 & v2 & Hc' & Hg & _). assert (c' = c) as -> by congruence.
    apply getHyConfig_Ok in Hg as (tls & quic & conn & v3 & ob & v4 & _ & _ & _ & _ & _ & Hm & _).
    revert Hm. unfold getMasqHandler. unfold mbind at 1, M_bind at 1, pure at 1.
    by destruct (masq_handler _). }
  assert (tcp_served (masq_ListenHTTPS (hc_Masquerade c)) w2) as Hserved.
  { apply (start_server_serves info config c _ _ _ Hc Hne) in Hs. rewrite <- Hw in Hs.
    subst w2. revert Hd. unfold Hy2_DelNode. destruct (hy_nodes h1 !! tag) as [n|]; [|done].
    pose proof (tcp_kept_Close _ (hn_server n) _ Hs) as Hk.
    destruct (server_Close _ _) as [v [u|e|p]]; [|done..]. by intros [= <-]. }
  pose proof getMasqHandler_refused as Href. subst r. split.
  - intros Hr. destruct (Hy2_AddNode tag info' config' h2) as [[h3 io3] r3] eqn:Ha. cbn [snd] in Hr. subst r3.
    apply Hy2_AddNode_Ok in Ha as (s3 & v & Hs3 & _).
    apply start_server_Ok in Hs3 as (c' & cfg & v1 & v2 & Hc' & Hg & _). assert (c' = c) as -> by congruence.
    apply getHyConfig_Ok in Hg as (tls & quic & conn & v3 & ob & v4 & _ & _ & Hcn & _ & Hob & Hm & _).
    pose proof (getConn_keeps_tcp _ info' config' w2 Hserved) as Hk. subst w2. rewrite Hcn in Hk.
    pose proof (tcp_kept (masq_ListenHTTPS (hc_Masquerade c))).
    pose proof (getOutboundConfig_keeps _ c v3 Hk) as Hk2. rewrite Hob in Hk2.
    by rewrite (Href tls conn c v4 Hk2 Hne Hh) in Hm.
  - intros w3 w4 conn ob Ht Hq Hcn Hrh Hob. subst w2. set (w2 := hy_world h2) in *.
    pose proof (getConn_keeps_tcp _ info' config' w2 Hserved) as Hk. rewrite Hcn in Hk.
    pose proof (tcp_kept (masq_ListenHTTPS (hc_Masquerade c))).
    pose proof (getOutboundConfig_keeps _ c w3 Hk) as Hk2. rewrite Hob in Hk2.
    pose proof (read_server_config_world (opt_Hysteria2ConfigPath config') w2) as Hw2.
    unfold Hy2_AddNode, start_server. fold w2. unfold mbind at 1, M_bind at 1.
    destruct (read_server_config _ w2) as [v rc]. cbn [fst] in Hw2. rewrite Hw2.
    cbn [snd] in Hc2. subst rc.
    unfold getHyConfig. unfold mbind, M_bind, reading, pure.
    destruct (getTLSConfig _ _) as [tls| |]; [|done..]. destruct (getQUICConfig c); [|done..].
    rewrite Hcn. destruct (getRequestHook c); [|done..]. rewrite Hob.
    pose proof (Href tls conn c w4 Hk2 Hne Hh) as Hp.
    destruct (getMasqHandler tls conn c w4) as [w5 q]. cbn [snd] in Hp. by subst q.
Qed.
End ports.

(** * Witnesses: a host that is its open UDP and TCP addresses *)
#[local] Instance wit_hy : Hy2Lib := {|
  HyServer := string;
  HyWorld := list string * list string;
  server_Close := λ s w, ((filter (λ a, a ≠ s) w.1, w.2), Ok tt);
|}.
Definition wit_with_https (addr : string) : serverConfig :=
  mkServerConfig "" (mkObfs "" (mkObfsSalamander "")) None None QUIC_zero (mkBandwidth "" "")
    false false false 0 (mkAuth "" "" ∅ (mkAuthHTTP "" false) "") (hc_Resolver serverConfig_zero)
    (mkSniff false 0 false "" "") (mkACL "" [] "" "" 0) [] (mkTrafficStats "" "")
    (mkMasquerade "" (mkMasqueradeFile "") (mkMasqueradeProxy "" false)
       (mkMasqueradeString "" ∅ 0) "" addr false).
Definition wit_with_resolver (type : string) : serverConfig :=
  mkServerConfig "" (mkObfs "" (mkObfsSalamander "")) None None QUIC_zero (mkBandwidth "" "")
    false false false 0 (mkAuth "" "" ∅ (mkAuthHTTP "" false) "")
    (mkResolver type (mkResolverTCP "" 0) (mkResolverUDP "" 0) (mkResolverTLS "" 0 "" false)
       (mkResolverHTTPS "" 0 "" false))
    (mkSniff false 0 false "" "") (mkACL "" [] "" "" 0) [] (mkTrafficStats "" "")
    (hc_Masquerade serverConfig_zero).
#[local] Instance wit_conf : Hy2ConfLib := {|
  Certificate := string; LoadX509KeyPair := λ c _ _, Ok c;
  UAddr := string; ResolveUDPAddr := λ a _, Ok a;
  PacketConn := string;
  ListenUDP := λ a w, if decide (a ∈ w.1) then (w, Err "in use") else ((a :: w.1, w.2), Ok a);
  WrapPacketConnSalamander := λ c _, Ok c; LocalAddr := λ c, c;
  PortUnion := string; ParsePortUnion := Some; IP := string; ParseIP := Some;
  PluggableOutbound := string; NewDirectOutboundSimple := λ _, "direct";
  NewDirectOutboundBindToIPs := λ _ _ _, Ok "ips"; NewDirectOutboundBindToDevice := λ _ _, Ok "device";
  NewSOCKS5Outbound := λ a _ _, a; NewHTTPOutbound := λ u _, Ok u;
  GeoIPMap := unit; GeoSiteMap := unit;
  NewACLEngineFromFile := λ _ _ _ w, (w, Ok "acl"); NewACLEngineFromString := λ _ _ _ w, (w, Ok "acl");
  NewSystemResolver := λ o, o; NewStandardResolverTCP := λ _ _ o, o; NewStandardResolverUDP := λ _ _ o, o;
  NewStandardResolverTLS := λ _ _ _ _ o, o; NewDoHResolver := λ _ _ _ _ o, o;
  hy_url_Parse := λ u, Ok (mkURL "https" u);
  Viper := string; ReadInConfig := λ p _, Ok p;
  viper_Unmarshal := λ p, Ok (if decide (p = "masq") then wit_with_https ":443" else wit_with_resolver "dot");
  ListenAndServe := λ a w,
    if decide (a ∈ w.2) then (w, Some "in use") else ((w.1, a :: w.2), None);
|}.
#[local] Instance wit_server : Hy2ServerLib := {|
  NewServer := λ c w, (w, Ok (sv_Conn c)); Serve := λ _ w, w;
  zap_Logger := unit; zap_Build := λ _ _ _, Ok tt;
|}.
#[local] Instance wit_udp : UDPPorts.
Proof.
  refine {| udp_bound := λ (a : UAddr) (w : HyWorld), (a : string) ∈ (w.1 : list string) |}; cbn.
  - intros a w w' conn. case_decide; [done|]. intros Heq. injection Heq as <- _. apply list_elem_of_here.
  - intros a w Ha. by rewrite decide_True.
  - intros a. split; [by intros ??? w Ha..|]. intros b w Ha. cbn. by case_decide.
Defined.
#[local] Instance wit_tcp : TCPPorts.
Proof.
  refine {| tcp_served := λ (a : string) (w : HyWorld), a ∈ (w.2 : list string) |}; cbn; try done.
  - intros a w w'. case_decide; [done|]. intros Heq. injection Heq as <-. apply list_elem_of_here.
  - intros a w Ha. rewrite decide_True by done. by eexists.
  - intros a. split; [by intros ??? w Ha..|]. intros b w Ha. cbn. case_decide; [done|by apply list_elem_of_further].
  - intros a u w Ha. cbn. by case_decide.
  - by intros a cfg w Ha.
Defined.

Definition wit_common : CommonNode := mkCommonNode "h" 8443 "n" [] None.
Definition wit_node : NodeInfo :=
  mkNodeInfo 1 "hysteria2" 0 0 0 RawDNS_empty Rules_empty None None None None None None
    (Some (mkHysteria2Node wit_common TlsSettings_zero None false 100 100 "" ""))
    (Some wit_common) None false false.
Definition wit_options (path : string) : Options :=
  mkOptions "" "hysteria2" "" "::1" "" 0 10 LimitConfig_zero "" None None path
    (Some (mkCertConfig "file" false false "d" "cert" "key" "" "" None)).
Definition wit_core : Hysteria2 := mkHysteria2 ([], []) ∅ ∅ ∅.

Lemma extract_format_roundtrip_witness : extractPortFromAddr (formatAddress "::1" 443) = 443%Z.
Proof. apply extract_format_roundtrip; [reflexivity|reflexivity|by vm_compute]. Defined.

Lemma masquerade_status_witness :
  masq_handler (mkMasquerade "String" (mkMasqueradeFile "") (mkMasqueradeProxy "" false)
    (mkMasqueradeString "hello" ∅ 0) "" "" false) = Ok (StringHandler ∅ 0 "hello") ∧ "hello" ≠ "".
Proof.
  split; [reflexivity|].
  by apply (masquerade_status (mkMasquerade "String" (mkMasqueradeFile "") (mkMasqueradeProxy "" false)
    (mkMasqueradeString "hello" ∅ 0) "" "" false) ∅ 0 "hello").
Defined.

Lemma Hy2_AddNode_frame_witness :
  ∃ n, hy_nodes (Hy2_AddNode "t" wit_node (wit_options "masq") wit_core).1.1 !! "t" = Some n ∧
    hn_ReportMinTrafficBytes n = 10240%Z.
Proof.
  destruct (Hy2_AddNode "t" wit_node (wit_options "masq") wit_core) as [[h' [i' c']] r] eqn:E.
  pose proof (Hy2_AddNode_frame _ _ _ _ _ _ _ _ E) as (_ & _ & _ & _ & _ & _ & H).
  assert (r = Ok tt) as Hr.
  { assert ((Hy2_AddNode "t" wit_node (wit_options "masq") wit_core).2 = Ok tt) as Hv
      by (vm_compute; reflexivity). by rewrite E in Hv. }
  destruct (H Hr) as (n & Hn & _ & Hm). exists n. by rewrite Hm.
Defined.

(** A misspelt resolver type, then a corrected file. *)
Lemma failed_node_keeps_port_witness :
  let '(h', _, r) := Hy2_AddNode "t" wit_node (wit_options "dot") wit_core in
  r = Err "unsupported resolver type" ∧ is_ok (Hy2_AddNode "t" wit_node (wit_options "") h').2 = false.
Proof.
  pose proof (failed_node_keeps_port "t" wit_node (wit_options "dot") (wit_with_resolver "dot") "[::1]:8443"
    (["[::1]:8443"], []) "[::1]:8443" wit_core "unsupported resolver type" "t" wit_node (wit_options "")
    eq_refl eq_refl eq_refl eq_refl eq_refl eq_refl) as H.
  destruct (Hy2_AddNode "t" wit_node (wit_options "dot") wit_core) as [[h' io] r].
  destruct H as [-> H]. split; [reflexivity|]. by apply H.
Defined.

Lemma masquerade_node_cannot_return_witness :
  let h1 := (Hy2_AddNode "t" wit_node (wit_options "masq") wit_core).1.1 in
  let h2 := (Hy2_DelNode "t" h1).1 in
  (Hy2_AddNode "t" wit_node (wit_options "masq") h2).2 = Panic "failed to serve masquerade HTTP(S)".
Proof.
  intros h1 h2.
  edestruct (masquerade_node_cannot_return "t" wit_node (wit_options "masq") (wit_with_https ":443")
    wit_core h1 h2 (wit_node, wit_options "masq") wit_node (wit_options "masq")) as [_ H];
    [vm_compute; reflexivity|discriminate|vm_compute; reflexivity|vm_compute; reflexivity
    |vm_compute; reflexivity|].
  eapply H; vm_compute; reflexivity.
Defined.
