(* ===== verification/PanelNode.v ===== *)
(** src/api/panel/node.go: the node configuration as the panel sends it, decoded
    and normalised.

    Decoding a document into the structs (encoding/json) and formatting a
    number or a nested value as text are parameters ([NodeDecoder]); a JSON
    number is a binary64 value. *)

From S2P Require Import Prelude GoStd Lower Conf Panel.
From stdpp Require Import prelude gmap strings.
From Stdlib Require Import Ascii ZArith Lia SpecFloat.

Open Scope string_scope.

Class NodeDecoder := {
  decode_VAllss : string → res string VAllssNode;
  decode_Shadowsocks : string → res string ShadowsocksNode;
  decode_Trojan : string → res string TrojanNode;
  decode_Tuic : string → res string TuicNode;
  decode_AnyTls : string → res string AnyTlsNode;
  decode_Hysteria : string → res string HysteriaNode;
  decode_Hysteria2 : string → res string Hysteria2Node;
  decode_object : string → res string (gmap string json);
  decode_array : string → res string (list json);
  decode_env : string → res string (gmap string string);
  FormatFloat : spec_float → string;
  json_Marshal : json → string;
}.

(** ** float64 to integer, as on amd64: the fraction is cut off, and what does
    not fit becomes the smallest integer. *)
Definition trunc (f : spec_float) : option Z :=
  match f with
  | S754_zero _ => Some 0%Z
  | S754_finite s m e =>
      let n := if (0 <=? e)%Z then Z.shiftl (Zpos m) e else Z.shiftr (Zpos m) (- e) in
      Some (if s then (- n)%Z else n)
  | _ => None
  end.

Definition float_to_int64 (f : spec_float) : Z :=
  match trunc f with
  | Some z => if decide (int64 z) then z else (- two63)%Z
  | None => (- two63)%Z
  end.

Definition float_to_uint64 (f : spec_float) : Z :=
  match trunc f with
  | Some z => if decide (0 ≤ z < two64)%Z then z else two63
  | None => two63
  end.

(** [v == float64(int64(v))] *)
Definition is_int64_float (f : spec_float) : bool :=
  match f with
  | S754_zero _ => true
  | S754_finite s m e =>
      ((0 <=? e)%Z || (Z.land (Zpos m) (Z.ones (- e)) =? 0)%Z)
      && bool_decide (trunc f = Some (float_to_int64 f))
  | _ => false
  end.

Definition float_pos (f : spec_float) : bool :=
  match f with S754_finite s _ _ => negb s | S754_infinity s => negb s | _ => false end.
Definition float_zero (f : spec_float) : bool := match f with S754_zero _ => true | _ => false end.

(** ** Small helpers of node.go *)
Definition intervalToTime (i : json) : res string Z :=
  match i with
  | JNull => Ok Minute
  | JStr s => Ok (wrap64 ((Atoi s).1 * Second))
  | JNum f => Ok (wrap64 (float_to_int64 f * Second))
  | JBool _ | JArr _ | JObj _ => Panic "reflect: call of reflect.Value.Int"
  end.

Definition normalizeRawJSON (value : string) : string :=
  let trimmed := TrimSpace value in
  if decide (trimmed = "" ∨ trimmed = "null") then ""
  else if decide (trimmed = "[]") then "{}" else trimmed.

Definition is_nonempty_str (item : json) : option string :=
  match item with JStr text => if decide (text = "") then None else Some text | _ => None end.

Definition routeMatchesToStrings (m : json) : list string :=
  match m with
  | JStr value => if decide (value = "") then [] else Split value ","%char
  | JArr value => omap is_nonempty_str value
  | _ => []
  end.

Section mapx.
Context `{ND : NodeDecoder}.
Implicit Types raw : gmap string json.

Definition mapHas raw (keys : list string) : bool := existsb (λ k, bool_decide (is_Some (raw !! k))) keys.

(** [JNull] also stands for a missing key (a nil interface). *)
Fixpoint mapValue raw (keys : list string) : json :=
  match keys with
  | [] => JNull
  | key :: keys => match raw !! key with Some value => value | None => mapValue raw keys end
  end.

Definition mapAnyString (value : json) : string :=
  match value with
  | JNull => ""
  | JStr v => v
  | JBool v => if v then "1" else "0"
  | JNum v => if is_int64_float v then Itoa (float_to_int64 v) else FormatFloat v
  | v => json_Marshal v
  end.

Definition value_string (value : json) : string :=
  match value with
  | JNull => ""
  | JStr v => TrimSpace v
  | JBool v => if v then "1" else "0"
  | JNum v => if is_int64_float v then Itoa (float_to_int64 v) else FormatFloat v
  | v => TrimSpace (json_Marshal v)
  end.

Definition mapString raw keys : string := value_string (mapValue raw keys).

Definition nonempty (text : string) : list string := if decide (text = "") then [] else [text].

Definition array_strings (v : list json) : list string :=
  v ≫= λ item, nonempty (TrimSpace (mapAnyString item)).

Definition value_strings (value : json) : list string :=
  match value with
  | JNull => []
  | JArr v => array_strings v
  | JStr v =>
      let text := TrimSpace v in
      if decide (text = "") then []
      else
        match (if HasPrefix text "[" then decode_array text else Err "") with
        | Ok decoded => array_strings decoded
        | _ => [text]
        end
  | v => nonempty (TrimSpace (mapAnyString v))
  end.

Definition mapStringSlice raw keys : list string := value_strings (mapValue raw keys).

Definition mapBool raw keys : bool :=
  match mapValue raw keys with
  | JBool v => v
  | JStr v => existsb (String.eqb (ToLower (TrimSpace v))) ["1"; "true"; "yes"; "y"; "on"]
  | JNum v => negb (float_zero v)
  | _ => false
  end.

Definition mapUint64 raw keys : Z :=
  match mapValue raw keys with
  | JNum v => if float_pos v then float_to_uint64 v else 0%Z
  | JStr v => (ParseUint (TrimSpace v)).1
  | _ => 0%Z
  end.

Definition mapDNSEnv `{RangeOrder} raw keys : string :=
  match mapValue raw keys with
  | JNull => ""
  | JObj env =>
      GoStd.Join (range env ≫= λ e, let key := TrimSpace e.1 in
                    if decide (key = "") then [] else [key +:+ "=" +:+ mapAnyString e.2]) ","
  | value => value_string value
  end.

(** [( *TlsSettings).UnmarshalJSON] *)
Definition cert_keys : list string :=
  ["cert_mode"; "certMode"; "CertMode"; "cert_file"; "certFile"; "CertFile";
   "key_file"; "keyFile"; "KeyFile"; "provider"; "Provider"; "dns_env"; "dnsEnv"; "DNSEnv";
   "self_fallback"; "selfFallback"; "SelfFallback";
   "reject_unknown_sni"; "rejectUnknownSni"; "RejectUnknownSni"].

Definition TlsSettings_UnmarshalJSON `{RangeOrder} (data : string) : res string TlsSettings :=
  let trimmed := TrimSpace data in
  if decide (trimmed = "" ∨ trimmed = "null" ∨ trimmed = "[]") then Ok TlsSettings_zero
  else
    raw ← decode_object trimmed;
    mret (mkTlsSettings
      (mapString raw ["server_name"; "serverName"])
      (mapStringSlice raw ["server_names"; "serverNames"])
      (mapString raw ["dest"])
      (mapString raw ["server_port"; "serverPort"])
      (mapString raw ["short_id"; "shortId"])
      (mapStringSlice raw ["short_ids"; "shortIds"])
      (mapString raw ["private_key"; "privateKey"])
      (mapString raw ["mldsa65Seed"; "mldsa65_seed"])
      (mapUint64 raw ["xver"])
      (mapString raw ["cert_mode"; "certMode"; "CertMode"])
      (mapString raw ["cert_file"; "certFile"; "CertFile"])
      (mapString raw ["key_file"; "keyFile"; "KeyFile"])
      (mapString raw ["provider"; "Provider"])
      (mapDNSEnv raw ["dns_env"; "dnsEnv"; "DNSEnv"])
      (mapBool raw ["self_fallback"; "selfFallback"; "SelfFallback"])
      (mapBool raw ["reject_unknown_sni"; "rejectUnknownSni"; "RejectUnknownSni"])
      (mapHas raw ["self_fallback"; "selfFallback"; "SelfFallback"])
      (mapHas raw ["reject_unknown_sni"; "rejectUnknownSni"; "RejectUnknownSni"])
      (mapHas raw cert_keys)).

(** ** Certificates asked for by the panel *)
Definition EffectiveServerNames (t : TlsSettings) : list string :=
  match tls_ServerNames t with
  | [] => if decide (tls_ServerName t = "") then [] else [tls_ServerName t]
  | names => names
  end.

Definition PrimaryServerName (t : TlsSettings) : string := default "" (head (EffectiveServerNames t)).

Definition nodeTlsSettings (node : NodeInfo) : TlsSettings :=
  let pick {A} (f : A → TlsSettings) (o : option A) := default TlsSettings_zero (f <$> o) in
  if decide (ni_Type node = "vmess" ∨ ni_Type node = "vless") then pick va_TlsSettings (ni_VAllss node)
  else if decide (ni_Type node = "trojan") then pick tr_TlsSettings (ni_Trojan node)
  else if decide (ni_Type node = "tuic") then pick tu_TlsSettings (ni_Tuic node)
  else if decide (ni_Type node = "anytls") then pick at_TlsSettings (ni_AnyTls node)
  else if decide (ni_Type node = "hysteria") then pick hy_TlsSettings (ni_Hysteria node)
  else if decide (ni_Type node = "hysteria2") then pick h2_TlsSettings (ni_Hysteria2 node)
  else TlsSettings_zero.

(** One entry of a KEY=value list. *)
Definition env_entry (result : gmap string string) (env : string) : gmap string string :=
  match SplitN2 env "="%char with
  | [k; v] => let key := TrimSpace k in
              if decide (key = "") then result else <[key := TrimSpace v]> result
  | _ => result
  end.

Definition env_sep (r : ascii) : bool :=
  bool_decide (r = ","%char) || bool_decide (r = NL) || bool_decide (r = CR).

Definition parseDNSEnv `{RangeOrder} (value : string) : gmap string string :=
  let value := TrimSpace value in
  if decide (value = "") then ∅
  else
    match (if HasPrefix value "{" then decode_env value else Err "") with
    | Ok decoded =>
        foldl (λ result e, let key := TrimSpace e.1 in
                 if decide (key = "") then result else <[key := e.2]> result) ∅ (range decoded)
    | _ => foldl env_entry ∅ (FieldsFunc value env_sep)
    end.

(** The first candidate that is not blank. *)
Definition orElse (a b : string) : string := if decide (a = "") then b else a.

Definition buildPanelCertConfig `{RangeOrder} (nodeID : Z) (node : NodeInfo) (cm : CommonNode)
    : option CertConfig * bool * bool :=
  let tls := nodeTlsSettings node in
  if negb (tls_HasCertFields tls) then (None, false, false)
  else
    let certDomain := orElse (TrimSpace (PrimaryServerName tls))
                        (orElse (TrimSpace (cn_ServerName cm)) (TrimSpace (cn_Host cm))) in
    let certFile := orElse (TrimSpace (tls_CertFile tls))
                      ("/etc/V2bZ/node-" +:+ Itoa nodeID +:+ ".cer") in
    let keyFile := orElse (TrimSpace (tls_KeyFile tls))
                     ("/etc/V2bZ/node-" +:+ Itoa nodeID +:+ ".key") in
    (Some (mkCertConfig (TrimSpace (tls_CertMode tls)) (tls_RejectUnknownSni tls)
       (tls_SelfFallback tls) certDomain certFile keyFile (TrimSpace (tls_Provider tls))
       "node@zicboard.local" (Some (parseDNSEnv (tls_DNSEnv tls)))),
     tls_HasSelfFallback tls, tls_HasRejectUnknownSni tls).
End mapx.

(** The two halves do not fit: [mapDNSEnv] joins the variables of an object with
    commas, and [parseDNSEnv] splits at every comma, so a value that holds a
    comma is cut there. *)
Lemma dns_env_comma_lost `{ND : NodeDecoder} :
  let _ := canonical_order in
  let raw := {["dns_env" := JObj {["TOKEN" := JStr "a,b"]}]} in
  mapDNSEnv raw ["dns_env"] = "TOKEN=a,b" ∧ parseDNSEnv "TOKEN=a,b" = {["TOKEN" := "a"]}.
Proof. split; vm_compute; reflexivity. Qed.
