(* ===== verification/PanelClient.v ===== *)
(** src/api/panel/panel.go, user.go, utils.go and GetNodeInfo of node.go: the
    client of the panel's HTTP interface.

    The network is a state [HWorld] with two operations ([HttpLib], resty); the
    SHA-256 of a body, which is only compared, is a parameter too. *)

From S2P Require Import Prelude GoStd Lower Conf Panel PanelNode.
From stdpp Require Import prelude gmap strings.
From Stdlib Require Import Ascii ZArith Lia.

Open Scope string_scope.

Record response := mkResponse {
  rsp_Status : Z;
  rsp_Body : string;
  rsp_ETag : string;
  rsp_ContentType : string;
}.

Inductive push_body : Type :=
| TrafficBody (data : gmap Z (Z * Z))
| OnlineBody (data : gmap Z (list string))
| CertBody (data : CertReport).

(** resty: a request ends in an error or in a response, which may be nil. *)
Class HttpLib := {
  HWorld : Type;
  http_get : string → list (string * string) → HWorld → HWorld * res string (option response);
  http_post : string → push_body → HWorld → HWorld * res string (option response);
  sha256_hex : string → string;
  decode_users : string → string → res string (option (list UserInfo));
  decode_alive : string → res string (option (gmap Z Z));
  path_Join : string → string;
}.

(** ** panel.go *)
Record Client := mkClient {
  cl_APIHost : string;
  cl_APISendIP : string;
  cl_Token : string;
  cl_NodeType : string;
  cl_NodeId : Z;
  cl_nodeEtag : string;
  cl_userEtag : string;
  cl_responseBodyHash : string;
  cl_timeout : Z;
  cl_query : list (string * string);
}.

Definition node_types : list string :=
  ["vmess"; "trojan"; "shadowsocks"; "hysteria"; "hysteria2"; "tuic"; "anytls"; "vless"].

(** [New], on the configuration it also updates: the client keeps the request
    parameters and the timeout it set. *)
Definition New_node_type (t : string) : res string string :=
  let t := ToLower t in
  if decide (t = "v2ray") then Ok "vmess"
  else if decide (t = "zicnode" ∨ t = "v2node") then Err ("legacy UniProxy nodes only: " +:+ t)
  else if decide (t ∈ node_types) then Ok t
  else Err ("unsupported NodeType " +:+ t).

Definition New (c : ApiConfig) : res string Client :=
  t ← New_node_type (api_NodeType c);
  mret (mkClient (api_APIHost c) (api_APISendIP c) (api_Key c) t (api_NodeID c) "" "" ""
    (if (0 <? api_Timeout c)%Z then wrap64 (api_Timeout c * Second) else wrap64 (5 * Second))
    [("node_type", t); ("node_id", Itoa (api_NodeID c)); ("token", api_Key c)]).

Definition cl_with_node_cache (hash etag : string) (c : Client) : Client :=
  mkClient (cl_APIHost c) (cl_APISendIP c) (cl_Token c) (cl_NodeType c) (cl_NodeId c) etag
    (cl_userEtag c) hash (cl_timeout c) (cl_query c).
Definition cl_with_userEtag (etag : string) (c : Client) : Client :=
  mkClient (cl_APIHost c) (cl_APISendIP c) (cl_Token c) (cl_NodeType c) (cl_NodeId c) (cl_nodeEtag c)
    etag (cl_responseBodyHash c) (cl_timeout c) (cl_query c).

Section client.
Context `{HL : HttpLib} `{ND : NodeDecoder} `{RO : RangeOrder}.

(** ** utils.go *)
Definition request_failed (c : Client) (path why : string) : string :=
  "request " +:+ path_Join (cl_APIHost c +:+ path) +:+ " failed: " +:+ why.

(** [checkResponse] on the outcome of a request: [None] is a nil error. *)
Definition checkResponse (c : Client) (path : string) (r : res string (option response))
    : option string :=
  match r with
  | Err e => Some (request_failed c path e)
  | Ok None => Some (request_failed c path "empty response")
  | Ok (Some rsp) =>
      if (400 <=? rsp_Status rsp)%Z then Some (request_failed c path (rsp_Body rsp)) else None
  | Panic w => Some w
  end.

(** ** node.go, GetNodeInfo *)

(** The decoded answer of one protocol. *)
Inductive node_rsp : Type :=
| RVAllss (r : VAllssNode)
| RShadowsocks (r : ShadowsocksNode)
| RTrojan (r : TrojanNode)
| RTuic (r : TuicNode)
| RAnyTls (r : AnyTlsNode)
| RHysteria (r : HysteriaNode)
| RHysteria2 (r : Hysteria2Node).

Definition rsp_common (r : node_rsp) : CommonNode :=
  match r with
  | RVAllss r => va_Common r
  | RShadowsocks r => ss_Common r
  | RTrojan r => tr_Common r
  | RTuic r => tu_Common r
  | RAnyTls r => at_Common r
  | RHysteria r => hy_Common r
  | RHysteria2 r => h2_Common r
  end.

(** The second spelling of a field replaces the first when it is there. *)
Definition pick_tls (t : TlsSettings) (back : option TlsSettings) : TlsSettings := default t back.

(** Lines 224-322: decode the body and normalise it. *)
Definition decode_node (type body : string) : res string node_rsp :=
  let decoding {A} what (r : res string A) : res string A :=
    map_err (λ e, "decode " +:+ what +:+ " params error: " +:+ e) r in
  if decide (type = "vmess" ∨ type = "vless") then
    r ← decoding "v2ray" (decode_VAllss body);
    let settings := if decide (va_NetworkSettingsBack r = "") then va_NetworkSettings r
                    else va_NetworkSettingsBack r in
    mret (RVAllss (mkVAllssNode (va_Common r) (va_Tls r)
      (pick_tls (va_TlsSettings r) (va_TlsSettingsBack r)) None (va_Network r)
      (normalizeRawJSON settings) "" (va_Encryption r) (va_EncryptionSettings r)
      (va_ServerName r) (va_Flow r) (va_RealityConfig r)))
  else if decide (type = "shadowsocks") then
    r ← decoding "shadowsocks" (decode_Shadowsocks body); mret (RShadowsocks r)
  else if decide (type = "trojan") then
    r ← decoding "trojan" (decode_Trojan body);
    let settings := if decide (tr_NetworkSettings r = "") then tr_NetworkSettingsSnake r
                    else tr_NetworkSettings r in
    mret (RTrojan (mkTrojanNode (tr_Common r) (tr_Network r) (normalizeRawJSON settings) ""
      (pick_tls (tr_TlsSettings r) (tr_TlsSettingsBack r)) None))
  else if decide (type = "tuic") then
    r ← decoding "tuic" (decode_Tuic body);
    mret (RTuic (mkTuicNode (tu_Common r) (pick_tls (tu_TlsSettings r) (tu_TlsSettingsBack r)) None
      (tu_CongestionControl r) (tu_ZeroRTTHandshake r)))
  else if decide (type = "anytls") then
    r ← decoding "anytls" (decode_AnyTls body);
    mret (RAnyTls (mkAnyTlsNode (at_Common r) (pick_tls (at_TlsSettings r) (at_TlsSettingsBack r)) None
      (at_PaddingScheme r)))
  else if decide (type = "hysteria") then
    r ← decoding "hysteria" (decode_Hysteria body);
    mret (RHysteria (mkHysteriaNode (hy_Common r) (pick_tls (hy_TlsSettings r) (hy_TlsSettingsBack r))
      None (hy_UpMbps r) (hy_DownMbps r) (hy_Obfs r)))
  else if decide (type = "hysteria2") then
    r ← decoding "hysteria2" (decode_Hysteria2 body);
    mret (RHysteria2 (mkHysteria2Node (h2_Common r)
      (pick_tls (h2_TlsSettings r) (h2_TlsSettingsBack r)) None (h2_Ignore_Client_Bandwidth r)
      (h2_UpMbps r) (h2_DownMbps r) (h2_ObfsType r) (h2_ObfsPassword r)))
  else Err ("unsupported node_type: " +:+ type).

Definition rsp_security (r : node_rsp) : Z :=
  match r with RVAllss r => va_Tls r | RShadowsocks _ => None_ | _ => Tls end.

(** The answer belongs to a type. *)
Definition decode_part (type : string) (r : node_rsp) : bool :=
  match r with
  | RVAllss _ => bool_decide (type = "vmess" ∨ type = "vless")
  | RShadowsocks _ => bool_decide (type = "shadowsocks")
  | RTrojan _ => bool_decide (type = "trojan")
  | RTuic _ => bool_decide (type = "tuic")
  | RAnyTls _ => bool_decide (type = "anytls")
  | RHysteria _ => bool_decide (type = "hysteria")
  | RHysteria2 _ => bool_decide (type = "hysteria2")
  end.

(** The shared [CommonNode] is cleared in place (lines 370-371). *)
Definition rsp_set_common (cm : CommonNode) (r : node_rsp) : node_rsp :=
  match r with
  | RVAllss r => RVAllss (mkVAllssNode cm (va_Tls r) (va_TlsSettings r) (va_TlsSettingsBack r)
      (va_Network r) (va_NetworkSettings r) (va_NetworkSettingsBack r) (va_Encryption r)
      (va_EncryptionSettings r) (va_ServerName r) (va_Flow r) (va_RealityConfig r))
  | RShadowsocks r => RShadowsocks (mkShadowsocksNode cm (ss_Cipher r) (ss_ServerKey r))
  | RTrojan r => RTrojan (mkTrojanNode cm (tr_Network r) (tr_NetworkSettings r)
      (tr_NetworkSettingsSnake r) (tr_TlsSettings r) (tr_TlsSettingsBack r))
  | RTuic r => RTuic (mkTuicNode cm (tu_TlsSettings r) (tu_TlsSettingsBack r)
      (tu_CongestionControl r) (tu_ZeroRTTHandshake r))
  | RAnyTls r => RAnyTls (mkAnyTlsNode cm (at_TlsSettings r) (at_TlsSettingsBack r)
      (at_PaddingScheme r))
  | RHysteria r => RHysteria (mkHysteriaNode cm (hy_TlsSettings r) (hy_TlsSettingsBack r)
      (hy_UpMbps r) (hy_DownMbps r) (hy_Obfs r))
  | RHysteria2 r => RHysteria2 (mkHysteria2Node cm (h2_TlsSettings r) (h2_TlsSettingsBack r)
      (h2_Ignore_Client_Bandwidth r) (h2_UpMbps r) (h2_DownMbps r) (h2_ObfsType r) (h2_ObfsPassword r))
  end.

Definition make_node (id : Z) (type : string) (push pull : Z) (dns : RawDNS) (rules : Rules)
    (r : node_rsp) (cm : CommonNode) (cert : option CertConfig * bool * bool) : NodeInfo :=
  mkNodeInfo id type (rsp_security r) push pull dns rules
    (match r with RVAllss r => Some r | _ => None end)
    (match r with RShadowsocks r => Some r | _ => None end)
    (match r with RTrojan r => Some r | _ => None end)
    (match r with RTuic r => Some r | _ => None end)
    (match r with RAnyTls r => Some r | _ => None end)
    (match r with RHysteria r => Some r | _ => None end)
    (match r with RHysteria2 r => Some r | _ => None end)
    (Some cm) cert.1.1 cert.1.2 cert.2.

(** Lines 335-343: the matches of one blocking route. *)
Definition block_match (rules : Rules) (v : string) : Rules :=
  if HasPrefix v "protocol:" then
    mkRules (rules_Regexp rules) (rules_Protocol rules ++ [TrimPrefix v "protocol:"])
  else mkRules (rules_Regexp rules ++ [TrimPrefix v "regexp:"]) (rules_Protocol rules).

(** The body of the loop over the routes. *)
Definition parse_route (st : RawDNS * Rules) (e : nat * Route) : RawDNS * Rules :=
  let '(dns, rules) := st in
  match routeMatchesToStrings (route_Match e.2) with
  | [] => (dns, rules)
  | m0 :: ms =>
      if decide (route_Action e.2 = "block") then (dns, foldl block_match rules (m0 :: ms))
      else if decide (route_Action e.2 = "dns") then
        if decide (m0 = "main") then (mkRawDNS (dns_Map dns) (GoStd.Join ms ""), rules)
        else (mkRawDNS (<[Itoa (Z.of_nat e.1) :=
                {["address" := DStr (route_ActionValue e.2); "domains" := DStrs (m0 :: ms)]}]>
                (dns_Map dns)) (dns_Json dns), rules)
      else (dns, rules)
  end.

Definition parse_routes (routes : list Route) : RawDNS * Rules :=
  foldl parse_route (RawDNS_empty, Rules_empty) (imap pair routes).

Definition parse_intervals (b : option BaseConfig) : res string (Z * Z) :=
  match b with
  | None => Ok (Minute, Minute)
  | Some b =>
      push ← intervalToTime (base_PushInterval b);
      pull ← intervalToTime (base_PullInterval b);
      mret (push, pull)
  end.

(** Lines 214-373: the node made from the body. *)
Definition build_node (id : Z) (type body : string) : res string NodeInfo :=
  r ← decode_node type body;
  let cm := rsp_common r in
  let '(dns, rules) := parse_routes (cn_Routes cm) in
  '(push, pull) ← parse_intervals (cn_BaseConfig cm);
  let node := make_node id type push pull dns rules r cm (None, false, false) in
  let cert := buildPanelCertConfig id node cm in
  let cm := mkCommonNode (cn_Host cm) (cn_ServerPort cm) (cn_ServerName cm) [] None in
  mret (make_node id type push pull dns rules (rsp_set_common cm r) cm cert).

Definition config_path : string := "/api/v3/server/UniProxy/config".

Definition GetNodeInfo (cw : Client * HWorld) : Client * HWorld * res string (option NodeInfo) :=
  let '(c, w) := cw in
  let '(w, r) := http_get config_path [("If-None-Match", cl_nodeEtag c)] w in
  match r with
  | Ok None => (c, w, Err "received nil response")
  | Ok (Some rsp) =>
      if (rsp_Status rsp =? 304)%Z then (c, w, Ok None)
      else match checkResponse c config_path r with
      | Some e => (c, w, Err e)
      | None =>
          let newBodyHash := sha256_hex (rsp_Body rsp) in
          if decide (cl_responseBodyHash c = newBodyHash) then (c, w, Ok None)
          else
            let c := cl_with_node_cache newBodyHash (rsp_ETag rsp) c in
            (c, w, n ← build_node (cl_NodeId c) (cl_NodeType c) (rsp_Body rsp); Ok (Some n))
      end
  | _ => (c, w, match checkResponse c config_path r with Some e => Err e | None => Ok None end)
  end.

(** ** user.go *)
Definition user_path : string := "/api/v3/server/UniProxy/user".
Definition alive_path : string := "/api/v3/server/UniProxy/alivelist".
Definition push_path : string := "/api/v3/server/UniProxy/push".
Definition online_path : string := "/api/v3/server/UniProxy/alive".
Definition cert_path : string := "/api/v3/server/UniProxy/cert/report".

(** [None] is the nil list: of an unchanged answer, or of a document without
    users. *)
Definition GetUserList (cw : Client * HWorld) : Client * HWorld * res string (option (list UserInfo)) :=
  let '(c, w) := cw in
  let '(w, r) := http_get user_path
                   [("If-None-Match", cl_userEtag c); ("X-Response-Format", "msgpack")] w in
  match r with
  | Ok None => (c, w, Err "received nil response or raw response")
  | Ok (Some rsp) =>
      if (rsp_Status rsp =? 304)%Z then (c, w, Ok None)
      else match checkResponse c user_path r with
      | Some e => (c, w, Err e)
      | None =>
          let format := if Contains (rsp_ContentType rsp) "application/x-msgpack" then "msgpack"
                        else "json" in
          match map_err (λ e, "decode user list error: " +:+ e) (decode_users format (rsp_Body rsp)) with
          | Ok users => (cl_with_userEtag (rsp_ETag rsp) c, w, Ok users)
          | Err e => (c, w, Err e)
          | Panic x => (c, w, Panic x)
          end
      end
  | _ => (c, w, match checkResponse c user_path r with Some e => Err e | None => Ok None end)
  end.

(** Any failure reads as an empty map; a null map stays nil ([None]). *)
Definition GetUserAlive (cw : Client * HWorld) : Client * HWorld * res string (option (gmap Z Z)) :=
  let '(c, w) := cw in
  let '(w, r) := http_get alive_path [] w in
  match r with
  | Ok (Some rsp) =>
      if (399 <=? rsp_Status rsp)%Z then (c, w, Ok (Some ∅))
      else match decode_alive (rsp_Body rsp) with
           | Ok alive => (c, w, Ok alive)
           | _ => (c, w, Ok (Some ∅))
           end
  | _ => (c, w, Ok (Some ∅))
  end.

(** The loop that merges the traffic of one uid. *)
Definition add_traffic (data : gmap Z (Z * Z)) (t : UserTraffic) : gmap Z (Z * Z) :=
  match data !! traffic_UID t with
  | Some current =>
      <[traffic_UID t := (wrap64 (current.1 + traffic_Upload t),
                          wrap64 (current.2 + traffic_Download t))]> data
  | None => <[traffic_UID t := (traffic_Upload t, traffic_Download t)]> data
  end.

Definition traffic_data (userTraffic : list UserTraffic) : gmap Z (Z * Z) :=
  foldl add_traffic ∅ userTraffic.

Definition post (path : string) (body : push_body) (cw : Client * HWorld)
    : Client * HWorld * option string :=
  let '(w, r) := http_post path body cw.2 in (cw.1, w, checkResponse cw.1 path r).

Definition ReportUserTraffic (userTraffic : list UserTraffic) (cw : Client * HWorld) :=
  post push_path (TrafficBody (traffic_data userTraffic)) cw.

(** Both branches of the error test return nil. *)
Definition ReportNodeOnlineUsers (data : gmap Z (list string)) (cw : Client * HWorld)
    : Client * HWorld * option string :=
  let '(cw, _) := post online_path (OnlineBody data) cw in (cw, None).

Definition ReportCertStatus (data : CertReport) (cw : Client * HWorld) :=
  post cert_path (CertBody data) cw.

(** * Lemmas *)
Definition up_of (uid : Z) (t : UserTraffic) : Z :=
  if decide (traffic_UID t = uid) then traffic_Upload t else 0%Z.
Definition down_of (uid : Z) (t : UserTraffic) : Z :=
  if decide (traffic_UID t = uid) then traffic_Download t else 0%Z.

Definition traffic_ok (t : UserTraffic) : Prop := int64 (traffic_Upload t) ∧ int64 (traffic_Download t).

#[global] Instance traffic_ok_dec t : Decision (traffic_ok t).
Proof. unfold traffic_ok. apply _. Defined.

Lemma add_traffic_lookup l data uid :
  Forall traffic_ok l →
  (∀ a b, data !! uid = Some (a, b) → int64 a ∧ int64 b) →
  foldl add_traffic data l !! uid =
    match data !! uid, filter (λ t, traffic_UID t = uid) l with
    | None, [] => None
    | d, _ => let '(a, b) := default (0%Z, 0%Z) d in
              Some (wrap64 (a + sumZ (up_of uid) l), wrap64 (b + sumZ (down_of uid) l))
    end.
Proof.
  intros Hl. revert data. induction Hl as [|t l [Hu Hd] Hl IH]; intros data Hdata.
  { simpl. destruct (data !! uid) as [[a b]|] eqn:Hl; [|done].
    simpl. rewrite !Z.add_0_r. destruct (Hdata a b eq_refl). by rewrite !wrap64_id. }
  cbn [foldl]. rewrite IH.
  - unfold up_of, down_of, add_traffic. rewrite !sumZ_cons, filter_cons.
    destruct (decide (traffic_UID t = uid)) as [<-|Hne].
    + destruct (data !! traffic_UID t) as [[a b]|] eqn:E; rewrite lookup_insert_eq; simpl.
      * by rewrite !wrap64_add_l, !Z.add_assoc.
      * done.
    + destruct (data !! traffic_UID t) as [[a b]|] eqn:E; rewrite lookup_insert_ne by done;
        by rewrite !Z.add_0_l.
  - intros a b. unfold add_traffic. destruct (data !! traffic_UID t) as [[a0 b0]|] eqn:E;
      rewrite lookup_insert; case_decide; try apply Hdata; intros [= <- <-].
    + split; auto with v2bz.
    + done.
Qed.

(** ** Routes *)

(** The matches of one blocking route, by kind. *)
Definition is_protocol (v : string) : bool := HasPrefix v "protocol:".
Definition block_matches (r : Route) : list string :=
  if decide (route_Action r = "block") then routeMatchesToStrings (route_Match r) else [].

Lemma block_match_fold ms rules :
  foldl block_match rules ms =
    mkRules
      (rules_Regexp rules ++ ((λ v, TrimPrefix v "regexp:") <$> filter (λ v, is_protocol v = false) ms))
      (rules_Protocol rules ++ ((λ v, TrimPrefix v "protocol:") <$> filter (λ v, is_protocol v = true) ms)).
Proof.
  revert rules. induction ms as [|v ms IH]; intros [re pr].
  { cbn. by rewrite !app_nil_r. }
  cbn [foldl]. rewrite IH. unfold block_match, is_protocol. rewrite !filter_cons. simpl.
  destruct (HasPrefix v "protocol:"); simpl; rewrite <- ?app_assoc; done.
Qed.

Lemma parse_route_rules st e :
  (parse_route st e).2 = foldl block_match st.2 (block_matches e.2).
Proof.
  destruct st as [dns rules]. unfold parse_route, block_matches.
  destruct (routeMatchesToStrings (route_Match e.2)) as [|m0 ms]; simpl; [by case_decide|].
  repeat case_decide; try done.
Qed.

Lemma parse_route_fold_rules es st :
  (foldl parse_route st es).2 = foldl block_match st.2 (es ≫= λ e, block_matches e.2).
Proof.
  revert st. induction es as [|e es IH]; intros st; [done|].
  cbn [foldl mbind list_bind]. by rewrite IH, parse_route_rules, foldl_app.
Qed.

(** The DNS server a route gives, and the document of a [main] route. *)
Definition route_server (r : Route) : option (gmap string dns_value) :=
  match routeMatchesToStrings (route_Match r) with
  | m0 :: ms =>
      if decide (route_Action r = "dns" ∧ m0 ≠ "main") then
        Some {["address" := DStr (route_ActionValue r); "domains" := DStrs (m0 :: ms)]}
      else None
  | [] => None
  end.

Definition route_main (r : Route) : option string :=
  match routeMatchesToStrings (route_Match r) with
  | m0 :: ms => if decide (route_Action r = "dns" ∧ m0 = "main") then Some (GoStd.Join ms "") else None
  | [] => None
  end.

Lemma parse_route_dns st e :
  (parse_route st e).1 =
    mkRawDNS (match route_server e.2 with
              | Some s => <[Itoa (Z.of_nat e.1) := s]> (dns_Map st.1)
              | None => dns_Map st.1 end)
             (default (dns_Json st.1) (route_main e.2)).
Proof.
  destruct st as [[dm dj] rules]. unfold parse_route, route_server, route_main.
  destruct (routeMatchesToStrings (route_Match e.2)) as [|m0 ms]; [done|].
  destruct (decide (route_Action e.2 = "block")) as [Hb|Hb].
  { rewrite Hb. by rewrite !decide_False by (intros [? _]; done). }
  destruct (decide (route_Action e.2 = "dns")) as [Hd|Hd].
  - destruct (decide (m0 = "main")) as [Hm|Hm].
    + by rewrite decide_False, decide_True by naive_solver.
    + by rewrite decide_True, decide_False by naive_solver.
  - by rewrite !decide_False by naive_solver.
Qed.

Definition numbered (routes : list Route) : list (nat * Route) := imap pair routes.

Lemma numbered_lookup routes i : numbered routes !! i = pair i <$> routes !! i.
Proof. apply list_lookup_imap. Qed.

Lemma numbered_bind {A} (f : Route → list A) routes :
  (numbered routes ≫= λ e, f e.2) = routes ≫= f.
Proof.
  unfold numbered. assert (∀ k, (imap (λ i, pair (k + i)%nat) routes ≫= λ e, f e.2) = routes ≫= f) as H.
  { induction routes as [|r routes IH]; intros k; [done|].
    cbn [imap mbind list_bind]. cbn. f_equal.
    rewrite <- (IH (S k)). f_equal. apply imap_ext. intros i x _. simpl. f_equal. lia. }
  exact (H 0%nat).
Qed.

Lemma numbered_snoc routes r : (numbered (routes ++ [r]) = numbered routes ++ [(length routes, r)])%list.
Proof. unfold numbered. rewrite imap_app. cbn. by rewrite Nat.add_0_r. Qed.

Lemma parse_routes_snoc routes r :
  parse_routes (routes ++ [r])%list = parse_route (parse_routes routes) (length routes, r).
Proof. unfold parse_routes. fold (numbered (routes ++ [r])%list). by rewrite numbered_snoc, foldl_app. Qed.

Lemma parse_routes_server routes i :
  dns_Map (parse_routes routes).1 !! Itoa (Z.of_nat i) = routes !! i ≫= route_server.
Proof.
  induction routes as [|r routes IH] using rev_ind; [by rewrite lookup_nil|].
  rewrite parse_routes_snoc, parse_route_dns. cbn [dns_Map fst snd].
  destruct (decide (i = length routes)) as [->|Hi].
  - rewrite list_lookup_middle by done. simpl.
    destruct (route_server r) eqn:E; [by rewrite lookup_insert_eq|].
    rewrite IH. by rewrite lookup_ge_None_2 by lia.
  - transitivity (dns_Map (parse_routes routes).1 !! Itoa (Z.of_nat i)).
    { destruct (route_server r); [|done]. rewrite lookup_insert_ne; [done|].
      intros ?%Itoa_inj. lia. }
    rewrite IH. destruct (decide (i < length routes)%nat).
    + by rewrite lookup_app_l by done.
    + rewrite !lookup_ge_None_2; [done| |]; rewrite ?length_app; simpl; lia.
Qed.

Lemma parse_routes_main routes :
  dns_Json (parse_routes routes).1 = default "" (last (omap route_main routes)).
Proof.
  induction routes as [|r routes IH] using rev_ind; [done|].
  rewrite parse_routes_snoc, parse_route_dns, omap_app. cbn [dns_Json fst snd]. rewrite IH.
  simpl. destruct (route_main r); simpl; [by rewrite last_snoc|by rewrite app_nil_r].
Qed.

Lemma parse_routes_keys routes k s :
  dns_Map (parse_routes routes).1 !! k = Some s → ∃ i : nat, k = Itoa (Z.of_nat i).
Proof.
  induction routes as [|r routes IH] using rev_ind; [done|].
  rewrite parse_routes_snoc, parse_route_dns. cbn [dns_Map fst snd].
  destruct (route_server r); [|done].
  rewrite lookup_insert. case_decide; [by eauto|done].
Qed.

(** ** Answers *)

(** An answer [GetNodeInfo] reads the body of. *)
Definition rsp_ok (rsp : response) : Prop := rsp_Status rsp ≠ 304%Z ∧ (rsp_Status rsp < 400)%Z.

#[global] Instance rsp_ok_dec rsp : Decision (rsp_ok rsp).
Proof. unfold rsp_ok. apply _. Defined.

Lemma checkResponse_ok c path rsp : rsp_ok rsp → checkResponse c path (Ok (Some rsp)) = None.
Proof. intros [_ H]. simpl. by rewrite (proj2 (Z.leb_gt _ _)). Qed.

Lemma GetNodeInfo_rsp c w w' rsp :
  http_get config_path [("If-None-Match", cl_nodeEtag c)] w = (w', Ok (Some rsp)) → rsp_ok rsp →
  GetNodeInfo (c, w) =
    if decide (cl_responseBodyHash c = sha256_hex (rsp_Body rsp)) then (c, w', Ok None)
    else (cl_with_node_cache (sha256_hex (rsp_Body rsp)) (rsp_ETag rsp) c, w',
          n ← build_node (cl_NodeId c) (cl_NodeType c) (rsp_Body rsp); Ok (Some n)).
Proof.
  intros Hg Hok. unfold GetNodeInfo. rewrite Hg.
  rewrite (proj2 (Z.eqb_neq _ _)) by apply Hok. by rewrite checkResponse_ok.
Qed.

(** * Properties *)

(** ** The nodes the panel makes have their parts *)
(** ** The answers to requests that carry an ETag *)
Lemma GetNodeInfo_304 c w w' rsp :
  http_get config_path [("If-None-Match", cl_nodeEtag c)] w = (w', Ok (Some rsp)) →
  rsp_Status rsp = 304%Z → GetNodeInfo (c, w) = (c, w', Ok None).
Proof. intros Hg Hs. unfold GetNodeInfo. by rewrite Hg, Hs. Qed.

Definition users_request (etag : string) : list (string * string) :=
  [("If-None-Match", etag); ("X-Response-Format", "msgpack")].

Lemma GetUserList_304 c w w' rsp :
  http_get user_path (users_request (cl_userEtag c)) w = (w', Ok (Some rsp)) →
  rsp_Status rsp = 304%Z → GetUserList (c, w) = (c, w', Ok None).
Proof. unfold users_request. intros Hg Hs. unfold GetUserList. by rewrite Hg, Hs. Qed.

Definition users_format (rsp : response) : string :=
  if Contains (rsp_ContentType rsp) "application/x-msgpack" then "msgpack" else "json".

(** A list that is decoded is taken, and its ETag remembered. *)
Lemma GetUserList_rsp c w w' rsp users :
  http_get user_path (users_request (cl_userEtag c)) w = (w', Ok (Some rsp)) → rsp_ok rsp →
  decode_users (users_format rsp) (rsp_Body rsp) = Ok users →
  GetUserList (c, w) = (cl_with_userEtag (rsp_ETag rsp) c, w', Ok users).
Proof.
  unfold users_request, users_format. intros Hg Hok Hd. pose proof (checkResponse_ok c user_path rsp Hok) as Hc.
  destruct Hok as [H304 _]. unfold GetUserList. rewrite Hg.
  destruct (rsp_Status rsp =? 304)%Z eqn:E; [by apply Z.eqb_eq in E|]. by rewrite Hc, Hd.
Qed.

Lemma GetUserAlive_ok c w : ∃ a, GetUserAlive (c, w) = (c, (http_get alive_path [] w).1, Ok a).
Proof. unfold GetUserAlive. destruct (http_get alive_path [] w) as [w' r]. repeat case_match; by eexists. Qed.

Lemma rsp_set_common_common cm r : rsp_common (rsp_set_common cm r) = cm.
Proof. by destruct r. Qed.

Lemma parse_routes_dns_wf routes : dns_wf (parse_routes routes).1.
Proof.
  induction routes as [|r routes IH] using rev_ind.
  - intros k v. unfold parse_routes. cbn. by rewrite lookup_empty.
  - rewrite parse_routes_snoc. destruct (parse_routes routes) as [d rules]. cbn [fst] in *.
    unfold parse_route. case_match; [done|]. repeat case_decide; [done|exact IH| |done].
    intros k v. cbn [fst dns_Map]. rewrite lookup_insert. case_decide; [|apply IH].
    intros [= <-]. eexists. by rewrite lookup_insert_eq.
Qed.

Lemma make_node_wf id type push pull dns rules r cm cert :
  decode_part type r = true → node_wf (make_node id type push pull dns rules r cm cert).
Proof.
  intros Hr. split; [by eexists| |]; unfold type_part, make_node, decode_part in *; cbn in *.
  - destruct r; repeat case_decide; subst; done || naive_solver.
  - destruct r; done || by eexists.
Qed.

Lemma decode_node_part type body r : decode_node type body = Ok r → decode_part type r = true.
Proof.
  unfold decode_node. repeat case_decide; try done;
    intros (x & _ & [= <-])%bind_Ok_inv; by apply bool_decide_eq_true.
Qed.

Lemma build_node_wf id type body n :
  build_node id type body = Ok n → ni_Type n = type ∧ node_wf n ∧ dns_wf (ni_RawDNS n).
Proof.
  unfold build_node. intros (r & Hr%decode_node_part & H)%bind_Ok_inv.
  pose proof (parse_routes_dns_wf (cn_Routes (rsp_common r))) as Hd.
  destruct (parse_routes _) as [dns rules]. apply bind_Ok_inv in H as ([push pull] & _ & [= <-]).
  split_and!; [done| |done]. apply make_node_wf. by destruct r.
Qed.

Lemma build_node_id id type body n : build_node id type body = Ok n → ni_Id n = id.
Proof.
  unfold build_node. intros (r & _ & H)%bind_Ok_inv.
  destruct (parse_routes _) as [dns rules]. by apply bind_Ok_inv in H as ([push pull] & _ & [= <-]).
Qed.

(** C26: what a node from the panel is made of.  A node that [GetNodeInfo]
    returns has the id and type of the client, the shared part, the part of its
    type, the v2ray part whenever it asks for Reality, and DNS servers whose
    addresses are texts: all that the cores dereference.  It comes from an
    answer with a body not seen before, which the client now remembers; apart
    from that memory no call changes the client. *)
Theorem GetNodeInfo_typed c w c' w' r :
  GetNodeInfo (c, w) = (c', w', r) →
  (c' = c ∨ ∃ rsp, http_get config_path [("If-None-Match", cl_nodeEtag c)] w = (w', Ok (Some rsp)) ∧
     rsp_ok rsp ∧ cl_responseBodyHash c ≠ sha256_hex (rsp_Body rsp) ∧
     c' = cl_with_node_cache (sha256_hex (rsp_Body rsp)) (rsp_ETag rsp) c) ∧
  ∀ n, r = Ok (Some n) →
    c' ≠ c ∧ ni_Id n = cl_NodeId c ∧ ni_Type n = cl_NodeType c ∧ node_wf n ∧ dns_wf (ni_RawDNS n).
Proof.
  unfold GetNodeInfo. destruct (http_get _ _ _) as [w1 [[rsp|]|e|x]] eqn:Hg;
    [|intros [= <- <- <-]; by split; [left|] ..].
  case_match; [intros [= <- <- <-]; by split; [left|]|].
  destruct (checkResponse c config_path _) eqn:Hc; [intros [= <- <- <-]; by split; [left|]|].
  case_decide as Hh; [intros [= <- <- <-]; by split; [left|]|]. intros [= <- <- <-].
  split.
  - right. exists rsp. split_and!; [done| |done..]. unfold rsp_ok. cbn in Hc. case_match; [done|]. lia.
  - intros n (n' & Hn & [= ->])%bind_Ok_inv. cbn [cl_with_node_cache cl_NodeId cl_NodeType] in Hn.
    split.
    { intros Heq. apply Hh. by rewrite <- Heq at 1. }
    destruct (build_node_wf _ _ _ _ Hn) as (? & ? & ?). split_and!; try done. by eapply build_node_id.
Qed.

(** What the routes of a node become.  The patterns to block are those of the
    blocking routes, in order and without their [regexp:] prefix; matches with
    the prefix [protocol:] block that protocol instead.  The DNS server of a
    name list stands under the number of its route and no other server is
    there; the last [main] route gives the DNS document. *)
Theorem parse_routes_exact routes :
  let '(dns, rules) := parse_routes routes in
  let blocked := routes ≫= block_matches in
  rules_Regexp rules = (λ v, TrimPrefix v "regexp:") <$> filter (λ v, is_protocol v = false) blocked ∧
  rules_Protocol rules = (λ v, TrimPrefix v "protocol:") <$> filter (λ v, is_protocol v = true) blocked ∧
  (∀ i, dns_Map dns !! Itoa (Z.of_nat i) = routes !! i ≫= route_server) ∧
  (∀ k, is_Some (dns_Map dns !! k) → ∃ i : nat, k = Itoa (Z.of_nat i)) ∧
  dns_Json dns = default "" (last (omap route_main routes)).
Proof.
  pose proof (parse_route_fold_rules (numbered routes) (RawDNS_empty, Rules_empty)) as Hr.
  change (foldl _ _ (numbered routes)) with (parse_routes routes) in Hr.
  rewrite numbered_bind, block_match_fold in Hr.
  pose proof (parse_routes_server routes) as Hs. pose proof (parse_routes_main routes) as Hm.
  pose proof (parse_routes_keys routes) as Hk.
  destruct (parse_routes routes) as [dns rules] eqn:E. cbn [fst snd] in *.
  rewrite Hr. split_and!; try done. intros k [s Hl]. eauto.
Qed.

(** One report posts, for every uid with traffic in the list, the sums of its
    uploads and of its downloads modulo 2^64, and nothing for other uids. *)
Theorem ReportUserTraffic_exact l cw :
  Forall traffic_ok l →
  ∃ data, ReportUserTraffic l cw = post push_path (TrafficBody data) cw ∧
    ∀ uid, data !! uid =
      if decide (uid ∈ traffic_UID <$> l)
      then Some (wrap64 (sumZ (up_of uid) l), wrap64 (sumZ (down_of uid) l)) else None.
Proof.
  intros Hl. exists (traffic_data l). split; [done|]. intros uid. unfold traffic_data.
  rewrite add_traffic_lookup, lookup_empty by done. cbn [default from_option].
  destruct (filter (λ t, traffic_UID t = uid) l) as [|t f] eqn:Hf.
  - rewrite decide_False; [done|]. intros (t & -> & Ht)%list_elem_of_fmap.
    assert (t ∈ filter (λ t', traffic_UID t' = traffic_UID t) l) as Hin
      by (by apply list_elem_of_filter).
    rewrite Hf in Hin. by apply not_elem_of_nil in Hin.
  - rewrite decide_True; [done|].
    assert (t ∈ filter (λ t, traffic_UID t = uid) l) as [<- Ht]%list_elem_of_filter by (rewrite Hf; left).
    by apply list_elem_of_fmap_2.
Qed.

(** A configuration is delivered at most once, even when it could not be used.
    After an answer with a new body, the same body is answered by "unchanged"
    for as long as no other body arrives, whether the first call returned a
    node, failed to decode the body, or failed on a route or an interval. *)
Lemma GetNodeInfo_body_once c w w' rsp w2 w3 rsp' :
  http_get config_path [("If-None-Match", cl_nodeEtag c)] w = (w', Ok (Some rsp)) → rsp_ok rsp →
  cl_responseBodyHash c ≠ sha256_hex (rsp_Body rsp) →
  let '(c1, w1, r) := GetNodeInfo (c, w) in
  w1 = w' ∧
  r = (n ← build_node (cl_NodeId c) (cl_NodeType c) (rsp_Body rsp); Ok (Some n)) ∧
  (http_get config_path [("If-None-Match", rsp_ETag rsp)] w2 = (w3, Ok (Some rsp')) → rsp_ok rsp' →
   rsp_Body rsp' = rsp_Body rsp → GetNodeInfo (c1, w2) = (c1, w3, Ok None)).
Proof.
  intros Hg Hok Hh. rewrite (GetNodeInfo_rsp _ _ _ _ Hg Hok), decide_False by done.
  split_and!; [done|done|]. intros Hg' Hok' Hb.
  rewrite (GetNodeInfo_rsp (cl_with_node_cache _ (rsp_ETag rsp) c) _ _ _ Hg' Hok'), decide_True;
    [done|]. by rewrite Hb.
Qed.
End client.

(** * Witnesses *)

(** A panel that answers every request with one response. *)
Definition wit_http (rsp : response) : HttpLib := {|
  HWorld := unit;
  http_get := λ path hdr w, (w, Ok (Some rsp));
  http_post := λ path body w, (w, Ok (Some rsp));
  sha256_hex := λ b, "h" +:+ b;
  decode_users := λ f b, Err "syntax";
  decode_alive := λ b, Err "syntax";
  path_Join := λ p, p;
|}.

Definition wit_client : Client := mkClient "http://panel" "" "key" "trojan" 7 "" "" "" 5 [].
Definition wit_rsp : response := mkResponse 200 "not a document" "e1" "application/json".

Definition wit_report : list UserTraffic :=
  [mkUserTraffic 7 10 20; mkUserTraffic 8 1 2; mkUserTraffic 7 5 (two63 - 1)].

Lemma ReportUserTraffic_exact_witness :
  Forall traffic_ok wit_report ∧
  ∃ data, (let _ := wit_http wit_rsp in ReportUserTraffic wit_report (wit_client, tt)
            = post push_path (TrafficBody data) (wit_client, tt)) ∧
    data !! 7%Z = Some (15, 20 - two63 - 1)%Z ∧ data !! 9%Z = None.
Proof.
  assert (Forall traffic_ok wit_report) as Hl by by_decide. split; [done|].
  destruct (ReportUserTraffic_exact (HL := wit_http wit_rsp) wit_report (wit_client, tt) Hl)
    as (data & Hr & Hd).
  exists data. split_and!; [exact Hr| |]; rewrite Hd; vm_compute; reflexivity.
Defined.


(** A panel that answers every document with a shadowsocks node. *)
Definition wit_ss_decoder : NodeDecoder := {|
  decode_VAllss := λ b, Err "syntax";
  decode_Shadowsocks := λ b, Ok (mkShadowsocksNode (mkCommonNode "h" 443 "" [] None) "aes-128-gcm" "");
  decode_Trojan := λ b, Err "syntax"; decode_Tuic := λ b, Err "syntax"; decode_AnyTls := λ b, Err "syntax";
  decode_Hysteria := λ b, Err "syntax"; decode_Hysteria2 := λ b, Err "syntax";
  decode_object := λ b, Err "syntax"; decode_array := λ b, Err "syntax";
  decode_env := λ b, Err "syntax"; FormatFloat := λ f, ""; json_Marshal := λ j, "";
|}.
Definition wit_ss_client : Client := mkClient "http://panel" "" "key" "shadowsocks" 7 "" "" "" 5 [].

Lemma GetNodeInfo_typed_witness :
  let _ := wit_http (mkResponse 200 "body" "e1" "") in let _ := wit_ss_decoder in
  let _ := canonical_order in
  let '(c, _, r) := GetNodeInfo (wit_ss_client, tt) in
  c = cl_with_node_cache "hbody" "e1" wit_ss_client ∧
  ∃ n, r = Ok (Some n) ∧ ni_Id n = 7%Z ∧ ni_Type n = "shadowsocks" ∧ node_wf n.
Proof.
  intros H D O. destruct (GetNodeInfo _) as [[c w] r] eqn:Hg.
  pose proof (GetNodeInfo_typed (HL := H) (ND := D) (RO := O) wit_ss_client tt c w r Hg) as [_ Hn].
  vm_compute in Hg. injection Hg as Hc _ Hr. split; [by rewrite <- Hc|].
  destruct r as [[n|]| |]; try discriminate Hr. exists n.
  destruct (Hn n eq_refl) as (_ & Hi & Ht & Hw & _). by split_and!.
Defined.
