(* ===== verification/NodeOptions.v ===== *)
(** src/node/options.go: the options a node runs with, from the local
    configuration and the certificate the panel asks for.

    The code clones before it changes anything; on values a clone is the value,
    and a nil pointer stays nil ([None]). *)

From S2P Require Import Prelude GoStd Conf Panel PanelNode PanelClient.
From stdpp Require Import prelude gmap strings.
From Stdlib Require Import Ascii ZArith Lia.

Open Scope string_scope.

Definition cloneDNSEnv (env : option (gmap string string)) : option (gmap string string) :=
  match env with
  | None => None
  | Some env => Some (map_fold (λ k v clone, <[k := v]> clone) ∅ env)
  end.

Definition cloneCertConfig (cert : option CertConfig) : option CertConfig :=
  match cert with
  | None => None
  | Some cert => Some (mkCertConfig (cert_CertMode cert) (cert_RejectUnknownSni cert)
      (cert_SelfFallback cert) (cert_CertDomain cert) (cert_CertFile cert) (cert_KeyFile cert)
      (cert_Provider cert) (cert_Email cert) (cloneDNSEnv (cert_DNSEnv cert)))
  end.

Definition cloneOptions (opt : option Options) : Options :=
  match opt with
  | None => opt_with_CertConfig (Some NewCertConfig) Options_zero
  | Some opt => opt_with_CertConfig (cloneCertConfig (opt_CertConfig opt)) opt
  end.

(** The three assignments to the flags, each guarded by its "set" mark. *)
Definition with_SelfFallback (b : bool) (c : CertConfig) : CertConfig :=
  mkCertConfig (cert_CertMode c) (cert_RejectUnknownSni c) b (cert_CertDomain c) (cert_CertFile c)
    (cert_KeyFile c) (cert_Provider c) (cert_Email c) (cert_DNSEnv c).
Definition with_RejectUnknownSni (b : bool) (c : CertConfig) : CertConfig :=
  mkCertConfig (cert_CertMode c) b (cert_SelfFallback c) (cert_CertDomain c) (cert_CertFile c)
    (cert_KeyFile c) (cert_Provider c) (cert_Email c) (cert_DNSEnv c).

(** Lines 26-35. *)
Definition with_panel_cert (panelCert cert : CertConfig) : CertConfig :=
  let panelMode := TrimSpace (cert_CertMode panelCert) in
  if decide (panelMode = "") then cert
  else mkCertConfig panelMode (cert_RejectUnknownSni cert) (cert_SelfFallback cert)
    (TrimSpace (cert_CertDomain panelCert)) (TrimSpace (cert_CertFile panelCert))
    (TrimSpace (cert_KeyFile panelCert)) (TrimSpace (cert_Provider panelCert))
    (TrimSpace (cert_Email panelCert)) (cloneDNSEnv (cert_DNSEnv panelCert)).

Definition effectiveCertConfig (o : Options) (node : option NodeInfo) : CertConfig :=
  let cert := match cloneCertConfig (opt_CertConfig o) with
              | Some cert => cert | None => NewCertConfig end in
  match node with
  | None => cert
  | Some node =>
      match ni_PanelCertConfig node with
      | None => cert
      | Some panelCert =>
          let cert := with_panel_cert panelCert cert in
          let cert := if ni_PanelCertSelfFallbackSet node
                      then with_SelfFallback (cert_SelfFallback panelCert) cert else cert in
          if ni_PanelCertRejectUnknownSniSet node
          then with_RejectUnknownSni (cert_RejectUnknownSni panelCert) cert else cert
      end
  end.

Definition optionsForNode (o : Options) (node : option NodeInfo) : Options :=
  opt_with_CertConfig (Some (effectiveCertConfig o node)) (cloneOptions (Some o)).

(** * Lemmas *)
Lemma cloneDNSEnv_id env : cloneDNSEnv env = env.
Proof.
  destruct env as [env|]; [|done]. simpl. f_equal.
  induction env as [|k v m Hk IH] using map_ind; [by rewrite map_fold_empty|].
  rewrite map_fold_insert_L; [by rewrite IH| |done].
  intros j1 j2 z1 z2 y Hne _ _. by rewrite insert_insert_ne.
Qed.

Lemma cloneCertConfig_id cert : cloneCertConfig cert = cert.
Proof. destruct cert as [[]|]; simpl; [|done]. by rewrite cloneDNSEnv_id. Qed.

Lemma cloneOptions_id o : cloneOptions (Some o) = o.
Proof. unfold cloneOptions. rewrite cloneCertConfig_id. by destruct o. Qed.

Section node_options.
Context `{ND : NodeDecoder} `{RO : RangeOrder}.

(** Clearing the routes leaves the TLS settings alone. *)
Lemma nodeTlsSettings_make_node id type push pull dns rules r cm cm' cert :
  nodeTlsSettings (make_node id type push pull dns rules (rsp_set_common cm' r) cm' cert)
  = nodeTlsSettings (make_node id type push pull dns rules r cm (None, false, false)).
Proof. unfold nodeTlsSettings, make_node. simpl. by destruct r. Qed.

(** What a node carries is what [buildPanelCertConfig] made of its own TLS
    settings and of the common part of the answer. *)
Lemma build_node_cert id type body n :
  build_node id type body = Ok n →
  ∃ r, decode_node type body = Ok r ∧ ni_Id n = id ∧ ni_Type n = type ∧
    (ni_PanelCertConfig n, ni_PanelCertSelfFallbackSet n, ni_PanelCertRejectUnknownSniSet n)
    = buildPanelCertConfig id n (rsp_common r).
Proof.
  unfold build_node. intros (r & Hr & Hn)%bind_Ok_inv.
  destruct (parse_routes _) as [dns rules].
  apply bind_Ok_inv in Hn as ([push pull] & _ & Hn). injection Hn as <-.
  exists r. split_and!; [done|done|done|].
  unfold buildPanelCertConfig. rewrite (nodeTlsSettings_make_node _ _ _ _ _ _ _ (rsp_common r)).
  by destruct (negb _).
Qed.

Lemma orElse_nonempty a b : b ≠ "" → orElse a b ≠ "".
Proof. unfold orElse. by case_decide. Qed.

(** A default path replaces a blank one, so a path is never blank. *)
Lemma default_path_nonempty f s : TrimSpace (orElse (TrimSpace f) ("/" +:+ s)) ≠ "".
Proof.
  unfold orElse. case_decide; [|by rewrite TrimSpace_idem].
  destruct (TrimSpace_head "/"%char s eq_refl) as [s' Hs].
  intros Hne. change ("/" +:+ s) with (String "/"%char s) in Hne. congruence.
Qed.

(** Equal but for the two flags. *)
Definition same_identity (c c' : CertConfig) : Prop :=
  with_SelfFallback false (with_RejectUnknownSni false c)
  = with_SelfFallback false (with_RejectUnknownSni false c').

(** * Properties *)

(** Whose certificate settings a node uses.  When the panel sent a
    certificate mode, the mode, provider, DNS credentials, e-mail and paths are
    all the panel's, with default paths where it sent none, so both paths are
    set; without a mode they are all the local ones.  Each of the two flags is
    the panel's exactly when the panel sent that flag. *)
Theorem effective_cert_source o id type body n :
  build_node id type body = Ok n →
  let local := default NewCertConfig (opt_CertConfig o) in
  let tls := nodeTlsSettings n in
  let e := effectiveCertConfig o (Some n) in
  (if decide (tls_HasCertFields tls = true ∧ TrimSpace (tls_CertMode tls) ≠ "") then
     cert_CertMode e = TrimSpace (tls_CertMode tls) ∧ cert_Provider e = TrimSpace (tls_Provider tls) ∧
     cert_DNSEnv e = Some (parseDNSEnv (tls_DNSEnv tls)) ∧ cert_Email e = "node@zicboard.local" ∧
     cert_CertFile e ≠ "" ∧ cert_KeyFile e ≠ ""
   else same_identity e local) ∧
  cert_SelfFallback e =
    (if tls_HasCertFields tls && tls_HasSelfFallback tls then tls_SelfFallback tls
     else cert_SelfFallback local) ∧
  cert_RejectUnknownSni e =
    (if tls_HasCertFields tls && tls_HasRejectUnknownSni tls then tls_RejectUnknownSni tls
     else cert_RejectUnknownSni local).
Proof.
  intros (r & _ & _ & _ & Hc)%build_node_cert. cbv zeta. set (tls := nodeTlsSettings n) in *.
  unfold effectiveCertConfig. rewrite cloneCertConfig_id.
  unfold buildPanelCertConfig in Hc. fold tls in Hc.
  set (local := default NewCertConfig (opt_CertConfig o)).
  replace (match opt_CertConfig o with Some c => c | None => NewCertConfig end) with local by done.
  destruct (tls_HasCertFields tls); simpl in Hc; injection Hc as Hp Hs Hr;
    rewrite Hp, ?Hs, ?Hr.
  - pose proof (default_path_nonempty (tls_CertFile tls)) as Hf.
    pose proof (default_path_nonempty (tls_KeyFile tls)) as Hk.
    simpl andb. unfold with_panel_cert. cbn [cert_CertMode]. rewrite TrimSpace_idem.
    destruct (decide (TrimSpace (tls_CertMode tls) = "")) as [Hm|Hm].
    + rewrite decide_False by naive_solver.
      by destruct (tls_HasSelfFallback tls), (tls_HasRejectUnknownSni tls).
    + rewrite decide_True by done. rewrite cloneDNSEnv_id.
      destruct (tls_HasSelfFallback tls), (tls_HasRejectUnknownSni tls);
        unfold with_SelfFallback, with_RejectUnknownSni;
        cbn [cert_CertMode cert_RejectUnknownSni cert_SelfFallback cert_CertFile cert_KeyFile
             cert_Provider cert_Email cert_DNSEnv];
        rewrite ?TrimSpace_idem; split_and!; try done; apply Hf || apply Hk.
  - rewrite decide_False by naive_solver. done.
Qed.
End node_options.

(** * A witness *)

(** A trojan node whose panel asks for a DNS certificate and forbids the fallback. *)
Definition wit_tls : TlsSettings :=
  mkTlsSettings "a.example" [] "" "" "" [] "" "" 0 " dns " "" "/k.pem" "cloudflare" "CF_TOKEN=x"
    false false true false true.

Definition wit_trojan_decoder : NodeDecoder := {|
  decode_VAllss := λ b, Err "syntax"; decode_Shadowsocks := λ b, Err "syntax";
  decode_Trojan := λ b, Ok (mkTrojanNode (mkCommonNode "h" 443 "" [] None) "tcp" "" "" wit_tls None);
  decode_Tuic := λ b, Err "syntax"; decode_AnyTls := λ b, Err "syntax";
  decode_Hysteria := λ b, Err "syntax"; decode_Hysteria2 := λ b, Err "syntax";
  decode_object := λ b, Err "syntax"; decode_array := λ b, Err "syntax";
  decode_env := λ b, Err "syntax"; FormatFloat := λ f, ""; json_Marshal := λ j, "";
|}.

Lemma effective_cert_source_witness :
  ∃ n, (let _ := wit_trojan_decoder in let _ := canonical_order in
        build_node 7 "trojan" "body" = Ok n) ∧
    cert_CertMode (effectiveCertConfig Options_default (Some n)) = "dns" ∧
    cert_SelfFallback (effectiveCertConfig Options_default (Some n)) = false.
Proof.
  destruct (@build_node wit_trojan_decoder canonical_order 7 "trojan" "body") as [n| |] eqn:Hn;
    [|vm_compute in Hn; discriminate Hn ..].
  exists n. split; [exact Hn|].
  destruct (effective_cert_source (ND := wit_trojan_decoder) (RO := canonical_order)
              Options_default _ _ _ n Hn) as (Hm & Hs & _).
  vm_compute in Hn. injection Hn as Hn.
  destruct (decide _) as [Hd|Hd].
  - destruct Hm as (Hm & _). split; [rewrite Hm|rewrite Hs]; rewrite <- Hn; reflexivity.
  - destruct Hd. rewrite <- Hn. by_decide.
Defined.
