(* ===== verification/NodeAdd.v ===== *)
(** From the panel to a core: the node made from the panel's answer
    (PanelClient) as the cores take it (XrayNode, SingNode, Hy2Config), and how
    the xray and sing cores agree on its TLS. *)

From S2P Require Import Prelude GoStd GoText Conf Panel Counter Traffic Limiter Core Host XrayInbound XrayCore XrayNode SingCore SingNode GeoLoader Hy2Core Hy2Config PanelNode PanelClient NodeOptions.
From stdpp Require Import prelude gmap strings.
From Stdlib Require Import ZArith Lia.

Open Scope string_scope.

(** * What a listener serves *)
Inductive security : Type :=
| Plain
| CertFiles (cert key : string)
| RealityKey (serverName privateKey shortId : string).

Definition res_map {A B} (f : A → B) (r : res string A) : res string B := a ← r; Ok (f a).

Definition xray_security `{XrayConfLib} (s : StreamConfig) : option security :=
  match st_TLSSettings s, st_REALITYSettings s with
  | None, None => Some Plain
  | Some t, None => match tls_Certs t with
                    | [c] => Some (CertFiles (tc_CertFile c) (tc_KeyFile c))
                    | _ => None
                    end
  | None, Some r => match re_ServerNames r, re_ShortIds r with
                    | [n], [i] => Some (RealityKey n (re_PrivateKey r) i)
                    | _, _ => None
                    end
  | Some _, Some _ => None
  end.

Definition sing_security (t : InboundTLSOptions) : option security :=
  match it_Enabled t, it_Reality t with
  | false, None => Some Plain
  | true, None => Some (CertFiles (it_CertificatePath t) (it_KeyPath t))
  | true, Some r => match ir_ShortID r with
                    | [i] => Some (RealityKey (it_ServerName t) (ir_PrivateKey r) i)
                    | _ => None
                    end
  | false, Some _ => None
  end.

(** * Properties *)
Section properties.
Context `{XC : XrayConfLib}.

(** C33: the xray and sing cores secure a node alike.  From the same node and
    options both refuse a TLS node without certificate settings, and otherwise
    both serve plain text, the same certificate files, or Reality under the
    same name, key and id; in particular a node for which the panel asks TLS is
    served in plain text by both when the certificate mode is none. *)
Theorem cores_agree_on_security option info s :
  st_TLSSettings s = None → st_REALITYSettings s = None →
  res_map xray_security (set_security option info s) = res_map sing_security (tls_options info option).
Proof.
  intros Ht Hr. unfold set_security, tls_options.
  destruct (ni_Security info =? Tls)%Z.
  - destruct (opt_CertConfig option) as [c|]; [|done]. unfold cert_off.
    destruct (String.eqb_spec (cert_CertMode c) "none"), (String.eqb_spec (cert_CertMode c) "");
      cbn [orb]; first [rewrite decide_True by tauto|rewrite decide_False by tauto];
      unfold res_map, xray_security; cbn; rewrite ?Ht, ?Hr; done.
  - destruct (ni_Security info =? Reality)%Z.
    + destruct (ni_VAllss info) as [v|]; [|done]. unfold res_map, xray_security. cbn. by rewrite Ht.
    + unfold res_map, xray_security. cbn. by rewrite Ht, Hr.
Qed.
End properties.

Section added.
Context `{HO : HostOS} `{XL : XrayLib} `{XC : XrayConfLib} `{XJ : !XrayConfJson} `{XN : !XrayCoreLib}.
Context `{SL : SingLib} `{NL : SingNodeLib} `{BL : !SingBoxLib}.
Context `{HL : Hy2Lib} `{CL : !Hy2ConfLib} `{HS : !Hy2ServerLib}.
Context `{RO : RangeOrder} `{ND : NodeDecoder}.

(** ** The registered cores: what a value of the interface [Core] holds *)
Inductive Proxy : Type :=
| XrayProxy (s : XrayState)
| SingProxy (s : SingState)
| Hy2Proxy (h : Hysteria2).

Definition proxy_call {A} (x : XrayState → XrayState * A) (s : SingState → SingState * A)
    (h : Hysteria2 → Hysteria2 * A) (c : Proxy) : Proxy * A :=
  match c with
  | XrayProxy c => let '(c, a) := x c in (XrayProxy c, a)
  | SingProxy c => let '(c, a) := s c in (SingProxy c, a)
  | Hy2Proxy c => let '(c, a) := h c in (Hy2Proxy c, a)
  end.

Definition proxy_AddNode (tag : string) (info : NodeInfo) (config : Options) (c : Proxy)
    : Proxy * (NodeInfo * Options) * res string unit :=
  let f {X} (_ : CoreOps X) (x : X) :=
    let '(x, p, r) := core_AddNode tag info config x in (x, (p, r)) in
  let '(c, (p, r)) := proxy_call (f _) (f _) (f _) c in (c, p, r).

#[global] Instance Proxy_ops : CoreOps Proxy := {|
  core_Start := proxy_call core_Start core_Start core_Start;
  core_Close := proxy_call core_Close core_Close core_Close;
  core_AddNode := proxy_AddNode;
  core_DelNode := λ tag, proxy_call (core_DelNode tag) (core_DelNode tag) (core_DelNode tag);
  core_AddUsers := λ p, proxy_call (core_AddUsers p) (core_AddUsers p) (core_AddUsers p);
  core_GetUserTrafficSlice := λ tag reset,
    proxy_call (core_GetUserTrafficSlice tag reset) (core_GetUserTrafficSlice tag reset)
      (core_GetUserTrafficSlice tag reset);
  core_DelUsers := λ us tag info,
    proxy_call (core_DelUsers us tag info) (core_DelUsers us tag info) (core_DelUsers us tag info);
  core_Protocols := λ c, match c with
    | XrayProxy c => core_Protocols c | SingProxy c => core_Protocols c | Hy2Proxy c => core_Protocols c end;
  core_Type := λ c, match c with
    | XrayProxy c => core_Type c | SingProxy c => core_Type c | Hy2Proxy c => core_Type c end;
|}.

Lemma proxy_AddNode_result tag info config c :
  (proxy_AddNode tag info config c).2 =
  match c with
  | XrayProxy s => (Xray_AddNode tag info config s).2
  | SingProxy s => (Sing_AddNode tag info config s).2
  | Hy2Proxy h => (Hy2_AddNode tag info config h).2
  end.
Proof.
  destruct c; unfold proxy_AddNode; cbn; match goal with |- context [match ?r with _ => _ end] =>
    by destruct r as [[? ?] ?] end.
Qed.

(** What the selector and the configuration see to: the core is started, serves
    the protocol and finds its own options; a hysteria2 node has no configuration
    file of its own, which the operator writes and not the panel. *)
Definition can_serve (n : NodeInfo) (config : Options) (c : Proxy) : Prop :=
  ni_Type n ∈ core_Protocols c ∧
  match c with
  | XrayProxy s => xs_open s = true ∧ is_Some (opt_XrayOptions config)
  | SingProxy _ => is_Some (opt_SingOptions config)
  | Hy2Proxy _ => True
  end.

(** C14: what the panel sends never crashes the xray or the hysteria2 core while
    its node is added, and crashes the sing core for exactly one kind of answer.
    Over libraries that return, a node made from any answer of the panel is
    added, with success or an error, to an xray core that is started and has
    its options, and to a hysteria2 core whose options name no configuration
    file ([Hysteria2ConfigPath] is empty).  The sing core panics on it exactly
    when it is a vmess or vless node over tcp whose http header has a request
    without a path ([header_pathless]; src/core/sing/node.go:144 reads the
    first path unasked) and its address and its TLS are otherwise taken. *)
Theorem panel_node_added `{XT : !XrayCoreTotal} `{ST : !SingBoxTotal} `{HT : !Hy2Total}
    id type body n tag config c :
  build_node id type body = Ok n → can_serve n config c →
  match c with
  | XrayProxy _ => no_panic (core_AddNode tag n config c).2
  | SingProxy _ =>
      ¬ no_panic (core_AddNode tag n config c).2 ↔
      header_pathless n ∧ is_ok (listen_options n config) = true ∧ is_ok (tls_options n config) = true
  | Hy2Proxy _ => opt_Hysteria2ConfigPath config = "" → no_panic (core_AddNode tag n config c).2
  end.
Proof.
  intros (Hty & Hwf & Hd)%build_node_wf [Hp Hc]. cbn [core_AddNode Proxy_ops].
  rewrite proxy_AddNode_result. destruct c as [s|s|h]; destruct_and?.
  - by apply Xray_AddNode_returns.
  - by apply Sing_AddNode_panics.
  - intros Hpath. apply Hy2_AddNode_returns; [done| |done]. by apply list_elem_of_singleton in Hp.
Qed.
End added.

(** * Witnesses, over the libraries of the components' own *)
Lemma cores_agree_on_security_witness :
  @tls_options XrayNode.wit_node Options_default = Ok InboundTLSOptions_zero ∧
  res_map xray_security (@set_security XrayNode.wit_conf Options_default XrayNode.wit_node (stream_of "tcp")) =
    Ok (Some Plain).
Proof.
  split; [reflexivity|].
  rewrite (@cores_agree_on_security XrayNode.wit_conf Options_default XrayNode.wit_node (stream_of "tcp"))
    by reflexivity.
  reflexivity.
Defined.

#[local] Existing Instances wit_trojan_decoder canonical_order.
#[local] Existing Instances XrayNode.wit_host XrayCore.wit_xray XrayNode.wit_conf XrayNode.wit_json
  XrayNode.wit_core.
#[local] Instance wit_xray_total : XrayCoreTotal.
Proof. split; try done. intros p w. cbn. by case_match. Qed.

#[local] Existing Instances Hy2Config.wit_hy Hy2Config.wit_conf Hy2Config.wit_server
  SingNode.wit_sing SingNode.wit_nodelib SingNode.wit_box.

Lemma panel_node_added_witness :
  ∃ n, build_node 7 "trojan" "body" = Ok n ∧
    no_panic (core_AddNode "t" n XrayNode.wit_options
      (XrayProxy (HL:=Hy2Config.wit_hy) (SL:=SingNode.wit_sing) XrayNode.wit_state)).2.
Proof.
  destruct (build_node 7 "trojan" "body") as [n| |] eqn:Hn; [|vm_compute in Hn; discriminate Hn ..].
  exists n. split; [reflexivity|].
  assert (@SingBoxTotal SingNode.wit_sing SingNode.wit_nodelib SingNode.wit_box) as ST.
  { split; [apply SingNode.wit_total|done]. }
  assert (@Hy2Total Hy2Config.wit_hy Hy2Config.wit_conf Hy2Config.wit_server) as HT.
  { split; try done. intros a w. cbn. by case_decide. }
  apply (panel_node_added (ST:=ST) (HT:=HT) 7 "trojan" "body" n "t" XrayNode.wit_options
    (XrayProxy (HL:=Hy2Config.wit_hy) (SL:=SingNode.wit_sing) XrayNode.wit_state)); [exact Hn|].
  vm_compute in Hn. injection Hn as <-. split; [by_decide|]. split; [reflexivity|by eexists].
Defined.
