(* ===== verification/Lego.v ===== *)
(** src/node/lego.go: obtaining a certificate from an ACME server with the
    go-acme/lego library, and the account file it keeps.

    The machine (files, environment, clock, network) is a state [M]; its
    operations, the X.509 and ECDSA code of the Go library and lego itself are
    the parameters [Machine], [CryptoLib] and [AcmeLib].  The clock is read off
    the state, so it can advance with every operation.  RenewCert and CheckCert
    are in Renewal. *)

From S2P Require Import Prelude GoStd Conf.
From stdpp Require Import prelude gmap strings.
From Stdlib Require Import Ascii ZArith Lia.

Open Scope string_scope.

(** What [os.Stat] says of a path. *)
Inductive stat : Type :=
| StatOk
| StatNotExist
| StatErr (e : string).

#[global] Instance stat_eq_dec : EqDecision stat.
Proof. solve_decision. Defined.

Class Machine := {
  M : Type;
  os_Stat : string → M → stat;
  os_ReadFile : string → M → res string string;
  os_WriteFile : string → string → Z → M → M * option string;
  os_OpenFile : string → Z → M → M * option string;       (* create, truncate *)
  file_Write : string → string → M → M * option string;   (* append to the open file *)
  os_MkdirAll : string → M → M * option string;
  os_Setenv : string → string → M → M;
  time_Now : M → Z;
  path_Dir : string → string;
  path_Join2 : string → string → string;
}.

(** A parsed IP address, by the tests the program makes of it. *)
Record IP := mkIP {
  IsGlobalUnicast : bool; IsPrivate : bool; IsLoopback : bool; IsUnspecified : bool;
  IsLinkLocalUnicast : bool; IsLinkLocalMulticast : bool;
}.

(** A parsed certificate, by the fields the program reads. *)
Record Certificate := mkCertificate {
  x_Raw : string;
  x_NotBefore : Z;       (* nanoseconds since the epoch *)
  x_NotAfter : Z;
  x_VerifyHostname : string → bool;
  x_Version : Z;
  x_BasicConstraintsValid : bool;
  x_IsCA : bool;
  x_KeyUsage : Z;        (* a bit set *)
  x_OwnSignature : bool; (* its signature verifies with its own key *)
}.

(** What a certificate is created from, the serial number and the dates apart,
    which are read off the clock. *)
Record CertTemplate := mkCertTemplate {
  t_Version : Z;
  t_CommonName : string;
  t_BasicConstraintsValid : bool;
  t_IsCA : bool;
  t_KeyUsage : Z;
  t_IPAddresses : list IP;
  t_DNSNames : list string;
}.

Class CryptoLib `{Machine} := {
  PrivateKey : Type;
  ecdsa_GenerateKey : M → M * res string PrivateKey;
  MarshalECPrivateKey : PrivateKey → res string string;
  ParseECPrivateKey : string → res string PrivateKey;
  pem_Encode : string → string → string;            (* block type, bytes *)
  pem_Decode : string → option string;              (* the bytes of the first block *)
  ParseCertificate : string → res string Certificate;
  sha256_Sum : string → list Z;
  (* GenerateKey, CreateCertificate with the template as its own parent: certificate, PKCS1 key *)
  rsa_SelfSigned : CertTemplate → M → M * res string (string * string);
  net_ParseIP : string → option IP;
  url_Hostname : string → option string;            (* of a URL that parses *)
  net_SplitHost : string → option string;
}.

(** ** Commands: a Go call that may change the machine and may fail *)
Section cmd.
Context `{Machine}.

Definition cmd (A : Type) : Type := M → M * res string A.

Definition cret {A} (a : A) : cmd A := λ m, (m, Ok a).
Definition cfail {A} (e : string) : cmd A := λ m, (m, Err e).
Definition cbind {A B} (c : cmd A) (k : A → cmd B) : cmd B := λ m,
  match c m with
  | (m, Ok a) => k a m
  | (m, Err e) => (m, Err e)
  | (m, Panic w) => (m, Panic w)
  end.
Definition of_res {A} (r : res string A) : cmd A := λ m, (m, r).
(** A call that only returns an error. *)
Definition of_err (c : M → M * option string) : cmd unit := λ m,
  match c m with (m, None) => (m, Ok tt) | (m, Some e) => (m, Err e) end.
(** [fmt.Errorf] around the error of a call. *)
Definition errorf {A} (what : string) (c : cmd A) : cmd A := λ m,
  let '(m, r) := c m in (m, map_err (λ e, what +:+ e) r).
End cmd.

Notation "'do' x <- c ; k" := (cbind c (λ x, k))
  (at level 200, x pattern, c at level 100, k at level 200, right associativity).

(** ** github.com/go-acme/lego *)
Record LegoUser `{CryptoLib} (R : Type) := mkLegoUser {
  lu_Email : string;
  lu_Registration : option R;
  lu_key : option PrivateKey;
  lu_KeyEncoded : string;
}.
Arguments mkLegoUser {_ _ R}.
Arguments lu_Email {_ _ R}.
Arguments lu_Registration {_ _ R}.
Arguments lu_key {_ _ R}.
Arguments lu_KeyEncoded {_ _ R}.

Record Resource := mkResource { res_Certificate : string; res_PrivateKey : string }.

Class AcmeLib `{CryptoLib} := {
  Registration : Type;
  AcmeClient : Type;
  DnsProvider : Type;
  lego_NewClient : LegoUser Registration → cmd AcmeClient;
  acme_Register : AcmeClient → cmd Registration;
  SetHTTP01Provider : AcmeClient → string → string → cmd AcmeClient;  (* address, port *)
  NewDNSChallengeProviderByName : string → cmd DnsProvider;
  SetDNS01Provider : AcmeClient → DnsProvider → cmd AcmeClient;
  acme_Obtain : AcmeClient → list string → string → cmd Resource;     (* domains, profile *)
  user_Marshal : LegoUser Registration → string;
  user_Unmarshal : string → LegoUser Registration → res string (LegoUser Registration);
}.

Section lego.
Context `{AL : AcmeLib} `{RO : RangeOrder}.
Implicit Types user : LegoUser Registration.

(** ** src/common/file *)
Definition IsExist (path : string) (m : M) : bool := negb (bool_decide (os_Stat path m = StatNotExist)).

Definition checkPath (p : string) : cmd unit := λ m,
  if IsExist (path_Dir p) m then (m, Ok tt)
  else errorf "create dir error: " (of_err (os_MkdirAll (path_Dir p))) m.

(** ** The account *)
Definition EncodePrivate (privKey : PrivateKey) : res string string :=
  encoded ← MarshalECPrivateKey privKey; Ok (pem_Encode "EC PRIVATE KEY" encoded).

(** The block is used without a test for nil. *)
Definition DecodePrivate (pemEncodedPriv : string) : res string PrivateKey :=
  match pem_Decode pemEncodedPriv with
  | Some bytes => ParseECPrivateKey bytes
  | None => Panic "nil pointer dereference"
  end.

(** The receiver keeps an empty [KeyEncoded]; an encoding error is dropped. *)
Definition User_Save user (path : string) : cmd unit :=
  do _ <- errorf "check path error: " (checkPath path);
  let enc := match lu_key user with
             | Some k => match EncodePrivate k with Ok s => s | _ => "" end
             | None => "" end in
  do _ <- of_err (os_OpenFile path 420);
  errorf "marshal json error: " (of_err (file_Write path (user_Marshal
    (mkLegoUser (lu_Email user) (lu_Registration user) (lu_key user) enc)))).

Definition User_Load user (path : string) : cmd (LegoUser Registration) := λ m,
  (do data <- errorf "open file error: " (of_res (os_ReadFile path m));
   do user <- errorf "unmarshal json error: " (of_res (user_Unmarshal data user));
   do key <- errorf "decode private key error: " (of_res (DecodePrivate (lu_KeyEncoded user)));
   cret (mkLegoUser (lu_Email user) (lu_Registration user) (Some key) (lu_KeyEncoded user))) m.

Definition registerUser user (path : string) : cmd (LegoUser Registration) :=
  do privateKey <- errorf "generate key error: " ecdsa_GenerateKey;
  let user := mkLegoUser (lu_Email user) (lu_Registration user) (Some privateKey) (lu_KeyEncoded user) in
  do client <- errorf "create lego client error: " (lego_NewClient user);
  do reg <- acme_Register client;
  let user := mkLegoUser (lu_Email user) (Some reg) (lu_key user) (lu_KeyEncoded user) in
  do _ <- errorf "save user error: " (User_Save user path);
  cret (mkLegoUser (lu_Email user) (lu_Registration user) (lu_key user) "").

Definition NewLegoUser (path email : string) : cmd (LegoUser Registration) := λ m,
  if IsExist path m then
    (do user <- User_Load (mkLegoUser "" None None "") path;
     if decide (lu_Email user = email) then cret user
     else registerUser (mkLegoUser email None (lu_key user) (lu_KeyEncoded user)) path) m
  else registerUser (mkLegoUser email None None "") path m.

(** ** The client *)
Record Lego := mkLego { lego_client : AcmeClient; lego_config : CertConfig }.

Definition setenv_all (env : gmap string string) (m : M) : M :=
  foldl (λ m e, os_Setenv e.1 e.2 m) m (range env).

Definition SetProvider (client : AcmeClient) (config : CertConfig) : cmd AcmeClient :=
  if decide (cert_CertMode config = "auto" ∨ cert_CertMode config = "http") then
    SetHTTP01Provider client "" "80"
  else if decide (cert_CertMode config = "dns") then λ m,
    (do p <- errorf "create dns challenge provider error: "
               (NewDNSChallengeProviderByName (cert_Provider config));
     errorf "set dns provider error: " (SetDNS01Provider client p))
      (setenv_all (default ∅ (cert_DNSEnv config)) m)
  else cret client.

Definition account_path (config : CertConfig) : string :=
  path_Join2 (path_Join2 (path_Dir (cert_CertFile config)) "user")
    ("user-" +:+ cert_Email config +:+ ".json").

Definition NewLego (config : CertConfig) : cmd Lego :=
  do user <- errorf "create user error: " (NewLegoUser (account_path config) (cert_Email config));
  do client <- lego_NewClient user;
  do client <- errorf "set provider error: " (SetProvider client config);
  cret (mkLego client config).

(** [strings.NewReplacer]: the first key that matches at a position, from left
    to right; every step consumes a byte, so the length is enough fuel. *)
Fixpoint replace_all (pairs : list (string * string)) (fuel : nat) (s : string) : string :=
  match fuel with
  | O => s
  | S n =>
      match first_some ((λ p, pair p.2 <$> GoStd.strip_prefix p.1 s) <$> pairs) with
      | Some (v, s) => v +:+ replace_all pairs n s
      | None => match s with
                | EmptyString => EmptyString
                | String a s => String a (replace_all pairs n s)
                end
      end
  end.

Definition parseParams (config : CertConfig) (path : string) : string :=
  replace_all [("{domain}", cert_CertDomain config); ("{email}", cert_Email config)]
    (String.length path) path.

Definition writeCert (config : CertConfig) (certificates : Resource) : cmd unit :=
  do _ <- errorf "check path error: " (checkPath (cert_CertFile config));
  do _ <- of_err (os_WriteFile (parseParams config (cert_CertFile config))
                    (res_Certificate certificates) 420);
  do _ <- errorf "check path error: " (checkPath (cert_KeyFile config));
  of_err (os_WriteFile (parseParams config (cert_KeyFile config)) (res_PrivateKey certificates) 420).

Definition CreateCert (l : Lego) : cmd unit :=
  let config := lego_config l in
  let profile := match net_ParseIP (cert_CertDomain config) with Some _ => "shortlived" | None => "" end in
  do certificates <- errorf "obtain certificate error: "
                       (acme_Obtain (lego_client l) [cert_CertDomain config] profile);
  errorf "write certificate error: " (writeCert config certificates).
End lego.
