(* ===== verification/Cert.v ===== *)
(** src/node/cert.go: the certificate of a node -- from a file, from an ACME
    server or self-signed -- and the metadata kept about it.

    A request returns the metadata (a pointer, nil when nothing is managed) and
    an error (nil or a text): both can be there.  The methods of the controller
    that also need the core are in Controller.v. *)

From S2P Require Import Prelude GoStd Lower Conf Panel PanelNode NodeOptions Lego.
From stdpp Require Import prelude gmap strings.
From Stdlib Require Import Ascii ZArith Lia.

Open Scope string_scope.

Definition domainRenewBefore : Z := 30 * 24 * Hour.
Definition ipRenewBefore : Z := 72 * Hour.

Record certMetadata := mkCertMetadata {
  meta_Target : string;
  meta_Mode : string;
  meta_Source : string;
  meta_SHA256 : string;
  meta_NotAfter : Z;
  meta_UpdatedAt : Z;
}.

#[global] Instance certMetadata_eq_dec : EqDecision certMetadata.
Proof. solve_decision. Defined.

(** encoding/json on this struct. *)
Class MetaJson := {
  meta_Marshal : certMetadata → string;
  meta_Unmarshal : string → res string certMetadata;
}.

Section cert.
Context `{AL : AcmeLib} `{RO : RangeOrder} `{MJ : MetaJson}.
Implicit Types cert : CertConfig.

(** A request: the machine after it, the metadata and the error; or a panic. *)
Definition outcome : Type := M * res Empty_set (option certMetadata * option string).

(** time.Time.Unix *)
Definition unix (t : Z) : Z := t / Second.

Definition cert_with_mode (mode : string) cert : CertConfig :=
  mkCertConfig mode (cert_RejectUnknownSni cert) (cert_SelfFallback cert) (cert_CertDomain cert)
    (cert_CertFile cert) (cert_KeyFile cert) (cert_Provider cert) (cert_Email cert) (cert_DNSEnv cert).

(** ** Reading certificates *)
Definition loadCertificate cert (m : M) : res string Certificate :=
  data ← map_err (λ e, "read cert file: " +:+ e) (os_ReadFile (cert_CertFile cert) m);
  match pem_Decode data with
  | None => Err "decode cert file: no PEM block"
  | Some bytes => map_err (λ e, "parse cert file: " +:+ e) (ParseCertificate bytes)
  end.

(** crypto/x509: [CheckSignatureFrom] the certificate itself, true when there
    is no error.  A parent that is no authority is refused before its signature
    is looked at. *)
Definition KeyUsageDigitalSignature : Z := 1.
Definition KeyUsageKeyEncipherment : Z := 4.
Definition KeyUsageCertSign : Z := 32.

Definition CheckSignatureFrom_self (x : Certificate) : bool :=
  if (x_Version x =? 3)%Z && negb (x_BasicConstraintsValid x) || x_BasicConstraintsValid x && negb (x_IsCA x)
  then false
  else if negb (x_KeyUsage x =? 0)%Z && (Z.land (x_KeyUsage x) KeyUsageCertSign =? 0)%Z then false
  else x_OwnSignature x.

Definition isSelfSignedCertificate (x : Certificate) : bool := CheckSignatureFrom_self x.

(** The error is the status of the path that failed. *)
Definition ensureCertFilesExist cert (m : M) : option stat :=
  if decide (os_Stat (cert_CertFile cert) m = StatOk) then
    if decide (os_Stat (cert_KeyFile cert) m = StatOk) then None
    else Some (os_Stat (cert_KeyFile cert) m)
  else Some (os_Stat (cert_CertFile cert) m).

Definition stat_error (s : stat) : string :=
  match s with StatErr e => e | StatNotExist => "file does not exist" | StatOk => "" end.

Definition validateCertPaths cert : option string :=
  if decide (cert_CertFile cert = "" ∨ cert_KeyFile cert = "") then Some "no path of cert or key file"
  else None.

(** The parsed certificate that is also returned is not used. *)
Definition certificateReady cert (minValidity : Z) (allowSelfSigned : bool) (m : M) : res string bool :=
  match ensureCertFilesExist cert m with
  | Some StatNotExist => Ok false
  | Some e => Err (stat_error e)
  | None =>
      match loadCertificate cert m with
      | Ok x =>
          if (time_Now m <? x_NotBefore x)%Z || (x_NotAfter x - time_Now m <=? minValidity)%Z
          then Ok false
          else if negb (String.eqb (cert_CertDomain cert) "") && negb (x_VerifyHostname x (cert_CertDomain cert))
          then Ok false
          else if negb allowSelfSigned && isSelfSignedCertificate x then Ok false
          else Ok true
      | _ => Ok false
      end
  end.

Definition renewBefore (target : string) : Z :=
  match net_ParseIP target with Some _ => ipRenewBefore | None => domainRenewBefore end.

Definition isPublicIP (ip : IP) : bool :=
  IsGlobalUnicast ip && negb (IsPrivate ip) && negb (IsLoopback ip) && negb (IsUnspecified ip)
  && negb (IsLinkLocalUnicast ip) && negb (IsLinkLocalMulticast ip).

Definition validateAutoCertTarget (target : string) : option string :=
  if decide (target = "") then Some "auto tls needs host or tls_settings.server_name"
  else match net_ParseIP target with
  | Some ip => if negb (isPublicIP ip) then Some ("auto tls target is not a public IP: " +:+ target) else None
  | None =>
      if EqualFold target "localhost" || negb (Contains target ".") then
        Some ("auto tls target is not a public domain: " +:+ target)
      else if ContainsAny target "/\\" then Some ("auto tls target is not a hostname: " +:+ target)
      else None
  end.

Definition normalizeCertTarget (value : string) : string :=
  let value := TrimSpace value in
  if decide (value = "") then ""
  else
    let value :=
      match url_Hostname value with
      | Some h => if decide (h = "") then default value (net_SplitHost value) else h
      | None => default value (net_SplitHost value)
      end in
    TrimSpace (TrimPrefix (TrimSuffix value "]") "[").

Definition env_size cert : nat := size (default ∅ (cert_DNSEnv cert)).

Definition autoCertChallenge cert : string * string :=
  match net_ParseIP (cert_CertDomain cert) with
  | Some _ => ("http", "acme_ip")
  | None =>
      if decide (TrimSpace (cert_Provider cert) ≠ "" ∧ 0 < env_size cert)%nat then ("dns", "acme_dns")
      else ("http", "acme_http")
  end.

Definition managedCertSource (mode target : string) : string :=
  if decide (mode = "dns") then "acme_dns"
  else match net_ParseIP target with Some _ => "acme_ip" | None => "acme_http" end.

(** ** Metadata *)

(** [%02X] *)
Definition hex_digit (n : Z) : ascii := default "0"%char (String.get (Z.to_nat n) "0123456789ABCDEF").
Definition hex_byte (b : Z) : string :=
  String (hex_digit (b / 16)) (String (hex_digit (b mod 16)) EmptyString).
Definition certSHA256 (x : Certificate) : string := GoStd.Join (hex_byte <$> sha256_Sum (x_Raw x)) ":".

Definition metadataFromCertificate cert (x : Certificate) (source : string) (m : M) : certMetadata :=
  mkCertMetadata (cert_CertDomain cert) (cert_CertMode cert) source (certSHA256 x)
    (unix (x_NotAfter x)) (unix (time_Now m)).

Definition basicCertMetadata cert (source : string) (m : M) : certMetadata :=
  mkCertMetadata (cert_CertDomain cert) (cert_CertMode cert) source "" 0 (unix (time_Now m)).

Definition metadataFromCertFile cert (source : string) (m : M)
    : res Empty_set (certMetadata * option string) :=
  match loadCertificate cert m with
  | Ok x => Ok (metadataFromCertificate cert x source m, None)
  | Err e => Ok (basicCertMetadata cert source m, Some e)
  | Panic w => Panic w
  end.

Definition certMetadataPath (nodeID : Z) : string :=
  path_Join2 "/etc/V2bZ" ("node-" +:+ Itoa nodeID +:+ ".certmeta.json").

(** Its error is dropped by every caller. *)
Definition writeCertMetadata (path : string) (meta : certMetadata) (m : M) : M :=
  ((do _ <- checkPath path; of_err (os_WriteFile path (meta_Marshal meta) 420)) m).1.

Definition readCertMetadata (path : string) (m : M) : option certMetadata :=
  match (data ← os_ReadFile path m; meta_Unmarshal data) with Ok meta => Some meta | _ => None end.

Definition certMetadataChanged (previous next : option certMetadata) : bool :=
  match next with
  | None => false
  | Some n =>
      match previous with
      | None => true
      | Some p =>
          negb (String.eqb (meta_Target p) (meta_Target n)) || negb (String.eqb (meta_Mode p) (meta_Mode n))
          || negb (String.eqb (meta_Source p) (meta_Source n)) || negb (String.eqb (meta_SHA256 p) (meta_SHA256 n))
          || negb (meta_NotAfter p =? meta_NotAfter n)%Z
      end
  end.

(** ** Requests *)

(** [basicCertMetadata] with an error. *)
Definition failed cert (source : string) (e : string) (m : M) : outcome :=
  (m, Ok (Some (basicCertMetadata cert source m), Some e)).

(** The end of the branches where the certificate is ready. *)
Definition use_cert_file (path : string) cert (source : string) (m : M) : outcome :=
  match metadataFromCertFile cert source m with
  | Ok (meta, None) => (writeCertMetadata path meta m, Ok (Some meta, None))
  | Ok (meta, Some e) => (m, Ok (Some meta, Some e))
  | Err e => match e with end
  | Panic w => (m, Panic w)
  end.

(** The end of the branches that have a new certificate. *)
Definition use_new_cert (path : string) cert (source : string) (x : Certificate) (m : M) : outcome :=
  let meta := metadataFromCertificate cert x source m in
  (writeCertMetadata path meta m, Ok (Some meta, None)).

Definition issueLegoCert cert (challengeMode : string) : cmd Certificate := λ m,
  let legoCert := mkCertConfig challengeMode (cert_RejectUnknownSni cert) (cert_SelfFallback cert)
    (cert_CertDomain cert) (cert_CertFile cert) (cert_KeyFile cert) (cert_Provider cert)
    (cert_Email cert) (cloneDNSEnv (cert_DNSEnv cert)) in
  match (do l <- errorf "create lego object: " (NewLego legoCert); CreateCert l) m with
  | (m, Ok _) => (m, loadCertificate cert m)
  | (m, Err e) => (m, Err e)
  | (m, Panic w) => (m, Panic w)
  end.

(** The self-signed certificate and its key, written as PEM blocks. *)
Definition write_pem (path : string) (perm : Z) (kind bytes : string) : cmd unit :=
  do _ <- checkPath path;
  do _ <- of_err (os_OpenFile path perm);
  of_err (file_Write path (pem_Encode kind bytes)).

Definition selfSslTemplate (domain : string) : CertTemplate :=
  let '(ips, names) := match net_ParseIP domain with Some ip => ([ip], []) | None => ([], [domain]) end in
  mkCertTemplate 3 domain true false (Z.lor KeyUsageDigitalSignature KeyUsageKeyEncipherment) ips names.

Definition generateSelfSslCertificate (domain certPath keyPath : string) : cmd unit :=
  do ck <- rsa_SelfSigned (selfSslTemplate domain);
  do _ <- write_pem certPath 420 "CERTIFICATE" ck.1;
  write_pem keyPath 384 "RSA PRIVATE KEY" ck.2.

Definition generateAndStoreSelfCert (path : string) cert (m : M) : outcome :=
  match generateSelfSslCertificate (cert_CertDomain cert) (cert_CertFile cert) (cert_KeyFile cert) m with
  | (m, Ok _) =>
      match loadCertificate cert m with
      | Ok x => use_new_cert path cert "self" x m
      | Err e => failed cert "self" e m
      | Panic w => (m, Panic w)
      end
  | (m, Err e) => failed cert "self" ("create self-signed certificate: " +:+ e) m
  | (m, Panic w) => (m, Panic w)
  end.

Definition requestManagedCert (path : string) cert (challengeMode source : string)
    (allowSelfSigned : bool) (m : M) : outcome :=
  match validateCertPaths cert with
  | Some e => failed cert source e m
  | None =>
      if decide (cert_CertDomain cert = "") then
        failed cert source ("empty cert target for CertMode " +:+ cert_CertMode cert) m
      else match certificateReady cert (renewBefore (cert_CertDomain cert)) allowSelfSigned m with
      | Err e => failed cert source e m
      | Panic w => (m, Panic w)
      | Ok true => use_cert_file path cert source m
      | Ok false =>
          match issueLegoCert cert challengeMode m with
          | (m, Ok x) => use_new_cert path cert source x m
          | (m, Err e) => failed cert source ("create lego certificate: " +:+ e) m
          | (m, Panic w) => (m, Panic w)
          end
      end
  end.

Definition requestAutoCert (path : string) cert (m : M) : outcome :=
  match validateCertPaths cert with
  | Some e => failed cert "auto" e m
  | None =>
      match validateAutoCertTarget (cert_CertDomain cert) with
      | Some e => failed cert "auto" e m
      | None =>
          let '(challengeMode, source) := autoCertChallenge cert in
          match certificateReady cert (renewBefore (cert_CertDomain cert)) false m with
          | Err e => failed cert source e m
          | Panic w => (m, Panic w)
          | Ok true => use_cert_file path cert source m
          | Ok false =>
              match issueLegoCert cert challengeMode m with
              | (m, Ok x) => use_new_cert path cert source x m
              | (m, Panic w) => (m, Panic w)
              | (m, Err issueErr) =>
                  if cert_SelfFallback cert then generateAndStoreSelfCert path cert m
                  else failed cert source ("create lego certificate: " +:+ issueErr) m
              end
          end
      end
  end.

Definition requestSelfCert (path : string) cert (m : M) : outcome :=
  match validateCertPaths cert with
  | Some e => failed cert "self" e m
  | None =>
      if decide (cert_CertDomain cert = "") then failed cert "self" "empty cert target for CertMode self" m
      else match certificateReady cert domainRenewBefore true m with
      | Err e => failed cert "self" e m
      | Panic w => (m, Panic w)
      | Ok true => use_cert_file path cert "self" m
      | Ok false => generateAndStoreSelfCert path cert m
      end
  end.

(** What [requestCert] does to its copy of the configuration first. *)
Definition normalize_cert cert : CertConfig :=
  mkCertConfig (ToLower (TrimSpace (cert_CertMode cert))) (cert_RejectUnknownSni cert)
    (cert_SelfFallback cert) (normalizeCertTarget (cert_CertDomain cert)) (cert_CertFile cert)
    (cert_KeyFile cert) (cert_Provider cert) (orElse (cert_Email cert) "node@zicboard.local")
    (cert_DNSEnv cert).

Definition requestFileCert cert (m : M) : outcome :=
  match validateCertPaths cert with
  | Some e => failed cert "file" e m
  | None =>
      match ensureCertFilesExist cert m with
      | Some s => failed cert "file" (stat_error s) m
      | None =>
          match metadataFromCertFile cert "file" m with
          | Ok (meta, e) => (m, Ok (Some meta, e))
          | Err e => match e with end
          | Panic w => (m, Panic w)
          end
      end
  end.

(** [requestCert] on the current configuration of the node ([None]: nil) and
    the path of its metadata. *)
Definition requestCert (path : string) (current : option CertConfig) (m : M) : outcome :=
  match current with
  | None => (m, Ok (None, None))
  | Some cert =>
      let cert := normalize_cert cert in
      let mode := cert_CertMode cert in
      if decide (mode = "none" ∨ mode = "") then (m, Ok (None, None))
      else if decide (mode = "file") then requestFileCert cert m
      else if decide (mode = "dns" ∨ mode = "http") then
        requestManagedCert path cert mode (managedCertSource mode (cert_CertDomain cert)) false m
      else if decide (mode = "auto") then requestAutoCert path cert m
      else if decide (mode = "self") then requestSelfCert path cert m
      else failed cert "" ("unsupported CertMode: " +:+ mode) m
  end.
End cert.

(** * What a request promises *)

(** Writing one file, or making a directory, leaves the other files alone. *)
Class MachineLaws `{Machine} := {
  read_after_write : ∀ p q data perm m,
    p ≠ q → os_ReadFile q (os_WriteFile p data perm m).1 = os_ReadFile q m;
  read_after_mkdir : ∀ d q m, os_ReadFile q (os_MkdirAll d m).1 = os_ReadFile q m;
}.

Section promises.
#[local] Set Default Proof Using "Type*".
Context `{AL : AcmeLib} `{RO : RangeOrder} `{MJ : MetaJson} `{ML : !MachineLaws}.
Implicit Types cert : CertConfig.

(** The metadata says what the certificate on disk is. *)
Definition describes cert (meta : certMetadata) (m : M) : Prop :=
  meta_Target meta = cert_CertDomain cert ∧ meta_Mode meta = cert_CertMode cert ∧
  ∃ x, loadCertificate cert m = Ok x ∧ meta_SHA256 meta = certSHA256 x ∧
       meta_NotAfter meta = unix (x_NotAfter x).

(** When a request succeeds, its metadata is true and its source is allowed. *)
Definition truthful cert (P : string → Prop) (o : outcome) : Prop :=
  match o with
  | (m, Ok (Some meta, None)) => describes cert meta m ∧ P (meta_Source meta)
  | _ => True
  end.

(** A certificate is valid now, for more than a time to come, for the node's
    name. *)
Definition good_for cert (ahead : Z) (x : Certificate) (m : M) : Prop :=
  (x_NotBefore x ≤ time_Now m)%Z ∧ (ahead < x_NotAfter x - time_Now m)%Z ∧
  (cert_CertDomain cert = "" ∨ x_VerifyHostname x (cert_CertDomain cert) = true).

(** How a mode asks an ACME server, and the source it then reports. *)
Definition acme_ask cert : string * string :=
  if decide (cert_CertMode cert = "auto") then autoCertChallenge cert
  else (cert_CertMode cert, managedCertSource (cert_CertMode cert) (cert_CertDomain cert)).

Definition acme_mode cert : Prop := cert_CertMode cert ∈ ["dns"; "http"; "auto"].

Definition self_made cert (m m' : M) : Prop :=
  (generateSelfSslCertificate (cert_CertDomain cert) (cert_CertFile cert) (cert_KeyFile cert) m).1 = m' ∧
  (generateSelfSslCertificate (cert_CertDomain cert) (cert_CertFile cert) (cert_KeyFile cert) m).2 = Ok tt.

(** Where a reported certificate comes from, by the reported source: what the
    operator's file holds; a certificate that was on disk when the request came
    ([m]) and is good for long enough, and that the program does not hold for
    self-signed unless the mode is [self]; one that the ACME server issued; one
    that the program made, in mode [self], or in mode [auto] with the fallback
    allowed and after the ACME server failed. *)
Inductive came_from cert (m : M) : string → Prop :=
| from_file : cert_CertMode cert = "file" → came_from cert m "file"
| kept_acme x :
    acme_mode cert → loadCertificate cert m = Ok x → good_for cert (renewBefore (cert_CertDomain cert)) x m →
    isSelfSignedCertificate x = false → came_from cert m (acme_ask cert).2
| kept_self x :
    cert_CertMode cert = "self" → loadCertificate cert m = Ok x → good_for cert domainRenewBefore x m →
    came_from cert m "self"
| issued x m1 :
    acme_mode cert → issueLegoCert cert (acme_ask cert).1 m = (m1, Ok x) → came_from cert m (acme_ask cert).2
| made m1 :
    cert_CertMode cert = "self" → self_made cert m m1 → came_from cert m "self"
| fell_back e m1 m2 :
    cert_CertMode cert = "auto" → cert_SelfFallback cert = true →
    issueLegoCert cert (acme_ask cert).1 m = (m1, Err e) → self_made cert m1 m2 → came_from cert m "self".

Lemma certificateReady_good cert ahead self m :
  certificateReady cert ahead self m = Ok true →
  ∃ x, loadCertificate cert m = Ok x ∧ good_for cert ahead x m ∧
       (self = false → isSelfSignedCertificate x = false).
Proof.
  unfold certificateReady, good_for. destruct (ensureCertFilesExist cert m) as [[]|]; try done.
  destruct (loadCertificate cert m) as [x| |]; try done.
  destruct ((_ <? _)%Z || _)%Z eqn:Hd; [done|]. apply orb_false_iff in Hd as [Hb%Z.ltb_ge Ha%Z.leb_gt].
  destruct (String.eqb_spec (cert_CertDomain cert) "") as [Hn|Hn]; simpl;
    [|destruct (x_VerifyHostname x _) eqn:Hv; simpl; [|done]];
    (destruct (negb self && isSelfSignedCertificate x) eqn:Hs; [done|]); intros _; exists x;
    (split_and!; [done|done|done|auto|]); intros ->; exact Hs.
Qed.

Lemma read_after_metadata path meta q m :
  path ≠ q → os_ReadFile q (writeCertMetadata path meta m) = os_ReadFile q m.
Proof.
  intros Hne. unfold writeCertMetadata, cbind, of_err, checkPath, errorf, of_err.
  destruct (IsExist _ m).
  - pose proof (read_after_write path q (meta_Marshal meta) 420 m Hne) as Hw.
    destruct (os_WriteFile _ _ _ m) as [m' [e|]]; exact Hw.
  - pose proof (read_after_mkdir (path_Dir path) q m) as Hd.
    destruct (os_MkdirAll _ m) as [m1 [e|]]; simpl in *; [done|].
    pose proof (read_after_write path q (meta_Marshal meta) 420 m1 Hne) as Hw.
    destruct (os_WriteFile _ _ _ m1) as [m' [e|]]; simpl in *; congruence.
Qed.

Lemma load_after_metadata path meta cert m :
  path ≠ cert_CertFile cert → loadCertificate cert (writeCertMetadata path meta m) = loadCertificate cert m.
Proof. intros Hne. unfold loadCertificate. by rewrite read_after_metadata. Qed.

Lemma use_new_cert_truthful path cert source x m (P : string → Prop) :
  path ≠ cert_CertFile cert → loadCertificate cert m = Ok x → P source →
  truthful cert P (use_new_cert path cert source x m).
Proof.
  intros Hne Hx HP. split; [|done]. split_and!; [done|done|].
  exists x. by rewrite load_after_metadata.
Qed.

Lemma use_cert_file_truthful path cert source m (P : string → Prop) :
  path ≠ cert_CertFile cert → P source → truthful cert P (use_cert_file path cert source m).
Proof.
  intros Hne HP. unfold use_cert_file, metadataFromCertFile.
  destruct (loadCertificate cert m) as [x| |] eqn:Hx; try done.
  by apply (use_new_cert_truthful path cert source x m P).
Qed.

Lemma issueLegoCert_load cert mode m m' x :
  issueLegoCert cert mode m = (m', Ok x) → loadCertificate cert m' = Ok x.
Proof.
  unfold issueLegoCert. destruct (cbind _ _ m) as [m1 [u|e|w]]; intros [= <- Hx]; done.
Qed.

Lemma generateAndStoreSelfCert_truthful path cert m (P : string → Prop) :
  path ≠ cert_CertFile cert → (∀ m1, self_made cert m m1 → P "self") →
  truthful cert P (generateAndStoreSelfCert path cert m).
Proof.
  intros Hne HP. unfold generateAndStoreSelfCert, self_made in *.
  destruct (generateSelfSslCertificate _ _ _ m) as [m1 [[]|e|w]]; try done.
  destruct (loadCertificate cert m1) as [x| |] eqn:Hx; try done.
  by eapply use_new_cert_truthful; [| |eapply HP].
Qed.

Lemma requestManagedCert_truthful path cert m :
  path ≠ cert_CertFile cert → cert_CertMode cert = "dns" ∨ cert_CertMode cert = "http" →
  truthful cert (came_from cert m) (requestManagedCert path cert (acme_ask cert).1 (acme_ask cert).2 false m).
Proof.
  intros Hne Hmode. assert (acme_mode cert) as Hacme by (unfold acme_mode; set_solver).
  unfold requestManagedCert. case_match; [done|]. case_decide; [done|].
  destruct (certificateReady _ _ _ m) as [[]| |] eqn:Hready; try done.
  - apply certificateReady_good in Hready as (x & Hx & Hg & Hs).
    apply use_cert_file_truthful; [done|]. by eapply kept_acme; auto.
  - destruct (issueLegoCert _ _ m) as [m1 [x|e|w]] eqn:Hi; try done.
    apply use_new_cert_truthful; [done|by eapply issueLegoCert_load|by eapply issued].
Qed.

Lemma requestSelfCert_truthful path cert m :
  path ≠ cert_CertFile cert → cert_CertMode cert = "self" →
  truthful cert (came_from cert m) (requestSelfCert path cert m).
Proof.
  intros Hne Hmode. unfold requestSelfCert. case_match; [done|]. case_decide; [done|].
  destruct (certificateReady _ _ _ m) as [[]| |] eqn:Hready; try done.
  - apply certificateReady_good in Hready as (x & Hx & Hg & _).
    apply use_cert_file_truthful; [done|]. by eapply kept_self.
  - apply generateAndStoreSelfCert_truthful; [done|]. intros m1. by apply made.
Qed.

Lemma requestAutoCert_truthful path cert m :
  path ≠ cert_CertFile cert → cert_CertMode cert = "auto" →
  truthful cert (came_from cert m) (requestAutoCert path cert m).
Proof.
  intros Hne Hmode. assert (acme_mode cert) as Hacme by (unfold acme_mode; set_solver).
  assert (acme_ask cert = autoCertChallenge cert) as Hask by (unfold acme_ask; by rewrite decide_True).
  unfold requestAutoCert. rewrite <- Hask. case_match; [done|]. case_match; [done|].
  destruct (acme_ask cert) as [mode source] eqn:Hms.
  replace mode with (acme_ask cert).1 by (by rewrite Hms).
  replace source with (acme_ask cert).2 by (by rewrite Hms).
  destruct (certificateReady _ _ _ m) as [[]| |] eqn:Hready; try done.
  - apply certificateReady_good in Hready as (x & Hx & Hg & Hs).
    apply use_cert_file_truthful; [done|]. by eapply kept_acme; auto.
  - destruct (issueLegoCert _ _ m) as [m1 [x|e|w]] eqn:Hi; try done.
    + apply use_new_cert_truthful; [done|by eapply issueLegoCert_load|by eapply issued].
    + destruct (cert_SelfFallback cert) eqn:Hf; [|done].
      apply generateAndStoreSelfCert_truthful; [done|]. intros m2. by eapply fell_back.
Qed.

Lemma requestFileCert_truthful cert m :
  cert_CertMode cert = "file" → truthful cert (came_from cert m) (requestFileCert cert m).
Proof.
  intros HP. unfold requestFileCert, metadataFromCertFile. case_match; [done|]. case_match; [done|].
  destruct (loadCertificate cert m) as [x| |] eqn:Hx; try done.
  split; [|by apply from_file]. split_and!; [done|done|by exists x].
Qed.

(** ** Certificates that the program made itself *)

(** [x] has the constraints of the template that the program's own certificates
    are created from. *)
Definition made_like (t : CertTemplate) (x : Certificate) : Prop :=
  x_Version x = t_Version t ∧ x_BasicConstraintsValid x = t_BasicConstraintsValid t ∧
  x_IsCA x = t_IsCA t ∧ x_KeyUsage x = t_KeyUsage t.

Lemma own_certificate_unseen domain x :
  made_like (selfSslTemplate domain) x → isSelfSignedCertificate x = false.
Proof.
  intros (_ & Hb & Hc & _). unfold isSelfSignedCertificate, CheckSignatureFrom_self. rewrite Hb, Hc.
  unfold selfSslTemplate. destruct (net_ParseIP domain); simpl; by rewrite orb_true_r.
Qed.

(** * Properties *)


(** A certificate that the program signed itself, left by a mode [self] or by a
    fallback, is kept by the mode [http] as long as it is valid, and
    reported as the ACME server's. *)
Theorem own_certificate_kept path conf x m domain :
  let cert := normalize_cert conf in
  cert_CertMode cert = "http" → cert_CertDomain cert ≠ "" → net_ParseIP (cert_CertDomain cert) = None →
  ensureCertFilesExist cert m = None → validateCertPaths cert = None →
  loadCertificate cert m = Ok x → made_like (selfSslTemplate domain) x → good_for cert domainRenewBefore x m →
  requestCert path (Some conf) m = use_new_cert path cert "acme_http" x m.
Proof.
  intros cert Hmode Hd Hip Hex Hv Hx Hmade (Hb & Ha & Hn). unfold requestCert. fold cert. rewrite Hmode.
  rewrite decide_False, decide_False, decide_True by naive_solver.
  unfold requestManagedCert, managedCertSource. rewrite Hv, Hip. rewrite decide_False by done.
  assert (certificateReady cert (renewBefore (cert_CertDomain cert)) false m = Ok true) as ->.
  { unfold certificateReady, renewBefore. rewrite Hex, Hx, Hip, (own_certificate_unseen domain) by done.
    apply Z.ltb_ge in Hb. apply Z.leb_gt in Ha. rewrite Hb, Ha. cbn [orb].
    destruct Hn as [Hn|Hn]; [done|]. by rewrite Hn, andb_false_r. }
  unfold use_cert_file, metadataFromCertFile. by rewrite Hx.
Qed.
End promises.

(** * A witness: a machine with files in memory, no ACME server, and a library
    whose certificates are valid for a year *)
Definition wit_machine : Machine := {|
  M := gmap string string;
  os_Stat := λ p m, match m !! p with Some _ => StatOk | None => StatNotExist end;
  os_ReadFile := λ p m, match m !! p with Some s => Ok s | None => Err "no such file" end;
  os_WriteFile := λ p data perm m, (<[p := data]> m, None);
  os_OpenFile := λ p perm m, (<[p := ""]> m, None);
  file_Write := λ p data m, (<[p := default "" (m !! p) +:+ data]> m, None);
  os_MkdirAll := λ p m, (m, None);
  os_Setenv := λ k v m, m;
  time_Now := λ m, 1000%Z;
  path_Dir := λ p, p;
  path_Join2 := λ a b, a +:+ "/" +:+ b;
|}.

Lemma wit_machine_laws : @MachineLaws wit_machine.
Proof. split; simpl; [|done]. intros p q data perm m Hne. by rewrite lookup_insert_ne. Qed.

Definition wit_crypto : @CryptoLib wit_machine := {|
  PrivateKey := unit;
  ecdsa_GenerateKey := λ m, (m, Ok tt);
  MarshalECPrivateKey := λ k, Ok "k";
  ParseECPrivateKey := λ s, Ok tt;
  pem_Encode := λ kind bytes, bytes;
  pem_Decode := λ s, if decide (s = "") then None else Some s;
  ParseCertificate := λ s, Ok (mkCertificate s 0 (365 * 24 * Hour) (λ h, true) 3 true false 5 true);
  sha256_Sum := λ s, [Z.of_nat (String.length s); 171%Z];
  rsa_SelfSigned := λ t m, (m, Ok (("der " +:+ t_CommonName t), "key"));
  net_ParseIP := λ s, None;
  url_Hostname := λ s, None;
  net_SplitHost := λ s, None;
|}.

Definition wit_acme : @AcmeLib wit_machine wit_crypto :=
  @Build_AcmeLib wit_machine wit_crypto unit unit unit
    (λ u m, (m, Err "no network")) (λ c m, (m, Err "no network"))
    (λ c a b m, (m, Ok c)) (λ n m, (m, Ok tt)) (λ c p m, (m, Ok c))
    (λ c d p m, (m, Err "no network")) (λ u, "") (λ s u, Err "syntax").

Definition wit_metajson : MetaJson := {| meta_Marshal := λ m, "{}"; meta_Unmarshal := λ s, Err "syntax" |}.

Definition wit_cert : CertConfig :=
  mkCertConfig " Auto" false true "[a.example]" "/c.pem" "/k.pem" "" "" None.

Definition wit_request : outcome (H := wit_machine) :=
  @requestCert wit_machine wit_crypto wit_acme canonical_order wit_metajson "/meta" (Some wit_cert) ∅.


(** A fallback's certificate is on disk when the operator switches to [http]. *)
Definition wit_http : CertConfig :=
  mkCertConfig "http" false false "a.example" "/c.pem" "/k.pem" "" "" None.

Lemma own_certificate_kept_witness :
  (@requestCert wit_machine wit_crypto wit_acme canonical_order wit_metajson "/meta" (Some wit_http)
     {["/c.pem" := "der a.example"; "/k.pem" := "key"]}).2 =
  Ok (Some (mkCertMetadata "a.example" "http" "acme_http" "0D:AB" 31536000 0), None).
Proof.
  rewrite (own_certificate_kept (AL := wit_acme) (ML := wit_machine_laws) "/meta" wit_http
    (mkCertificate "der a.example" 0 (365 * 24 * Hour) (λ h, true) 3 true false 5 true) _ "a.example").
  - reflexivity.
  - reflexivity.
  - by_decide.
  - reflexivity.
  - reflexivity.
  - reflexivity.
  - reflexivity.
  - by split_and!.
  - split_and!; [done|done|by right].
Defined.
