(* ===== verification/Renewal.v ===== *)
(** src/node/lego.go, RenewCert and CheckCert: renewing a certificate that is on
    disk.  The program decides about renewal in cert.go and calls neither.

    [int(d.Hours() / 24.0)] is floating-point arithmetic: it is computed with the
    binary64 operations of the Standard Library's specification of floats. *)

From S2P Require Import Prelude GoStd Conf Lego Cert.
From stdpp Require Import prelude gmap strings.
From Stdlib Require Import ZArith Lia.
From Stdlib Require SpecFloat.

Open Scope string_scope.

(** * Durations as floating-point numbers *)
Section float.
Import SpecFloat.

(** [float64(z)], rounded to the nearest even. *)
Definition float64 (z : Z) : spec_float := binary_normalize 53 1024 z 0 false.

(** [int(f)]: the fraction is cut off. *)
Definition int_of_float (f : spec_float) : Z :=
  match f with
  | S754_finite s m e =>
      let v := Z.shiftl (Zpos m) e in if s then (- v)%Z else v
  | _ => 0%Z
  end.

(** [time.Duration.Hours]: whole hours and the rest. *)
Definition Hours (d : Z) : spec_float :=
  SFadd 53 1024 (float64 (Z.quot d Hour)) (SFdiv 53 1024 (float64 (Z.rem d Hour)) (float64 Hour)).

Definition days (d : Z) : Z := int_of_float (SFdiv 53 1024 (Hours d) (float64 24)).
End float.

(** A nanosecond decides at the border of a day. *)
Example days_31 : days (31 * 24 * Hour) = 31%Z.
Proof. vm_compute. reflexivity. Qed.
Example days_below_31 : days (31 * 24 * Hour - 1) = 30%Z.
Proof. vm_compute. reflexivity. Qed.
Example days_expired : days (- (36 * Hour)) = (-1)%Z.
Proof. vm_compute. reflexivity. Qed.

(** [time.Until]: a difference that does not fit is cut to the nearest that does. *)
Definition Until `{Machine} (t : Z) (m : M) : Z :=
  Z.max (- two63) (Z.min (two63 - 1) (t - time_Now m)).

(** What lego offers for a certificate that exists. *)
Class RenewLib `{AcmeLib} := {
  ParsePEMCertificate : string → string + Certificate;           (* or the error *)
  acme_Renew : AcmeClient → string → string → cmd Resource;   (* domain, certificate *)
}.

Section renew.
Context `{AL : AcmeLib} `{RL : !RenewLib}.
Implicit Types (l : Lego).

(** The two results of the Go function: the answer and the error. *)
Definition CheckCert l (file : string) (m : M) : bool * option string :=
  match ParsePEMCertificate file with
  | inl err => (false, Some err)
  | inr cert =>
      let notAfter := days (Until (x_NotAfter cert) m) in
      match net_ParseIP (cert_CertDomain (lego_config l)) with
      | Some _ => (bool_decide (Until (x_NotAfter cert) m ≤ ipRenewBefore)%Z, None)
      | None => if decide (30 < notAfter)%Z then (false, None) else (true, None)
      end
  end.

Definition RenewCert l : cmd unit := λ m,
  let config := lego_config l in
  match net_ParseIP (cert_CertDomain config) with
  | Some _ => CreateCert l m
  | None =>
      match errorf "read cert file error: " (of_res (os_ReadFile (cert_CertFile config) m)) m with
      | (m, Ok file) =>
          match CheckCert l file m with
          | (false, _) => (m, Ok tt)
          | (true, Some err) => (m, Err ("check cert error: " +:+ err))
          | (true, None) =>
              (do res <- acme_Renew (lego_client l) (cert_CertDomain config) file;
               errorf "write certificate error: " (writeCert config res)) m
          end
      | (m, Err e) => (m, Err e)
      | (m, Panic w) => (m, Panic w)
      end
  end.

(** * When a certificate is renewed *)

(** A machine on which what is written can be read. *)
Class FileLaws : Prop := {
  fl_machine :: MachineLaws;
  read_back : ∀ p data perm m m', os_WriteFile p data perm m = (m', None) → os_ReadFile p m' = Ok data;
}.

Lemma checkPath_read p q m m' r :
  MachineLaws → checkPath p m = (m', r) → os_ReadFile q m' = os_ReadFile q m.
Proof.
  intros ML. unfold checkPath, errorf, of_err. destruct (IsExist _ m); [by intros [= <- _]|].
  pose proof (read_after_mkdir (path_Dir p) q m) as Hd.
  destruct (os_MkdirAll _ m) as [m1 [e|]]; by intros [= <- _].
Qed.

Lemma of_err_ok (c : M → M * option string) m m' : of_err c m = (m', Ok tt) ↔ c m = (m', None).
Proof. unfold of_err. destruct (c m) as [m1 [e|]]; naive_solver. Qed.

Lemma cbind_ok {A B} (c : cmd A) (k : A → cmd B) m m' b :
  cbind c k m = (m', Ok b) → ∃ m1 a, c m = (m1, Ok a) ∧ k a m1 = (m', Ok b).
Proof. unfold cbind. destruct (c m) as [m1 [a|e|w]]; [eauto|done..]. Qed.

Lemma errorf_ok {A} what (c : cmd A) m m' a : errorf what c m = (m', Ok a) ↔ c m = (m', Ok a).
Proof. unfold errorf. destruct (c m) as [m1 [b|e|w]]; naive_solver. Qed.

(** What is written is what lego returned. *)
Lemma writeCert_read config res m m' :
  FileLaws → writeCert config res m = (m', Ok tt) →
  parseParams config (cert_CertFile config) ≠ parseParams config (cert_KeyFile config) →
  os_ReadFile (parseParams config (cert_CertFile config)) m' = Ok (res_Certificate res) ∧
  os_ReadFile (parseParams config (cert_KeyFile config)) m' = Ok (res_PrivateKey res).
Proof.
  intros FL Hw Hne. unfold writeCert in Hw.
  apply cbind_ok in Hw as (m1 & [] & _ & Hw). apply cbind_ok in Hw as (m2 & [] & Hc%of_err_ok & Hw).
  apply cbind_ok in Hw as (m3 & [] & Hp%errorf_ok & Hk%of_err_ok).
  split; [|by eapply read_back].
  pose proof (read_after_write (parseParams config (cert_KeyFile config))
    (parseParams config (cert_CertFile config)) (res_PrivateKey res) 420 m3) as Hr.
  rewrite Hk in Hr. simpl in Hr. rewrite Hr by done.
  rewrite (checkPath_read _ _ _ _ _ _ Hp). by eapply read_back.
Qed.

(** Renewing the certificate of a domain, on every branch.  A file that
    cannot be read is an error; a file that is no certificate is taken for one
    that need not be renewed, without an error; a certificate with more than
    thirty whole days left is left alone; for any other one success means that
    lego renewed this file's certificate for the domain, and that the files of
    the configuration hold the new certificate and its key. *)
Theorem RenewCert_exact l m :
  FileLaws →
  let config := lego_config l in
  let cert := parseParams config (cert_CertFile config) in
  let key := parseParams config (cert_KeyFile config) in
  net_ParseIP (cert_CertDomain config) = None → cert ≠ key →
  match os_ReadFile (cert_CertFile config) m with
  | Err e => RenewCert l m = (m, Err ("read cert file error: " +:+ e))
  | Panic w => RenewCert l m = (m, Panic w)
  | Ok file =>
      match ParsePEMCertificate file with
      | inl _ => RenewCert l m = (m, Ok tt)
      | inr x =>
          if decide (30 < days (Until (x_NotAfter x) m))%Z then RenewCert l m = (m, Ok tt)
          else ∀ m', RenewCert l m = (m', Ok tt) →
            ∃ m1 new, acme_Renew (lego_client l) (cert_CertDomain config) file m = (m1, Ok new) ∧
              os_ReadFile cert m' = Ok (res_Certificate new) ∧
              os_ReadFile key m' = Ok (res_PrivateKey new)
      end
  end.
Proof.
  intros FL config cert key Hip Hne. unfold RenewCert, CheckCert, errorf, of_res. fold config. rewrite Hip.
  destruct (os_ReadFile (cert_CertFile config) m) as [file|e|w]; simpl; [|done..].
  destruct (ParsePEMCertificate file) as [err|x]; [done|].
  case_decide as Hd; [done|]. intros m' (m1 & new & Hr & Hw%errorf_ok)%cbind_ok.
  exists m1, new. split; [done|]. by eapply writeCert_read.
Qed.
End renew.

(** * Witness *)
Definition wit_renew : @RenewLib wit_machine wit_crypto wit_acme :=
  @Build_RenewLib wit_machine wit_crypto wit_acme
    (λ s, if decide (s = "") then inl "no PEM data" else inr (mkCertificate s 0 (29 * 24 * Hour) (λ h, true) 3 true false 5 false))
    (λ c d f m, (m, Ok (mkResource ("new " +:+ f) "key"))).

Lemma wit_file_laws : @FileLaws wit_machine.
Proof.
  split; [exact wit_machine_laws|]. simpl. intros p data perm m m' [= <-]. by rewrite lookup_insert_eq.
Qed.

Definition wit_lego : Lego (AL := wit_acme) :=
  @mkLego wit_machine wit_crypto wit_acme tt
    (mkCertConfig "dns" false false "a.example" "/c.pem" "/k.pem" "" "" None).
Definition wit_disk : M (Machine := wit_machine) := {["/c.pem" := "old"]}.

Lemma RenewCert_exact_witness :
  ∀ m', RenewCert (RL := wit_renew) wit_lego wit_disk = (m', Ok tt) →
    os_ReadFile (Machine := wit_machine) "/c.pem" m' = Ok "new old" ∧
    os_ReadFile (Machine := wit_machine) "/k.pem" m' = Ok "key".
Proof.
  intros m' Hr.
  pose proof (RenewCert_exact (RL := wit_renew) wit_lego wit_disk wit_file_laws eq_refl) as H.
  specialize (H ltac:(vm_compute; discriminate)).
  change (os_ReadFile (cert_CertFile (lego_config wit_lego)) wit_disk) with (Ok (E := string) "old") in H.
  cbv iota beta in H.
  change (ParsePEMCertificate "old") with
    (inr (A := string) (mkCertificate "old" 0 (29 * 24 * Hour) (λ h, true) 3 true false 5 false)) in H.
  cbv iota beta in H. destruct (decide _) as [Hd|_] in H; [vm_compute in Hd; discriminate Hd|].
  destruct (H m' Hr) as (m1 & new & [= _ <-] & Hc & Hk). by split.
Defined.
