(* ===== verification/Controller.v ===== *)
(** src/node/controller.go, task.go, node.go, and the parts of user.go and
    cert.go that need the controller: one controller per node keeps a core and
    a limiter in step with the panel.

    A controller runs over a [World]: the core ([CoreOps]), the registry of
    limiters, the connection to the panel ([PanelOps], implemented by the
    client of PanelClient.v), the machine.  A method is a command on the pair;
    an error that the code tests is a value, a panic ends the process.  Log
    calls are left out, but for the Panic level, which panics. *)

From S2P Require Import Prelude GoStd Lower Conf Panel PanelNode PanelClient NodeOptions Counter Traffic.
From S2P Require Import Limiter UserDiff Task Core Lego Cert.
From stdpp Require Import prelude gmap strings.
From Stdlib Require Import Ascii ZArith Lia.

Open Scope string_scope.

(** ** What a controller asks of the panel.  [pn_New] makes the client of a node
    on the network it is given. *)
Class PanelOps (P : Type) := {
  pn_New : ApiConfig → P → res string P;
  pn_APIHost : P → string;
  pn_NodeId : P → Z;
  pn_GetNodeInfo : P → P * res string (option NodeInfo);
  pn_GetUserList : P → P * res string (option (list UserInfo));
  pn_GetUserAlive : P → P * res string (option (gmap Z Z));
  pn_ReportUserTraffic : list UserTraffic → P → P * option string;
  pn_ReportNodeOnlineUsers : gmap Z (list string) → P → P * option string;
  pn_ReportCertStatus : CertReport → P → P * option string;
}.

#[global] Instance Client_ops `{HttpLib} `{NodeDecoder} `{RangeOrder} : PanelOps (Client * HWorld) := {|
  pn_New := λ cfg cw, c ← New cfg; Ok (c, cw.2);
  pn_APIHost := λ cw, cl_APIHost cw.1;
  pn_NodeId := λ cw, cl_NodeId cw.1;
  pn_GetNodeInfo := λ cw, let '(c, w, r) := GetNodeInfo cw in (c, w, r);
  pn_GetUserList := λ cw, let '(c, w, r) := GetUserList cw in (c, w, r);
  pn_GetUserAlive := λ cw, let '(c, w, r) := GetUserAlive cw in (c, w, r);
  pn_ReportUserTraffic := λ l cw, let '(c, w, r) := ReportUserTraffic l cw in (c, w, r);
  pn_ReportNodeOnlineUsers := λ d cw, let '(c, w, r) := ReportNodeOnlineUsers d cw in (c, w, r);
  pn_ReportCertStatus := λ d cw, let '(c, w, r) := ReportCertStatus d cw in (c, w, r);
|}.

(** A task with its interval. *)
Record Periodic := mkPeriodic { per_Interval : Z; per_Task : Task }.

Record Controller := mkController {
  ct_tag : string;
  ct_limiter : option nat;
  ct_traffic : option (gmap string Z);
  ct_userList : option (list UserInfo);
  ct_aliveMap : option (gmap Z Z);
  ct_info : option NodeInfo;
  ct_activeOptions : option Options;
  ct_nodeInfoMonitorPeriodic : option Periodic;
  ct_userReportPeriodic : option Periodic;
  ct_renewCertPeriodic : option Periodic;
  ct_dynamicSpeedLimitPeriodic : option Periodic;
  ct_onlineIpReportPeriodic : option Periodic;
  ct_Options : Options;
}.

(** [NewController]; the core and the client live in the world. *)
Definition NewController (config : Options) : Controller :=
  mkController "" None None None None None None None None None None None config.

(** Assignments to one or several fields. *)
Definition set_tag x c := mkController x (ct_limiter c) (ct_traffic c) (ct_userList c) (ct_aliveMap c)
  (ct_info c) (ct_activeOptions c) (ct_nodeInfoMonitorPeriodic c) (ct_userReportPeriodic c)
  (ct_renewCertPeriodic c) (ct_dynamicSpeedLimitPeriodic c) (ct_onlineIpReportPeriodic c) (ct_Options c).
Definition set_limiter x c := mkController (ct_tag c) x (ct_traffic c) (ct_userList c) (ct_aliveMap c)
  (ct_info c) (ct_activeOptions c) (ct_nodeInfoMonitorPeriodic c) (ct_userReportPeriodic c)
  (ct_renewCertPeriodic c) (ct_dynamicSpeedLimitPeriodic c) (ct_onlineIpReportPeriodic c) (ct_Options c).
Definition set_traffic x c := mkController (ct_tag c) (ct_limiter c) x (ct_userList c) (ct_aliveMap c)
  (ct_info c) (ct_activeOptions c) (ct_nodeInfoMonitorPeriodic c) (ct_userReportPeriodic c)
  (ct_renewCertPeriodic c) (ct_dynamicSpeedLimitPeriodic c) (ct_onlineIpReportPeriodic c) (ct_Options c).
Definition set_userList x c := mkController (ct_tag c) (ct_limiter c) (ct_traffic c) x (ct_aliveMap c)
  (ct_info c) (ct_activeOptions c) (ct_nodeInfoMonitorPeriodic c) (ct_userReportPeriodic c)
  (ct_renewCertPeriodic c) (ct_dynamicSpeedLimitPeriodic c) (ct_onlineIpReportPeriodic c) (ct_Options c).
Definition set_aliveMap x c := mkController (ct_tag c) (ct_limiter c) (ct_traffic c) (ct_userList c) x
  (ct_info c) (ct_activeOptions c) (ct_nodeInfoMonitorPeriodic c) (ct_userReportPeriodic c)
  (ct_renewCertPeriodic c) (ct_dynamicSpeedLimitPeriodic c) (ct_onlineIpReportPeriodic c) (ct_Options c).
Definition set_node x y c := mkController (ct_tag c) (ct_limiter c) (ct_traffic c) (ct_userList c)
  (ct_aliveMap c) x y (ct_nodeInfoMonitorPeriodic c) (ct_userReportPeriodic c)
  (ct_renewCertPeriodic c) (ct_dynamicSpeedLimitPeriodic c) (ct_onlineIpReportPeriodic c) (ct_Options c).
Definition set_periodics x y z d c := mkController (ct_tag c) (ct_limiter c) (ct_traffic c)
  (ct_userList c) (ct_aliveMap c) (ct_info c) (ct_activeOptions c) x y z d
  (ct_onlineIpReportPeriodic c) (ct_Options c).

Section controller.
Context {C P : Type} `{CO : CoreOps C} `{PO : PanelOps P}.
Context `{RL : RatelimitLib} `{RE : RegexpLib} `{RO : RangeOrder} `{AL : AcmeLib} `{MJ : MetaJson}.

Record World := mkWorld {
  w_core : C;
  w_reg : registry;
  w_panel : P;
  w_machine : M;
}.

(** ** Commands *)
Definition state : Type := Controller * World.
Definition ctl (A : Type) : Type := state → state * res Empty_set A.

Definition ret {A} (a : A) : ctl A := λ s, (s, Ok a).
Definition bind {A B} (c : ctl A) (k : A → ctl B) : ctl B := λ s,
  match c s with
  | (s, Ok a) => k a s
  | (s, Err e) => match e with end
  | (s, Panic w) => (s, Panic w)
  end.
Definition panic {A} (why : string) : ctl A := λ s, (s, Panic why).
Definition get : ctl Controller := λ s, (s, Ok s.1).
Definition modify (f : Controller → Controller) : ctl unit := λ '(c, w), (f c, w, Ok tt).

(** The result of a call that may fail is a value for the caller to test. *)
Definition caught {A} (r : res string A) : res Empty_set (string + A) :=
  match r with Ok a => Ok (inr a) | Err e => Ok (inl e) | Panic w => Panic w end.

Definition on_core {A} (f : C → C * res string A) : ctl (string + A) := λ '(c, w),
  let '(core, r) := f (w_core w) in
  (c, mkWorld core (w_reg w) (w_panel w) (w_machine w), caught r).

Definition on_panel {A} (f : P → P * res string A) : ctl (string + A) := λ '(c, w),
  let '(p, r) := f (w_panel w) in
  (c, mkWorld (w_core w) (w_reg w) p (w_machine w), caught r).

Definition report_panel (f : P → P * option string) : ctl (option string) := λ '(c, w),
  let '(p, r) := f (w_panel w) in
  (c, mkWorld (w_core w) (w_reg w) p (w_machine w), Ok r).

Definition on_registry (f : registry → registry) : ctl unit := λ '(c, w),
  (c, mkWorld (w_core w) (f (w_reg w)) (w_panel w) (w_machine w), Ok tt).

(** A call on the limiter the controller points to. *)
Definition on_limiter {A} (f : Limiter → Limiter * res Empty_set A) : ctl A := λ '(c, w),
  match ct_limiter c ≫= λ p, pair p <$> reg_heap (w_reg w) !! p with
  | None => (c, w, Panic "nil pointer dereference")
  | Some (p, l) =>
      let '(l, r) := f l in
      (c, mkWorld (w_core w) (mkRegistry (<[p := l]> (reg_heap (w_reg w))) (reg_map (w_reg w)))
            (w_panel w) (w_machine w), r)
  end.
End controller.

Notation "'let!' x := c 'in' k" := (bind c (λ x, k))
  (at level 200, x pattern, c at level 100, k at level 200, right associativity).

Section handlers.
Context {C P : Type} `{CO : CoreOps C} `{PO : PanelOps P}.
Context `{RL : RatelimitLib} `{RE : RegexpLib} `{RO : RangeOrder} `{AL : AcmeLib} `{MJ : MetaJson}.
Notation ctl := (ctl (C := C) (P := P)).
Notation World := (World (C := C) (P := P)).

(** ** Calls on the core *)

(** The node and the options are passed as pointers: what the core changes is
    seen through [c.info] and [c.activeOptions], which point to the same. *)
Definition call_AddNode (node : NodeInfo) (opts : Options) : ctl (string + NodeInfo) := λ '(c, w),
  let '(core, (node, opts), r) := core_AddNode (ct_tag c) node opts (w_core w) in
  (set_node (Some node) (Some opts) c, mkWorld core (w_reg w) (w_panel w) (w_machine w),
   caught (r ≫= λ _, Ok node)).

Definition call_DelNode : ctl (string + unit) :=
  let! c := get in on_core (core_DelNode (ct_tag c)).

Definition call_AddUsers (users : list UserInfo) (node : NodeInfo) : ctl (string + Z) :=
  let! c := get in on_core (core_AddUsers (mkAddUsersParams (ct_tag c) users node)).

Definition call_DelUsers (users : list UserInfo) (node : NodeInfo) : ctl (string + unit) :=
  let! c := get in on_core (core_DelUsers users (ct_tag c) node).

(** ** Calls on the limiter *)
Definition call_AddLimiter (alive : option (gmap Z Z)) : ctl nat := λ '(c, w),
  let '(reg, p) := AddLimiter (w_reg w) (ct_tag c) (opt_LimitConfig (ct_Options c))
                     (default [] (ct_userList c)) (default ∅ alive) in
  (c, mkWorld (w_core w) reg (w_panel w) (w_machine w), Ok p).

Definition call_UpdateRule (rule : Rules) : ctl unit :=
  on_limiter (λ l, match UpdateRule l rule with
                   | Ok l' => (l', Ok tt) | Err e => (l, Ok tt) | Panic w => (l, Panic w) end).

(** [if newA != nil { c.limiter.AliveList = newA }] *)
Definition call_SetAlive (alive : option (gmap Z Z)) : ctl unit :=
  match alive with
  | None => ret tt
  | Some m => on_limiter (λ l, (set_AliveList m l, Ok tt))
  end.

Definition call_UpdateUser (added deleted : list UserInfo) : ctl unit :=
  let! c := get in on_limiter (λ l, (UpdateUser (ct_tag c) added deleted l, Ok tt)).

(** ** controller.go *)
Definition buildNodeTag (c : Controller) (host : string) (node : NodeInfo) : string :=
  "[" +:+ host +:+ "]-" +:+ ni_Type node +:+ ":" +:+ Itoa (ni_Id node).

(** The tag of a node: its configured name, or one built from the node. *)
Definition call_buildNodeTag (node : NodeInfo) : ctl unit := λ '(c, w),
  (set_tag (buildNodeTag c (pn_APIHost (w_panel w)) node) c, w, Ok tt).

(** ** cert.go *)
Definition currentCertConfig (c : Controller) : option CertConfig :=
  match ct_activeOptions c ≫= opt_CertConfig with
  | Some cert => cloneCertConfig (Some cert)
  | None => cloneCertConfig (opt_CertConfig (ct_Options c))
  end.

Definition metadata_path (c : Controller) (p : P) : string :=
  certMetadataPath (match ct_info c with Some n => ni_Id n | None => pn_NodeId p end).

Definition reportCertStatus (meta : option certMetadata) (issueErr : option string) : ctl unit :=
  match meta with
  | None => ret tt
  | Some meta =>
      let! _ := report_panel (pn_ReportCertStatus (mkCertReport
        (match issueErr with Some _ => "error" | None => "ok" end) (meta_Target meta) (meta_Mode meta)
        (meta_Source meta) (meta_SHA256 meta) (meta_NotAfter meta) (default "" issueErr))) in
      ret tt
  end.

Definition reloadNodeAfterCertChange : ctl unit :=
  let! c := get in
  match ct_info c, ct_activeOptions c with
  | Some info, Some opts =>
      let! r := call_DelNode in
      match r with
      | inl _ => ret tt
      | inr _ =>
          let! c := get in
          let! r := call_AddNode (default info (ct_info c)) (default opts (ct_activeOptions c)) in
          match r with
          | inl _ => ret tt
          | inr info =>
              let! c := get in
              let! _ := call_AddUsers (default [] (ct_userList c)) (default info (ct_info c)) in ret tt
          end
      end
  | _, _ => ret tt
  end.

(** The request itself runs on the machine. *)
Definition call_requestCert : ctl (option certMetadata * option certMetadata * option string) := λ '(c, w),
  let path := metadata_path c (w_panel w) in
  let previous := readCertMetadata path (w_machine w) in
  let '(m, r) := requestCert path (currentCertConfig c) (w_machine w) in
  (c, mkWorld (w_core w) (w_reg w) (w_panel w) m,
   match r with Ok (meta, e) => Ok (previous, meta, e) | Err e => Err e | Panic x => Panic x end).

Definition requestCertAndReport (reloadOnChange : bool) : ctl (option string) :=
  let! (previous, meta, err) := call_requestCert in
  let! _ := reportCertStatus meta err in
  let! _ := (if reloadOnChange && bool_decide (err = None) && certMetadataChanged previous meta
             then reloadNodeAfterCertChange else ret tt) in
  ret err.

Definition renewCertTask : ctl unit := let! _ := requestCertAndReport true in ret tt.

(** [if node.Security == panel.Tls { ... requestCertAndReport(false) ... }] *)
Definition request_if_tls (node : NodeInfo) : ctl (option string) :=
  if decide (ni_Security node = Tls) then requestCertAndReport false else ret None.

(** ** task.go *)
Definition new_periodic (interval : Z) : Periodic := mkPeriodic interval task_init.
Definition start_periodic (first : bool) (p : Periodic) : Periodic :=
  mkPeriodic (per_Interval p) (Task_Start first (per_Task p)).

(** Which certificate modes get no renewal task. *)
Definition renews (c : Controller) : bool :=
  let certMode := match ct_activeOptions c ≫= opt_CertConfig with
                  | Some cert => ToLower (TrimSpace (cert_CertMode cert)) | None => "" end in
  negb (bool_decide (certMode ∈ ["none"; ""; "file"; "self"])).

Definition startTasks (node : NodeInfo) : ctl unit :=
  let! c := get in
  let! _ := modify (set_periodics
    (Some (start_periodic false (new_periodic (ni_PullInterval node))))
    (Some (start_periodic false (new_periodic (ni_PushInterval node))))
    (if decide (ni_Security node = Tls) then
       if renews c then Some (start_periodic true (new_periodic (24 * Hour)))
       else ct_renewCertPeriodic c
     else ct_renewCertPeriodic c)
    (ct_dynamicSpeedLimitPeriodic c)) in
  let lc := opt_LimitConfig (ct_Options c) in
  if lim_EnableDynamicSpeedLimit lc then
    let! _ := modify (set_traffic (Some ∅)) in
    match lim_DynamicSpeedLimitConfig lc with
    | None => panic "nil pointer dereference"
    | Some d =>
        modify (λ c, set_periodics (ct_nodeInfoMonitorPeriodic c) (ct_userReportPeriodic c)
          (ct_renewCertPeriodic c) (Some (new_periodic (wrap64 (dyn_Periodic d * Second)))) c)
    end
  else ret tt.

(** *** nodeInfoMonitor *)

(** [if c.x.Interval != v && v != 0 { c.x.Interval = set; Close; Start(false) }] *)
Definition reinterval (v set : Z) (p : option Periodic) : option Periodic :=
  match p with
  | None => None
  | Some p =>
      if negb (per_Interval p =? v)%Z && negb (v =? 0)%Z
      then Some (mkPeriodic set (Task_Start false (Task_Close (per_Task p))))
      else Some p
  end.

(** The new interval of the report task is the pull interval. *)
Definition update_intervals (node : NodeInfo) (c : Controller) : Controller :=
  set_periodics (reinterval (ni_PullInterval node) (ni_PullInterval node) (ct_nodeInfoMonitorPeriodic c))
    (reinterval (ni_PushInterval node) (ni_PullInterval node) (ct_userReportPeriodic c))
    (ct_renewCertPeriodic c) (ct_dynamicSpeedLimitPeriodic c) c.

(** The limiter of a node without a configured name is made anew. *)
Definition renew_limiter (newN : NodeInfo) (newA : option (gmap Z Z)) : ctl unit :=
  let! c := get in
  if decide (opt_Name (ct_Options c) = "") then
    let! _ := call_buildNodeTag newN in
    let! c := get in
    let! _ := on_registry (λ reg, DeleteLimiter reg (ct_tag c)) in
    let! l := call_AddLimiter newA in
    modify (set_limiter (Some l))
  else ret tt.

(** Lines 105-175: the node is down, and is set up again. *)
Definition set_up_node (newN : NodeInfo) (newA : option (gmap Z Z)) (activeOptions : Options) : ctl unit :=
  let! _ := renew_limiter newN newA in
  let! _ := call_SetAlive newA in
  let! _ := call_UpdateRule (ni_Rules newN) in
  let! e := request_if_tls newN in
  match e with
  | Some _ => ret tt
  | None =>
      let! r := call_AddNode newN activeOptions in
      match r with
      | inl _ => panic "Add node failed"
      | inr newN =>
          let! c := get in
          let! r := call_AddUsers (default [] (ct_userList c)) newN in
          match r with
          | inl _ => ret tt
          | inr _ => modify (update_intervals newN)
          end
      end
  end.

(** Lines 85-176: the node changed. *)
Definition reload_node (newN : NodeInfo) (newU : option (list UserInfo)) (newA : option (gmap Z Z))
    : ctl unit :=
  let! c := get in
  let activeOptions := optionsForNode (ct_Options c) (Some newN) in
  let! _ := modify (set_node (Some newN) (Some activeOptions)) in
  let! _ := (match newU with Some u => modify (set_userList (Some u)) | None => ret tt end) in
  let! _ := modify (set_traffic (Some ∅)) in
  let! r := call_DelNode in
  match r with
  | inl _ => panic "Delete node failed"
  | inr _ => set_up_node newN newA activeOptions
  end.

(** [c.info] as an argument; it is set by [Start], before the monitor runs. *)
Definition the_info : ctl NodeInfo :=
  let! c := get in
  match ct_info c with Some n => ret n | None => panic "nil pointer dereference" end.

Definition delete_users (deleted : list UserInfo) : ctl (string + unit) :=
  match deleted with
  | [] => ret (inr tt)
  | _ => let! info := the_info in call_DelUsers deleted info
  end.

Definition add_users (added : list UserInfo) : ctl (string + Z) :=
  match added with
  | [] => ret (inr 0%Z)
  | _ => let! info := the_info in call_AddUsers added info
  end.

(** The limiter is told, and the traffic of deleted users forgotten. *)
Definition tell_limiter (deleted added : list UserInfo) : ctl unit :=
  match added, deleted with
  | [], [] => ret tt
  | _, _ =>
      let! _ := call_UpdateUser added deleted in
      let! c := get in
      if lim_EnableDynamicSpeedLimit (opt_LimitConfig (ct_Options c)) then
        modify (λ c, set_traffic
          ((λ m, foldl (λ m u, delete (user_Uuid u) m) m deleted) <$> ct_traffic c) c)
      else ret tt
  end.

(** Lines 186-233: apply the difference of the lists. *)
Definition apply_user_diff (newU : list UserInfo) (deleted added : list UserInfo) : ctl unit :=
  let! r := delete_users deleted in
  match r with
  | inl _ => ret tt
  | inr _ =>
      let! r := add_users added in
      match r with
      | inl _ => ret tt
      | inr _ =>
          let! _ := tell_limiter deleted added in
          modify (set_userList (Some newU))
      end
  end.

(** Lines 177-235: the node did not change. *)
Definition update_users (newU : option (list UserInfo)) (newA : option (gmap Z Z)) : ctl unit :=
  let! _ := call_SetAlive newA in
  match newU with
  | None | Some [] => ret tt
  | Some newU =>
      let! c := get in
      let '(deleted, added) := compareUserList (default [] (ct_userList c)) newU in
      apply_user_diff newU deleted added
  end.

(** The error is always nil. *)
Definition nodeInfoMonitor : ctl unit :=
  let! rn := on_panel pn_GetNodeInfo in
  match rn with
  | inl _ => ret tt
  | inr newN =>
      let! ru := on_panel pn_GetUserList in
      match ru with
      | inl _ => ret tt
      | inr newU =>
          let! ra := on_panel pn_GetUserAlive in
          match ra with
          | inl _ => ret tt
          | inr newA =>
              match newN with
              | Some newN => reload_node newN newU newA
              | None => update_users newU newA
              end
          end
      end
  end.

(** *** SpeedChecker *)
Definition speed_check (now : Z) (d : DynamicSpeedLimitConfig) (e : string * Z) : ctl unit :=
  if (dyn_Traffic d <=? e.2)%Z then
    let! c := get in
    let! _ := on_limiter (λ l, let '(l, _) := UpdateDynamicSpeedLimit (ct_tag c) e.1 (dyn_SpeedLimit d)
                 (now + wrap64 (dyn_ExpireTime d * Minute)) l in (l, Ok tt)) in
    modify (λ c, set_traffic (delete e.1 <$> ct_traffic c) c)
  else ret tt.

Definition SpeedChecker (now : Z) : ctl unit :=
  let! c := get in
  match default [] (range <$> ct_traffic c) with
  | [] => ret tt
  | es =>
      match lim_DynamicSpeedLimitConfig (opt_LimitConfig (ct_Options c)) with
      | None => panic "nil pointer dereference"
      | Some d => foldl (λ k e, let! _ := k in speed_check now d e) (ret tt) es
      end
  end.

(** ** user.go, reportUserTrafficTask *)

(** The uids below the threshold, from the reported traffic. *)
Definition nocount_uids (minTraffic : Z) (userTraffic : list UserTraffic) : gset Z :=
  list_to_set (traffic_UID <$> filter (λ t,
    wrap64 (traffic_Upload t + traffic_Download t) < wrap64 (minTraffic * 1000))%Z userTraffic).

Definition counted_online (nocount : gset Z) (onlineDevice : list OnlineUser) : list OnlineUser :=
  filter (λ o, online_UID o ∉ nocount) onlineDevice.

Definition online_data (result : list OnlineUser) : gmap Z (list string) :=
  foldl (λ (data : gmap Z (list string)) o,
    <[online_UID o := (default [] (data !! online_UID o) ++ [online_IP o])%list]> data) ∅ result.

Definition reportUserTrafficTask : ctl unit :=
  let! c := get in
  let! r := on_core (core_GetUserTrafficSlice (ct_tag c) true) in
  let userTraffic := match r with inr l => l | inl _ => [] end in
  let! _ := (match userTraffic with
             | [] => ret None
             | l => report_panel (pn_ReportUserTraffic l)
             end) in
  let! onlineDevice := on_limiter (λ l, let '(l, o) := GetOnlineDevice l in (l, Ok o)) in
  match onlineDevice with
  | [] => ret tt
  | _ =>
      let nocount := nocount_uids (opt_DeviceOnlineMinTraffic (ct_Options c)) userTraffic in
      let! _ := report_panel (pn_ReportNodeOnlineUsers (online_data (counted_online nocount onlineDevice))) in
      ret tt
  end.

(** ** controller.go, Start and Close *)

(** [None] is a nil error. *)
Definition Start : ctl (option string) :=
  let! rn := on_panel pn_GetNodeInfo in
  match rn with
  | inl e => ret (Some ("get node info error: " +:+ e))
  | inr node =>
      let! ru := on_panel pn_GetUserList in
      let! _ := modify (set_userList (match ru with inr u => u | inl _ => None end)) in
      match ru with
      | inl e => ret (Some ("get user list error: " +:+ e))
      | inr (None | Some []) => ret (Some "add users error: not have any user")
      | inr (Some users) =>
          let! ra := on_panel pn_GetUserAlive in
          let! _ := modify (set_aliveMap (match ra with inr a => a | inl _ => None end)) in
          match ra with
          | inl e => ret (Some ("failed to get user alive list: " +:+ e))
          | inr alive =>
              match node with
              | None => panic "nil pointer dereference"
              | Some node =>
                  let! c := get in
                  let! _ := (if decide (opt_Name (ct_Options c) = "") then call_buildNodeTag node
                             else modify (set_tag (opt_Name (ct_Options c)))) in
                  let activeOptions := optionsForNode (ct_Options c) (Some node) in
                  let! _ := modify (set_node (Some node) (Some activeOptions)) in
                  let! l := call_AddLimiter alive in
                  let! _ := modify (set_limiter (Some l)) in
                  let! _ := call_UpdateRule (ni_Rules node) in
                  let! e := request_if_tls node in
                  match e with
                  | Some e => ret (Some ("request cert error: " +:+ e))
                  | None =>
                      let! r := call_AddNode node activeOptions in
                      match r with
                      | inl e => ret (Some ("add new node error: " +:+ e))
                      | inr node =>
                          let! r := call_AddUsers users node in
                          match r with
                          | inl e => ret (Some ("add users error: " +:+ e))
                          | inr _ => let! _ := startTasks node in ret None
                          end
                      end
                  end
              end
          end
      end
  end.

Definition close_periodic (p : option Periodic) : option Periodic :=
  (λ p, mkPeriodic (per_Interval p) (Task_Close (per_Task p))) <$> p.

Definition Close : ctl (option string) :=
  let! c := get in
  let! _ := on_registry (λ reg, DeleteLimiter reg (ct_tag c)) in
  let! _ := modify (λ c, mkController (ct_tag c) (ct_limiter c) (ct_traffic c) (ct_userList c)
    (ct_aliveMap c) (ct_info c) (ct_activeOptions c) (close_periodic (ct_nodeInfoMonitorPeriodic c))
    (close_periodic (ct_userReportPeriodic c)) (close_periodic (ct_renewCertPeriodic c))
    (close_periodic (ct_dynamicSpeedLimitPeriodic c)) (close_periodic (ct_onlineIpReportPeriodic c))
    (ct_Options c)) in
  let! r := call_DelNode in
  ret (match r with inl e => Some ("del node error: " +:+ e) | inr _ => None end).

(** ** node.go: the controllers of all nodes, nil until they are made *)
Definition Node : Type := list (option (Controller * P)).

Definition with_panel (p : P) (w : World) : World := mkWorld (w_core w) (w_reg w) p (w_machine w).

(** The loop of [Start] from the node [i] on; the clients share the network. *)
Fixpoint start_nodes (nodes : list NodeConfig) (i : nat) (n : Node) (w : World)
    : Node * World * res string unit :=
  match nodes with
  | [] => (n, w, Ok tt)
  | cfg :: nodes =>
      match pn_New (nc_ApiConfig cfg) (w_panel w) with
      | Err e => (n, w, Err e)
      | Panic x => (n, w, Panic x)
      | Ok p =>
          match Start (NewController (nc_Options cfg), with_panel p w) with
          | (c, w, r) =>
              let n := <[i := Some (c, w_panel w)]> n in
              match r with
              | Ok None => start_nodes nodes (S i) n w
              | Ok (Some e) => (n, w, Err ("start node controller error: " +:+ e))
              | Err e => match e with end
              | Panic x => (n, w, Panic x)
              end
          end
      end
  end.

Definition Node_Start (nodes : list NodeConfig) (w : World) : Node * World * res string unit :=
  start_nodes nodes 0 (replicate (length nodes) None) w.

(** [Close] panics on the first error, and on a controller that was not made. *)
Fixpoint Node_Close (n : Node) (w : World) : World * res Empty_set unit :=
  match n with
  | [] => (w, Ok tt)
  | None :: _ => (w, Panic "nil pointer dereference")
  | Some (c, p) :: n =>
      match Close (c, with_panel p w) with
      | (_, w, Ok None) => Node_Close n w
      | (_, w, Ok (Some e)) => (w, Panic e)
      | (_, w, Err e) => match e with end
      | (_, w, Panic x) => (w, Panic x)
      end
  end.
End handlers.

(** * Lemmas *)
Section lemmas.
Context {C P : Type} `{CO : CoreOps C} `{NC : !NodeCore C} `{PO : PanelOps P}.
Context `{RL : RatelimitLib} `{RE : RegexpLib} `{RO : RangeOrder} `{AL : AcmeLib} `{MJ : MetaJson}.
Notation ctl := (ctl (C := C) (P := P)).
Notation World := (World (C := C) (P := P)).
Notation state := (state (C := C) (P := P)).
Implicit Types (c : Controller) (w : World) (s : state).

Lemma bind_Ok {A B} (m : ctl A) (k : A → ctl B) s s' a : m s = (s', Ok a) → bind m k s = k a s'.
Proof. unfold bind. by intros ->. Qed.

(** Two commands run in sequence, and then a third. *)
Lemma bind_then (m n : ctl unit) (k : unit → ctl unit) s s' :
  (let! _ := m in n) s = (s', Ok tt) → (let! _ := m in let! x := n in k x) s = k tt s'.
Proof.
  unfold bind. destruct (m s) as [s1 [[]|[]|]]; [|done].
  destruct (n s1) as [s2 [[]|[]|]]; [|done]. by intros [= ->].
Qed.

(** The limiter a controller points to. *)
Definition the_limiter s : option Limiter :=
  ct_limiter s.1 ≫= λ p, reg_heap (w_reg s.2) !! p.

Definition with_heap (p : nat) (l : Limiter) w : World :=
  mkWorld (w_core w) (mkRegistry (<[p := l]> (reg_heap (w_reg w))) (reg_map (w_reg w)))
    (w_panel w) (w_machine w).
Definition with_core (core : C) w : World := mkWorld core (w_reg w) (w_panel w) (w_machine w).

Lemma on_limiter_run {A} (f : Limiter → Limiter * res Empty_set A) c w p l :
  ct_limiter c = Some p → reg_heap (w_reg w) !! p = Some l →
  on_limiter f (c, w) = (c, with_heap p (f l).1 w, (f l).2).
Proof. intros Hp Hl. unfold on_limiter. rewrite Hp. simpl. rewrite Hl. simpl. by destruct (f l). Qed.

Lemma on_core_run {A} (f : C → C * res string A) c w core r :
  f (w_core w) = (core, r) → on_core f (c, w) = (c, with_core core w, caught r).
Proof. unfold on_core. by intros ->. Qed.

(** ** The core and the limiter serve the same users *)
Record in_step (n : nat) (us : list UserInfo) s : Prop := {
  is_list : ct_userList s.1 = Some us;
  is_length : uuid_length n us;
  is_nodup : NoDup (uuids us);
  is_served : served (w_core s.2) (ct_tag s.1) = list_to_set (uuids us);
  is_limiter : ∃ l, the_limiter s = Some l ∧
    lim_UserLimitInfo l = limits_of (ct_tag s.1) us ∧ UUIDtoUID l = uids_of us;
}.

(** What a new list of users leaves behind when the core refuses it: the
    controller as it was, with the old list, and the limiter with the tables of
    the old users. *)
Definition kept_old (us : list UserInfo) s s' : Prop :=
  ct_userList s'.1 = Some us ∧ s'.1 = s.1 ∧
  lim_UserLimitInfo <$> the_limiter s' = lim_UserLimitInfo <$> the_limiter s ∧
  UUIDtoUID <$> the_limiter s' = UUIDtoUID <$> the_limiter s.

Lemma uuids_elem u l : u ∈ uuids l ↔ ∃ x, x ∈ l ∧ user_Uuid x = u.
Proof. unfold uuids. rewrite list_elem_of_fmap. naive_solver. Qed.

(** The uuids after deleting and adding the difference of two lists. *)
Lemma diff_uuids old new (deleted added : list UserInfo) :
  NoDup (uuids old) →
  (∀ u, u ∈ deleted ↔ u ∈ old ∧ ident u ∉ ident <$> new) →
  added = filter (λ u, ident u ∉ ident <$> old) new →
  (list_to_set (uuids old) : gset string) ∖ list_to_set (uuids deleted) ∪ list_to_set (uuids added)
  = list_to_set (uuids new).
Proof.
  intros Hnd HD ->. apply set_eq. intros u.
  rewrite elem_of_union, elem_of_difference, !elem_of_list_to_set, !uuids_elem. split.
  - intros [[(x & Hx & <-) Hni]|(x & [_ Hx]%list_elem_of_filter & <-)]; [|by exists x].
    destruct (decide (ident x ∈ ident <$> new)) as [(v & Hv & Hin)%list_elem_of_fmap|Hi].
    + exists v. split; [done|]. unfold ident in Hv. congruence.
    + destruct Hni. exists x. by rewrite HD.
  - intros (x & Hx & <-). destruct (decide (ident x ∈ ident <$> old)) as [Hi|Hi].
    + left. apply list_elem_of_fmap in Hi as (y & Hy & Hin).
      assert (user_Uuid y = user_Uuid x) as Hu by (unfold ident in Hy; congruence). split; [by eauto|].
      intros (z & [Hz Hzn]%HD & Hzu). apply Hzn.
      rewrite (NoDup_fmap_inj user_Uuid old z y Hnd Hz Hin) by congruence. rewrite <- Hy.
      by apply list_elem_of_fmap_2.
    + right. exists x. split; [|done]. by apply list_elem_of_filter.
Qed.

(** The core after the removal, and then after the addition, of a difference;
    the core is not called for an empty list. *)
Definition core_deleted (tag : string) (info : NodeInfo) (deleted : list UserInfo) (core : C)
    : C * res string unit :=
  match deleted with [] => (core, Ok tt) | _ => core_DelUsers deleted tag info core end.
Definition core_added (tag : string) (info : NodeInfo) (added : list UserInfo) (core : C)
    : C * res string Z :=
  match added with [] => (core, Ok 0%Z) | _ => core_AddUsers (mkAddUsersParams tag added info) core end.

Lemma delete_users_run deleted c w info core r :
  ct_info c = Some info → core_deleted (ct_tag c) info deleted (w_core w) = (core, r) →
  delete_users deleted (c, w) = (c, with_core core w, caught r) ∧
  (r = Ok tt → served core (ct_tag c) = served (w_core w) (ct_tag c) ∖ list_to_set (uuids deleted)).
Proof.
  intros Hi. destruct deleted as [|u deleted]; cbn [core_deleted].
  { intros [= <- <-]. split; [by destruct w|]. intros _. simpl. set_solver. }
  intros Hd. unfold delete_users, the_info, call_DelUsers. unfold bind at 1 2, get. simpl. rewrite Hi.
  simpl. unfold bind. rewrite (on_core_run _ _ _ _ _ Hd). split; [done|]. intros ->. by apply DelUsers_served in Hd.
Qed.

Lemma add_users_run added c w info core r :
  ct_info c = Some info → core_added (ct_tag c) info added (w_core w) = (core, r) →
  add_users added (c, w) = (c, with_core core w, caught r) ∧
  (∀ k, r = Ok k →
     served core (ct_tag c) = served (w_core w) (ct_tag c) ∪ list_to_set (uuids added)).
Proof.
  intros Hi. destruct added as [|u added]; cbn [core_added].
  { intros [= <- <-]. split; [by destruct w|]. intros k _. simpl. set_solver. }
  intros Ha. unfold add_users, the_info, call_AddUsers. unfold bind at 1 2, get. simpl. rewrite Hi.
  simpl. unfold bind. rewrite (on_core_run _ _ _ _ _ Ha). split; [done|]. intros k ->. by apply AddUsers_served in Ha as [Ha _].
Qed.

(** Limiters are changed in place: the registry names the same ones. *)
Definition same_registry c w c' w' : Prop :=
  reg_map (w_reg w') = reg_map (w_reg w) ∧ ct_limiter c' = ct_limiter c.

Lemma tell_limiter_run deleted added c w p l :
  ct_limiter c = Some p → reg_heap (w_reg w) !! p = Some l →
  ∃ c' w', tell_limiter deleted added (c, w) = (c', w', Ok tt) ∧
    ct_tag c' = ct_tag c ∧ w_core w' = w_core w ∧ same_registry c w c' w' ∧
    the_limiter (c', w') = Some (match added, deleted with
                                 | [], [] => l | _, _ => UpdateUser (ct_tag c) added deleted l end).
Proof.
  intros Hp Hl. unfold tell_limiter.
  set (go := bind _ _).
  assert (∃ c' w', go (c, w) = (c', w', Ok tt) ∧ ct_tag c' = ct_tag c ∧ w_core w' = w_core w ∧
    same_registry c w c' w' ∧ the_limiter (c', w') = Some (UpdateUser (ct_tag c) added deleted l)) as Hgo.
  { unfold go, call_UpdateUser. unfold bind, get. rewrite (on_limiter_run _ _ _ _ _ Hp Hl). simpl.
    destruct (lim_EnableDynamicSpeedLimit _); eexists _, _; (split; [reflexivity|]); simpl;
      (split_and!; [done|done|done|]); unfold the_limiter; simpl; rewrite Hp; simpl;
      by rewrite lookup_insert_eq. }
  destruct added; [destruct deleted|]; try exact Hgo.
  exists c, w. split_and!; [done..|]. unfold the_limiter. simpl. by rewrite Hp.
Qed.

(** The core refuses a call of this difference: the removal, or the addition
    that follows it. *)
Definition core_refuses (tag : string) (info : NodeInfo) (deleted added : list UserInfo) (core : C) : Prop :=
  is_ok (core_deleted tag info deleted core).2 = false ∨
  is_ok (core_added tag info added (core_deleted tag info deleted core).1).2 = false.

(** The difference was applied: to the core, by its two calls. *)
Record applied (info : NodeInfo) (deleted added : list UserInfo) c w s' : Prop := {
  ap_core : w_core s'.2 =
    (core_added (ct_tag c) info added (core_deleted (ct_tag c) info deleted (w_core w)).1).1;
  ap_deleted : is_ok (core_deleted (ct_tag c) info deleted (w_core w)).2 = true;
  ap_added : is_ok (core_added (ct_tag c) info added
               (core_deleted (ct_tag c) info deleted (w_core w)).1).2 = true;
  ap_tag : ct_tag s'.1 = ct_tag c;
  ap_registry : same_registry c w s'.1 s'.2;
}.

Lemma apply_user_diff_run n us newU c w p l info :
  in_step n us (c, w) → ct_limiter c = Some p → reg_heap (w_reg w) !! p = Some l →
  ct_info c = Some info → uuid_length n newU → NoDup (uuids newU) →
  (∀ u v, u ∈ us → v ∈ newU → ident u = ident v → u = v) →
  let '(deleted, added) := compareUserList us newU in
  let '(s', r) := apply_user_diff newU deleted added (c, w) in
  (r = Ok tt ∧ in_step n newU s' ∧ applied info deleted added c w s') ∨
  (core_refuses (ct_tag c) info deleted added (w_core w) ∧ kept_old us (c, w) s' ∧
   w_panel s'.2 = w_panel w).
Proof.
  intros [Hus Hlen Hnd Hsv (l' & Hl' & Hui & Huid)] Hp Hl Hinfo Hnlen Hnnd Hkept. simpl in *.
  assert (l' = l) as -> by (unfold the_limiter in Hl'; simpl in Hl'; rewrite Hp in Hl'; simpl in Hl'; congruence).
  pose proof (compareUserList_members n us newU Hlen Hnlen Hnd Hnnd) as Hm.
  pose proof (UpdateUser_tables n (ct_tag c) us newU l Hlen Hnlen Hnd Hnnd Hkept Hui Huid) as Htab.
  destruct (compareUserList us newU) as [deleted added]. destruct Hm as [HD HA].
  unfold core_refuses. destruct (core_deleted (ct_tag c) info deleted (w_core w)) as [core1 r1] eqn:Hd1.
  destruct (delete_users_run deleted c w info core1 r1 Hinfo Hd1) as [Hd Hsv1].
  unfold apply_user_diff. unfold bind at 1. rewrite Hd.
  assert (∀ core, kept_old us (c, w) (c, with_core core w)) as Hkeep by (intros; by split_and!).
  destruct r1 as [[]|e|x]; [|right; split; [by left|split; [apply Hkeep|done]]..].
  destruct (core_added (ct_tag c) info added core1) as [core2 r2] eqn:Ha2.
  destruct (add_users_run added c (with_core core1 w) info core2 r2 Hinfo Ha2) as [Ha Hsv2].
  cbn [caught]. unfold bind at 1. rewrite Ha.
  destruct r2 as [k|e|x];
    [|right; split; [right; simpl; by rewrite Ha2|split; [apply Hkeep|done]]..].
  specialize (Hsv1 eq_refl). specialize (Hsv2 _ eq_refl). simpl in Hsv2.
  destruct (tell_limiter_run deleted added c (with_core core2 (with_core core1 w)) p l Hp Hl)
    as (c' & w' & Ht & Htag & Hcore & Hreg & Hlim).
  cbn [caught]. unfold bind. rewrite Ht. left. split; [done|]. split; [split; simpl; [done|done|done| |]|].
  - rewrite Htag, Hcore. simpl. rewrite Hsv2, Hsv1, Hsv. by apply diff_uuids.
  - eexists. split; [exact Hlim|]. rewrite Htag. by destruct added, deleted.
  - split; rewrite ?Hd1; simpl; rewrite ?Ha2; done.
Qed.

(** ** The answers of the panel in one round of the monitor *)
Definition answers (p : P) (newN : option NodeInfo) (newU : option (list UserInfo))
    (newA : option (gmap Z Z)) (p' : P) : Prop :=
  ∃ p1 p2, pn_GetNodeInfo p = (p1, Ok newN) ∧ pn_GetUserList p1 = (p2, Ok newU) ∧
    pn_GetUserAlive p2 = (p', Ok newA).

Lemma nodeInfoMonitor_run c w newN newU newA p' :
  answers (w_panel w) newN newU newA p' →
  nodeInfoMonitor (c, w) =
    match newN with
    | Some newN => reload_node newN newU newA (c, with_panel p' w)
    | None => update_users newU newA (c, with_panel p' w)
    end.
Proof.
  intros (p1 & p2 & HN & HU & HA). unfold nodeInfoMonitor, bind, on_panel.
  rewrite HN. simpl. rewrite HU. simpl. rewrite HA. simpl. by destruct newN.
Qed.

Lemma call_SetAlive_run newA c w p l :
  ct_limiter c = Some p → reg_heap (w_reg w) !! p = Some l →
  ∃ w' l', call_SetAlive newA (c, w) = (c, w', Ok tt) ∧
    w_core w' = w_core w ∧ w_panel w' = w_panel w ∧ w_machine w' = w_machine w ∧
    reg_map (w_reg w') = reg_map (w_reg w) ∧
    reg_heap (w_reg w') !! p = Some l' ∧
    l' = match newA with Some m => set_AliveList m l | None => l end.
Proof.
  intros Hp Hl. destruct newA as [m|]; unfold call_SetAlive.
  - rewrite (on_limiter_run _ _ _ _ _ Hp Hl). eexists _, _. split; [reflexivity|].
    simpl. by rewrite lookup_insert_eq.
  - exists w, l. by split_and!.
Qed.
End lemmas.

Section sync.
Context {C P : Type} `{CO : CoreOps C} `{NC : !NodeCore C} `{PO : PanelOps P}.
Context `{RL : RatelimitLib} `{RE : RegexpLib} `{RO : RangeOrder} `{AL : AcmeLib} `{MJ : MetaJson}.
Notation World := (World (C := C) (P := P)).

Lemma monitor_users_run n us newU newA p' info c (w : World) :
  in_step n us (c, w) → ct_info c = Some info →
  answers (w_panel w) None (Some newU) newA p' → newU ≠ [] →
  uuid_length n newU → NoDup (uuids newU) →
  (∀ u v, u ∈ us → v ∈ newU → ident u = ident v → u = v) →
  let '(deleted, added) := compareUserList us newU in
  let '(s', r) := nodeInfoMonitor (c, w) in
  (r = Ok tt ∧ in_step n newU s' ∧ applied info deleted added c w s') ∨
  (core_refuses (ct_tag c) info deleted added (w_core w) ∧ kept_old us (c, w) s' ∧
   w_panel s'.2 = p').
Proof.
  intros Hs Hinfo Hans Hne Hnlen Hnnd Hkept. rewrite (nodeInfoMonitor_run _ _ _ _ _ _ Hans).
  pose proof Hs as [Hus Hlen Hnd Hsv (l & Hl & Hui & Huid)]. simpl in *.
  destruct (ct_limiter c) as [p|] eqn:Hp; [|by unfold the_limiter in Hl; simpl in Hl; rewrite Hp in Hl].
  unfold the_limiter in Hl; simpl in Hl; rewrite Hp in Hl; simpl in Hl.
  unfold update_users. destruct newU as [|u0 newU]; [done|].
  destruct (call_SetAlive_run newA c (with_panel p' w) p l Hp Hl)
    as (w1 & l1 & Ha & Hc1 & Hpn1 & _ & Hreg & Hl1 & Hl1').
  unfold bind at 1. rewrite Ha. unfold bind, get. cbn [fst]. rewrite Hus. change (default [] (Some us)) with us. cbn [with_panel w_core] in Hc1.
  assert (lim_UserLimitInfo l1 = lim_UserLimitInfo l ∧ UUIDtoUID l1 = UUIDtoUID l) as [Hui1 Huid1]
    by (by destruct newA; subst).
  assert (in_step n us (c, w1)) as Hs1.
  { split; simpl; [done..| |]; [by rewrite Hc1|]. exists l1. unfold the_limiter. simpl. rewrite Hp.
    simpl. by rewrite Hui1, Huid1. }
  pose proof (apply_user_diff_run n us (u0 :: newU) c w1 p l1 info Hs1 Hp Hl1 Hinfo Hnlen Hnnd Hkept) as Hr.
  rewrite Hc1 in Hr. revert Hr.
  destruct (compareUserList us (u0 :: newU)) as [deleted added].
  destruct (apply_user_diff _ _ _ (c, w1)) as [s' r]. intros Hr.
  destruct Hr as [(Hr & Hs' & [HA1 HA2 HA3 HA4 [HA5 HA6]])|(Hr & (H1 & H2 & H3 & H4) & H5)]; [left|right].
  { split; [done|]. split; [done|]. rewrite Hc1 in *. split; try done. split; [by rewrite HA5|done]. }
  split; [exact Hr|]. split; [|by rewrite H5, Hpn1]. split_and!; [done|done| |].
  - rewrite H3. unfold the_limiter. simpl. rewrite Hp. simpl. rewrite Hl, Hl1. simpl. by rewrite Hui1.
  - rewrite H4. unfold the_limiter. simpl. rewrite Hp. simpl. rewrite Hl, Hl1. simpl. by rewrite Huid1.
Qed.

End sync.

(** ** Reloading a node *)
Section reload.
Context {C P : Type} `{CO : CoreOps C} `{PO : PanelOps P}.
Context `{RL : RatelimitLib} `{RE : RegexpLib} `{RO : RangeOrder} `{AL : AcmeLib} `{MJ : MetaJson}.
Notation World := (World (C := C) (P := P)).
Notation ctl := (ctl (C := C) (P := P)).
Implicit Types (c : Controller) (w : World).

(** Reporting to the panel changes nothing else. *)
Lemma reportCertStatus_frame meta e c w :
  ∃ w', reportCertStatus meta e (c, w) = (c, w', Ok tt) ∧ w_core w' = w_core w ∧ w_reg w' = w_reg w.
Proof.
  destruct meta as [meta|]; simpl; [|by exists w].
  unfold bind, report_panel. destruct (pn_ReportCertStatus _ (w_panel w)) as [p e'].
  eexists. split; [reflexivity|done].
Qed.

(** A certificate request without reload leaves the controller, the core and the
    limiters alone. *)
Lemma request_if_tls_frame node c w :
  ∃ w' r, request_if_tls node (c, w) = (c, w', r) ∧ w_core w' = w_core w ∧ w_reg w' = w_reg w.
Proof.
  unfold request_if_tls. case_decide; [|by eexists w, _].
  unfold requestCertAndReport. unfold bind at 1, call_requestCert.
  destruct (requestCert _ _ _) as [m [[meta e]|[]|x]].
  - set (w1 := mkWorld _ _ _ m).
    destruct (reportCertStatus_frame meta e c w1) as (w2 & Hr & Hc & Hg).
    unfold bind at 1. rewrite Hr. eexists w2, _. by split.
  - eexists _, _. by split.
Qed.

(** The users of the node after a reload: the new list, if one came. *)
Definition users_after (newU : option (list UserInfo)) c : list UserInfo :=
  match newU with Some u => u | None => default [] (ct_userList c) end.

Definition tag_after (newN : NodeInfo) c w : string :=
  if decide (opt_Name (ct_Options c) = "") then buildNodeTag c (pn_APIHost (w_panel w)) newN else ct_tag c.

(** The limiter of the node after [renew_limiter] and [SetAlive]: a new one
    from the users for a node without a name, the old one otherwise. *)
Definition limiter_after (newN : NodeInfo) (newU : option (list UserInfo)) (newA : option (gmap Z Z))
    c w (l : Limiter) : Limiter :=
  let base := if decide (opt_Name (ct_Options c) = "")
              then new_limiter (tag_after newN c w) (opt_LimitConfig (ct_Options c))
                     (users_after newU c) (default ∅ newA)
              else l in
  match newA with Some m => set_AliveList m base | None => base end.

Lemma renew_limiter_named newN newA c w :
  opt_Name (ct_Options c) ≠ "" → renew_limiter newN newA (c, w) = (c, w, Ok tt).
Proof. intros Hn. unfold renew_limiter, bind, get. cbn [fst]. by rewrite decide_False. Qed.

Lemma renew_limiter_unnamed newN newA c w :
  opt_Name (ct_Options c) = "" →
  let tag := buildNodeTag c (pn_APIHost (w_panel w)) newN in
  let p := fresh (dom (reg_heap (w_reg w))) in
  renew_limiter newN newA (c, w) =
    (set_limiter (Some p) (set_tag tag c),
     mkWorld (w_core w)
       (mkRegistry (<[p := new_limiter tag (opt_LimitConfig (ct_Options c)) (default [] (ct_userList c))
                             (default ∅ newA)]> (reg_heap (w_reg w)))
                   (<[tag := p]> (delete tag (reg_map (w_reg w)))))
       (w_panel w) (w_machine w), Ok tt).
Proof. intros Hn. unfold renew_limiter, bind, get. cbn [fst]. by rewrite decide_True. Qed.

Lemma renew_limiter_run newN newU newA c w p l :
  ct_limiter c = Some p → reg_heap (w_reg w) !! p = Some l → default [] (ct_userList c) = users_after newU c →
  ∃ c' w' p', (let! _ := renew_limiter newN newA in call_SetAlive newA) (c, w) = (c', w', Ok tt) ∧
    ct_tag c' = tag_after newN c w ∧ ct_userList c' = ct_userList c ∧ ct_Options c' = ct_Options c ∧
    ct_nodeInfoMonitorPeriodic c' = ct_nodeInfoMonitorPeriodic c ∧
    ct_userReportPeriodic c' = ct_userReportPeriodic c ∧
    ct_limiter c' = Some p' ∧ reg_heap (w_reg w') !! p' = Some (limiter_after newN newU newA c w l) ∧
    w_core w' = w_core w ∧ w_panel w' = w_panel w ∧
    (opt_Name (ct_Options c) ≠ "" → p' = p ∧ reg_map (w_reg w') = reg_map (w_reg w)) ∧
    (opt_Name (ct_Options c) = "" → reg_map (w_reg w') !! tag_after newN c w = Some p').
Proof.
  intros Hp Hl Hus. unfold limiter_after, tag_after.
  destruct (decide (opt_Name (ct_Options c) = "")) as [Hn|Hn].
  - unfold bind at 1. rewrite renew_limiter_unnamed by done. rewrite Hus.
    set (c' := set_limiter _ _). set (w' := mkWorld _ _ _ _). set (p' := fresh _) in *.
    set (nl := new_limiter _ _ _ _) in *.
    destruct (call_SetAlive_run newA c' w' p' nl eq_refl) as (w2 & l2 & Ha & Hc & Hpn & _ & Hm & Hh & Hl2).
    { simpl. by rewrite lookup_insert_eq. }
    exists c', w2, p'. rewrite Ha. split_and!; try done.
    + rewrite Hh, Hl2. by destruct newA.
    + intros _. rewrite Hm. simpl. by rewrite lookup_insert_eq.
  - unfold bind at 1. rewrite renew_limiter_named by done.
    destruct (call_SetAlive_run newA c w p l Hp Hl) as (w2 & l2 & Ha & Hc & Hpn & _ & Hm & Hh & Hl2).
    exists c, w2, p. rewrite Ha. split_and!; try done. by rewrite Hh, Hl2.
Qed.

Lemma call_UpdateRule_run rule rs c w p l :
  ct_limiter c = Some p → reg_heap (w_reg w) !! p = Some l →
  MustCompile_all (rules_Regexp rule) = Ok rs →
  call_UpdateRule rule (c, w) = (c, with_heap p (set_rules rs (rules_Protocol rule) l) w, Ok tt).
Proof.
  intros Hp Hl Hrs. unfold call_UpdateRule. rewrite (on_limiter_run _ _ _ _ _ Hp Hl).
  unfold UpdateRule. by rewrite Hrs.
Qed.

(** The calls of a reload, when the core accepts them. *)
Record reload_calls (newN : NodeInfo) (newU : option (list UserInfo)) (tag : string) c
    (core core' : C) (node : NodeInfo) (opts : Options) : Prop := {
  rl_core1 : C; rl_core2 : C; rl_added : Z;
  rl_del : core_DelNode (ct_tag c) core = (rl_core1, Ok tt);
  rl_add : core_AddNode tag newN (optionsForNode (ct_Options c) (Some newN)) rl_core1
           = (rl_core2, (node, opts), Ok tt);
  rl_users : core_AddUsers (mkAddUsersParams tag (users_after newU c) node) rl_core2 = (core', Ok rl_added);
}.

(** The controller once it has taken over the answer of the panel. *)
Definition taken_over (newN : NodeInfo) (newU : option (list UserInfo)) c : Controller :=
  set_traffic (Some ∅)
    (match newU with
     | Some u => set_userList (Some u) | None => id end
       (set_node (Some newN) (Some (optionsForNode (ct_Options c) (Some newN))) c)).

Lemma taken_over_fields newN newU c :
  let c1 := taken_over newN newU c in
  ct_tag c1 = ct_tag c ∧ ct_limiter c1 = ct_limiter c ∧ ct_Options c1 = ct_Options c ∧
  ct_nodeInfoMonitorPeriodic c1 = ct_nodeInfoMonitorPeriodic c ∧
  ct_userReportPeriodic c1 = ct_userReportPeriodic c ∧ default [] (ct_userList c1) = users_after newU c.
Proof. by destruct newU. Qed.

(** Its tag and its limiter will be those computed from the controller before. *)
Lemma taken_over_after newN newU newA c w core1 l :
  tag_after newN (taken_over newN newU c) (with_core core1 w) = tag_after newN c w ∧
  limiter_after newN None newA (taken_over newN newU c) (with_core core1 w) l =
    limiter_after newN newU newA c w l.
Proof.
  destruct (taken_over_fields newN newU c) as (Ht1 & _ & Ho1 & _ & _ & Hu1).
  unfold limiter_after, tag_after, users_after. rewrite Ho1, Ht1, Hu1. by destruct newU.
Qed.

(** The first half takes the answer over and takes the node down. *)
Lemma reload_node_down newN newU newA c w core1 :
  core_DelNode (ct_tag c) (w_core w) = (core1, Ok tt) →
  reload_node newN newU newA (c, w) =
    set_up_node newN newA (optionsForNode (ct_Options c) (Some newN)) (taken_over newN newU c, with_core core1 w).
Proof.
  intros Hd. unfold reload_node. unfold bind at 1, get. cbn [fst]. unfold bind at 1, modify at 1.
  rewrite (bind_Ok _ _ _ (match newU with Some u => set_userList (Some u) | None => id end
     (set_node (Some newN) (Some (optionsForNode (ct_Options c) (Some newN))) c), w) tt) by (by destruct newU).
  unfold bind at 1, modify at 1. fold (taken_over newN newU c).
  rewrite (bind_Ok _ _ _ (taken_over newN newU c, with_core core1 w) (inr tt)); [done|].
  unfold call_DelNode, bind, get. cbn [fst].
  destruct (taken_over_fields newN newU c) as (-> & _). by rewrite (on_core_run _ _ _ _ _ Hd).
Qed.

(** The second half adds the node and its users. *)
Lemma set_up_node_run newN newA opts0 c w core1 core2 node opts k w2 w3 c2 rs :
  (let! _ := renew_limiter newN newA in call_SetAlive newA) (c, with_core core1 w) = (c2, w2, Ok tt) →
  call_UpdateRule (ni_Rules newN) (c2, w2) = (c2, rs, Ok tt) →
  request_if_tls newN (c2, rs) = (c2, w3, Ok None) → w_core w3 = core1 →
  core_AddNode (ct_tag c2) newN opts0 core1 = (core2, (node, opts), Ok tt) →
  ∀ core', core_AddUsers (mkAddUsersParams (ct_tag c2) (default [] (ct_userList c2)) node) core2 = (core', Ok k) →
  set_up_node newN newA opts0 (c, with_core core1 w) =
    (update_intervals node (set_node (Some node) (Some opts) c2), with_core core' (with_core core2 w3), Ok tt).
Proof.
  intros Hrun Hrule Hreq Hc3 Ha core' Hu. unfold set_up_node.
  rewrite (bind_then _ _ _ _ _ Hrun), (bind_Ok _ _ _ _ _ Hrule), (bind_Ok _ _ _ _ _ Hreq).
  rewrite (bind_Ok _ _ _ (set_node (Some node) (Some opts) c2, with_core core2 w3) (inr node)).
  2:{ unfold call_AddNode. rewrite Hc3. by rewrite Ha. }
  unfold bind at 1, get. cbn [fst].
  rewrite (bind_Ok _ _ _ (set_node (Some node) (Some opts) c2, with_core core' (with_core core2 w3)) (inr k)); [done|].
  unfold call_AddUsers, bind, get. cbn [fst]. cbn [ct_tag ct_userList set_node].
  by rewrite (on_core_run _ _ (with_core core2 w3) _ _ Hu).
Qed.

Lemma reload_node_run newN newU newA c w p l core' node opts rs :
  ct_limiter c = Some p → reg_heap (w_reg w) !! p = Some l →
  MustCompile_all (rules_Regexp (ni_Rules newN)) = Ok rs →
  (∀ s : Controller * World, (request_if_tls newN s).2 = Ok None) →
  reload_calls newN newU (tag_after newN c w) c (w_core w) core' node opts →
  ∃ c' w' p', reload_node newN newU newA (c, w) = (update_intervals node c', w', Ok tt) ∧
    ct_tag c' = tag_after newN c w ∧ ct_userList c' = ct_userList (taken_over newN newU c) ∧
    ct_info c' = Some node ∧ ct_activeOptions c' = Some opts ∧
    ct_nodeInfoMonitorPeriodic c' = ct_nodeInfoMonitorPeriodic c ∧
    ct_userReportPeriodic c' = ct_userReportPeriodic c ∧
    ct_limiter c' = Some p' ∧ w_core w' = core' ∧
    reg_heap (w_reg w') !! p' =
      Some (set_rules rs (rules_Protocol (ni_Rules newN)) (limiter_after newN newU newA c w l)) ∧
    (opt_Name (ct_Options c) = "" → reg_map (w_reg w') !! tag_after newN c w = Some p').
Proof.
  intros Hp Hl Hrs Hcert [core1 core2 k Hd Ha Hu]. rewrite (reload_node_down _ _ _ _ _ _ Hd).
  set (c1 := taken_over newN newU c). set (w1 := with_core core1 w).
  destruct (taken_over_fields newN newU c) as (Ht1 & Hp1 & Ho1 & Hm1 & Hr1 & Hu1).
  destruct (taken_over_after newN newU newA c w core1 l) as [Htag Hlim]. fold c1 in Ht1, Hp1, Ho1, Hm1, Hr1, Hu1, Htag, Hlim.
  fold w1 in Htag, Hlim.
  destruct (renew_limiter_run newN None newA c1 w1 p l) as
    (c2 & w2 & p' & Hrun & Htag2 & Hul2 & Ho2 & Hm2 & Hr2 & Hp2 & Hl2 & Hc2 & Hpn2 & _ & Hreg2);
    [by rewrite Hp1|done|done|].
  set (l3 := set_rules rs (rules_Protocol (ni_Rules newN)) (limiter_after newN None newA c1 w1 l)).
  destruct (request_if_tls_frame newN c2 (with_heap p' l3 w2)) as (w3 & r3 & Hreq & Hc3 & Hg3).
  assert (r3 = Ok None) as -> by (specialize (Hcert (c2, with_heap p' l3 w2)); by rewrite Hreq in Hcert).
  exists (set_node (Some node) (Some opts) c2), (with_core core' (with_core core2 w3)), p'.
  unfold w1. rewrite (set_up_node_run newN newA _ c1 w core1 core2 node opts k w2 w3 c2 (with_heap p' l3 w2) Hrun
    ltac:(by apply (call_UpdateRule_run _ rs)) Hreq ltac:(by rewrite Hc3; cbn; rewrite Hc2)
    ltac:(by rewrite Htag2, Htag) core' ltac:(by rewrite Htag2, Htag, Hul2, Hu1)).
  cbn [set_node ct_tag ct_userList ct_info ct_activeOptions ct_nodeInfoMonitorPeriodic
       ct_userReportPeriodic ct_limiter].
  rewrite Htag2, Htag, Hul2, Hm2, Hm1, Hr2, Hr1. split_and!; try done.
  - cbn. rewrite Hg3. cbn. rewrite lookup_insert_eq. unfold l3. by rewrite Hlim.
  - intros Hn. cbn. rewrite Hg3. cbn. rewrite <- Htag. apply Hreg2. by rewrite Ho1.
Qed.


Lemma same_list_round n us newA p' c w p l :
  uuid_length n us → NoDup (uuids us) → us ≠ [] →
  answers (w_panel w) None (Some us) newA p' →
  ct_userList c = Some us → ct_limiter c = Some p → reg_heap (w_reg w) !! p = Some l →
  ∃ w' l', nodeInfoMonitor (c, w) = (set_userList (Some us) c, w', Ok tt) ∧ w_core w' = w_core w ∧
    the_limiter (set_userList (Some us) c, w') = Some l' ∧ lim_UserLimitInfo l' = lim_UserLimitInfo l.
Proof.
  intros Hlen Hnd Hne Hans Hu Hp Hl. rewrite (nodeInfoMonitor_run _ _ _ _ _ _ Hans).
  destruct (call_SetAlive_run newA c (with_panel p' w) p l Hp Hl)
    as (w1 & l1 & Ha & Hc1 & _ & _ & _ & Hl1 & Hl1').
  exists w1, l1. unfold update_users. destruct us as [|u us]; [done|].
  rewrite (bind_Ok _ _ _ _ _ Ha). unfold bind at 1, get. cbn [fst]. rewrite Hu.
  change (default [] (Some (u :: us))) with (u :: us).
  rewrite (compareUserList_ignores_devices n) by done. split_and!; [done|by rewrite Hc1| |].
  - unfold the_limiter. cbn. by rewrite Hp.
  - rewrite Hl1'. by destruct newA.
Qed.
End reload.

Section named.
Context {C P : Type} `{CO : CoreOps C} `{NC : !NodeCore C} `{PO : PanelOps P}.
Context `{RL : RatelimitLib} `{RE : RegexpLib} `{RO : RangeOrder} `{AL : AcmeLib} `{MJ : MetaJson}.
Notation World := (World (C := C) (P := P)).
Implicit Types (c : Controller) (w : World).

(** The limiter refuses every connection of a user it does not know. *)
Definition locked_out (tag uuid : string) (s : Controller * World) : Prop :=
  ∃ l, the_limiter s = Some l ∧
    ∀ now ip t b, (CheckLimit now (UserTag tag uuid) ip t b l).2 = true.

Lemma unknown_locked_out tag uuid (s : Controller * World) l :
  the_limiter s = Some l → lim_UserLimitInfo l !! UserTag tag uuid = None → locked_out tag uuid s.
Proof. intros Hl Hu. exists l. split; [done|]. intros now ip t b. by rewrite CheckLimit_unknown. Qed.

(** The limiter of a node with a configured name survives a reload as it is.  A
    user who is new in the list that comes with a change of the node is added
    to the core but never to the limiter, so that every connection of his is
    rejected; and he stays locked out in the next round with the same list,
    because he is no longer new. *)
Theorem named_reload_locks_out n newN newU newA p' c w p l core' node opts rs u :
  opt_Name (ct_Options c) ≠ "" →
  answers (w_panel w) (Some newN) (Some newU) newA p' →
  ct_limiter c = Some p → reg_heap (w_reg w) !! p = Some l →
  MustCompile_all (rules_Regexp (ni_Rules newN)) = Ok rs →
  (∀ s : Controller * World, (request_if_tls newN s).2 = Ok None) →
  reload_calls newN (Some newU) (ct_tag c) c (w_core w) core' node opts →
  uuid_length n newU → NoDup (uuids newU) → u ∈ newU →
  lim_UserLimitInfo l !! UserTag (ct_tag c) (user_Uuid u) = None →
  let '(s', r) := nodeInfoMonitor (c, w) in
  r = Ok tt ∧ user_Uuid u ∈ served (w_core s'.2) (ct_tag c) ∧
  locked_out (ct_tag c) (user_Uuid u) s' ∧
  ∀ newA2 p2, answers (w_panel s'.2) None (Some newU) newA2 p2 →
    let '(s2, r2) := nodeInfoMonitor s' in
    r2 = Ok tt ∧ user_Uuid u ∈ served (w_core s2.2) (ct_tag c) ∧ locked_out (ct_tag c) (user_Uuid u) s2.
Proof.
  intros Hn Hans Hp Hl Hrs Hcert Hcalls Hlen Hnd Hu Hun.
  rewrite (nodeInfoMonitor_run _ _ _ _ _ _ Hans). set (w0 := with_panel p' w).
  assert (tag_after newN c w0 = ct_tag c) as Htag by (unfold tag_after; by rewrite decide_False).
  rewrite <- Htag in Hcalls.
  destruct (reload_node_run newN (Some newU) newA c w0 p l core' node opts rs Hp Hl Hrs Hcert Hcalls)
    as (c1 & w1 & p1 & Hrun & Ht & Hul & _ & _ & _ & _ & Hp1 & Hc & Hl1 & _).
  rewrite Hrun. destruct Hcalls as [core1 core2 k _ _ Hadd]. rewrite Htag in *.
  set (c2 := update_intervals node c1).
  assert (user_Uuid u ∈ served core' (ct_tag c)) as Hserved.
  { apply AddUsers_served in Hadd as [Hadd _]. cbn in Hadd. rewrite Hadd. apply elem_of_union_r, elem_of_list_to_set. simpl.
    by apply list_elem_of_fmap_2. }
  set (l1 := set_rules _ _ _) in Hl1.
  assert (lim_UserLimitInfo l1 !! UserTag (ct_tag c) (user_Uuid u) = None) as Hun1.
  { unfold l1, limiter_after. rewrite decide_False by done. by destruct newA. }
  assert (the_limiter (c2, w1) = Some l1) as Hl2 by (unfold the_limiter; cbn; by rewrite Hp1).
  split_and!; [done|by cbn; rewrite Hc|by eapply unknown_locked_out|].
  intros newA2 p2 Hans2.
  assert (newU ≠ []) as Hne by (intros ->; by apply not_elem_of_nil in Hu).
  destruct (same_list_round n newU newA2 p2 c2 w1 p1 l1 Hlen Hnd Hne Hans2 Hul Hp1 Hl1)
    as (w2 & l2 & -> & Hc2 & Hl2' & Hui2).
  split_and!; [done|by cbn; rewrite Hc2, Hc|]. eapply unknown_locked_out; [exact Hl2'|]. by rewrite Hui2.
Qed.
End named.

(** ** With the panel's client *)
Section client.
Context {C : Type} `{CO : CoreOps C} `{HL : HttpLib} `{ND : NodeDecoder}.
Context `{RL : RatelimitLib} `{RE : RegexpLib} `{RO : RangeOrder} `{AL : AcmeLib} `{MJ : MetaJson}.
Notation World := (World (C := C) (P := Client * HWorld)).
Implicit Types (c : Controller) (w : World).

(** A round in which neither the node nor the users are new. *)
Lemma unmodified_answers cl hw hw1 hw2 :
  GetNodeInfo (cl, hw) = (cl, hw1, Ok None) → GetUserList (cl, hw1) = (cl, hw2, Ok None) →
  ∃ a hw3, answers (cl, hw) None None a (cl, hw3).
Proof.
  intros Hn Hu. destruct (GetUserAlive_ok cl hw2) as [a Ha]. eexists a, _, (cl, hw1), (cl, hw2).
  cbn [pn_GetNodeInfo pn_GetUserList pn_GetUserAlive Client_ops]. by rewrite Hn, Hu, Ha.
Qed.

(** A change of the node is lost when the request for the users that follows it
    fails.  The round ends without doing anything, but the client has already
    noted the new configuration as seen: when the panel sends it again the
    node counts as unchanged, and the node keeps running with the old
    configuration. *)
Theorem node_change_lost c w cl hw hw1 hw2 hw3 hw4 rsp rsp' rspu e newN p l :
  w_panel w = (cl, hw) → ct_limiter c = Some p → reg_heap (w_reg w) !! p = Some l →
  http_get config_path [("If-None-Match", cl_nodeEtag cl)] hw = (hw1, Ok (Some rsp)) →
  rsp_ok rsp → cl_responseBodyHash cl ≠ sha256_hex (rsp_Body rsp) →
  build_node (cl_NodeId cl) (cl_NodeType cl) (rsp_Body rsp) = Ok newN →
  let users := [("If-None-Match", cl_userEtag cl); ("X-Response-Format", "msgpack")] in
  http_get user_path users hw1 = (hw2, Err e) →
  http_get config_path [("If-None-Match", rsp_ETag rsp)] hw2 = (hw3, Ok (Some rsp')) →
  rsp_ok rsp' → rsp_Body rsp' = rsp_Body rsp →
  http_get user_path users hw3 = (hw4, Ok (Some rspu)) → rsp_Status rspu = 304%Z →
  let '(s1, r1) := nodeInfoMonitor (c, w) in
  let '(s2, r2) := nodeInfoMonitor s1 in
  r1 = Ok tt ∧ s1.1 = c ∧ w_core s1.2 = w_core w ∧ w_reg s1.2 = w_reg w ∧
  r2 = Ok tt ∧ s2.1 = c ∧ w_core s2.2 = w_core w.
Proof.
  intros Hpn Hp Hl Hg Hok Hh Hb users Hu Hg' Hok' Hbody Hu' H304.
  pose proof (GetNodeInfo_body_once cl hw hw1 rsp hw2 hw3 rsp' Hg Hok Hh) as Hn.
  destruct (GetNodeInfo (cl, hw)) as [[cl1 w1] r] eqn:E.
  rewrite (GetNodeInfo_rsp _ _ _ _ Hg Hok), decide_False in E by done. injection E as <- _ _.
  destruct Hn as (-> & -> & Hn). specialize (Hn Hg' Hok' Hbody).
  set (cl1 := cl_with_node_cache _ _ cl) in *.
  assert (nodeInfoMonitor (c, w) = (c, with_panel (cl1, hw2) w, Ok tt)) as ->.
  { unfold nodeInfoMonitor, bind, on_panel. rewrite Hpn. cbn [pn_GetNodeInfo Client_ops].
    rewrite (GetNodeInfo_rsp _ _ _ _ Hg Hok), decide_False by done. fold cl1. rewrite Hb. cbn.
    change (cl_userEtag cl1) with (cl_userEtag cl). fold users. by rewrite Hu. }
  destruct (unmodified_answers cl1 hw2 hw3 hw4 Hn) as (a & hw5 & Hans); [by apply (GetUserList_304 cl1 _ _ rspu)|].
  assert (answers (w_panel (with_panel (cl1, hw2) w)) None None a (cl1, hw5)) as Hans' by done.
  rewrite (nodeInfoMonitor_run _ _ _ _ _ _ Hans'). unfold update_users.
  destruct (call_SetAlive_run a c (with_panel (cl1, hw5) (with_panel (cl1, hw2) w)) p l Hp Hl)
    as (w6 & l6 & Ha & Hc6 & _).
  rewrite (bind_Ok _ _ _ _ _ Ha). cbn. by rewrite Hc6.
Qed.

(** A list of users that the core refuses with an error is not tried again.  The client has
    noted the list as seen when it was decoded (src/api/panel/user.go:76), so
    when the panel answers the next round with 304 the list is nil and the round
    ends at once (src/node/task.go:182): controller and limiter stay with the
    old list, and the core with what the refused call left. *)
Theorem refused_list_not_retried `{NC : !NodeCore C} n us newU info c w cl hw hw1 hw2 hw4 hw5 rsp0 rspu rsp1 rsp2 :
  w_panel w = (cl, hw) → in_step n us (c, w) → ct_info c = Some info →
  http_get config_path [("If-None-Match", cl_nodeEtag cl)] hw = (hw1, Ok (Some rsp0)) →
  rsp_Status rsp0 = 304%Z →
  http_get user_path (users_request (cl_userEtag cl)) hw1 = (hw2, Ok (Some rspu)) →
  rsp_ok rspu → decode_users (users_format rspu) (rsp_Body rspu) = Ok (Some newU) →
  newU ≠ [] → uuid_length n newU → NoDup (uuids newU) →
  (∀ u v, u ∈ us → v ∈ newU → ident u = ident v → u = v) →
  let '(deleted, added) := compareUserList us newU in
  core_refuses (ct_tag c) info deleted added (w_core w) →
  let hw3 := (http_get alive_path [] hw2).1 in
  http_get config_path [("If-None-Match", cl_nodeEtag cl)] hw3 = (hw4, Ok (Some rsp1)) →
  rsp_Status rsp1 = 304%Z →
  http_get user_path (users_request (rsp_ETag rspu)) hw4 = (hw5, Ok (Some rsp2)) →
  rsp_Status rsp2 = 304%Z →
  let '(s1, r1) := nodeInfoMonitor (c, w) in
  let '(s2, r2) := nodeInfoMonitor s1 in
  r1 = Ok tt → r2 = Ok tt ∧ kept_old us (c, w) s2 ∧ w_core s2.2 = w_core s1.2.
Proof.
  intros Hpn Hs Hi Hg0 Hst0 Hgu Hoku Hdec Hne Hlen Hnd Hkept.
  set (cl1 := cl_with_userEtag (rsp_ETag rspu) cl). set (hw3 := (http_get alive_path [] hw2).1).
  destruct (GetUserAlive_ok cl1 hw2) as [a Ha].
  assert (answers (w_panel w) None (Some newU) a (cl1, hw3)) as Hans.
  { exists (cl, hw1), (cl1, hw2). rewrite Hpn. cbn [pn_GetNodeInfo pn_GetUserList pn_GetUserAlive Client_ops].
    by rewrite (GetNodeInfo_304 _ _ _ _ Hg0 Hst0), (GetUserList_rsp _ _ _ _ _ Hgu Hoku Hdec), Ha. }
  pose proof (monitor_users_run n us newU a _ info c w Hs Hi Hans Hne Hlen Hnd Hkept) as Hr.
  destruct (compareUserList us newU) as [deleted added]. intros Href hw3' Hg1 Hst1 Hgu2 Hst2. subst hw3'.
  destruct (nodeInfoMonitor (c, w)) as [[c1 w1] r1].
  assert (kept_old us (c, w) (c1, w1) ∧ w_panel w1 = (cl1, hw3)) as (Hk & Hpn1).
  { destruct Hr as [(_ & _ & Hap)|(_ & Hk & Hp)]; [exfalso|done].
    destruct Href as [Hd|Had]; [by rewrite (ap_deleted _ _ _ _ _ _ Hap) in Hd|].
    by rewrite (ap_added _ _ _ _ _ _ Hap) in Had. }
  destruct (unmodified_answers cl1 hw3 hw4 hw5) as (alive2 & hw6 & Hans2);
    [by apply (GetNodeInfo_304 cl1 _ _ rsp1)|by apply (GetUserList_304 cl1 _ _ rsp2)|].
  rewrite <- Hpn1 in Hans2. rewrite (nodeInfoMonitor_run _ _ _ _ _ _ Hans2). unfold update_users.
  destruct Hk as (Hul & Hc1 & Hui & Huid). cbn [fst] in Hc1. subst c1. simpl in Hul.
  destruct Hs as [_ _ _ _ (l & Hl & _)].
  destruct (ct_limiter c) as [p|] eqn:Hp; [|unfold the_limiter in Hl; cbn [fst] in Hl; by rewrite Hp in Hl].
  destruct (reg_heap (w_reg w1) !! p) as [l1|] eqn:Hl1;
    [|unfold the_limiter in *; cbn [fst snd] in *; rewrite Hp in *; simpl in *; by rewrite Hl, Hl1 in Hui].
  destruct (call_SetAlive_run alive2 c (with_panel (cl1, hw6) w1) p l1 Hp Hl1)
    as (w6 & l6 & Hset & Hc6 & _ & _ & _ & Hl6 & ->).
  rewrite (bind_Ok _ _ _ _ _ Hset). cbn [fst snd ret]. intros _. split_and!; [done| |by rewrite Hc6].
  split_and!; [done|done|rewrite <- Hui|rewrite <- Huid]; unfold the_limiter; cbn [fst snd]; rewrite Hp;
    simpl; rewrite Hl6, Hl1; by destruct alive2.
Qed.
End client.

(** ** Reports *)
Definition ips_of (uid : Z) (l : list OnlineUser) : list string :=
  online_IP <$> filter (λ o, online_UID o = uid) l.

Definition some_ips (ips : list string) : option (list string) :=
  match ips with [] => None | _ => Some ips end.

Lemma online_data_lookup l uid : online_data l !! uid = some_ips (ips_of uid l).
Proof.
  unfold online_data. set (f := λ (data : gmap Z (list string)) o, <[_ := _]> data).
  assert (∀ data : gmap Z (list string), foldl f data l !! uid =
    match ips_of uid l with [] => data !! uid | ips => Some (default [] (data !! uid) ++ ips)%list end) as H.
  { induction l as [|o l IH]; intros data; [done|]. cbn [foldl]. rewrite IH. unfold ips_of, f.
    rewrite filter_cons, lookup_insert. destruct (decide (online_UID o = uid)) as [<-|Hne].
    - cbn. destruct (_ <$> _); cbn; [done|]. by rewrite <- (assoc_L (++)%list).
    - done. }
  rewrite H, lookup_empty. unfold some_ips. by destruct (ips_of uid l).
Qed.

Lemma ips_of_counted nocount uid l :
  ips_of uid (counted_online nocount l) = if decide (uid ∈ nocount) then [] else ips_of uid l.
Proof.
  unfold ips_of, counted_online. induction l as [|o l IH]; [by case_decide|].
  rewrite !filter_cons. destruct (decide (online_UID o = uid)) as [<-|Hne].
  - destruct (decide (online_UID o ∈ nocount)) as [Hin|Hni].
    + rewrite decide_False by (intros Hni; by destruct Hni). by rewrite IH.
    + rewrite decide_True by done. rewrite filter_cons, decide_True by done.
      rewrite !fmap_cons. by rewrite IH.
  - destruct (decide (online_UID o ∉ nocount)); [|done]. by rewrite filter_cons, decide_False.
Qed.

Section reports.
Context {C P : Type} `{CO : CoreOps C} `{PO : PanelOps P}.
Context `{RL : RatelimitLib} `{RE : RegexpLib} `{RO : RangeOrder} `{AL : AcmeLib} `{MJ : MetaJson}.
Notation World := (World (C := C) (P := P)).
Implicit Types (c : Controller) (w : World).

(** The user's traffic in this report is below the threshold, in kB. *)
Definition below_threshold (minTraffic : Z) (traffic : list UserTraffic) (uid : Z) : Prop :=
  ∃ t, t ∈ traffic ∧ traffic_UID t = uid ∧
    (wrap64 (traffic_Upload t + traffic_Download t) < wrap64 (minTraffic * 1000))%Z.

Lemma nocount_uids_spec m traffic uid : uid ∈ nocount_uids m traffic ↔ below_threshold m traffic uid.
Proof.
  unfold nocount_uids, below_threshold. rewrite elem_of_list_to_set, list_elem_of_fmap. split.
  - intros (t & -> & [Ht Hin]%list_elem_of_filter). by exists t.
  - intros (t & Hin & <- & Ht). exists t. split; [done|]. by apply list_elem_of_filter.
Qed.

#[global] Instance below_threshold_dec m traffic uid : Decision (below_threshold m traffic uid).
Proof. refine (cast_if (decide (uid ∈ nocount_uids m traffic))); by rewrite <- nocount_uids_spec. Defined.

(** What the panel is sent. *)
Definition after_traffic (traffic : list UserTraffic) (p : P) : P :=
  match traffic with [] => p | _ => (pn_ReportUserTraffic traffic p).1 end.

Lemma report_task_run c w p l core' r :
  ct_limiter c = Some p → reg_heap (w_reg w) !! p = Some l →
  core_GetUserTrafficSlice (ct_tag c) true (w_core w) = (core', r) → no_panic r →
  let traffic := match r with Ok t => t | _ => [] end in
  let '(l', devices) := GetOnlineDevice l in
  ∃ w', reportUserTrafficTask (c, w) = (c, w', Ok tt) ∧
    w_core w' = core' ∧ the_limiter (c, w') = Some l' ∧
    (devices = [] → w_panel w' = after_traffic traffic (w_panel w)) ∧
    (devices ≠ [] → ∃ data,
       w_panel w' = (pn_ReportNodeOnlineUsers data (after_traffic traffic (w_panel w))).1 ∧
       ∀ uid, data !! uid =
         if decide (below_threshold (opt_DeviceOnlineMinTraffic (ct_Options c)) traffic uid) then None
         else some_ips (ips_of uid devices)).
Proof.
  intros Hp Hl Hslice Hnp traffic. destruct (GetOnlineDevice l) as [l' devices] eqn:Hdev.
  unfold reportUserTrafficTask. unfold bind at 1, get. cbn [fst].
  assert (∃ s, caught r = Ok s ∧ match s with inr t => t | inl _ => [] end = traffic) as (s & Hs & Htr)
    by (destruct r; [by eexists|by eexists|done]).
  unfold bind at 1. rewrite (on_core_run _ c w _ _ Hslice), Hs, Htr.
  set (w1 := with_core core' w).
  set (w2 := with_panel (after_traffic traffic (w_panel w)) w1).
  rewrite (bind_Ok _ _ (c, w1) (c, w2) (match traffic with [] => None | _ => (pn_ReportUserTraffic traffic (w_panel w)).2 end)).
  2:{ unfold w2, w1, after_traffic. destruct traffic as [|t0 ts]; [by destruct w|].
      unfold report_panel. cbn. by destruct (pn_ReportUserTraffic _ _). }
  set (w3 := with_heap p l' w2).
  rewrite (bind_Ok _ _ (c, w2) (c, w3) devices).
  2:{ assert (reg_heap (w_reg w2) !! p = Some l) as Hl2 by done.
      rewrite (on_limiter_run _ _ _ _ _ Hp Hl2). by rewrite Hdev. }
  assert (∀ q, the_limiter (c, with_panel q w3) = Some l' ∧ the_limiter (c, w3) = Some l') as Hlim.
  { intros q. unfold the_limiter. cbn. rewrite Hp. cbn. by rewrite lookup_insert_eq. }
  destruct devices as [|d ds].
  - exists w3. split_and!; [done|done|by apply (Hlim (w_panel w))|done|done].
  - set (data := online_data _). exists (with_panel (pn_ReportNodeOnlineUsers data (w_panel w3)).1 w3).
    unfold bind, report_panel. destruct (pn_ReportNodeOnlineUsers data (w_panel w3)) as [q e] eqn:Hq.
    split_and!; [done|done|by apply Hlim|done|]. intros _. exists data. split.
    + change (w_panel w3) with (after_traffic traffic (w_panel w)) in Hq. by rewrite Hq.
    + intros uid. unfold data. rewrite online_data_lookup, ips_of_counted.
      rewrite (decide_ext (uid ∈ nocount_uids _ traffic)
        (below_threshold (opt_DeviceOnlineMinTraffic (ct_Options c)) traffic uid)) by apply nocount_uids_spec.
      by destruct (decide (below_threshold _ _ _)).
Qed.

(** C21: one round of the report task.  The traffic the core hands out, with its
    counters reset, is posted once, whatever becomes of the request; every
    device recorded since the last round is taken from the limiter; and the
    panel is told, for exactly the users with such devices whose traffic in
    this report is not below the threshold (users without reported traffic
    included), all their addresses in order. *)
Theorem report_task_exact c w p l core' r :
  ct_limiter c = Some p → reg_heap (w_reg w) !! p = Some l →
  core_GetUserTrafficSlice (ct_tag c) true (w_core w) = (core', r) → no_panic r →
  let traffic := match r with Ok t => t | _ => [] end in
  let '(l', devices) := GetOnlineDevice l in
  ∃ w', reportUserTrafficTask (c, w) = (c, w', Ok tt) ∧
    w_core w' = core' ∧ the_limiter (c, w') = Some l' ∧
    (devices = [] → w_panel w' = after_traffic traffic (w_panel w)) ∧
    (devices ≠ [] → ∃ data,
       w_panel w' = (pn_ReportNodeOnlineUsers data (after_traffic traffic (w_panel w))).1 ∧
       ∀ uid, data !! uid =
         if decide (below_threshold (opt_DeviceOnlineMinTraffic (ct_Options c)) traffic uid) then None
         else some_ips (ips_of uid devices)).
Proof. exact (report_task_run c w p l core' r). Qed.
End reports.

(** ** All nodes *)
Section nodes.
Context {C P : Type} `{CO : CoreOps C} `{PO : PanelOps P}.
Context `{RL : RatelimitLib} `{RE : RegexpLib} `{RO : RangeOrder} `{AL : AcmeLib} `{MJ : MetaJson}.
Notation World := (World (C := C) (P := P)).
Implicit Types (c : Controller) (w : World).

Lemma Node_Close_unmade (n : Node) w : None ∈ n → ∃ x, (Node_Close n w).2 = Panic x.
Proof.
  revert w. induction n as [|o n IH]; intros w Hn; [by apply not_elem_of_nil in Hn|].
  destruct o as [[c p]|]; simpl; [|by eexists].
  apply elem_of_cons in Hn as [|Hn]; [done|].
  destruct (Close (c, with_panel p w)) as [[c' w'] [[e|]|[]|x]]; [by eexists|by apply IH|by eexists].
Qed.

(** More nodes behind the failing one change nothing but leave nil entries. *)
Lemma start_nodes_app nodes post i (n extra : Node) w n' w' e :
  start_nodes nodes i n w = (n', w', Err e) → (i + length nodes ≤ length n)%nat →
  start_nodes (nodes ++ post) i (n ++ extra)%list w = ((n' ++ extra)%list, w', Err e).
Proof.
  revert i n w. induction nodes as [|cfg nodes IH]; intros i n w; [done|].
  cbn [start_nodes app length]. intros Hr Hlen. revert Hr.
  destruct (pn_New _ _) as [p|e'|x]; [|by intros [= <- <- <-]|done].
  destruct (Start _) as [[c w1] [[e'|]|[]|x]]; [| |done].
  - intros [= <- <- <-]. by rewrite (insert_app_l n extra) by lia.
  - intros Hr. rewrite (insert_app_l n extra) by lia. apply IH; [done|].
    rewrite (length_insert n). lia.
Qed.

(** When a node other than the last cannot be started, the entries behind it
    are nil, and closing what was started panics: after a reload that failed
    this way, the next change of the configuration file, which closes the
    nodes first, ends the process. *)
Theorem failed_start_close_panics nodes post w n w' e :
  Node_Start nodes w = (n, w', Err e) → post ≠ [] →
  ∃ n', Node_Start (nodes ++ post) w = (n', w', Err e) ∧
    ∀ w'', ∃ x, (Node_Close n' w'').2 = Panic x.
Proof.
  unfold Node_Start. intros Hs Hpost.
  exists (n ++ replicate (length post) None)%list. split.
  - rewrite length_app, replicate_add. apply start_nodes_app; [done|]. rewrite length_replicate. lia.
  - intros w''. apply Node_Close_unmade, elem_of_app. right.
    destruct post as [|q post]; [done|]. left.
Qed.
End nodes.

(** * Witnesses: the abstract core, a panel that answers from a list, and the
    machine without a network of Cert.v *)
#[local] Existing Instance canonical_order.
#[local] Existing Instance wit_ratelimit.
#[local] Existing Instance wit_regexp.
#[local] Existing Instance wit_machine.
#[local] Existing Instance wit_crypto.
#[local] Existing Instance wit_acme.
#[local] Existing Instance wit_metajson.

(** One answer per round: the node, the users; and the last reports. *)
Record WitPanel := mkWitPanel {
  wp_answers : list (option NodeInfo * option (list UserInfo));
  wp_online : list (gmap Z (list string));
}.

#[global] Instance WitPanel_ops : PanelOps WitPanel := {|
  pn_New := λ cfg p, if decide (api_NodeID cfg = 0%Z) then Err "no such node" else Ok p;
  pn_APIHost := λ p, "http://panel";
  pn_NodeId := λ p, 7%Z;
  pn_GetNodeInfo := λ p, (p, Ok (head (wp_answers p) ≫= fst));
  pn_GetUserList := λ p, (p, Ok (head (wp_answers p) ≫= snd));
  pn_GetUserAlive := λ p, (mkWitPanel (tail (wp_answers p)) (wp_online p), Ok (Some ∅));
  pn_ReportUserTraffic := λ l p, (p, Some "timeout");
  pn_ReportNodeOnlineUsers := λ d p, (mkWitPanel (wp_answers p) (wp_online p ++ [d])%list, None);
  pn_ReportCertStatus := λ d p, (p, None);
|}.

Definition wit_node (push pull : Z) : NodeInfo :=
  mkNodeInfo 7 "shadowsocks" None_ push pull RawDNS_empty Rules_empty None None None None None None None
    None None false false.

Definition wit_limiter (tag : string) : Limiter := new_limiter tag LimitConfig_zero wit_old ∅.

(** A node that runs with the users of [wit_old]. *)
Definition wit_controller (name tag : string) : Controller :=
  mkController tag (Some 0) None (Some wit_old) None (Some (wit_node Minute Minute)) None
    (Some (mkPeriodic Minute (Task_Start false task_init))) (Some (mkPeriodic Minute (Task_Start false task_init)))
    None None None
    (mkOptions name "" "" "" "" 0 0 LimitConfig_zero "" None None "" None).

Definition wit_world (tag : string) (answers : list (option NodeInfo * option (list UserInfo)))
    : World (C := SpecCore) (P := WitPanel) :=
  mkWorld {[tag := list_to_set (uuids wit_old)]} (mkRegistry {[0 := wit_limiter tag]} {[tag := 0]})
    (mkWitPanel answers []) ∅.

Lemma wit_in_step name tag answers : in_step 4 wit_old (wit_controller name tag, wit_world tag answers).
Proof.
  split; [done|by_decide|by_decide|cbn; by rewrite lookup_singleton_eq|].
  exists (wit_limiter tag). split; [done|]. apply new_limiter_tables. by_decide.
Qed.

Lemma wit_kept u v : u ∈ wit_old → v ∈ wit_new → ident u = ident v → u = v.
Proof.
  intros Hu Hv Hi. unfold wit_old, wit_new in *. set_unfold.
  destruct Hu as [->|[->|[->|[]]]], Hv as [->|[->|[->|[]]]]; first [done|discriminate].
Qed.

Lemma wit_answers tag newN newU :
  answers (w_panel (wit_world tag [(newN, newU)])) newN newU (Some ∅) (mkWitPanel [] []).
Proof. eexists _, _. by split_and!. Qed.


Lemma wit_no_tls push pull (s : Controller * World (C := SpecCore) (P := WitPanel)) :
  (request_if_tls (wit_node push pull) s).2 = Ok None.
Proof. done. Qed.

Lemma wit_calls newN newU tag c (core : SpecCore) :
  reload_calls newN newU tag c core
    (<[tag := default ∅ (<[tag := default ∅ (delete (ct_tag c) core !! tag)]> (delete (ct_tag c) core) !! tag)
              ∪ list_to_set (uuids (users_after newU c))]>
       (<[tag := default ∅ (delete (ct_tag c) core !! tag)]> (delete (ct_tag c) core)))
    newN (optionsForNode (ct_Options c) (Some newN)).
Proof. by econstructor. Qed.


(** The user dddd of [wit_new] comes with a change of the node. *)
Lemma named_reload_locks_out_witness :
  let '(s', r) := nodeInfoMonitor (wit_controller "n" "n",
      wit_world "n" [(Some (wit_node Minute Minute), Some wit_new); (None, Some wit_new)]) in
  r = Ok tt ∧ "dddd" ∈ served (w_core s'.2) "n" ∧ locked_out "n" "dddd" s'.
Proof.
  set (w := wit_world "n" _).
  assert (answers (w_panel w) (Some (wit_node Minute Minute)) (Some wit_new) (Some ∅)
            (mkWitPanel [(None, Some wit_new)] [])) as Hans by (eexists _, _; by split_and!).
  pose proof (named_reload_locks_out 4 (wit_node Minute Minute) wit_new (Some ∅) _
    (wit_controller "n" "n") w 0 (wit_limiter "n") _ _ _ [] (mkUserInfo 4 "dddd" 0 0) ltac:(done) Hans
    eq_refl eq_refl eq_refl (wit_no_tls _ _) (wit_calls _ _ _ _ _) ltac:(by_decide) ltac:(by_decide)
    ltac:(by_decide) ltac:(by_decide)) as Hw.
  destruct (nodeInfoMonitor _) as [s' r]. destruct Hw as (Hr & Hs & Hlo & _). by split_and!.
Defined.

(** A network whose answers are played back in order; it fails when none is left. *)
Definition wit_replay : HttpLib := {|
  HWorld := list (res string (option response));
  http_get := λ path hdr w, (tail w, default (Err "timeout") (head w));
  http_post := λ path body w, (w, Err "timeout");
  sha256_hex := λ b, b;
  decode_users := λ f b, Ok None;
  decode_alive := λ b, Ok None;
  path_Join := λ p, p;
|}.

Definition wit_replies : list (res string (option response)) :=
  [Ok (Some (mkResponse 200 "conf2" "e2" "")); Err "timeout";
   Ok (Some (mkResponse 200 "conf2" "e2" "")); Ok (Some (mkResponse 304 "" "" ""))].

Definition wit_client_world : World (C := SpecCore) (P := Client * HWorld (HttpLib := wit_replay)) :=
  mkWorld ∅ (mkRegistry {[0 := wit_limiter "n"]} ∅)
    (mkClient "http://panel" "" "key" "trojan" 7 "e1" "" "conf1" 5 [], wit_replies) ∅.

Lemma node_change_lost_witness :
  let _ := wit_replay in let _ := wit_trojan_decoder in
  let '(s1, r1) := nodeInfoMonitor (wit_controller "" "n", wit_client_world) in
  let '(s2, r2) := nodeInfoMonitor s1 in
  r2 = Ok tt ∧ s2.1 = wit_controller "" "n" ∧ w_core s2.2 = ∅.
Proof.
  cbv zeta.
  destruct (@build_node wit_trojan_decoder canonical_order 7 "trojan" "conf2") as [n| |] eqn:Hn;
    [|vm_compute in Hn; discriminate Hn ..].
  pose proof (node_change_lost (HL := wit_replay) (ND := wit_trojan_decoder) (wit_controller "" "n")
    wit_client_world _ _ _ _ _ _ _ _ _ _ n 0 (wit_limiter "n") eq_refl eq_refl eq_refl eq_refl
    ltac:(by_decide) ltac:(by_decide) Hn eq_refl eq_refl ltac:(by_decide) eq_refl eq_refl eq_refl) as Hw.
  destruct (nodeInfoMonitor _) as [s1 r1]. destruct (nodeInfoMonitor s1) as [s2 r2].
  destruct Hw as (_ & _ & _ & _ & H2 & H3 & H4). by split_and!.
Defined.

(** A core that refuses every change of its users. *)
Record StuckCore := mkStuck { stuck_users : gmap string (gset string) }.

#[local] Instance StuckCore_ops : CoreOps StuckCore := {|
  core_Start := λ c, (c, Ok tt);
  core_Close := λ c, (c, Ok tt);
  core_AddNode := λ tag info opt c, (c, (info, opt), Ok tt);
  core_DelNode := λ tag c, (c, Ok tt);
  core_AddUsers := λ p c, (c, Err "stuck");
  core_GetUserTrafficSlice := λ tag reset c, (c, Ok []);
  core_DelUsers := λ us tag info c, (c, Err "stuck");
  core_Protocols := λ c, [];
  core_Type := λ c, "stuck";
|}.

#[local] Program Instance StuckCore_NodeCore : NodeCore StuckCore := {|
  served := λ c tag, default ∅ (stuck_users c !! tag);
  core_tag := λ tag, True;
|}.
Next Obligation. done. Qed.
Next Obligation. done. Qed.
Next Obligation. by intros p c c' r tag [= <- _]. Qed.
Next Obligation. by intros us tag info c c' r tag' [= <- _]. Qed.

(** A network that knows one list of users, under the ETag "u2". *)
Definition wit_etags : HttpLib := {|
  HWorld := unit;
  http_get := λ path hdr w,
    (w, Ok (Some (if decide (path = config_path ∨ ("If-None-Match", "u2") ∈ hdr)
                  then mkResponse 304 "" "" "" else mkResponse 200 "users" "u2" "application/json")));
  http_post := λ path body w, (w, Ok (Some (mkResponse 200 "" "" "")));
  sha256_hex := λ b, b;
  decode_users := λ f b, Ok (Some wit_new);
  decode_alive := λ b, Ok (Some ∅);
  path_Join := λ p, p;
|}.

Definition wit_etag_client : Client := mkClient "http://panel" "" "key" "trojan" 7 "c1" "u1" "conf1" 5 [].

Definition wit_stuck_world : World (C := StuckCore) (P := Client * HWorld (HttpLib := wit_etags)) :=
  mkWorld (mkStuck {["n" := list_to_set (uuids wit_old)]}) (mkRegistry {[0 := wit_limiter "n"]} {["n" := 0]})
    (wit_etag_client, tt) ∅.

Lemma wit_stuck_in_step : in_step 4 wit_old (wit_controller "" "n", wit_stuck_world).
Proof.
  split; [done|by_decide|by_decide|cbn; by rewrite lookup_singleton_eq|].
  exists (wit_limiter "n"). split; [done|]. apply new_limiter_tables. by_decide.
Qed.

Lemma refused_list_not_retried_witness :
  let _ := wit_etags in let _ := wit_trojan_decoder in
  let '(s1, r1) := nodeInfoMonitor (wit_controller "" "n", wit_stuck_world) in
  let '(s2, r2) := nodeInfoMonitor s1 in
  r1 = Ok tt → r2 = Ok tt ∧ ct_userList s2.1 = Some wit_old.
Proof.
  cbv zeta.
  pose proof (refused_list_not_retried (HL := wit_etags) (ND := wit_trojan_decoder) 4 wit_old wit_new
    (wit_node Minute Minute) (wit_controller "" "n") wit_stuck_world wit_etag_client tt tt tt tt tt
    (mkResponse 304 "" "" "") (mkResponse 200 "users" "u2" "application/json") (mkResponse 304 "" "" "")
    (mkResponse 304 "" "" "") eq_refl wit_stuck_in_step eq_refl eq_refl eq_refl eq_refl
    ltac:(by_decide) eq_refl ltac:(done) ltac:(by_decide) ltac:(by_decide) wit_kept) as Hw.
  destruct (compareUserList wit_old wit_new) as [deleted added] eqn:E.
  destruct (nodeInfoMonitor (_, wit_stuck_world)) as [s1 r1]. destruct (nodeInfoMonitor s1) as [s2 r2].
  intros Hr1. destruct Hw as (Hr & Hk & _); [|done..|].
  - left. vm_compute in E. by injection E as <- <-.
  - split; [exact Hr|apply Hk].
Defined.

(** A core that only holds traffic. *)
#[local] Instance wit_traffic_core : CoreOps (list UserTraffic) := {|
  core_Start := λ c, (c, Ok tt);
  core_Close := λ c, (c, Ok tt);
  core_AddNode := λ tag info opt c, (c, (info, opt), Ok tt);
  core_DelNode := λ tag c, (c, Ok tt);
  core_AddUsers := λ p c, (c, Ok 0%Z);
  core_GetUserTrafficSlice := λ tag reset c, (if reset then [] else c, Ok c);
  core_DelUsers := λ us tag info c, (c, Ok tt);
  core_Protocols := λ c, [];
  core_Type := λ c, "traffic";
|}.

Definition wit_online_limiter : Limiter :=
  set_UserOnlineIP {["n|aaaa" := {["1.1.1.1" := 1%Z]}; "n|bbbb" := {["2.2.2.2" := 2%Z]}]} (wit_limiter "n").

Definition wit_report_controller : Controller :=
  mkController "n" (Some 0) None (Some wit_old) None None None None None None None None
    (mkOptions "" "" "" "" "" 1 0 LimitConfig_zero "" None None "" None).

Definition wit_report_world : World (C := list UserTraffic) (P := WitPanel) :=
  mkWorld [mkUserTraffic 1 10 20] (mkRegistry {[0 := wit_online_limiter]} ∅) (mkWitPanel [] []) ∅.

(** User 1 moved 30 bytes, less than 1 kB, and is not counted; user 2 has no
    traffic in the report and is. *)
Lemma report_task_exact_witness :
  ∃ w' data, reportUserTrafficTask (wit_report_controller, wit_report_world)
      = (wit_report_controller, w', Ok tt) ∧
    w_core w' = [] ∧ wp_online (w_panel w') = [data] ∧
    data !! 1%Z = None ∧ data !! 2%Z = Some ["2.2.2.2"].
Proof.
  pose proof (report_task_exact wit_report_controller wit_report_world 0 wit_online_limiter []
    (Ok [mkUserTraffic 1 10 20]) eq_refl eq_refl eq_refl I) as Hw.
  destruct (GetOnlineDevice wit_online_limiter) as [l' devices] eqn:Hd.
  vm_compute in Hd. injection Hd as _ <-.
  destruct Hw as (w' & Hr & Hc & _ & _ & Hp). destruct Hp as (data & Hp & Hdata); [done|].
  exists w', data. split; [exact Hr|]. split; [exact Hc|]. split; [by rewrite Hp|].
  rewrite !Hdata. split; vm_compute; reflexivity.
Defined.

(** The node with id 0 is refused by the panel; the one behind it stays nil. *)
Definition wit_config (id : Z) : NodeConfig :=
  mkNodeConfig (mkApiConfig "" "" id "" "" 0 "") Options_zero.

Lemma failed_start_close_panics_witness :
  ∃ n', Node_Start [wit_config 0; wit_config 7] (wit_world "n" []) = (n', wit_world "n" [], Err "no such node") ∧
    ∃ x, (Node_Close n' (wit_world "n" [])).2 = Panic x.
Proof.
  assert (Node_Start [wit_config 0] (wit_world "n" []) = ([None], wit_world "n" [], Err "no such node")) as Hf
    by (unfold Node_Start; cbn [start_nodes length replicate pn_New WitPanel_ops]; by rewrite decide_True).
  destruct (failed_start_close_panics [wit_config 0] [wit_config 7] (wit_world "n" []) [None]
    (wit_world "n" []) "no such node" Hf ltac:(done)) as (n' & Hs & Hc).
  exists n'. split; [exact Hs|apply Hc].
Defined.
