(* ===== verification/ControllerConc.v ===== *)
(** The tasks of a node under concurrency (src/node/task.go, user.go and
    cert.go): the monitor, the report task and the renewal of the certificate
    run in goroutines of their own, next to the connections that ask the limiter.

    Each task is the program of Controller, written once more as a tree of
    atomic calls (Progs); [tasks_sequential] says that a task that runs alone
    does exactly what Controller says.  An atomic call is one call of the core,
    of the panel's client or of the limiter, with the accesses to the
    controller's fields next to it; [UpdateUser] and [GetOnlineDevice], which
    LimitConc takes apart, are one call here.  A call that panics ends its own
    task here, where it would end the process.

    [monitor_sync_among_tasks] is the guarantee of [monitor_users_sync] in every
    interleaving with report tasks and connections; [two_rounds_out_of_step]
    and [renewal_undoes_round] are what a second round of the monitor and a
    renewal do to it. *)

From S2P Require Import Prelude Threads Progs GoStd Conf Panel PanelNode PanelClient NodeOptions.
From S2P Require Import Counter Traffic Limiter UserDiff Task Core Lego Cert Controller.
From S2P Require Import Host XrayCore XrayInbound XrayNode.
From stdpp Require Import prelude gmap strings relations.
From Stdlib Require Import ZArith Lia.

Open Scope string_scope.

Section tasks.
Context {C P : Type} `{CO : CoreOps C} `{PO : PanelOps P}.
Context `{RL : RatelimitLib} `{RE : RegexpLib} `{RO : RangeOrder} `{AL : AcmeLib} `{MJ : MetaJson}.
Abbreviation ctl := (ctl (C := C) (P := P)).
Abbreviation World := (World (C := C) (P := P)).
Abbreviation state := (Controller * World)%type.
Abbreviation prog := (prog state).
Implicit Types (c : Controller) (w : World) (s : state).

(** ** nodeInfoMonitor *)
Definition reload_cert_task : prog unit :=
  let* c := call get in
  match ct_info c, ct_activeOptions c with
  | Some info, Some opts =>
      let* r := call call_DelNode in
      match r with
      | inl _ => pret tt
      | inr _ =>
          let* c := call get in
          let* r := call (call_AddNode (default info (ct_info c)) (default opts (ct_activeOptions c))) in
          match r with
          | inl _ => pret tt
          | inr info =>
              let* c := call get in
              let* _ := call (call_AddUsers (default [] (ct_userList c)) (default info (ct_info c))) in pret tt
          end
      end
  | _, _ => pret tt
  end.

Definition requestCertAndReport_task (reloadOnChange : bool) : prog (option string) :=
  let* (previous, meta, err) := call call_requestCert in
  let* _ := call (reportCertStatus meta err) in
  let* _ := (if reloadOnChange && bool_decide (err = None) && certMetadataChanged previous meta
             then reload_cert_task else pret tt) in
  pret err.

Definition request_if_tls_task (node : NodeInfo) : prog (option string) :=
  if decide (ni_Security node = Tls) then requestCertAndReport_task false else pret None.

Definition renew_limiter_task (newN : NodeInfo) (newA : option (gmap Z Z)) : prog unit :=
  let* c := call get in
  if decide (opt_Name (ct_Options c) = "") then
    let* _ := call (call_buildNodeTag newN) in
    let* c := call get in
    let* _ := call (on_registry (λ reg, DeleteLimiter reg (ct_tag c))) in
    let* l := call (call_AddLimiter newA) in
    call (modify (set_limiter (Some l)))
  else pret tt.

Definition set_up_node_task (newN : NodeInfo) (newA : option (gmap Z Z)) (activeOptions : Options) : prog unit :=
  let* _ := renew_limiter_task newN newA in
  let* _ := call (call_SetAlive newA) in
  let* _ := call (call_UpdateRule (ni_Rules newN)) in
  let* e := request_if_tls_task newN in
  match e with
  | Some _ => pret tt
  | None =>
      let* r := call (call_AddNode newN activeOptions) in
      match r with
      | inl _ => ppanic "Add node failed"
      | inr newN =>
          let* c := call get in
          let* r := call (call_AddUsers (default [] (ct_userList c)) newN) in
          match r with
          | inl _ => pret tt
          | inr _ => call (modify (update_intervals newN))
          end
      end
  end.

Definition reload_node_task (newN : NodeInfo) (newU : option (list UserInfo)) (newA : option (gmap Z Z))
    : prog unit :=
  let* c := call get in
  let activeOptions := optionsForNode (ct_Options c) (Some newN) in
  let* _ := call (modify (set_node (Some newN) (Some activeOptions))) in
  let* _ := (match newU with Some u => call (modify (set_userList (Some u))) | None => pret tt end) in
  let* _ := call (modify (set_traffic (Some ∅))) in
  let* r := call call_DelNode in
  match r with
  | inl _ => ppanic "Delete node failed"
  | inr _ => set_up_node_task newN newA activeOptions
  end.

(** The difference from the addition on. *)
Definition add_users_task (newU deleted added : list UserInfo) : prog unit :=
  let* r := call (add_users added) in
  match r with
  | inl _ => pret tt
  | inr _ =>
      let* _ := call (tell_limiter deleted added) in
      call (modify (set_userList (Some newU)))
  end.

Definition apply_user_diff_task (newU deleted added : list UserInfo) : prog unit :=
  let* r := call (delete_users deleted) in
  match r with
  | inl _ => pret tt
  | inr _ => add_users_task newU deleted added
  end.

Definition update_users_task (newU : option (list UserInfo)) (newA : option (gmap Z Z)) : prog unit :=
  let* _ := call (call_SetAlive newA) in
  match newU with
  | None | Some [] => pret tt
  | Some newU =>
      let* c := call get in
      let '(deleted, added) := compareUserList (default [] (ct_userList c)) newU in
      apply_user_diff_task newU deleted added
  end.

Definition nodeInfoMonitor_task : prog unit :=
  let* rn := call (on_panel pn_GetNodeInfo) in
  match rn with
  | inl _ => pret tt
  | inr newN =>
      let* ru := call (on_panel pn_GetUserList) in
      match ru with
      | inl _ => pret tt
      | inr newU =>
          let* ra := call (on_panel pn_GetUserAlive) in
          match ra with
          | inl _ => pret tt
          | inr newA =>
              match newN with
              | Some newN => reload_node_task newN newU newA
              | None => update_users_task newU newA
              end
          end
      end
  end.

(** ** renewCertTask *)
Definition renew_task : prog unit := let* _ := requestCertAndReport_task true in pret tt.

(** ** reportUserTrafficTask *)
Definition report_task : prog unit :=
  let* c := call get in
  let* r := call (on_core (core_GetUserTrafficSlice (ct_tag c) true)) in
  let userTraffic := match r with inr l => l | inl _ => [] end in
  let* _ := (match userTraffic with
             | [] => pret None
             | l => call (report_panel (pn_ReportUserTraffic l))
             end) in
  let* onlineDevice := call (on_limiter (λ l, let '(l, o) := GetOnlineDevice l in (l, Ok o))) in
  match onlineDevice with
  | [] => pret tt
  | _ =>
      let nocount := nocount_uids (opt_DeviceOnlineMinTraffic (ct_Options c)) userTraffic in
      let* _ := call (report_panel (pn_ReportNodeOnlineUsers (online_data (counted_online nocount onlineDevice)))) in
      pret tt
  end.

(** ** A connection asks the limiter that is registered under a tag *)
Definition ask_limiter (tag : string) (now : Z) (key ip : string) (isTcp device : bool)
    : ctl (option Bucket * bool) := λ '(c, w),
  match reg_map (w_reg w) !! tag ≫= λ p, pair p <$> reg_heap (w_reg w) !! p with
  | None => (c, w, Ok (None, false))
  | Some (p, l) =>
      let '(l, b, reject) := CheckLimit now key ip isTcp device l in (c, with_heap p l w, Ok (b, reject))
  end.

Definition connection_task tag now key ip isTcp device : prog unit :=
  let* _ := call (ask_limiter tag now key ip isTcp device) in pret tt.

(** Anything a core does on its own account. *)
Definition core_task {A} (f : C → C * res string A) : prog unit :=
  let* _ := call (on_core f) in pret tt.

(** * A task alone is the sequential one *)
Definition runs {A} (p : prog A) (m : ctl A) : Prop := ∀ s, prun p s = m s.

Lemma runs_call {A} (m : ctl A) : runs (call m) m.
Proof. intros s. apply prun_call. Qed.

Lemma runs_bind {A B} (p : prog A) m (k : A → prog B) k' :
  runs p m → (∀ a, runs (k a) (k' a)) → runs (pbind p k) (bind m k').
Proof.
  intros Hp Hk s. rewrite prun_bind, Hp. unfold bind. destruct (m s) as [s1 [a|[]|w]]; [apply Hk|done].
Qed.

Lemma runs_ret {A} (a : A) : runs (pret a) (ret a).
Proof. done. Qed.

Lemma runs_panic {A} why : runs (ppanic (A := A) why) (panic why).
Proof. done. Qed.

Ltac runs_step :=
  match goal with
  | |- runs (pbind _ _) (bind _ _) => apply runs_bind; [|intros ?]
  | |- runs (call ?m) ?m => apply runs_call
  | |- runs (pret _) (ret _) => apply runs_ret
  | |- runs (ppanic _) (panic _) => apply runs_panic
  | |- runs (match ?x with _ => _ end) _ => destruct x
  end.
Ltac runs := repeat runs_step.

Lemma requestCertAndReport_runs reload :
  runs (requestCertAndReport_task reload) (requestCertAndReport reload).
Proof.
  unfold requestCertAndReport_task, requestCertAndReport, reload_cert_task, reloadNodeAfterCertChange. runs.
Qed.

Lemma request_if_tls_runs node : runs (request_if_tls_task node) (request_if_tls node).
Proof.
  unfold request_if_tls_task, request_if_tls. case_decide; [apply requestCertAndReport_runs|runs].
Qed.

Lemma renew_limiter_runs newN newA : runs (renew_limiter_task newN newA) (renew_limiter newN newA).
Proof. unfold renew_limiter_task, renew_limiter. runs. Qed.

Lemma reload_node_runs newN newU newA : runs (reload_node_task newN newU newA) (reload_node newN newU newA).
Proof.
  unfold reload_node_task, reload_node, set_up_node_task, set_up_node. cbv zeta.
  runs; try apply renew_limiter_runs; try apply request_if_tls_runs; runs.
Qed.

Lemma update_users_runs newU newA : runs (update_users_task newU newA) (update_users newU newA).
Proof.
  unfold update_users_task, update_users, apply_user_diff_task, add_users_task, apply_user_diff. runs.
Qed.

(** A monitor task, or a report task, that no other task interleaves with
    does what the controller's method does: the same final state, the same
    result, and it always ends; and so does a renewal of the certificate. *)
Lemma tasks_sequential s :
  rtc (own_step prog_step) (s, nodeInfoMonitor_task)
    ((nodeInfoMonitor s).1, Return (nodeInfoMonitor s).2) ∧
  rtc (own_step prog_step) (s, report_task)
    ((reportUserTrafficTask s).1, Return (reportUserTrafficTask s).2) ∧
  rtc (own_step prog_step) (s, renew_task) ((renewCertTask s).1, Return (renewCertTask s).2).
Proof.
  assert (runs nodeInfoMonitor_task nodeInfoMonitor) as Hm.
  { unfold nodeInfoMonitor_task, nodeInfoMonitor.
    runs; (apply reload_node_runs || apply update_users_runs). }
  assert (runs report_task reportUserTrafficTask) as Hr.
  { unfold report_task, reportUserTrafficTask. cbv zeta. runs. }
  assert (runs renew_task renewCertTask) as Hc.
  { unfold renew_task, renewCertTask. runs. apply requestCertAndReport_runs. }
  rewrite <- Hm, <- Hr, <- Hc. split_and!; apply prog_ends.
Qed.
End tasks.

(** * What the neighbours of a monitor may do

    Between two calls of the monitor the report task, connections and the core
    itself may do anything that keeps the users each node serves, the users
    each limiter knows (unless it holds dynamic limits, which expire under
    connections) and the answers of the panel. *)
Definition no_dynamic `{RatelimitLib, RegexpLib} (l : Limiter) : Prop :=
  ∀ k u, lim_UserLimitInfo l !! k = Some u → uli_ExpireTime u = 0%Z.

Definition same_tables `{RatelimitLib, RegexpLib} (l l' : Limiter) : Prop :=
  lim_UserLimitInfo l' = lim_UserLimitInfo l ∧ UUIDtoUID l' = UUIDtoUID l.

Section neighbours.
#[local] Set Default Proof Using "Type*".
Context {C P : Type} `{CO : CoreOps C} `{NC : !NodeCore C} `{RF : !ReportFrame C} `{PO : PanelOps P}.
Context `{RL : RatelimitLib} `{RE : RegexpLib} `{RO : RangeOrder} `{AL : AcmeLib} `{MJ : MetaJson}.
Abbreviation ctl := (ctl (C := C) (P := P)).
Abbreviation World := (World (C := C) (P := P)).
Abbreviation state := (Controller * World)%type.
Abbreviation prog := (prog state).
Implicit Types (c : Controller) (w : World) (s : state).

(** What the panel will say to the monitor, which asks three questions in a
    round: [says i] holds of the panel's client when [i] of them are answered.
    The client may remember its answers, as the one of the repository remembers
    ETags; reports may come in between. *)
Variable says : nat → P → Prop.

Record answering (newU : list UserInfo) : Prop := {
  an_node : ∀ p, says 0 p → ∃ p', pn_GetNodeInfo p = (p', Ok None) ∧ says 1 p';
  an_users : ∀ p, says 1 p → ∃ p', pn_GetUserList p = (p', Ok (Some newU)) ∧ says 2 p';
  an_alive : ∀ p, says 2 p → ∃ p' newA, pn_GetUserAlive p = (p', Ok newA) ∧ says 3 p';
  an_traffic : ∀ i l p, says i p → says i (pn_ReportUserTraffic l p).1;
  an_online : ∀ i d p, says i p → says i (pn_ReportNodeOnlineUsers d p).1;
}.

Record harmless s s' : Prop := {
  hl_controller : s'.1 = s.1;
  hl_served : ∀ tag, served (w_core s'.2) tag = served (w_core s.2) tag;
  hl_limiter : ∀ p l, reg_heap (w_reg s.2) !! p = Some l → no_dynamic l →
    ∃ l', reg_heap (w_reg s'.2) !! p = Some l' ∧ same_tables l l';
  hl_panel : ∀ i, says i (w_panel s.2) → says i (w_panel s'.2);
}.

#[local] Instance harmless_preorder : PreOrder harmless.
Proof.
  split.
  - intros s. split; [done..| |done]. intros p l Hl _. by exists l.
  - intros s1 s2 s3 [H1 H2 H3 H4] [K1 K2 K3 K4]. split; [congruence|intros; by rewrite K2| |auto].
    intros p l Hl Hd. destruct (H3 p l Hl Hd) as (l2 & Hl2 & Ht2 & Hu2).
    destruct (K3 p l2 Hl2) as (l3 & Hl3 & Ht3 & Hu3); [unfold no_dynamic; by rewrite Ht2|].
    exists l3. split; [done|]. split; congruence.
Qed.

(** A change of the core, of the panel, or of one limiter. *)
Lemma harmless_core c w core :
  (∀ tag, served core tag = served (w_core w) tag) → harmless (c, w) (c, with_core core w).
Proof. intros Hc. split; [done|done| |done]. intros p l Hl _. by exists l. Qed.

Lemma harmless_panel c w p :
  (∀ i, says i (w_panel w) → says i p) → harmless (c, w) (c, with_panel p w).
Proof. intros Hp. split; [done|done| |done]. intros q l Hl _. by exists l. Qed.

Lemma harmless_heap c w p l l' :
  reg_heap (w_reg w) !! p = Some l → (no_dynamic l → same_tables l l') →
  harmless (c, w) (c, with_heap p l' w).
Proof.
  intros Hp Ht. split; [done|done| |done]. intros q l0 Hq Hd. simpl.
  destruct (decide (p = q)) as [->|Hne].
  - rewrite lookup_insert_eq. exists l'. split; [done|]. simpl in Hq. simplify_eq. by apply Ht.
  - rewrite lookup_insert_ne by done. by exists l0.
Qed.

Lemma CheckLimit_same_tables now k ip t d l :
  no_dynamic l → same_tables l (CheckLimit now k ip t d l).1.1.
Proof.
  intros Hd. destruct (lim_UserLimitInfo l !! k) as [u|] eqn:Hu; [|by rewrite CheckLimit_unknown].
  rewrite (CheckLimit_known _ _ _ _ _ _ u Hu). unfold CheckLimit_user. rewrite (Hd _ _ Hu), andb_false_r.
  destruct (known_reject l k ip d u); [done|].
  pose proof (CheckLimit_bucket_spec k (determineSpeedLimit (uli_SpeedLimit u) (uli_DynamicSpeedLimit u))
    (recorded l k ip d u)) as Hs.
  destruct (CheckLimit_bucket _ _ _) as [l3 b]. destruct Hs as ((_ & _ & _ & Huid & _) & _ & _ & Hui). simpl.
  unfold same_tables. rewrite Huid, Hui. unfold recorded. by destruct d.
Qed.

(** The tasks that may run next to a monitor. *)
Inductive neighbour : prog unit → Prop :=
| nb_report : neighbour report_task
| nb_connection tag now key ip isTcp device :
    neighbour (connection_task tag now key ip isTcp device)
| nb_core {A} (f : C → C * res string A) :
    (∀ core tag, served (f core).1 tag = served core tag) → neighbour (core_task f)
| nb_harmless p : guarantees harmless p → neighbour p.

Lemma connection_harmless tag now key ip isTcp device :
  guarantees harmless (connection_task tag now key ip isTcp device).
Proof.
  split; [|done]. intros [c w]. unfold ask_limiter.
  destruct (reg_map (w_reg w) !! tag) as [p|]; simpl; [|done].
  destruct (reg_heap (w_reg w) !! p) as [l|] eqn:Hl; simpl; [|done].
  pose proof (CheckLimit_same_tables now key ip isTcp device l) as Ht.
  destruct (CheckLimit _ _ _ _ _ l) as [[l' b] r]. by eapply harmless_heap.
Qed.

Lemma core_harmless {A} (f : C → C * res string A) :
  (∀ core tag, served (f core).1 tag = served core tag) → ∀ s, harmless s (on_core f s).1.
Proof.
  intros Hf [c w]. unfold on_core. specialize (Hf (w_core w)). destruct (f (w_core w)) as [core r].
  by apply harmless_core.
Qed.
Lemma panel_harmless f :
  (∀ i p, says i p → says i (f p).1) → ∀ s : state, harmless s (report_panel f s).1.
Proof.
  intros Hf [c w]. unfold report_panel. pose proof (λ i, Hf i (w_panel w)) as Hf'. clear Hf.
  destruct (f (w_panel w)) as [p r]. by apply harmless_panel.
Qed.

Lemma limiter_harmless {A} (f : Limiter → Limiter * res Empty_set A) :
  (∀ l, no_dynamic l → same_tables l (f l).1) → ∀ s : state, harmless s (on_limiter f s).1.
Proof.
  intros Hf [c w]. unfold on_limiter.
  destruct (ct_limiter c) as [p|]; simpl; [|done].
  destruct (reg_heap (w_reg w) !! p) as [l|] eqn:Hl; simpl; [|done].
  specialize (Hf l). destruct (f l) as [l' r]. by eapply harmless_heap.
Qed.

Lemma report_harmless newU : answering newU → guarantees harmless report_task.
Proof.
  intros [_ _ _ Ht Ho]. unfold report_task.
  apply guarantees_bind; [by apply guarantees_call|]. intros c.
  apply guarantees_bind; [apply guarantees_call, core_harmless; intros; apply GetUserTrafficSlice_served|].
  intros r. cbv zeta.
  apply guarantees_bind.
  { destruct (match r with inl _ => [] | inr l => l end); [done|].
    apply guarantees_call, panel_harmless. auto. }
  intros _. apply guarantees_bind.
  { apply guarantees_call, limiter_harmless. intros l _. pose proof (GetOnlineDevice_spec l) as Hs.
    destruct (GetOnlineDevice l) as [l' o]. destruct Hs as (_ & _ & (_ & _ & _ & Hu & _) & Hi & _).
    by split. }
  intros [|d ds]; [done|]. apply guarantees_bind; [|done].
  apply guarantees_call, panel_harmless. auto.
Qed.

Lemma neighbour_harmless newU p : answering newU → neighbour p → guarantees harmless p.
Proof.
  intros Hs [| | A f Hf|q Hq]; [by eapply report_harmless|apply connection_harmless| |done].
  apply guarantees_bind; [|done]. by apply guarantees_call, core_harmless.
Qed.

(** * The monitor among its neighbours

    The node serves the users [X] and its limiter knows the users [vs]; and,
    until the difference is applied, the controller holds the list [us]. *)
Record serving (vs : list UserInfo) (X : gset string) (t : string) s : Prop := {
  sv_tag : ct_tag s.1 = t;
  sv_served : served (w_core s.2) t = X;
  sv_nodup : NoDup (uuids vs);
  sv_limiter : ∃ l, the_limiter s = Some l ∧ lim_UserLimitInfo l = limits_of t vs ∧ UUIDtoUID l = uids_of vs;
}.

Record stage (us : list UserInfo) (X : gset string) (info : NodeInfo) (t : string) s : Prop := {
  sg_list : ct_userList s.1 = Some us;
  sg_info : ct_info s.1 = Some info;
  sg_serving : serving us X t s;
}.

Lemma limits_no_dynamic t vs l :
  NoDup (uuids vs) → lim_UserLimitInfo l = limits_of t vs → no_dynamic l.
Proof.
  intros Hnd Hl k u. rewrite Hl. unfold limits_of.
  rewrite table_lookup by (by apply NoDup_tags). by intros (x & _ & _ & <-).
Qed.

Lemma serving_stable vs X t s s' : serving vs X t s → harmless s s' → serving vs X t s'.
Proof.
  intros [H1 H2 Hnd (l & Hl & Hu & Hi)] [K1 K2 K3 _]. split; rewrite ?K1, ?K2; [done..|].
  unfold the_limiter in *. rewrite K1. destruct (ct_limiter s.1) as [p|]; [|done]. simpl in *.
  destruct (K3 p l Hl) as (l' & Hl' & Hu' & Hi'); [by eapply limits_no_dynamic|].
  exists l'. split; [done|]. split; congruence.
Qed.

Lemma stage_stable us X info t s s' : stage us X info t s → harmless s s' → stage us X info t s'.
Proof.
  intros [H1 H2 H3] Hh. pose proof (hl_controller _ _ Hh) as Hc.
  split; rewrite ?Hc; [done..|by eapply serving_stable].
Qed.

Lemma stage_core us X info t c w core :
  stage us X info t (c, w) → stage us (served core t) info t (c, with_core core w).
Proof. by intros [H1 H2 [H3 H4 H5 H6]]. Qed.

Lemma stage_panel us X info t c w (p : P) :
  stage us X info t (c, w) → stage us X info t (c, with_panel p w).
Proof. by intros [H1 H2 [H3 H4 H5 H6]]. Qed.

Lemma serving_pointer vs X t c w :
  serving vs X t (c, w) → ∃ p l, ct_limiter c = Some p ∧ reg_heap (w_reg w) !! p = Some l ∧
    lim_UserLimitInfo l = limits_of t vs ∧ UUIDtoUID l = uids_of vs.
Proof.
  intros [_ _ _ (l & Hl & Hu)]. unfold the_limiter in Hl. simpl in Hl.
  destruct (ct_limiter c) as [p|]; [|done]. by exists p, l.
Qed.

Lemma update_users_list newU newA :
  newU ≠ [] →
  update_users_task (C := C) (P := P) (Some newU) newA =
    let* _ := call (call_SetAlive newA) in
    let* c := call get in
    let '(deleted, added) := compareUserList (default [] (ct_userList c)) newU in
    apply_user_diff_task newU deleted added.
Proof using Type. by destruct newU. Qed.

Section sync.
Variables (n : nat) (us newU : list UserInfo) (info : NodeInfo) (t : string).
Hypothesis (Hlen : uuid_length n us) (Hnlen : uuid_length n newU).
Hypothesis (Hnd : NoDup (uuids us)) (Hnnd : NoDup (uuids newU)).
Hypothesis (Hkept : ∀ u v, u ∈ us → v ∈ newU → ident u = ident v → u = v).

(** The calls that the monitor makes, and the states it makes them in. *)
Variable makes : state → prog unit → Prop.

(** Among them is a call of the difference that the core refuses, in the state
    that it is in then: the removal or the addition. *)
Definition refused : Prop :=
  let '(deleted, added) := compareUserList us newU in
  ∃ s, (makes s (apply_user_diff_task newU deleted added) ∧
          is_ok (core_deleted t info deleted (w_core s.2)).2 = false) ∨
       (makes s (add_users_task newU deleted added) ∧
          is_ok (core_added t info added (w_core s.2)).2 = false).

Definition outcome s (r : res Empty_set unit) : Prop :=
  (r = Ok tt ∧ ct_userList s.1 = Some newU ∧ serving newU (list_to_set (uuids newU)) t s) ∨
  (refused ∧ ∃ X, stage us X info t s).

Lemma outcome_stable s s' r : harmless s s' → outcome s r → outcome s' r.
Proof.
  intros Hh [(-> & Hl & Hs)|[Hr [X Hs]]]; [left|right].
  - split; [done|]. rewrite (hl_controller _ _ Hh). split; [done|]. by eapply serving_stable.
  - split; [done|]. exists X. by eapply stage_stable.
Qed.

Lemma gave_up_safe X s r : refused → stage us X info t s → safe harmless makes outcome (Return r) s.
Proof. intros Hr Hs s' Hh. eapply outcome_stable; [done|]. right. split; [done|]. by exists X. Qed.

Lemma tell_safe s :
  stage us (list_to_set (uuids newU)) info t s →
  let '(deleted, added) := compareUserList us newU in
  safe harmless makes outcome
    (let* _ := call (tell_limiter deleted added) in call (modify (set_userList (Some newU)))) s.
Proof.
  intros Hs. destruct (compareUserList us newU) as [deleted added] eqn:Hd.
  apply safe_call; [apply _|]. intros [c w] [_ _ Hs']%(stage_stable _ _ _ _ _ _ Hs) _.
  destruct (serving_pointer _ _ _ _ _ Hs') as (p & l & Hp & Hl & Hu & Hi).
  destruct Hs' as [Ht Hsv _ _]. simpl in Ht, Hsv.
  destruct (tell_limiter_run deleted added c w p l Hp Hl) as (c' & w' & -> & Htag & Hcore & _ & Hlim).
  pose proof (UpdateUser_tables n t us newU l Hlen Hnlen Hnd Hnnd Hkept Hu Hi) as Htab.
  rewrite Hd in Htab. intros [c1 w1] Hh _. simpl. intros s' Hh'. eapply outcome_stable; [done|].
  assert (serving newU (list_to_set (uuids newU)) t (c', w')) as Hn.
  { split; simpl; [congruence|congruence|done|]. eexists. split; [exact Hlim|]. rewrite Ht.
    by destruct added, deleted. }
  apply (serving_stable _ _ _ _ _ Hn) in Hh. destruct Hh as [K1 K2 K3 K4]. left. by split_and!.
Qed.

Lemma apply_safe s :
  stage us (list_to_set (uuids us)) info t s →
  let '(deleted, added) := compareUserList us newU in
  safe harmless makes outcome (apply_user_diff_task newU deleted added) s.
Proof.
  intros Hs. pose proof (compareUserList_members n us newU Hlen Hnlen Hnd Hnnd) as Hm.
  pose proof tell_safe as Htell. pose proof gave_up_safe as Hgive. unfold refused in Hgive.
  destruct (compareUserList us newU) as [deleted added]. destruct Hm as [HD HA].
  apply safe_call; [apply _|]. intros [c w] Hs1%(stage_stable _ _ _ _ _ _ Hs) Hm1. clear s Hs.
  pose proof Hs1 as [_ Hi [Ht Hsv _ _]]. simpl in Hi, Ht, Hsv.
  destruct (core_deleted t info deleted (w_core w)) as [core1 r1] eqn:Hd1.
  destruct (delete_users_run deleted c w info core1 r1 Hi ltac:(by rewrite Ht)) as [-> Hsv1].
  apply (stage_core _ _ _ _ _ _ core1) in Hs1. rewrite Ht in Hsv1.
  destruct r1 as [[]|e|x];
    [|refine (Hgive _ _ _ _ Hs1); exists (c, w); left; (split; [exact Hm1|simpl; by rewrite Hd1])..].
  rewrite (Hsv1 eq_refl), Hsv in Hs1. clear Hsv1 Hsv Hd1 Ht Hi.
  apply safe_call; [apply _|]. intros [c2 w2] Hs2%(stage_stable _ _ _ _ _ _ Hs1) Hm2. clear c w core1 Hs1 Hm1.
  pose proof Hs2 as [_ Hi [Ht Hsv _ _]]. simpl in Hi, Ht, Hsv.
  destruct (core_added t info added (w_core w2)) as [core2 r2] eqn:Ha2.
  destruct (add_users_run added c2 w2 info core2 r2 Hi ltac:(by rewrite Ht)) as [-> Hsv2].
  apply (stage_core _ _ _ _ _ _ core2) in Hs2. rewrite Ht in Hsv2.
  destruct r2 as [k|e|x];
    [|refine (Hgive _ _ _ _ Hs2); exists (c2, w2); right; (split; [exact Hm2|simpl; by rewrite Ha2])..].
  apply Htell. rewrite (Hsv2 _ eq_refl), Hsv in Hs2. by rewrite (diff_uuids us newU) in Hs2.
Qed.

Lemma update_safe newA s :
  newU ≠ [] → stage us (list_to_set (uuids us)) info t s →
  safe harmless makes outcome (update_users_task (Some newU) newA) s.
Proof.
  intros Hne Hs. rewrite update_users_list by done.
  apply safe_call; [apply _|]. intros [c w] Hs1%(stage_stable _ _ _ _ _ _ Hs) _. clear s Hs.
  destruct (serving_pointer _ _ _ _ _ (sg_serving _ _ _ _ _ Hs1)) as (p & l & Hp & Hl & Hu & Hi).
  destruct (call_SetAlive_run newA c w p l Hp Hl) as (w' & l' & -> & Hcore & _ & _ & _ & Hl' & ->).
  assert (stage us (list_to_set (uuids us)) info t (c, w')) as Hs2.
  { destruct Hs1 as [H1 H2 [H3 H4 _ _]]. split; [done..|]. split; simpl; rewrite ?Hcore; [done..|].
    eexists. unfold the_limiter. simpl. rewrite Hp. simpl. rewrite Hl'. split; [done|]. by destruct newA. }
  clear Hs1 Hcore Hl'.
  apply safe_call; [apply _|]. intros s Hs3%(stage_stable _ _ _ _ _ _ Hs2) _.
  unfold get. rewrite (sg_list _ _ _ _ _ Hs3). change (default [] (Some us)) with us.
  pose proof (apply_safe s Hs3) as Ha. by destruct (compareUserList us newU).
Qed.

(** A question to the panel, after which it will say [says (S i)]. *)
Lemma ask_safe {A} i (f : P → P * res string A) (ok : A → Prop) k X s :
  (∀ p, says i p → ∃ p' a, f p = (p', Ok a) ∧ ok a ∧ says (S i) p') →
  says i (w_panel s.2) → stage us X info t s →
  (∀ a s', ok a → says (S i) (w_panel s'.2) → stage us X info t s' →
     safe harmless makes outcome (k (inr a)) s') →
  safe harmless makes outcome (pbind (call (on_panel f)) k) s.
Proof.
  intros Hf Hsay Hs Hk. apply safe_call; [apply _|]. intros [c w] Hh _.
  apply (stage_stable _ _ _ _ _ _ Hs) in Hh as Hs1. apply (hl_panel _ _ Hh) in Hsay. simpl in Hsay.
  unfold on_panel. destruct (Hf _ Hsay) as (p1 & a & -> & Ha & Hp1). simpl.
  apply Hk; [done|done|]. by eapply stage_panel.
Qed.

Lemma monitor_safe s :
  newU ≠ [] → answering newU → says 0 (w_panel s.2) → stage us (list_to_set (uuids us)) info t s →
  safe harmless makes outcome nodeInfoMonitor_task s.
Proof.
  intros Hne [Hn Hu Ha _ _] Hsay Hs. unfold nodeInfoMonitor_task.
  apply (ask_safe 0 _ (λ a, a = None) _ _ _ ltac:(intros p Hp; destruct (Hn p Hp) as (p' & ? & ?); eauto) Hsay Hs).
  clear s Hsay Hs. intros a s -> Hsay Hs.
  apply (ask_safe 1 _ (λ a, a = Some newU) _ _ _ ltac:(intros p Hp; destruct (Hu p Hp) as (p' & ? & ?); eauto) Hsay Hs).
  clear s Hsay Hs. intros a s -> Hsay Hs.
  apply (ask_safe 2 _ (λ _, True) _ _ _
    ltac:(intros p Hp; destruct (Ha p Hp) as (p' & newA & ? & ?); eauto 6) Hsay Hs).
  clear s Hsay Hs. intros newA s _ _ Hs. by apply update_safe.
Qed.
End sync.

(** What the round of a monitor leaves when the core refused one of its calls in
    the run from [c] to [c']: the old list, and the limiter's tables of the old
    users. *)
Definition refused_in_run us newU info (t : string) j (c c' : state * list (prog unit)) : Prop :=
  refused us newU info t (makes_call c c' j) ∧
  ct_userList c'.1.1 = Some us ∧
  ∃ l, the_limiter c'.1 = Some l ∧ lim_UserLimitInfo l = limits_of t us ∧ UUIDtoUID l = uids_of us.

(** Whatever the neighbours do, and for as long as they go on. *)
Lemma monitor_outcome n us newU info s ts j s' ts' r :
  in_step n us s → ct_info s.1 = Some info → says 0 (w_panel s.2) → answering newU → newU ≠ [] →
  uuid_length n newU → NoDup (uuids newU) →
  (∀ u v, u ∈ us → v ∈ newU → ident u = ident v → u = v) →
  ts !! j = Some nodeInfoMonitor_task → (∀ i q, i ≠ j → ts !! i = Some q → neighbour q) →
  rtc (pool_step prog_step) (s, ts) (s', ts') → ts' !! j = Some (Return r) →
  (r = Ok tt ∧ in_step n newU s') ∨
  refused_in_run us newU info (ct_tag s.1) j (s, ts) (s', ts').
Proof.
  intros [H1 H2 H3 H4 H5] Hi Hsay Hst Hne Hnlen Hnnd Hkept Hj Hnb Hr Hret.
  assert (outcome us newU info (ct_tag s.1) (makes_call (s, ts) (s', ts') j) s' r) as Ho.
  { apply (pool_safe harmless _ j nodeInfoMonitor_task (s, ts) (s', ts') r Hj); [| |done..].
    - by eapply monitor_safe.
    - intros i q Hij Hq. eapply neighbour_harmless; [done|]. by eapply Hnb. }
  destruct Ho as [(-> & Hl & [K1 K2 K3 K4])|(Href & X & [K1 _ [_ _ _ K4]])]; [left|by right].
  split; [done|]. split; [done..| |]; by rewrite K1.
Qed.

End neighbours.

(** * Two monitors of one controller

    A change of the interval leaves two loops of the monitor behind
    ([Task.task_restart_duplicates]), and nothing keeps their rounds apart. *)
Section rounds.
#[local] Set Default Proof Using "Type*".
Context {C P : Type} `{CO : CoreOps C} `{NC : !NodeCore C} `{PO : PanelOps P}.
Context `{RL : RatelimitLib} `{RE : RegexpLib} `{RO : RangeOrder} `{AL : AcmeLib} `{MJ : MetaJson}.
Abbreviation World := (World (C := C) (P := P)).
Abbreviation state := (Controller * World)%type.
Abbreviation alone := (rtc (own_step (prog_step (S := state) (A := unit)))).
Implicit Types (c : Controller) (w : World) (s : state).

(** A round until it has compared the lists. *)
Lemma monitor_reads c w us newU newA p' p l :
  answers (w_panel w) None (Some newU) newA p' → newU ≠ [] → ct_userList c = Some us →
  ct_limiter c = Some p → reg_heap (w_reg w) !! p = Some l →
  let '(deleted, added) := compareUserList us newU in
  ∃ w' l', alone ((c, w), nodeInfoMonitor_task) ((c, w'), apply_user_diff_task newU deleted added) ∧
    w_core w' = w_core w ∧ w_panel w' = p' ∧ reg_heap (w_reg w') !! p = Some l'.
Proof.
  intros (p1 & p2 & HN & HU & HA) Hne Hus Hp Hl.
  destruct (call_SetAlive_run newA c (with_panel p' w) p l Hp Hl)
    as (w' & l' & Hset & Hc & Hpn & _ & _ & Hl' & _).
  destruct (compareUserList us newU) as [deleted added] eqn:Hd. exists w', l'.
  split; [|by rewrite Hc, Hpn].
  unfold nodeInfoMonitor_task.
  eapply rtc_l; [by apply (call_step _ _ _ (c, with_panel p1 w) (inr None)); unfold on_panel; rewrite HN|].
  eapply rtc_l; [by apply (call_step _ _ _ (c, with_panel p2 w) (inr (Some newU))); unfold on_panel; simpl; rewrite HU|].
  eapply rtc_l; [by apply (call_step _ _ _ (c, with_panel p' w) (inr newA)); unfold on_panel; simpl; rewrite HA|].
  cbv beta iota. rewrite update_users_list by done.
  eapply rtc_l; [by apply (call_step _ _ _ (c, w') tt)|].
  eapply rtc_l; [by apply (call_step _ _ _ (c, w') c)|].
  cbv beta. rewrite Hus. change (default [] (Some us)) with us. rewrite Hd. apply rtc_refl.
Qed.

Lemma tell_limiter_info deleted added s : ct_info (tell_limiter deleted added s).1.1 = ct_info s.1.
Proof.
  destruct s as [c w]. unfold tell_limiter. set (go := bind _ _).
  assert (ct_info (go (c, w)).1.1 = ct_info c) as Hgo; [|by destruct added, deleted].
  unfold go, call_UpdateUser, bind, get, on_limiter. cbn [fst].
  destruct (ct_limiter c ≫= _) as [[p l]|]; [simpl|done].
  by destruct (lim_EnableDynamicSpeedLimit _).
Qed.

(** The core, in the state [core], takes both calls of a difference, and is left
    in the state [core']. *)
Definition takes (t : string) (info : NodeInfo) (deleted added : list UserInfo) (core core' : C) : Prop :=
  ∃ core1 k, core_deleted t info deleted core = (core1, Ok tt) ∧ core_added t info added core1 = (core', Ok k).

(** The rest of a round: the calls of the core, and then the limiter and the
    list. *)
Definition finish_round (newU deleted added : list UserInfo) : Progs.prog state unit :=
  let* _ := call (tell_limiter deleted added) in call (modify (set_userList (Some newU))).

Lemma monitor_calls newU deleted added info c w core :
  ct_info c = Some info → takes (ct_tag c) info deleted added (w_core w) core →
  alone ((c, w), apply_user_diff_task newU deleted added)
    ((c, with_core core w), finish_round newU deleted added) ∧
  served core (ct_tag c) =
    served (w_core w) (ct_tag c) ∖ list_to_set (uuids deleted) ∪ list_to_set (uuids added).
Proof.
  intros Hi (core1 & k & Hd1 & Ha2).
  destruct (delete_users_run deleted c w info _ _ Hi Hd1) as [Hd Hs1].
  destruct (add_users_run added c (with_core core1 w) info _ _ Hi Ha2) as [Hadd Hs2]. split.
  - eapply rtc_l; [by apply (call_step _ _ _ _ (inr tt) Hd)|]. apply rtc_once.
    unfold own_step, prog_step. simpl. by rewrite Hadd.
  - by rewrite (Hs2 _ eq_refl), <- (Hs1 eq_refl).
Qed.

Lemma round_finishes newU deleted added c w p l :
  ct_limiter c = Some p → reg_heap (w_reg w) !! p = Some l →
  ∃ c' w' l', alone ((c, w), finish_round newU deleted added) ((c', w'), Return (Ok tt)) ∧
    ct_userList c' = Some newU ∧ ct_info c' = ct_info c ∧ ct_tag c' = ct_tag c ∧
    ct_limiter c' = Some p ∧ reg_heap (w_reg w') !! p = Some l' ∧ w_core w' = w_core w.
Proof.
  intros Hp Hl.
  destruct (tell_limiter_run deleted added c w p l Hp Hl) as (c' & w' & Ht & Htag & Hcore & [_ Hp'] & Hlim).
  pose proof (tell_limiter_info deleted added (c, w)) as Hi'. rewrite Ht in Hi'. simpl in Hi'.
  rewrite Hp in Hp'. unfold the_limiter in Hlim. simpl in Hlim. rewrite Hp' in Hlim. simpl in Hlim.
  eexists (set_userList (Some newU) c'), w', _. split; [|by split_and!].
  eapply rtc_l; [by apply (call_step _ _ _ _ tt Ht)|]. by apply rtc_once.
Qed.

(** One of two tasks runs while the other waits. *)
Lemma first_runs s s' p p' q :
  alone (s, p) (s', p') → rtc (pool_step prog_step) (s, [p; q]) (s', [p'; q]).
Proof. intros Hr. by apply (pool_one prog_step 0 s p s' p' [p; q]). Qed.

Lemma second_runs s s' p q q' :
  alone (s, q) (s', q') → rtc (pool_step prog_step) (s, [p; q]) (s', [p; q']).
Proof. intros Hr. by apply (pool_one prog_step 1 s q s' q' [p; q]). Qed.

Lemma uuids_added u (us new : list UserInfo) :
  u ∈ uuids new → u ∉ uuids us → u ∈ uuids (filter (λ x, ident x ∉ ident <$> us) new).
Proof.
  rewrite !uuids_elem. intros (x & Hx & <-) Hu. exists x. split; [|done].
  apply list_elem_of_filter. split; [|done]. intros (y & Hy & Hin)%list_elem_of_fmap.
  apply Hu. exists y. split; [done|]. unfold ident in Hy. congruence.
Qed.

(** A controller that holds a list does nothing to the core in a round that finds
    the panel at that list. *)
Lemma held_list_kept n listB c w p l t :
  uuid_length n listB → NoDup (uuids listB) → listB ≠ [] → ct_userList c = Some listB →
  ct_limiter c = Some p → reg_heap (w_reg w) !! p = Some l →
  ∀ q alive q', answers q None (Some listB) alive q' →
    served (w_core (nodeInfoMonitor (c, with_panel q w)).1.2) t = served (w_core w) t.
Proof.
  intros Hlen Hnd Hne Hu Hp Hl q alive q' Hans.
  destruct (same_list_round n listB alive q' c (with_panel q w) p l) as (w5 & l5 & -> & Hc5 & _);
    try done. simpl. by rewrite Hc5.
Qed.

(** C37: Two rounds that overlap, the second with the answer that the panel gave
    last or first: both compare with the old list, and the one that ends last
    leaves its list in the controller.  When the core takes the calls that the
    two make, one pair after the other, a user that only the other list adds is
    served from then on, though the controller does not know it, and no round
    that finds the panel at the controller's list removes it. *)
Theorem two_rounds_out_of_step n us listA listB aliveA aliveB p1 p2 info c w u coreA coreB :
  in_step n us (c, w) → ct_info c = Some info →
  answers (w_panel w) None (Some listA) aliveA p1 → answers p1 None (Some listB) aliveB p2 →
  listA ≠ [] → listB ≠ [] → uuid_length n listA → uuid_length n listB →
  NoDup (uuids listA) → NoDup (uuids listB) →
  takes (ct_tag c) info (compareUserList us listA).1 (compareUserList us listA).2 (w_core w) coreA →
  takes (ct_tag c) info (compareUserList us listB).1 (compareUserList us listB).2 coreA coreB →
  u ∈ uuids listA → u ∉ uuids us → u ∉ uuids listB →
  ∃ s', rtc (pool_step prog_step) ((c, w), [nodeInfoMonitor_task; nodeInfoMonitor_task])
          (s', [Return (Ok tt); Return (Ok tt)]) ∧
    ct_userList s'.1 = Some listB ∧ w_core s'.2 = coreB ∧ u ∈ served coreB (ct_tag c) ∧
    ∀ p alive p', answers p None (Some listB) alive p' →
      u ∈ served (w_core (nodeInfoMonitor (s'.1, with_panel p s'.2)).1.2) (ct_tag c).
Proof.
  intros [Hus Hlen Hnd Hsv (l & Hl & _)] Hi HA HB HneA HneB HlA HlB HnA HnB HtA HtB HuA Hu HuB. simpl in *.
  unfold the_limiter in Hl. simpl in Hl. destruct (ct_limiter c) as [p|] eqn:Hp; [|done]. simpl in Hl.
  pose proof (monitor_reads c w us listA aliveA p1 p l HA HneA Hus Hp Hl) as H1.
  pose proof (compareUserList_members n us listA Hlen HlA Hnd HnA) as HmA.
  destruct (compareUserList us listA) as [delA addA]. destruct HmA as [_ HaddA].
  destruct H1 as (w1 & l1 & H1 & Hc1 & Hp1 & Hl1). rewrite <- Hp1 in HB.
  pose proof (monitor_reads c w1 us listB aliveB p2 p l1 HB HneB Hus Hp Hl1) as H2.
  pose proof (compareUserList_members n us listB Hlen HlB Hnd HnB) as HmB.
  destruct (compareUserList us listB) as [delB addB]. destruct HmB as [HdelB _].
  destruct H2 as (w2 & l2 & H2 & Hc2 & _ & Hl2). rewrite <- Hc1, <- Hc2 in HtA.
  destruct (monitor_calls listA delA addA info c w2 coreA Hi HtA) as [H3 Hs3].
  destruct (round_finishes listA delA addA c (with_core coreA w2) p l2 Hp Hl2)
    as (c4 & w4 & l4 & H4 & _ & Hi4 & Ht4 & Hp4 & Hl4 & Hc4).
  rewrite Hi in Hi4. simpl in Hc4. rewrite <- Ht4, <- Hc4 in HtB.
  destruct (monitor_calls listB delB addB info c4 w4 coreB Hi4 HtB) as [H5 Hs5].
  destruct (round_finishes listB delB addB c4 (with_core coreB w4) p l4 Hp4 Hl4)
    as (c6 & w6 & l6 & H6 & Hu6 & _ & _ & Hp6 & Hl6 & Hc6). simpl in Hc6.
  assert (u ∈ served coreB (ct_tag c)) as Hserved.
  { rewrite <- Ht4, Hs5, Hc4, Ht4, Hs3. apply elem_of_union_l, elem_of_difference. split.
    - apply elem_of_union_r, elem_of_list_to_set. rewrite HaddA. by apply uuids_added.
    - intros (x & [Hx _]%HdelB & <-)%elem_of_list_to_set%uuids_elem. apply Hu, uuids_elem. by exists x. }
  exists (c6, w6). split; [|split_and!; [done|done|done|]].
  - etrans; [apply first_runs, H1|]. etrans; [apply second_runs, H2|].
    etrans; [apply first_runs; etrans; [apply H3|apply H4]|].
    apply second_runs. etrans; [apply H5|apply H6].
  - intros q alive q' Hans. cbn [fst snd].
    by rewrite (held_list_kept n listB c6 w6 p l6 _ HlB HnB HneB Hu6 Hp6 Hl6 _ _ _ Hans), Hc6.
Qed.

(** The renewal of the certificate sets the node up again, without users, and
    then adds the controller's list; the core takes its three calls. *)
Definition renews (t : string) (info : NodeInfo) (opts : Options) (us : list UserInfo) (core core' : C) : Prop :=
  ∃ core1 core2 info' opts' k, core_DelNode t core = (core1, Ok tt) ∧
    core_AddNode t info opts core1 = (core2, (info', opts'), Ok tt) ∧ served core2 t = ∅ ∧
    core_AddUsers (mkAddUsersParams t us info') core2 = (core', Ok k).

Lemma renewal_reloads us info opts c w core :
  ct_info c = Some info → ct_activeOptions c = Some opts → ct_userList c = Some us →
  renews (ct_tag c) info opts us (w_core w) core →
  ∃ c', alone ((c, w), reload_cert_task) ((c', with_core core w), Return (Ok tt)) ∧
    ct_limiter c' = ct_limiter c ∧ served core (ct_tag c) = list_to_set (uuids us).
Proof.
  intros Hi Ho Hu (core1 & core2 & info' & opts' & k & Hd & Hadd & Hs & Hus).
  set (c' := set_node (Some info') (Some opts') c).
  exists c'. split; [|split; [done|]].
  - unfold reload_cert_task.
    eapply rtc_l; [by apply (call_step _ _ _ (c, w) c)|]. cbv beta. rewrite Hi, Ho.
    eapply rtc_l; [apply (call_step _ _ _ (c, with_core core1 w) (inr tt)); unfold call_DelNode, bind, get;
      by rewrite (on_core_run _ _ _ _ _ Hd)|].
    eapply rtc_l; [by apply (call_step _ _ _ (c, with_core core1 w) c)|]. cbv beta. rewrite Hi, Ho.
    eapply rtc_l; [apply (call_step _ _ _ (c', with_core core2 w) (inr info')); unfold call_AddNode;
      simpl; by rewrite Hadd|].
    eapply rtc_l; [by apply (call_step _ _ _ (c', with_core core2 w) c')|].
    cbv beta. cbn [ct_userList ct_info c' set_node]. rewrite Hu.
    apply rtc_once. unfold own_step, prog_step, call_AddUsers, bind, get. simpl. by rewrite Hus.
  - apply AddUsers_served in Hus as [Hus _]. simpl in Hus. rewrite Hus, Hs. set_solver.
Qed.

(** A renewal of the certificate that falls between the core's calls and the end
    of a round of the monitor sets the node up again with the list that the
    round is about to replace.  Afterwards the node serves exactly the old
    users, while the controller holds the new list, and no round that finds the
    panel at that list puts it right. *)
Theorem renewal_undoes_round n us newU newA p' info opts c w core1 core2 :
  in_step n us (c, w) → ct_info c = Some info → ct_activeOptions c = Some opts →
  takes (ct_tag c) info (compareUserList us newU).1 (compareUserList us newU).2 (w_core w) core1 →
  renews (ct_tag c) info opts us core1 core2 →
  answers (w_panel w) None (Some newU) newA p' → newU ≠ [] → uuid_length n newU → NoDup (uuids newU) →
  ∃ s', rtc (pool_step prog_step) ((c, w), [nodeInfoMonitor_task; reload_cert_task])
          (s', [Return (Ok tt); Return (Ok tt)]) ∧
    ct_userList s'.1 = Some newU ∧ served (w_core s'.2) (ct_tag c) = list_to_set (uuids us) ∧
    ∀ p alive p', answers p None (Some newU) alive p' →
      served (w_core (nodeInfoMonitor (s'.1, with_panel p s'.2)).1.2) (ct_tag c) = list_to_set (uuids us).
Proof.
  intros [Hus Hlen Hnd Hsv (l & Hl & _)] Hi Ho Ht Hr HA Hne Hln Hnn. simpl in *.
  unfold the_limiter in Hl. simpl in Hl. destruct (ct_limiter c) as [p|] eqn:Hp; [|done]. simpl in Hl.
  pose proof (monitor_reads c w us newU newA p' p l HA Hne Hus Hp Hl) as H1.
  destruct (compareUserList us newU) as [deleted added].
  destruct H1 as (w1 & l1 & H1 & Hc1 & _ & Hl1). rewrite <- Hc1 in Ht.
  destruct (monitor_calls newU deleted added info c w1 core1 Hi Ht) as [H2 _].
  destruct (renewal_reloads us info opts c (with_core core1 w1) core2 Hi Ho Hus Hr) as (c3 & H3 & Hp3 & Hs3).
  rewrite Hp in Hp3.
  destruct (round_finishes newU deleted added c3 (with_core core2 (with_core core1 w1)) p l1 Hp3 Hl1)
    as (c4 & w4 & l4 & H4 & Hu4 & _ & _ & Hp4 & Hl4 & Hc4).
  assert (served (w_core w4) (ct_tag c) = list_to_set (uuids us)) as Hserved by (by rewrite Hc4).
  exists (c4, w4). split; [|split_and!; [done|done|]].
  - etrans; [apply first_runs; etrans; [apply H1|apply H2]|]. etrans; [apply second_runs, H3|].
    apply first_runs, H4.
  - intros q alive q' Hans. cbn [fst snd].
    by rewrite (held_list_kept n newU c4 w4 p l4 _ Hln Hnn Hne Hu4 Hp4 Hl4 _ _ _ Hans).
Qed.
End rounds.

(** * The client of the repository

    Over a network that has no news of the node, has a list of users for the
    ETag that the client holds, and keeps to that whatever is posted, the client
    answers the questions of a round. *)
Section client.
Context `{HL : HttpLib} `{ND : NodeDecoder} `{RO : RangeOrder}.
Variables (net : HWorld → Prop) (nodeEtag userEtag : string) (newU : list UserInfo).

Record news_of_users : Prop := {
  nw_node : ∀ hw, net hw → ∃ hw' rsp, http_get config_path [("If-None-Match", nodeEtag)] hw = (hw', Ok (Some rsp)) ∧
    rsp_Status rsp = 304%Z ∧ net hw';
  nw_users : ∀ hw, net hw → ∃ hw' rsp, http_get user_path (users_request userEtag) hw = (hw', Ok (Some rsp)) ∧
    rsp_ok rsp ∧ decode_users (users_format rsp) (rsp_Body rsp) = Ok (Some newU) ∧ net hw';
  nw_alive : ∀ hw, net hw → net (http_get alive_path [] hw).1;
  nw_post : ∀ path body hw, net hw → net (http_post path body hw).1;
}.

(** The list is asked for once: then the client holds another ETag. *)
Definition client_says (i : nat) (cw : Client * HWorld) : Prop :=
  net cw.2 ∧ cl_nodeEtag cw.1 = nodeEtag ∧ ((i ≤ 1)%nat → cl_userEtag cw.1 = userEtag).

Lemma client_posts path body i cw : news_of_users → client_says i cw → client_says i (post path body cw).1.
Proof.
  intros Hn (Hnet & H). unfold post. pose proof (nw_post Hn path body cw.2 Hnet).
  by destruct (http_post path body cw.2) as [hw r].
Qed.

Lemma client_answering : news_of_users → answering client_says newU.
Proof.
  intros Hn. split; cbn [pn_GetNodeInfo pn_GetUserList pn_GetUserAlive Client_ops].
  - intros [cl hw] (Hnet & Hne & Hue). cbn [fst snd] in *. destruct (nw_node Hn hw Hnet) as (hw' & rsp & Hg & H304 & Hnet').
    rewrite <- Hne in Hg. exists (cl, hw'). rewrite (GetNodeInfo_304 _ _ _ _ Hg H304).
    split; [done|]. split; [done|]. split; [done|]. intros _. apply Hue. lia.
  - intros [cl hw] (Hnet & Hne & Hue). cbn [fst snd] in *.
    destruct (nw_users Hn hw Hnet) as (hw' & rsp & Hg & Hok & Hd & Hnet').
    rewrite <- Hue in Hg by lia. eexists. rewrite (GetUserList_rsp _ _ _ _ _ Hg Hok Hd).
    split; [done|]. split; [done|]. split; [done|]. simpl. lia.
  - intros [cl hw] (Hnet & Hne & Hue). cbn [fst snd] in *. destruct (GetUserAlive_ok cl hw) as [a ->].
    eexists _, a. split; [done|]. split; [by apply (nw_alive Hn)|]. split; [done|]. simpl. lia.
  - intros i l cw Hs. apply (client_posts push_path (TrafficBody (traffic_data l))) in Hs; [|done].
    cbn [pn_ReportUserTraffic Client_ops]. unfold ReportUserTraffic.
    by destruct (post _ _ cw) as [[cl hw] r].
  - intros i d cw Hs. apply (client_posts online_path (OnlineBody d)) in Hs; [|done].
    cbn [pn_ReportNodeOnlineUsers Client_ops]. unfold ReportNodeOnlineUsers.
    by destruct (post _ _ cw) as [[cl hw] r].
Qed.
End client.

(** * Witnesses: a trojan node "n" on the xray core, with the users of [wit_old];
    cccc is connected through pipe 5, and his counter holds 5 bytes *)
#[local] Existing Instance canonical_order.
#[local] Existing Instance wit_ratelimit.
#[local] Existing Instance wit_regexp.
#[local] Existing Instance wit_machine.
#[local] Existing Instance wit_crypto.
#[local] Existing Instance wit_acme.
#[local] Existing Instance wit_metajson.
#[local] Existing Instance wit_host.
#[local] Existing Instance wit_xray.
#[local] Existing Instance wit_xray_users.
#[local] Existing Instance XrayNode.wit_conf.
#[local] Existing Instance XrayNode.wit_json.
#[local] Existing Instance XrayNode.wit_core.

Definition wit_xray_core : Xray :=
  mkXray (mkInstance ["n"] {["n" := list_to_set (UserTag "n" <$> uuids wit_old)]})
    (list_to_map ((λ u, (UserTag "n" (user_Uuid u), user_Id u)) <$> wit_old)) ∅
    {[0 := mkTrafficStorage 5 0]} {["n" := {["n|cccc" := 0]}]} {["n|cccc" := {[5 := 5]}]} (mkPipes ∅ ∅).

Definition wit_xray_controller : Controller :=
  mkController "n" (Some 0) None (Some wit_old) None (Some xray_node) None None None None None None
    (mkOptions "" "" "" "" "" 0 0 LimitConfig_zero "" None None "" None).

Definition wit_xray_world {P} (panel : P) : World (C := XrayState) (P := P) :=
  mkWorld (mkXrayState wit_xray_core true ∅) (mkRegistry {[0 := wit_limiter "n"]} {["n" := 0]}) panel ∅.

Lemma wit_xray_in_step {P} (panel : P) : in_step 4 wit_old (wit_xray_controller, wit_xray_world panel).
Proof.
  split; [done|by_decide|by_decide|cbn [fst snd wit_xray_world w_core]; by_decide|].
  exists (wit_limiter "n"). split; [done|]. apply new_limiter_tables. by_decide.
Qed.

(** The client of the repository, over the network of [wit_etags]. *)
#[local] Existing Instance wit_etags.
#[local] Existing Instance wit_trojan_decoder.

Lemma wit_news : news_of_users (λ _, True) "c1" "u1" wit_new.
Proof.
  split; [intros hw _; by eexists _, _|intros hw _|done|done].
  eexists _, _. split; [reflexivity|]. split; [by_decide|]. by split.
Qed.

Lemma wit_says : client_says (HL := wit_etags) (λ _, True) "c1" "u1" 0 (wit_etag_client, tt).
Proof. by split_and!. Qed.

Lemma wit_new_nonempty : wit_new ≠ [].
Proof. done. Qed.

(** A connection of a user and the report of its device between the calls of a
    monitor. *)
Definition wit_tasks : list (prog (Controller * World (C := XrayState) (P := Client * HWorld)) unit) :=
  [nodeInfoMonitor_task; report_task; connection_task "n" 0 "n|aaaa" "1.1.1.1" true true].
Definition wit_order : list nat := [0; 1; 0; 0; 2; 0; 0; 1; 0; 0; 1; 0; 1; 0; 0].

Lemma wit_neighbours i q : i ≠ 0 → wit_tasks !! i = Some q →
  neighbour (client_says (λ _, True) "c1" "u1") q.
Proof. intros Hi. destruct i as [|[|[|i]]]; [done|..|done]; intros [= <-]; constructor. Qed.


(** The xray core takes the calls of both rounds.  The panel answers with
    [wit_new], and then, to the second round, with the old list: the user dddd
    stays. *)
#[local] Existing Instance WitPanel_ops.

Lemma wit_two_answers l ls : answers (mkWitPanel ((None, Some l) :: ls) []) None (Some l) (Some ∅) (mkWitPanel ls []).
Proof. by eexists _, _; split_and!. Qed.

Lemma wit_old_nonempty : wit_old ≠ [].
Proof. done. Qed.

Lemma wit_same_list : compareUserList wit_old wit_old = ([], []).
Proof. vm_compute. reflexivity. Qed.

Lemma two_rounds_out_of_step_witness :
  ∃ s', rtc (pool_step prog_step)
          ((wit_xray_controller, wit_xray_world (mkWitPanel [(None, Some wit_new); (None, Some wit_old)] [])),
             [nodeInfoMonitor_task; nodeInfoMonitor_task]) (s', [Return (Ok tt); Return (Ok tt)]) ∧
    ct_userList s'.1 = Some wit_old ∧ "dddd" ∈ served (w_core s'.2) "n".
Proof.
  destruct (core_deleted "n" xray_node (compareUserList wit_old wit_new).1
    (mkXrayState wit_xray_core true ∅)) as [core1 r1] eqn:H1.
  assert (r1 = Ok tt) as ->.
  { assert ((core_deleted "n" xray_node (compareUserList wit_old wit_new).1
      (mkXrayState wit_xray_core true ∅)).2 = Ok tt) as Hv by (vm_compute; reflexivity). by rewrite H1 in Hv. }
  destruct (core_added "n" xray_node (compareUserList wit_old wit_new).2 core1) as [coreA r2] eqn:H2.
  assert (is_ok r2 = true) as Hr2.
  { assert (is_ok (core_added "n" xray_node (compareUserList wit_old wit_new).2
      (core_deleted "n" xray_node (compareUserList wit_old wit_new).1
        (mkXrayState wit_xray_core true ∅)).1).2 = true) as Hv by (vm_compute; reflexivity).
    rewrite H1 in Hv. cbn [fst] in Hv. by rewrite H2 in Hv. }
  destruct r2 as [k| |]; [|discriminate Hr2..].
  destruct (two_rounds_out_of_step 4 wit_old wit_new wit_old (Some ∅) (Some ∅)
    (mkWitPanel [(None, Some wit_old)] []) (mkWitPanel [] []) xray_node
    wit_xray_controller (wit_xray_world (mkWitPanel [(None, Some wit_new); (None, Some wit_old)] []))
    "dddd" coreA coreA) as (s' & Hr & Hu & Hc & Hs & _).
  all: [> apply wit_xray_in_step | reflexivity | apply wit_two_answers | apply wit_two_answers
        | exact wit_new_nonempty | exact wit_old_nonempty | by_decide | by_decide | by_decide | by_decide
        | exists core1, k; split; [exact H1|exact H2]
        | rewrite wit_same_list; exists coreA, 0%Z; split; reflexivity
        | by_decide | by_decide | by_decide | ].
  exists s'. split; [exact Hr|]. split; [exact Hu|]. by rewrite Hc.
Defined.

(** The users of the new list are not served, nor is anything done about it. *)
Definition wit_renewed : Controller :=
  set_node (Some (Controller.wit_node Minute Minute)) (Some Options_zero) (wit_controller "" "n").

Definition wit_renewed_core (core : SpecCore) : SpecCore :=
  let core := (core_AddNode "n" (Controller.wit_node Minute Minute) Options_zero (core_DelNode "n" core).1).1.1 in
  (core_AddUsers (mkAddUsersParams "n" wit_old (Controller.wit_node Minute Minute)) core).1.

Lemma wit_renews core :
  renews (C := SpecCore) "n" (Controller.wit_node Minute Minute) Options_zero wit_old core (wit_renewed_core core).
Proof.
  eexists _, _, _, _, _. split; [reflexivity|]. split; [reflexivity|]. split; [|reflexivity]. cbn.
  by rewrite lookup_insert_eq, lookup_delete_eq.
Qed.

Lemma renewal_undoes_round_witness :
  ∃ s', rtc (pool_step prog_step)
          ((wit_renewed, wit_world "n" [(None, Some wit_new)]), [nodeInfoMonitor_task; reload_cert_task])
          (s', [Return (Ok tt); Return (Ok tt)]) ∧
    ct_userList s'.1 = Some wit_new ∧ served (w_core s'.2) "n" = list_to_set (uuids wit_old).
Proof.
  destruct (compareUserList wit_old wit_new) as [deleted added] eqn:E.
  assert (deleted ≠ [] ∧ added ≠ []) as [Hd Ha] by (vm_compute in E; by injection E as <- <-).
  set (w := wit_world "n" [(None, Some wit_new)]).
  set (core := (core_AddUsers (mkAddUsersParams "n" added (Controller.wit_node Minute Minute))
                  (core_DelUsers deleted "n" (Controller.wit_node Minute Minute) (w_core w)).1).1).
  destruct (renewal_undoes_round 4 wit_old wit_new (Some ∅) (mkWitPanel [] [])
    (Controller.wit_node Minute Minute) Options_zero wit_renewed w core (wit_renewed_core core))
    as (s' & Hr & Hu & Hs & _).
  all: [> destruct (wit_in_step "" "n" [(None, Some wit_new)]); by split | reflexivity | reflexivity
        | | apply wit_renews | apply wit_two_answers | exact wit_new_nonempty | by_decide | by_decide
        | exists s'; split; [exact Hr|split; [exact Hu|exact Hs]] ].
  rewrite E. cbn [fst snd]. destruct deleted; [by destruct Hd|]. destruct added; [by destruct Ha|].
  eexists _, _. split; reflexivity.
Defined.
