(* ===== verification/EndToEnd.v ===== *)
(** The components together, over the xray core: what the panel is told and
    what the panel's decisions do, through the controller, the core, the
    dispatcher and the limiter at once.

    - A user who is not in the panel's new list any more, on a node that is
      otherwise unchanged: the round of the monitor that finds this out, when
      nothing runs in between, cuts his connections and locks him out, and what
      they carried since the last report is lost.
    - Bytes that a user's connection carries: once they are over the node's
      threshold, the next round of the report task tells the panel of exactly
      these, under his number, once; until then they stay counted. *)

From S2P Require Import Prelude GoStd Conf Panel PanelNode PanelClient NodeOptions Counter Traffic Limiter UserDiff Core.
From S2P Require Import Lego Cert Host XrayCore XrayInbound XrayNode Sniff Dispatcher Controller ControllerConc.
From stdpp Require Import prelude gmap strings.
From Stdlib Require Import Ascii ZArith Lia.

Open Scope string_scope.

Section end_to_end.
Context `{HO : HostOS} `{XL : XrayLib} `{XC : XrayConfLib} `{XJ : !XrayConfJson} `{CL : !XrayCoreLib}.
Context `{RL : RatelimitLib} `{RE : RegexpLib} `{RO : RangeOrder} `{AL : AcmeLib} `{MJ : MetaJson}.
Context `{NL : NetLib}.

(** * A removed user *)
Section removed.
#[local] Set Default Proof Using "Type*".
Context {P : Type} `{PO : PanelOps P} `{XU : !XrayUsers}.
Abbreviation World := (World (C := XrayState) (P := P)).
Implicit Types (w : World) (c : Controller).

(** The dispatcher of the core, with the limiters of the process. *)
Definition dispatcher_of w : Dispatcher := mkDispatcher (xs_core (w_core w)) (w_reg w).

Lemma Xray_AddUsers_frame p x x' r :
  Xray_AddUsers p x = (x', r) →
  xr_pipes x' = xr_pipes x ∧ xr_Counter x' = xr_Counter x ∧ xr_heap x' = xr_heap x.
Proof.
  unfold Xray_AddUsers. destruct (protocol_users p) as [us|e|q]; [|by intros [= <- _]..].
  destruct (map_err _ _) as [man|e|q]; [|by intros [= <- _]..].
  destruct (AddUsers_loop _ _ _) as [x1 r1] eqn:Hl. intros [= <- _].
  by apply AddUsers_loop_fields in Hl as [s ->].
Qed.

Lemma core_added_frame tag info added (s s' : XrayState) k :
  core_added tag info added s = (s', Ok k) →
  xr_pipes (xs_core s') = xr_pipes (xs_core s) ∧ xr_Counter (xs_core s') = xr_Counter (xs_core s) ∧
  xr_heap (xs_core s') = xr_heap (xs_core s).
Proof.
  unfold core_added. destruct added; [by intros [= <- _]|]. cbn [core_AddUsers Xray_ops].
  unfold xs_AddUsers. destruct (xs_open s) eqn:Ho; [|by intros [= _ ?%nil_pointer_not_ok]].
  intros [(_ & x' & Hx' & ->)|(? & _)]%when_open_inv; [|congruence]. simpl.
  by apply Xray_AddUsers_frame in Hx'.
Qed.

(** The core forgets the deleted users. *)
Lemma core_deleted_forgotten tag info deleted (s s' : XrayState) :
  core_deleted tag info deleted s = (s', Ok tt) → deleted ≠ [] →
  forgotten tag (UserTag tag <$> uuids deleted) (xs_core s) (xs_core s').
Proof.
  unfold core_deleted. destruct deleted as [|d deleted]; [done|]. cbn [core_DelUsers Xray_ops].
  intros [(_ & x' & Hx' & ->)|(_ & _ & ?)]%when_open_inv _; [|done]. cbn [xs_core].
  apply Xray_DelUsers_forgotten in Hx'. unfold uuids. by rewrite <- list_fmap_compose.
Qed.

(** A user the limiter does not know is refused. *)
Lemma getLink_unknown now up down si email network (d : Dispatcher) p l :
  si_User si = Some email → email ≠ "" →
  reg_map (ds_limiters d) !! si_Tag si = Some p → reg_heap (ds_limiters d) !! p = Some l →
  lim_UserLimitInfo l !! email = None →
  (getLink now up down (Some si) network d).2 = Err ("Limited " +:+ email +:+ " by conn or ip").
Proof.
  intros Hu Hne Hp Hl Hnone. unfold getLink. rewrite (limited_user_Some si email) by done.
  unfold Dispatcher.ask_limiter, GetLimiter. rewrite Hp, Hl, CheckLimit_unknown by done. done.
Qed.

Lemma limits_of_None tag l u : NoDup (uuids l) → u ∉ uuids l → limits_of tag l !! UserTag tag u = None.
Proof.
  intros Hnd Hu. destruct (limits_of tag l !! UserTag tag u) as [v|] eqn:Hv; [|done]. exfalso. apply Hu.
  unfold limits_of in Hv. apply table_lookup in Hv as (x & Hx & Hk & _); [|by apply NoDup_tags].
  apply UserTag_inj_uuid in Hk as <-. by apply list_elem_of_fmap_2.
Qed.

(** The panel takes user [u] off a node: the node is served as the list [us]
    says, the panel answers with the list [newU] without [u], and the core
    accepts the change. *)
Record drops n us newU newA p' info c w p u : Prop := {
  dr_step : in_step n us (c, w);
  dr_info : ct_info c = Some info;
  dr_answers : answers (w_panel w) None (Some newU) newA p';
  dr_users : newU ≠ [];
  dr_length : uuid_length n newU;
  dr_nodup : NoDup (uuids newU);
  dr_kept : ∀ x y, x ∈ us → y ∈ newU → ident x = ident y → x = y;
  dr_accepted : let '(deleted, added) := compareUserList us newU in
                ¬ core_refuses (ct_tag c) info deleted added (w_core w);
  dr_limiter : ct_limiter c = Some p;
  dr_registered : reg_map (w_reg w) !! ct_tag c = Some p;
  dr_was : u ∈ uuids us;
  dr_gone : u ∉ uuids newU;
}.

(** What the round of the monitor does then. *)
Record user_dropped c w p u (s' : Controller * World) : Prop := {
  dp_served : u ∉ served (w_core s'.2) (ct_tag c);
  dp_limiter : ∃ l', reg_map (w_reg s'.2) !! ct_tag c = Some p ∧ reg_heap (w_reg s'.2) !! p = Some l' ∧
                     lim_UserLimitInfo l' !! UserTag (ct_tag c) u = None;
  dp_core : ∃ x ks, forgotten (ct_tag c) ks (xs_core (w_core w)) x ∧ UserTag (ct_tag c) u ∈ ks ∧
                    xr_pipes (xs_core (w_core s'.2)) = xr_pipes x ∧
                    xr_Counter (xs_core (w_core s'.2)) = xr_Counter x ∧
                    xr_heap (xs_core (w_core s'.2)) = xr_heap x;
}.

Lemma drops_run n us newU newA p' info c w p u :
  drops n us newU newA p' info c w p u →
  let '(s', r) := nodeInfoMonitor (c, w) in r = Ok tt ∧ user_dropped c w p u s'.
Proof.
  intros [Hs Hinfo Hans Hne Hlen Hnd Hkept Hacc Hp Hreg Hu Hnu].
  pose proof Hs as [_ Hol Hon _ _]. simpl in *.
  pose proof (compareUserList_members n us newU Hol Hlen Hon Hnd) as Hm.
  pose proof (monitor_users_run n us newU newA p' info c w Hs Hinfo Hans Hne Hlen Hnd Hkept) as Hr.
  destruct (compareUserList us newU) as [deleted added]. destruct Hm as [HD _].
  destruct (nodeInfoMonitor (c, w)) as [s' r].
  destruct Hr as [(-> & [Hl' _ _ Hserved (l' & Hlim & Hui & _)] & [Hcore Hdel Hadd Htag [Hreg' Hp']])|(Href & _)];
    [|by destruct Hacc].
  split; [done|].
  assert (u ∈ uuids deleted) as Hud.
  { apply list_elem_of_fmap in Hu as (x & -> & Hx). apply list_elem_of_fmap_2, HD. split; [done|].
    intros (y & Hy & Hin)%list_elem_of_fmap. apply Hnu.
    replace (user_Uuid x) with (user_Uuid y) by (unfold ident in Hy; congruence).
    by apply list_elem_of_fmap_2. }
  destruct (core_deleted _ _ _ (w_core w)) as [s1 [[]|e|q]] eqn:Hd; try done.
  simpl in Hcore, Hadd. destruct (core_added _ _ _ s1) as [s2 [k|e|q]] eqn:Ha; try done.
  simpl in Hcore. split.
  - by rewrite <- Htag, Hserved, elem_of_list_to_set.
  - unfold the_limiter in Hlim. rewrite Hp', Hp in Hlim. simpl in Hlim.
    exists l'. split; [by rewrite Hreg'|]. split; [done|]. rewrite Hui, Htag. by apply limits_of_None.
  - exists (xs_core s1), (UserTag (ct_tag c) <$> uuids deleted). split.
    + apply (core_deleted_forgotten _ _ _ _ _ Hd). intros ->. by apply not_elem_of_nil in Hud.
    + split; [by apply list_elem_of_fmap_2|]. rewrite Hcore. by eapply core_added_frame.
Qed.

(** From then on the dispatcher refuses him. *)
Lemma dropped_refused c w p u s' now up down si network :
  user_dropped c w p u s' → si_User si = Some (UserTag (ct_tag c) u) → si_Tag si = ct_tag c →
  is_ok (getLink now up down (Some si) network (dispatcher_of s'.2)).2 = false.
Proof.
  intros [_ (l' & Hreg & Hl & Hnone) _] Hsu Hst.
  rewrite (getLink_unknown now up down si (UserTag (ct_tag c) u) network (dispatcher_of s'.2) p l');
    [done|done|apply UserTag_nonempty| |done..]. by rewrite Hst.
Qed.


(** What a user's connections carried since the last report is lost when he
    is taken off: the round that removes him drops his counter from the table
    that reports read, while the storage, with all it counted, stays where it
    was in the heap. *)
Theorem removed_traffic_unreported n us newU newA p' info c w p u t ts :
  drops n us newU newA p' info c w p u →
  xr_Counter (xs_core (w_core w)) !! ct_tag c = Some t → t !! UserTag (ct_tag c) u = Some ts →
  let '(s', r) := nodeInfoMonitor (c, w) in
  let x' := xs_core (w_core s'.2) in
  r = Ok tt ∧ xr_Counter x' !! ct_tag c ≫= (.!! UserTag (ct_tag c) u) = None ∧
  storage_at (xr_heap x') ts = storage_at (xr_heap (xs_core (w_core w))) ts ∧
  ∀ now up down si network,
    si_User si = Some (UserTag (ct_tag c) u) → si_Tag si = ct_tag c →
    is_ok (getLink now up down (Some si) network (dispatcher_of s'.2)).2 = false.
Proof.
  intros Hdr Ht Hts. pose proof (drops_run _ _ _ _ _ _ _ _ _ _ Hdr) as Hr.
  destruct (nodeInfoMonitor (c, w)) as [s' r].
  destruct Hr as [-> Hd]. destruct (dp_core _ _ _ _ _ Hd) as (x & ks & Hf & Hin & _ & Hc & Hh). cbv zeta.
  split; [done|]. rewrite Hc, Hh, (fg_heap _ _ _ _ Hf). split; [|split; [done|]].
  - destruct (xr_Counter x !! ct_tag c) as [t'|] eqn:Ht'; [|done]. simpl.
    destruct (fg_counter _ _ _ _ Hf (UserTag (ct_tag c) u) _ Ht') as (t0 & _ & ->). by rewrite decide_True.
  - intros now up down si network. by apply (dropped_refused c w p u).
Qed.
End removed.

(** * The bytes of a connection *)

(** Bytes written at the two ends of a link, into the inbound's writer ([true])
    or the outbound's, in any order. *)
Definition carry (i o : Link) (ops : list (bool * Z)) (h : heap) : heap :=
  foldl (λ h op, (WriteMultiBuffer (lk_Writer (if op.1 : bool then i else o)) op.2 h).1) h ops.

Definition ups (ops : list (bool * Z)) : Z := sumZ (λ op, if op.1 : bool then op.2 else 0%Z) ops.
Definition downs (ops : list (bool * Z)) : Z := sumZ (λ op, if op.1 : bool then 0%Z else op.2) ops.

(** The core after it. *)
Definition carried (i o : Link) (ops : list (bool * Z)) (x : Xray) : Xray :=
  xr_with_counters (carry i o ops (xr_heap x)) (xr_Counter x) x.

(** What the counters of a node hold for a user. *)
Definition usage (tag key : string) (x : Xray) : TrafficStorage :=
  match xr_Counter x !! tag ≫= (.!! key) with
  | Some ts => storage_at (xr_heap x) ts
  | None => TrafficStorage_zero
  end.

(** The counters are 64-bit integers. *)
Definition heap_ok (h : heap) : Prop :=
  ∀ l s, h !! l = Some s → int64 (UpCounter s) ∧ int64 (DownCounter s).

(** The link of a metered connection: both writers count on one storage. *)
Definition metered (i o : Link) (ts : loc) : Prop :=
  ∀ (up : bool) n h, (WriteMultiBuffer (lk_Writer (if up then i else o)) n h).1 =
                     if up then up_Add h ts n else down_Add h ts n.

Lemma getLink_metered_link now up down si email network (d d' : Dispatcher) si' i o lim :
  getLink now up down (Some si) network d = (d', si', Ok (i, o, lim)) →
  si_User si = Some email → email ≠ "" →
  ∃ ts c, metered i o ts ∧ xr_Counter (ds_core d') !! si_Tag si = Some c ∧ c !! email = Some ts.
Proof.
  intros Hg Hu Hne. destruct (getLink_user _ _ _ _ _ _ _ _ _ _ _ _ Hg Hu Hne)
    as (p & w & ts & c & _ & _ & _ & -> & -> & _ & Hc & Hts).
  exists ts, c. split; [|done]. by intros [] n h; destruct w.
Qed.

(** One write into a metered link. *)
Definition add_storage (up : bool) (n : Z) (s : TrafficStorage) : TrafficStorage :=
  if up then mkTrafficStorage (wrap64 (UpCounter s + n)) (DownCounter s)
  else mkTrafficStorage (UpCounter s) (wrap64 (DownCounter s + n)).

Lemma carry_cons i o ts op ops h :
  metered i o ts → carry i o (op :: ops) h = carry i o ops (alter (add_storage op.1 op.2) ts h).
Proof. intros Hm. unfold carry. simpl. rewrite Hm. by destruct op as [[] n]. Qed.

Lemma carry_storage i o ts ops h :
  metered i o ts → is_Some (h !! ts) →
  int64 (UpCounter (storage_at h ts)) → int64 (DownCounter (storage_at h ts)) →
  storage_at (carry i o ops h) ts =
    mkTrafficStorage (wrap64 (UpCounter (storage_at h ts) + ups ops))
                     (wrap64 (DownCounter (storage_at h ts) + downs ops)).
Proof.
  intros Hm. revert h. induction ops as [|[up n] ops IH]; intros h Hs Hu Hd.
  { unfold ups, downs. simpl. rewrite !Z.add_0_r, !wrap64_id by done. by destruct (storage_at h ts). }
  rewrite (carry_cons i o ts) by done. cbn [fst snd].
  rewrite IH; rewrite ?storage_at_alter by done; [|by apply is_Some_alter|by destruct up; simpl; auto with v2bz..].
  unfold ups, downs. rewrite !sumZ_cons. cbn [fst snd].
  destruct up; cbn [add_storage UpCounter DownCounter]; by rewrite ?wrap64_add_l, ?Z.add_assoc, ?Z.add_0_r, ?Z.add_0_l.
Qed.

Lemma carry_wf i o ts ops h c : metered i o ts → counter_wf h c → counter_wf (carry i o ops h) c.
Proof.
  intros Hm. revert h. induction ops as [|op ops IH]; intros h Hwf; [done|].
  rewrite (carry_cons i o ts) by done. by apply IH, counter_wf_alter.
Qed.

Lemma carry_ok i o ts ops h : metered i o ts → heap_ok h → heap_ok (carry i o ops h).
Proof.
  intros Hm. revert h. induction ops as [|[up n] ops IH]; intros h Hh; [done|].
  rewrite (carry_cons i o ts) by done. apply IH. intros l s. rewrite lookup_alter. case_decide as Hl.
  - subst l. destruct (h !! ts) as [s0|] eqn:Hs; [|done]. intros [= <-].
    destruct (Hh _ _ Hs). destruct up; simpl; auto with v2bz.
  - by apply Hh.
Qed.

(** One user's line in the slice of a node: his, and no other with his uid, when
    his counters are over the threshold, and none when they are not. *)
Lemma slice_line uidOf m (h h' : heap) (c c' : TrafficCounter) s key ts :
  counter_wf h c → traffic_slice uidOf m true h c = (h', c', s) →
  c !! key = Some ts → uidOf key ≠ 0%Z →
  (∀ k, is_Some (c !! k) → uidOf k = uidOf key → k = key) →
  (if over m h (key, ts)
   then ∃ rest, s ≡ₚ mkUserTraffic (uidOf key) (UpCounter (storage_at h ts)) (DownCounter (storage_at h ts)) :: rest ∧
        ∀ t, t ∈ rest → traffic_UID t ≠ uidOf key
   else ∀ t, t ∈ s → traffic_UID t ≠ uidOf key) ∧
  c' !! key = Some ts ∧
  storage_at h' ts = if over m h (key, ts) then TrafficStorage_zero else storage_at h ts.
Proof.
  intros Hwf Hs Hk Huid Huniq.
  pose proof (traffic_slice_spec uidOf m true h c Hwf) as Hsp. rewrite Hs in Hsp.
  destruct Hsp as (_ & Hp & -> & Hrem).
  assert (∀ t k l, reported uidOf m h (k, l) = Some t → c !! k = Some l → traffic_UID t = uidOf key →
    k = key ∧ over m h (key, ts) = true) as Hmine.
  { intros t k l Hrep Hkl Heq. unfold reported in Hrep. destruct (_ && _) eqn:Ho; [|done].
    injection Hrep as <-. simpl in Heq. assert (k = key) as -> by (by apply Huniq; [eexists|]).
    split; [done|]. assert (l = ts) as -> by congruence. by apply andb_prop in Ho as [? _]. }
  split_and!.
  - destruct (over m h (key, ts)) eqn:Hov.
    + exists (omap (reported uidOf m h) (map_to_list (delete key c))). split.
      * rewrite Hp, <- (map_to_list_delete c key ts Hk). simpl. unfold reported at 1. rewrite Hov. simpl.
        by rewrite (proj2 (Z.eqb_neq (uidOf key) 0)).
      * intros t ([k l] & Hkl%elem_of_map_to_list & Hrep)%list_elem_of_omap Heq.
        apply lookup_delete_Some in Hkl as [Hne Hkl]. by destruct (Hmine t k l Hrep Hkl Heq) as [-> _].
    + intros t. rewrite Hp. intros ([k l] & Hkl%elem_of_map_to_list & Hrep)%list_elem_of_omap Heq.
      by destruct (Hmine t k l Hrep Hkl Heq) as [_ ?].
  - rewrite map_lookup_filter, Hk. simpl. rewrite option_guard_True; [done|].
    unfold dropped. apply andb_false_intro2. by apply Z.eqb_neq.
  - rewrite (Hrem _ _ Hk). unfold remaining. by destruct (over m h (key, ts)).
Qed.

(** What is posted for a uid with one line. *)
Lemma traffic_data_line l t rest :
  Forall traffic_ok l → l ≡ₚ t :: rest → (∀ t', t' ∈ rest → traffic_UID t' ≠ traffic_UID t) →
  traffic_data l !! traffic_UID t = Some (traffic_Upload t, traffic_Download t).
Proof.
  intros Hok Hp Hr.
  assert (Ht : t ∈ l) by (rewrite Hp; left). pose proof (proj1 (Forall_forall _ _) Hok t Ht) as [Hu Hd].
  assert (Hz : ∀ f : UserTraffic → Z, (∀ t', traffic_UID t' ≠ traffic_UID t → f t' = 0%Z) →
    sumZ f l = f t).
  { intros f Hf. rewrite Hp, sumZ_cons, (sumZ_ext f (λ _, 0%Z) rest) by auto.
    assert (sumZ (λ _ : UserTraffic, 0%Z) rest = 0%Z) as -> by (clear; induction rest; by rewrite ?sumZ_cons).
    lia. }
  unfold traffic_data. rewrite add_traffic_lookup, lookup_empty by done.
  destruct (filter _ l) as [|t0 f] eqn:Hf.
  - exfalso. assert (t ∈ filter (λ t', traffic_UID t' = traffic_UID t) l) as Hin
      by by apply list_elem_of_filter. rewrite Hf in Hin. by apply not_elem_of_nil in Hin.
  - cbn [default]. rewrite !Hz by (intros t' Ht'; unfold up_of, down_of; by rewrite decide_False).
    unfold up_of, down_of. rewrite !decide_True by done. by rewrite !Z.add_0_l, !wrap64_id.
Qed.

Lemma traffic_data_none l uid :
  Forall traffic_ok l → (∀ t, t ∈ l → traffic_UID t ≠ uid) → traffic_data l !! uid = None.
Proof.
  intros Hok Hn. unfold traffic_data. rewrite add_traffic_lookup, lookup_empty by done.
  destruct (filter _ l) as [|t0 f] eqn:Hf; [done|]. exfalso.
  assert (t0 ∈ filter (λ t, traffic_UID t = uid) l) as Hin by (rewrite Hf; left).
  apply list_elem_of_filter in Hin as [Ht Hin]. by apply (Hn t0).
Qed.

Lemma slice_ok uidOf m r h c h' c' s :
  counter_wf h c → heap_ok h → traffic_slice uidOf m r h c = (h', c', s) → Forall traffic_ok s.
Proof.
  intros Hwf Hok Hs. pose proof (traffic_slice_spec uidOf m r h c Hwf) as Hsp. rewrite Hs in Hsp.
  destruct Hsp as (_ & Hp & _). apply Forall_forall. intros t. rewrite Hp.
  intros ([k l] & Hkl%elem_of_map_to_list & Hrep)%list_elem_of_omap. unfold reported in Hrep.
  destruct (_ && _); [|done]. injection Hrep as <-.
  assert (is_Some (h !! l)) as [st Hst] by (by eapply wf_bound).
  unfold traffic_ok, storage_at. simpl. rewrite Hst. by eapply Hok.
Qed.

(** The core's half: over the threshold the slice has the one line of the user,
    and empties his counters; otherwise it has none, and leaves them. *)
Lemma carried_slice i o ts t ops tag key uid (x : Xray) ow su sd :
  metered i o ts → xr_Counter x !! tag = Some t → t !! key = Some ts →
  counter_wf (xr_heap x) t → heap_ok (xr_heap x) →
  (∀ k, is_Some (t !! k) → zlookup (xr_uidMap x) k = uid → k = key) →
  xr_uidMap x !! key = Some uid → uid ≠ 0%Z →
  su = (UpCounter (usage tag key x) + ups ops)%Z → sd = (DownCounter (usage tag key x) + downs ops)%Z →
  int64 su → int64 sd →
  let above := (zlookup (xr_minTraffic x) tag <? wrap64 (su + sd))%Z in
  ∃ core2 sl,
    core_GetUserTrafficSlice tag true (mkXrayState (carried i o ops x) true ow) = (core2, Ok sl) ∧
    Forall traffic_ok sl ∧
    (if above then ∃ rest, sl ≡ₚ mkUserTraffic uid su sd :: rest ∧ ∀ t', t' ∈ rest → traffic_UID t' ≠ uid
     else ∀ t', t' ∈ sl → traffic_UID t' ≠ uid) ∧
    usage tag key (xs_core core2) = if above then TrafficStorage_zero else mkTrafficStorage su sd.
Proof.
  intros Hm Hc Hts Hwf Hok Huniq Huid Hne Hsu Hsd Hsui Hsdi above.
  assert (Husage : usage tag key x = storage_at (xr_heap x) ts)
    by (unfold usage; rewrite Hc; simpl; by rewrite Hts).
  assert (Hs : is_Some (xr_heap x !! ts)) by (by eapply wf_bound).
  assert (Hcarry : storage_at (carry i o ops (xr_heap x)) ts = mkTrafficStorage su sd).
  { assert (Hst : int64 (UpCounter (storage_at (xr_heap x) ts)) ∧
                  int64 (DownCounter (storage_at (xr_heap x) ts)))
      by (unfold storage_at; destruct Hs as [s Hs]; rewrite Hs; by eapply Hok).
    rewrite (carry_storage i o ts ops) by (done || apply Hst).
    rewrite <- Husage, <- Hsu, <- Hsd, !wrap64_id; done. }
  destruct (traffic_slice (zlookup (xr_uidMap x)) (zlookup (xr_minTraffic x) tag) true
    (carry i o ops (xr_heap x)) t) as [[h2 t2] sl] eqn:Hsl.
  assert (Hz : zlookup (xr_uidMap x) key = uid) by (unfold zlookup; by rewrite Huid).
  pose proof (carry_wf i o ts ops _ _ Hm Hwf) as Hwf'.
  destruct (slice_line _ _ _ _ _ _ _ key ts Hwf' Hsl Hts) as (Hline & Ht2 & Hempty); rewrite ?Hz in *; [done|done|].
  assert (over (zlookup (xr_minTraffic x) tag) (carry i o ops (xr_heap x)) (key, ts) = above) as Hov
    by (unfold over; simpl; by rewrite Hcarry).
  rewrite Hov, ?Hcarry in *.
  exists (mkXrayState (xr_with_counters h2 (<[tag := t2]> (xr_Counter x)) (carried i o ops x)) true ow), sl.
  split_and!.
  - cbn [core_GetUserTrafficSlice Xray_ops]. unfold xs_GetUserTrafficSlice, when_open. cbn [xs_open xs_core].
    unfold Xray_GetUserTrafficSlice, node_slice. simpl. by rewrite Hc, Hsl.
  - eapply slice_ok; [exact Hwf'| |exact Hsl]. by apply (carry_ok i o ts).
  - exact Hline.
  - unfold usage. simpl. rewrite lookup_insert_eq. simpl. by rewrite Ht2.
Qed.

Section report.
Context `{HL : HttpLib} `{ND : NodeDecoder}.
Abbreviation World := (World (C := XrayState) (P := Client * HWorld)).
Implicit Types (w : World) (c : Controller).

(** What the panel has been told in a round of the report task: the traffic, in
    one post when there is any, and then perhaps the users online. *)
Definition told (traffic : list UserTraffic) (p p' : Client * HWorld) : Prop :=
  let posted := match traffic with
                | [] => p
                | _ => (post push_path (TrafficBody (traffic_data traffic)) p).1
                end in
  p' = posted ∨ ∃ online, p' = (ReportNodeOnlineUsers online posted).1.

(** C5: what a user's connection carried is what the panel is told.  After his
    connection to a node was let in and carried bytes in both directions, look
    at what his counters held before plus these bytes, upload and download.  If
    the sum is over the node's threshold ([ReportMinTraffic]), the node's next
    report task posts under his number exactly these two, and his counters are
    empty afterwards: nothing is reported twice.  If not, nothing is posted for
    him and his counters hold them for a later report.  His number is not zero
    and no other user that the node counts has it, the counters are those of
    the node and do not overflow, and nothing runs next to the report. *)
Theorem carried_bytes_reported now up down si u network (d d' : Dispatcher) si' i o lim ops c w p l uid ow :
  getLink now up down (Some si) network d = (d', si', Ok (i, o, lim)) →
  si_User si = Some (UserTag (ct_tag c) u) → si_Tag si = ct_tag c →
  let x := ds_core d' in
  let key := UserTag (ct_tag c) u in
  w_core w = mkXrayState (carried i o ops x) true ow →
  (∀ t, xr_Counter x !! ct_tag c = Some t →
     counter_wf (xr_heap x) t ∧
     ∀ k, is_Some (t !! k) → zlookup (xr_uidMap x) k = uid → k = key) →
  heap_ok (xr_heap x) → xr_uidMap x !! key = Some uid → uid ≠ 0%Z →
  let su := (UpCounter (usage (ct_tag c) key x) + ups ops)%Z in
  let sd := (DownCounter (usage (ct_tag c) key x) + downs ops)%Z in
  int64 su → int64 sd →
  ct_limiter c = Some p → reg_heap (w_reg w) !! p = Some l →
  let above := (zlookup (xr_minTraffic x) (ct_tag c) <? wrap64 (su + sd))%Z in
  ∃ w' traffic, reportUserTrafficTask (c, w) = (c, w', Ok tt) ∧ told traffic (w_panel w) (w_panel w') ∧
    traffic_data traffic !! uid = (if above then Some (su, sd) else None) ∧
    usage (ct_tag c) key (xs_core (w_core w')) =
      if above then TrafficStorage_zero else mkTrafficStorage su sd.
Proof.
  intros Hg Hu Ht x key Hw Hx Hok Huid Hne su sd Hsu Hsd Hp Hl above.
  destruct (getLink_metered_link _ _ _ _ _ _ _ _ _ _ _ _ Hg Hu (UserTag_nonempty _ _))
    as (ts & t & Hm & Hc & Hts). rewrite Ht in Hc.
  destruct (Hx t Hc) as [Hwf Huniq].
  destruct (carried_slice i o ts t ops (ct_tag c) key uid x ow su sd)
    as (core2 & sl & Hcore & Hsok & Hline & Husage); [done..|]. fold above in Hline, Husage.
  rewrite <- Hw in Hcore.
  pose proof (report_task_run c w p l core2 (Ok sl) Hp Hl Hcore I) as Hr. cbv zeta in Hr.
  destruct (GetOnlineDevice l) as [l' devices]. destruct Hr as (w' & Hr & Hc' & _ & Hno & Hsome).
  exists w', sl. split; [exact Hr|]. split; [|split; [|by rewrite Hc']].
  - assert (Hpost : after_traffic sl (w_panel w) =
      match sl with [] => w_panel w | _ => (post push_path (TrafficBody (traffic_data sl)) (w_panel w)).1 end).
    { unfold after_traffic. destruct sl as [|t0 sl]; [done|].
      cbn [pn_ReportUserTraffic Client_ops]. unfold ReportUserTraffic.
      by destruct (post _ _ _) as [[cl hw] r]. }
    unfold told. cbv zeta. rewrite <- Hpost. destruct devices as [|dv dvs]; [left; by apply Hno|right].
    destruct (Hsome ltac:(done)) as (online & Ho & _). exists online. rewrite Ho.
    cbn [pn_ReportNodeOnlineUsers Client_ops]. by destruct (ReportNodeOnlineUsers _ _) as [[cl hw] r].
  - destruct above; [|by apply traffic_data_none].
    destruct Hline as (rest & Hperm & Hrest).
    exact (traffic_data_line sl (mkUserTraffic uid su sd) rest Hsok Hperm Hrest).
Qed.
End report.
End end_to_end.

(** * Witnesses *)
#[local] Existing Instance canonical_order.
#[local] Existing Instance wit_ratelimit.
#[local] Existing Instance wit_regexp.
#[local] Existing Instance wit_machine.
#[local] Existing Instance wit_crypto.
#[local] Existing Instance wit_acme.
#[local] Existing Instance wit_metajson.
#[local] Existing Instance wit_host.
#[local] Existing Instance wit_xray.
#[local] Existing Instance wit_xray_users.
#[local] Existing Instance XrayNode.wit_conf.
#[local] Existing Instance XrayNode.wit_json.
#[local] Existing Instance XrayNode.wit_core.
#[local] Existing Instance wit_net.

(** The panel drops cccc, who is connected. *)
Definition wit_drop_world : World (C := XrayState) (P := WitPanel) :=
  wit_xray_world (mkWitPanel [(None, Some wit_new)] []).

Lemma wit_drops :
  drops 4 wit_old wit_new (Some ∅) (mkWitPanel [] []) xray_node wit_xray_controller wit_drop_world 0 "cccc".
Proof.
  split; [exact (wit_xray_in_step _)|done|by eexists _, _; split_and!|done|by_decide|by_decide|exact wit_kept| |done..| |].
  - destruct (compareUserList wit_old wit_new) as [deleted added] eqn:E. vm_compute in E.
    injection E as <- <-. intros [Hx|Hx]; vm_compute in Hx; discriminate Hx.
  - by_decide.
  - by_decide.
Qed.


Lemma removed_traffic_unreported_witness :
  let '(s', r) := nodeInfoMonitor (wit_xray_controller, wit_drop_world) in
  xr_Counter (xs_core (w_core s'.2)) !! "n" ≫= (.!! "n|cccc") = None ∧
  storage_at (xr_heap (xs_core (w_core s'.2))) 0 = mkTrafficStorage 5 0.
Proof.
  pose proof (removed_traffic_unreported 4 wit_old wit_new (Some ∅) (mkWitPanel [] []) xray_node
    wit_xray_controller wit_drop_world 0 "cccc" {["n|cccc" := 0]} 0 wit_drops eq_refl eq_refl) as Hw.
  destruct (nodeInfoMonitor (wit_xray_controller, wit_drop_world)) as [s' r].
  destruct Hw as (_ & Hn & Hs & _). split; [exact Hn|exact Hs].
Defined.

(** The connection of the user "n|cccc", number 3, carries 100 bytes up, 7 down
    and 23 more up; before it his counter held 5 bytes up. *)
#[local] Existing Instance wit_trojan_decoder.

Definition wit_user_dispatcher : Dispatcher :=
  mkDispatcher wit_xray_core (mkRegistry {[0 := wit_limiter "n"]} {["n" := 0]}).
Definition wit_user_inbound : SessionInbound :=
  mkSessionInbound "n" "10.0.0.1" Network_TCP (Some "n|cccc") 0.
Definition wit_ops : list (bool * Z) := [(true, 100%Z); (false, 7%Z); (true, 23%Z)].

(** A panel that records what is posted. *)
Definition wit_posts : HttpLib := {|
  HWorld := list (string * push_body);
  http_get := λ path hdr w, (w, Err "timeout");
  http_post := λ path body w, ((w ++ [(path, body)])%list, Ok (Some wit_rsp));
  sha256_hex := λ b, b;
  decode_users := λ f b, Err "syntax";
  decode_alive := λ b, Err "syntax";
  path_Join := λ p, p;
|}.

Lemma wit_user_counters :
  let x := ds_core (getLink 9 6 7 (Some wit_user_inbound) Network_TCP wit_user_dispatcher).1.1 in
  xr_Counter x = {["n" := {["n|cccc" := 0]}]} ∧ xr_heap x = {[0 := mkTrafficStorage 5 0]} ∧
  xr_uidMap x = xr_uidMap wit_xray_core ∧ xr_minTraffic x = ∅.
Proof. vm_compute. done. Qed.

Lemma carried_bytes_reported_witness :
  ∃ d' si' i o lim,
    getLink 9 6 7 (Some wit_user_inbound) Network_TCP wit_user_dispatcher = (d', si', Ok (i, o, lim)) ∧
    let w : World (C := XrayState) (P := Client * HWorld (HttpLib := wit_posts)) :=
      mkWorld (mkXrayState (carried i o wit_ops (ds_core d')) true ∅) (ds_limiters d')
        (wit_client, []) ∅ in
    ∃ w' traffic,
      reportUserTrafficTask (wit_xray_controller, w) = (wit_xray_controller, w', Ok tt) ∧
      told (HL := wit_posts) traffic (wit_client, []) (w_panel w') ∧
      traffic_data traffic !! 3%Z = Some (128%Z, 7%Z).
Proof.
  destruct (getLink 9 6 7 (Some wit_user_inbound) Network_TCP wit_user_dispatcher)
    as [[d' si'] r] eqn:Hg.
  assert (Hok : is_ok r = true).
  { assert (is_ok (getLink 9 6 7 (Some wit_user_inbound) Network_TCP wit_user_dispatcher).2 = true) as Hv
      by (vm_compute; reflexivity). by rewrite Hg in Hv. }
  destruct r as [[[i o] lim]|e|q]; [|done..]. exists d', si', i, o, lim. split; [done|]. intros w.
  pose proof wit_user_counters as Hx. cbv zeta in Hx. rewrite Hg in Hx. cbn [fst] in Hx.
  destruct Hx as (Hxc & Hxh & Hxu & Hxm).
  assert (Hlim : reg_heap (ds_limiters d') !! 0 =
    reg_heap (ds_limiters (getLink 9 6 7 (Some wit_user_inbound) Network_TCP wit_user_dispatcher).1.1) !! 0)
    by (by rewrite Hg).
  assert (Hus : usage (ct_tag wit_xray_controller) (UserTag (ct_tag wit_xray_controller) "cccc") (ds_core d') = mkTrafficStorage 5 0)
    by (unfold usage; rewrite Hxc, Hxh; by vm_compute).
  destruct (reg_heap (ds_limiters d') !! 0) as [l|] eqn:Hl; [|exfalso; vm_compute in Hlim; discriminate Hlim].
  destruct (carried_bytes_reported (HL := wit_posts) 9 6 7 wit_user_inbound "cccc" Network_TCP
    wit_user_dispatcher d' si' i o lim wit_ops wit_xray_controller w 0 l 3 ∅ Hg)
    as (w' & traffic & Hr & Htold & Hdata & _); try done.
  - intros t. rewrite Hxc. intros [_ <-]%lookup_singleton_Some. rewrite Hxh. split; [split|].
    + intros k v [<- <-]%lookup_singleton_Some. by rewrite lookup_singleton_eq.
    + by intros k k' v [<- <-]%lookup_singleton_Some [<- _]%lookup_singleton_Some.
    + by intros k [v [<- _]%lookup_singleton_Some].
  - rewrite Hxh. by intros k v [_ <-]%lookup_singleton_Some.
  - rewrite Hxu. by vm_compute.
  - rewrite Hus. by_decide.
  - rewrite Hus. by_decide.
  - exists w', traffic. split; [exact Hr|]. split; [exact Htold|].
    rewrite Hdata, Hus, Hxm. by vm_compute.
Defined.
