(* ===== verification/MonitorLinks.v ===== *)
(** The connections of the xray core next to the monitor of a node: what getLink
    (Dispatcher) does to core and limiters is harmless to a round of the monitor
    (ControllerConc), so that [monitor_sync_among_tasks] holds of a running
    server, with connections opened at any moment of the round. *)

From S2P Require Import Prelude Threads Progs GoStd Conf Panel PanelNode PanelClient NodeOptions Counter Traffic.
From S2P Require Import Limiter UserDiff Core Lego Cert Host XrayCore XrayInbound XrayNode Sniff Dispatcher.
From S2P Require Import Controller ControllerConc EndToEnd.
From stdpp Require Import prelude gmap strings relations.
From Stdlib Require Import ZArith.

Open Scope string_scope.

Section links.
#[local] Set Default Proof Using "Type*".
Context `{HO : HostOS} `{XL : XrayLib} `{XC : XrayConfLib} `{XJ : !XrayConfJson} `{CL : !XrayCoreLib}.
Context `{RL : RatelimitLib} `{RE : RegexpLib} `{RO : RangeOrder} `{AL : AcmeLib} `{MJ : MetaJson}.
Context `{NL : NetLib}.
Context {P : Type} `{PO : PanelOps P} `{XU : !XrayUsers}.
Abbreviation World := (World (C := XrayState) (P := P)).
Abbreviation state := (Controller * World)%type.
Implicit Types (w : World) (c : Controller) (d : Dispatcher).

(** ** getLink as a step of the process *)
Definition open_link now up down (si : option SessionInbound) network
    : ctl (C := XrayState) (P := P) (string + Link * Link * option nat) := λ '(c, w),
  let '(d, _, r) := getLink now up down si network (dispatcher_of w) in
  (c, mkWorld (mkXrayState (ds_core d) (xs_open (w_core w)) (xs_world (w_core w))) (ds_limiters d)
        (w_panel w) (w_machine w), caught r).

Definition link_task now up down si network : Progs.prog state unit :=
  let* _ := call (open_link now up down si network) in pret tt.

(** ** What it leaves alone *)
Record calm d d' : Prop := {
  cm_users : xr_Server (ds_core d') = xr_Server (ds_core d);
  cm_limiter : ∀ p l, reg_heap (ds_limiters d) !! p = Some l → no_dynamic l →
    ∃ l', reg_heap (ds_limiters d') !! p = Some l' ∧ same_tables l l';
}.

#[local] Instance calm_preorder : PreOrder calm.
Proof.
  split.
  - intros d. split; [done|]. intros p l Hl _. by exists l.
  - intros d1 d2 d3 [H1 H2] [K1 K2]. split; [congruence|]. intros p l Hl Hd.
    destruct (H2 p l Hl Hd) as (l2 & Hl2 & Ht2 & Hu2).
    destruct (K2 p l2 Hl2) as (l3 & Hl3 & Ht3 & Hu3); [unfold no_dynamic; by rewrite Ht2|].
    exists l3. split; [done|]. split; congruence.
Qed.

(** A change of the core that keeps its users. *)
Lemma calm_core d x : xr_Server x = xr_Server (ds_core d) → calm d (ds_with_core x d).
Proof. intros Hx. split; [done|]. intros p l Hl _. by exists l. Qed.

Lemma calm_links f d : calm d (on_links f d).
Proof. unfold on_links. destruct (f _). by apply calm_core. Qed.

Lemma calm_counter tag email d : calm d (user_counter tag email d).1.
Proof. unfold user_counter. destruct (GetCounter _ _ _) as [[h t] ts]. by apply calm_core. Qed.

Lemma calm_ask now si email network d : calm d (Dispatcher.ask_limiter now si email network d).1.
Proof.
  unfold Dispatcher.ask_limiter. destruct (GetLimiter _ _) as [p|e|x]; [|done..].
  destruct (reg_heap (ds_limiters d) !! p) as [l|] eqn:Hl; [|done].
  pose proof (CheckLimit_same_tables now email (si_SourceIP si) (bool_decide (network = Network_TCP))
    (bool_decide (si_SourceNetwork si = Network_TCP)) l) as Ht.
  destruct (CheckLimit _ _ _ _ _ l) as [[l' b] r]. split; [done|]. intros q l0 Hq Hd. simpl.
  destruct (decide (p = q)) as [->|Hne].
  - rewrite lookup_insert_eq. exists l'. split; [done|]. simplify_eq. by apply Ht.
  - rewrite lookup_insert_ne by done. by exists l0.
Qed.

Lemma calm_getLink now up down si network d : calm d (getLink now up down si network d).1.1.
Proof.
  unfold getLink. destruct (limited_user si) as [[i email]|]; [|done].
  pose proof (calm_ask now i email network d) as Ha.
  destruct (Dispatcher.ask_limiter now i email network d) as [d1 [[lim b]|e|x]]; simpl in Ha |- *; [|
    by repeat (etrans; [|apply calm_links])|done].
  set (d2 := add_link _ _ _ d1). pose proof (calm_counter (si_Tag (splice_off b i)) email d2) as Hc.
  destruct (user_counter _ _ d2) as [d3 ts]. simpl in Hc |- *.
  etrans; [exact Ha|]. etrans; [apply calm_links|exact Hc].
Qed.

(** A connection may open, or be refused, between any two calls of a monitor. *)
Lemma link_harmless (says : nat → P → Prop) now up down si network :
  guarantees (harmless says) (link_task now up down si network).
Proof.
  split; [|done]. intros [c w]. unfold open_link.
  pose proof (calm_getLink now up down si network (dispatcher_of w)) as [Hu Hl].
  destruct (getLink now up down si network (dispatcher_of w)) as [[d si'] r].
  split; [done| |exact Hl|done]. intros tag. apply xr_served_server. simpl in *. by rewrite Hu.
Qed.

End links.

(** * Witness: the trojan node of EndToEnd; bbbb connects through the pipes 6 and
    7 while the round is under way *)
#[local] Existing Instance canonical_order.
#[local] Existing Instance wit_ratelimit.
#[local] Existing Instance wit_regexp.
#[local] Existing Instance wit_machine.
#[local] Existing Instance wit_crypto.
#[local] Existing Instance wit_acme.
#[local] Existing Instance wit_metajson.
#[local] Existing Instance wit_host.
#[local] Existing Instance wit_xray.
#[local] Existing Instance wit_xray_users.
#[local] Existing Instance XrayNode.wit_conf.
#[local] Existing Instance XrayNode.wit_json.
#[local] Existing Instance XrayNode.wit_core.
#[local] Existing Instance wit_net.
#[local] Existing Instance wit_etags.
#[local] Existing Instance wit_trojan_decoder.

Definition wit_link_tasks : list (prog (Controller * World (C := XrayState) (P := Client * HWorld)) unit) :=
  [nodeInfoMonitor_task;
   link_task 9 6 7 (Some (mkSessionInbound "n" "10.0.0.1" Network_TCP (Some "n|bbbb") 0)) Network_TCP;
   report_task].
Definition wit_link_order : list nat := [0; 0; 2; 0; 0; 0; 0; 1; 2; 0; 2; 0; 2; 0].

Lemma wit_link_neighbours i q :
  i ≠ 0 → wit_link_tasks !! i = Some q →
  q = report_task ∨ ∃ now up down si network, q = link_task now up down si network.
Proof.
  intros Hi. destruct i as [|[|[|i]]]; [done|..|done]; intros [= <-]; [right; by repeat eexists|by left].
Qed.

