(* ===== verification/Daemon.v ===== *)
(** The program: the configuration file (src/conf/conf.go, log.go), its watcher
    (watch.go) and the server command that starts and reloads the cores and the
    nodes (src/cmd/server.go), over Json5, Selector, Limiter and Controller.

    The files and the decoding of the configuration are parameters
    ([ConfFiles]). *)

From S2P Require Import Prelude GoStd Conf Panel Counter Limiter Json5 Core Selector Lego Cert Controller.
From stdpp Require Import prelude gmap strings.
From Stdlib Require Import Ascii ZArith Lia Sorting.Sorted.

Open Scope string_scope.

(** * conf.go *)
Record LogConfig := mkLogConfig { log_Level : string; log_Output : string }.
Record Conf := mkConf {
  cf_LogConfig : LogConfig;
  cf_CoresConfig : list CoreConfig;
  cf_NodeConfig : list NodeConfig;
}.
Definition Conf_New : Conf := mkConf (mkLogConfig "info" "") [] [].

Class ConfFiles := {
  Files : Type;
  (* [os.Open], and what reading the open file delivers *)
  os_Open : string → Files → res string (res string buffer);
  (* [json.Unmarshal]: the struct, filled as far as it goes, and the error *)
  unmarshal_Conf : buffer → Conf → Conf * option string;
  json_Valid : buffer → bool;
}.

(** [json.Unmarshal] looks first whether the text is JSON, and otherwise leaves
    the struct alone. *)
Class ConfLaws `{ConfFiles} := {
  unmarshal_invalid : ∀ b c, json_Valid b = false → ∃ e, unmarshal_Conf b c = (c, Some e);
}.

Definition LoadFromPath `{ConfFiles} (filePath : string) (fs : Files) (p : Conf) : Conf * res string unit :=
  match map_err (λ e, "open config file error: " +:+ e) (os_Open filePath fs) with
  | Err e => (p, Err e)
  | Panic x => (p, Panic x)
  | Ok f =>
      match map_err (λ e, "read config file error: " +:+ e) (prep f) with
      | Err e => (p, Err e)
      | Panic x => (p, Panic x)
      | Ok data =>
          match unmarshal_Conf data p with
          | (p, Some e) => (p, Err ("unmarshal config error: " +:+ e))
          | (p, None) => (p, Ok tt)
          end
      end
  end.

(** * watch.go: which events start a reload

    An event is a change of the file's mode only, or not, at a time. *)
Record event := mkEvent { ev_Chmod : bool; ev_time : Z }.
Definition second : Z := 1000000000.

Definition watch_event (pre : option Z) (e : event) : option Z * bool :=
  if ev_Chmod e then (pre, false)
  else match pre with
  | Some t => if decide (t + 10 * second > ev_time e)%Z then (pre, false) else (Some (ev_time e), true)
  | None => (Some (ev_time e), true)
  end.

(** What [Watch] sets up.  The goroutine of the loop runs from the start; the
    paths are those it then hears of, also when [Watch] fails half way. *)
Class Fsnotify := {
  NewWatcher : option string;               (* the error *)
  watcher_Add : string → option string;
}.

Fixpoint watch_paths `{Fsnotify} (l : list (string * string)) : list string * res string unit :=
  match l with
  | [] => ([], Ok tt)
  | (path, what) :: l =>
      if decide (path = "") then watch_paths l
      else match watcher_Add path with
           | Some e => ([], Err (what +:+ e))
           | None => let '(paths, r) := watch_paths l in (path :: paths, r)
           end
  end.

Definition Watch `{Fsnotify} (filePath xDnsPath sDnsPath : string) : list string * res string unit :=
  match NewWatcher with
  | Some e => ([], Err ("new watcher error: " +:+ e))
  | None =>
      match watcher_Add filePath with
      | Some e => ([], Err ("watch file error: " +:+ e))
      | None =>
          let '(paths, r) := watch_paths [(xDnsPath, "watch dns file error: "); (sDnsPath, "watch dns file error: ")] in
          (filePath :: paths, r)
      end
  end.

(** The times of the events that start a reload; the file is read five seconds
    later. *)
Fixpoint watch_loop (pre : option Z) (es : list event) : list Z :=
  match es with
  | [] => []
  | e :: es =>
      let '(pre, accepted) := watch_event pre e in
      if accepted then ev_time e :: watch_loop pre es else watch_loop pre es
  end.
Definition read_time (t : Z) : Z := t + 5 * second.

(** * What [NewCore] returns, as a core *)
Section anycore.
Context {C : Type} `{CO : CoreOps C} `{RO : RangeOrder} `{CD : ConfDecoder}.

Definition any_call {A} (one : C → C * A) (many : Selector C → Selector C * A) (c : AnyCore C)
    : AnyCore C * A :=
  match c with
  | OneCore c => let '(c, a) := one c in (OneCore c, a)
  | ManyCores s => let '(s, a) := many s in (ManyCores s, a)
  end.

#[global] Instance AnyCore_ops : CoreOps (AnyCore C) := {|
  core_Start := any_call core_Start core_Start;
  core_Close := any_call core_Close core_Close;
  core_AddNode := λ tag info config c,
    let f {X} (_ : CoreOps X) (x : X) :=
      let '(x, p, r) := core_AddNode tag info config x in (x, (p, r)) in
    let '(c, (p, r)) := any_call (f _) (f _) c in (c, p, r);
  core_DelNode := λ tag, any_call (core_DelNode tag) (core_DelNode tag);
  core_AddUsers := λ p, any_call (core_AddUsers p) (core_AddUsers p);
  core_GetUserTrafficSlice := λ tag reset,
    any_call (core_GetUserTrafficSlice tag reset) (core_GetUserTrafficSlice tag reset);
  core_DelUsers := λ us tag info, any_call (core_DelUsers us tag info) (core_DelUsers us tag info);
  core_Protocols := λ c, match c with OneCore c => core_Protocols c | ManyCores s => core_Protocols s end;
  core_Type := λ c, match c with OneCore c => core_Type c | ManyCores s => core_Type s end;
|}.
End anycore.

(** * server.go *)
Section daemon.
Context {C P : Type} `{CO : CoreOps C} `{PO : PanelOps P} `{CD : ConfDecoder} `{CF : ConfFiles}.
Context `{RL : RatelimitLib} `{RE : RegexpLib} `{RO : RangeOrder} `{AL : AcmeLib} `{MJ : MetaJson}.
Context (cores : gmap string (CoreConfig → res string C)).
Notation Core := (AnyCore C).
Notation World := (World (C:=Core) (P:=P)).

(** The variables of [serverHandle]: [dm_core] tells whether [vc] is not nil;
    the core itself is in the world, where the controllers have it too. *)
Record Daemon := mkDaemon {
  dm_conf : Conf;
  dm_core : bool;
  dm_nodes : Node (P:=P);
  dm_world : World;
}.

Definition with_core (c : Core) (w : World) : World := mkWorld c (w_reg w) (w_panel w) (w_machine w).

(** Start the core that was made, then the nodes; the errors are only logged. *)
Definition start_service (c : Conf) (vc : Core) (nodes : Node (P:=P)) (w : World)
    : Node (P:=P) * World * res string unit :=
  let '(vc, r) := core_Start vc in
  let w := with_core vc w in
  match r with
  | Ok _ => Node_Start (cf_NodeConfig c) w
  | Err e => (nodes, w, Err e)
  | Panic x => (nodes, w, Panic x)
  end.

(** An error ends the callback after it was logged; a panic ends the process. *)
Definition logged {E A} (r : res E A) : res Empty_set unit :=
  match r with Panic x => Panic x | _ => Ok tt end.

(** The callback of the watcher. *)
Definition reload (d : Daemon) : Daemon * res Empty_set unit :=
  match Node_Close (dm_nodes d) (dm_world d) with
  | (w, Ok _) =>
      if negb (dm_core d) then (mkDaemon (dm_conf d) false [] w, nil_pointer)
      else
        let '(vc, r) := core_Close (w_core w) in
        let w := with_core vc w in
        match r with
        | Ok _ =>
            match NewCore cores (cf_CoresConfig (dm_conf d)) with
            | Ok vc =>
                let '(nodes, w, r) := start_service (dm_conf d) vc [] w in
                (mkDaemon (dm_conf d) true nodes w, logged r)
            | r => (mkDaemon (dm_conf d) false [] w, logged r)
            end
        | r => (mkDaemon (dm_conf d) true [] w, logged r)
        end
  | (w, Err e) => match e with end
  | (w, Panic x) => (mkDaemon (dm_conf d) (dm_core d) (dm_nodes d) w, Panic x)
  end.

(** One change that the watcher takes up: the configuration is made anew and
    read, and the callback runs whether or not that succeeded. *)
Definition on_change (filePath : string) (fs : Files) (d : Daemon) : Daemon * res Empty_set unit :=
  let '(c, r) := LoadFromPath filePath fs Conf_New in
  let d := mkDaemon c (dm_core d) (dm_nodes d) (dm_world d) in
  match r with
  | Panic x => (d, Panic x)
  | _ => reload d
  end.

(** [serverHandle] up to the watcher: the daemon, or why the program ends. *)
Definition serverHandle (filePath : string) (fs : Files) (reg : registry) (panel : P) (machine : M)
    : res string Daemon :=
  let '(c, r) := LoadFromPath filePath fs Conf_New in
  _ ← r;
  vc ← NewCore cores (cf_CoresConfig c);
  let w := mkWorld vc (mkRegistry (reg_heap reg) Limiter_Init) panel machine in
  let '(nodes, w, r) := start_service c vc [] w in
  _ ← r;
  mret (mkDaemon c true nodes w).
End daemon.

(** * Lemmas *)
Lemma watch_event_accepted t e pre :
  watch_event (Some t) e = (pre, true) → pre = Some (ev_time e) ∧ (t + 10 * second ≤ ev_time e)%Z.
Proof.
  unfold watch_event. destruct (ev_Chmod e); [done|]. case_decide; [done|]. intros [= <-]. split; [done|lia].
Qed.

Lemma watch_event_refused pre e pre' : watch_event pre e = (pre', false) → pre' = pre.
Proof.
  unfold watch_event. destruct (ev_Chmod e); [by intros [= <-]|]. destruct pre; [|done].
  case_decide; [by intros [= <-]|done].
Qed.

Lemma watch_loop_after t es : Forall (λ b, t + 10 * second ≤ b)%Z (watch_loop (Some t) es).
Proof.
  revert t. induction es as [|e es IH]; intros t; cbn [watch_loop]; [done|].
  destruct (watch_event (Some t) e) as [pre []] eqn:He.
  - apply watch_event_accepted in He as [-> He]. constructor; [done|].
    eapply Forall_impl; [apply IH|]. cbn. unfold second in *. lia.
  - apply watch_event_refused in He as ->. apply IH.
Qed.

(** * Properties *)

Lemma watch_paths_spec `{Fsnotify} l :
  let '(paths, r) := watch_paths l in
  let wanted := filter (λ p, p ≠ "") l.*1 in
  (is_ok r = true ↔ Forall (λ p, watcher_Add p = None) wanted) ∧
  (is_ok r = true → paths = wanted) ∧ Forall (λ p, watcher_Add p = None) paths.
Proof.
  induction l as [|[path what] l IH]; [done|]. simpl. rewrite filter_cons.
  destruct (decide (path = "")) as [Hp|Hp].
  { rewrite decide_False by tauto. exact IH. }
  rewrite decide_True by done. destruct (watcher_Add path) as [e|] eqn:He.
  { split; [split; [done|intros [? _]%Forall_cons; congruence]|]. by split. }
  destruct (watch_paths l) as [paths r]. destruct IH as (H1 & H2 & H3).
  split; [|split].
  - rewrite H1, Forall_cons. tauto.
  - intros Hr. by rewrite H2.
  - by constructor.
Qed.

(** Watching succeeds exactly when every path that is given can be watched, and
    then all of them are; the configuration file is watched also when the DNS
    files cannot be. *)
Theorem Watch_exact `{Fsnotify} filePath xDnsPath sDnsPath :
  let '(paths, r) := Watch filePath xDnsPath sDnsPath in
  let dns := filter (λ p, p ≠ "") [xDnsPath; sDnsPath] in
  (is_ok r = true ↔ NewWatcher = None ∧ Forall (λ p, watcher_Add p = None) (filePath :: dns)) ∧
  (is_ok r = true → paths = filePath :: dns) ∧
  (NewWatcher = None → watcher_Add filePath = None → filePath ∈ paths) ∧
  Forall (λ p, watcher_Add p = None) paths.
Proof.
  unfold Watch. destruct NewWatcher as [e|].
  { split; [split; [done|by intros [? _]]|]. split; [done|]. by split. }
  destruct (watcher_Add filePath) as [e|] eqn:Hf.
  { split; [split; [done|intros [_ [? _]%Forall_cons]; congruence]|]. split; [done|]. by split. }
  pose proof (watch_paths_spec [(xDnsPath, "watch dns file error: "); (sDnsPath, "watch dns file error: ")]) as H1.
  destruct (watch_paths _) as [paths r]. destruct H1 as (H1 & H2 & H3).
  change (([_; _] : list (string * string)).*1) with [xDnsPath; sDnsPath] in H1, H2.
  split; [|split; [|split]].
  - rewrite H1, Forall_cons. tauto.
  - intros Hr. by rewrite H2.
  - intros _ _. by left.
  - by constructor.
Qed.


(** Reloads are at least ten seconds apart, whatever events arrive; so a reload
    has five seconds, after it has read the file, before the next one reads it. *)
Theorem reloads_spaced es : StronglySorted (λ a b, (a + 10 * second ≤ b)%Z) (watch_loop None es).
Proof.
  assert (∀ pre, StronglySorted (λ a b, (a + 10 * second ≤ b)%Z) (watch_loop pre es)) as H; [|apply H].
  induction es as [|e es IH]; intros pre; cbn [watch_loop]; [constructor|].
  destruct (watch_event pre e) as [pre' []] eqn:He; [|apply IH].
  constructor; [apply IH|].
  assert (pre' = Some (ev_time e)) as ->; [|apply watch_loop_after].
  revert He. unfold watch_event. destruct (ev_Chmod e); [done|].
  destruct pre; [case_decide; [done|]|]; by intros [= <-].
Qed.

(** A change made after the file was read and within ten seconds of the one that
    started the reload is not read. *)
Lemma late_change_lost t t2 es :
  (read_time t < t2 < t + 10 * second)%Z →
  watch_loop None (mkEvent false t :: mkEvent false t2 :: es) = watch_loop None (mkEvent false t :: es).
Proof.
  intros Ht. cbn [watch_loop watch_event ev_Chmod ev_time]. rewrite decide_True by lia. done.
Qed.

(** No configuration can be read at all: the file is missing, cannot be read, or
    is not JSON. *)
Definition loads_nothing `{ConfFiles} (filePath : string) (fs : Files) : Prop :=
  match os_Open filePath fs with
  | Ok f => match prep f with Ok data => json_Valid data = false | Err _ => True | Panic _ => False end
  | Err _ => True
  | Panic _ => False
  end.

Lemma LoadFromPath_nothing `{ConfLaws} filePath fs p :
  loads_nothing filePath fs → ∃ e, LoadFromPath filePath fs p = (p, Err e).
Proof.
  unfold loads_nothing, LoadFromPath. destruct (os_Open filePath fs) as [f|e|x]; [|by eexists|done]. simpl.
  destruct (prep f) as [data|e|x]; [|by eexists|done]. simpl. intros Hv.
  destruct (unmarshal_invalid data p Hv) as [e ->]. by eexists.
Qed.

Section daemon_properties.
#[local] Set Default Proof Using "Type*".
Context {C P : Type} `{CO : CoreOps C} `{PO : PanelOps P} `{CD : ConfDecoder} `{CF : ConfFiles} `{CL : !ConfLaws}.
Context `{RL : RatelimitLib} `{RE : RegexpLib} `{RO : RangeOrder} `{AL : AcmeLib} `{MJ : MetaJson}.
Context (cores : gmap string (CoreConfig → res string C)).

(** C39: the watcher reloads although the new configuration could not be loaded.
    The daemon's nodes and core, when they close without error, are closed all
    the same.  If no configuration can be read at all (the file is missing,
    unreadable or not JSON), or the part that was filled in makes no core, none
    takes their place, without any error, and the next change that is taken up,
    even to a correct file, dereferences the missing core.  If the file is JSON
    that fails later (a value of a wrong type, an include that cannot be read)
    and its cores can be made, the service restarts on as much of it as was
    filled in. *)
Theorem broken_file_ends_service filePath fs (d : Daemon (C:=C) (P:=P)) c e w :
  LoadFromPath filePath fs Conf_New = (c, Err e) →
  dm_core d = true → Node_Close (dm_nodes d) (dm_world d) = (w, Ok tt) →
  (core_Close (w_core w)).2 = Ok tt →
  let '(d1, r1) := on_change cores filePath fs d in
  match NewCore cores (cf_CoresConfig c) with
  | Err _ =>
      r1 = Ok tt ∧ dm_nodes d1 = [] ∧ dm_core d1 = false ∧
      ∀ filePath' fs', ∃ why, (on_change cores filePath' fs' d1).2 = Panic why
  | Ok vc =>
      (d1, r1) = let '(nodes, w', r') := start_service c vc [] (with_core (core_Close (w_core w)).1 w) in
                 (mkDaemon c true nodes w', logged r')
  | Panic x => r1 = Panic x
  end ∧
  (loads_nothing filePath fs → NewCore cores (cf_CoresConfig c) = Err "no have vail core").
Proof.
  intros Hl Hv Hn Hk. unfold on_change at 1. rewrite Hl.
  unfold reload; cbn [dm_nodes dm_world dm_core dm_conf]. rewrite Hn, Hv.
  cbn [negb]; destruct (core_Close (w_core w)) as [vc k]; cbn [fst snd] in *; subst k.
  assert (loads_nothing filePath fs → NewCore cores (cf_CoresConfig c) = Err "no have vail core") as Hnone.
  { intros (e' & He)%(LoadFromPath_nothing _ _ Conf_New). rewrite Hl in He. by injection He as -> _. }
  destruct (NewCore cores (cf_CoresConfig c)) as [vc'|e'|x]; [|split; [|done]..]; [| |done].
  - destruct (start_service c vc' [] (with_core vc w)) as [[nodes w'] r'] eqn:Hst. by split.
  - split_and!; [done..|]. intros filePath' fs'.
    unfold on_change. destruct (LoadFromPath filePath' fs' Conf_New) as [c' [[]|e''|x]]; [..|by eexists];
      unfold reload; cbn; by eexists.
Qed.
End daemon_properties.

(** * Witness: an empty daemon over cores that are numbers *)
#[local] Existing Instance canonical_order.
#[local] Existing Instance wit_ratelimit.
#[local] Existing Instance wit_regexp.
#[local] Existing Instance wit_machine.
#[local] Existing Instance wit_crypto.
#[local] Existing Instance wit_acme.
#[local] Existing Instance wit_metajson.
#[local] Existing Instance Selector.wit_decoder.

#[local] Instance wit_files : ConfFiles := {|
  Files := bool;
  os_Open := λ _ ok, if ok : bool then Ok (Ok []) else Err "no such file";
  unmarshal_Conf := λ _ c, (c, None);
  json_Valid := λ _, true;
|}.
Definition wit_broken : Files := false.
Definition wit_correct : Files := true.
Definition wit_daemon : Daemon (C:=SpecCore) (P:=WitPanel) :=
  mkDaemon Conf_New true [] (mkWorld (OneCore ∅) (mkRegistry ∅ ∅) (mkWitPanel [] []) ∅).

#[local] Instance wit_files_laws : ConfLaws.
Proof. by split. Qed.

Lemma broken_file_ends_service_witness :
  let d1 := (on_change ∅ "config.json" wit_broken wit_daemon).1 in
  ∃ why, (on_change ∅ "config.json" wit_correct d1).2 = Panic why.
Proof.
  pose proof (broken_file_ends_service ∅ "config.json" wit_broken wit_daemon Conf_New
    "open config file error: no such file" (dm_world wit_daemon) eq_refl eq_refl eq_refl eq_refl) as H.
  destruct (on_change ∅ "config.json" wit_broken wit_daemon) as [d1 r1]. destruct H as [(_ & _ & _ & Hnext) _].
  apply Hnext.
Defined.
