(* ===== verification/Commands.v ===== *)
(** src/cmd: the commands other than [server] (Daemon.v): the service under
    systemd, uninstalling, the clock, and key pairs; with the helpers of
    src/common/exec and src/common/systime.

    The machine is a state; running programs, deleting files, the terminal's
    input, NTP, the clock and the curve are the parameters [System].  What a
    command prints is the list of its lines, in order; their texts are given in
    English.  Cobra, which parses the command line, is a parameter that chooses
    from the registered commands. *)

From S2P Require Import Prelude GoStd Lower Clock Keys.
From stdpp Require Import prelude strings list.
From Stdlib Require Import Ascii ZArith Lia.

Open Scope string_scope.

(** The error of a program that was run: it was not found, or it failed. *)
Inductive exec_error : Type :=
| ErrNotFound
| ExitError (e : string).

Definition exec_text (e : exec_error) : string :=
  match e with ErrNotFound => "executable file not found in $PATH" | ExitError e => e end.

(** What the binary was built for. *)
Inductive goos : Type := Linux | Darwin | Windows | OtherOS.

Class System := {
  W : Type;
  GOOS : goos;
  CombinedOutput : string → list string → W → W * (string * option exec_error);
  cmd_Run : string → list string → W → W;       (* on the terminal; the error is dropped *)
  Sleep : Z → W → W;
  RemoveAll : string → W → W;
  fmt_Scan : W → W * option string;             (* nothing at the end of the input *)
  ntp_Time : string → W → W * (string + Time);
  Timeval : Type;
  NsecToTimeval : Z → Timeval;
  Settimeofday : Timeval → W → W * option string;
  kernel32_SetSystemTime : Systemtime → W → W * option string;   (* the error that Call returns *)
  rand_Read32 : W → W * (string + list Z);
  X25519_Basepoint : list Z → string + list Z;
}.

(** ** common.go: coloured lines *)
Inductive line : Type :=
| ErrLine (msg : string)
| OkLine (msg : string)
| WarnLine (msg : string)
| Line (msg : string).

#[global] Instance line_eq_dec : EqDecision line.
Proof. solve_decision. Defined.

Definition ESC : string := String "027" "".
Definition red : string := ESC +:+ "[0;31m".
Definition green : string := ESC +:+ "[0;32m".
Definition yellow : string := ESC +:+ "[0;33m".
Definition plain : string := ESC +:+ "[0m".

Definition print_line (l : line) : string :=
  match l with
  | ErrLine msg => red +:+ msg +:+ plain
  | OkLine msg => green +:+ msg +:+ plain
  | WarnLine msg => yellow +:+ msg +:+ plain
  | Line msg => msg
  end.

Section commands.
Context `{System} `{KeyLib}.

(** ** common/exec *)
Definition RunCommandByShell (cmd : string) (w : W) : W * (string * option exec_error) :=
  let '(w, (out, err)) := CombinedOutput "bash" ["-c"; cmd] w in
  match err with
  | Some ErrNotFound => CombinedOutput "sh" ["-c"; cmd] w
  | _ => (w, (out, err))
  end.

Definition RunCommandStd (name : string) (args : list string) (w : W) : W := cmd_Run name args w.

(** ** common/systime: time_unix.go, time_windows.go, time_stub.go *)
Definition SetSystemTime_unix (nowTime : Time) (w : W) : W * option string :=
  Settimeofday (NsecToTimeval (wrap64 (t_nanos nowTime))) w.

Definition SetSystemTime_windows (nowTime : Time) (w : W) : W * option string :=
  let '(w, err) := kernel32_SetSystemTime (systemtime nowTime) w in
  (w, match err with
      | Some e => if String.eqb e "The operation completed successfully." then None else Some e
      | None => None
      end).

Definition SetSystemTime (nowTime : Time) (w : W) : W * option string :=
  match GOOS with
  | Linux | Darwin => SetSystemTime_unix nowTime w
  | Windows => SetSystemTime_windows nowTime w
  | OtherOS => (w, Some "invalid argument")
  end.

(** ** common.go, action_linux.go *)
Definition checkRunning (w : W) : W * (exec_error + bool) :=
  let '(w, (o, err)) := RunCommandByShell "systemctl status V2bZ | grep Active" w in
  (w, match err with Some e => inl e | None => inr (Contains o "running") end).

Definition Second : Z := 1000000000.
Definition status_failed (e : exec_error) : line := ErrLine ("cannot check the status: " +:+ exec_text e).
Definition may_have_failed : line := ErrLine "V2bZ may have failed to start; see V2bZ log".
Definition started : line := OkLine "V2bZ started".
Definition stopped : line := OkLine "V2bZ stopped".
Definition restarted : line := OkLine "V2bZ restarted".

(** The second check goes on after an error, with the service taken as down. *)
Definition startHandle (w : W) : W * list line :=
  let failed := ErrLine "V2bZ failed to start" in
  match checkRunning w with
  | (w, inr r) =>
      let out := if r : bool then [OkLine "V2bZ is running; choose restart if needed"] else [] in
      match RunCommandByShell "systemctl start V2bZ.service" w with
      | (w, (_, Some e)) => (w, out ++ [ErrLine ("cannot run the start command: " +:+ exec_text e); failed])%list
      | (w, (_, None)) =>
          match checkRunning (Sleep (3 * Second) w) with
          | (w, inr true) => (w, out ++ [started])%list
          | (w, inr false) => (w, out ++ [may_have_failed])%list
          | (w, inl e) => (w, out ++ [status_failed e; failed; may_have_failed])%list
          end
      end
  | (w, inl e) => (w, [status_failed e; failed])
  end.

Definition stopHandle (w : W) : W * list line :=
  let failed := ErrLine "V2bZ failed to stop" in
  match RunCommandByShell "systemctl stop V2bZ.service" w with
  | (w, (_, Some e)) => (w, [ErrLine ("cannot run the stop command: " +:+ exec_text e); failed])
  | (w, (_, None)) =>
      match checkRunning (Sleep (2 * Second) w) with
      | (w, inr true) => (w, [ErrLine "V2bZ failed to stop within two seconds"])
      | (w, inr false) => (w, [stopped])
      | (w, inl e) => (w, [status_failed e; failed])
      end
  end.

Definition restartHandle (w : W) : W * list line :=
  let failed := ErrLine "V2bZ failed to restart" in
  match RunCommandByShell "systemctl restart V2bZ.service" w with
  | (w, (_, Some e)) => (w, [ErrLine ("cannot run the restart command: " +:+ exec_text e); failed])
  | (w, (_, None)) =>
      match checkRunning w with
      | (w, inr true) => (w, [restarted])
      | (w, inr false) => (w, [may_have_failed])
      | (w, inl e) => (w, [status_failed e; failed])
      end
  end.

Definition logHandle (w : W) : W :=
  RunCommandStd "journalctl" ["-u"; "V2bZ.service"; "-e"; "--no-pager"; "-f"] w.

(** ** install_linux.go *)
Definition updateHandle (targetVersion : string) (w : W) : W :=
  RunCommandStd "bash"
    ["<(curl -Ls https://raw.githubusercontent.com/kutycma/V2bZ-script/master/install.sh)"; targetVersion] w.

(** [fmt.Scan] leaves the variable as it was when there is nothing to read. *)
Definition Scan (old : string) (w : W) : W * string := let '(w, r) := fmt_Scan w in (w, default old r).

Definition installed_paths : list string :=
  ["/etc/systemd/system/V2bZ.service"; "/etc/V2bZ/"; "/usr/local/V2bZ/"; "/bin/V2bZ"].

Definition uninstallHandle (w : W) : W * list line :=
  let failed := ErrLine "V2bZ was not uninstalled" in
  let '(w, yes) := Scan "" w in
  let out := (WarnLine "Uninstall V2bZ? (Y/n)" ::
              if String.eqb (ToLower yes) "y" then [] else [Line "cancelled"]) in
  match RunCommandByShell "systemctl stop V2bZ&&systemctl disable V2bZ" w with
  | (w, (_, Some e)) => (w, out ++ [ErrLine ("cannot run the command: " +:+ exec_text e); failed])%list
  | (w, (_, None)) =>
      let w := foldl (λ w p, RemoveAll p w) w installed_paths in
      match RunCommandByShell "systemctl daemon-reload&&systemctl reset-failed" w with
      | (w, (_, Some e)) => (w, out ++ [ErrLine ("cannot run the command: " +:+ exec_text e); failed])%list
      | (w, (_, None)) => (w, out ++ [OkLine "V2bZ uninstalled"])%list
      end
  end.

(** ** synctime.go *)
Definition synctimeHandle (ntpServer : string) (w : W) : W * list line :=
  let failed := ErrLine "the time was not set" in
  match ntp_Time ntpServer w with
  | (w, inr t) =>
      match SetSystemTime t w with
      | (w, Some e) => (w, [ErrLine ("cannot set the time: " +:+ e); failed])
      | (w, None) => (w, [OkLine "the time was set"])
      end
  | (w, inl e) => (w, [ErrLine ("cannot get the time: " +:+ e); failed])
  end.

(** ** x25519.go; the prompts are left out *)

(** base64.RawURLEncoding: another alphabet, and no padding. *)
Fixpoint raw_url (s : string) : string :=
  match s with
  | EmptyString => ""
  | String a s =>
      if decide (a = PAD) then raw_url s
      else String (if decide (a = "+"%char) then "-" else if decide (a = "/"%char) then "_" else a) (raw_url s)
  end.

Definition bytes_string (bs : list Z) : string := String.string_of_list_ascii (byte_chr <$> bs).
Definition RawURLEncode (bs : list Z) : string := raw_url (base64_Encode (bytes_string bs)).

(** The private key: of the node's data, or random. *)
Definition x25519_private (w : W) : W * (string + list Z) :=
  let '(w, yes) := Scan "" w in
  if String.eqb (ToLower yes) "y" then
    let '(w, id) := Scan "" w in
    let '(w, type) := Scan id w in
    let '(w, token) := Scan type w in
    (w, inr (GenX25519Private (id +:+ ToLower type +:+ token)))
  else
    let '(w, r) := rand_Read32 w in
    (w, match r with inl e => inl ("cannot read random bytes: " +:+ e) | inr k => inr k end).

Definition executeX25519 (w : W) : W * line :=
  let '(w, r) := x25519_private w in
  (w,
   match r with
   | inr privateKey =>
       match X25519_Basepoint privateKey with
       | inr publicKey => Line ("Private key: " +:+ RawURLEncode privateKey +:+ String NL
                                 ("Public key: " +:+ RawURLEncode publicKey))
       | inl e => ErrLine ("cannot make the X25519 key: " +:+ e)
       end
   | inl e => ErrLine e
   end).
End commands.

(** * Properties *)
Section properties.
Context `{SY : System} `{KL : KeyLib}.

(** A line that is in a list of other lines. *)
Ltac in_lines H := rewrite ?elem_of_app, ?elem_of_cons, ?elem_of_nil in H; intuition discriminate.

(** A command reports success only when the last thing it did was to look at the
    service and find it as it should be: running after a start or restart, not
    running after a stop. *)
Theorem service_commands_truthful w :
  let '(ws, out_start) := startHandle w in
  let '(wt, out_stop) := stopHandle w in
  let '(wr, out_restart) := restartHandle w in
  (started ∈ out_start → ∃ w1, checkRunning w1 = (ws, inr true)) ∧
  (stopped ∈ out_stop → ∃ w1, checkRunning w1 = (wt, inr false)) ∧
  (restarted ∈ out_restart → ∃ w1, checkRunning w1 = (wr, inr true)).
Proof.
  destruct (startHandle w) as [ws o1] eqn:H1, (stopHandle w) as [wt o2] eqn:H2,
    (restartHandle w) as [wr o3] eqn:H3.
  unfold startHandle, stopHandle, restartHandle in *.
  split_and!; intros Hin; [clear H2 H3|clear H1 H3|clear H1 H2]; repeat case_match; simplify_eq;
    first [by eexists|exfalso; by in_lines Hin].
Qed.

(** The question before uninstalling has no effect.  Whatever is answered, the
    same commands are run and the same files deleted; when they succeed, a
    refusal is answered by both "cancelled" and "uninstalled". *)
Theorem uninstall_ignores_answer w1 w2 :
  (fmt_Scan w1).1 = (fmt_Scan w2).1 →
  (uninstallHandle w1).1 = (uninstallHandle w2).1 ∧
  (ToLower (Scan "" w1).2 ≠ "y" → Line "cancelled" ∈ (uninstallHandle w1).2) ∧
  (OkLine "V2bZ uninstalled" ∈ (uninstallHandle w1).2 ↔ OkLine "V2bZ uninstalled" ∈ (uninstallHandle w2).2).
Proof.
  unfold uninstallHandle, Scan. destruct (fmt_Scan w1) as [w a1], (fmt_Scan w2) as [w' a2].
  intros Hw. cbn [fst] in Hw. subst w'. cbn [snd].
  destruct (RunCommandByShell _ w) as [w3 [? [e|]]];
    [|destruct (RunCommandByShell _ (foldl _ _ _)) as [w4 [? [e|]]]]; cbn [fst snd].
  all: split_and!; [done|intros ->%String.eqb_neq; rewrite ?elem_of_app, ?elem_of_cons; tauto|].
  all: destruct (_ =? _), (_ =? _); split; intros Hin; rewrite ?elem_of_app, ?elem_of_cons, ?elem_of_nil in *;
    intuition discriminate.
Qed.

(** A key pair that is derived is a function of the node's id, type and token,
    the type in any case, and nothing random. *)
Theorem x25519_derived w w1 w2 w3 w4 yes id type token :
  fmt_Scan w = (w1, Some yes) → ToLower yes = "y" →
  fmt_Scan w1 = (w2, Some id) → fmt_Scan w2 = (w3, Some type) → fmt_Scan w3 = (w4, Some token) →
  x25519_private w = (w4, inr (GenX25519Private (id +:+ ToLower type +:+ token))).
Proof.
  intros Hs Hy H1 H2 H3. unfold x25519_private, Scan. rewrite Hs. cbn -[String.append ToLower String.eqb GenX25519Private].
  by rewrite Hy, H1, H2, H3.
Qed.
End properties.
