(* ===== verification/Serve.v ===== *)
(** src/cmd/server.go from the first line to the last, with src/cmd/version.go,
    cmd.go and src/main.go: the log is set up, the service started (Daemon), the
    changes of the configuration file taken up one after the other until a
    signal ends the process, and the deferred [Close] runs; and the table of
    commands from which cobra chooses.

    [defer vc.Close()] takes the core that [vc] holds when the statement runs;
    after a reload that core is no longer the one in the world, and the model
    keeps it apart ([sv_first]). *)

From S2P Require Import Prelude GoStd Clock Conf Panel Counter Limiter Json5 Core Selector Lego Cert Keys.
From S2P Require Import Controller Daemon Commands.
From stdpp Require Import prelude gmap strings.
From Stdlib Require Import ZArith Lia.

Open Scope string_scope.

(** * The log *)
Inductive level : Type := DebugLevel | InfoLevel | WarnLevel | ErrorLevel.

(** Where the log goes.  [os.OpenFile] returns a nil file with its error, and
    nothing can be written to that. *)
Inductive output : Type := Stderr | LogFile (path : string) | NilFile.

Record logger := mkLogger { lg_Level : level; lg_Out : output }.
Definition logger_default : logger := mkLogger InfoLevel Stderr.

(** The [switch] on the level: an unknown one changes nothing. *)
Definition set_level (l : string) (lg : logger) : logger :=
  if String.eqb l "debug" then mkLogger DebugLevel (lg_Out lg)
  else if String.eqb l "info" then mkLogger InfoLevel (lg_Out lg)
  else if String.eqb l "warn" then mkLogger WarnLevel (lg_Out lg)
  else if String.eqb l "error" then mkLogger ErrorLevel (lg_Out lg)
  else lg.

Section log.
Variable OpenFile : string → option string.    (* the error of opening a file to append to *)

Definition set_output (path : string) (lg : logger) : logger :=
  if decide (path = "") then lg
  else mkLogger (lg_Level lg) (match OpenFile path with None => LogFile path | Some _ => NilFile end).

Definition setup_log (c : LogConfig) (lg : logger) : logger :=
  set_output (log_Output c) (set_level (log_Level c) lg).
End log.

(** * serverHandle *)
Section serve.
Context {C P : Type} `{CO : CoreOps C} `{PO : PanelOps P} `{CD : ConfDecoder} `{CF : ConfFiles}.
Context `{RL : RatelimitLib} `{RE : RegexpLib} `{RO : RangeOrder} `{AL : AcmeLib} `{MJ : MetaJson}.
Context `{FN : Fsnotify}.
Context (cores : gmap string (CoreConfig → res string C)) (OpenFile : string → option string).
Abbreviation Core := (AnyCore C).
Abbreviation World := (World (C := Core) (P := P)).
Abbreviation Daemon := (Daemon (C := C) (P := P)).
Implicit Types (w : World) (d : Daemon).

(** The running server: [sv_first] is the core that [defer] took, once [vc] is
    another one. *)
Record Server := mkServer { sv_daemon : Daemon; sv_first : option Core }.

(** The core that a reload closes before it makes a new one. *)
Definition replaced_core d : option Core :=
  match Node_Close (dm_nodes d) (dm_world d) with
  | (w, Ok _) =>
      if dm_core d then
        match core_Close (w_core w) with (vc, Ok _) => Some vc | _ => None end
      else None
  | _ => None
  end.

Definition serve_change (filePath : string) (fs : Files) (s : Server) : Server * res Empty_set unit :=
  let first := match sv_first s with Some c => Some c | None => replaced_core (sv_daemon s) end in
  let '(d, r) := on_change cores filePath fs (sv_daemon s) in
  (mkServer d first, r).

(** The changes that the watcher takes up before the signal. *)
Fixpoint serve_changes (filePath : string) (changes : list Files) (s : Server) : Server * res Empty_set unit :=
  match changes with
  | [] => (s, Ok tt)
  | fs :: changes =>
      match serve_change filePath fs s with
      | (s, Ok _) => serve_changes filePath changes s
      | (s, r) => (s, r)
      end
  end.

(** [defer vc.Close()]; its error is dropped. *)
Definition deferred_Close (first : option Core) w : World * res Empty_set unit :=
  match first with
  | Some vc => (w, logged (core_Close vc).2)
  | None => let '(vc, r) := core_Close (w_core w) in (Daemon.with_core vc w, logged r)
  end.

(** How the command ended: where the log goes, the world once there is a core,
    and whether it returned. *)
Record ended := mkEnded { en_log : logger; en_world : option World; en_result : res Empty_set unit }.

Definition end_with (lg : logger) (first : option Core) w (r : res Empty_set unit) : ended :=
  match r with
  | Panic x => mkEnded lg (Some w) (Panic x)
  | _ => let '(w, r) := deferred_Close first w in mkEnded lg (Some w) r
  end.

(** A panic of the nodes unwinds through the deferred call; one of the
    watcher's callback, in its own goroutine, does not. *)
Definition end_start (lg : logger) w (r : res string unit) : ended :=
  match r with
  | Panic x => mkEnded lg (Some (deferred_Close None w).1) (Panic x)
  | r => end_with lg None w (logged r)
  end.

(** The environment holds the paths of the DNS files. *)
Record env := mkEnv { XRAY_DNS_PATH : string; SING_DNS_PATH : string }.

(** From the statement after [defer] to the signal. *)
Definition run_nodes (watch : bool) (filePath : string) (e : env) (changes : list Files)
    (c : Conf) (lg : logger) w : ended :=
  let '(nodes, w, r) := Node_Start (cf_NodeConfig c) w in
  match r with
  | Ok _ =>
      if watch then
        match (Watch filePath (XRAY_DNS_PATH e) (SING_DNS_PATH e)).2 with
        | Ok _ =>
            let '(s, r) := serve_changes filePath changes (mkServer (mkDaemon c true nodes w) None) in
            end_with lg (sv_first s) (dm_world (sv_daemon s)) r
        | r => end_with lg None w (logged r)
        end
      else end_with lg None w (Ok tt)
  | r => end_start lg w r
  end.

(** [fs] is the file when the service starts, [changes] what the accepted
    changes find; without the watcher none is. *)
Definition serve (watch : bool) (filePath : string) (e : env) (fs : Files) (changes : list Files)
    (reg : registry) (panel : P) (machine : M) : ended :=
  let '(c, r) := LoadFromPath filePath fs Conf_New in
  match r with
  | Ok _ =>
      let lg := setup_log OpenFile (cf_LogConfig c) logger_default in
      match NewCore cores (cf_CoresConfig c) with
      | Ok vc =>
          let '(vc, r) := core_Start vc in
          let w := mkWorld vc (mkRegistry (reg_heap reg) Limiter_Init) panel machine in
          match r with
          | Ok _ => run_nodes watch filePath e changes c lg w
          | r => mkEnded lg (Some w) (logged r)
          end
      | r => mkEnded lg None (logged r)
      end
  | r => mkEnded logger_default None (logged r)
  end.
End serve.

(** * version.go, cmd.go *)
Definition codename : string := "V2bZ".
Definition version : string := "TempVersion".
Definition intro : string := "a V2board backend on several cores".
Definition banner : list string :=
  [" ";
   "  _/      _/    _/_/    _/        _/      _/   ";
   " _/      _/  _/    _/  _/_/_/      _/  _/      ";
   "_/      _/      _/    _/    _/      _/         ";
   " _/  _/      _/      _/    _/    _/  _/        ";
   "  _/      _/_/_/_/  _/_/_/    _/      _/        ";
   "                                                "].
Definition showVersion : list line :=
  (Line <$> banner) ++ [Line (codename +:+ " " +:+ version +:+ " (" +:+ intro +:+ ") ")].

Inductive command : Type :=
| StartCmd | StopCmd | RestartCmd | LogCmd | UpdateCmd | UninstallCmd
| ServerCmd | SyncTimeCmd | VersionCmd | X25519Cmd.

(** The calls of [AddCommand] in the order of the files; those of
    action_linux.go and install_linux.go are in the binary for Linux only. *)
Definition commands (os : goos) : list (string * command) :=
  match os with
  | Linux => [("start", StartCmd); ("stop", StopCmd); ("restart", RestartCmd); ("log", LogCmd);
              ("update", UpdateCmd); ("uninstall", UninstallCmd)]
  | _ => []
  end ++ [("server", ServerCmd); ("synctime", SyncTimeCmd); ("version", VersionCmd); ("x25519", X25519Cmd)].

Record flags := mkFlags { fl_config : string; fl_watch : bool; fl_server : string; fl_version : string }.
Definition flags_default : flags := mkFlags "/etc/V2bZ/config.json" true "time.apple.com" "".

(** Cobra parses the command line into one of the registered commands, or none
    (help), and the values of the flags, given their defaults. *)
Class Cobra := {
  cobra_parse : list (string * command) → flags → list string → string + option (command * flags);
  cobra_registered : ∀ table fl args c fl',
    cobra_parse table fl args = inr (Some (c, fl')) → c ∈ table.*2;
}.

Section run.
Context `{SY : System} `{KL : KeyLib} `{CB : Cobra}.
(** The server command, as the machine sees it. *)
Context (server : string → bool → W → W * list line).

Definition run_command (c : command) (fl : flags) (w : W) : W * list line :=
  match c with
  | StartCmd => startHandle w
  | StopCmd => stopHandle w
  | RestartCmd => restartHandle w
  | LogCmd => (logHandle w, [])
  | UpdateCmd => (updateHandle (fl_version fl) w, [])
  | UninstallCmd => uninstallHandle w
  | ServerCmd => let '(w, out) := server (fl_config fl) (fl_watch fl) w in (w, showVersion ++ out)%list
  | SyncTimeCmd => synctimeHandle (fl_server fl) w
  | VersionCmd => (w, showVersion)
  | X25519Cmd => let '(w, l) := executeX25519 w in (w, [l])
  end.

(** [Run]; an error of the command line is logged. *)
Definition Run (args : list string) (w : W) : W * list line :=
  match cobra_parse (commands GOOS) flags_default args with
  | inl e => (w, [ErrLine ("Execute command failed: " +:+ e)])
  | inr None => (w, [])
  | inr (Some (c, fl)) => run_command c fl w
  end.

(** A binary for another system than Linux never touches the service: whatever
    is typed, it serves, sets the clock, prints its version or makes keys. *)
Theorem service_commands_linux_only args w :
  GOOS ≠ Linux →
  ∃ e fl, Run args w ∈ [(w, []); (w, [ErrLine ("Execute command failed: " +:+ e)]);
    run_command ServerCmd fl w; run_command SyncTimeCmd fl w; (w, showVersion); run_command X25519Cmd fl w].
Proof.
  intros Hos. unfold Run. destruct (cobra_parse _ _ _) as [e|[[c fl]|]] eqn:Hp.
  - exists e, flags_default. set_solver.
  - exists "", fl. apply cobra_registered in Hp.
    assert (c ∈ [ServerCmd; SyncTimeCmd; VersionCmd; X25519Cmd]) as Hc by (by destruct GOOS).
    set_unfold. destruct Hc as [->|[->|[->|[->|[]]]]]; tauto.
  - exists "", flags_default. set_solver.
Qed.
End run.

(** * Properties of the server *)
Section properties.
Context {C P : Type} `{CO : CoreOps C} `{PO : PanelOps P} `{CD : ConfDecoder} `{CF : ConfFiles}.
Context `{RL : RatelimitLib} `{RE : RegexpLib} `{RO : RangeOrder} `{AL : AcmeLib} `{MJ : MetaJson}.
Context `{FN : Fsnotify}.
Context (cores : gmap string (CoreConfig → res string C)) (OpenFile : string → option string).
Abbreviation World := (World (C := AnyCore C) (P := P)).
Abbreviation Daemon := (Daemon (C := C) (P := P)).
Abbreviation Server := (Server (C := C) (P := P)).
Implicit Types (w : World) (d : Daemon) (s : Server).

(** A log file that cannot be opened silences the log: the output is the nil
    file, and not the standard output that the message promises. *)
Theorem unopened_log_lost c e :
  log_Output c ≠ "" → OpenFile (log_Output c) = Some e →
  lg_Out (setup_log OpenFile c logger_default) = NilFile.
Proof. intros Hp Ho. unfold setup_log, set_output. rewrite decide_False by done. by rewrite Ho. Qed.

(** A service that starts is the daemon of [serverHandle]; without the watcher it
    runs until the signal closes its core. *)
Lemma serve_unwatched filePath e fs changes reg panel machine d :
  serverHandle cores filePath fs reg panel machine = Ok d →
  serve cores OpenFile false filePath e fs changes reg panel machine =
    end_with (setup_log OpenFile (cf_LogConfig (dm_conf d)) logger_default) None (dm_world d) (Ok tt).
Proof.
  unfold serverHandle, serve, run_nodes, start_service.
  destruct (LoadFromPath _ _ _) as [c [[]|err|x]]; cbn [mbind res_bind]; [|done..].
  destruct (NewCore _ _) as [vc|err|x]; cbn [mbind res_bind w_core]; [|done..].
  destruct (core_Start vc) as [vc1 [[]|err|x]]; [|done..].
  unfold Daemon.with_core. cbn [w_reg w_panel w_machine].
  destruct (Node_Start _ _) as [[nodes w1] [[]|err|x]]; cbn [mbind res_bind]; [|done..].
  by intros [= <-].
Qed.

(** ** What the deferred call closes *)
Lemma serve_changes_first filePath changes s vc s' r :
  sv_first s = Some vc → serve_changes cores filePath changes s = (s', r) → sv_first s' = Some vc.
Proof.
  revert s. induction changes as [|fs changes IH]; intros s Hf; cbn [serve_changes]; [by intros [= <- _]|].
  unfold serve_change. rewrite Hf. destruct (on_change _ _ _ _) as [d [[]|[]|x]].
  - by apply IH.
  - by intros [= <- _].
Qed.

(** At the signal the deferred call closes the core that the service was
    started with.  Without a change of the configuration that is the running
    one.  Once a reload has replaced it, the first core is closed a second time,
    and the core that runs is left as it is. *)
Theorem exit_closes_first_core filePath e fs changes c lg w nodes w1 vc (s : Server) :
  Node_Start (cf_NodeConfig c) w = (nodes, w1, Ok tt) →
  (Watch filePath (XRAY_DNS_PATH e) (SING_DNS_PATH e)).2 = Ok tt →
  replaced_core (mkDaemon c true nodes w1) = Some vc →
  serve_changes cores filePath (fs :: changes) (mkServer (mkDaemon c true nodes w1) None) = (s, Ok tt) →
  run_nodes cores true filePath e [] c lg w =
    mkEnded lg (Some (Daemon.with_core (core_Close (w_core w1)).1 w1)) (logged (core_Close (w_core w1)).2) ∧
  run_nodes cores true filePath e (fs :: changes) c lg w =
    mkEnded lg (Some (dm_world (sv_daemon s))) (logged (core_Close vc).2).
Proof.
  intros Hs Hw Hvc Hc. unfold run_nodes. rewrite Hs, Hw. split.
  - cbn [serve_changes sv_first sv_daemon dm_world]. unfold end_with, deferred_Close.
    by destruct (core_Close (w_core w1)) as [vc1 r].
  - rewrite Hc. cbn [end_with]. assert (sv_first s = Some vc) as ->; [|done].
    cbn [serve_changes] in Hc. unfold serve_change in Hc. cbn [sv_first sv_daemon] in Hc. rewrite Hvc in Hc.
    destruct (on_change _ _ _ _) as [d [[]|[]|x]]; [|done].
    exact (serve_changes_first filePath changes (mkServer d (Some vc)) vc s _ eq_refl Hc).
Qed.

(** ** A reload that failed

    It leaves no core, or nodes that were not made. *)
Definition crippled d : Prop := dm_core d = false ∨ None ∈ dm_nodes d.

Lemma reload_without_core d d' : reload cores d = (d', Ok tt) → dm_core d' = false → dm_nodes d' = [].
Proof.
  unfold reload. destruct (Node_Close _ _) as [w [[]|[]|x]]; [|done].
  destruct (dm_core d); cbn [negb]; [|done].
  destruct (core_Close (w_core w)) as [vc [[]|e|x]]; [|by intros [= <-]|done].
  destruct (NewCore cores _) as [vc'|e|x]; [|by intros [= <-]|done].
  by destruct (start_service _ _ _ _) as [[nodes w'] r]; intros [= <- _].
Qed.

Lemma on_change_reload filePath fs d :
  (∃ x, (on_change cores filePath fs d).2 = Panic x) ∨
  ∃ c, on_change cores filePath fs d = reload cores (mkDaemon c (dm_core d) (dm_nodes d) (dm_world d)).
Proof.
  unfold on_change. destruct (LoadFromPath filePath fs Conf_New) as [c [[]|e|x]];
    [right; by exists c..|left; by exists x].
Qed.

(** The next change of the configuration, whatever it is, ends the process. *)
Lemma crippled_panics filePath fs d :
  (dm_core d = false → dm_nodes d = []) → crippled d →
  ∃ why, (on_change cores filePath fs d).2 = Panic why.
Proof.
  intros Hn Hc. destruct (on_change_reload filePath fs d) as [Hp|[c ->]]; [done|].
  unfold reload. cbn [dm_nodes dm_world dm_core dm_conf]. destruct Hc as [Hc|Hc].
  - rewrite (Hn Hc), Hc. by eexists.
  - destruct (Node_Close_unmade (dm_nodes d) (dm_world d) Hc) as [x Hx].
    destruct (Node_Close _ _) as [w r]. cbn [snd] in Hx. subst r. by exists x.
Qed.

(** A reload that was taken up and failed is only logged, but it is fatal: when
    it has left no core, or nodes that were not made, then the next change that
    the watcher takes up ends the process, whatever the file says by then. *)
Theorem failed_reload_fatal filePath fs s s' :
  serve_change cores filePath fs s = (s', Ok tt) → crippled (sv_daemon s') →
  ∀ fs' changes, ∃ why, (serve_changes cores filePath (fs' :: changes) s').2 = Panic why.
Proof.
  unfold serve_change. destruct (on_change cores filePath fs (sv_daemon s)) as [d r] eqn:Ho.
  intros [= <- ->] Hc fs' changes. cbn [sv_daemon] in Hc.
  assert (dm_core d = false → dm_nodes d = []) as Hn.
  { destruct (on_change_reload filePath fs (sv_daemon s)) as [[x Hx]|[c Hr]]; rewrite Ho in *; [done|].
    by eapply reload_without_core. }
  destruct (crippled_panics filePath fs' d Hn Hc) as [why Hw]. exists why.
  cbn [serve_changes]. unfold serve_change. cbn [sv_daemon sv_first].
  destruct (on_change cores filePath fs' d) as [d2 r2]. cbn [snd] in Hw. by subst r2.
Qed.
End properties.

(** * Witnesses: the empty daemon of Daemon.v, files that are always correct *)
#[local] Existing Instance canonical_order.
#[local] Existing Instance wit_ratelimit.
#[local] Existing Instance wit_regexp.
#[local] Existing Instance wit_machine.
#[local] Existing Instance wit_crypto.
#[local] Existing Instance wit_acme.
#[local] Existing Instance wit_metajson.
#[local] Existing Instance Selector.wit_decoder.
#[local] Existing Instance Daemon.wit_files.
#[local] Instance wit_fsnotify : Fsnotify := {| NewWatcher := None; watcher_Add := λ _, None |}.

Lemma unopened_log_lost_witness :
  lg_Out (setup_log (λ _, Some "permission denied") (mkLogConfig "warn" "/var/log/v2bz") logger_default) = NilFile.
Proof. by apply (unopened_log_lost _ _ "permission denied"). Defined.

(** The first core has a node; the reload leaves none, and another core. *)
Definition wit_server_world : World (C := AnyCore SpecCore) (P := WitPanel) :=
  mkWorld (OneCore {["n" := ∅]}) (mkRegistry ∅ ∅) (mkWitPanel [] []) ∅.

Lemma exit_closes_first_core_witness :
  en_world (run_nodes ∅ true "config.json" (mkEnv "" "") [wit_correct] Conf_New logger_default wit_server_world)
    = Some (dm_world (sv_daemon (serve_changes ∅ "config.json" [wit_correct]
                                   (mkServer (mkDaemon Conf_New true [] wit_server_world) None)).1)).
Proof.
  rewrite (proj2 (exit_closes_first_core (FN := wit_fsnotify) ∅ "config.json" (mkEnv "" "") wit_correct [] Conf_New logger_default
    wit_server_world [] wit_server_world _ _ eq_refl ltac:(vm_compute; reflexivity) eq_refl eq_refl)).
  reflexivity.
Defined.

Lemma failed_reload_fatal_witness :
  ∃ why, (serve_changes ∅ "config.json" [wit_correct; wit_correct] (mkServer wit_daemon None)).2 = Panic why.
Proof.
  exact (failed_reload_fatal ∅ "config.json" wit_correct (mkServer wit_daemon None) _ eq_refl
    (or_introl eq_refl) wit_correct []).
Defined.
